(* ===== verification/_CoqProject ===== *)
-Q . S2P
Prelude.v
Vlib.v
ValidateLoop.v
Ip4Validate.v
Ip6Validate.v
Feature.v
IpValidateCtl.v
SonicExt.v
SonicCapture.v
SonicAggr.v
SonicGlean.v
SonicNodes.v
SonicTotals.v
SonicCtl.v
SonicPath.v
SonicCli.v
TuntermRedirect.v
TuntermApi.v
TuntermNode.v
TuntermDecap.v
TuntermSystem.v
TuntermFib.v
TuntermRobust.v
TuntermCli.v
TuntermPath.v
NodeGraph.v
Traces.v
ValidatePath.v
