(* ===== verification/Prelude.v ===== *)
(** * Verification of the VPP plugins of sonic-platform-vpp

    sonic-platform-vpp runs SONiC on the VPP data plane.  Its own code in C are
    three VPP plugins under src/vppbld/plugins, each a few graph nodes (functions
    that treat a frame of packet buffers and hand every packet to a next node) and
    a small control plane that enables them:

    - ip_validate drops IPv4 and IPv6 packets with invalid addresses on every
      interface;
    - sonic_ext brings packets for the CPU to the Linux tap of the port they came
      in on: sonic-ext-capture stamps a cookie (ingress interface and VLAN tag)
      into the buffer, sonic-ext-aggr-tap-redirect and sonic-ext-glean-redirect
      use it to rewind the packet to its wire form and to send it to that tap,
      sonic-ext-host-xc takes the way back, sonic-ext-l2-trap-fixup and
      sonic-ext-ip2me prepare trapped and local L2 frames;
    - tunterm_acl redirects VXLAN packets by their inner destination before they
      are decapsulated: tunterm-ip4-vxlan-bypass finds packets of local tunnels,
      tunterm-acl looks their inner destination up in a classifier table that the
      API programs.

    ** Files

    - [Prelude] (this file): C integers with their wrap-around ([u8] ... [i32]),
      byte order ([load], [store], [net_to_host]), packet memory ([rd], [wr_bytes]),
      the tactics [widths], [zsolve], [breflect], [by_compute] and the hint
      database [vpp].
    - [Vlib]: the packet buffer [vlib_buffer_t], what all nodes use of VPP (class
      [Vlib]), and the dispatch loop of a node: [frame_loop] runs a per-packet body
      over a frame and keeps the local counters, traces and next indices.
    - [ValidateLoop], [Ip4Validate], [Ip6Validate]: ip4_validate_node.c and
      ip6_validate_node.c.  [Feature]: VPP's feature arcs (class [VnetFeature]).
      [IpValidateCtl]: ip_validate.c.
    - [SonicExt]: sonic_ext.h and the helpers of sonic_ext.c.  [SonicCapture],
      [SonicAggr], [SonicGlean], [SonicNodes] (Modules HostXc, L2TrapFixup, Ip2me):
      the nodes.  [SonicCtl]: the switches, linux-cp callbacks, API and commands
      (sonic_ext.c, sonic_ext_api.c, cli.c) with the transition relation
      [ctl_step].
    - [SonicTotals]: the summary counters over any sequence of node calls and [show
      sonic-ext] (cli.c).
    - [SonicPath]: a packet on its way through the nodes of sonic_ext and VPP
      ([path_step]) while the control plane moves, and a punt with the kernel's reply.
      [SonicCli]: the registered commands, and sessions of them.
    - [TuntermRedirect]: tunterm_acl_redirect.c over VPP's classifier (class
      [Classify]) and FIB (class [Fib]).  [TuntermApi]: tunterm_acl_api.c.
      [TuntermNode]: tunterm_acl_node.c.  [TuntermDecap]: tunterm_acl_decap.c.
    - [TuntermSystem]: the whole of tunterm_acl as a system of events (API messages
      and FIB changes) with an abstract configuration as its specification.
      [TuntermFib]: the virtual functions by which the FIB reaches a session.
      [TuntermRobust]: the same system when VPP's classifier and feature calls may fail.
      [TuntermCli]: the show command of tunterm_acl_cli.c against that configuration.
      [TuntermPath]: a frame through both nodes, under any history of events.
    - [NodeGraph]: the node and feature registrations and error tables of all node
      files, and what holds of every node alike.  [Traces]: the trace formatters.
      [ValidatePath]: ip_validate's callback, the unicast arcs and the two filters
      together, and the VXLAN bypass on the same arc.

    ** Conventions

    Definitions have the names of the functions they translate.  A node function
    [x_node] is [frame_loop] over a body [x_one], which is the source's loop body;
    the loops of ip_validate and of the VXLAN bypass, which treat several packets
    at a time, are written out and proved equal to the plain loop.  Errors are the
    enum values as [nat]; a counter is incremented by [o_err].  The global state
    of sonic_ext and the state of a throttle or a cache are passed explicitly.
    What a C vector access beyond its length does is not defined: such a handler
    returns [None].  VPP is not part of the repository: the calls into it are
    fields of classes ([Vlib], [VnetFeature], [Classify], [ClassifyLookup], [Fib],
    [FibApi], [Throttle], [Vxlan], [IpHeaders]) or of records of functions
    ([vnet_env], [glean_env], [ip_env], [fib_env]) with their documented behaviour
    as laws, and every class has a reference instance on which the theorems are
    run ([..._witness]).  All theorems hold for hosts of either byte order.

    ** What is shown

    - Filters: [ip4_validate_x1_filters] and [ip6_validate_x1_filters] give the
      verdict on the octets of the wire; [..._node_unrolled] and
      [..._node_accounts] lift it to frames.  [ip_validate_every_interface] and
      [ip_validate_handler_atomic] are about where the filters are on;
      [lookup_only_validated] puts it together: on every interface that exists, what
      reaches the route lookups is what the filters permit.  The VXLAN bypass may come
      before the filter, and then tunnel packets are not filtered
      ([bypass_precedes_validation]).
    - Punt path: in the deployed configuration a frame punted through an aggregate
      arrives at Linux on the tap of its member port as it was on the wire, and the
      reply leaves on that port ([punt_and_reply]); through any history a packet is
      redirected at most once, to the tap of its own port ([punt_redirected_once]).
      Below that, capture followed by the redirect restores the wire frame
      ([redirect_restores_wire_frame], [redirect_leaves_frame],
      [redirect_loses_outer_tag]); the decisions of every node are characterised
      ([aggr_tap_redirect_decides], [glean_redirect_decides],
      [host_xc_returns_to_port], [l2_trap_fixup_parent], [ip2me_bypass_iff]); redirects
      of drops are rate limited, the first one passes, and only neighbour-resolution
      drops are taken ([glean_redirect_rate_limit], [glean_redirect_first_passes],
      [glean_redirect_only_nbr_drops]).
    - Control plane of sonic_ext: the features are on exactly where the linux-cp pairs
      ask for them and by the switches that were ever turned on
      ([sonic_ext_features_wired]); after the init function, while interfaces come, go
      and change ([sonic_ext_deployed]), as long as none changes between an aggregate
      and a member while it has a pair ([lcp_pair_reclassified]).  A pair that comes
      and goes leaves nothing behind ([lcp_pair_add_del_roundtrip]).  The console moves
      the plugin by the same steps ([cli_session_refines]), [ip2me_handler] is the API.
      These theorems are for feature calls that succeed: the plugin ignores their result.
    - Counters: [show sonic-ext] prints the sums of what the nodes counted
      ([show_sonic_ext_counts]).
    - Tunnel termination: after any history of FIB changes and of API messages that
      name existing ACLs ([history_ok] asks nothing but this of the clients and back
      walks of the FIB), with a classifier and feature calls that succeed, no handler
      leaves the bounds of a vector, and the replies and the state are those of an
      abstract map from ACLs to next hops and from interfaces to ACLs
      ([tunterm_refines]); the data path forwards by that map and the FIB of the
      moment, node by node
      ([tunterm_history_forwards]) and from the arc to the next hop
      ([tunterm_end_to_end]).  When VPP refuses tables, sessions or features, the
      structures stay consistent and the data path within bounds and on live tables
      ([tunterm_survives]).  The show command prints the map
      ([show_tunterm_interfaces]).  Below that, the pool, hash, FIB
      children and classifier sessions stay in step
      ([tunterm_add_replace_programs], [redirect_add_del_roundtrip]), and back walks
      reach the sessions that registered ([vft_walk_fib_walk]).  The bypass
      node finds the packets of local tunnels, however VPP divides the frame, and
      returns ([bypass_node_refines], [bypass_schedule_free], [bypass_terminates]).
    - All nodes: next indexes and counters are registered ones
      ([nodes_in_bounds]), trace texts tell what was done ([traces_truthful]).
    - Defects: [tunterm_index_unchecked], [redirect_add_failure_sticks],
      [sonic_ext_init_order], [lcp_pair_reclassified], [ip_options_evade],
      [deleted_acl_accepted], [bypass_precedes_validation].

    ** Bounds and fuel

    Frames are lists of distinct buffer indices with fewer than [2 ^ 32] elements
    (VPP's are at most 256), so the [u32] counters do not wrap.  The loops are
    structural recursions; only the outer loop of the VXLAN bypass has fuel, the
    frame length, which suffices because every round treats a packet when VPP's
    next frame has room.

    ** Not modelled

    VPP's message id tables and the bodies of its formatters; the patches to VPP;
    the Python, shell and packaging parts of the repository.  Concurrency of the
    workers: nodes run one after the other, and control-plane changes happen between
    node calls, as under VPP's worker barrier.  The path lists of VPP's FIB are a pure
    function of the paths ([fib_path_list_create]); VPP allocates or shares them. *)

From stdpp Require Export base list list_numbers numbers gmap fin_maps strings.
From Stdlib Require Export ZArith Lia.

#[global] Set Default Goal Selector "!".
#[global] Open Scope Z_scope.

(** ** Machine integers

    An integer of C width [w] is a [Z]; the casts and the wrap-around of the
    source are written out with the functions below. *)

Definition u8 (x : Z) : Z := x mod 2 ^ 8.
Definition u16 (x : Z) : Z := x mod 2 ^ 16.
Definition u32 (x : Z) : Z := x mod 2 ^ 32.
Definition u64 (x : Z) : Z := x mod 2 ^ 64.
Definition i16 (x : Z) : Z := (x + 2 ^ 15) mod 2 ^ 16 - 2 ^ 15.
Definition i32 (x : Z) : Z := (x + 2 ^ 31) mod 2 ^ 32 - 2 ^ 31.

(** [~0] stored in a [u32]: the invalid index of every VPP table. *)
Definition U32_MAX : Z := 0xFFFFFFFF.

Definition is_u8 (x : Z) : Prop := 0 <= x < 2 ^ 8.
Definition is_u16 (x : Z) : Prop := 0 <= x < 2 ^ 16.
Definition is_u32 (x : Z) : Prop := 0 <= x < 2 ^ 32.
Definition is_u64 (x : Z) : Prop := 0 <= x < 2 ^ 64.
Definition is_i16 (x : Z) : Prop := - 2 ^ 15 <= x < 2 ^ 15.

(** C truth of an integer: [if (x)], [!x], [x != 0]. *)
Definition c_true (x : Z) : bool := negb (x =? 0).

(** ** Byte order

    [endian] is the byte order of the host the code is compiled for: a multi-byte load of
    header memory depends on it, and [clib_net_to_host_u16/u32/u64] (the C library's
    [ntohs]/[ntohl]) undo it.  Every theorem holds for both orders. *)

Inductive endian := LE | BE.

Fixpoint le_decode (bs : list Z) : Z :=
  match bs with
  | [] => 0
  | b :: bs' => b + 2 ^ 8 * le_decode bs'
  end.

Definition be_decode (bs : list Z) : Z := le_decode (reverse bs).

Fixpoint le_encode (n : nat) (v : Z) : list Z :=
  match n with
  | O => []
  | S n' => v mod 2 ^ 8 :: le_encode n' (v / 2 ^ 8)
  end.

(** A load of [length bs] bytes of memory as an unsigned integer. *)
Definition load (e : endian) (bs : list Z) : Z :=
  match e with LE => le_decode bs | BE => be_decode bs end.

(** The memory representation of an [n]-byte unsigned integer. *)
Definition store (e : endian) (n : nat) (v : Z) : list Z :=
  match e with LE => le_encode n v | BE => reverse (le_encode n v) end.

Definition bswap (n : nat) (v : Z) : Z := be_decode (le_encode n v).

(** [clib_net_to_host_uN] and [clib_host_to_net_uN], [N = 8 * n]. *)
Definition net_to_host (e : endian) (n : nat) (v : Z) : Z :=
  match e with LE => bswap n v | BE => v end.

(** ** Memory

    The bytes of one packet buffer, by their offset from [b->data]; the
    headroom before [b->data] has negative offsets.  [rd] reads a byte,
    [rd_bytes] a run of them, [wr_bytes] is [memcpy] into the buffer. *)

Abbreviation mem := (gmap Z Z).

Definition rd (m : mem) (k : Z) : Z := default 0 (m !! k).

Fixpoint rd_bytes (m : mem) (k : Z) (n : nat) : list Z :=
  match n with
  | O => []
  | S n' => rd m k :: rd_bytes m (k + 1) n'
  end.

Fixpoint wr_bytes (m : mem) (k : Z) (bs : list Z) : mem :=
  match bs with
  | [] => m
  | b :: bs' => wr_bytes (<[k := b]> m) (k + 1) bs'
  end.

Definition bytes_ok (bs : list Z) : Prop := Forall is_u8 bs.
Definition mem_ok (m : mem) : Prop := forall k, is_u8 (rd m k).

#[export] Instance is_u8_dec x : Decision (is_u8 x).
Proof. unfold is_u8. apply _. Defined.
#[export] Instance is_u16_dec x : Decision (is_u16 x).
Proof. unfold is_u16. apply _. Defined.
#[export] Instance is_u32_dec x : Decision (is_u32 x).
Proof. unfold is_u32. apply _. Defined.
#[export] Instance is_i16_dec x : Decision (is_i16 x).
Proof. unfold is_i16. apply _. Defined.
#[export] Instance bytes_ok_dec bs : Decision (bytes_ok bs).
Proof. unfold bytes_ok. apply _. Defined.

(** ** Automation *)

Create HintDb vpp.

(** Bounds of the fixed-width types, made visible to [lia]. *)
Ltac widths :=
  unfold is_u8, is_u16, is_u32, is_u64, is_i16, U32_MAX in *;
  change (2 ^ 8) with 256 in *; change (2 ^ 16) with 65536 in *;
  change (2 ^ 32) with 4294967296 in *; change (2 ^ 15) with 32768 in *;
  change (2 ^ 31) with 2147483648 in *;
  change (2 ^ 64) with 18446744073709551616 in *.

(** Decidable facts about concrete data. *)
Ltac by_compute := refine (bool_decide_unpack _ _); vm_compute; exact I.

Ltac zsolve := widths; try lia; Z.to_euclidean_division_equations; lia.

(** Case split on the first [if] or [match] of the goal, keeping the equation. *)
Ltac split_if :=
  match goal with
  | |- context [if ?c then _ else _] => destruct c eqn:?
  end.

(** Booleans that came from C comparisons, as propositions over [Z]. *)
Ltac breflect :=
  repeat match goal with
  | H : (_ && _) = true |- _ => apply andb_true_iff in H as [? ?]
  | H : (_ || _) = true |- _ => apply orb_true_iff in H
  | H : (_ || _) = false |- _ => apply orb_false_iff in H as [? ?]
  | H : (_ && _) = false |- _ => apply andb_false_iff in H
  | H : negb _ = true |- _ => apply negb_true_iff in H
  | H : negb _ = false |- _ => apply negb_false_iff in H
  | H : (_ =? _) = true |- _ => apply Z.eqb_eq in H
  | H : (_ =? _) = false |- _ => apply Z.eqb_neq in H
  | H : (_ <? _) = true |- _ => apply Z.ltb_lt in H
  | H : (_ <? _) = false |- _ => apply Z.ltb_ge in H
  | H : (_ <=? _) = true |- _ => apply Z.leb_le in H
  | H : (_ <=? _) = false |- _ => apply Z.leb_gt in H
  end.

(** ** Lemmas on machine integers *)

Lemma u16_id x : is_u16 x -> u16 x = x.
Proof. intros. unfold u16. apply Z.mod_small. zsolve. Qed.

Lemma u32_id x : is_u32 x -> u32 x = x.
Proof. intros. unfold u32. apply Z.mod_small. zsolve. Qed.

Lemma u64_id x : is_u64 x -> u64 x = x.
Proof. intros. unfold u64. apply Z.mod_small. zsolve. Qed.

Lemma i16_id x : is_i16 x -> i16 x = x.
Proof. intros. unfold i16. rewrite Z.mod_small; zsolve. Qed.

Lemma u32_range x : is_u32 (u32 x).
Proof. unfold u32, is_u32. apply Z.mod_pos_bound. lia. Qed.

Lemma u16_range x : is_u16 (u16 x).
Proof. unfold u16, is_u16. apply Z.mod_pos_bound. lia. Qed.

Lemma i16_range x : is_i16 (i16 x).
Proof. unfold i16. zsolve. Qed.

Lemma c_true_iff x : c_true x = true <-> x <> 0.
Proof. unfold c_true. rewrite negb_true_iff, Z.eqb_neq. done. Qed.

Lemma land_odd x : c_true (Z.land x 0x01) = Z.odd x.
Proof.
  change 0x01 with (Z.ones 1). rewrite Z.land_ones by lia. change (2 ^ 1) with 2.
  rewrite Zmod_odd. by destruct (Z.odd x).
Qed.

#[export] Hint Resolve u32_range u16_range i16_range : vpp.

(** ** Lemmas on lists *)

Lemma list_fmap_ext_elem {A B} (f g : A -> B) (l : list A) :
  (forall x, x ∈ l -> f x = g x) -> f <$> l = g <$> l.
Proof.
  intros Hfg. apply list_fmap_ext. intros i x Hx. apply Hfg.
  apply list_elem_of_lookup. eauto.
Qed.

(** ** Lemmas on byte order *)

Lemma le_decode_app bs1 bs2 :
  le_decode (bs1 ++ bs2) = le_decode bs1 + 2 ^ (8 * Z.of_nat (length bs1)) * le_decode bs2.
Proof.
  induction bs1 as [|b bs1 IH]; cbn [app le_decode length].
  - change (2 ^ (8 * Z.of_nat 0)) with 1. lia.
  - rewrite IH, Nat2Z.inj_succ.
    replace (8 * Z.succ (Z.of_nat (length bs1))) with (8 + 8 * Z.of_nat (length bs1)) by lia.
    rewrite Z.pow_add_r by lia. lia.
Qed.

Lemma le_encode_length n v : length (le_encode n v) = n.
Proof. revert v; induction n; cbn; auto. Qed.

Lemma le_encode_bytes n v : bytes_ok (le_encode n v).
Proof.
  revert v; induction n as [|n IH]; intros v; cbn [le_encode]; constructor; [|apply IH].
  apply Z.mod_pos_bound. lia.
Qed.

Lemma le_encode_decode bs : bytes_ok bs -> le_encode (length bs) (le_decode bs) = bs.
Proof.
  induction 1 as [|b bs Hb _ IH]; cbn [length le_encode le_decode]; [done|].
  rewrite (Z.mul_comm (2 ^ 8)), Z.mod_add, Z.div_add, Z.mod_small, Z.div_small by zsolve.
  by rewrite Z.add_0_l, IH.
Qed.

Lemma le_decode_encode n v :
  0 <= v < 2 ^ (8 * Z.of_nat n) -> le_decode (le_encode n v) = v.
Proof.
  revert v; induction n as [|n IH]; intros v Hv; cbn [le_encode le_decode].
  - change (2 ^ (8 * Z.of_nat 0)) with 1 in Hv. lia.
  - rewrite Nat2Z.inj_succ in Hv.
    replace (8 * Z.succ (Z.of_nat n)) with (8 + 8 * Z.of_nat n) in Hv by lia.
    rewrite Z.pow_add_r in Hv by lia.
    rewrite IH; [pose proof (Z.div_mod v (2 ^ 8)); lia|].
    split; [apply Z.div_pos; lia|apply Z.div_lt_upper_bound; lia].
Qed.

Lemma load_range e bs : bytes_ok bs -> 0 <= load e bs < 2 ^ (8 * Z.of_nat (length bs)).
Proof.
  assert (Hle : forall l, bytes_ok l -> 0 <= le_decode l < 2 ^ (8 * Z.of_nat (length l))).
  { induction 1 as [|b l Hb _ IH]; cbn [le_decode length].
    - change (2 ^ (8 * Z.of_nat 0)) with 1. lia.
    - rewrite Nat2Z.inj_succ.
      replace (8 * Z.succ (Z.of_nat (length l))) with (8 + 8 * Z.of_nat (length l)) by lia.
      rewrite Z.pow_add_r by lia. unfold is_u8 in Hb. lia. }
  intros Hbs. destruct e; cbn; [by apply Hle|].
  unfold be_decode. rewrite <- (length_reverse bs). apply Hle. by apply Forall_reverse.
Qed.

(** What the wire says is independent of the host: loading header bytes and
    converting them with [net_to_host] reads them in network order. *)
Lemma net_to_host_load e bs :
  bytes_ok bs -> net_to_host e (length bs) (load e bs) = be_decode bs.
Proof.
  intros Hbs. destruct e; cbn; [|done].
  unfold bswap. by rewrite le_encode_decode.
Qed.

Lemma net_to_host_invol e n v :
  0 <= v < 2 ^ (8 * Z.of_nat n) -> net_to_host e n (net_to_host e n v) = v.
Proof.
  intros Hv. destruct e; cbn; [|done]. unfold bswap, be_decode.
  assert (Hl : length (reverse (le_encode n v)) = n) by (by rewrite length_reverse, le_encode_length).
  rewrite <- Hl at 1. rewrite le_encode_decode by apply Forall_reverse, le_encode_bytes.
  rewrite reverse_involutive. by apply le_decode_encode.
Qed.

Lemma load_inj e bs1 bs2 :
  bytes_ok bs1 -> bytes_ok bs2 -> length bs1 = length bs2 ->
  load e bs1 = load e bs2 -> bs1 = bs2.
Proof.
  assert (Hle : forall l1 l2, bytes_ok l1 -> bytes_ok l2 -> length l1 = length l2 ->
    le_decode l1 = le_decode l2 -> l1 = l2).
  { intros l1 l2 H1 H2 Hlen Heq.
    rewrite <- (le_encode_decode l1), <- (le_encode_decode l2) by done. by rewrite Hlen, Heq. }
  intros H1 H2 Hlen Heq. destruct e; cbn in Heq; [by apply Hle|].
  apply (inj reverse), Hle; unfold bytes_ok; rewrite ?Forall_reverse, ?length_reverse; done.
Qed.

Lemma store_load e bs : bytes_ok bs -> store e (length bs) (load e bs) = bs.
Proof.
  intros H. destruct e; cbn; [by apply le_encode_decode|].
  unfold be_decode. rewrite <- (length_reverse bs), le_encode_decode;
    [apply reverse_involutive|by apply Forall_reverse].
Qed.

Lemma le_decode_zero n : le_decode (replicate n 0) = 0.
Proof. induction n as [|n IH]; cbn [replicate le_decode]; [done|]. rewrite IH. lia. Qed.

(** ** Lemmas on buffer memory *)

Lemma rd_bytes_length m k n : length (rd_bytes m k n) = n.
Proof. revert k; induction n; cbn; auto. Qed.

Lemma rd_bytes_ok m k n : mem_ok m -> bytes_ok (rd_bytes m k n).
Proof. intros Hm. unfold bytes_ok. revert k; induction n; cbn; intros; constructor; auto. Qed.

Lemma rd_bytes_app m k n1 n2 :
  rd_bytes m k (n1 + n2) = rd_bytes m k n1 ++ rd_bytes m (k + Z.of_nat n1) n2.
Proof.
  revert k; induction n1 as [|n1 IH]; intros k; cbn [rd_bytes app Nat.add].
  - f_equal. lia.
  - rewrite IH. do 3 f_equal. lia.
Qed.

Lemma rd_bytes_ext m m' k n :
  (forall i, k <= i < k + Z.of_nat n -> rd m i = rd m' i) -> rd_bytes m k n = rd_bytes m' k n.
Proof.
  revert k; induction n as [|n IH]; intros k H; cbn [rd_bytes]; [done|].
  f_equal; [apply H; lia|apply IH; intros; apply H; lia].
Qed.

Lemma rd_insert m k i b : rd (<[k := b]> m) i = if decide (k = i) then b else rd m i.
Proof. unfold rd. rewrite lookup_insert. by case_decide. Qed.

Lemma rd_wr_outside m k bs i :
  i < k \/ k + Z.of_nat (length bs) <= i -> rd (wr_bytes m k bs) i = rd m i.
Proof.
  revert m k; induction bs as [|b bs IH]; intros m k Hi; cbn [wr_bytes]; [done|].
  cbn [length] in Hi. rewrite IH by lia. rewrite rd_insert, decide_False; [done|lia].
Qed.

Lemma rd_bytes_wr_same m k bs : rd_bytes (wr_bytes m k bs) k (length bs) = bs.
Proof.
  revert m k; induction bs as [|b bs IH]; intros m k; cbn [rd_bytes wr_bytes length]; [done|].
  rewrite IH. f_equal. rewrite rd_wr_outside by lia.
  rewrite rd_insert, decide_True; done.
Qed.

Lemma rd_bytes_wr_outside m k bs k' n :
  k' + Z.of_nat n <= k \/ k + Z.of_nat (length bs) <= k' ->
  rd_bytes (wr_bytes m k bs) k' n = rd_bytes m k' n.
Proof. intros H. apply rd_bytes_ext. intros. apply rd_wr_outside. lia. Qed.

Lemma rd_ext_bytes m k n i :
  (i < n)%nat -> rd_bytes m k n !! i = Some (rd m (k + Z.of_nat i)).
Proof.
  revert k i; induction n as [|n IH]; intros k i Hi; [lia|].
  destruct i as [|i]; cbn [rd_bytes lookup list_lookup].
  - do 2 f_equal. lia.
  - rewrite IH by lia. do 2 f_equal. lia.
Qed.

Lemma mem_ok_empty : mem_ok ∅.
Proof. intros k. unfold rd. rewrite lookup_empty. cbn. zsolve. Qed.

Lemma mem_ok_wr m k bs : mem_ok m -> bytes_ok bs -> mem_ok (wr_bytes m k bs).
Proof.
  intros Hm Hbs. revert m k Hm; induction Hbs as [|b bs Hb _ IH]; intros m k Hm; [done|].
  apply IH. intros i. rewrite rd_insert. by case_decide.
Qed.

#[export] Hint Resolve mem_ok_empty mem_ok_wr : vpp.
#[export] Hint Resolve rd_bytes_ok rd_bytes_length : vpp.
