(* ===== verification/Vlib.v ===== *)
(** * The VPP graph-node environment

    What the plugins use of VPP itself: the packet buffer with the metadata
    fields the plugins touch, the VPP inline functions they call on it (a type
    class: VPP is not part of this repository), and the dispatch loop that
    every node function of the plugins spells out over the buffers of a frame.

    The loop is [frame_loop]: for each buffer index of the frame, in order, the
    body runs on the buffer the index designates, [next[0]] gets its value, the
    local counter of the outcome is incremented, and a trace record is added
    when the node and the buffer are traced.  Buffers live in a store, so a
    frame that names a buffer twice is modelled too. *)

From S2P Require Import Prelude.

(** ** The packet buffer *)

(** The overlay of [vnet_buffer2(b)->unused] the sonic_ext plugin keeps its
    capture cookie in ([STATIC_ASSERT] in sonic_ext.h guarantees it fits). *)
Record sonic_ext_buffer_opaque_t := mkSeb {
  magic : Z;
  orig_rx_sw_if_index : Z;
  orig_vlan_tag : Z
}.

(** [vlib_buffer_t] with the opaque fields the plugins read or write. *)
Record vlib_buffer_t := mkBuffer {
  data : mem;
  current_data : Z;            (* i16 *)
  current_length : Z;          (* u16 *)
  flags : Z;                   (* u32 *)
  error : Z;                   (* vlib_error_t *)
  current_config_index : Z;    (* feature-arc cursor *)
  feature_arc_index : Z;       (* vnet_buffer(b)->feature_arc_index *)
  l2_hdr_offset : Z;           (* vnet_buffer(b)->l2_hdr_offset, i16 *)
  sw_if_index_rx : Z;          (* vnet_buffer(b)->sw_if_index[VLIB_RX] *)
  sw_if_index_tx : Z;          (* vnet_buffer(b)->sw_if_index[VLIB_TX] *)
  adj_index_tx : Z;            (* vnet_buffer(b)->ip.adj_index[VLIB_TX] *)
  seb : sonic_ext_buffer_opaque_t
}.

Definition set_data (m : mem) (b : vlib_buffer_t) : vlib_buffer_t :=
  mkBuffer m (current_data b) (current_length b) (flags b) (error b) (current_config_index b)
    (feature_arc_index b) (l2_hdr_offset b) (sw_if_index_rx b) (sw_if_index_tx b)
    (adj_index_tx b) (seb b).

Definition set_current (cd cl : Z) (b : vlib_buffer_t) : vlib_buffer_t :=
  mkBuffer (data b) cd cl (flags b) (error b) (current_config_index b)
    (feature_arc_index b) (l2_hdr_offset b) (sw_if_index_rx b) (sw_if_index_tx b)
    (adj_index_tx b) (seb b).

Definition set_flags (x : Z) (b : vlib_buffer_t) : vlib_buffer_t :=
  mkBuffer (data b) (current_data b) (current_length b) x (error b) (current_config_index b)
    (feature_arc_index b) (l2_hdr_offset b) (sw_if_index_rx b) (sw_if_index_tx b)
    (adj_index_tx b) (seb b).

Definition set_error (x : Z) (b : vlib_buffer_t) : vlib_buffer_t :=
  mkBuffer (data b) (current_data b) (current_length b) (flags b) x (current_config_index b)
    (feature_arc_index b) (l2_hdr_offset b) (sw_if_index_rx b) (sw_if_index_tx b)
    (adj_index_tx b) (seb b).

Definition set_config_index (x : Z) (b : vlib_buffer_t) : vlib_buffer_t :=
  mkBuffer (data b) (current_data b) (current_length b) (flags b) (error b) x
    (feature_arc_index b) (l2_hdr_offset b) (sw_if_index_rx b) (sw_if_index_tx b)
    (adj_index_tx b) (seb b).

Definition set_l2_hdr_offset (x : Z) (b : vlib_buffer_t) : vlib_buffer_t :=
  mkBuffer (data b) (current_data b) (current_length b) (flags b) (error b)
    (current_config_index b) (feature_arc_index b) x (sw_if_index_rx b) (sw_if_index_tx b)
    (adj_index_tx b) (seb b).

Definition set_rx (x : Z) (b : vlib_buffer_t) : vlib_buffer_t :=
  mkBuffer (data b) (current_data b) (current_length b) (flags b) (error b)
    (current_config_index b) (feature_arc_index b) (l2_hdr_offset b) x (sw_if_index_tx b)
    (adj_index_tx b) (seb b).

Definition set_tx (x : Z) (b : vlib_buffer_t) : vlib_buffer_t :=
  mkBuffer (data b) (current_data b) (current_length b) (flags b) (error b)
    (current_config_index b) (feature_arc_index b) (l2_hdr_offset b) (sw_if_index_rx b) x
    (adj_index_tx b) (seb b).

Definition set_adj_tx (x : Z) (b : vlib_buffer_t) : vlib_buffer_t :=
  mkBuffer (data b) (current_data b) (current_length b) (flags b) (error b)
    (current_config_index b) (feature_arc_index b) (l2_hdr_offset b) (sw_if_index_rx b)
    (sw_if_index_tx b) x (seb b).

Definition set_seb (x : sonic_ext_buffer_opaque_t) (b : vlib_buffer_t) : vlib_buffer_t :=
  mkBuffer (data b) (current_data b) (current_length b) (flags b) (error b)
    (current_config_index b) (feature_arc_index b) (l2_hdr_offset b) (sw_if_index_rx b)
    (sw_if_index_tx b) (adj_index_tx b) x.

(** A buffer with zeroed metadata and no data bytes. *)
Definition null_buffer : vlib_buffer_t :=
  mkBuffer ∅ 0 0 0 0 0 0 0 0 0 0 (mkSeb 0 0 0).

(** Byte [i] of the packet from the current position
    ([vlib_buffer_get_current (b)] read at index [i]), and runs of such bytes. *)
Definition cur_byte (b : vlib_buffer_t) (i : Z) : Z := rd (data b) (current_data b + i).
Definition cur_bytes (b : vlib_buffer_t) (i : Z) (n : nat) : list Z :=
  rd_bytes (data b) (current_data b + i) n.

Definition buffer_ok (b : vlib_buffer_t) : Prop := mem_ok (data b).

(** ** VPP, as far as every node uses it *)

Class Vlib := {
  (** byte order of the host *)
  host : endian;
  (** flag bits *)
  VLIB_BUFFER_IS_TRACED : Z;
  VLIB_NODE_FLAG_TRACE : Z;
  (** [vnet_feature_next]: the next node on the buffer's feature arc and the
      advanced arc cursor, from the arc and the cursor *)
  vnet_feature_next_at : Z -> Z -> Z * Z;
  (** [vlib_buffer_advance (b, l)] moves the current position by the signed
      amount [l] and shortens the buffer by as much *)
  vlib_buffer_advance : vlib_buffer_t -> Z -> vlib_buffer_t;
  vlib_buffer_advance_spec : forall b l,
    vlib_buffer_advance b l =
    set_current (i16 (current_data b + l)) (u16 (current_length b - l)) b;
  (** [ethernet_buffer_get_header (b)], as an offset into the buffer: where
      ethernet-input found the L2 header *)
  ethernet_buffer_get_header : vlib_buffer_t -> Z;
  ethernet_buffer_get_header_spec : forall b, ethernet_buffer_get_header b = l2_hdr_offset b
}.

(** A reference implementation of the interface, for concrete runs: a
    little-endian host, and an arc that hands buffers to node [10 + cursor]. *)
Definition vlib_ref : Vlib := {|
  host := LE;
  VLIB_BUFFER_IS_TRACED := 1;
  VLIB_NODE_FLAG_TRACE := 4;
  vnet_feature_next_at := fun _ ci => (10 + ci, ci + 1);
  vlib_buffer_advance := fun b l =>
    set_current (i16 (current_data b + l)) (u16 (current_length b - l)) b;
  vlib_buffer_advance_spec := fun _ _ => eq_refl;
  ethernet_buffer_get_header := l2_hdr_offset;
  ethernet_buffer_get_header_spec := fun _ => eq_refl
|}.

Definition vnet_feature_next `{Vlib} (b : vlib_buffer_t) : Z * vlib_buffer_t :=
  let '(next, ci) := vnet_feature_next_at (feature_arc_index b) (current_config_index b) in
  (next, set_config_index ci b).

(** [node->flags & VLIB_NODE_FLAG_TRACE], [b->flags & VLIB_BUFFER_IS_TRACED] *)
Definition node_traced `{Vlib} (node_flags : Z) : bool :=
  c_true (Z.land node_flags VLIB_NODE_FLAG_TRACE).
Definition buffer_traced `{Vlib} (b : vlib_buffer_t) : bool :=
  c_true (Z.land (flags b) VLIB_BUFFER_IS_TRACED).

(** ** The dispatch loop of a node *)

(** The buffers a frame's indices designate. *)
Abbreviation buffers := (gmap Z vlib_buffer_t).

Definition getb (st : buffers) (bi : Z) : vlib_buffer_t := default null_buffer (st !! bi).

(** What a node decides about one packet: the rewritten buffer, [next[0]], the
    node counter that is incremented, and the trace record's contents. *)
Record outcome (T : Type) := mkOutcome {
  o_buf : vlib_buffer_t;
  o_next : Z;
  o_err : nat;
  o_trace : T
}.
Arguments mkOutcome {T}.
Arguments o_buf {T}.
Arguments o_next {T}.
Arguments o_err {T}.
Arguments o_trace {T}.

(** The locals of a node function: the [u32] counters (one per error of the
    node, by its enum value), the [nexts] array filled so far, the traces added
    so far, and the state [S] other than buffers the body reads and writes. *)
Record frame_acc (S T : Type) := mkAcc {
  fa_state : S;
  fa_store : buffers;
  fa_nexts : list Z;
  fa_counts : list Z;
  fa_traces : list (Z * T)
}.
Arguments mkAcc {S T}.
Arguments fa_state {S T}.
Arguments fa_store {S T}.
Arguments fa_nexts {S T}.
Arguments fa_counts {S T}.
Arguments fa_traces {S T}.

(** [counts[e]++] on [u32] counters. *)
Definition cnt_inc (counts : list Z) (e : nat) : list Z :=
  alter (fun n => u32 (n + 1)) e counts.

(** [if (counts[e]) vlib_node_increment_counter (vm, node, e, counts[e])] for
    every error [e] in enum order: the calls that are made. *)
Definition flush_counters (counts : list Z) : list (nat * Z) :=
  filter (fun p => c_true (snd p) = true) (imap pair counts).

(** The local counter of error [e] at the end of the loop. *)
Definition count_of {S T} (acc : frame_acc S T) (e : nat) : Z :=
  default 0 (fa_counts acc !! e).

Section Frame.
Context `{Vlib} {S T : Type}.
Variable node_flags : Z.
Variable body : S -> vlib_buffer_t -> S * outcome T.

Definition frame_step (acc : frame_acc S T) (bi : Z) : frame_acc S T :=
  let '(s', o) := body (fa_state acc) (getb (fa_store acc) bi) in
  mkAcc s' (<[bi := o_buf o]> (fa_store acc)) (fa_nexts acc ++ [o_next o])
    (cnt_inc (fa_counts acc) (o_err o))
    (if node_traced node_flags && buffer_traced (o_buf o)
     then fa_traces acc ++ [(bi, o_trace o)] else fa_traces acc).

Definition frame_loop (acc : frame_acc S T) (from : list Z) : frame_acc S T :=
  fold_left frame_step from acc.

(** The outcomes of the packets of a frame, in order. *)
Fixpoint frame_run (s : S) (st : buffers) (from : list Z) : list (outcome T) :=
  match from with
  | [] => []
  | bi :: rest =>
      let '(s', o) := body s (getb st bi) in
      o :: frame_run s' (<[bi := o_buf o]> st) rest
  end.

End Frame.

(** What a node call leaves behind: the buffers, the state, the [(buffer, next)]
    pairs given to [vlib_buffer_enqueue_to_next], the counter increments, the
    traces, and the return value. *)
Record node_result (S T : Type) := mkResult {
  nr_state : S;
  nr_store : buffers;
  nr_enqueued : list (Z * Z);
  nr_counters : list (nat * Z);
  nr_traces : list (Z * T);
  nr_return : Z
}.
Arguments mkResult {S T}.
Arguments nr_state {S T}.
Arguments nr_store {S T}.
Arguments nr_enqueued {S T}.
Arguments nr_counters {S T}.
Arguments nr_traces {S T}.
Arguments nr_return {S T}.

(** The tail of a node function: enqueue, flush the counters, return
    [frame->n_vectors]. *)
Definition frame_finish {S T} (acc : frame_acc S T) (from : list Z) : node_result S T :=
  mkResult (fa_state acc) (fa_store acc) (zip from (fa_nexts acc))
    (flush_counters (fa_counts acc)) (fa_traces acc) (Z.of_nat (length from)).

Definition frame_init {S T} (s : S) (st : buffers) (n_errors : nat) : frame_acc S T :=
  mkAcc s st [] (replicate n_errors 0) [].

(** ** Lemmas *)

Section FrameFacts.
Context `{Vlib} {S T : Type}.
Variable node_flags : Z.
Variable body : S -> vlib_buffer_t -> S * outcome T.
Implicit Types (acc : frame_acc S T) (st : buffers) (s : S).

Lemma frame_loop_app acc l1 l2 :
  frame_loop node_flags body acc (l1 ++ l2) =
  frame_loop node_flags body (frame_loop node_flags body acc l1) l2.
Proof. apply fold_left_app. Qed.

Lemma frame_loop_cons acc bi from :
  frame_loop node_flags body acc (bi :: from) =
  frame_loop node_flags body (frame_step node_flags body acc bi) from.
Proof. done. Qed.

Lemma frame_loop_counts_length acc from :
  length (fa_counts (frame_loop node_flags body acc from)) = length (fa_counts acc).
Proof.
  revert acc; induction from as [|bi from IH]; intros acc; [done|].
  rewrite frame_loop_cons, IH. unfold frame_step. destruct (body _ _). cbn. apply length_alter.
Qed.

Lemma frame_run_length s st from : length (frame_run body s st from) = length from.
Proof.
  revert s st; induction from as [|bi from IH]; intros s st; cbn; [done|].
  destruct (body s (getb st bi)) as [s' o]. cbn. by rewrite IH.
Qed.

(** [nexts] and the counters are determined by the outcomes. *)
Lemma frame_loop_run acc from :
  let outs := frame_run body (fa_state acc) (fa_store acc) from in
  let acc' := frame_loop node_flags body acc from in
  fa_nexts acc' = fa_nexts acc ++ (o_next <$> outs) /\
  fa_counts acc' = fold_left cnt_inc (o_err <$> outs) (fa_counts acc).
Proof.
  revert acc; induction from as [|bi from IH]; intros acc; cbv zeta.
  { cbn. by rewrite app_nil_r. }
  rewrite frame_loop_cons. destruct (IH (frame_step node_flags body acc bi)) as [-> ->].
  unfold frame_step. cbn [frame_run].
  destruct (body (fa_state acc) (getb (fa_store acc) bi)) as [s' o]. cbn.
  by rewrite <- app_assoc.
Qed.

Lemma frame_loop_nexts_length acc from :
  length (fa_nexts (frame_loop node_flags body acc from)) =
  (length (fa_nexts acc) + length from)%nat.
Proof.
  destruct (frame_loop_run acc from) as [-> _].
  by rewrite length_app, length_fmap, frame_run_length.
Qed.

End FrameFacts.

(** *** Counters *)

Lemma cnt_inc_lookup c e e' :
  cnt_inc c e !! e' = (if decide (e = e') then (fun n => u32 (n + 1)) <$> c !! e' else c !! e').
Proof.
  unfold cnt_inc. case_decide as He; [subst; apply list_lookup_alter_eq|].
  by apply list_lookup_alter_ne.
Qed.

Definition occurrences (e : nat) (l : list nat) : Z := Z.of_nat (count_occ Nat.eq_dec l e).

Lemma cnt_fold_lookup errs c e n :
  c !! e = Some n -> 0 <= n -> n + Z.of_nat (length errs) < 2 ^ 32 ->
  fold_left cnt_inc errs c !! e = Some (n + occurrences e errs).
Proof.
  unfold occurrences. revert c n; induction errs as [|e' errs IH]; intros c n Hn H0 Hlt.
  { cbn. rewrite Hn. f_equal. lia. }
  cbn [fold_left length] in *. rewrite Nat2Z.inj_succ in Hlt.
  destruct (Nat.eq_dec e' e) as [->|Hne].
  - rewrite count_occ_cons_eq by done.
    erewrite (IH _ (n + 1)); [f_equal; lia| |lia|lia].
    rewrite cnt_inc_lookup, decide_True, Hn by done. cbn. f_equal. apply u32_id. zsolve.
  - rewrite count_occ_cons_neq by done.
    apply IH; [|lia|lia]. by rewrite cnt_inc_lookup, decide_False.
Qed.

(** Starting from zeroed counters, each counter is the number of packets with
    that outcome: a frame never has enough packets to wrap a [u32]. *)
Lemma cnt_fold_zero errs n e :
  (e < n)%nat -> Z.of_nat (length errs) < 2 ^ 32 ->
  fold_left cnt_inc errs (replicate n 0) !! e = Some (occurrences e errs).
Proof.
  intros He Hlt. rewrite (cnt_fold_lookup _ _ _ 0); [done| |lia|lia].
  by apply lookup_replicate_2.
Qed.

Lemma flush_counters_elem counts e n :
  (e, n) ∈ flush_counters counts <-> counts !! e = Some n /\ n <> 0.
Proof.
  unfold flush_counters. rewrite list_elem_of_filter. cbn.
  rewrite c_true_iff, list_elem_of_lookup. setoid_rewrite list_lookup_imap_Some.
  split.
  - intros [Hn (i & x & Hx & Heq)]. by simplify_eq.
  - intros [Hc Hn]. split; [done|]. eauto.
Qed.

(** The amounts added to the node's counters, together. *)
Definition counters_total (calls : list (nat * Z)) : Z := foldr Z.add 0 (snd <$> calls).

Lemma flush_counters_total counts : counters_total (flush_counters counts) = foldr Z.add 0 counts.
Proof.
  unfold counters_total, flush_counters.
  assert (Hgen : forall (f : nat -> nat), foldr Z.add 0 (snd <$>
      filter (fun p : nat * Z => c_true (snd p) = true) (imap (fun i x => (f i, x)) counts))
    = foldr Z.add 0 counts); [|apply (Hgen id)].
  induction counts as [|c counts IH]; intros f; [done|]. cbn [imap].
  rewrite filter_cons. cbn [snd]. cbn [foldr]. rewrite <- (IH (f ∘ S)).
  case_decide as Hc; [done|]. unfold c_true in Hc.
  destruct (Z.eqb_spec c 0) as [->|]; [cbn|cbn in Hc; congruence].
  by rewrite Z.add_0_l.
Qed.

Lemma cnt_inc_sum c e n :
  c !! e = Some n -> 0 <= n < 2 ^ 32 - 1 ->
  foldr Z.add 0 (cnt_inc c e) = foldr Z.add 0 c + 1.
Proof.
  unfold cnt_inc. revert e; induction c as [|x c IH]; intros e He Hn; [done|].
  destruct e as [|e].
  - cbn in *. simplify_eq. rewrite u32_id by zsolve. lia.
  - cbn in *. change (list_alter (fun n => u32 (n + 1)) e c)
      with (alter (fun n => u32 (n + 1)) e c). rewrite IH by done. lia.
Qed.

Lemma cnt_fold_sum errs c n :
  length c = n -> Forall (fun e => (e < n)%nat) errs ->
  (forall e x, c !! e = Some x -> 0 <= x /\ x + Z.of_nat (length errs) < 2 ^ 32) ->
  foldr Z.add 0 (fold_left cnt_inc errs c) = foldr Z.add 0 c + Z.of_nat (length errs).
Proof.
  revert c; induction errs as [|e errs IH]; intros c Hlen Herrs Hb; cbn [fold_left length].
  { cbn. lia. }
  apply Forall_cons in Herrs as [He Herrs]. rewrite <- Hlen in He.
  destruct (lookup_lt_is_Some_2 c e He) as [x Hx].
  destruct (Hb e x Hx) as [Hx0 Hx1]. cbn [length] in Hx1.
  rewrite IH; [|unfold cnt_inc; by rewrite length_alter|done|].
  - rewrite (cnt_inc_sum c e x) by (done || lia). lia.
  - intros e' x' Hx'. rewrite cnt_inc_lookup in Hx'. case_decide as Heq.
    + subst e'. rewrite Hx in Hx'. cbn in Hx'. simplify_eq.
      rewrite u32_id by (widths; lia). lia.
    + destruct (Hb e' x' Hx') as [? Hlt]. cbn [length] in Hlt. lia.
Qed.

(** Every packet of a frame is accounted for in exactly one counter. *)
Lemma frame_counters_total `{Vlib} {S T} nf (body : S -> vlib_buffer_t -> S * outcome T)
    s st n from :
  Z.of_nat (length from) < 2 ^ 32 ->
  (forall s b, (o_err (snd (body s b)) < n)%nat) ->
  counters_total (flush_counters
    (fa_counts (frame_loop nf body (frame_init s st n) from))) = Z.of_nat (length from).
Proof.
  intros Hlen Hn. rewrite flush_counters_total.
  destruct (frame_loop_run nf body (frame_init s st n) from) as [_ ->]. cbn.
  rewrite (cnt_fold_sum _ _ n).
  - rewrite length_fmap, frame_run_length.
    assert (foldr Z.add 0 (replicate n 0) = 0) as -> by (clear; by induction n). lia.
  - apply length_replicate.
  - apply Forall_fmap. clear Hlen. revert s st; induction from as [|bi from IH]; intros s st; cbn.
    { constructor. }
    specialize (Hn s (getb st bi)). destruct (body s (getb st bi)) as [s' o]. constructor; auto.
  - intros e x Hx. apply lookup_replicate in Hx as [-> _].
    rewrite length_fmap, frame_run_length. lia.
Qed.

(** *** Stateless bodies *)

Section Stateless.
Context `{Vlib} {T : Type}.
Variable f : vlib_buffer_t -> outcome T.

(** A body that keeps no state between packets. *)
Definition stateless (s : unit) (b : vlib_buffer_t) : unit * outcome T := (s, f b).

Lemma getb_insert_ne st bi bj b : bi <> bj -> getb (<[bi := b]> st) bj = getb st bj.
Proof. intros. unfold getb. by rewrite lookup_insert_ne. Qed.

Lemma getb_insert_eq st bi b : getb (<[bi := b]> st) bi = b.
Proof. unfold getb. by rewrite lookup_insert_eq. Qed.

(** On a frame of distinct buffers the packets do not interfere. *)
Lemma frame_run_stateless s st from :
  NoDup from -> frame_run stateless s st from = (fun bi => f (getb st bi)) <$> from.
Proof.
  revert st; induction from as [|bi from IH]; intros st Hnd; [done|].
  apply NoDup_cons in Hnd as [Hbi Hnd]. cbn. f_equal. rewrite IH by done.
  apply list_fmap_ext. intros i bj Hbj. rewrite getb_insert_ne; [done|].
  intros ->. apply Hbi. apply list_elem_of_lookup. eauto.
Qed.

Lemma frame_loop_store_other nf acc from bi :
  bi ∉ from ->
  getb (fa_store (frame_loop nf stateless acc from)) bi = getb (fa_store acc) bi.
Proof.
  revert acc; induction from as [|bj from IH]; intros acc Hbi; [done|].
  apply not_elem_of_cons in Hbi as [Hne Hbi]. rewrite frame_loop_cons, IH by done.
  cbn. by apply getb_insert_ne.
Qed.

Lemma frame_loop_store nf acc from bi :
  NoDup from -> bi ∈ from ->
  getb (fa_store (frame_loop nf stateless acc from)) bi = o_buf (f (getb (fa_store acc) bi)).
Proof.
  revert acc; induction from as [|bj from IH]; intros acc Hnd Hbi; [by apply elem_of_nil in Hbi|].
  apply NoDup_cons in Hnd as [Hbj Hnd]. rewrite frame_loop_cons.
  apply elem_of_cons in Hbi as [->|Hbi].
  - rewrite frame_loop_store_other by done. cbn. apply getb_insert_eq.
  - rewrite IH by done. cbn. rewrite getb_insert_ne; [done|]. intros ->. done.
Qed.

(** The whole node call on a frame of distinct buffers. *)
Lemma stateless_node_enqueued nf st n from :
  NoDup from ->
  nr_enqueued (frame_finish (frame_loop nf stateless (frame_init tt st n) from) from) =
  (fun bi => (bi, o_next (f (getb st bi)))) <$> from.
Proof.
  intros Hnd. cbn.
  destruct (frame_loop_run nf stateless (frame_init tt st n) from) as [-> _]. cbn.
  rewrite frame_run_stateless by done. rewrite <- list_fmap_compose.
  clear Hnd. induction from as [|bi from IH]; cbn; [done|]. by f_equal.
Qed.

Lemma stateless_node_counter nf st n from e :
  NoDup from -> (e < n)%nat -> Z.of_nat (length from) < 2 ^ 32 ->
  fa_counts (frame_loop nf stateless (frame_init tt st n) from) !! e =
  Some (occurrences e ((fun bi => o_err (f (getb st bi))) <$> from)).
Proof.
  intros Hnd He Hlen.
  destruct (frame_loop_run nf stateless (frame_init tt st n) from) as [_ ->]. cbn.
  rewrite frame_run_stateless, <- list_fmap_compose by done.
  apply cnt_fold_zero; [done|]. by rewrite length_fmap.
Qed.

Lemma stateless_count_of nf st n from e :
  NoDup from -> (e < n)%nat -> Z.of_nat (length from) < 2 ^ 32 ->
  count_of (frame_loop nf stateless (frame_init tt st n) from) e =
  occurrences e ((fun bi => o_err (f (getb st bi))) <$> from).
Proof. intros. unfold count_of. by rewrite stateless_node_counter. Qed.

End Stateless.
