(* ===== verification/ValidateLoop.v ===== *)
(** * The dispatch loops of the ip-validate nodes

    ip4_validate_node.c and ip6_validate_node.c spell out the same two loops
    around their per-packet check: a loop that handles four buffers at a time
    (four checks, then four traces) and a loop for the rest.  The section is
    parametric in the check [x1] and in the contents [record] of the trace, and
    shows that the two loops do what the plain per-packet loop of [Vlib] does. *)

From S2P Require Import Prelude Vlib.

Section Loops.
Context `{Vlib} {T : Type}.
Variable x1 : vlib_buffer_t -> nat * Z * vlib_buffer_t.
Variable record : vlib_buffer_t -> Z -> T.

Abbreviation acc_t := (frame_acc unit T).

(** [error_counts[ipX_validate_x1 (b[0], &next[0])]++]; also gives back the
    value stored in [next[0]]. *)
Definition x1_step (acc : acc_t) (bi : Z) : acc_t * Z :=
  let '(e, next, b) := x1 (getb (fa_store acc) bi) in
  (mkAcc (fa_state acc) (<[bi := b]> (fa_store acc)) (fa_nexts acc ++ [next])
     (cnt_inc (fa_counts acc) e) (fa_traces acc), next).

(** [ipX_validate_trace_one] *)
Definition validate_trace_one (acc : acc_t) (bi next : Z) : acc_t :=
  let b := getb (fa_store acc) bi in
  if buffer_traced b then
    mkAcc (fa_state acc) (fa_store acc) (fa_nexts acc) (fa_counts acc)
      (fa_traces acc ++ [(bi, record b next)])
  else acc.

(** One iteration of the four-at-a-time loop. *)
Definition validate_quad (node_flags : Z) (acc : acc_t) (b0 b1 b2 b3 : Z) : acc_t :=
  let '(acc, n0) := x1_step acc b0 in
  let '(acc, n1) := x1_step acc b1 in
  let '(acc, n2) := x1_step acc b2 in
  let '(acc, n3) := x1_step acc b3 in
  if node_traced node_flags then
    let acc := validate_trace_one acc b0 n0 in
    let acc := validate_trace_one acc b1 n1 in
    let acc := validate_trace_one acc b2 n2 in
    validate_trace_one acc b3 n3
  else acc.

(** [while (n_left_from >= 4)]; the buffers left over go to the next loop. *)
Fixpoint validate_quad_loop (node_flags : Z) (acc : acc_t) (from : list Z)
  : acc_t * list Z :=
  match from with
  | b0 :: b1 :: b2 :: b3 :: rest =>
      validate_quad_loop node_flags (validate_quad node_flags acc b0 b1 b2 b3) rest
  | _ => (acc, from)
  end.

(** [while (n_left_from)]: one buffer, its trace inlined. *)
Fixpoint validate_single_loop (node_flags : Z) (acc : acc_t) (from : list Z) : acc_t :=
  match from with
  | [] => acc
  | bi :: rest =>
      let '(acc1, n0) := x1_step acc bi in
      let b := getb (fa_store acc1) bi in
      let acc2 :=
        if node_traced node_flags && buffer_traced b then
          mkAcc (fa_state acc1) (fa_store acc1) (fa_nexts acc1) (fa_counts acc1)
            (fa_traces acc1 ++ [(bi, record b n0)])
        else acc1 in
      validate_single_loop node_flags acc2 rest
  end.

Definition validate_node (prefetches8 : bool) (node_flags : Z) (n_error : nat)
    (st : buffers) (from : list Z) : node_result unit T :=
  let acc0 := frame_init tt st n_error in
  let '(acc1, rest) :=
    if prefetches8 then validate_quad_loop node_flags acc0 from else (acc0, from) in
  let acc2 := validate_single_loop node_flags acc1 rest in
  frame_finish acc2 from.

(** One packet as the plain loop of [Vlib] sees it. *)
Definition validate_one (b : vlib_buffer_t) : outcome T :=
  let '(e, next, b') := x1 b in mkOutcome b' next e (record b' next).

(** The check does not change what a trace of the packet records. *)
Definition x1_quiet : Prop := forall b,
  let '(_, _, b') := x1 b in
  buffer_traced b' = buffer_traced b /\ forall n, record b' n = record b n.

(** ** Lemmas *)

Hypothesis quiet : x1_quiet.
Implicit Types acc : acc_t.

(** Checking a packet does not change what a trace of any packet records. *)
Lemma x1_step_trace acc bj bi n :
  let st' := fa_store (fst (x1_step acc bj)) in
  buffer_traced (getb st' bi) = buffer_traced (getb (fa_store acc) bi) /\
  record (getb st' bi) n = record (getb (fa_store acc) bi) n.
Proof.
  cbv zeta. unfold x1_step.
  pose proof (quiet (getb (fa_store acc) bj)) as Hq.
  destruct (x1 _) as [[e next] b]. cbn in *. destruct Hq as [Ht Hr].
  destruct (decide (bi = bj)) as [->|Hne]; [|by rewrite getb_insert_ne by done].
  by rewrite getb_insert_eq.
Qed.

(** So a trace can be put off until after the next check. *)
Lemma trace_check_comm acc bi n bj :
  x1_step (validate_trace_one acc bi n) bj =
  (validate_trace_one (fst (x1_step acc bj)) bi n, snd (x1_step acc bj)).
Proof.
  destruct (x1_step_trace acc bj bi n) as [Ht Hr]. revert Ht Hr.
  unfold validate_trace_one. intros -> ->.
  destruct (buffer_traced (getb (fa_store acc) bi)).
  - unfold x1_step; cbn [fa_store fa_state fa_nexts fa_counts fa_traces].
    by destruct (x1 _) as [[??]?].
  - unfold x1_step. by destruct (x1 _) as [[??]?].
Qed.

Lemma validate_frame_step nf acc bi :
  frame_step nf (stateless validate_one) acc bi =
  if node_traced nf
  then validate_trace_one (fst (x1_step acc bi)) bi (snd (x1_step acc bi))
  else fst (x1_step acc bi).
Proof.
  unfold frame_step, stateless, validate_one, x1_step, validate_trace_one.
  destruct (x1 _) as [[e next] b]. cbn. rewrite getb_insert_eq.
  destruct (fa_state acc), (node_traced nf), (buffer_traced b); done.
Qed.

Lemma validate_single_loop_frame nf acc from :
  validate_single_loop nf acc from = frame_loop nf (stateless validate_one) acc from.
Proof.
  revert acc; induction from as [|bi from IH]; intros acc; [done|].
  rewrite frame_loop_cons, validate_frame_step. cbn [validate_single_loop].
  destruct (x1_step acc bi) as [acc1 n0]. cbn. rewrite <- IH. f_equal.
  unfold validate_trace_one. by destruct (node_traced nf), (buffer_traced _).
Qed.

Lemma validate_quad_frame nf acc b0 b1 b2 b3 :
  validate_quad nf acc b0 b1 b2 b3 =
  frame_loop nf (stateless validate_one) acc [b0; b1; b2; b3].
Proof.
  unfold validate_quad, frame_loop. cbn [fold_left]. rewrite !validate_frame_step.
  destruct (node_traced nf).
  - repeat (rewrite ?trace_check_comm; cbn [fst snd];
      match goal with
      | |- context [x1_step ?a ?b] =>
          lazymatch a with
          | context [x1_step] => fail
          | _ => let E := fresh in destruct (x1_step a b) as [? ?] eqn:E
          end
      end).
    done.
  - repeat match goal with
      | |- context [x1_step ?a ?b] =>
          lazymatch a with
          | context [x1_step] => fail
          | _ => let E := fresh in destruct (x1_step a b) as [? ?] eqn:E; cbn [fst snd]
          end
      end.
    done.
Qed.

Lemma validate_quad_loop_frame nf acc from :
  let '(acc', rest) := validate_quad_loop nf acc from in
  frame_loop nf (stateless validate_one) acc' rest =
  frame_loop nf (stateless validate_one) acc from.
Proof.
  remember (length from) as n eqn:Hn. revert acc from Hn.
  induction (lt_wf n) as [n _ IH]; intros acc from ->.
  destruct from as [|b0 [|b1 [|b2 [|b3 rest]]]]; try done.
  cbn [validate_quad_loop]. specialize (IH (length rest) ltac:(cbn; lia)
    (validate_quad nf acc b0 b1 b2 b3) rest eq_refl).
  destruct (validate_quad_loop nf _ rest) as [acc' rest']. rewrite IH, validate_quad_frame.
  by rewrite <- frame_loop_app.
Qed.

Lemma validate_node_frame pf nf n_error st from :
  validate_node pf nf n_error st from =
  frame_finish (frame_loop nf (stateless validate_one) (frame_init tt st n_error) from) from.
Proof.
  unfold validate_node. destruct pf; [|by rewrite validate_single_loop_frame].
  pose proof (validate_quad_loop_frame nf (frame_init tt st n_error) from) as Hq.
  destruct (validate_quad_loop _ _ _) as [acc rest].
  by rewrite validate_single_loop_frame, Hq.
Qed.

(** The node call on distinct buffers, when [err] and [next] give the error and
    the next node of each packet. *)
Lemma validate_node_accounting (err : vlib_buffer_t -> nat) (next : vlib_buffer_t -> Z)
    pf nf n_error st from :
  NoDup from -> Z.of_nat (length from) < 2 ^ 32 ->
  (forall b, (fst (fst (x1 b)) < n_error)%nat) ->
  (forall bi, bi ∈ from ->
     fst (x1 (getb st bi)) = (err (getb st bi), next (getb st bi))) ->
  let r := validate_node pf nf n_error st from in
  nr_enqueued r = (fun bi => (bi, next (getb st bi))) <$> from /\
  (forall e n, (e < n_error)%nat -> (e, n) ∈ nr_counters r <->
     n = occurrences e ((fun bi => err (getb st bi)) <$> from) /\ n <> 0) /\
  counters_total (nr_counters r) = Z.of_nat (length from) /\
  nr_return r = Z.of_nat (length from).
Proof.
  intros Hnd Hlen Herr Hx1. cbv zeta. rewrite validate_node_frame.
  assert (Hone : forall bi, bi ∈ from -> exists b' t,
    validate_one (getb st bi) = mkOutcome b' (next (getb st bi)) (err (getb st bi)) t).
  { intros bi Hbi. specialize (Hx1 bi Hbi). unfold validate_one.
    destruct (x1 (getb st bi)) as [[e n] b']. cbn in Hx1. simplify_eq. eauto. }
  split_and!.
  - rewrite stateless_node_enqueued by done. apply list_fmap_ext_elem.
    intros bi Hbi. by destruct (Hone bi Hbi) as (? & ? & ->).
  - intros e n He. cbn [nr_counters frame_finish]. rewrite flush_counters_elem.
    rewrite stateless_node_counter by done.
    erewrite list_fmap_ext_elem; [split; [intros [[= <-] ?]|intros [-> ?]]; auto|].
    intros bi Hbi. by destruct (Hone bi Hbi) as (? & ? & ->).
  - apply frame_counters_total; [done|]. intros s b. cbn. unfold validate_one.
    specialize (Herr b). by destruct (x1 b) as [[??]?].
  - done.
Qed.

End Loops.
