(* ===== verification/Ip4Validate.v ===== *)
(** * The ip4-validate node (ip_validate/ip4_validate_node.c)

    [ip4_validate_x1] is the per-packet check, [ip4_validate_node] the node
    function with its four-at-a-time loop and its one-at-a-time loop.  The
    theorems relate the check to the octets on the wire and to the filtering
    rules of the plugin's FEATURE.yaml, and the unrolled node to the plain
    per-packet loop. *)

From S2P Require Import Prelude Vlib ValidateLoop.

(** ** Data *)

Inductive ip4_validate_error_t :=
| IP4_VALIDATE_ERROR_VALID
| IP4_VALIDATE_ERROR_SRC_LOOPBACK
| IP4_VALIDATE_ERROR_SRC_MULTICAST
| IP4_VALIDATE_ERROR_SRC_CLASS_E
| IP4_VALIDATE_ERROR_SRC_UNSPECIFIED
| IP4_VALIDATE_ERROR_SRC_LINK_LOCAL
| IP4_VALIDATE_ERROR_DST_LOOPBACK
| IP4_VALIDATE_ERROR_DST_LINK_LOCAL
| IP4_VALIDATE_ERROR_L2_MCAST_BCAST.

(** The enum's values, which index [error_counts]. *)
Definition ip4_validate_error_index (e : ip4_validate_error_t) : nat :=
  match e with
  | IP4_VALIDATE_ERROR_VALID => 0
  | IP4_VALIDATE_ERROR_SRC_LOOPBACK => 1
  | IP4_VALIDATE_ERROR_SRC_MULTICAST => 2
  | IP4_VALIDATE_ERROR_SRC_CLASS_E => 3
  | IP4_VALIDATE_ERROR_SRC_UNSPECIFIED => 4
  | IP4_VALIDATE_ERROR_SRC_LINK_LOCAL => 5
  | IP4_VALIDATE_ERROR_DST_LOOPBACK => 6
  | IP4_VALIDATE_ERROR_DST_LINK_LOCAL => 7
  | IP4_VALIDATE_ERROR_L2_MCAST_BCAST => 8
  end.

Definition IP4_VALIDATE_N_ERROR : nat := 9.

(** [ip4_validate_next_t] *)
Definition IP4_VALIDATE_NEXT_DROP : Z := 0.
Definition IP4_VALIDATE_NEXT_FEATURE : Z := 1.

Record ip4_validate_trace_t := mkIp4Trace {
  t4_sw_if_index : Z;
  t4_next_index : Z;
  t4_src_addr : Z;
  t4_dst_addr : Z
}.

Section Ip4Validate.
Context `{Vlib}.

(** [ip->src_address.as_u32] and [ip->dst_address.as_u32]: the words at offsets
    12 and 16 of the IPv4 header, in host memory order. *)
Definition ip4_src_as_u32 (b : vlib_buffer_t) : Z := load host (cur_bytes b 12 4).
Definition ip4_dst_as_u32 (b : vlib_buffer_t) : Z := load host (cur_bytes b 16 4).

(** ** The check *)

Definition ip4_validate_x1 (b : vlib_buffer_t)
  : ip4_validate_error_t * Z * vlib_buffer_t :=
  let '(feat_next, b) := vnet_feature_next b in
  let src := net_to_host host 4 (ip4_src_as_u32 b) in
  let dst := net_to_host host 4 (ip4_dst_as_u32 b) in
  if (dst =? 0xFFFFFFFF) || (Z.shiftr dst 28 =? 0xE) then
    (IP4_VALIDATE_ERROR_VALID, u16 feat_next, b)
  else if c_true (Z.land (rd (data b) (ethernet_buffer_get_header b)) 0x01) then
    (IP4_VALIDATE_ERROR_L2_MCAST_BCAST, IP4_VALIDATE_NEXT_DROP, b)
  else if Z.shiftr src 24 =? 127 then
    (IP4_VALIDATE_ERROR_SRC_LOOPBACK, IP4_VALIDATE_NEXT_DROP, b)
  else if Z.shiftr src 28 =? 0xE then
    (IP4_VALIDATE_ERROR_SRC_MULTICAST, IP4_VALIDATE_NEXT_DROP, b)
  else if Z.shiftr src 28 =? 0xF then
    (IP4_VALIDATE_ERROR_SRC_CLASS_E, IP4_VALIDATE_NEXT_DROP, b)
  else if src =? 0 then
    (IP4_VALIDATE_ERROR_SRC_UNSPECIFIED, IP4_VALIDATE_NEXT_DROP, b)
  else if Z.shiftr src 16 =? 0xA9FE then
    (IP4_VALIDATE_ERROR_SRC_LINK_LOCAL, IP4_VALIDATE_NEXT_DROP, b)
  else if Z.shiftr dst 24 =? 127 then
    (IP4_VALIDATE_ERROR_DST_LOOPBACK, IP4_VALIDATE_NEXT_DROP, b)
  else if Z.shiftr dst 16 =? 0xA9FE then
    (IP4_VALIDATE_ERROR_DST_LINK_LOCAL, IP4_VALIDATE_NEXT_DROP, b)
  else (IP4_VALIDATE_ERROR_VALID, u16 feat_next, b).

(** ** The node *)

(** [ip4_validate_x1] with the error as the enum value that indexes
    [error_counts]. *)
Definition ip4_x1_index (b : vlib_buffer_t) : nat * Z * vlib_buffer_t :=
  let '(e, next, b') := ip4_validate_x1 b in (ip4_validate_error_index e, next, b').

(** The contents of the trace record ([ip4_validate_trace_one]). *)
Definition ip4_trace_record (b : vlib_buffer_t) (next : Z) : ip4_validate_trace_t :=
  mkIp4Trace (sw_if_index_rx b) next (ip4_src_as_u32 b) (ip4_dst_as_u32 b).

(** [prefetches8] is the compile-time test [CLIB_N_PREFETCHES >= 8] that keeps
    or drops the four-at-a-time loop. *)
Definition ip4_validate_node (prefetches8 : bool) (node_flags : Z) (st : buffers)
    (from : list Z) : node_result unit ip4_validate_trace_t :=
  validate_node ip4_x1_index ip4_trace_record prefetches8 node_flags IP4_VALIDATE_N_ERROR
    st from.

End Ip4Validate.

(** ** Reference definitions *)

(** The verdict on the octets of the wire: [l2] is the first octet of the
    Ethernet destination, [s0..s3] and [d0..d3] are the addresses. *)
Definition ip4_verdict (l2 s0 s1 s2 s3 d0 d1 d2 d3 : Z) : ip4_validate_error_t :=
  if (d0 =? 255) && (d1 =? 255) && (d2 =? 255) && (d3 =? 255) then IP4_VALIDATE_ERROR_VALID
  else if (224 <=? d0) && (d0 <=? 239) then IP4_VALIDATE_ERROR_VALID
  else if Z.odd l2 then IP4_VALIDATE_ERROR_L2_MCAST_BCAST
  else if s0 =? 127 then IP4_VALIDATE_ERROR_SRC_LOOPBACK
  else if (224 <=? s0) && (s0 <=? 239) then IP4_VALIDATE_ERROR_SRC_MULTICAST
  else if 240 <=? s0 then IP4_VALIDATE_ERROR_SRC_CLASS_E
  else if (s0 =? 0) && (s1 =? 0) && (s2 =? 0) && (s3 =? 0) then
    IP4_VALIDATE_ERROR_SRC_UNSPECIFIED
  else if (s0 =? 169) && (s1 =? 254) then IP4_VALIDATE_ERROR_SRC_LINK_LOCAL
  else if d0 =? 127 then IP4_VALIDATE_ERROR_DST_LOOPBACK
  else if (d0 =? 169) && (d1 =? 254) then IP4_VALIDATE_ERROR_DST_LINK_LOCAL
  else IP4_VALIDATE_ERROR_VALID.

(** Address blocks in the notation of FEATURE.yaml: [(a, b, c, d, len)] is
    [a.b.c.d/len], the [2 ^ (32 - len)] addresses from its base. *)
Definition ip4_addr (a b c d : Z) : Z := ((a * 256 + b) * 256 + c) * 256 + d.

Definition in_block (addr : Z) (blk : Z * Z * Z * Z * Z) : Prop :=
  let '(a, b, c, d, len) := blk in
  ip4_addr a b c d <= addr < ip4_addr a b c d + 2 ^ (32 - len).

Definition ip4_src_blocked : list (Z * Z * Z * Z * Z) :=
  [(127, 0, 0, 0, 8); (224, 0, 0, 0, 4); (240, 0, 0, 0, 4); (0, 0, 0, 0, 32);
   (169, 254, 0, 0, 16)].

Definition ip4_dst_blocked : list (Z * Z * Z * Z * Z) :=
  [(127, 0, 0, 0, 8); (169, 254, 0, 0, 16)].

(** Destinations the plugin does not inspect: broadcast and multicast. *)
Definition ip4_dst_not_unicast : list (Z * Z * Z * Z * Z) :=
  [(255, 255, 255, 255, 32); (224, 0, 0, 0, 4)].

(** The wire octets a buffer holds. *)
Definition l2_dst_octet (b : vlib_buffer_t) : Z := rd (data b) (l2_hdr_offset b).

Definition wire_verdict (b : vlib_buffer_t) : ip4_validate_error_t :=
  ip4_verdict (l2_dst_octet b)
    (cur_byte b 12) (cur_byte b 13) (cur_byte b 14) (cur_byte b 15)
    (cur_byte b 16) (cur_byte b 17) (cur_byte b 18) (cur_byte b 19).

Definition wire_src (b : vlib_buffer_t) : Z :=
  ip4_addr (cur_byte b 12) (cur_byte b 13) (cur_byte b 14) (cur_byte b 15).
Definition wire_dst (b : vlib_buffer_t) : Z :=
  ip4_addr (cur_byte b 16) (cur_byte b 17) (cur_byte b 18) (cur_byte b 19).

(** Where a verdict sends the packet. *)
Definition ip4_next (e : ip4_validate_error_t) (feat_next : Z) : Z :=
  match e with
  | IP4_VALIDATE_ERROR_VALID => u16 feat_next
  | _ => IP4_VALIDATE_NEXT_DROP
  end.

(** A frame from 10.0.0.1 to 127.0.0.1, Ethernet destination 02:...: dropped. *)
Definition ip4_loopback_dst_frame : vlib_buffer_t :=
  set_current 14 34 (set_data
    (wr_bytes ∅ 0 ([2; 0; 0; 0; 0; 1] ++ [2; 0; 0; 0; 0; 2] ++ [8; 0] ++
       [0x45; 0; 0; 20; 0; 0; 0; 0; 64; 17; 0; 0] ++ [10; 0; 0; 1] ++ [127; 0; 0; 1]))
    null_buffer).

(** ** Lemmas *)

Lemma be_decode4 a b c d : be_decode [a; b; c; d] = ip4_addr a b c d.
Proof. unfold be_decode, ip4_addr. cbn. lia. Qed.

Lemma cur_bytes4 b i :
  cur_bytes b i 4 = [cur_byte b i; cur_byte b (i + 1); cur_byte b (i + 2); cur_byte b (i + 3)].
Proof. unfold cur_bytes, cur_byte. cbn. repeat (f_equal; try lia). Qed.

Section Lemmas.
Context `{Vlib}.

(** [vnet_feature_next] moves the arc cursor and nothing else. *)
Lemma feature_next_frame b :
  exists n ci, vnet_feature_next b = (n, set_config_index ci b) /\
    n = fst (vnet_feature_next b).
Proof.
  unfold vnet_feature_next. destruct (vnet_feature_next_at _ _) as [n ci]. eauto.
Qed.

Lemma net_load_addr b i :
  buffer_ok b ->
  net_to_host host 4 (load host (cur_bytes b i 4)) =
  ip4_addr (cur_byte b i) (cur_byte b (i + 1)) (cur_byte b (i + 2)) (cur_byte b (i + 3)).
Proof.
  intros Hb. rewrite <- be_decode4, <- cur_bytes4.
  apply (net_to_host_load host (cur_bytes b i 4)). by apply rd_bytes_ok.
Qed.

(** The shift tests of the source on an address, as octet tests. *)
Lemma shiftr24 a b c d :
  is_u8 a -> is_u8 b -> is_u8 c -> is_u8 d -> Z.shiftr (ip4_addr a b c d) 24 = a.
Proof. intros. rewrite Z.shiftr_div_pow2 by lia. unfold ip4_addr. zsolve. Qed.

Lemma shiftr28 a b c d :
  is_u8 a -> is_u8 b -> is_u8 c -> is_u8 d -> Z.shiftr (ip4_addr a b c d) 28 = a / 16.
Proof. intros. rewrite Z.shiftr_div_pow2 by lia. unfold ip4_addr. zsolve. Qed.

Lemma shiftr16 a b c d :
  is_u8 a -> is_u8 b -> is_u8 c -> is_u8 d -> Z.shiftr (ip4_addr a b c d) 16 = a * 256 + b.
Proof. intros. rewrite Z.shiftr_div_pow2 by lia. unfold ip4_addr. zsolve. Qed.

(** Boolean tests on octets, one per test of the source. *)
Ltac octet_test :=
  apply Bool.eq_iff_eq_true;
  rewrite ?andb_true_iff, ?Z.eqb_eq, ?Z.leb_le; unfold ip4_addr; zsolve.

Lemma test_bcast a b c d :
  is_u8 a -> is_u8 b -> is_u8 c -> is_u8 d ->
  (ip4_addr a b c d =? 0xFFFFFFFF) = (a =? 255) && (b =? 255) && (c =? 255) && (d =? 255).
Proof. intros. octet_test. Qed.

Lemma test_unspec a b c d :
  is_u8 a -> is_u8 b -> is_u8 c -> is_u8 d ->
  (ip4_addr a b c d =? 0) = (a =? 0) && (b =? 0) && (c =? 0) && (d =? 0).
Proof. intros. octet_test. Qed.

Lemma test_mcast a : is_u8 a -> (a / 16 =? 0xE) = (224 <=? a) && (a <=? 239).
Proof. intros. octet_test. Qed.

Lemma test_class_e a : is_u8 a -> (a / 16 =? 0xF) = (240 <=? a).
Proof. intros. octet_test. Qed.

Lemma test_link_local a b :
  is_u8 a -> is_u8 b -> (a * 256 + b =? 0xA9FE) = (a =? 169) && (b =? 254).
Proof. intros. octet_test. Qed.

Lemma cur_byte_ok b i : buffer_ok b -> is_u8 (cur_byte b i).
Proof. intros Hb. apply Hb. Qed.

Lemma ip4_x1_verdict b :
  buffer_ok b ->
  ip4_validate_x1 b =
  (wire_verdict b, ip4_next (wire_verdict b) (fst (vnet_feature_next b)),
   snd (vnet_feature_next b)).
Proof.
  intros Hb. unfold ip4_validate_x1, wire_verdict, ip4_verdict, l2_dst_octet.
  unfold vnet_feature_next. destruct (vnet_feature_next_at _ _) as [n ci]. cbn [fst snd].
  rewrite ethernet_buffer_get_header_spec. unfold ip4_src_as_u32, ip4_dst_as_u32.
  change (cur_bytes (set_config_index ci b)) with (cur_bytes b).
  rewrite !net_load_addr, land_odd by done. cbn [data l2_hdr_offset set_config_index].
  change (12 + 1) with 13; change (12 + 2) with 14; change (12 + 3) with 15.
  change (16 + 1) with 17; change (16 + 2) with 18; change (16 + 3) with 19.
  pose proof (fun i => cur_byte_ok b i Hb) as Hc.
  rewrite !shiftr24, !shiftr28, !shiftr16, test_bcast, test_unspec, !test_mcast,
    test_class_e, !test_link_local by apply Hc.
  repeat split_if; cbn; try discriminate; try reflexivity.
Qed.

(** A packet is forwarded exactly when its verdict is VALID; the list-based
    rules of FEATURE.yaml describe the same set. *)
Lemma verdict_valid_blocks b :
  buffer_ok b ->
  wire_verdict b = IP4_VALIDATE_ERROR_VALID <->
  Exists (in_block (wire_dst b)) ip4_dst_not_unicast \/
  (Z.odd (l2_dst_octet b) = false /\
   Forall (fun blk => ~ in_block (wire_src b) blk) ip4_src_blocked /\
   Forall (fun blk => ~ in_block (wire_dst b) blk) ip4_dst_blocked).
Proof.
  intros Hb. pose proof (fun i => cur_byte_ok b i Hb) as Hc.
  pose proof (Hc 12); pose proof (Hc 13); pose proof (Hc 14); pose proof (Hc 15).
  pose proof (Hc 16); pose proof (Hc 17); pose proof (Hc 18); pose proof (Hc 19).
  unfold wire_verdict, ip4_verdict, wire_src, wire_dst, ip4_dst_not_unicast, ip4_src_blocked,
    ip4_dst_blocked.
  rewrite !Forall_cons, !Exists_cons, !Forall_nil, !Exists_nil.
  unfold in_block, ip4_addr. widths.
  change (2 ^ (32 - 8)) with 16777216; change (2 ^ (32 - 4)) with 268435456;
  change (2 ^ (32 - 32)) with 1; change (2 ^ (32 - 16)) with 65536.
  generalize dependent (cur_byte b). intros c **.
  repeat split_if; breflect; split; intros Hx; try discriminate; try done; intuition (try lia).
Qed.

End Lemmas.

(** ** The loops *)

Lemma ip4_error_index_lt e : (ip4_validate_error_index e < IP4_VALIDATE_N_ERROR)%nat.
Proof. unfold IP4_VALIDATE_N_ERROR. destruct e; cbn; lia. Qed.

Section Unrolled.
Context `{Vlib}.

Lemma ip4_x1_buffer b : snd (ip4_validate_x1 b) = snd (vnet_feature_next b).
Proof.
  unfold ip4_validate_x1. destruct (vnet_feature_next b) as [n b'].
  repeat split_if; done.
Qed.

(** Checking a packet does not change what a trace of it records. *)
Lemma ip4_x1_quiet : x1_quiet ip4_x1_index ip4_trace_record.
Proof.
  intros b. unfold ip4_x1_index. pose proof (ip4_x1_buffer b) as Hbuf.
  destruct (ip4_validate_x1 b) as [[e next] b']. cbn in *. subst b'.
  unfold vnet_feature_next. by destruct (vnet_feature_next_at _ _).
Qed.

Lemma ip4_node_frame pf nf st from :
  ip4_validate_node pf nf st from =
  frame_finish
    (frame_loop nf (stateless (validate_one ip4_x1_index ip4_trace_record))
       (frame_init tt st IP4_VALIDATE_N_ERROR) from) from.
Proof. apply validate_node_frame, ip4_x1_quiet. Qed.

End Unrolled.

(** ** Properties *)

(** C7.  [ip4_validate_x1] reads the packet as the wire has it, on hosts of
    either byte order: the error code it returns is the verdict of the octet
    rules (the first rule that applies, in the order of the source), it forwards
    along the feature arc exactly the packets the filtering rules of
    FEATURE.yaml let through (not unicast, or unicast with a unicast L2
    destination, a source in no blocked source block and a destination in no
    blocked destination block), sends all others to error-drop, and changes
    nothing of the buffer but the arc cursor. *)
Theorem ip4_validate_x1_filters `{Vlib} (b : vlib_buffer_t) (Hb : buffer_ok b) :
  let '(e, next, b') := ip4_validate_x1 b in
  e = wire_verdict b /\
  b' = snd (vnet_feature_next b) /\
  (next = u16 (fst (vnet_feature_next b)) /\ e = IP4_VALIDATE_ERROR_VALID \/
   next = IP4_VALIDATE_NEXT_DROP /\ e <> IP4_VALIDATE_ERROR_VALID) /\
  (e = IP4_VALIDATE_ERROR_VALID <->
   Exists (in_block (wire_dst b)) ip4_dst_not_unicast \/
   (Z.odd (l2_dst_octet b) = false /\
    Forall (fun blk => ~ in_block (wire_src b) blk) ip4_src_blocked /\
    Forall (fun blk => ~ in_block (wire_dst b) blk) ip4_dst_blocked)).
Proof.
  rewrite ip4_x1_verdict by done. split_and!; [done|done| |by apply verdict_valid_blocks].
  destruct (wire_verdict b); cbn; auto.
Qed.

Lemma ip4_loopback_dst_frame_ok : buffer_ok ip4_loopback_dst_frame.
Proof. apply mem_ok_wr; [apply mem_ok_empty|by_compute]. Qed.

Lemma ip4_validate_x1_filters_witness :
  let '(e, next, _) := @ip4_validate_x1 vlib_ref ip4_loopback_dst_frame in
  e = IP4_VALIDATE_ERROR_DST_LOOPBACK /\ next = IP4_VALIDATE_NEXT_DROP.
Proof.
  pose proof (@ip4_validate_x1_filters vlib_ref _ ip4_loopback_dst_frame_ok) as Hw.
  destruct (ip4_validate_x1 _) as [[e next] b']. destruct Hw as (He & _ & Hn & _).
  assert (e = IP4_VALIDATE_ERROR_DST_LOOPBACK) as -> by (rewrite He; vm_compute; reflexivity).
  destruct Hn as [[_ Hbad]|[Hn _]]; [discriminate|done].
Defined.

(** C24.  The four-at-a-time loop is an optimisation only: on any frame, of any
    length, even one that names a buffer more than once, the node built with it
    leaves the same buffers, next nodes, counter increments, traces and return
    value as the node built without it. *)
Theorem ip4_validate_node_unrolled `{Vlib} (node_flags : Z) (st : buffers) (from : list Z) :
  ip4_validate_node true node_flags st from = ip4_validate_node false node_flags st from.
Proof. by rewrite !ip4_node_frame. Qed.

(** On a frame of distinct buffers that hold bytes, the node enqueues every
    packet once, to the next node of its own verdict; for every error it adds
    the number of packets with that verdict (and makes no call when there are
    none); the increments add up to the frame size, which is returned. *)
Theorem ip4_validate_node_accounts `{Vlib} (pf : bool) (node_flags : Z) (st : buffers)
    (from : list Z) (Hnd : NoDup from) (Hlen : Z.of_nat (length from) < 2 ^ 32)
    (Hok : forall bi, bi ∈ from -> buffer_ok (getb st bi)) :
  let r := ip4_validate_node pf node_flags st from in
  let verdict := fun bi => wire_verdict (getb st bi) in
  nr_enqueued r =
    (fun bi => (bi, ip4_next (verdict bi) (fst (vnet_feature_next (getb st bi))))) <$> from /\
  (forall e n, (ip4_validate_error_index e, n) ∈ nr_counters r <->
     n = occurrences (ip4_validate_error_index e)
           ((fun bi => ip4_validate_error_index (verdict bi)) <$> from) /\ n <> 0) /\
  counters_total (nr_counters r) = Z.of_nat (length from) /\
  nr_return r = Z.of_nat (length from).
Proof.
  destruct (validate_node_accounting ip4_x1_index ip4_trace_record ip4_x1_quiet
    (fun b => ip4_validate_error_index (wire_verdict b))
    (fun b => ip4_next (wire_verdict b) (fst (vnet_feature_next b)))
    pf node_flags IP4_VALIDATE_N_ERROR st from) as (He & Hc & Ht & Hr); [done|done| | |].
  - intros b. unfold ip4_x1_index. destruct (ip4_validate_x1 b) as [[e n] b'].
    apply ip4_error_index_lt.
  - intros bi Hbi. unfold ip4_x1_index. by rewrite ip4_x1_verdict by auto.
  - split_and!; [done| |done|done]. intros e n. apply Hc, ip4_error_index_lt.
Qed.

Lemma ip4_validate_node_accounts_witness :
  nr_counters (@ip4_validate_node vlib_ref true 0 {[7 := ip4_loopback_dst_frame]} [7])
    = [(6%nat, 1)] /\
  nr_enqueued (@ip4_validate_node vlib_ref true 0 {[7 := ip4_loopback_dst_frame]} [7])
    = [(7, IP4_VALIDATE_NEXT_DROP)].
Proof.
  split; [vm_compute; reflexivity|].
  edestruct (@ip4_validate_node_accounts vlib_ref true 0 {[7 := ip4_loopback_dst_frame]} [7])
    as [-> _].
  - apply NoDup_singleton.
  - cbn; lia.
  - intros bi ->%list_elem_of_singleton. apply ip4_loopback_dst_frame_ok.
  - vm_compute. reflexivity.
Defined.
