(* ===== verification/Ip6Validate.v ===== *)
(** * The ip6-validate node (ip_validate/ip6_validate_node.c)

    [ip6_validate_x1] is the per-packet check, [ip6_validate_node] the node
    function.  An [ip6_address_t] is its 16 octets in wire order; [as_u64] reads
    a half of it the way the source does, as a 64-bit host word. *)

From S2P Require Import Prelude Vlib ValidateLoop.

(** ** Data *)

Inductive ip6_validate_error_t :=
| IP6_VALIDATE_ERROR_VALID
| IP6_VALIDATE_ERROR_SRC_MULTICAST
| IP6_VALIDATE_ERROR_SRC_UNSPECIFIED
| IP6_VALIDATE_ERROR_SRC_LOOPBACK
| IP6_VALIDATE_ERROR_DST_UNSPECIFIED
| IP6_VALIDATE_ERROR_DST_LOOPBACK
| IP6_VALIDATE_ERROR_L2_MCAST_BCAST.

Definition ip6_validate_error_index (e : ip6_validate_error_t) : nat :=
  match e with
  | IP6_VALIDATE_ERROR_VALID => 0
  | IP6_VALIDATE_ERROR_SRC_MULTICAST => 1
  | IP6_VALIDATE_ERROR_SRC_UNSPECIFIED => 2
  | IP6_VALIDATE_ERROR_SRC_LOOPBACK => 3
  | IP6_VALIDATE_ERROR_DST_UNSPECIFIED => 4
  | IP6_VALIDATE_ERROR_DST_LOOPBACK => 5
  | IP6_VALIDATE_ERROR_L2_MCAST_BCAST => 6
  end.

Definition IP6_VALIDATE_N_ERROR : nat := 7.

(** [ip6_validate_next_t] *)
Definition IP6_VALIDATE_NEXT_DROP : Z := 0.
Definition IP6_VALIDATE_NEXT_FEATURE : Z := 1.

Abbreviation ip6_address_t := (list Z).

Record ip6_validate_trace_t := mkIp6Trace {
  t6_sw_if_index : Z;
  t6_next_index : Z;
  t6_src_addr : ip6_address_t;
  t6_dst_addr : ip6_address_t
}.

Section Ip6Validate.
Context `{Vlib}.

(** [a->as_u64[i]] *)
Definition as_u64 (a : ip6_address_t) (i : nat) : Z := load host (take 8 (drop (8 * i) a)).

Definition ip6_validate_address_is_zero (a : ip6_address_t) : bool :=
  (as_u64 a 0 =? 0) && (as_u64 a 1 =? 0).

(** [clib_host_to_net_u64] is the same conversion as [clib_net_to_host_u64]. *)
Definition ip6_validate_address_is_loopback (a : ip6_address_t) : bool :=
  (as_u64 a 0 =? 0) && (as_u64 a 1 =? net_to_host host 8 1).

(** [ip->src_address] and [ip->dst_address]: offsets 8 and 24 of the header. *)
Definition ip6_src_address (b : vlib_buffer_t) : ip6_address_t := cur_bytes b 8 16.
Definition ip6_dst_address (b : vlib_buffer_t) : ip6_address_t := cur_bytes b 24 16.

(** ** The check *)

Definition ip6_validate_x1 (b : vlib_buffer_t)
  : ip6_validate_error_t * Z * vlib_buffer_t :=
  let '(feat_next, b) := vnet_feature_next b in
  if cur_byte b 24 =? 0xFF then
    (IP6_VALIDATE_ERROR_VALID, u16 feat_next, b)
  else if c_true (Z.land (rd (data b) (ethernet_buffer_get_header b)) 0x01) then
    (IP6_VALIDATE_ERROR_L2_MCAST_BCAST, IP6_VALIDATE_NEXT_DROP, b)
  else if cur_byte b 8 =? 0xFF then
    (IP6_VALIDATE_ERROR_SRC_MULTICAST, IP6_VALIDATE_NEXT_DROP, b)
  else if ip6_validate_address_is_zero (ip6_src_address b) then
    (IP6_VALIDATE_ERROR_SRC_UNSPECIFIED, IP6_VALIDATE_NEXT_DROP, b)
  else if ip6_validate_address_is_loopback (ip6_src_address b) then
    (IP6_VALIDATE_ERROR_SRC_LOOPBACK, IP6_VALIDATE_NEXT_DROP, b)
  else if ip6_validate_address_is_zero (ip6_dst_address b) then
    (IP6_VALIDATE_ERROR_DST_UNSPECIFIED, IP6_VALIDATE_NEXT_DROP, b)
  else if ip6_validate_address_is_loopback (ip6_dst_address b) then
    (IP6_VALIDATE_ERROR_DST_LOOPBACK, IP6_VALIDATE_NEXT_DROP, b)
  else (IP6_VALIDATE_ERROR_VALID, u16 feat_next, b).

(** ** The node *)

Definition ip6_x1_index (b : vlib_buffer_t) : nat * Z * vlib_buffer_t :=
  let '(e, next, b') := ip6_validate_x1 b in (ip6_validate_error_index e, next, b').

(** The contents of the trace record ([ip6_validate_trace_one]). *)
Definition ip6_trace_record (b : vlib_buffer_t) (next : Z) : ip6_validate_trace_t :=
  mkIp6Trace (sw_if_index_rx b) next (ip6_src_address b) (ip6_dst_address b).

Definition ip6_validate_node (prefetches8 : bool) (node_flags : Z) (st : buffers)
    (from : list Z) : node_result unit ip6_validate_trace_t :=
  validate_node ip6_x1_index ip6_trace_record prefetches8 node_flags IP6_VALIDATE_N_ERROR
    st from.

End Ip6Validate.

(** ** Reference definitions *)

(** [::] and [::1] *)
Definition ip6_unspecified : ip6_address_t := replicate 16 0.
Definition ip6_loopback : ip6_address_t := replicate 15 0 ++ [1].

(** [ff00::/8] *)
Definition ip6_multicast (a : ip6_address_t) : Prop := head a = Some 0xFF.
#[export] Instance ip6_multicast_dec a : Decision (ip6_multicast a).
Proof. unfold ip6_multicast. apply _. Defined.

(** The verdict on the addresses of the wire. *)
Definition ip6_verdict (l2 : Z) (src dst : ip6_address_t) : ip6_validate_error_t :=
  if decide (ip6_multicast dst) then IP6_VALIDATE_ERROR_VALID
  else if Z.odd l2 then IP6_VALIDATE_ERROR_L2_MCAST_BCAST
  else if decide (ip6_multicast src) then IP6_VALIDATE_ERROR_SRC_MULTICAST
  else if decide (src = ip6_unspecified) then IP6_VALIDATE_ERROR_SRC_UNSPECIFIED
  else if decide (src = ip6_loopback) then IP6_VALIDATE_ERROR_SRC_LOOPBACK
  else if decide (dst = ip6_unspecified) then IP6_VALIDATE_ERROR_DST_UNSPECIFIED
  else if decide (dst = ip6_loopback) then IP6_VALIDATE_ERROR_DST_LOOPBACK
  else IP6_VALIDATE_ERROR_VALID.

Definition ip6_wire_verdict (b : vlib_buffer_t) : ip6_validate_error_t :=
  ip6_verdict (rd (data b) (l2_hdr_offset b)) (ip6_src_address b) (ip6_dst_address b).

Definition ip6_next (e : ip6_validate_error_t) (feat_next : Z) : Z :=
  match e with
  | IP6_VALIDATE_ERROR_VALID => u16 feat_next
  | _ => IP6_VALIDATE_NEXT_DROP
  end.

(** A frame from ::1 with Ethernet destination 02:...: dropped. *)
Definition ip6_loopback_src_frame : vlib_buffer_t :=
  set_current 14 54 (set_data
    (wr_bytes ∅ 0 ([2; 0; 0; 0; 0; 1] ++ [2; 0; 0; 0; 0; 2] ++ [0x86; 0xDD] ++
       [0x60; 0; 0; 0; 0; 0; 17; 64] ++ ip6_loopback ++
       [0x20; 0x01; 0x0d; 0xb8; 0; 0; 0; 0; 0; 0; 0; 0; 0; 0; 0; 1]))
    null_buffer).

(** ** Lemmas *)

Section Lemmas.
Context `{Vlib}.

(** A 64-bit comparison of eight octets is an octet-wise comparison. *)
Lemma load8_eqb bs1 bs2 :
  bytes_ok bs1 -> bytes_ok bs2 -> length bs1 = length bs2 ->
  (load host bs1 =? load host bs2) = bool_decide (bs1 = bs2).
Proof.
  intros H1 H2 Hlen. case_bool_decide as He.
  - subst. apply Z.eqb_refl.
  - apply Z.eqb_neq. intros Hl. apply He. by eapply load_inj.
Qed.

Lemma load_zeros n : load host (replicate n 0) = 0.
Proof.
  destruct host; cbn; [apply le_decode_zero|].
  unfold be_decode. rewrite reverse_replicate. apply le_decode_zero.
Qed.

Lemma load_one : load host (replicate 7 0 ++ [1]) = net_to_host host 8 1.
Proof. by destruct host. Qed.

Lemma halves_eq (a c : ip6_address_t) :
  length a = 16%nat -> length c = 16%nat ->
  a = c <-> take 8 (drop (8 * 0) a) = take 8 (drop (8 * 0) c) /\
            take 8 (drop (8 * 1) a) = take 8 (drop (8 * 1) c).
Proof.
  intros Ha Hc. split; [by intros ->|]. intros [H1 H2].
  change (8 * 0)%nat with 0%nat in H1. change (8 * 1)%nat with 8%nat in H2.
  rewrite !drop_0 in H1. rewrite <- (take_drop 8 a), <- (take_drop 8 c), H1. f_equal.
  rewrite !take_ge in H2 by (rewrite length_drop; lia). done.
Qed.

(** An address test by two 64-bit words is a test of the 16 octets. *)
Lemma words_test (a c : ip6_address_t) :
  bytes_ok a -> bytes_ok c -> length a = 16%nat -> length c = 16%nat ->
  (as_u64 a 0 =? load host (take 8 (drop (8 * 0) c))) &&
  (as_u64 a 1 =? load host (take 8 (drop (8 * 1) c))) = bool_decide (a = c).
Proof.
  intros Hoa Hoc Ha Hc. unfold as_u64.
  rewrite !load8_eqb; rewrite ?length_take, ?length_drop; try lia;
    try (by apply Forall_take, Forall_drop).
  apply Bool.eq_iff_eq_true. rewrite andb_true_iff, !bool_decide_eq_true.
  symmetry. by apply halves_eq.
Qed.

Lemma is_zero_unspecified a :
  bytes_ok a -> length a = 16%nat ->
  ip6_validate_address_is_zero a = bool_decide (a = ip6_unspecified).
Proof.
  intros Ha Hl. rewrite <- words_test; [|done|by_compute|done|done].
  cbn. unfold ip6_validate_address_is_zero. change ([0; 0; 0; 0; 0; 0; 0; 0]) with (replicate 8 0).
  by rewrite load_zeros.
Qed.

Lemma is_loopback_loopback a :
  bytes_ok a -> length a = 16%nat ->
  ip6_validate_address_is_loopback a = bool_decide (a = ip6_loopback).
Proof.
  intros Ha Hl. rewrite <- words_test; [|done|by_compute|done|done].
  unfold ip6_validate_address_is_loopback, ip6_loopback. rewrite <- load_one.
  cbn. change ([0; 0; 0; 0; 0; 0; 0; 0]) with (replicate 8 0). by rewrite load_zeros.
Qed.

Lemma multicast_test b i :
  (cur_byte b i =? 0xFF) = bool_decide (ip6_multicast (cur_bytes b i 16)).
Proof.
  apply Bool.eq_iff_eq_true. rewrite Z.eqb_eq, bool_decide_eq_true.
  unfold ip6_multicast, cur_byte. cbn. split; [by intros ->|by intros [=]].
Qed.

Lemma ip6_x1_verdict b :
  buffer_ok b ->
  ip6_validate_x1 b =
  (ip6_wire_verdict b, ip6_next (ip6_wire_verdict b) (fst (vnet_feature_next b)),
   snd (vnet_feature_next b)).
Proof.
  intros Hb. unfold ip6_validate_x1, ip6_wire_verdict, ip6_verdict, vnet_feature_next.
  destruct (vnet_feature_next_at _ _) as [n ci]. cbn [fst snd].
  rewrite ethernet_buffer_get_header_spec, land_odd, !multicast_test.
  cbn [data l2_hdr_offset set_config_index].
  change (cur_bytes (set_config_index ci b)) with (cur_bytes b).
  change (ip6_src_address (set_config_index ci b)) with (cur_bytes b 8 16).
  change (ip6_dst_address (set_config_index ci b)) with (cur_bytes b 24 16).
  unfold ip6_src_address, ip6_dst_address.
  rewrite !is_zero_unspecified, !is_loopback_loopback
    by (try apply rd_bytes_ok; try apply rd_bytes_length; done).
  rewrite !decide_bool_decide. repeat split_if; done.
Qed.

Lemma ip6_x1_buffer b : snd (ip6_validate_x1 b) = snd (vnet_feature_next b).
Proof.
  unfold ip6_validate_x1. destruct (vnet_feature_next b) as [n b'].
  repeat split_if; done.
Qed.

Lemma ip6_x1_quiet : x1_quiet ip6_x1_index ip6_trace_record.
Proof.
  intros b. unfold ip6_x1_index. pose proof (ip6_x1_buffer b) as Hbuf.
  destruct (ip6_validate_x1 b) as [[e next] b']. cbn in *. subst b'.
  unfold vnet_feature_next. by destruct (vnet_feature_next_at _ _).
Qed.

Lemma ip6_error_index_lt e : (ip6_validate_error_index e < IP6_VALIDATE_N_ERROR)%nat.
Proof. unfold IP6_VALIDATE_N_ERROR. destruct e; cbn; lia. Qed.

End Lemmas.

(** ** Properties *)

(** C13.  [ip6_validate_x1], on hosts of either byte order, returns the verdict
    of the address rules on the octets of the wire; it forwards exactly the
    packets FEATURE.yaml lets through (multicast destination, or a unicast L2
    destination with a source that is neither multicast, [::] nor [::1] and a
    destination that is neither [::] nor [::1]) and sends all others to
    error-drop, and changes nothing of the buffer but the arc cursor. *)
Theorem ip6_validate_x1_filters `{Vlib} (b : vlib_buffer_t) (Hb : buffer_ok b) :
  let '(e, next, b') := ip6_validate_x1 b in
  let src := ip6_src_address b in
  let dst := ip6_dst_address b in
  e = ip6_wire_verdict b /\
  b' = snd (vnet_feature_next b) /\
  (next = u16 (fst (vnet_feature_next b)) /\ e = IP6_VALIDATE_ERROR_VALID \/
   next = IP6_VALIDATE_NEXT_DROP /\ e <> IP6_VALIDATE_ERROR_VALID) /\
  (e = IP6_VALIDATE_ERROR_VALID <->
   ip6_multicast dst \/
   (Z.odd (rd (data b) (l2_hdr_offset b)) = false /\ ~ ip6_multicast src /\
    src <> ip6_unspecified /\ src <> ip6_loopback /\
    dst <> ip6_unspecified /\ dst <> ip6_loopback)).
Proof.
  rewrite ip6_x1_verdict by done. cbv zeta. split_and!; [done|done| |].
  - destruct (ip6_wire_verdict b); cbn; auto.
  - unfold ip6_wire_verdict, ip6_verdict.
    repeat case_decide; destruct (Z.odd _); intuition congruence.
Qed.

Lemma ip6_loopback_src_frame_ok : buffer_ok ip6_loopback_src_frame.
Proof. apply mem_ok_wr; [apply mem_ok_empty|by_compute]. Qed.

Lemma ip6_validate_x1_filters_witness :
  let '(e, next, _) := @ip6_validate_x1 vlib_ref ip6_loopback_src_frame in
  e = IP6_VALIDATE_ERROR_SRC_LOOPBACK /\ next = IP6_VALIDATE_NEXT_DROP.
Proof.
  pose proof (@ip6_validate_x1_filters vlib_ref _ ip6_loopback_src_frame_ok) as Hw.
  destruct (ip6_validate_x1 _) as [[e next] b']. destruct Hw as (He & _ & Hn & _).
  assert (e = IP6_VALIDATE_ERROR_SRC_LOOPBACK) as -> by (rewrite He; vm_compute; reflexivity).
  destruct Hn as [[_ Hbad]|[Hn _]]; [discriminate|done].
Defined.

(** The ip6-validate node, with or without its four-at-a-time loop: on a
    frame of distinct buffers every packet is enqueued once to the next node of
    its own verdict, every error counter grows by the number of packets with
    that verdict, the increments add up to the frame size, and the two builds
    agree on every frame. *)
Theorem ip6_validate_node_accounts `{Vlib} (pf : bool) (node_flags : Z) (st : buffers)
    (from : list Z) (Hnd : NoDup from) (Hlen : Z.of_nat (length from) < 2 ^ 32)
    (Hok : forall bi, bi ∈ from -> buffer_ok (getb st bi)) :
  let r := ip6_validate_node pf node_flags st from in
  let verdict := fun bi => ip6_wire_verdict (getb st bi) in
  r = ip6_validate_node (negb pf) node_flags st from /\
  nr_enqueued r =
    (fun bi => (bi, ip6_next (verdict bi) (fst (vnet_feature_next (getb st bi))))) <$> from /\
  (forall e n, (ip6_validate_error_index e, n) ∈ nr_counters r <->
     n = occurrences (ip6_validate_error_index e)
           ((fun bi => ip6_validate_error_index (verdict bi)) <$> from) /\ n <> 0) /\
  counters_total (nr_counters r) = Z.of_nat (length from) /\
  nr_return r = Z.of_nat (length from).
Proof.
  cbv zeta. split.
  { unfold ip6_validate_node. by rewrite !(validate_node_frame _ _ ip6_x1_quiet). }
  destruct (validate_node_accounting ip6_x1_index ip6_trace_record ip6_x1_quiet
    (fun b => ip6_validate_error_index (ip6_wire_verdict b))
    (fun b => ip6_next (ip6_wire_verdict b) (fst (vnet_feature_next b)))
    pf node_flags IP6_VALIDATE_N_ERROR st from) as (He & Hc & Ht & Hr); [done|done| | |].
  - intros b. unfold ip6_x1_index. destruct (ip6_validate_x1 b) as [[e n] b'].
    apply ip6_error_index_lt.
  - intros bi Hbi. unfold ip6_x1_index. by rewrite ip6_x1_verdict by auto.
  - split_and!; [done| |done|done]. intros e n. apply Hc, ip6_error_index_lt.
Qed.

Lemma ip6_validate_node_accounts_witness :
  nr_enqueued (@ip6_validate_node vlib_ref true 0 {[3 := ip6_loopback_src_frame]} [3])
    = [(3, IP6_VALIDATE_NEXT_DROP)].
Proof.
  edestruct (@ip6_validate_node_accounts vlib_ref true 0 {[3 := ip6_loopback_src_frame]} [3])
    as [_ [-> _]].
  - apply NoDup_singleton.
  - cbn; lia.
  - intros bi ->%list_elem_of_singleton. apply ip6_loopback_src_frame_ok.
  - vm_compute. reflexivity.
Defined.
