(* ===== verification/Feature.v ===== *)
(** * Feature arcs

    The interface of VPP's feature-arc control ([vnet_feature_enable_disable],
    [vnet_feature_is_enabled]) the plugins program, as a type class: its state
    is VPP's own.  A feature is a node on an arc for an interface.

    The laws say what the plugins rely on.  [shared_config] marks the
    (arc, interface) pairs whose configuration string is also the one another
    interface is dispatched with: sonic_ext.c explains that disabling a
    device-input feature on a sub-interface strips it from the parent, so the
    frame law does not hold there. *)

From S2P Require Import Prelude Vlib.

(** (arc name, node name, sw_if_index) *)
Abbreviation fkey := (string * string * Z)%type.

Class VnetFeature := {
  fstate : Type;
  vnet_feature_enable_disable : fstate -> fkey -> bool -> fstate * Z;
  vnet_feature_is_enabled : fstate -> fkey -> bool;
  shared_config : string -> Z -> bool;
  (** a call that returns 0 leaves the feature in the requested state *)
  feature_ok : forall st k en st',
    vnet_feature_enable_disable st k en = (st', 0) -> vnet_feature_is_enabled st' k = en;
  (** a call that fails changes no feature *)
  feature_err : forall st k en st' rv,
    vnet_feature_enable_disable st k en = (st', rv) -> rv <> 0 ->
    forall k', vnet_feature_is_enabled st' k' = vnet_feature_is_enabled st k';
  (** a call on an interface with its own configuration changes no other feature *)
  feature_frame : forall st k en st' rv,
    vnet_feature_enable_disable st k en = (st', rv) ->
    shared_config (fst (fst k)) (snd k) = false ->
    forall k', k' <> k -> vnet_feature_is_enabled st' k' = vnet_feature_is_enabled st k'
}.

(** ** A reference implementation

    The state is the set of enabled features; the calls [refuse] marks fail with
    [-1]; on the pairs [shared] marks, a disable also hits the parent interface
    [parent sw] (the hazard sonic_ext.c describes). *)

Section Reference.
Variable refuse : fkey -> bool -> bool.
Variable shared : string -> Z -> bool.
Variable parent : Z -> Z.

Definition feature_ref_call (st : gset fkey) (k : fkey) (en : bool) : gset fkey * Z :=
  if refuse k en then (st, -1)
  else if en then ({[k]} ∪ st, 0)
  else if shared (fst (fst k)) (snd k)
       then ((st ∖ {[k]}) ∖ {[(fst k, parent (snd k))]}, 0)
       else (st ∖ {[k]}, 0).

Definition feature_ref_enabled (st : gset fkey) (k : fkey) : bool := bool_decide (k ∈ st).

Lemma feature_ref_ok st k en st' :
  feature_ref_call st k en = (st', 0) -> feature_ref_enabled st' k = en.
Proof.
  unfold feature_ref_call, feature_ref_enabled. intros Hc.
  destruct (refuse k en); [congruence|]. destruct en.
  - simplify_eq. apply bool_decide_eq_true. set_solver.
  - destruct (shared _ _); simplify_eq; apply bool_decide_eq_false; set_solver.
Qed.

Lemma feature_ref_err st k en st' rv :
  feature_ref_call st k en = (st', rv) -> rv <> 0 ->
  forall k', feature_ref_enabled st' k' = feature_ref_enabled st k'.
Proof.
  unfold feature_ref_call. intros Hc Hrv k'.
  destruct (refuse k en); [by simplify_eq|].
  destruct en; [congruence|]. destruct (shared _ _); congruence.
Qed.

Lemma feature_ref_frame st k en st' rv :
  feature_ref_call st k en = (st', rv) -> shared (fst (fst k)) (snd k) = false ->
  forall k', k' <> k -> feature_ref_enabled st' k' = feature_ref_enabled st k'.
Proof.
  unfold feature_ref_call, feature_ref_enabled. intros Hc Hs k' Hne. rewrite Hs in Hc.
  destruct (refuse k en); [by simplify_eq|].
  destruct en; simplify_eq; apply bool_decide_ext; set_solver.
Qed.

Definition feature_ref : VnetFeature := {|
  fstate := gset fkey;
  vnet_feature_enable_disable := feature_ref_call;
  vnet_feature_is_enabled := feature_ref_enabled;
  shared_config := shared;
  feature_ok := feature_ref_ok;
  feature_err := feature_ref_err;
  feature_frame := feature_ref_frame
|}.

End Reference.

(** Every call succeeds and no configuration is shared. *)
Definition feature_ref_total : VnetFeature :=
  feature_ref (fun _ _ => false) (fun _ _ => false) id.
