(* ===== verification/IpValidateCtl.v ===== *)
(** * Control of the ip_validate plugin (ip_validate/ip_validate.c)

    The API handler that turns the two validation features of an interface on
    or off, with its rollback, and the interface add/del callback that turns
    them on for every interface. *)

From S2P Require Import Prelude Vlib Feature.

(** The plugin's global state. *)
Record ip_validate_main_t := mkIvm {
  iv_msg_id_base : Z             (* u16 *)
}.

(** [setup_message_id_table] is what VPP's API machinery answers: the first of the
    message ids it hands out to the plugin, cut to the field's width. *)
Definition ip_validate_init (setup_message_id_table : Z) (sm : ip_validate_main_t)
    : ip_validate_main_t :=
  mkIvm (u16 setup_message_id_table).

Section IpValidate.
Context `{Vlib} `{VnetFeature}.

(** [VALIDATE_SW_IF_INDEX] accepts the interface *)
Variable sw_if_index_is_valid : Z -> bool.
Variable VNET_API_ERROR_INVALID_SW_IF_INDEX : Z.

Definition ip4_validate_key (sw_if_index : Z) : fkey :=
  ("ip4-unicast", "ip4-validate", sw_if_index)%string.
Definition ip6_validate_key (sw_if_index : Z) : fkey :=
  ("ip6-unicast", "ip6-validate", sw_if_index)%string.

(** The message's [sw_if_index] is in network order, as received.  The result
    is VPP's feature state and the [retval] of the reply. *)
Definition vl_api_ip_validate_enable_disable_t_handler (st : fstate)
    (mp_sw_if_index : Z) (mp_is_enable : bool) : fstate * Z :=
  let sw_if_index := net_to_host host 4 mp_sw_if_index in
  let is_enable := mp_is_enable in
  if negb (sw_if_index_is_valid sw_if_index) then
    (st, VNET_API_ERROR_INVALID_SW_IF_INDEX)
  else
    let '(st, rv) :=
      vnet_feature_enable_disable st (ip4_validate_key sw_if_index) is_enable in
    if c_true rv then (st, rv)
    else
      let '(st, rv) :=
        vnet_feature_enable_disable st (ip6_validate_key sw_if_index) is_enable in
      if c_true rv then
        let '(st, _) :=
          vnet_feature_enable_disable st (ip4_validate_key sw_if_index) (negb is_enable) in
        (st, rv)
      else (st, rv).

(** The return values are ignored; the callback returns no error. *)
Definition ip_validate_sw_interface_add_del (st : fstate) (sw_if_index : Z) (is_add : bool)
  : fstate :=
  let '(st, _) := vnet_feature_enable_disable st (ip4_validate_key sw_if_index) is_add in
  let '(st, _) := vnet_feature_enable_disable st (ip6_validate_key sw_if_index) is_add in
  st.

(** The interfaces VPP creates and deletes over time, each with the callback. *)
Inductive if_event := IfAdd (sw_if_index : Z) | IfDel (sw_if_index : Z).

Definition ip_validate_event (st : fstate) (ev : if_event) : fstate :=
  match ev with
  | IfAdd sw => ip_validate_sw_interface_add_del st sw true
  | IfDel sw => ip_validate_sw_interface_add_del st sw false
  end.

Definition ip_validate_events (st : fstate) (evs : list if_event) : fstate :=
  fold_left ip_validate_event evs st.

(** The interfaces that exist after the events. *)
Definition live_event (live : gset Z) (ev : if_event) : gset Z :=
  match ev with
  | IfAdd sw => {[sw]} ∪ live
  | IfDel sw => live ∖ {[sw]}
  end.

Definition live_after (live : gset Z) (evs : list if_event) : gset Z :=
  fold_left live_event evs live.

(** Validation is on, for both protocols, on exactly the interfaces of [live]. *)
Definition validates (st : fstate) (live : gset Z) : Prop := forall sw,
  vnet_feature_is_enabled st (ip4_validate_key sw) = bool_decide (sw ∈ live) /\
  vnet_feature_is_enabled st (ip6_validate_key sw) = bool_decide (sw ∈ live).

End IpValidate.

(** Interface 5 exists; VPP refuses to enable ip6-validate: the request is
    rolled back. *)
Definition refuse_ip6 (k : fkey) (en : bool) : bool :=
  bool_decide (fst k = ("ip6-unicast", "ip6-validate")%string) && en.

(** ** Lemmas *)

Section IpValidateFacts.
Context `{VnetFeature}.

Hypothesis unicast_own : forall sw,
  shared_config "ip4-unicast"%string sw = false /\ shared_config "ip6-unicast"%string sw = false.

Lemma ip4_key_ne_ip6 sw sw' : ip4_validate_key sw <> ip6_validate_key sw'.
Proof. done. Qed.

Lemma frame4 st sw en st' rv k :
  vnet_feature_enable_disable st (ip4_validate_key sw) en = (st', rv) ->
  k <> ip4_validate_key sw -> vnet_feature_is_enabled st' k = vnet_feature_is_enabled st k.
Proof. intros Hc Hne. eapply feature_frame; [done| |done]. apply unicast_own. Qed.

Lemma frame6 st sw en st' rv k :
  vnet_feature_enable_disable st (ip6_validate_key sw) en = (st', rv) ->
  k <> ip6_validate_key sw -> vnet_feature_is_enabled st' k = vnet_feature_is_enabled st k.
Proof. intros Hc Hne. eapply feature_frame; [done| |done]. apply unicast_own. Qed.

Lemma add_del_spec st sw en :
  (forall st k en, snd (vnet_feature_enable_disable st k en) = 0) ->
  let st' := ip_validate_sw_interface_add_del st sw en in
  vnet_feature_is_enabled st' (ip4_validate_key sw) = en /\
  vnet_feature_is_enabled st' (ip6_validate_key sw) = en /\
  forall k, k <> ip4_validate_key sw -> k <> ip6_validate_key sw ->
    vnet_feature_is_enabled st' k = vnet_feature_is_enabled st k.
Proof.
  intros Hok. cbv zeta. unfold ip_validate_sw_interface_add_del.
  pose proof (Hok st (ip4_validate_key sw) en) as H4.
  destruct (vnet_feature_enable_disable st (ip4_validate_key sw) en) as [st1 rv1] eqn:E1.
  pose proof (Hok st1 (ip6_validate_key sw) en) as H6.
  destruct (vnet_feature_enable_disable st1 (ip6_validate_key sw) en) as [st2 rv2] eqn:E2.
  cbn in H4, H6. subst. split_and!.
  - rewrite (frame6 _ _ _ _ _ _ E2) by done. by eapply feature_ok.
  - by eapply feature_ok.
  - intros k Hk4 Hk6. rewrite (frame6 _ _ _ _ _ _ E2), (frame4 _ _ _ _ _ _ E1); done.
Qed.

Lemma validates_toggle st live live' sw' en :
  (forall st k en, snd (vnet_feature_enable_disable st k en) = 0) ->
  validates st live -> bool_decide (sw' ∈ live') = en ->
  (forall sw, sw <> sw' -> sw ∈ live' <-> sw ∈ live) ->
  validates (ip_validate_sw_interface_add_del st sw' en) live'.
Proof.
  intros Hok Hv Hen Hother sw. destruct (add_del_spec st sw' en Hok) as (H4 & H6 & Hf).
  destruct (decide (sw = sw')) as [->|Hne]; [by rewrite H4, H6, Hen|].
  rewrite !Hf by (unfold ip4_validate_key, ip6_validate_key; congruence).
  destruct (Hv sw) as [-> ->]. split; apply bool_decide_ext; by rewrite Hother.
Qed.

Lemma validates_event st live ev :
  (forall st k en, snd (vnet_feature_enable_disable st k en) = 0) ->
  validates st live -> validates (ip_validate_event st ev) (live_event live ev).
Proof.
  intros Hok Hv. destruct ev as [sw'|sw']; eapply validates_toggle; try done; cbn.
  - apply bool_decide_eq_true. set_solver.
  - set_solver.
  - apply bool_decide_eq_false. set_solver.
  - set_solver.
Qed.

Lemma validates_events st live evs :
  (forall st k en, snd (vnet_feature_enable_disable st k en) = 0) ->
  validates st live -> validates (ip_validate_events st evs) (live_after live evs).
Proof.
  intros Hok. revert st live. induction evs as [|ev evs IH]; intros st live Hv; [done|].
  by apply IH, validates_event.
Qed.

End IpValidateFacts.

(** ** Properties *)

(** Production behaviour of the plugin: starting from a state where
    validation is on for exactly the existing interfaces, after any sequence of
    interface creations and deletions whose feature calls succeed it is again on,
    for IPv4 and for IPv6, for exactly the interfaces that exist. *)
Theorem ip_validate_every_interface `{VnetFeature} (st : fstate) (live : gset Z)
    (evs : list if_event)
    (Hown : forall sw, shared_config "ip4-unicast"%string sw = false /\
                       shared_config "ip6-unicast"%string sw = false)
    (Hok : forall st k en, snd (vnet_feature_enable_disable st k en) = 0)
    (Hv : validates st live) :
  validates (ip_validate_events st evs) (live_after live evs).
Proof. by apply validates_events. Qed.

Lemma ip_validate_every_interface_witness :
  @validates feature_ref_total
    (@ip_validate_events feature_ref_total ∅ [IfAdd 1; IfAdd 2; IfDel 1]) {[2]}.
Proof.
  assert (live_after ∅ [IfAdd 1; IfAdd 2; IfDel 1] = {[2]}) as <- by (vm_compute; reflexivity).
  apply (@ip_validate_every_interface feature_ref_total).
  - done.
  - intros st k []; done.
  - intros sw. split; vm_compute; reflexivity.
Defined.

(** C25.  The API handler answers 0 only with both features of the interface in
    the requested state, and features of other keys never change.  When it answers an
    error it is one of three: the index is refused and nothing was called; the IPv4 call
    failed, its code is the answer and no feature has changed; or the IPv4 call succeeded
    and the IPv6 call failed with the answer, IPv6 is as before, and IPv4 is in the state
    opposite to the request when the rollback succeeds (whatever it was before the call)
    and in the requested state when the rollback fails too. *)
Theorem ip_validate_handler_atomic `{Vlib} `{VnetFeature} (valid : Z -> bool) (einval : Z)
    (Heinval : einval <> 0)
    (Hown : forall sw, shared_config "ip4-unicast"%string sw = false /\
                       shared_config "ip6-unicast"%string sw = false)
    (st : fstate) (mp_sw_if_index : Z) (en : bool) :
  let sw := net_to_host host 4 mp_sw_if_index in
  let on := vnet_feature_is_enabled in
  let '(st', rv) :=
    vl_api_ip_validate_enable_disable_t_handler valid einval st mp_sw_if_index en in
  (forall k, k <> ip4_validate_key sw -> k <> ip6_validate_key sw -> on st' k = on st k) /\
  (rv = 0 -> valid sw = true /\
     on st' (ip4_validate_key sw) = en /\ on st' (ip6_validate_key sw) = en) /\
  (rv <> 0 ->
     (valid sw = false /\ rv = einval /\ st' = st) \/
     (valid sw = true /\ snd (vnet_feature_enable_disable st (ip4_validate_key sw) en) = rv /\
        forall k, on st' k = on st k) \/
     (valid sw = true /\ exists st1 st2 rv3,
        vnet_feature_enable_disable st (ip4_validate_key sw) en = (st1, 0) /\
        vnet_feature_enable_disable st1 (ip6_validate_key sw) en = (st2, rv) /\
        vnet_feature_enable_disable st2 (ip4_validate_key sw) (negb en) = (st', rv3) /\
        on st' (ip6_validate_key sw) = on st (ip6_validate_key sw) /\
        on st' (ip4_validate_key sw) = if rv3 =? 0 then negb en else en)).
Proof.
  cbv zeta. unfold vl_api_ip_validate_enable_disable_t_handler.
  set (sw := net_to_host host 4 mp_sw_if_index).
  destruct (valid sw) eqn:Hval; cbn [negb]; [|split_and!; auto; congruence].
  destruct (vnet_feature_enable_disable st _ en) as [st1 rv1] eqn:E1.
  destruct (c_true rv1) eqn:Hrv1.
  { apply c_true_iff in Hrv1. pose proof (feature_err _ _ _ _ _ E1 Hrv1) as Hs.
    split_and!; [auto|congruence|]. intros _. right; left. by split_and!. }
  unfold c_true in Hrv1. breflect. subst rv1.
  destruct (vnet_feature_enable_disable st1 _ en) as [st2 rv2] eqn:E2.
  destruct (c_true rv2) eqn:Hrv2.
  - apply c_true_iff in Hrv2. pose proof (feature_err _ _ _ _ _ E2 Hrv2) as Hs2.
    destruct (vnet_feature_enable_disable st2 _ (negb en)) as [st3 rv3] eqn:E3.
    assert (Hfr : forall k, k <> ip4_validate_key sw ->
      vnet_feature_is_enabled st3 k = vnet_feature_is_enabled st k).
    { intros k Hk. rewrite (frame4 Hown _ _ _ _ _ _ E3) by done.
      rewrite Hs2. by apply (frame4 Hown _ _ _ _ _ _ E1). }
    split_and!; [auto|congruence|]. intros _. right; right. split; [done|]. exists st1, st2, rv3.
    split_and!; [done|done|done|by apply Hfr|]. destruct (Z.eqb_spec rv3 0) as [->|Hrv3].
    + by apply (feature_ok _ _ _ _ E3).
    + rewrite (feature_err _ _ _ _ _ E3 Hrv3), Hs2. by apply (feature_ok _ _ _ _ E1).
  - unfold c_true in Hrv2. breflect. subst rv2. split_and!; [| |congruence].
    + intros k Hk4 Hk6. rewrite (frame6 Hown _ _ _ _ _ _ E2) by done.
      by apply (frame4 Hown _ _ _ _ _ _ E1).
    + intros _. split; [done|]. split; [|by apply (feature_ok _ _ _ _ E2)].
      rewrite (frame6 Hown _ _ _ _ _ _ E2) by done. by apply (feature_ok _ _ _ _ E1).
Qed.

Lemma ip_validate_handler_atomic_witness :
  let F := feature_ref refuse_ip6 (fun _ _ => false) id in
  let '(st', rv) := @vl_api_ip_validate_enable_disable_t_handler vlib_ref F
    (fun sw => sw =? 5) (-2) ∅ (net_to_host LE 4 5) true in
  rv = -1 /\ @vnet_feature_is_enabled F st' (ip4_validate_key 5) = false.
Proof.
  cbv zeta.
  pose proof (@ip_validate_handler_atomic vlib_ref
    (feature_ref refuse_ip6 (fun _ _ => false) id) (fun sw => sw =? 5) (-2) ltac:(lia)
    (fun sw => conj eq_refl eq_refl) ∅ (net_to_host LE 4 5) true) as Hw.
  destruct (vl_api_ip_validate_enable_disable_t_handler _ _ _ _ _) as [st' rv] eqn:E.
  vm_compute in E. injection E as <- <-.
  split; [done|]. destruct Hw as (_ & _ & Hw).
  destruct (Hw ltac:(lia)) as [(Hv & _)|[(_ & Hc & _)|(_ & _ & _ & rv3 & _ & _ & _ & _ & _)]].
  - vm_compute in Hv. discriminate.
  - vm_compute in Hc. discriminate.
  - vm_compute. reflexivity.
Defined.
