(* ===== verification/SonicExt.v ===== *)
(** * Shared parts of the sonic_ext plugin (sonic_ext.h, sonic_ext.c)

    The plugin's global state, the view it has of VPP's interface table and of
    the linux-cp pair database, the classification of interfaces (BVI, bond,
    aggregate), and [sonic_ext_redirect_to_ingress_tap], the routine both
    redirect nodes use to hand a packet to the tap of the port it came in on. *)

From S2P Require Import Prelude Vlib.

(** ** Data *)

Definition SONIC_EXT_BUFFER_MAGIC : Z := 0x534e4358.

(** [INDEX_INVALID], and [~0] as an interface index *)
Definition INDEX_INVALID : Z := U32_MAX.

Definition ETHERNET_TYPE_VLAN : Z := 0x8100.
Definition ETHERNET_TYPE_DOT1AD : Z := 0x88a8.
Definition ETHERNET_TYPE_VLAN_9100 : Z := 0x9100.

(** [vnet_sw_interface_type_t]: the plugin tells sub-interfaces from the rest. *)
Inductive sw_if_type := VNET_SW_INTERFACE_TYPE_SUB | VNET_SW_INTERFACE_TYPE_OTHER.

Record vnet_sw_interface_t := mkSwif { swi_type : sw_if_type; sup_sw_if_index : Z }.

Record lcp_itf_pair_t := mkLip {
  lip_phy_sw_if_index : Z;
  lip_host_sw_if_index : Z
}.

#[export] Instance lcp_itf_pair_eq_dec : EqDecision lcp_itf_pair_t.
Proof. solve_decision. Defined.

Record sonic_ext_main_t := mkSem {
  msg_id_base : Z;
  punt_via_member : bool;
  host_xc : bool;
  capture_enabled : bool;
  host_xc_enabled : bool;
  glean_redirect_enabled : bool;
  captures : Z;
  aggr_tap_redirects : Z;
  glean_redirects : Z;
  host_xc_direct : Z;
  l2_trap_fixups : Z;
  ip2me_hits : Z
}.

(** What the plugin reads of VPP's interface table and of the linux-cp plugin's
    pair database, at one moment. *)
Record vnet_env := mkEnv {
  vnet_get_sw_interface_or_null : Z -> option vnet_sw_interface_t;
  (** device class name of the interface's super hardware interface: [None] when
      there is no such hardware interface, [Some None] when the device class or
      its name is null *)
  sup_hw_dev_class_name : Z -> option (option string);
  (** [vec_len (l2im->configs)] and [l2_input_is_bvi] of a configuration *)
  l2_configs_len : Z;
  l2_input_is_bvi : Z -> bool;
  lcp_itf_pair_find_by_phy : Z -> Z;
  lcp_itf_pair_find_by_host : Z -> Z;
  lcp_itf_pair_get : Z -> option lcp_itf_pair_t
}.

(** Reading through the pointer [lcp_itf_pair_get] returned; the pair of a valid
    index is never null ([lcp_ok]). *)
Definition lip_deref (p : option lcp_itf_pair_t) : lcp_itf_pair_t := default (mkLip 0 0) p.

(** The pair database answers consistently: an index found by phy or by host is
    the index of a pair with that phy, that host. *)
Definition lcp_ok (E : vnet_env) : Prop :=
  (forall phy, lcp_itf_pair_find_by_phy E phy <> INDEX_INVALID ->
     exists lip, lcp_itf_pair_get E (lcp_itf_pair_find_by_phy E phy) = Some lip /\
       lip_phy_sw_if_index lip = phy) /\
  (forall hst, lcp_itf_pair_find_by_host E hst <> INDEX_INVALID ->
     exists lip, lcp_itf_pair_get E (lcp_itf_pair_find_by_host E hst) = Some lip /\
       lip_host_sw_if_index lip = hst).

(** ** Interface classification *)

Definition is_sub (swi : vnet_sw_interface_t) : bool :=
  match swi_type swi with VNET_SW_INTERFACE_TYPE_SUB => true | _ => false end.

Definition sonic_ext_sw_is_sub (E : vnet_env) (sw_if_index : Z) : bool :=
  match vnet_get_sw_interface_or_null E sw_if_index with
  | Some swi => is_sub swi
  | None => false
  end.

Definition sonic_ext_phy_is_bvi (E : vnet_env) (phy_sw_if_index : Z) : bool :=
  if phy_sw_if_index =? U32_MAX then false
  else match vnet_get_sw_interface_or_null E phy_sw_if_index with
  | None => false
  | Some swi =>
      if is_sub swi then false
      else if phy_sw_if_index <? l2_configs_len E
      then l2_input_is_bvi E phy_sw_if_index
      else false
  end.

Definition sonic_ext_phy_is_bond (E : vnet_env) (phy_sw_if_index : Z) : bool :=
  if phy_sw_if_index =? U32_MAX then false
  else match vnet_get_sw_interface_or_null E phy_sw_if_index with
  | None => false
  | Some _ =>
      match sup_hw_dev_class_name E phy_sw_if_index with
      | Some (Some name) => bool_decide (name = "bond"%string)
      | _ => false
      end
  end.

Definition sonic_ext_phy_is_aggregate (E : vnet_env) (phy_sw_if_index : Z) : bool :=
  if sonic_ext_phy_is_bvi E phy_sw_if_index then true
  else if sonic_ext_phy_is_bond E phy_sw_if_index then true
  else false.

(** ** The redirect *)

(** [etype] is one of the three VLAN ethertypes the plugin knows. *)
Definition is_vlan_etype (etype : Z) : bool :=
  (etype =? ETHERNET_TYPE_VLAN) || (etype =? ETHERNET_TYPE_DOT1AD)
  || (etype =? ETHERNET_TYPE_VLAN_9100).

Section Redirect.
Context `{Vlib}.

(** [clib_net_to_host_u16] of the 16-bit word 12 bytes past the current position *)
Definition cur_etype (b : vlib_buffer_t) : Z :=
  net_to_host host 2 (load host (cur_bytes b 12 2)).

(** The two halves of the saved tag, as the source reads them through a
    [u16] pointer to it. *)
Definition tag_tpid (tag : Z) : Z := net_to_host host 2 (load host (take 2 (store host 4 tag))).
Definition tag_vlan_id (tag : Z) : Z :=
  Z.land (net_to_host host 2 (load host (drop 2 (store host 4 tag)))) 0x0fff.

(** Open four bytes in front of the frame and put the tag after the MACs. *)
Definition push_tag (tag : Z) (b : vlib_buffer_t) : vlib_buffer_t :=
  let save_macs := cur_bytes b 0 12 in
  let b := vlib_buffer_advance b (-4) in
  let new_cur := current_data b in
  let b := set_data (wr_bytes (data b) new_cur save_macs) b in
  let b := set_data (wr_bytes (data b) (new_cur + 12) (store host 4 tag)) b in
  set_l2_hdr_offset (i16 (l2_hdr_offset b - 4)) b.

(** The results are the return value and the three out-parameters. *)
Record redirect_result := mkRedirect {
  rr_done : bool;
  rr_buf : vlib_buffer_t;
  rr_host_tap : Z;
  rr_pushed_tpid : Z;
  rr_pushed_vlan_id : Z
}.

Definition sonic_ext_redirect_to_ingress_tap (E : vnet_env) (b : vlib_buffer_t)
    (orig_rx excluded_tap : Z) : redirect_result :=
  let saved_vlan_tag := orig_vlan_tag (seb b) in
  match vnet_get_sw_interface_or_null E orig_rx with
  | None => mkRedirect false b U32_MAX 0 0
  | Some swo =>
      let phy_sw := if is_sub swo then sup_sw_if_index swo else orig_rx in
      let lipi := lcp_itf_pair_find_by_phy E phy_sw in
      if lipi =? INDEX_INVALID then mkRedirect false b U32_MAX 0 0
      else
        let host_tap := lip_host_sw_if_index (lip_deref (lcp_itf_pair_get E lipi)) in
        if host_tap =? excluded_tap then mkRedirect false b host_tap 0 0
        else
          let b := set_seb (mkSeb 0 (orig_rx_sw_if_index (seb b)) (orig_vlan_tag (seb b))) b in
          let adv := i32 (l2_hdr_offset b - current_data b) in
          let b := vlib_buffer_advance b adv in
          let '(b, tpid, vid) :=
            if c_true saved_vlan_tag && (4 <=? current_data b) then
              if is_vlan_etype (cur_etype b) then (b, 0, 0)
              else (push_tag saved_vlan_tag b, tag_tpid saved_vlan_tag,
                    tag_vlan_id saved_vlan_tag)
            else (b, 0, 0) in
          mkRedirect true (set_tx host_tap b) host_tap tpid vid
  end.

End Redirect.

(** ** The target of a redirect *)

(** The tap the packet of [orig_rx] should be delivered to: the host tap of the
    pair of the port itself, or of the parent port for a sub-interface. *)
Definition ingress_tap (E : vnet_env) (orig_rx : Z) : option Z :=
  swo ← vnet_get_sw_interface_or_null E orig_rx;
  let phy := if is_sub swo then sup_sw_if_index swo else orig_rx in
  if lcp_itf_pair_find_by_phy E phy =? INDEX_INVALID then None
  else lip_host_sw_if_index <$> lcp_itf_pair_get E (lcp_itf_pair_find_by_phy E phy).

(** The cookie check all consumers make. *)
Definition has_cookie (b : vlib_buffer_t) : bool := magic (seb b) =? SONIC_EXT_BUFFER_MAGIC.

(** ** A reference environment

    Interfaces by index with their device class, the BVIs, and the list of
    pairs; a pair's index is its position. *)

Definition pair_index (p : lcp_itf_pair_t -> bool) (pairs : list lcp_itf_pair_t) : Z :=
  match list_find (fun l => p l = true) pairs with
  | Some (i, _) => Z.of_nat i
  | None => INDEX_INVALID
  end.

Definition env_ref (ifs : list (Z * (vnet_sw_interface_t * string))) (bvis : list Z)
    (pairs : list lcp_itf_pair_t) : vnet_env := {|
  vnet_get_sw_interface_or_null := fun i => fst <$> (list_to_map ifs : gmap Z _) !! i;
  sup_hw_dev_class_name := fun i => Some ∘ snd <$> (list_to_map ifs : gmap Z _) !! i;
  l2_configs_len := 64;
  l2_input_is_bvi := fun i => bool_decide (i ∈ bvis);
  lcp_itf_pair_find_by_phy := fun i => pair_index (fun l => lip_phy_sw_if_index l =? i) pairs;
  lcp_itf_pair_find_by_host := fun i => pair_index (fun l => lip_host_sw_if_index l =? i) pairs;
  lcp_itf_pair_get := fun i => if i <? 0 then None else pairs !! Z.to_nat i
|}.

(** Ports 1 and 2 with a sub-interface 3 of port 1, a bond 4 and a BVI 5; the
    taps of the pairs are 11, 12, 14 and 15. *)
Definition env_example : vnet_env :=
  env_ref [(1, (mkSwif VNET_SW_INTERFACE_TYPE_OTHER 1, "dpdk"%string));
           (2, (mkSwif VNET_SW_INTERFACE_TYPE_OTHER 2, "dpdk"%string));
           (3, (mkSwif VNET_SW_INTERFACE_TYPE_SUB 1, "dpdk"%string));
           (4, (mkSwif VNET_SW_INTERFACE_TYPE_OTHER 4, "bond"%string));
           (5, (mkSwif VNET_SW_INTERFACE_TYPE_OTHER 5, "Loopback"%string));
           (11, (mkSwif VNET_SW_INTERFACE_TYPE_OTHER 11, "virtio"%string));
           (12, (mkSwif VNET_SW_INTERFACE_TYPE_OTHER 12, "virtio"%string));
           (14, (mkSwif VNET_SW_INTERFACE_TYPE_OTHER 14, "virtio"%string));
           (15, (mkSwif VNET_SW_INTERFACE_TYPE_OTHER 15, "virtio"%string))]
    [5] [mkLip 1 11; mkLip 2 12; mkLip 4 14; mkLip 5 15].

(** All switches on, all totals zero. *)
Definition sem_example : sonic_ext_main_t := mkSem 0 true true true true true 0 0 0 0 0 0.

(** ** Lemmas *)

Lemma pair_index_get p pairs :
  pair_index p pairs <> INDEX_INVALID ->
  exists lip, (if pair_index p pairs <? 0 then None else pairs !! Z.to_nat (pair_index p pairs))
    = Some lip /\ p lip = true.
Proof.
  unfold pair_index. destruct (list_find _ pairs) as [[i lip]|] eqn:Hf; [|done]. intros _.
  apply list_find_Some in Hf as (Hi & Hp & _). exists lip.
  rewrite (proj2 (Z.ltb_ge _ _)) by lia. by rewrite Nat2Z.id.
Qed.

Lemma env_ref_lcp_ok ifs bvis pairs : lcp_ok (env_ref ifs bvis pairs).
Proof.
  split; intros i Hi; destruct (pair_index_get _ _ Hi) as (lip & Hlip & Hp);
    exists lip; (split; [exact Hlip|by apply Z.eqb_eq]).
Qed.

Lemma aggregate_iff E phy :
  sonic_ext_phy_is_aggregate E phy = true <->
  sonic_ext_phy_is_bvi E phy = true \/ sonic_ext_phy_is_bond E phy = true.
Proof.
  unfold sonic_ext_phy_is_aggregate.
  destruct (sonic_ext_phy_is_bvi E phy), (sonic_ext_phy_is_bond E phy); intuition.
Qed.

Section RedirectFacts.
Context `{Vlib}.

(** The redirect happens exactly when there is a tap and it is not excluded. *)
Lemma redirect_done_iff E b orig_rx excluded :
  lcp_ok E ->
  let r := sonic_ext_redirect_to_ingress_tap E b orig_rx excluded in
  if rr_done r then exists tap, ingress_tap E orig_rx = Some tap /\ tap <> excluded /\
      rr_host_tap r = tap /\ sw_if_index_tx (rr_buf r) = tap /\ magic (seb (rr_buf r)) = 0
  else rr_buf r = b /\ forall tap, ingress_tap E orig_rx = Some tap -> tap = excluded.
Proof.
  intros [Hphy _]. cbv zeta. unfold sonic_ext_redirect_to_ingress_tap, ingress_tap.
  destruct (vnet_get_sw_interface_or_null E orig_rx) as [swo|]; cbn; [|done].
  set (phy := if is_sub swo then _ else _).
  destruct (Z.eqb_spec (lcp_itf_pair_find_by_phy E phy) INDEX_INVALID) as [|Hv]; [done|].
  destruct (Hphy phy Hv) as (lip & Hlip & _). rewrite Hlip. cbn.
  destruct (Z.eqb_spec (lip_host_sw_if_index lip) excluded) as [He|Hne]; cbn.
  { split; [done|]. by intros tap [= <-]. }
  destruct (c_true _ && _); [destruct (is_vlan_etype _)|]; cbn;
    exists (lip_host_sw_if_index lip); split_and!; try done;
    unfold push_tag; rewrite ?vlib_buffer_advance_spec; done.
Qed.

End RedirectFacts.
