(* ===== verification/SonicCapture.v ===== *)
(** * The sonic-ext-capture node, and what the redirect makes of its snapshot
      (sonic_ext/capture_node.c, sonic_ext/sonic_ext.c)

    The capture node stamps every packet of a port with a cookie: the port and
    the outer VLAN tag as it was on the wire.  The redirect routine uses the
    cookie to give the packet back to the kernel.  The theorems say in which
    cases the frame the kernel gets is the frame of the wire. *)

From S2P Require Import Prelude Vlib SonicExt.

(** ** The node *)

Definition SONIC_EXT_CAPTURE_ERROR_CAPTURED : nat := 0.
Definition SONIC_EXT_CAPTURE_N_ERROR : nat := 1.

Section Capture.
Context `{Vlib}.

(** The body of the node's loop; the trace record holds [sw_if_index]. *)
Definition sonic_ext_capture_one (b : vlib_buffer_t) : outcome Z :=
  let '(next0, b) := vnet_feature_next b in
  let etype := cur_etype b in
  let tag := if is_vlan_etype etype then load host (cur_bytes b 12 4) else 0 in
  let b := set_seb (mkSeb SONIC_EXT_BUFFER_MAGIC (sw_if_index_rx b) tag) b in
  mkOutcome b (u16 next0) SONIC_EXT_CAPTURE_ERROR_CAPTURED (sw_if_index_rx b).

Definition sonic_ext_capture_node (sem : sonic_ext_main_t) (node_flags : Z) (st : buffers)
    (from : list Z) : node_result unit Z * sonic_ext_main_t :=
  let acc := frame_loop node_flags (stateless sonic_ext_capture_one)
    (frame_init tt st SONIC_EXT_CAPTURE_N_ERROR) from in
  let n_captured := count_of acc SONIC_EXT_CAPTURE_ERROR_CAPTURED in
  (frame_finish acc from,
   mkSem (msg_id_base sem) (punt_via_member sem) (host_xc sem) (capture_enabled sem)
     (host_xc_enabled sem) (glean_redirect_enabled sem) (u64 (captures sem + n_captured))
     (aggr_tap_redirects sem) (glean_redirects sem) (host_xc_direct sem)
     (l2_trap_fixups sem) (ip2me_hits sem)).

End Capture.

(** ** Reference notions *)

(** The frame of [n] bytes the buffer's current position designates, and the
    frame at the L2 header ethernet-input recorded. *)
Definition frame_at_cur (b : vlib_buffer_t) (n : nat) : list Z := cur_bytes b 0 n.
Definition frame_at_l2 (b : vlib_buffer_t) (n : nat) : list Z :=
  rd_bytes (data b) (l2_hdr_offset b) n.

(** An Ethernet frame by its parts: 12 bytes of MAC addresses, a 4-byte 802.1Q
    or 802.1ad tag, and what follows, starting with an ethertype. *)
Definition vlan_tag_bytes (tag : list Z) : Prop :=
  length tag = 4%nat /\ bytes_ok tag /\ is_vlan_etype (be_decode (take 2 tag)) = true.

#[export] Instance vlan_tag_bytes_dec tag : Decision (vlan_tag_bytes tag).
Proof. unfold vlan_tag_bytes. apply _. Defined.

Section Reference.
Context `{Vlib}.

(** The buffer the redirect returns, when it redirects. *)
Definition rewind (b : vlib_buffer_t) : vlib_buffer_t :=
  vlib_buffer_advance (set_seb (mkSeb 0 (orig_rx_sw_if_index (seb b)) (orig_vlan_tag (seb b))) b)
    (i32 (l2_hdr_offset b - current_data b)).

Definition rewind_push (b : vlib_buffer_t) : vlib_buffer_t :=
  if c_true (orig_vlan_tag (seb b)) && (4 <=? current_data (rewind b)) &&
     negb (is_vlan_etype (cur_etype (rewind b)))
  then push_tag (orig_vlan_tag (seb b)) (rewind b) else rewind b.

End Reference.

(** ** Example frames *)

(** A tagged frame on port 1 (TPID 0x8100, VLAN 100) as it comes in at position
    0, and as a bridge leaves it: tag popped, MAC addresses moved up by four. *)
Definition ex_macs : list Z := [2;0;0;0;0;1; 2;0;0;0;0;2].
Definition ex_tag : list Z := [0x81; 0x00; 0x00; 0x64].
Definition ex_inner : list Z := [0x81; 0x00; 0x00; 0x65].
Definition ex_rest : list Z := [0x08; 0x06; 0xaa; 0xbb].

Definition ex_buffer (pos l2 cur : Z) (bytes : list Z) (s : sonic_ext_buffer_opaque_t) :=
  mkBuffer (wr_bytes ∅ pos bytes) cur 64 0 0 0 0 l2 1 0 0 s.

Definition ex_wire (frame : list Z) : vlib_buffer_t := ex_buffer 0 0 0 frame (mkSeb 0 0 0).
Definition ex_popped (wire frame : list Z) : vlib_buffer_t :=
  ex_buffer 4 4 18 frame (seb (o_buf (@sonic_ext_capture_one vlib_ref (ex_wire wire)))).

(** ** Lemmas *)

Section Facts.
Context `{Vlib}.

Lemma is_vlan_etype_pos e : is_vlan_etype e = true -> 0 < e.
Proof.
  unfold is_vlan_etype, ETHERNET_TYPE_VLAN, ETHERNET_TYPE_DOT1AD, ETHERNET_TYPE_VLAN_9100.
  intros. breflect. destruct H0 as [H0|H0]; breflect; [destruct H0|]; breflect; lia.
Qed.

Lemma cur_etype_be b : buffer_ok b -> cur_etype b = be_decode (cur_bytes b 12 2).
Proof. intros Hb. apply (net_to_host_load host (cur_bytes b 12 2)). by apply rd_bytes_ok. Qed.

Lemma load_tag_nonzero tag : vlan_tag_bytes tag -> load host tag <> 0.
Proof.
  intros (Hlen & Hok & Hv) Hz. apply is_vlan_etype_pos in Hv.
  assert (tag = replicate 4 0) as ->; [|by vm_compute in Hv].
  eapply (load_inj host); [done|by_compute|by rewrite Hlen|].
  rewrite Hz. by destruct host.
Qed.

(** What the capture node stores. *)
Lemma capture_seb b :
  seb (o_buf (sonic_ext_capture_one b)) =
  mkSeb SONIC_EXT_BUFFER_MAGIC (sw_if_index_rx b)
    (if is_vlan_etype (cur_etype b) then load host (cur_bytes b 12 4) else 0).
Proof.
  unfold sonic_ext_capture_one, vnet_feature_next.
  by destruct (vnet_feature_next_at _ _).
Qed.

Lemma cur_bytes_split b i n1 n2 :
  cur_bytes b i (n1 + n2) = cur_bytes b i n1 ++ cur_bytes b (i + Z.of_nat n1) n2.
Proof. unfold cur_bytes. rewrite rd_bytes_app. do 2 f_equal. lia. Qed.

(** Pushing a tag in front of a frame with room for it. *)
Lemma push_tag_cur tag b :
  4 <= current_data b < 2 ^ 15 ->
  current_data (push_tag tag b) = current_data b - 4.
Proof.
  intros Hcd. unfold push_tag. rewrite vlib_buffer_advance_spec. cbn.
  apply i16_id. zsolve.
Qed.

Lemma store_length n v : length (store host n v) = n.
Proof. unfold store. destruct host; rewrite ?length_reverse; apply le_encode_length. Qed.

Lemma push_tag_data tag b :
  4 <= current_data b < 2 ^ 15 ->
  data (push_tag tag b) =
  wr_bytes (wr_bytes (data b) (current_data b - 4) (cur_bytes b 0 12))
    (current_data b - 4 + 12) (store host 4 tag).
Proof.
  intros Hcd. unfold push_tag. rewrite vlib_buffer_advance_spec. cbn.
  rewrite i16_id by zsolve. done.
Qed.

Lemma push_tag_frame tag b n :
  4 <= current_data b < 2 ^ 15 ->
  frame_at_cur (push_tag tag b) (16 + n) =
  cur_bytes b 0 12 ++ store host 4 tag ++ cur_bytes b 12 n.
Proof.
  intros Hcd. unfold frame_at_cur. unfold cur_bytes at 1.
  rewrite push_tag_cur, push_tag_data by done.
  set (k := current_data b - 4). set (macs := cur_bytes b 0 12).
  assert (Hmacs : length macs = 12%nat) by apply rd_bytes_length.
  pose proof (store_length 4 tag) as Htag.
  replace (16 + n)%nat with (12 + (4 + n))%nat by lia.
  rewrite !rd_bytes_app. f_equal; [|f_equal].
  - rewrite rd_bytes_wr_outside by lia. replace (k + 0) with k by lia.
    pose proof (rd_bytes_wr_same (data b) k macs) as Hs. by rewrite Hmacs in Hs.
  - replace (k + 0 + Z.of_nat 12) with (k + 12) by lia.
    pose proof (rd_bytes_wr_same (wr_bytes (data b) k macs) (k + 12) (store host 4 tag)) as Hs.
    by rewrite Htag in Hs.
  - rewrite !rd_bytes_wr_outside by lia. unfold cur_bytes, k. f_equal. lia.
Qed.

(** Bytes outside the 16 rewritten ones are not touched. *)
Lemma push_tag_outside tag b i :
  4 <= current_data b < 2 ^ 15 ->
  i < current_data b - 4 \/ current_data b + 12 <= i ->
  rd (data (push_tag tag b)) i = rd (data b) i.
Proof.
  intros Hcd Hi. rewrite push_tag_data by done.
  pose proof (store_length 4 tag). pose proof (rd_bytes_length (data b) (current_data b + 0) 12).
  rewrite !rd_wr_outside; unfold cur_bytes; [done|lia|lia].
Qed.

Lemma redirect_buf E b orig_rx excluded :
  let r := sonic_ext_redirect_to_ingress_tap E b orig_rx excluded in
  rr_done r = true -> rr_buf r = set_tx (rr_host_tap r) (rewind_push b).
Proof.
  cbv zeta. unfold sonic_ext_redirect_to_ingress_tap, rewind_push.
  destruct (vnet_get_sw_interface_or_null E orig_rx); [|done].
  destruct (_ =? INDEX_INVALID); [done|]. destruct (_ =? excluded); [done|].
  cbn [l2_hdr_offset current_data set_seb]. fold (rewind b).
  destruct (c_true _ && _); [destruct (is_vlan_etype _)|]; done.
Qed.

Lemma rewind_cur b :
  is_i16 (l2_hdr_offset b) -> is_i16 (current_data b) ->
  current_data (rewind b) = l2_hdr_offset b /\ data (rewind b) = data b /\
  l2_hdr_offset (rewind b) = l2_hdr_offset b.
Proof.
  intros Hl Hc. unfold rewind. rewrite vlib_buffer_advance_spec. cbn. split_and!; try done.
  assert (i32 (l2_hdr_offset b - current_data b) = l2_hdr_offset b - current_data b) as ->.
  { unfold i32. rewrite Z.mod_small; zsolve. }
  replace (current_data b + (l2_hdr_offset b - current_data b)) with (l2_hdr_offset b) by lia.
  by apply i16_id.
Qed.

Lemma rewind_frame b i n :
  is_i16 (l2_hdr_offset b) -> is_i16 (current_data b) ->
  cur_bytes (rewind b) i n = rd_bytes (data b) (l2_hdr_offset b + i) n.
Proof.
  intros Hl Hc. unfold cur_bytes. by destruct (rewind_cur b Hl Hc) as (-> & -> & _).
Qed.

Lemma redirect_done E b orig_rx excluded tap :
  lcp_ok E -> ingress_tap E orig_rx = Some tap -> tap <> excluded ->
  let r := sonic_ext_redirect_to_ingress_tap E b orig_rx excluded in
  rr_done r = true /\ rr_host_tap r = tap.
Proof.
  intros HE Htap Hne. cbv zeta. pose proof (redirect_done_iff E b orig_rx excluded HE) as Hd.
  cbv zeta in Hd. destruct (rr_done _); [|destruct Hd as [_ Hd]; by destruct Hne; apply Hd].
  destruct Hd as (t & Ht & _ & Hr & _). by simplify_eq.
Qed.

Lemma rewind_etype b :
  buffer_ok b -> is_i16 (l2_hdr_offset b) -> is_i16 (current_data b) ->
  cur_etype (rewind b) = be_decode (rd_bytes (data b) (l2_hdr_offset b + 12) 2).
Proof.
  intros Hok Hl Hc. rewrite cur_etype_be, rewind_frame by done || (unfold buffer_ok;
    by destruct (rewind_cur b Hl Hc) as (_ & -> & _)). done.
Qed.

(** The ethertype field of a frame known byte by byte. *)
Lemma frame_etype m k (macs rest : list Z) n :
  length macs = 12%nat -> (2 <= length rest)%nat -> n = (12 + length rest)%nat ->
  rd_bytes m k n = macs ++ rest -> rd_bytes m (k + 12) 2 = take 2 rest.
Proof.
  intros Hm Hr -> Heq. rewrite rd_bytes_app in Heq. apply app_inj_1 in Heq as [_ <-].
  - replace (length rest) with (2 + (length rest - 2))%nat by lia.
    rewrite rd_bytes_app, take_app_length'; [done|by rewrite rd_bytes_length].
  - by rewrite rd_bytes_length.
Qed.

(** The branches of [rewind_push], by the frame at the recorded L2 header. *)
Lemma rewind_push_cases b :
  buffer_ok b -> is_i16 (l2_hdr_offset b) -> is_i16 (current_data b) ->
  rewind_push b =
  if bool_decide (orig_vlan_tag (seb b) <> 0 /\ 4 <= l2_hdr_offset b /\
       is_vlan_etype (be_decode (rd_bytes (data b) (l2_hdr_offset b + 12) 2)) = false)
  then push_tag (orig_vlan_tag (seb b)) (rewind b) else rewind b.
Proof.
  intros Hok Hl Hc. unfold rewind_push. rewrite rewind_etype by done.
  destruct (rewind_cur b Hl Hc) as (-> & _ & _).
  destruct (c_true (orig_vlan_tag (seb b))) eqn:Ht; [apply c_true_iff in Ht|].
  - destruct (Z.leb_spec 4 (l2_hdr_offset b)); cbn;
      [destruct (is_vlan_etype _) eqn:He; cbn|];
      (rewrite bool_decide_eq_true_2 by done; done) ||
      (rewrite bool_decide_eq_false_2; [done|]; intros (? & ? & ?); (done || lia || congruence)).
  - cbn. rewrite bool_decide_eq_false_2; [done|]. intros (Hnz & _).
    apply c_true_iff in Hnz. congruence.
Qed.

(** The three VLAN ethertypes. *)
Lemma is_vlan_etype_iff e : is_vlan_etype e = true <-> e ∈ [0x8100; 0x88a8; 0x9100].
Proof.
  unfold is_vlan_etype. rewrite !orb_true_iff, !Z.eqb_eq, !elem_of_cons, elem_of_nil.
  unfold ETHERNET_TYPE_VLAN, ETHERNET_TYPE_DOT1AD, ETHERNET_TYPE_VLAN_9100. tauto.
Qed.

(** No tag is reported when none is pushed. *)
Lemma redirect_no_push E b orig_rx excluded :
  buffer_ok b -> is_i16 (l2_hdr_offset b) -> is_i16 (current_data b) ->
  ~ (orig_vlan_tag (seb b) <> 0 /\ 4 <= l2_hdr_offset b /\
     is_vlan_etype (be_decode (rd_bytes (data b) (l2_hdr_offset b + 12) 2)) = false) ->
  let r := sonic_ext_redirect_to_ingress_tap E b orig_rx excluded in
  rr_pushed_tpid r = 0 /\ rr_pushed_vlan_id r = 0.
Proof.
  intros Hok Hl Hc Hno. cbv zeta. unfold sonic_ext_redirect_to_ingress_tap.
  destruct (vnet_get_sw_interface_or_null E orig_rx); [|done].
  destruct (_ =? INDEX_INVALID); [done|]. destruct (_ =? excluded); [done|].
  cbn [l2_hdr_offset current_data set_seb]. fold (rewind b). rewrite rewind_etype by done.
  destruct (rewind_cur b Hl Hc) as (-> & _ & _).
  destruct (c_true (orig_vlan_tag (seb b))) eqn:Ht, (Z.leb_spec 4 (l2_hdr_offset b)); cbn; try done.
  destruct (is_vlan_etype _) eqn:He; [done|]. destruct Hno. by apply c_true_iff in Ht.
Qed.

Lemma capture_tag_load b tag rest macs :
  buffer_ok b -> length macs = 12%nat -> vlan_tag_bytes tag ->
  frame_at_cur b (16 + length rest) = macs ++ tag ++ rest ->
  orig_vlan_tag (seb (o_buf (sonic_ext_capture_one b))) = load host tag.
Proof.
  intros Hok Hm (Hlen & Htok & Hv) Hf. rewrite capture_seb. cbn [orig_vlan_tag].
  unfold frame_at_cur in Hf. replace (16 + length rest)%nat with (12 + (4 + length rest))%nat in Hf by lia.
  rewrite !cur_bytes_split in Hf. apply app_inj_1 in Hf as [_ Hf];
    [|by rewrite Hm; apply rd_bytes_length].
  apply app_inj_1 in Hf as [Htag _]; [|by rewrite Hlen; apply rd_bytes_length].
  change (0 + Z.of_nat 12) with 12 in Htag. rewrite Htag.
  assert (cur_bytes b 12 2 = take 2 tag) as He.
  { rewrite <- Htag. change 4%nat with (2 + 2)%nat.
    rewrite cur_bytes_split, take_app_length'; [done|]. unfold cur_bytes. by rewrite rd_bytes_length. }
  by rewrite cur_etype_be, He, Hv by done.
Qed.

Lemma tag_fields tag :
  bytes_ok tag -> length tag = 4%nat ->
  tag_tpid (load host tag) = be_decode (take 2 tag) /\
  tag_vlan_id (load host tag) = Z.land (be_decode (drop 2 tag)) 0x0fff.
Proof.
  intros Hok Hlen. unfold tag_tpid, tag_vlan_id.
  pose proof (store_load host tag Hok) as Hs. rewrite Hlen in Hs. rewrite Hs.
  pose proof (net_to_host_load host (take 2 tag)) as H1. rewrite length_take, Hlen in H1.
  pose proof (net_to_host_load host (drop 2 tag)) as H2. rewrite length_drop, Hlen in H2.
  split; [apply H1; by apply Forall_take|f_equal; apply H2; by apply Forall_drop].
Qed.

Lemma redirect_pushed E b orig_rx excluded :
  let r := sonic_ext_redirect_to_ingress_tap E b orig_rx excluded in
  rr_done r = true ->
  c_true (orig_vlan_tag (seb b)) && (4 <=? current_data (rewind b)) &&
     negb (is_vlan_etype (cur_etype (rewind b))) = true ->
  rr_pushed_tpid r = tag_tpid (orig_vlan_tag (seb b)) /\
  rr_pushed_vlan_id r = tag_vlan_id (orig_vlan_tag (seb b)).
Proof.
  cbv zeta. unfold sonic_ext_redirect_to_ingress_tap.
  destruct (vnet_get_sw_interface_or_null E orig_rx); [|done].
  destruct (_ =? INDEX_INVALID); [done|]. destruct (_ =? excluded); [done|].
  cbn [l2_hdr_offset current_data set_seb]. fold (rewind b).
  intros _ Hc. apply andb_true_iff in Hc as [-> Hv]. apply negb_true_iff in Hv. by rewrite Hv.
Qed.

(** The redirect of a packet whose captured tag is to be put back. *)
Lemma redirect_push E b orig_rx excluded tap :
  lcp_ok E -> buffer_ok b -> 4 <= l2_hdr_offset b < 2 ^ 15 -> is_i16 (current_data b) ->
  ingress_tap E orig_rx = Some tap -> tap <> excluded ->
  orig_vlan_tag (seb b) <> 0 ->
  is_vlan_etype (be_decode (rd_bytes (data b) (l2_hdr_offset b + 12) 2)) = false ->
  let r := sonic_ext_redirect_to_ingress_tap E b orig_rx excluded in
  rr_done r = true /\
  rr_buf r = set_tx tap (push_tag (orig_vlan_tag (seb b)) (rewind b)) /\
  rr_pushed_tpid r = tag_tpid (orig_vlan_tag (seb b)) /\
  rr_pushed_vlan_id r = tag_vlan_id (orig_vlan_tag (seb b)).
Proof.
  intros HE Hb Hl Hc Htap Hne Hnz Hnv. cbv zeta.
  assert (Hl' : is_i16 (l2_hdr_offset b)) by zsolve.
  destruct (redirect_done E b orig_rx excluded tap HE Htap Hne) as [Hd Ht].
  assert (Hcond : c_true (orig_vlan_tag (seb b)) && (4 <=? current_data (rewind b)) &&
     negb (is_vlan_etype (cur_etype (rewind b))) = true).
  { rewrite rewind_etype, Hnv by done. destruct (rewind_cur b Hl' Hc) as (-> & _).
    rewrite (proj2 (Z.leb_le _ _)), (proj2 (c_true_iff _)) by (done || lia). done. }
  split; [done|]. split; [|by apply redirect_pushed].
  pose proof (redirect_buf E b orig_rx excluded Hd) as Hbuf. cbv zeta in *.
  rewrite Hbuf, Ht. unfold rewind_push. by rewrite Hcond.
Qed.

Lemma push_tag_meta tag b :
  4 <= current_data b < 2 ^ 15 ->
  seb (push_tag tag b) = seb b /\
  l2_hdr_offset (push_tag tag b) = i16 (l2_hdr_offset b - 4).
Proof. intros Hcd. unfold push_tag. by rewrite vlib_buffer_advance_spec. Qed.

Lemma rewind_seb b : magic (seb (rewind b)) = 0.
Proof. unfold rewind. by rewrite vlib_buffer_advance_spec. Qed.

End Facts.

(** ** Theorems *)

Section Theorems.
Context `{Vlib}.

(** A frame that came in with a VLAN tag and whose tag was popped on the way
    (a bridge's tag rewrite) is handed to the ingress port's tap as it was on the
    wire: the redirect puts the captured tag back after the MAC addresses, reports
    the tag's TPID and VLAN id, points the buffer and its recorded L2 header at
    the rebuilt frame, consumes the cookie, and touches no byte outside the 16 it
    rewrites. *)
Theorem redirect_restores_wire_frame E b b' excluded tap macs tag rest :
  lcp_ok E -> buffer_ok b -> buffer_ok b' ->
  length macs = 12%nat -> vlan_tag_bytes tag -> (2 <= length rest)%nat ->
  is_vlan_etype (be_decode (take 2 rest)) = false ->
  frame_at_cur b (16 + length rest) = macs ++ tag ++ rest ->
  seb b' = seb (o_buf (sonic_ext_capture_one b)) ->
  frame_at_l2 b' (12 + length rest) = macs ++ rest ->
  4 <= l2_hdr_offset b' < 2 ^ 15 -> is_i16 (current_data b') ->
  ingress_tap E (sw_if_index_rx b) = Some tap -> tap <> excluded ->
  let r := sonic_ext_redirect_to_ingress_tap E b' (orig_rx_sw_if_index (seb b')) excluded in
  rr_done r = true /\ sw_if_index_tx (rr_buf r) = tap /\ magic (seb (rr_buf r)) = 0 /\
  frame_at_cur (rr_buf r) (16 + length rest) = macs ++ tag ++ rest /\
  frame_at_l2 (rr_buf r) (16 + length rest) = macs ++ tag ++ rest /\
  rr_pushed_tpid r = be_decode (take 2 tag) /\
  rr_pushed_vlan_id r = Z.land (be_decode (drop 2 tag)) 0x0fff /\
  forall i, i < l2_hdr_offset b' - 4 \/ l2_hdr_offset b' + 12 <= i ->
    rd (data (rr_buf r)) i = rd (data b') i.
Proof.
  intros HE Hb Hb' Hm Htag Hr Hnv Hf Hseb Hf' Hl Hc Htap Hne. cbv zeta.
  assert (Hl' : is_i16 (l2_hdr_offset b')) by zsolve.
  assert (Hsaved : orig_vlan_tag (seb b') = load host tag)
    by (rewrite Hseb; by eapply capture_tag_load).
  pose proof (frame_etype _ _ _ _ _ Hm Hr eq_refl Hf') as Het.
  destruct (redirect_push E b' (sw_if_index_rx b) excluded tap HE Hb' Hl Hc Htap Hne)
    as (Hd & Hbuf & Hp1 & Hp2); [by rewrite Hsaved; apply load_tag_nonzero|by rewrite Het|].
  rewrite Hsaved in Hbuf, Hp1, Hp2. rewrite Hseb, capture_seb. cbn [orig_rx_sw_if_index].
  destruct Htag as (Htl & Htok & Htv). destruct (tag_fields tag Htok Htl) as [Htp Htv'].
  destruct (rewind_cur b' Hl' Hc) as (Hrc & Hrd & Hrl).
  assert (Hrange : 4 <= current_data (rewind b') < 2 ^ 15) by (rewrite Hrc; lia).
  assert (Hframe : frame_at_cur (push_tag (load host tag) (rewind b')) (16 + length rest)
    = macs ++ tag ++ rest).
  { rewrite push_tag_frame, !rewind_frame by done. unfold frame_at_l2 in Hf'.
    rewrite rd_bytes_app in Hf'. apply app_inj_1 in Hf' as [Hf1 Hf2]; [|by rewrite rd_bytes_length].
    pose proof (store_load host tag Htok) as Hst. rewrite Htl in Hst.
    rewrite Z.add_0_r, Hf1, Hst. do 2 f_equal. exact Hf2. }
  destruct (push_tag_meta (load host tag) (rewind b') Hrange) as [Hms Hml].
  rewrite Hbuf, Hp1, Hp2. cbn [sw_if_index_tx seb data set_tx].
  split_and!; try done.
  - by rewrite Hms, rewind_seb.
  - rewrite <- Hframe. unfold frame_at_l2, frame_at_cur, cur_bytes. cbn [l2_hdr_offset data set_tx].
    rewrite push_tag_cur, Hml, Hrl, Hrc, i16_id by (done || zsolve). f_equal. lia.
  - intros i Hi. rewrite push_tag_outside by (rewrite ?Hrc; lia). by rewrite Hrd.
Qed.

(** C28.  The redirect never stacks a tag on a tagged frame, and never invents one:
    when the frame at the recorded L2 header still has a tag, when the packet came
    in untagged, or when there is no room in front of the frame, the tap gets
    exactly the bytes at the recorded L2 header, no byte of the buffer changes and
    no tag is reported. *)
Theorem redirect_leaves_frame E b orig_rx excluded tap n :
  lcp_ok E -> buffer_ok b -> is_i16 (l2_hdr_offset b) -> is_i16 (current_data b) ->
  ingress_tap E orig_rx = Some tap -> tap <> excluded ->
  orig_vlan_tag (seb b) = 0 \/ l2_hdr_offset b < 4 \/
    be_decode (rd_bytes (data b) (l2_hdr_offset b + 12) 2) ∈ [0x8100; 0x88a8; 0x9100] ->
  let r := sonic_ext_redirect_to_ingress_tap E b orig_rx excluded in
  rr_done r = true /\ sw_if_index_tx (rr_buf r) = tap /\ magic (seb (rr_buf r)) = 0 /\
  data (rr_buf r) = data b /\ frame_at_cur (rr_buf r) n = frame_at_l2 b n /\
  rr_pushed_tpid r = 0 /\ rr_pushed_vlan_id r = 0.
Proof.
  intros HE Hb Hl Hc Htap Hne Hwhy. cbv zeta. rewrite <- is_vlan_etype_iff in Hwhy.
  assert (Hno : ~ (orig_vlan_tag (seb b) <> 0 /\ 4 <= l2_hdr_offset b /\
    is_vlan_etype (be_decode (rd_bytes (data b) (l2_hdr_offset b + 12) 2)) = false))
    by (intros (Hnz & H4 & Hv); destruct Hwhy as [?|[?|?]]; [done|lia|congruence]).
  destruct (redirect_done E b orig_rx excluded tap HE Htap Hne) as [Hd Ht].
  pose proof (redirect_buf E b orig_rx excluded Hd) as Hbuf. cbv zeta in *.
  pose proof (redirect_no_push E b orig_rx excluded Hb Hl Hc Hno) as [Hp1 Hp2]. cbv zeta in *.
  rewrite rewind_push_cases, bool_decide_eq_false_2 in Hbuf by done.
  destruct (rewind_cur b Hl Hc) as (Hrc & Hrd & Hrl). rewrite Hbuf.
  split_and!; try done; [apply rewind_seb|].
  pose proof (rewind_frame b 0 n Hl Hc) as Hf. by rewrite Z.add_0_r in Hf.
Qed.

(** C31.  A frame with two tags whose outer one was popped does not get it back:
    the inner tag keeps the redirect from pushing, and the tap sees the frame
    without the tag that was captured. *)
Theorem redirect_loses_outer_tag E b b' excluded tap macs outer inner rest :
  lcp_ok E -> buffer_ok b -> buffer_ok b' ->
  length macs = 12%nat -> vlan_tag_bytes outer -> vlan_tag_bytes inner ->
  frame_at_cur b (16 + (4 + length rest)) = macs ++ outer ++ inner ++ rest ->
  seb b' = seb (o_buf (sonic_ext_capture_one b)) ->
  frame_at_l2 b' (12 + (4 + length rest)) = macs ++ inner ++ rest ->
  is_i16 (l2_hdr_offset b') -> is_i16 (current_data b') ->
  ingress_tap E (sw_if_index_rx b) = Some tap -> tap <> excluded ->
  let r := sonic_ext_redirect_to_ingress_tap E b' (orig_rx_sw_if_index (seb b')) excluded in
  orig_vlan_tag (seb b') = load host outer /\ rr_done r = true /\
  frame_at_cur (rr_buf r) (12 + (4 + length rest)) = macs ++ inner ++ rest.
Proof.
  intros HE Hb Hb' Hm Hout Hin Hf Hseb Hf' Hl Hc Htap Hne. cbv zeta.
  assert (Hrl : length (inner ++ rest) = (4 + length rest)%nat)
    by (rewrite length_app; by destruct Hin as [-> _]).
  split; [rewrite Hseb; eapply capture_tag_load; [done..|by rewrite Hrl]|].
  rewrite Hseb, capture_seb. cbn [orig_rx_sw_if_index].
  destruct (redirect_done E b' (sw_if_index_rx b) excluded tap HE Htap Hne) as [Hd Ht].
  pose proof (redirect_buf E b' (sw_if_index_rx b) excluded Hd) as Hbuf. cbv zeta in *.
  split; [done|]. rewrite Hbuf, rewind_push_cases, bool_decide_eq_false_2; try done.
  - rewrite <- Hf'. pose proof (rewind_frame b' 0 (12 + (4 + length rest)) Hl Hc) as Hr.
    by rewrite Z.add_0_r in Hr.
  - intros (_ & _ & Hv).
    rewrite (frame_etype _ _ macs (inner ++ rest) (12 + (4 + length rest))) in Hv;
      [|done|lia|lia|done].
    rewrite take_app_le in Hv by (destruct Hin as [-> _]; lia).
    destruct Hin as (_ & _ & Hin). congruence.
Qed.

End Theorems.

(** ** Witnesses *)

Lemma ex_buffer_ok pos l2 cur bytes s : bytes_ok bytes -> buffer_ok (ex_buffer pos l2 cur bytes s).
Proof. intros. apply mem_ok_wr; [apply mem_ok_empty|done]. Qed.

Ltac ex_hyp :=
  first [apply env_ref_lcp_ok | apply ex_buffer_ok; by_compute | by_compute | vm_compute; reflexivity].

Lemma redirect_restores_wire_frame_witness :
  let r := @sonic_ext_redirect_to_ingress_tap vlib_ref env_example
    (ex_popped (ex_macs ++ ex_tag ++ ex_rest) (ex_macs ++ ex_rest)) 1 15 in
  sw_if_index_tx (rr_buf r) = 11 /\
  frame_at_cur (rr_buf r) 20 = ex_macs ++ ex_tag ++ ex_rest.
Proof.
  destruct (@redirect_restores_wire_frame vlib_ref env_example
    (ex_wire (ex_macs ++ ex_tag ++ ex_rest))
    (ex_popped (ex_macs ++ ex_tag ++ ex_rest) (ex_macs ++ ex_rest)) 15 11 ex_macs ex_tag ex_rest)
    as (_ & Htx & _ & Hf & _);
    [ex_hyp ..|].
  split; [exact Htx|exact Hf].
Defined.

Lemma redirect_leaves_frame_witness :
  let b := ex_buffer 0 0 18 (ex_macs ++ ex_tag ++ ex_rest)
    (seb (o_buf (@sonic_ext_capture_one vlib_ref (ex_wire (ex_macs ++ ex_tag ++ ex_rest))))) in
  let r := @sonic_ext_redirect_to_ingress_tap vlib_ref env_example b 3 15 in
  sw_if_index_tx (rr_buf r) = 11 /\ frame_at_cur (rr_buf r) 20 = ex_macs ++ ex_tag ++ ex_rest.
Proof.
  cbv zeta.
  destruct (@redirect_leaves_frame vlib_ref env_example
    (ex_buffer 0 0 18 (ex_macs ++ ex_tag ++ ex_rest)
      (seb (o_buf (@sonic_ext_capture_one vlib_ref (ex_wire (ex_macs ++ ex_tag ++ ex_rest))))))
    3 15 11 20) as (_ & Htx & _ & _ & Hf & _);
    [ex_hyp ..|].
  split; [exact Htx|]. rewrite Hf. vm_compute. reflexivity.
Defined.

Lemma redirect_loses_outer_tag_witness :
  let r := @sonic_ext_redirect_to_ingress_tap vlib_ref env_example
    (ex_popped (ex_macs ++ ex_tag ++ ex_inner ++ ex_rest) (ex_macs ++ ex_inner ++ ex_rest)) 1 15 in
  frame_at_cur (rr_buf r) 20 = ex_macs ++ ex_inner ++ ex_rest.
Proof.
  destruct (@redirect_loses_outer_tag vlib_ref env_example
    (ex_wire (ex_macs ++ ex_tag ++ ex_inner ++ ex_rest))
    (ex_popped (ex_macs ++ ex_tag ++ ex_inner ++ ex_rest) (ex_macs ++ ex_inner ++ ex_rest))
    15 11 ex_macs ex_tag ex_inner ex_rest) as (_ & _ & Hf);
    [ex_hyp ..|].
  exact Hf.
Defined.
