(* ===== verification/SonicAggr.v ===== *)
(** * The sonic-ext-aggr-tap-redirect node (sonic_ext/aggr_tap_redirect_node.c)

    A feature on the interface-output arc of aggregate taps (BVI, bond): punted
    packets that carry a capture cookie are moved to the tap of the member port
    they came in on.  The theorems give the node's decision on every branch, and
    that a packet is moved at most once. *)

From S2P Require Import Prelude Vlib SonicExt SonicCapture.

(** ** The node *)

Definition SONIC_EXT_AGGR_TAP_REDIRECT_ERROR_REDIRECTED : nat := 0.
Definition SONIC_EXT_AGGR_TAP_REDIRECT_ERROR_NO_COOKIE : nat := 1.
Definition SONIC_EXT_AGGR_TAP_REDIRECT_ERROR_NO_LCP : nat := 2.
Definition SONIC_EXT_AGGR_TAP_REDIRECT_ERROR_DISABLED : nat := 3.
Definition SONIC_EXT_AGGR_TAP_REDIRECT_N_ERROR : nat := 4.

Definition SONIC_EXT_AGGR_TAP_REDIRECT_NEXT_INTERFACE_OUTPUT : Z := 0.

Record sonic_ext_aggr_tap_redirect_trace_t := mkAggrTrace {
  att_aggr_tap_sw_if_index : Z;
  att_orig_rx_sw_if_index : Z;
  att_member_tap_sw_if_index : Z;
  att_pushed_tpid : Z;
  att_pushed_vlan_id : Z;
  att_redirected : bool
}.

Section Aggr.
Context `{Vlib}.

(** [seb->magic = 0] *)
Definition clear_cookie (b : vlib_buffer_t) : vlib_buffer_t :=
  set_seb (mkSeb 0 (orig_rx_sw_if_index (seb b)) (orig_vlan_tag (seb b))) b.

Definition sonic_ext_aggr_tap_redirect_one (sem : sonic_ext_main_t) (E : vnet_env)
    (b : vlib_buffer_t) : outcome sonic_ext_aggr_tap_redirect_trace_t :=
  let aggr_tap := sw_if_index_tx b in
  let '(next0, b) := vnet_feature_next b in
  if negb (punt_via_member sem) then
    mkOutcome b (u16 next0) SONIC_EXT_AGGR_TAP_REDIRECT_ERROR_DISABLED
      (mkAggrTrace aggr_tap U32_MAX U32_MAX 0 0 false)
  else if negb (has_cookie b) then
    mkOutcome b (u16 next0) SONIC_EXT_AGGR_TAP_REDIRECT_ERROR_NO_COOKIE
      (mkAggrTrace aggr_tap U32_MAX U32_MAX 0 0 false)
  else
    let orig_rx := orig_rx_sw_if_index (seb b) in
    let r := sonic_ext_redirect_to_ingress_tap E b orig_rx aggr_tap in
    if negb (rr_done r) then
      mkOutcome (clear_cookie (rr_buf r)) (u16 next0) SONIC_EXT_AGGR_TAP_REDIRECT_ERROR_NO_LCP
        (mkAggrTrace aggr_tap orig_rx (rr_host_tap r) (rr_pushed_tpid r) (rr_pushed_vlan_id r) false)
    else
      mkOutcome (rr_buf r) SONIC_EXT_AGGR_TAP_REDIRECT_NEXT_INTERFACE_OUTPUT
        SONIC_EXT_AGGR_TAP_REDIRECT_ERROR_REDIRECTED
        (mkAggrTrace aggr_tap orig_rx (rr_host_tap r) (rr_pushed_tpid r) (rr_pushed_vlan_id r) true).

Definition sonic_ext_aggr_tap_redirect_node (sem : sonic_ext_main_t) (E : vnet_env)
    (node_flags : Z) (st : buffers) (from : list Z)
    : node_result unit sonic_ext_aggr_tap_redirect_trace_t * sonic_ext_main_t :=
  let acc := frame_loop node_flags (stateless (sonic_ext_aggr_tap_redirect_one sem E))
    (frame_init tt st SONIC_EXT_AGGR_TAP_REDIRECT_N_ERROR) from in
  let n_redirected := count_of acc SONIC_EXT_AGGR_TAP_REDIRECT_ERROR_REDIRECTED in
  (frame_finish acc from,
   mkSem (msg_id_base sem) (punt_via_member sem) (host_xc sem) (capture_enabled sem)
     (host_xc_enabled sem) (glean_redirect_enabled sem) (captures sem)
     (u64 (aggr_tap_redirects sem + n_redirected)) (glean_redirects sem) (host_xc_direct sem)
     (l2_trap_fixups sem) (ip2me_hits sem)).

End Aggr.

(** ** Specification *)

(** What should happen to a packet on an aggregate tap: the tap it is moved to,
    or the counter that says why it stays. *)
Definition aggr_target (sem : sonic_ext_main_t) (E : vnet_env) (b : vlib_buffer_t) : Z + nat :=
  if punt_via_member sem then
    if has_cookie b then
      match ingress_tap E (orig_rx_sw_if_index (seb b)) with
      | Some tap => if bool_decide (tap = sw_if_index_tx b)
          then inr SONIC_EXT_AGGR_TAP_REDIRECT_ERROR_NO_LCP else inl tap
      | None => inr SONIC_EXT_AGGR_TAP_REDIRECT_ERROR_NO_LCP
      end
    else inr SONIC_EXT_AGGR_TAP_REDIRECT_ERROR_NO_COOKIE
  else inr SONIC_EXT_AGGR_TAP_REDIRECT_ERROR_DISABLED.

(** A packet of port 1 that was bridged (its tag popped) and punted to the BVI's
    tap. *)
Definition ex_punted : vlib_buffer_t :=
  set_tx 15 (ex_popped (ex_macs ++ ex_tag ++ ex_rest) (ex_macs ++ ex_rest)).

(** ** Lemmas *)

Section Facts.
Context `{Vlib}.

Lemma feature_next_same b :
  let b' := snd (vnet_feature_next b) in
  data b' = data b /\ current_data b' = current_data b /\ seb b' = seb b /\
  l2_hdr_offset b' = l2_hdr_offset b /\ sw_if_index_tx b' = sw_if_index_tx b /\
  sw_if_index_rx b' = sw_if_index_rx b /\ adj_index_tx b' = adj_index_tx b /\
  error b' = error b /\ flags b' = flags b.
Proof. unfold vnet_feature_next. by destruct (vnet_feature_next_at _ _). Qed.

(** Whatever the outcome with the switch on, the cookie is gone. *)
Lemma aggr_consumes sem E b :
  lcp_ok E -> punt_via_member sem = true ->
  has_cookie (o_buf (sonic_ext_aggr_tap_redirect_one sem E b)) = false.
Proof.
  intros HE Hp. unfold sonic_ext_aggr_tap_redirect_one. destruct (vnet_feature_next b) as [n b'].
  rewrite Hp. cbn [negb]. destruct (has_cookie b') eqn:Hc; cbn [negb]; [|exact Hc].
  pose proof (redirect_done_iff E b' (orig_rx_sw_if_index (seb b')) (sw_if_index_tx b) HE) as Hd.
  cbv zeta in Hd. destruct (rr_done _); cbn; [|done].
  destruct Hd as (t & _ & _ & _ & _ & Hm). unfold has_cookie. by rewrite Hm.
Qed.

End Facts.

(** ** Theorems *)

Section Theorems.
Context `{Vlib}.

(** C8.  The decision on one packet: it is sent to interface-output on the tap
    of the port it came in on when the switch is on, it carries the capture
    cookie, that port has a pair, and its tap is not the one it is leaving on
    already; in every other case it goes on along the arc with its bytes,
    position and TX interface unchanged, and the counter names the first
    condition that failed.  The cookie is consumed unless the switch is off. *)
Theorem aggr_tap_redirect_decides sem E b (HE : lcp_ok E) :
  let o := sonic_ext_aggr_tap_redirect_one sem E b in
  match aggr_target sem E b with
  | inl tap =>
      o_err o = SONIC_EXT_AGGR_TAP_REDIRECT_ERROR_REDIRECTED /\
      o_next o = SONIC_EXT_AGGR_TAP_REDIRECT_NEXT_INTERFACE_OUTPUT /\
      sw_if_index_tx (o_buf o) = tap /\ att_member_tap_sw_if_index (o_trace o) = tap
  | inr why =>
      o_err o = why /\ o_next o = u16 (fst (vnet_feature_next b)) /\
      data (o_buf o) = data b /\ current_data (o_buf o) = current_data b /\
      sw_if_index_tx (o_buf o) = sw_if_index_tx b
  end /\
  att_redirected (o_trace o) = bool_decide (o_err o = SONIC_EXT_AGGR_TAP_REDIRECT_ERROR_REDIRECTED) /\
  has_cookie (o_buf o) = has_cookie b && negb (punt_via_member sem).
Proof.
  pose proof (aggr_consumes sem E b HE) as Hcons. cbv zeta.
  unfold sonic_ext_aggr_tap_redirect_one, aggr_target in *.
  destruct (feature_next_same b) as (Hd & Hcd & Hs & _ & Htx & _).
  destruct (vnet_feature_next b) as [n b']. cbn [fst snd] in *.
  assert (Hck : has_cookie b' = has_cookie b) by (unfold has_cookie; by rewrite Hs).
  rewrite <- Hck, <- Hs, <- Htx, <- Hd, <- Hcd. rewrite <- Htx in Hcons.
  destruct (punt_via_member sem); cbn [negb] in *; [|by rewrite andb_true_r].
  rewrite Hcons, andb_false_r by done. clear Hcons.
  destruct (has_cookie b'); cbn [negb]; [|done].
  pose proof (redirect_done_iff E b' (orig_rx_sw_if_index (seb b')) (sw_if_index_tx b') HE) as Hr.
  cbv zeta in Hr. destruct (rr_done _); cbn [negb o_err o_next o_buf o_trace].
  - destruct Hr as (tap & -> & Hne & Ht & Htx' & _). by rewrite bool_decide_eq_false_2.
  - destruct Hr as [-> Hr].
    destruct (ingress_tap E (orig_rx_sw_if_index (seb b'))) as [tap|]; [|done].
    by rewrite bool_decide_eq_true_2 by auto.
Qed.

(** No packet is redirected twice: once the node has handled a packet with
    the switch on, a later visit to it (interface-output runs the arc again on
    the member tap, whatever the interface table and the pairs are by then)
    finds no cookie and lets the packet through to that tap unchanged. *)
Theorem aggr_tap_redirect_once sem E sem' E' b b' (HE : lcp_ok E)
    (Hon : punt_via_member sem = true) :
  let o := sonic_ext_aggr_tap_redirect_one sem E b in
  seb b' = seb (o_buf o) ->
  let o' := sonic_ext_aggr_tap_redirect_one sem' E' b' in
  o_buf o' = snd (vnet_feature_next b') /\ o_next o' = u16 (fst (vnet_feature_next b')) /\
  o_err o' = (if punt_via_member sem' then SONIC_EXT_AGGR_TAP_REDIRECT_ERROR_NO_COOKIE
              else SONIC_EXT_AGGR_TAP_REDIRECT_ERROR_DISABLED).
Proof.
  cbv zeta. intros Hseb. pose proof (aggr_consumes sem E b HE Hon) as Hcons.
  destruct (feature_next_same b') as (_ & _ & Hs & _).
  unfold sonic_ext_aggr_tap_redirect_one at 1 2 3.
  destruct (vnet_feature_next b') as [n b'']. cbn [fst snd] in *.
  assert (has_cookie b'' = false) as ->.
  { unfold has_cookie in *. by rewrite Hs, Hseb. }
  by destruct (punt_via_member sem').
Qed.

End Theorems.

(** ** Witnesses *)

Lemma aggr_tap_redirect_decides_witness :
  sw_if_index_tx (o_buf (@sonic_ext_aggr_tap_redirect_one vlib_ref sem_example env_example
    ex_punted)) = 11.
Proof.
  pose proof (@aggr_tap_redirect_decides vlib_ref sem_example env_example ex_punted
    (env_ref_lcp_ok _ _ _)) as [Hw _].
  assert (Ht : aggr_target sem_example env_example ex_punted = inl 11)
    by (vm_compute; reflexivity).
  rewrite Ht in Hw. apply Hw.
Defined.

Lemma aggr_tap_redirect_once_witness :
  let o := @sonic_ext_aggr_tap_redirect_one vlib_ref sem_example env_example ex_punted in
  o_err (@sonic_ext_aggr_tap_redirect_one vlib_ref sem_example env_example (o_buf o)) = 1%nat.
Proof.
  destruct (@aggr_tap_redirect_once vlib_ref sem_example env_example sem_example env_example
    ex_punted (o_buf (@sonic_ext_aggr_tap_redirect_one vlib_ref sem_example env_example ex_punted))
    (env_ref_lcp_ok _ _ _) eq_refl eq_refl) as (_ & _ & Hw).
  exact Hw.
Defined.
