(* ===== verification/SonicGlean.v ===== *)
(** * The sonic-ext-glean-redirect node (sonic_ext/glean_redirect_node.c)

    A feature on the ip4-drop and ip6-drop arcs.  Those arcs see every dropped
    packet; the node takes only packets a neighbour-resolution node dropped for
    an unresolved adjacency, and hands them to the kernel through the tap of the
    port they came in on, at most once per throttle window for an adjacency and
    a port.  The throttle is stateful, so the loop threads its state. *)

From S2P Require Import Prelude Vlib SonicExt SonicCapture SonicAggr.

(** ** VPP, as far as this node uses it *)

(** [ip_lookup_next_t]: the node distinguishes two of its values. *)
Inductive ip_lookup_next_t :=
  | IP_LOOKUP_NEXT_GLEAN | IP_LOOKUP_NEXT_ARP | IP_LOOKUP_NEXT_OTHER.

Record ip_adjacency_t := mkAdj {
  lookup_next_index : ip_lookup_next_t;
  rewrite_sw_if_index : Z
}.

(** The adjacency pool, the error registry and the node registry. *)
Record glean_env := mkGleanEnv {
  adj_is_valid : Z -> bool;
  adj_get : Z -> ip_adjacency_t;
  vlib_error_get_node : Z -> Z;
  vlib_get_node_by_name : string -> option Z
}.

(** The throttle: a per-thread set of hashed keys, emptied when a new seed is
    drawn.  A check answers whether the key counts as seen (hashes may collide)
    and makes it seen; nothing becomes unseen while the seed is kept. *)
Class Throttle := {
  tstate : Type;
  throttle_init : Z -> tstate;
  throttle_seed : tstate -> Z -> Z -> tstate * Z;
  throttle_check : tstate -> Z -> Z -> Z -> tstate * bool;
  throttle_seen : tstate -> Z -> Z -> Z -> bool;
  throttle_check_answer : forall ts thread key seed,
    snd (throttle_check ts thread key seed) = throttle_seen ts thread key seed;
  throttle_check_marks : forall ts thread key seed,
    throttle_seen (fst (throttle_check ts thread key seed)) thread key seed = true;
  throttle_check_keeps : forall ts thread key key' seed,
    throttle_seen ts thread key' seed = true ->
    throttle_seen (fst (throttle_check ts thread key seed)) thread key' seed = true
}.

(** A throttle without collisions whose window never ends. *)
Definition throttle_ref_check (ts : gset (Z * Z)) (thread key _ : Z) : gset (Z * Z) * bool :=
  ({[(thread, key)]} ∪ ts, bool_decide ((thread, key) ∈ ts)).
Definition throttle_ref_seen (ts : gset (Z * Z)) (thread key _ : Z) : bool :=
  bool_decide ((thread, key) ∈ ts).

Lemma throttle_ref_marks ts thread key seed :
  throttle_ref_seen (fst (throttle_ref_check ts thread key seed)) thread key seed = true.
Proof. apply bool_decide_eq_true. cbn. set_solver. Qed.

Lemma throttle_ref_keeps ts thread key key' seed :
  throttle_ref_seen ts thread key' seed = true ->
  throttle_ref_seen (fst (throttle_ref_check ts thread key seed)) thread key' seed = true.
Proof. intros H%bool_decide_eq_true. apply bool_decide_eq_true. cbn. set_solver. Qed.

Definition throttle_ref : Throttle := {|
  tstate := gset (Z * Z);
  throttle_init := fun _ => ∅;
  throttle_seed := fun ts _ _ => (ts, 0);
  throttle_check := throttle_ref_check;
  throttle_seen := throttle_ref_seen;
  throttle_check_answer := fun _ _ _ _ => eq_refl;
  throttle_check_marks := throttle_ref_marks;
  throttle_check_keeps := throttle_ref_keeps
|}.

(** ** The node *)

Definition SONIC_EXT_GLEAN_REDIRECT_ERROR_REDIRECTED : nat := 0.
Definition SONIC_EXT_GLEAN_REDIRECT_ERROR_NOT_NBR_NODE : nat := 1.
Definition SONIC_EXT_GLEAN_REDIRECT_ERROR_NOT_GLEAN : nat := 2.
Definition SONIC_EXT_GLEAN_REDIRECT_ERROR_NO_COOKIE : nat := 3.
Definition SONIC_EXT_GLEAN_REDIRECT_ERROR_NO_LCP : nat := 4.
Definition SONIC_EXT_GLEAN_REDIRECT_ERROR_THROTTLED : nat := 5.
Definition SONIC_EXT_GLEAN_REDIRECT_ERROR_DISABLED : nat := 6.
Definition SONIC_EXT_GLEAN_REDIRECT_N_ERROR : nat := 7.

Definition SONIC_EXT_GLEAN_REDIRECT_NEXT_INTERFACE_OUTPUT : Z := 0.

Definition ADJ_INDEX_INVALID : Z := U32_MAX.

Record sonic_ext_glean_redirect_trace_t := mkGleanTrace {
  gtt_orig_rx_sw_if_index : Z;
  gtt_host_tap_sw_if_index : Z;
  gtt_pushed_vlan_id : Z;
  gtt_redirected : bool
}.

(** [nbr_node_names] of the main-loop-enter function *)
Definition nbr_node_names : list string := ["ip4-arp"; "ip4-glean"; "ip6-glean"]%string.

(** [sonic_ext_glean_from_nbr_node]: the loop over [sonic_ext_glean_src_nodes]. *)
Definition sonic_ext_glean_from_nbr_node (G : glean_env) (src_nodes : list Z)
    (b : vlib_buffer_t) : bool :=
  let ni := vlib_error_get_node G (error b) in
  existsb (fun n => negb (n =? U32_MAX) && (ni =? n)) src_nodes.

Definition sonic_ext_glean_should_redirect (G : glean_env) (E : vnet_env) (adj_index : Z) : bool :=
  if (adj_index =? ADJ_INDEX_INVALID) || negb (adj_is_valid G adj_index) then false
  else
    let adj := adj_get G adj_index in
    match lookup_next_index adj with
    | IP_LOOKUP_NEXT_OTHER => false
    | IP_LOOKUP_NEXT_GLEAN | IP_LOOKUP_NEXT_ARP =>
        match vnet_get_sw_interface_or_null E (rewrite_sw_if_index adj) with
        | None => false
        | Some _ => true
        end
    end.

(** [((u64) adj_index0 << 32) | orig_rx] *)
Definition glean_key (adj_index orig_rx : Z) : Z :=
  Z.lor (u64 (Z.shiftl adj_index 32)) orig_rx.

Section Glean.
Context `{Vlib} `{Throttle}.
Variables (sem : sonic_ext_main_t) (E : vnet_env) (G : glean_env).
Variable src_nodes : list Z.
Variables thread_index seed : Z.

Definition sonic_ext_glean_redirect_one (ts : tstate) (b : vlib_buffer_t)
    : tstate * outcome sonic_ext_glean_redirect_trace_t :=
  let adj_index0 := adj_index_tx b in
  let '(next0, b) := vnet_feature_next b in
  let pass (ts : tstate) (b : vlib_buffer_t) (orig_rx host_tap vid : Z) (e : nat) :=
    (ts, mkOutcome b (u16 next0) e (mkGleanTrace orig_rx host_tap vid false)) in
  if negb (punt_via_member sem) then
    pass ts b U32_MAX U32_MAX 0 SONIC_EXT_GLEAN_REDIRECT_ERROR_DISABLED
  else if negb (sonic_ext_glean_from_nbr_node G src_nodes b) then
    pass ts b U32_MAX U32_MAX 0 SONIC_EXT_GLEAN_REDIRECT_ERROR_NOT_NBR_NODE
  else if negb (sonic_ext_glean_should_redirect G E adj_index0) then
    pass ts b U32_MAX U32_MAX 0 SONIC_EXT_GLEAN_REDIRECT_ERROR_NOT_GLEAN
  else if negb (has_cookie b) then
    pass ts b U32_MAX U32_MAX 0 SONIC_EXT_GLEAN_REDIRECT_ERROR_NO_COOKIE
  else
    let orig_rx := orig_rx_sw_if_index (seb b) in
    let '(ts, throttled) := throttle_check ts thread_index (glean_key adj_index0 orig_rx) seed in
    if throttled then
      pass ts b orig_rx U32_MAX 0 SONIC_EXT_GLEAN_REDIRECT_ERROR_THROTTLED
    else
      let r := sonic_ext_redirect_to_ingress_tap E b orig_rx U32_MAX in
      if negb (rr_done r) then
        pass ts (rr_buf r) orig_rx (rr_host_tap r) (rr_pushed_vlan_id r)
          SONIC_EXT_GLEAN_REDIRECT_ERROR_NO_LCP
      else
        (ts, mkOutcome (rr_buf r) SONIC_EXT_GLEAN_REDIRECT_NEXT_INTERFACE_OUTPUT
           SONIC_EXT_GLEAN_REDIRECT_ERROR_REDIRECTED
           (mkGleanTrace orig_rx (rr_host_tap r) (rr_pushed_vlan_id r) true)).

End Glean.

Section GleanNode.
Context `{Vlib} `{Throttle}.

Definition sonic_ext_glean_redirect_node (sem : sonic_ext_main_t) (E : vnet_env) (G : glean_env)
    (src_nodes : list Z) (ts : tstate) (thread_index now node_flags : Z) (st : buffers)
    (from : list Z)
    : node_result tstate sonic_ext_glean_redirect_trace_t * sonic_ext_main_t :=
  let '(ts, seed) := throttle_seed ts thread_index now in
  let acc := frame_loop node_flags
    (sonic_ext_glean_redirect_one sem E G src_nodes thread_index seed)
    (frame_init ts st SONIC_EXT_GLEAN_REDIRECT_N_ERROR) from in
  let n_redirected := count_of acc SONIC_EXT_GLEAN_REDIRECT_ERROR_REDIRECTED in
  (frame_finish acc from,
   mkSem (msg_id_base sem) (punt_via_member sem) (host_xc sem) (capture_enabled sem)
     (host_xc_enabled sem) (glean_redirect_enabled sem) (captures sem)
     (aggr_tap_redirects sem) (u64 (glean_redirects sem + n_redirected)) (host_xc_direct sem)
     (l2_trap_fixups sem) (ip2me_hits sem)).

(** The table of source nodes and the throttle, as set up when the main loop is
    entered; the second component lists the names that were not found, for which
    a warning is logged. *)
Definition sonic_ext_glean_redirect_main_loop_enter (G : glean_env) (n_vlib_mains : Z)
    : list Z * list string * tstate :=
  ((fun name => default U32_MAX (vlib_get_node_by_name G name)) <$> nbr_node_names,
   filter (fun name => vlib_get_node_by_name G name = None) nbr_node_names,
   throttle_init n_vlib_mains).

End GleanNode.

(** ** Specification *)

(** The packet was dropped by a node of the table, and not by an entry that was never
    resolved. *)
Definition nbr_drop (G : glean_env) (src_nodes : list Z) (b : vlib_buffer_t) : Prop :=
  vlib_error_get_node G (error b) ∈ src_nodes /\ vlib_error_get_node G (error b) <> U32_MAX.

(** An adjacency that waits for its neighbour: it exists, it is a glean or an incomplete
    one, and its interface exists. *)
Definition unresolved_adj (G : glean_env) (E : vnet_env) (a : Z) : Prop :=
  a <> U32_MAX /\ adj_is_valid G a = true /\
  (lookup_next_index (adj_get G a) = IP_LOOKUP_NEXT_GLEAN \/
   lookup_next_index (adj_get G a) = IP_LOOKUP_NEXT_ARP) /\
  is_Some (vnet_get_sw_interface_or_null E (rewrite_sw_if_index (adj_get G a))).

#[export] Instance ip_lookup_next_eq_dec : EqDecision ip_lookup_next_t.
Proof. solve_decision. Defined.
#[export] Instance nbr_drop_dec G src_nodes b : Decision (nbr_drop G src_nodes b).
Proof. unfold nbr_drop. apply _. Defined.
#[export] Instance unresolved_adj_dec G E a : Decision (unresolved_adj G E a).
Proof. unfold unresolved_adj. apply _. Defined.

(** The conditions that do not depend on the throttle: the first that fails. *)
Definition glean_refuses (sem : sonic_ext_main_t) (E : vnet_env) (G : glean_env)
    (src_nodes : list Z) (b : vlib_buffer_t) : option nat :=
  if negb (punt_via_member sem) then Some SONIC_EXT_GLEAN_REDIRECT_ERROR_DISABLED
  else if decide (nbr_drop G src_nodes b) then
    if decide (unresolved_adj G E (adj_index_tx b)) then
      if decide (magic (seb b) = SONIC_EXT_BUFFER_MAGIC) then None
      else Some SONIC_EXT_GLEAN_REDIRECT_ERROR_NO_COOKIE
    else Some SONIC_EXT_GLEAN_REDIRECT_ERROR_NOT_GLEAN
  else Some SONIC_EXT_GLEAN_REDIRECT_ERROR_NOT_NBR_NODE.

(** The packet stays on the drop arc untouched (but for the arc cursor). *)
Definition glean_passes `{Vlib} (b : vlib_buffer_t) (why : nat)
    (o : outcome sonic_ext_glean_redirect_trace_t) : Prop :=
  o_err o = why /\ o_buf o = snd (vnet_feature_next b) /\
  o_next o = u16 (fst (vnet_feature_next b)) /\ gtt_redirected (o_trace o) = false.

(** The throttle key of a packet. *)
Definition packet_key (b : vlib_buffer_t) : Z * Z :=
  (adj_index_tx b, orig_rx_sw_if_index (seb b)).

Definition packet_key_ok (b : vlib_buffer_t) : Prop :=
  is_u32 (adj_index_tx b) /\ is_u32 (orig_rx_sw_if_index (seb b)).

Definition throttle_key (b : vlib_buffer_t) : Z :=
  glean_key (adj_index_tx b) (orig_rx_sw_if_index (seb b)).

(** Two different keys of which checking the first can make the second seen. *)
Definition throttle_collision `{Throttle} (thread seed key key' : Z) : Prop :=
  key <> key' /\
  exists ts, throttle_seen ts thread key' seed = false /\
    throttle_seen (fst (throttle_check ts thread key seed)) thread key' seed = true.

(** The outcome is a redirect. *)
Definition redirected_out {T} (o : outcome T) : Prop :=
  o_err o = SONIC_EXT_GLEAN_REDIRECT_ERROR_REDIRECTED.

(** Example: adjacency 40 is a glean adjacency on port 2 and adjacency 0 a glean
    adjacency on port 1; errors below 100 are ip4-glean's, others ip4-lookup's. *)
Definition glean_env_example : glean_env := {|
  adj_is_valid := fun i => bool_decide (i ∈ [0; 40]);
  adj_get := fun i => mkAdj IP_LOOKUP_NEXT_GLEAN (if i =? 0 then 1 else 2);
  vlib_error_get_node := fun e => if e <? 100 then 301 else 200;
  vlib_get_node_by_name := fun name =>
    (list_to_map [("ip4-arp"%string, 300); ("ip4-glean"%string, 301);
       ("ip4-lookup"%string, 200); ("ip6-discover-neighbor"%string, 302)] : gmap string Z) !! name
|}.

Definition ex_src_nodes : list Z := [300; 301; U32_MAX].

(** A packet of port 1 ip4-glean dropped for adjacency 40; its frame is at 0. *)
Definition ex_gleaned : vlib_buffer_t :=
  set_adj_tx 40 (ex_buffer 0 0 14 (ex_macs ++ ex_rest) (mkSeb SONIC_EXT_BUFFER_MAGIC 1 0)).

(** A packet ip4-lookup dropped, whose adjacency field is 0: that is the drop
    DPO's index, and also the index of a glean adjacency. *)
Definition glean_env_two : glean_env := {|
  adj_is_valid := adj_is_valid glean_env_example;
  adj_get := adj_get glean_env_example;
  vlib_error_get_node := fun _ => 200;
  vlib_get_node_by_name := fun name =>
    if bool_decide (name = "ip4-lookup"%string) then Some 200
    else if bool_decide (name = "ip4-glean"%string) then Some 301 else None
|}.

(** ** Lemmas *)

Lemma lor_shift_add a x : 0 <= x < 2 ^ 32 -> Z.lor (Z.shiftl a 32) x = a * 2 ^ 32 + x.
Proof.
  intros Hx. rewrite <- Z.shiftl_mul_pow2 by lia.
  symmetry. rewrite <- Z.lxor_lor; [apply Z.add_nocarry_lxor|];
    apply Z.bits_inj'; intros i Hi; rewrite Z.land_spec, Z.bits_0;
    (destruct (Z.lt_ge_cases i 32);
     [by rewrite Z.shiftl_spec_low|
      rewrite <- (Z.mod_small x (2 ^ 32)), Z.mod_pow2_bits_high by lia; apply andb_false_r]).
Qed.

Lemma glean_key_inj a1 x1 a2 x2 :
  is_u32 a1 -> is_u32 x1 -> is_u32 a2 -> is_u32 x2 ->
  glean_key a1 x1 = glean_key a2 x2 -> a1 = a2 /\ x1 = x2.
Proof.
  unfold glean_key. intros Ha1 Hx1 Ha2 Hx2.
  rewrite !Z.shiftl_mul_pow2, !u64_id by (widths; lia).
  rewrite <- !Z.shiftl_mul_pow2, !lor_shift_add by (widths; lia). widths. lia.
Qed.

Lemma from_nbr_node_iff G src_nodes b :
  sonic_ext_glean_from_nbr_node G src_nodes b = true <->
  vlib_error_get_node G (error b) ∈ src_nodes /\ vlib_error_get_node G (error b) <> U32_MAX.
Proof.
  unfold sonic_ext_glean_from_nbr_node. rewrite existsb_exists. setoid_rewrite andb_true_iff.
  setoid_rewrite negb_true_iff. setoid_rewrite Z.eqb_neq. setoid_rewrite Z.eqb_eq.
  setoid_rewrite <- list_elem_of_In. split.
  - by intros (n & Hn & Hne & ->).
  - intros [Hn Hne]. eauto.
Qed.

(** The tests of the node decide the conditions of the specification. *)
Lemma should_redirect_iff G E a :
  sonic_ext_glean_should_redirect G E a = true <-> unresolved_adj G E a.
Proof.
  unfold sonic_ext_glean_should_redirect, unresolved_adj.
  destruct (Z.eqb_spec a ADJ_INDEX_INVALID) as [->|Hne]; cbn; [split; [done|by intros []]|].
  destruct (adj_is_valid G a); cbn; [|split; [done|by intros (_ & [=] & _)]].
  destruct (lookup_next_index _) eqn:Hl; [..|split; [done|by intros (_ & _ & [[=]|[=]] & _)]];
    (destruct (vnet_get_sw_interface_or_null _ _); split; [naive_solver..|]; by intros (_ & _ & _ & [? [=]])).
Qed.

Lemma glean_refuses_tests sem E G src_nodes b :
  glean_refuses sem E G src_nodes b =
  if negb (punt_via_member sem) then Some SONIC_EXT_GLEAN_REDIRECT_ERROR_DISABLED
  else if negb (sonic_ext_glean_from_nbr_node G src_nodes b)
  then Some SONIC_EXT_GLEAN_REDIRECT_ERROR_NOT_NBR_NODE
  else if negb (sonic_ext_glean_should_redirect G E (adj_index_tx b))
  then Some SONIC_EXT_GLEAN_REDIRECT_ERROR_NOT_GLEAN
  else if negb (has_cookie b) then Some SONIC_EXT_GLEAN_REDIRECT_ERROR_NO_COOKIE
  else None.
Proof.
  unfold glean_refuses. destruct (punt_via_member sem); cbn [negb]; [|done].
  pose proof (from_nbr_node_iff G src_nodes b) as Hn. fold (nbr_drop G src_nodes b) in Hn.
  pose proof (should_redirect_iff G E (adj_index_tx b)) as Ha.
  assert (Hc : has_cookie b = true <-> magic (seb b) = SONIC_EXT_BUFFER_MAGIC) by apply Z.eqb_eq.
  destruct (sonic_ext_glean_from_nbr_node G src_nodes b), (decide (nbr_drop G src_nodes b)); try tauto; [|naive_solver..].
  destruct (sonic_ext_glean_should_redirect _ _ _), (decide (unresolved_adj _ _ _)); try tauto; [|naive_solver..].
  destruct (has_cookie b), (decide (magic _ = _)); naive_solver.
Qed.

Section Facts.
Context `{Vlib} `{Throttle}.
Variables (sem : sonic_ext_main_t) (E : vnet_env) (G : glean_env).
Variable src_nodes : list Z.
Variables thread_index seed : Z.
Abbreviation one := (sonic_ext_glean_redirect_one sem E G src_nodes thread_index seed).
Abbreviation seen ts b :=
  (throttle_seen ts thread_index (glean_key (adj_index_tx b) (orig_rx_sw_if_index (seb b))) seed).

(** A packet the gates let through makes its key seen; the others leave the
    throttle alone. *)
Lemma glean_one_state ts b :
  fst (one ts b) =
  match glean_refuses sem E G src_nodes b with
  | Some _ => ts
  | None => fst (throttle_check ts thread_index
      (glean_key (adj_index_tx b) (orig_rx_sw_if_index (seb b))) seed)
  end.
Proof.
  rewrite glean_refuses_tests. unfold sonic_ext_glean_redirect_one, sonic_ext_glean_from_nbr_node, has_cookie.
  destruct (feature_next_same b) as (_ & _ & Hs & _ & _ & _ & _ & He & _).
  destruct (vnet_feature_next b) as [n b']. cbn [snd] in *. rewrite He, Hs.
  do 4 (split_if; [done|]).
  destruct (throttle_check _ _ _ _) as [ts' [|]]; [done|]. by destruct (negb (rr_done _)).
Qed.

Lemma glean_one_redirected ts b :
  redirected_out (snd (one ts b)) -> glean_refuses sem E G src_nodes b = None /\ seen ts b = false.
Proof.
  rewrite glean_refuses_tests.
  unfold redirected_out, sonic_ext_glean_redirect_one, sonic_ext_glean_from_nbr_node, has_cookie.
  destruct (feature_next_same b) as (_ & _ & Hs & _ & _ & _ & _ & He & _).
  destruct (vnet_feature_next b) as [n b']. cbn [snd] in *. rewrite He, Hs.
  do 4 (split_if; [done|]).
  pose proof (throttle_check_answer ts thread_index
    (glean_key (adj_index_tx b) (orig_rx_sw_if_index (seb b))) seed) as Ha.
  destruct (throttle_check _ _ _ _) as [ts' [|]]; [done|]. intros _. by split.
Qed.

Lemma glean_one_marks ts b :
  glean_refuses sem E G src_nodes b = None -> seen (fst (one ts b)) b = true.
Proof. intros Hr. rewrite glean_one_state, Hr. apply throttle_check_marks. Qed.

Lemma glean_one_keeps ts b key :
  throttle_seen ts thread_index key seed = true ->
  throttle_seen (fst (one ts b)) thread_index key seed = true.
Proof.
  intros Hk. rewrite glean_one_state. destruct (glean_refuses _ _ _ _ _); [done|].
  by apply throttle_check_keeps.
Qed.

(** Once a key is seen no later packet of the frame with that key is redirected. *)
Lemma glean_run_seen ts st from i bi o key :
  NoDup from -> throttle_seen ts thread_index key seed = true ->
  from !! i = Some bi -> frame_run one ts st from !! i = Some o -> redirected_out o ->
  glean_key (adj_index_tx (getb st bi)) (orig_rx_sw_if_index (seb (getb st bi))) <> key.
Proof.
  revert ts st i; induction from as [|bj from IH]; intros ts st i Hnd Hseen Hi Ho Hred; [done|].
  apply NoDup_cons in Hnd as [Hbj Hnd]. cbn [frame_run] in Ho.
  pose proof (glean_one_keeps ts (getb st bj) key Hseen) as Hk.
  pose proof (glean_one_redirected ts (getb st bj)) as Hg.
  destruct (one ts (getb st bj)) as [ts' o']. destruct i as [|i].
  - cbn in Hi, Ho. simplify_eq. intros <-. destruct (Hg Hred) as [_ Hs]. congruence.
  - cbn in Hi, Ho. intros Hkey. eapply (IH ts'); try done.
    by rewrite getb_insert_ne by (intros ->; apply Hbj; apply list_elem_of_lookup; eauto).
Qed.

(** A packet that passes every gate and has a tap is redirected to it. *)
Lemma glean_one_redirects ts b tap :
  lcp_ok E -> glean_refuses sem E G src_nodes b = None -> seen ts b = false ->
  ingress_tap E (orig_rx_sw_if_index (seb b)) = Some tap -> tap <> U32_MAX ->
  redirected_out (snd (one ts b)) /\ sw_if_index_tx (o_buf (snd (one ts b))) = tap.
Proof.
  rewrite glean_refuses_tests. intros HE Href Hseen Htap Hne.
  unfold redirected_out, sonic_ext_glean_redirect_one, sonic_ext_glean_from_nbr_node, has_cookie in *.
  destruct (feature_next_same b) as (_ & _ & Hs & _ & _ & _ & _ & He & _).
  destruct (vnet_feature_next b) as [n b']. cbn [snd] in *. rewrite He, Hs.
  repeat (destruct (negb _); [done|]). rewrite <- throttle_check_answer in Hseen.
  destruct (throttle_check _ _ _ _) as [ts' t]. cbn in Hseen. subst t.
  pose proof (redirect_done_iff E b' (orig_rx_sw_if_index (seb b)) U32_MAX HE) as Hr.
  cbv zeta in Hr. destruct (rr_done _); cbn.
  - destruct Hr as (t & Ht & _ & _ & Htx & _). by simplify_eq.
  - destruct Hr as [_ Hr]. by specialize (Hr tap Htap).
Qed.

(** Of two redirected packets of a frame the later one has another pair. *)
Lemma glean_run_lt ts st from i j bi bj oi oj :
  NoDup from -> (i < j)%nat -> from !! i = Some bi -> from !! j = Some bj ->
  frame_run one ts st from !! i = Some oi -> frame_run one ts st from !! j = Some oj ->
  redirected_out oi -> redirected_out oj ->
  packet_key (getb st bi) <> packet_key (getb st bj).
Proof.
  revert ts st i j; induction from as [|bk from IH];
    intros ts st i j Hnd Hij Hi Hj Hoi Hoj Hri Hrj; [done|].
  destruct j as [|j]; [lia|]. apply NoDup_cons in Hnd as [Hbk Hnd].
  cbn [frame_run] in Hoi, Hoj.
  pose proof (glean_one_redirected ts (getb st bk)) as Hg.
  pose proof (glean_one_marks ts (getb st bk)) as Hm.
  destruct (one ts (getb st bk)) as [ts' o'].
  assert (Hfr : forall x bx, from !! x = Some bx -> getb (<[bk := o_buf o']> st) bx = getb st bx)
    by (intros x bx Hbx; apply getb_insert_ne; intros ->; apply Hbk, list_elem_of_lookup; eauto).
  destruct i as [|i]; cbn in Hi, Hj, Hoi, Hoj.
  - simplify_eq. destruct (Hg Hri) as [Href _].
    pose proof (glean_run_seen ts' _ from j bj oj _ Hnd (Hm Href) Hj Hoj Hrj) as Hne.
    rewrite (Hfr j) in Hne by done. intros [= Ha Hx]. apply Hne. by rewrite Ha, Hx.
  - rewrite <- (Hfr i), <- (Hfr j) by done. eapply (IH ts' _ i j); (done || lia).
Qed.

(** Earlier packets of other pairs whose keys do not collide with the key of a packet do
    not make it seen. *)
Lemma glean_run_unseen ts st from i bi o :
  NoDup from -> (forall b, b ∈ from -> packet_key_ok (getb st b)) ->
  from !! i = Some bi -> frame_run one ts st from !! i = Some o ->
  seen ts (getb st bi) = false ->
  (forall j bj, (j < i)%nat -> from !! j = Some bj ->
     packet_key (getb st bj) <> packet_key (getb st bi) /\
     ~ throttle_collision thread_index seed (throttle_key (getb st bj)) (throttle_key (getb st bi))) ->
  exists ts', seen ts' (getb st bi) = false /\ o = snd (one ts' (getb st bi)).
Proof.
  revert ts st i; induction from as [|bk from IH]; intros ts st i Hnd Hok Hi Ho Hseen Hfirst; [done|].
  apply NoDup_cons in Hnd as [Hbk Hnd]. cbn [frame_run] in Ho.
  pose proof (glean_one_state ts (getb st bk)) as Hst.
  destruct (one ts (getb st bk)) as [ts1 o1] eqn:H1. cbn [fst] in Hst.
  destruct i as [|i]; cbn in Hi, Ho.
  { simplify_eq. exists ts. by rewrite H1. }
  assert (Hfr : forall bx, bx ∈ from -> getb (<[bk := o_buf o1]> st) bx = getb st bx)
    by (intros bx Hbx; apply getb_insert_ne; intros ->; done).
  assert (Hbi : bi ∈ from) by (apply list_elem_of_lookup; eauto).
  assert (Hs1 : seen ts1 (getb st bi) = false).
  { rewrite Hst. destruct (glean_refuses _ _ _ _ _); [done|].
    apply not_true_iff_false. intros Ht. destruct (Hfirst 0%nat bk) as [Hpk Hnc]; [lia|done|].
    apply Hnc. refine (conj _ (ex_intro _ ts (conj Hseen Ht))). intros Hkey. apply Hpk.
    destruct (Hok bk) as [Ha1 Hx1]; [apply elem_of_cons; by left|].
    destruct (Hok bi) as [Ha2 Hx2]; [apply elem_of_cons; by right|]. unfold throttle_key in Hkey.
    destruct (glean_key_inj _ _ _ _ Ha1 Hx1 Ha2 Hx2 Hkey) as [Ha Hx]. unfold packet_key. by rewrite Ha, Hx. }
  destruct (IH ts1 (<[bk := o_buf o1]> st) i) as (ts' & Hs & Ho'); try done.
  - intros bx Hbx. rewrite Hfr by done. apply Hok. apply elem_of_cons. by right.
  - by rewrite Hfr.
  - intros j bj Hj Hbj. assert (bj ∈ from) by (apply list_elem_of_lookup; eauto).
    rewrite !Hfr by done. apply (Hfirst (S j)); [lia|done].
  - rewrite Hfr in Hs, Ho' by done. by exists ts'.
Qed.

End Facts.

(** ** Theorems *)

Section Theorems.
Context `{Vlib} `{Throttle}.

(** C11.  The decision on one dropped packet.  It stays on the drop arc (only its arc cursor moved)
    under the counter of the first condition it fails: the switch is on, a
    neighbour-resolution node dropped it, its adjacency is a valid glean or
    incomplete one on an existing interface, it has the capture cookie, the
    throttle has not seen its key, its port has a tap.  When all hold it leaves
    on that tap through interface-output and its cookie is consumed. *)
Theorem glean_redirect_decides sem E G src thread seed ts b (HE : lcp_ok E) :
  let o := snd (sonic_ext_glean_redirect_one sem E G src thread seed ts b) in
  match glean_refuses sem E G src b with
  | Some why => glean_passes b why o
  | None =>
      let key := glean_key (adj_index_tx b) (orig_rx_sw_if_index (seb b)) in
      if throttle_seen ts thread key seed
      then glean_passes b SONIC_EXT_GLEAN_REDIRECT_ERROR_THROTTLED o
      else match ingress_tap E (orig_rx_sw_if_index (seb b)) with
      | Some tap =>
          if bool_decide (tap = U32_MAX)
          then glean_passes b SONIC_EXT_GLEAN_REDIRECT_ERROR_NO_LCP o
          else redirected_out o /\ o_next o = SONIC_EXT_GLEAN_REDIRECT_NEXT_INTERFACE_OUTPUT /\
            sw_if_index_tx (o_buf o) = tap /\ magic (seb (o_buf o)) <> SONIC_EXT_BUFFER_MAGIC /\
            gtt_redirected (o_trace o) = true
      | None => glean_passes b SONIC_EXT_GLEAN_REDIRECT_ERROR_NO_LCP o
      end
  end.
Proof.
  cbv zeta. rewrite glean_refuses_tests.
  unfold glean_passes, redirected_out, sonic_ext_glean_redirect_one, sonic_ext_glean_from_nbr_node, has_cookie.
  destruct (feature_next_same b) as (_ & _ & Hs & _ & _ & _ & _ & He & _).
  destruct (vnet_feature_next b) as [n b']. cbn [fst snd] in *. rewrite He, <- Hs.
  do 4 (split_if; [done|]).
  rewrite <- (throttle_check_answer ts thread
    (glean_key (adj_index_tx b) (orig_rx_sw_if_index (seb b'))) seed).
  destruct (throttle_check _ _ _ _) as [ts' [|]]; cbn [snd]; [done|].
  pose proof (redirect_done_iff E b' (orig_rx_sw_if_index (seb b')) U32_MAX HE) as Hr.
  cbv zeta in Hr. destruct (rr_done _); cbn [negb].
  - destruct Hr as (tap & -> & Hne & Ht & Htx & Hm). rewrite bool_decide_eq_false_2 by done.
    cbn. by rewrite Hm.
  - destruct Hr as [-> Hr].
    destruct (ingress_tap E (orig_rx_sw_if_index (seb b'))) as [tap|]; [|done].
    by rewrite bool_decide_eq_true_2 by auto.
Qed.

(** C18.  The rate limit: two packets of one frame that are both redirected never
    share adjacency and ingress port, whatever hash collisions the throttle has. *)
Theorem glean_redirect_rate_limit sem E G src thread seed ts st from i j bi bj oi oj
    (Hnd : NoDup from) :
  let outs := frame_run (sonic_ext_glean_redirect_one sem E G src thread seed) ts st from in
  from !! i = Some bi -> from !! j = Some bj -> i <> j ->
  outs !! i = Some oi -> outs !! j = Some oj -> redirected_out oi -> redirected_out oj ->
  packet_key (getb st bi) <> packet_key (getb st bj).
Proof.
  cbv zeta. intros Hi Hj Hne Hoi Hoj Hri Hrj.
  destruct (Nat.lt_total i j) as [Hij|[?|Hji]]; [|done|].
  - by eapply (glean_run_lt sem E G src thread seed ts st from i j).
  - intros Heq. symmetry in Heq.
    by eapply (glean_run_lt sem E G src thread seed ts st from j i) in Heq.
Qed.

(** C19.  The rate limit is not too strong, and it is one per adjacency and ingress
    port: when the throttle has not yet seen the key of a packet that passes the other
    conditions and has a tap, and no earlier packet of the frame has the same adjacency
    and port or a key that collides with its key in the throttle, the packet is
    redirected, whatever packets precede it, also ones of the same adjacency from other
    ports.  Different pairs have different 64-bit keys. *)
Theorem glean_redirect_first_passes sem E G src thread seed ts st from i bi o tap
    (HE : lcp_ok E) (Hnd : NoDup from)
    (Hok : forall b, b ∈ from -> packet_key_ok (getb st b)) :
  from !! i = Some bi ->
  frame_run (sonic_ext_glean_redirect_one sem E G src thread seed) ts st from !! i = Some o ->
  throttle_seen ts thread (throttle_key (getb st bi)) seed = false ->
  (forall j bj, (j < i)%nat -> from !! j = Some bj ->
     packet_key (getb st bj) <> packet_key (getb st bi) /\
     ~ throttle_collision thread seed (throttle_key (getb st bj)) (throttle_key (getb st bi))) ->
  glean_refuses sem E G src (getb st bi) = None ->
  ingress_tap E (orig_rx_sw_if_index (seb (getb st bi))) = Some tap -> tap <> U32_MAX ->
  redirected_out o /\ sw_if_index_tx (o_buf o) = tap.
Proof.
  intros Hi Ho Hseen Hfirst Href Htap Hne.
  destruct (glean_run_unseen sem E G src thread seed ts st from i bi o Hnd Hok Hi Ho Hseen Hfirst)
    as (ts' & Hs & ->).
  by apply glean_one_redirects.
Qed.

(** C21.  Only neighbour-resolution drops are taken: with the table set up at
    main-loop entry, a packet dropped by any node whose name is not one of
    ip4-arp, ip4-glean and ip6-glean stays on the drop arc untouched, and it does
    not matter what its adjacency field holds; names that are not registered
    (their table entry is all ones) never match. *)
Theorem glean_redirect_only_nbr_drops sem E G n_mains thread seed ts b name
    (Hinj : forall n1 n2 i, vlib_get_node_by_name G n1 = Some i ->
       vlib_get_node_by_name G n2 = Some i -> n1 = n2)
    (Hname : name ∉ nbr_node_names)
    (Hdrop : vlib_get_node_by_name G name = Some (vlib_error_get_node G (error b))) :
  let src := fst (fst (sonic_ext_glean_redirect_main_loop_enter G n_mains)) in
  let '(ts', o) := sonic_ext_glean_redirect_one sem E G src thread seed ts b in
  ts' = ts /\
  glean_passes b (if punt_via_member sem then SONIC_EXT_GLEAN_REDIRECT_ERROR_NOT_NBR_NODE
                  else SONIC_EXT_GLEAN_REDIRECT_ERROR_DISABLED) o.
Proof.
  cbv zeta. set (src := fst (fst _)).
  assert (Hf : sonic_ext_glean_from_nbr_node G src b = false).
  { apply not_true_iff_false. rewrite from_nbr_node_iff. intros [Hin Hne].
    apply list_elem_of_fmap in Hin as (n & Hn & Hin).
    destruct (vlib_get_node_by_name G n) as [k|] eqn:Hk; cbn in Hn; [|done].
    subst k. rewrite (Hinj _ _ _ Hdrop Hk) in Hname. done. }
  unfold glean_passes, sonic_ext_glean_redirect_one.
  destruct (feature_next_same b) as (_ & _ & _ & _ & _ & _ & _ & He & _).
  unfold sonic_ext_glean_from_nbr_node in *.
  destruct (vnet_feature_next b) as [n b']. cbn [fst snd] in *. rewrite He, Hf.
  by destruct (punt_via_member sem).
Qed.

End Theorems.

(** ** Witnesses *)

Lemma glean_redirect_decides_witness :
  let o := snd (@sonic_ext_glean_redirect_one vlib_ref throttle_ref sem_example env_example
    glean_env_example ex_src_nodes 0 0 (∅ : gset (Z * Z)) ex_gleaned) in
  redirected_out o /\ sw_if_index_tx (o_buf o) = 11.
Proof.
  pose proof (@glean_redirect_decides vlib_ref throttle_ref sem_example env_example
    glean_env_example ex_src_nodes 0 0 (∅ : gset (Z * Z)) ex_gleaned (env_ref_lcp_ok _ _ _)) as Hw.
  cbv zeta in Hw |- *.
  assert (Hr : glean_refuses sem_example env_example glean_env_example ex_src_nodes ex_gleaned = None)
    by (vm_compute; reflexivity).
  assert (Ht : ingress_tap env_example (orig_rx_sw_if_index (seb ex_gleaned)) = Some 11)
    by (vm_compute; reflexivity).
  rewrite Hr, Ht in Hw. destruct Hw as (Hred & _ & Htx & _). by split.
Defined.

(** Two packets of port 1 for different adjacencies are both redirected. *)
Lemma glean_redirect_rate_limit_witness :
  let st : buffers := {[8 := ex_gleaned; 9 := set_adj_tx 0 ex_gleaned]} in
  let outs := frame_run (@sonic_ext_glean_redirect_one vlib_ref throttle_ref sem_example
    env_example glean_env_example ex_src_nodes 0 0) (∅ : gset (Z * Z)) st [8; 9] in
  o_err <$> outs = [0; 0]%nat /\ packet_key (getb st 8) <> packet_key (getb st 9).
Proof.
  cbv zeta. split; [vm_compute; reflexivity|].
  eapply (@glean_redirect_rate_limit vlib_ref throttle_ref sem_example env_example
    glean_env_example ex_src_nodes 0 0 (∅ : gset (Z * Z))
    {[8 := ex_gleaned; 9 := set_adj_tx 0 ex_gleaned]} [8; 9] 0 1 8 9);
    [by_compute|reflexivity|reflexivity|discriminate|reflexivity|reflexivity| |];
    vm_compute; reflexivity.
Defined.

Lemma throttle_ref_exact (thread seed key key' : Z) :
  ~ @throttle_collision throttle_ref thread seed key key'.
Proof.
  intros (Hne & ts & Hf%bool_decide_eq_false & Ht%bool_decide_eq_true). cbn in Ht. set_solver.
Qed.

(** The second packet has the adjacency of the first but came in through another port. *)
Lemma glean_redirect_first_passes_witness :
  let other := set_seb (mkSeb SONIC_EXT_BUFFER_MAGIC 2 0) ex_gleaned in
  let st : buffers := {[8 := other; 9 := ex_gleaned]} in
  let outs := frame_run (@sonic_ext_glean_redirect_one vlib_ref throttle_ref sem_example
    env_example glean_env_example ex_src_nodes 0 0) (∅ : gset (Z * Z)) st [8; 9] in
  exists o, outs !! 1%nat = Some o /\ redirected_out o /\ sw_if_index_tx (o_buf o) = 11.
Proof.
  cbv zeta. eexists. split; [reflexivity|].
  eapply (@glean_redirect_first_passes vlib_ref throttle_ref sem_example env_example
    glean_env_example ex_src_nodes 0 0 (∅ : gset (Z * Z))
    {[8 := set_seb (mkSeb SONIC_EXT_BUFFER_MAGIC 2 0) ex_gleaned; 9 := ex_gleaned]} [8; 9] 1 9).
  - apply env_ref_lcp_ok.
  - by_compute.
  - intros b Hb. apply elem_of_cons in Hb as [->|Hb];
      [|apply list_elem_of_singleton in Hb as ->]; split; by_compute.
  - reflexivity.
  - reflexivity.
  - reflexivity.
  - intros [|j] bj Hj Hbj; [|lia]. injection Hbj as <-.
    split; [vm_compute; discriminate|apply throttle_ref_exact].
  - vm_compute. reflexivity.
  - vm_compute. reflexivity.
  - by_compute.
Defined.

Lemma glean_redirect_only_nbr_drops_witness :
  let src := fst (fst (@sonic_ext_glean_redirect_main_loop_enter throttle_ref glean_env_two 1)) in
  @glean_passes vlib_ref (set_adj_tx 0 ex_gleaned) SONIC_EXT_GLEAN_REDIRECT_ERROR_NOT_NBR_NODE
    (snd (@sonic_ext_glean_redirect_one vlib_ref throttle_ref sem_example env_example
      glean_env_two src 0 0 (∅ : gset (Z * Z)) (set_adj_tx 0 ex_gleaned))).
Proof.
  pose proof (@glean_redirect_only_nbr_drops vlib_ref throttle_ref sem_example env_example
    glean_env_two 1 0 0 (∅ : gset (Z * Z)) (set_adj_tx 0 ex_gleaned) "ip4-lookup"%string) as Hw.
  cbv zeta in Hw |- *. destruct (sonic_ext_glean_redirect_one _ _ _ _ _ _ _ _) as [ts' o].
  destruct Hw as [_ Hw]; [|by_compute|reflexivity|exact Hw].
  intros n1 n2 i. cbn. repeat case_bool_decide; intros; simplify_eq; done.
Defined.
