(* ===== verification/SonicNodes.v ===== *)
(** * The other sonic_ext nodes

    - [HostXc]: sonic-ext-host-xc (host_xc_node.c), frames from Linux straight to
      the port;
    - [L2TrapFixup]: sonic-ext-l2-trap-fixup (l2_trap_fixup_node.c), trapped L2
      control frames to the parent port's tap;
    - [Ip2me]: sonic-ext-ip2me-ip4 / ip6 (ip2me_node.c), local destinations
      around the ingress ACL. *)

From S2P Require Import Prelude Vlib SonicExt SonicCapture SonicAggr.

Module HostXc.

Definition SONIC_EXT_HOST_XC_ERROR_DIRECT : nat := 0.
Definition SONIC_EXT_HOST_XC_ERROR_PASSTHRU : nat := 1.
Definition SONIC_EXT_HOST_XC_N_ERROR : nat := 2.

Definition SONIC_EXT_HOST_XC_NEXT_DROP : Z := 0.
Definition SONIC_EXT_HOST_XC_NEXT_INTF_OUTPUT : Z := 1.

Inductive host_xc_mode := SONIC_EXT_HOST_XC_MODE_PASSTHRU | SONIC_EXT_HOST_XC_MODE_DIRECT.

Record sonic_ext_host_xc_trace_t := mkXcTrace {
  xct_rx_sw_if_index : Z;
  xct_phy_sw_if_index : Z;
  xct_mode : host_xc_mode
}.

Definition sonic_ext_host_xc_one `{Vlib} (sem : sonic_ext_main_t) (E : vnet_env)
    (b : vlib_buffer_t) : outcome sonic_ext_host_xc_trace_t :=
  let rx0 := sw_if_index_rx b in
  let passthru :=
    let '(next0, b) := vnet_feature_next b in
    mkOutcome b (u16 next0) SONIC_EXT_HOST_XC_ERROR_PASSTHRU
      (mkXcTrace rx0 U32_MAX SONIC_EXT_HOST_XC_MODE_PASSTHRU) in
  if negb (host_xc sem) then passthru
  else
    let hlipi := lcp_itf_pair_find_by_host E rx0 in
    if hlipi =? INDEX_INVALID then passthru
    else
      let phy_sw := lip_phy_sw_if_index (lip_deref (lcp_itf_pair_get E hlipi)) in
      mkOutcome (set_tx phy_sw b) SONIC_EXT_HOST_XC_NEXT_INTF_OUTPUT
        SONIC_EXT_HOST_XC_ERROR_DIRECT (mkXcTrace rx0 phy_sw SONIC_EXT_HOST_XC_MODE_DIRECT).

Definition sonic_ext_host_xc_node `{Vlib} (sem : sonic_ext_main_t) (E : vnet_env)
    (node_flags : Z) (st : buffers) (from : list Z)
    : node_result unit sonic_ext_host_xc_trace_t * sonic_ext_main_t :=
  let acc := frame_loop node_flags (stateless (sonic_ext_host_xc_one sem E))
    (frame_init tt st SONIC_EXT_HOST_XC_N_ERROR) from in
  let n_direct := count_of acc SONIC_EXT_HOST_XC_ERROR_DIRECT in
  (frame_finish acc from,
   mkSem (msg_id_base sem) (punt_via_member sem) (host_xc sem) (capture_enabled sem)
     (host_xc_enabled sem) (glean_redirect_enabled sem) (captures sem)
     (aggr_tap_redirects sem) (glean_redirects sem) (u64 (host_xc_direct sem + n_direct))
     (l2_trap_fixups sem) (ip2me_hits sem)).

End HostXc.

Module L2TrapFixup.

Definition SONIC_EXT_L2_TRAP_FIXUP_ERROR_FIXED_UP : nat := 0.
Definition SONIC_EXT_L2_TRAP_FIXUP_ERROR_NO_PARENT : nat := 1.
Definition SONIC_EXT_L2_TRAP_FIXUP_N_ERROR : nat := 2.

Definition SONIC_EXT_L2_TRAP_FIXUP_NEXT_PUNT : Z := 0.
Definition SONIC_EXT_L2_TRAP_FIXUP_NEXT_DROP : Z := 1.

Record sonic_ext_l2_trap_fixup_trace_t := mkFixTrace {
  fxt_rx_sw_if_index : Z;
  fxt_punt_rx_sw_if_index : Z;
  fxt_dropped : bool
}.

(** [pool_is_free_index] of the interface pool holds where there is no
    interface. *)
Definition sonic_ext_l2_trap_fixup_lookup_parent (E : vnet_env) (rx_sw_if_index : Z) : Z :=
  match vnet_get_sw_interface_or_null E rx_sw_if_index with
  | None => U32_MAX
  | Some swi => if is_sub swi then sup_sw_if_index swi else rx_sw_if_index
  end.

(** [errors] is the node's error vector, [node->errors]. *)
Definition sonic_ext_l2_trap_fixup_one (errors : nat -> Z) (E : vnet_env) (b : vlib_buffer_t)
    : outcome sonic_ext_l2_trap_fixup_trace_t :=
  let rx0 := sw_if_index_rx b in
  let punt_rx0 := sonic_ext_l2_trap_fixup_lookup_parent E rx0 in
  if punt_rx0 =? U32_MAX then
    mkOutcome (set_error (errors SONIC_EXT_L2_TRAP_FIXUP_ERROR_NO_PARENT) b)
      SONIC_EXT_L2_TRAP_FIXUP_NEXT_DROP SONIC_EXT_L2_TRAP_FIXUP_ERROR_NO_PARENT
      (mkFixTrace rx0 punt_rx0 true)
  else
    mkOutcome (set_rx punt_rx0 b) SONIC_EXT_L2_TRAP_FIXUP_NEXT_PUNT
      SONIC_EXT_L2_TRAP_FIXUP_ERROR_FIXED_UP (mkFixTrace rx0 punt_rx0 false).

Definition sonic_ext_l2_trap_fixup_node `{Vlib} (errors : nat -> Z) (sem : sonic_ext_main_t)
    (E : vnet_env) (node_flags : Z) (st : buffers) (from : list Z)
    : node_result unit sonic_ext_l2_trap_fixup_trace_t * sonic_ext_main_t :=
  let acc := frame_loop node_flags (stateless (sonic_ext_l2_trap_fixup_one errors E))
    (frame_init tt st SONIC_EXT_L2_TRAP_FIXUP_N_ERROR) from in
  let n_fixed_up := count_of acc SONIC_EXT_L2_TRAP_FIXUP_ERROR_FIXED_UP in
  (frame_finish acc from,
   mkSem (msg_id_base sem) (punt_via_member sem) (host_xc sem) (capture_enabled sem)
     (host_xc_enabled sem) (glean_redirect_enabled sem) (captures sem)
     (aggr_tap_redirects sem) (glean_redirects sem) (host_xc_direct sem)
     (u64 (l2_trap_fixups sem + n_fixed_up)) (ip2me_hits sem)).

End L2TrapFixup.

Module Ip2me.

Definition SONIC_EXT_IP2ME_ERROR_HIT : nat := 0.
Definition SONIC_EXT_IP2ME_ERROR_PASSTHRU : nat := 1.
Definition SONIC_EXT_IP2ME_N_ERROR : nat := 2.

Definition SONIC_EXT_IP2ME_NEXT_ARC_END : Z := 0.

Inductive dpo_type := DPO_RECEIVE | DPO_OTHER.

(** The forwarding tables: the FIB of an interface (per address family), the
    unicast lookup of a destination (its bytes), the load-balance object of an
    index with the DPO type of its bucket 0, and the size of the Ethernet header
    of a buffer. *)
Record ip_env := mkIpEnv {
  fib_index_by_sw_if_index : bool -> Z -> Z;
  fib_forwarding_lookup : bool -> Z -> list Z -> Z;
  load_balance_get_or_null : Z -> option dpo_type;
  ethernet_buffer_header_size : vlib_buffer_t -> Z
}.

Record sonic_ext_ip2me_trace_t := mkIp2meTrace {
  ipt_sw_if_index : Z;
  ipt_fib_index : Z;
  ipt_is_ip6 : bool;
  ipt_is_ip2me : bool
}.

(** [sonic_ext_dst_is_local_ip4] and [sonic_ext_dst_is_local_ip6], which differ
    in the table they look the address up in. *)
Definition sonic_ext_dst_is_local (I : ip_env) (is_ip6 : bool) (fib_index : Z)
    (dst : list Z) : bool :=
  if fib_index =? U32_MAX then false
  else match load_balance_get_or_null I (fib_forwarding_lookup I is_ip6 fib_index dst) with
  | None => false
  | Some DPO_RECEIVE => true
  | Some DPO_OTHER => false
  end.

Definition sonic_ext_dst_is_local_ip4 (I : ip_env) := sonic_ext_dst_is_local I false.
Definition sonic_ext_dst_is_local_ip6 (I : ip_env) := sonic_ext_dst_is_local I true.

(** [dst_address] is at byte 16 of the IPv4 header and byte 24 of the IPv6 one. *)
Definition ip2me_dst (I : ip_env) (is_ip6 : bool) (b : vlib_buffer_t) : list Z :=
  let l3 := ethernet_buffer_header_size I b in
  if is_ip6 then cur_bytes b (l3 + 24) 16 else cur_bytes b (l3 + 16) 4.

Definition sonic_ext_ip2me_one `{Vlib} (I : ip_env) (is_ip6 : bool) (b : vlib_buffer_t)
    : outcome sonic_ext_ip2me_trace_t :=
  let sw_if_index0 := sw_if_index_rx b in
  let fib_index0 := fib_index_by_sw_if_index I is_ip6 sw_if_index0 in
  let is_ip2me :=
    if is_ip6 then sonic_ext_dst_is_local_ip6 I fib_index0 (ip2me_dst I true b)
    else sonic_ext_dst_is_local_ip4 I fib_index0 (ip2me_dst I false b) in
  let trace := mkIp2meTrace sw_if_index0 fib_index0 is_ip6 is_ip2me in
  if is_ip2me then
    mkOutcome b (u16 SONIC_EXT_IP2ME_NEXT_ARC_END) SONIC_EXT_IP2ME_ERROR_HIT trace
  else
    let '(next0, b) := vnet_feature_next b in
    mkOutcome b (u16 next0) SONIC_EXT_IP2ME_ERROR_PASSTHRU trace.

Definition sonic_ext_ip2me_inline `{Vlib} (I : ip_env) (sem : sonic_ext_main_t)
    (node_flags : Z) (st : buffers) (from : list Z) (is_ip6 : bool)
    : node_result unit sonic_ext_ip2me_trace_t * sonic_ext_main_t :=
  let acc := frame_loop node_flags (stateless (sonic_ext_ip2me_one I is_ip6))
    (frame_init tt st SONIC_EXT_IP2ME_N_ERROR) from in
  let n_ip2me := count_of acc SONIC_EXT_IP2ME_ERROR_HIT in
  (frame_finish acc from,
   mkSem (msg_id_base sem) (punt_via_member sem) (host_xc sem) (capture_enabled sem)
     (host_xc_enabled sem) (glean_redirect_enabled sem) (captures sem)
     (aggr_tap_redirects sem) (glean_redirects sem) (host_xc_direct sem)
     (l2_trap_fixups sem) (u64 (ip2me_hits sem + n_ip2me))).

Definition sonic_ext_ip2me_ip4_node `{Vlib} I sem nf st from :=
  sonic_ext_ip2me_inline I sem nf st from false.
Definition sonic_ext_ip2me_ip6_node `{Vlib} I sem nf st from :=
  sonic_ext_ip2me_inline I sem nf st from true.

End Ip2me.

Import HostXc L2TrapFixup Ip2me.

(** ** Specification *)

(** Each tap belongs to one pair: the pair found by the host tap of a port's pair
    is that pair. *)
Definition lcp_host_unique (E : vnet_env) : Prop :=
  forall phy lip, lcp_itf_pair_find_by_phy E phy <> INDEX_INVALID ->
    lcp_itf_pair_get E (lcp_itf_pair_find_by_phy E phy) = Some lip ->
    lcp_itf_pair_find_by_host E (lip_host_sw_if_index lip) = lcp_itf_pair_find_by_phy E phy.

(** The physical port of an interface: itself, or the parent of a sub-interface. *)
Definition parent_port (E : vnet_env) (sw : Z) : option Z :=
  swi ← vnet_get_sw_interface_or_null E sw;
  Some (if is_sub swi then sup_sw_if_index swi else sw).

(** Example: one route, 10.0.0.1 is local; addresses start 14 bytes in. *)
Definition ip_env_example : ip_env := {|
  fib_index_by_sw_if_index := fun _ sw => if sw =? 1 then 0 else U32_MAX;
  fib_forwarding_lookup := fun _ _ dst => if bool_decide (dst = [10; 0; 0; 1]) then 7 else 3;
  load_balance_get_or_null := fun i =>
    if i =? 7 then Some DPO_RECEIVE else if i =? 3 then Some DPO_OTHER else None;
  ethernet_buffer_header_size := fun _ => 14
|}.

Definition env_one_port : vnet_env :=
  env_ref [(3, (mkSwif VNET_SW_INTERFACE_TYPE_SUB 1, "dpdk"%string))] [] [mkLip 1 11].

Definition ex_local_frame : vlib_buffer_t :=
  ex_buffer 0 0 0 (ex_macs ++ [0x08; 0x00] ++ replicate 16 0 ++ [10; 0; 0; 1]) (mkSeb 0 0 0).

(** ** Lemmas *)

(** The tap of the ingress port, through the port's pair. *)
Lemma ingress_tap_pair E sw tap :
  lcp_ok E -> ingress_tap E sw = Some tap ->
  exists phy lip, parent_port E sw = Some phy /\
    lcp_itf_pair_find_by_phy E phy <> INDEX_INVALID /\
    lcp_itf_pair_get E (lcp_itf_pair_find_by_phy E phy) = Some lip /\
    lip_phy_sw_if_index lip = phy /\ lip_host_sw_if_index lip = tap.
Proof.
  intros [Hphy _]. unfold ingress_tap, parent_port.
  destruct (vnet_get_sw_interface_or_null E sw) as [swi|]; cbn; [|done].
  set (phy := if is_sub swi then _ else _).
  destruct (Z.eqb_spec (lcp_itf_pair_find_by_phy E phy) INDEX_INVALID) as [|Hne]; [done|].
  destruct (Hphy phy Hne) as (lip & Hlip & Hp). rewrite Hlip. cbn. intros [= <-].
  by exists phy, lip.
Qed.

(** ** Theorems *)

Section Theorems.
Context `{Vlib}.

(** C22.  A frame Linux sends on the tap a packet of port [sw] was delivered to goes
    out of the physical port the packet came in on: with the switch on, host-xc
    sets TX to that port (the parent, for a sub-interface) and bypasses the
    bridge, leaving the frame as it is; on an interface linux-cp finds no pair for as
    a host, or with the switch off, the frame stays on its arc, only the arc cursor
    moved. *)
Theorem host_xc_returns_to_port sem E b (HE : lcp_ok E) (Huniq : lcp_host_unique E) :
  let o := sonic_ext_host_xc_one sem E b in
  (forall sw, host_xc sem = true -> ingress_tap E sw = Some (sw_if_index_rx b) ->
     o_next o = SONIC_EXT_HOST_XC_NEXT_INTF_OUTPUT /\ o_err o = SONIC_EXT_HOST_XC_ERROR_DIRECT /\
     Some (sw_if_index_tx (o_buf o)) = parent_port E sw /\
     o_buf o = set_tx (sw_if_index_tx (o_buf o)) b) /\
  (host_xc sem = false \/ lcp_itf_pair_find_by_host E (sw_if_index_rx b) = INDEX_INVALID ->
     o_err o = SONIC_EXT_HOST_XC_ERROR_PASSTHRU /\
     o_next o = u16 (fst (vnet_feature_next b)) /\ o_buf o = snd (vnet_feature_next b)).
Proof.
  cbv zeta. split.
  - intros sw Hon Htap.
    destruct (ingress_tap_pair E sw _ HE Htap) as (phy & lip & Hpar & Hne & Hget & Hphy & Hhost).
    assert (Hf : lcp_itf_pair_find_by_host E (sw_if_index_rx b) = lcp_itf_pair_find_by_phy E phy)
      by (rewrite <- Hhost; by apply Huniq).
    unfold sonic_ext_host_xc_one. rewrite Hon, Hf, (proj2 (Z.eqb_neq _ _) Hne), Hget.
    cbn. by rewrite Hphy, Hpar.
  - intros Hoff. unfold sonic_ext_host_xc_one. destruct (vnet_feature_next b).
    destruct Hoff as [-> | ->]; [done|]. by destruct (host_xc sem).
Qed.

(** The pass-through side of host-xc: exactly when the switch is off or the RX
    interface is no pair's host tap, the frame continues on the feature arc with
    only the arc cursor changed. *)
Theorem host_xc_passthru_iff sem E b :
  let o := sonic_ext_host_xc_one sem E b in
  (o_err o = SONIC_EXT_HOST_XC_ERROR_PASSTHRU <->
     host_xc sem = false \/ lcp_itf_pair_find_by_host E (sw_if_index_rx b) = INDEX_INVALID) /\
  (o_err o = SONIC_EXT_HOST_XC_ERROR_PASSTHRU ->
     o_buf o = snd (vnet_feature_next b) /\ o_next o = u16 (fst (vnet_feature_next b))).
Proof.
  cbv zeta. unfold sonic_ext_host_xc_one.
  destruct (host_xc sem), (Z.eqb_spec (lcp_itf_pair_find_by_host E (sw_if_index_rx b)) INDEX_INVALID),
    (vnet_feature_next b); cbn; (split; [split; intros; (done || by (left + right) || by destruct_or?)|done]).
Qed.

(** C26.  A trapped frame is punted as if it had come in on the physical port: RX
    becomes the port itself or the parent of the sub-interface, the port whose
    tap a redirect of the same packet would choose; a frame whose RX interface
    does not exist is dropped under the node's error, not punted; nothing else
    of the buffer changes. *)
Theorem l2_trap_fixup_parent errors E b (HE : lcp_ok E)
    (Hvalid : forall sw swi, vnet_get_sw_interface_or_null E sw = Some swi ->
       sw <> U32_MAX /\ sup_sw_if_index swi <> U32_MAX) :
  let o := sonic_ext_l2_trap_fixup_one errors E b in
  match parent_port E (sw_if_index_rx b) with
  | Some phy =>
      o_buf o = set_rx phy b /\ o_next o = SONIC_EXT_L2_TRAP_FIXUP_NEXT_PUNT /\
      o_err o = SONIC_EXT_L2_TRAP_FIXUP_ERROR_FIXED_UP /\
      forall tap, ingress_tap E (sw_if_index_rx b) = Some tap ->
        exists lip, lcp_itf_pair_get E (lcp_itf_pair_find_by_phy E phy) = Some lip /\
          lip_host_sw_if_index lip = tap
  | None =>
      o_buf o = set_error (errors SONIC_EXT_L2_TRAP_FIXUP_ERROR_NO_PARENT) b /\
      o_next o = SONIC_EXT_L2_TRAP_FIXUP_NEXT_DROP /\
      o_err o = SONIC_EXT_L2_TRAP_FIXUP_ERROR_NO_PARENT
  end.
Proof.
  cbv zeta. pose proof (ingress_tap_pair E (sw_if_index_rx b)) as Hin.
  unfold sonic_ext_l2_trap_fixup_one, sonic_ext_l2_trap_fixup_lookup_parent, parent_port in *.
  destruct (vnet_get_sw_interface_or_null E (sw_if_index_rx b)) as [swi|] eqn:Hswi; [|done].
  destruct (Hvalid _ _ Hswi) as [Hrx Hsup]. cbn in *.
  assert (Hne : (if is_sub swi then sup_sw_if_index swi else sw_if_index_rx b) <> U32_MAX)
    by (by destruct (is_sub swi)).
  rewrite (proj2 (Z.eqb_neq _ _) Hne). split_and!; try done.
  intros tap Htap. destruct (Hin tap HE Htap) as (phy & lip & [= <-] & _ & Hget & _ & Hh). eauto.
Qed.

(** C27.  A frame skips the ingress ACL exactly when its interface has a FIB and its
    destination there is a local receive address; every lookup that finds
    nothing (no FIB, no load-balance object) leaves the frame to the ACL.  The
    bytes of the frame are never changed. *)
Theorem ip2me_bypass_iff I is_ip6 b :
  let o := sonic_ext_ip2me_one I is_ip6 b in
  let fib := fib_index_by_sw_if_index I is_ip6 (sw_if_index_rx b) in
  (o_err o = SONIC_EXT_IP2ME_ERROR_HIT <->
     fib <> U32_MAX /\
     load_balance_get_or_null I (fib_forwarding_lookup I is_ip6 fib (ip2me_dst I is_ip6 b))
       = Some DPO_RECEIVE) /\
  (if decide (o_err o = SONIC_EXT_IP2ME_ERROR_HIT)
   then o_buf o = b /\ o_next o = SONIC_EXT_IP2ME_NEXT_ARC_END
   else o_err o = SONIC_EXT_IP2ME_ERROR_PASSTHRU /\ o_buf o = snd (vnet_feature_next b) /\
     o_next o = u16 (fst (vnet_feature_next b))).
Proof.
  cbv zeta. unfold sonic_ext_ip2me_one, sonic_ext_dst_is_local_ip4, sonic_ext_dst_is_local_ip6.
  replace (if is_ip6 then sonic_ext_dst_is_local I true _ _ else _)
    with (sonic_ext_dst_is_local I is_ip6
      (fib_index_by_sw_if_index I is_ip6 (sw_if_index_rx b)) (ip2me_dst I is_ip6 b))
    by (by destruct is_ip6).
  unfold sonic_ext_dst_is_local.
  destruct (Z.eqb_spec (fib_index_by_sw_if_index I is_ip6 (sw_if_index_rx b)) U32_MAX) as [Hf|Hf].
  { destruct (vnet_feature_next b). cbn. split; [split; [done|by intros [? _]]|done]. }
  destruct (load_balance_get_or_null I _) as [[|]|]; destruct (vnet_feature_next b); cbn;
    (split; [split; [done|by intros [_ ?]]|done]).
Qed.

End Theorems.

(** ** Witnesses *)

Lemma env_ref_host_unique ifs bvis pairs :
  NoDup (lip_host_sw_if_index <$> pairs) -> lcp_host_unique (env_ref ifs bvis pairs).
Proof.
  intros Hnd phy lip Hne Hget. cbn in *. unfold pair_index in *.
  destruct (list_find _ pairs) as [[i l]|] eqn:Hf; [|done].
  rewrite (proj2 (Z.ltb_ge _ _)), Nat2Z.id in Hget by lia.
  replace (list_find (fun l => (lip_host_sw_if_index l =? lip_host_sw_if_index lip) = true) pairs)
    with (Some (i, lip)); [done|].
  symmetry. apply list_find_Some. split_and!; [done|by apply Z.eqb_eq|].
  intros j y Hy Hj Heq%Z.eqb_eq.
  assert (j = i); [|lia]. eapply (NoDup_lookup _ j i (lip_host_sw_if_index lip) Hnd).
  - by rewrite list_lookup_fmap, Hy, <- Heq.
  - by rewrite list_lookup_fmap, Hget.
Qed.

(** Linux answers on tap 11 to a packet of sub-interface 3; it leaves on port 1. *)
Lemma host_xc_returns_to_port_witness :
  sw_if_index_tx (o_buf (@sonic_ext_host_xc_one vlib_ref sem_example env_example
    (set_rx 11 null_buffer))) = 1.
Proof.
  destruct (@host_xc_returns_to_port vlib_ref sem_example env_example (set_rx 11 null_buffer)) as [Hw _].
  - apply env_ref_lcp_ok.
  - apply env_ref_host_unique. by_compute.
  - destruct (Hw 3) as (_ & _ & Hw' & _); [reflexivity|vm_compute; reflexivity|]. clear Hw. rename Hw' into Hw.
    assert (Hp : parent_port env_example 3 = Some 1) by (vm_compute; reflexivity).
    rewrite Hp in Hw. exact (f_equal (default 0) Hw).
Defined.

Lemma l2_trap_fixup_parent_witness :
  o_buf (sonic_ext_l2_trap_fixup_one (fun _ => 77) env_one_port (set_rx 3 null_buffer))
    = set_rx 1 null_buffer.
Proof.
  pose proof (l2_trap_fixup_parent (fun _ => 77) env_one_port (set_rx 3 null_buffer)
    (env_ref_lcp_ok _ _ _)) as Hw.
  cbv zeta in Hw. assert (Hp : parent_port env_one_port (sw_if_index_rx (set_rx 3 null_buffer))
    = Some 1) by (vm_compute; reflexivity).
  rewrite Hp in Hw. apply Hw. intros sw swi Hswi. cbn -[list_to_map] in Hswi.
  apply fmap_Some in Hswi as ([swi' d] & Hl & ->).
  apply elem_of_list_to_map_2, list_elem_of_singleton in Hl. simplify_eq. split; by_compute.
Defined.
