(* ===== verification/SonicTotals.v ===== *)
(** * The totals of the sonic_ext plugin (sonic_ext.h, cli.c)

    Every node of the plugin adds to a [u64] total in the plugin's global state,
    beside the counters VPP keeps per thread; [show sonic-ext] prints the totals.
    In one thread the totals are the sums of what went to the node counters
    ([show_sonic_ext_counts]); the unsynchronised updates of several threads are not
    modelled. *)

From stdpp Require Import pretty relations.
From S2P Require Import Prelude Vlib SonicExt SonicCapture SonicAggr SonicGlean SonicNodes.
Import HostXc L2TrapFixup Ip2me.

(** ** Node calls *)

Inductive total_t :=
  T_captures | T_aggr_tap_redirects | T_glean_redirects | T_host_xc_direct | T_l2_trap_fixups
| T_ip2me_hits.

#[export] Instance total_t_eq_dec : EqDecision total_t.
Proof. solve_decision. Defined.

Definition total (k : total_t) (sem : sonic_ext_main_t) : Z :=
  match k with
  | T_captures => captures sem
  | T_aggr_tap_redirects => aggr_tap_redirects sem
  | T_glean_redirects => glean_redirects sem
  | T_host_xc_direct => host_xc_direct sem
  | T_l2_trap_fixups => l2_trap_fixups sem
  | T_ip2me_hits => ip2me_hits sem
  end.

(** The node counter that goes with each total. *)
Definition total_error (k : total_t) : nat :=
  match k with
  | T_captures => SONIC_EXT_CAPTURE_ERROR_CAPTURED
  | T_aggr_tap_redirects => SONIC_EXT_AGGR_TAP_REDIRECT_ERROR_REDIRECTED
  | T_glean_redirects => SONIC_EXT_GLEAN_REDIRECT_ERROR_REDIRECTED
  | T_host_xc_direct => SONIC_EXT_HOST_XC_ERROR_DIRECT
  | T_l2_trap_fixups => SONIC_EXT_L2_TRAP_FIXUP_ERROR_FIXED_UP
  | T_ip2me_hits => SONIC_EXT_IP2ME_ERROR_HIT
  end.

Section Calls.
Context `{Vlib} `{Throttle}.

(** A call of one of the nodes, with what VPP is like then. *)
Inductive node_call :=
  | Call_capture (nf : Z) (st : buffers) (from : list Z)
  | Call_aggr (E : vnet_env) (nf : Z) (st : buffers) (from : list Z)
  | Call_glean (E : vnet_env) (G : glean_env) (src_nodes : list Z) (ts : tstate) (thread now : Z)
      (nf : Z) (st : buffers) (from : list Z)
  | Call_host_xc (E : vnet_env) (nf : Z) (st : buffers) (from : list Z)
  | Call_fixup (errors : nat -> Z) (E : vnet_env) (nf : Z) (st : buffers) (from : list Z)
  | Call_ip2me (ie : ip_env) (is_ip6 : bool) (nf : Z) (st : buffers) (from : list Z).

Definition call_total (c : node_call) : total_t :=
  match c with
  | Call_capture _ _ _ => T_captures
  | Call_aggr _ _ _ _ => T_aggr_tap_redirects
  | Call_glean _ _ _ _ _ _ _ _ _ => T_glean_redirects
  | Call_host_xc _ _ _ _ => T_host_xc_direct
  | Call_fixup _ _ _ _ _ => T_l2_trap_fixups
  | Call_ip2me _ _ _ _ _ => T_ip2me_hits
  end.

(** The node's counter increments and the plugin's state after the call. *)
Definition call_run (sem : sonic_ext_main_t) (c : node_call) : list (nat * Z) * sonic_ext_main_t :=
  match c with
  | Call_capture nf st from =>
      let '(r, sem) := sonic_ext_capture_node sem nf st from in (nr_counters r, sem)
  | Call_aggr E nf st from =>
      let '(r, sem) := sonic_ext_aggr_tap_redirect_node sem E nf st from in (nr_counters r, sem)
  | Call_glean E G src ts thread now nf st from =>
      let '(r, sem) := sonic_ext_glean_redirect_node sem E G src ts thread now nf st from in
      (nr_counters r, sem)
  | Call_host_xc E nf st from =>
      let '(r, sem) := sonic_ext_host_xc_node sem E nf st from in (nr_counters r, sem)
  | Call_fixup errors E nf st from =>
      let '(r, sem) := sonic_ext_l2_trap_fixup_node errors sem E nf st from in (nr_counters r, sem)
  | Call_ip2me ie is_ip6 nf st from =>
      let '(r, sem) := sonic_ext_ip2me_inline ie sem nf st from is_ip6 in (nr_counters r, sem)
  end.

(** One thread's calls, in order: the counter increments of each and the state. *)
Fixpoint calls_run (sem : sonic_ext_main_t) (cs : list node_call)
    : list (total_t * list (nat * Z)) * sonic_ext_main_t :=
  match cs with
  | [] => ([], sem)
  | c :: cs =>
      let '(ctrs, sem) := call_run sem c in
      let '(log, sem) := calls_run sem cs in
      ((call_total c, ctrs) :: log, sem)
  end.

End Calls.

(** What was added to counter [e], and to the counter of a total. *)
Definition added (e : nat) (ctrs : list (nat * Z)) : Z :=
  foldr (fun p acc => (if decide (fst p = e) then snd p else 0) + acc) 0 ctrs.

Definition logged (k : total_t) (log : list (total_t * list (nat * Z))) : Z :=
  foldr (fun p acc => (if decide (fst p = k) then added (total_error k) (snd p) else 0) + acc) 0 log.

(** ** show sonic-ext *)

Definition on_off (b : bool) : string := if b then "on" else "off".

(** [vlib_cli_output] lines; [%llu] of a [u64]. *)
Definition show_sonic_ext_command_fn (sem : sonic_ext_main_t) : list string :=
  ["sonic-ext state:";
   "  punt-via-member : " +:+ on_off (punt_via_member sem);
   "  host-xc         : " +:+ on_off (host_xc sem);
   "  captures        : " +:+ pretty (captures sem);
   "  aggr-tap redir  : " +:+ pretty (aggr_tap_redirects sem);
   "  glean redirect  : " +:+ pretty (glean_redirects sem);
   "  host-xc direct  : " +:+ pretty (host_xc_direct sem);
   "  l2 trap fixups  : " +:+ pretty (l2_trap_fixups sem);
   "  ip2me hits      : " +:+ pretty (ip2me_hits sem)]%string.

(** ** Lemmas *)

Lemma added_cons e i n ctrs : added e ((i, n) :: ctrs) = (if decide (i = e) then n else 0) + added e ctrs.
Proof. done. Qed.

Lemma count_of_added {St T} (acc : frame_acc St T) e :
  count_of acc e = added e (flush_counters (fa_counts acc)).
Proof.
  unfold count_of, flush_counters.
  assert (Hgen : forall counts k, added e (filter (fun p : nat * Z => c_true (snd p) = true)
      (imap (fun i x => ((k + i)%nat, x)) counts)) =
    if decide (k <= e)%nat then default 0 (counts !! (e - k)%nat) else 0).
  { induction counts as [|c counts IH]; intros k; [by case_decide|]. cbn [imap].
    rewrite filter_cons. rewrite Nat.add_0_r.
    assert (Himap : imap ((fun i x => ((k + i)%nat, x)) ∘ S) counts =
      imap (fun i x => ((S k + i)%nat, x)) counts) by (apply imap_ext; intros; cbn; f_equal; lia).
    rewrite Himap. specialize (IH (S k)). cbn [snd].
    assert (Hz : c_true c = false -> c = 0) by (unfold c_true; by destruct (Z.eqb_spec c 0)).
    destruct (decide (c_true c = true)) as [Hc|Hc]; [rewrite added_cons|];
      rewrite IH; clear IH.
    - repeat case_decide; try lia.
      + subst k. rewrite Nat.sub_diag. cbn. lia.
      + replace (e - k)%nat with (S (e - S k)) by lia. done.
    - apply not_true_is_false, Hz in Hc. subst c. repeat case_decide; try lia.
      + replace (e - k)%nat with (S (e - S k)) by lia. done.
      + replace (e - k)%nat with 0%nat by lia. done. }
  specialize (Hgen (fa_counts acc) 0%nat). rewrite decide_True, Nat.sub_0_r in Hgen by lia. by rewrite <- Hgen.
Qed.

Section Facts.
Context `{Vlib} `{Throttle}.

(** A call adds to its own total what it adds to the node's counter. *)
Lemma call_run_total sem c k :
  let '(ctrs, sem') := call_run sem c in
  punt_via_member sem' = punt_via_member sem /\ host_xc sem' = host_xc sem /\
  total k sem' = if decide (call_total c = k) then u64 (total k sem + added (total_error k) ctrs)
                 else total k sem.
Proof.
  destruct c; unfold call_run, sonic_ext_capture_node, sonic_ext_aggr_tap_redirect_node,
    sonic_ext_glean_redirect_node, sonic_ext_host_xc_node, sonic_ext_l2_trap_fixup_node,
    sonic_ext_ip2me_inline; try destruct (throttle_seed _ _ _) as [ts' seed]; cbn [fst snd];
    (split; [done|]); (split; [done|]); destruct k; cbn; try done; by rewrite count_of_added.
Qed.

End Facts.

Lemma u64_range x : is_u64 (u64 x).
Proof. unfold u64, is_u64. apply Z.mod_pos_bound. lia. Qed.

Lemma u64_add_l x y : u64 (u64 x + y) = u64 (x + y).
Proof. unfold u64. by rewrite Zplus_mod_idemp_l. Qed.

(** The totals after a thread's calls. *)
Lemma calls_run_total `{Vlib} `{Throttle} cs sem :
  let '(log, sem') := calls_run sem cs in
  punt_via_member sem' = punt_via_member sem /\ host_xc sem' = host_xc sem /\
  forall k, is_u64 (total k sem) -> total k sem' = u64 (total k sem + logged k log).
Proof.
  revert sem; induction cs as [|c cs IH]; intros sem; cbn [calls_run].
  { split_and!; try done. intros k Hk. cbn. rewrite Z.add_0_r. by rewrite u64_id. }
  pose proof (call_run_total sem c) as Hc. destruct (call_run sem c) as [ctrs sem1].
  specialize (IH sem1). destruct (calls_run sem1 cs) as [log sem'].
  destruct IH as (Hp & Hx & Hk). destruct (Hc T_captures) as (Hp1 & Hx1 & _).
  split_and!; [congruence|congruence|]. intros k Hu. destruct (Hc k) as (_ & _ & Ht).
  cbn [logged foldr fst snd]. fold (logged k). rewrite Hk, Ht.
  - case_decide; [by rewrite u64_add_l, Z.add_assoc|]. by rewrite Z.add_0_l.
  - rewrite Ht. case_decide; [apply u64_range|done].
Qed.

(** ** Theorems *)

Section Theorems.
Context `{Vlib} `{Throttle}.

(** C37.  What [show sonic-ext] prints.  After any sequence of node calls of one
    thread from zeroed totals, each total it prints is the sum of what the calls of
    that node added to the node's own counter (modulo 2^64), and the switches are as
    they were set. *)
Theorem show_sonic_ext_counts sem cs :
  (forall k, total k sem = 0) ->
  let '(log, sem') := calls_run sem cs in
  let line label k := (label +:+ pretty (u64 (logged k log)))%string in
  show_sonic_ext_command_fn sem' =
    ["sonic-ext state:";
     "  punt-via-member : " +:+ on_off (punt_via_member sem);
     "  host-xc         : " +:+ on_off (host_xc sem);
     line "  captures        : " T_captures;
     line "  aggr-tap redir  : " T_aggr_tap_redirects;
     line "  glean redirect  : " T_glean_redirects;
     line "  host-xc direct  : " T_host_xc_direct;
     line "  l2 trap fixups  : " T_l2_trap_fixups;
     line "  ip2me hits      : " T_ip2me_hits]%string.
Proof.
  intros Hz. pose proof (calls_run_total cs sem) as Hr. destruct (calls_run sem cs) as [log sem'].
  destruct Hr as (Hp & Hx & Ht). unfold show_sonic_ext_command_fn. rewrite Hp, Hx.
  assert (Hk : forall k, total k sem' = u64 (logged k log)).
  { intros k. rewrite Ht by (rewrite Hz; by_compute). by rewrite Hz, Z.add_0_l. }
  cbv zeta. rewrite <- !Hk. done.
Qed.

End Theorems.

(** ** Witnesses *)

(** A frame of two packets through capture, and one of them through ip2me. *)
Lemma show_sonic_ext_counts_witness :
  show_sonic_ext_command_fn (snd (@calls_run vlib_ref throttle_ref sem_example
    [Call_capture 0 {[4 := ex_local_frame; 5 := null_buffer]} [4; 5];
     Call_ip2me ip_env_example false 0 {[4 := ex_local_frame; 5 := null_buffer]} [4; 5]])) =
  ["sonic-ext state:"; "  punt-via-member : on"; "  host-xc         : on"; "  captures        : 2";
   "  aggr-tap redir  : 0"; "  glean redirect  : 0"; "  host-xc direct  : 0";
   "  l2 trap fixups  : 0"; "  ip2me hits      : 1"]%string.
Proof.
  pose proof (@show_sonic_ext_counts vlib_ref throttle_ref sem_example
    [Call_capture 0 {[4 := ex_local_frame; 5 := null_buffer]} [4; 5];
     Call_ip2me ip_env_example false 0 {[4 := ex_local_frame; 5 := null_buffer]} [4; 5]]) as Hw.
  destruct (calls_run sem_example _) as [log sem'] eqn:Hr. cbn [snd].
  rewrite Hw by (by intros [| | | | |]). cbv zeta.
  assert (Hlog : forall k, logged k log = match k with T_captures => 2 | T_ip2me_hits => 1 | _ => 0 end).
  { intros k. replace log with (fst (@calls_run vlib_ref throttle_ref sem_example
    [Call_capture 0 {[4 := ex_local_frame; 5 := null_buffer]} [4; 5];
     Call_ip2me ip_env_example false 0 {[4 := ex_local_frame; 5 := null_buffer]} [4; 5]]))
      by (by rewrite Hr). destruct k; vm_compute; reflexivity. }
  rewrite !Hlog. vm_compute. reflexivity.
Defined.
