(* ===== verification/SonicCtl.v ===== *)
(** * Control plane of the sonic_ext plugin
      (sonic_ext.c, sonic_ext_api.c, cli.c)

    Which features the plugin has enabled on which interface, as switches are
    flipped and linux-cp pairs come and go.  [ctl_step] is the transition
    relation; the invariant [wired] says that the features are on exactly where
    the pairs ask for them, in particular that a sub-interface is never touched
    on the device-input arc.  The theorems do not mention the plugin's own flags:
    they speak of the switches as they were flipped ([ctl_event]) and of the
    interfaces as they are at the end ([plugin_step] lets them change). *)

From S2P Require Import Prelude Vlib Feature SonicExt.

(** ** Feature keys *)

Definition capture_key (sw : Z) : fkey := ("device-input", "sonic-ext-capture", sw)%string.
Definition host_xc_key (sw : Z) : fkey := ("device-input", "sonic-ext-host-xc", sw)%string.
Definition aggr_key (sw : Z) : fkey :=
  ("interface-output", "sonic-ext-aggr-tap-redirect", sw)%string.
Definition glean4_key : fkey := ("ip4-drop", "sonic-ext-glean-redirect", 0)%string.
Definition glean6_key : fkey := ("ip6-drop", "sonic-ext-glean-redirect", 0)%string.
Definition ip2me4_key (sw : Z) : fkey := ("l2-input-ip4", "sonic-ext-ip2me-ip4", sw)%string.
Definition ip2me6_key (sw : Z) : fkey := ("l2-input-ip6", "sonic-ext-ip2me-ip6", sw)%string.

(** ** Switch fields of the global state *)

Definition set_switches (pvm xc cap_en xc_en glean_en : bool) (sem : sonic_ext_main_t) :=
  mkSem (msg_id_base sem) pvm xc cap_en xc_en glean_en (captures sem) (aggr_tap_redirects sem)
    (glean_redirects sem) (host_xc_direct sem) (l2_trap_fixups sem) (ip2me_hits sem).

Section Ctl.
Context `{VnetFeature}.

(** ** Per-interface helpers; VPP's return values are ignored by the code *)

Definition sonic_ext_capture_enable_disable (E : vnet_env) (fs : fstate) (sw_if_index : Z)
    (enable : bool) : fstate :=
  if sonic_ext_sw_is_sub E sw_if_index then fs
  else fst (vnet_feature_enable_disable fs (capture_key sw_if_index) enable).

Definition sonic_ext_host_xc_enable_disable (E : vnet_env) (fs : fstate) (sw_if_index : Z)
    (enable : bool) : fstate :=
  if sonic_ext_sw_is_sub E sw_if_index then fs
  else fst (vnet_feature_enable_disable fs (host_xc_key sw_if_index) enable).

Definition sonic_ext_aggr_tap_redirect_enable_disable (fs : fstate) (sw_if_index : Z)
    (enable : bool) : fstate :=
  fst (vnet_feature_enable_disable fs (aggr_key sw_if_index) enable).

Definition sonic_ext_glean_redirect_enable_disable (fs : fstate) (enable : bool) : fstate :=
  let fs := fst (vnet_feature_enable_disable fs glean4_key enable) in
  fst (vnet_feature_enable_disable fs glean6_key enable).

(** ** Switches *)

(** The callbacks get the pair [lcp_itf_pair_get] returned for the visited
    index; the walk visits the pairs of the pool in order. *)
Definition sonic_ext_host_xc_walk_enable_cb (E : vnet_env) (fs : fstate)
    (lip : option lcp_itf_pair_t) : fstate :=
  match lip with
  | Some lip => sonic_ext_host_xc_enable_disable E fs (lip_host_sw_if_index lip) true
  | None => fs
  end.

Definition sonic_ext_capture_walk_enable_cb (E : vnet_env) (fs : fstate)
    (lip : option lcp_itf_pair_t) : fstate :=
  match lip with
  | Some lip =>
      if negb (sonic_ext_phy_is_aggregate E (lip_phy_sw_if_index lip))
      then sonic_ext_capture_enable_disable E fs (lip_phy_sw_if_index lip) true else fs
  | None => fs
  end.

Definition lcp_itf_pair_walk (cb : fstate -> option lcp_itf_pair_t -> fstate)
    (pairs : list lcp_itf_pair_t) (fs : fstate) : fstate :=
  fold_left (fun fs lip => cb fs (Some lip)) pairs fs.

Definition sonic_ext_set_punt_via_member (E : vnet_env) (pairs : list lcp_itf_pair_t)
    (sem : sonic_ext_main_t) (fs : fstate) (is_enable : bool) : sonic_ext_main_t * fstate :=
  let sem := set_switches is_enable (host_xc sem) (capture_enabled sem) (host_xc_enabled sem)
    (glean_redirect_enabled sem) sem in
  let '(sem, fs) :=
    if is_enable && negb (capture_enabled sem) then
      let fs := lcp_itf_pair_walk (sonic_ext_capture_walk_enable_cb E) pairs fs in
      (set_switches (punt_via_member sem) (host_xc sem) true (host_xc_enabled sem)
         (glean_redirect_enabled sem) sem, fs)
    else (sem, fs) in
  if is_enable && negb (glean_redirect_enabled sem) then
    let fs := sonic_ext_glean_redirect_enable_disable fs true in
    (set_switches (punt_via_member sem) (host_xc sem) (capture_enabled sem)
       (host_xc_enabled sem) true sem, fs)
  else (sem, fs).

Definition sonic_ext_set_host_xc (E : vnet_env) (pairs : list lcp_itf_pair_t)
    (sem : sonic_ext_main_t) (fs : fstate) (is_enable : bool) : sonic_ext_main_t * fstate :=
  let sem := set_switches (punt_via_member sem) is_enable (capture_enabled sem)
    (host_xc_enabled sem) (glean_redirect_enabled sem) sem in
  if is_enable && negb (host_xc_enabled sem) then
    let fs := lcp_itf_pair_walk (sonic_ext_host_xc_walk_enable_cb E) pairs fs in
    (set_switches (punt_via_member sem) (host_xc sem) (capture_enabled sem) true
       (glean_redirect_enabled sem) sem, fs)
  else (sem, fs).

(** ** Pair callbacks *)

(** The two callbacks have the same body but for the last argument. *)
Definition lcp_pair_cb (E : vnet_env) (sem : sonic_ext_main_t) (fs : fstate)
    (lip : lcp_itf_pair_t) (enable : bool) : fstate :=
  let fs := if capture_enabled sem && negb (sonic_ext_phy_is_aggregate E (lip_phy_sw_if_index lip))
    then sonic_ext_capture_enable_disable E fs (lip_phy_sw_if_index lip) enable else fs in
  let fs := if host_xc_enabled sem
    then sonic_ext_host_xc_enable_disable E fs (lip_host_sw_if_index lip) enable else fs in
  if sonic_ext_phy_is_aggregate E (lip_phy_sw_if_index lip)
  then sonic_ext_aggr_tap_redirect_enable_disable fs (lip_host_sw_if_index lip) enable else fs.

Definition sonic_ext_lcp_pair_add_cb (E : vnet_env) (sem : sonic_ext_main_t) (fs : fstate)
    (lip : option lcp_itf_pair_t) : fstate :=
  match lip with Some lip => lcp_pair_cb E sem fs lip true | None => fs end.

Definition sonic_ext_lcp_pair_del_cb (E : vnet_env) (sem : sonic_ext_main_t) (fs : fstate)
    (lip : option lcp_itf_pair_t) : fstate :=
  match lip with Some lip => lcp_pair_cb E sem fs lip false | None => fs end.

(** ** Initialisation *)

Definition zero_sem : sonic_ext_main_t := mkSem 0 false false false false false 0 0 0 0 0 0.

(** The previous contents of the global state are wiped ([clib_memset]). *)
Definition sonic_ext_init (E : vnet_env) (pairs : list lcp_itf_pair_t)
    (_ : sonic_ext_main_t) (fs : fstate) : sonic_ext_main_t * fstate :=
  let sem := zero_sem in
  let '(sem, fs) := sonic_ext_set_punt_via_member E pairs sem fs true in
  sonic_ext_set_host_xc E pairs sem fs true.

(** [setup_message_id_table] returns the base of the plugin's message ids. *)
Definition sonic_ext_api_init (base : Z) (sem : sonic_ext_main_t) : sonic_ext_main_t :=
  mkSem (u16 base) (punt_via_member sem) (host_xc sem) (capture_enabled sem)
    (host_xc_enabled sem) (glean_redirect_enabled sem) (captures sem) (aggr_tap_redirects sem)
    (glean_redirects sem) (host_xc_direct sem) (l2_trap_fixups sem) (ip2me_hits sem).

(** ** The machine *)

(** The plugin's state, VPP's feature state and the pairs that exist. *)
Record ctl_state := mkCtl {
  cs_sem : sonic_ext_main_t;
  cs_fs : fstate;
  cs_pairs : list lcp_itf_pair_t
}.

(** linux-cp refuses a second pair for a phy or a host interface. *)
Inductive ctl_step (E : vnet_env) : ctl_state -> ctl_state -> Prop :=
  | step_punt_via_member sem fs pairs en sem' fs' :
      sonic_ext_set_punt_via_member E pairs sem fs en = (sem', fs') ->
      ctl_step E (mkCtl sem fs pairs) (mkCtl sem' fs' pairs)
  | step_host_xc sem fs pairs en sem' fs' :
      sonic_ext_set_host_xc E pairs sem fs en = (sem', fs') ->
      ctl_step E (mkCtl sem fs pairs) (mkCtl sem' fs' pairs)
  | step_pair_add sem fs pairs lip :
      lip_phy_sw_if_index lip ∉ lip_phy_sw_if_index <$> pairs ->
      lip_host_sw_if_index lip ∉ lip_host_sw_if_index <$> pairs ->
      ctl_step E (mkCtl sem fs pairs)
        (mkCtl sem (sonic_ext_lcp_pair_add_cb E sem fs (Some lip)) (lip :: pairs))
  | step_pair_del sem fs pairs1 lip pairs2 :
      ctl_step E (mkCtl sem fs (pairs1 ++ lip :: pairs2))
        (mkCtl sem (sonic_ext_lcp_pair_del_cb E sem fs (Some lip)) (pairs1 ++ pairs2)).

(** The same as a function of what happens: a switch is flipped, linux-cp creates a pair
    (it refuses one whose phy or host has a pair) or deletes one. *)
Inductive ctl_event :=
  | Ev_punt_via_member (is_enable : bool)
  | Ev_host_xc (is_enable : bool)
  | Ev_pair_add (lip : lcp_itf_pair_t)
  | Ev_pair_del (lip : lcp_itf_pair_t).

#[export] Instance lcp_itf_pair_eq_dec : EqDecision lcp_itf_pair_t.
Proof. solve_decision. Defined.

Definition pair_taken (pairs : list lcp_itf_pair_t) (lip : lcp_itf_pair_t) : bool :=
  bool_decide (lip_phy_sw_if_index lip ∈ lip_phy_sw_if_index <$> pairs \/
               lip_host_sw_if_index lip ∈ lip_host_sw_if_index <$> pairs).

Fixpoint remove_pair (lip : lcp_itf_pair_t) (pairs : list lcp_itf_pair_t) : list lcp_itf_pair_t :=
  match pairs with
  | [] => []
  | l :: pairs => if decide (l = lip) then pairs else l :: remove_pair lip pairs
  end.

Definition ctl_exec (E : vnet_env) (c : ctl_state) (e : ctl_event) : ctl_state :=
  let '(mkCtl sem fs pairs) := c in
  match e with
  | Ev_punt_via_member en =>
      let '(sem, fs) := sonic_ext_set_punt_via_member E pairs sem fs en in mkCtl sem fs pairs
  | Ev_host_xc en =>
      let '(sem, fs) := sonic_ext_set_host_xc E pairs sem fs en in mkCtl sem fs pairs
  | Ev_pair_add lip =>
      if pair_taken pairs lip then c
      else mkCtl sem (sonic_ext_lcp_pair_add_cb E sem fs (Some lip)) (lip :: pairs)
  | Ev_pair_del lip =>
      if decide (lip ∈ pairs)
      then mkCtl sem (sonic_ext_lcp_pair_del_cb E sem fs (Some lip)) (remove_pair lip pairs)
      else c
  end.

(** Interfaces come and go and change while the plugin runs, but those that have a pair
    stay what they are; and only a sub-interface shares its device-input configuration. *)
Definition same_class (E E' : vnet_env) (pairs : list lcp_itf_pair_t) : Prop :=
  forall lip, lip ∈ pairs ->
    sonic_ext_phy_is_aggregate E' (lip_phy_sw_if_index lip) =
      sonic_ext_phy_is_aggregate E (lip_phy_sw_if_index lip) /\
    sonic_ext_sw_is_sub E' (lip_phy_sw_if_index lip) = sonic_ext_sw_is_sub E (lip_phy_sw_if_index lip) /\
    sonic_ext_sw_is_sub E' (lip_host_sw_if_index lip) = sonic_ext_sw_is_sub E (lip_host_sw_if_index lip).

Definition subs_share (E : vnet_env) : Prop := forall arc sw, shared_config arc sw = true ->
  arc = "device-input"%string /\ sonic_ext_sw_is_sub E sw = true.

Inductive plugin_step : vnet_env * ctl_state -> vnet_env * ctl_state -> Prop :=
  | plugin_ctl E c c' : ctl_step E c c' -> plugin_step (E, c) (E, c')
  | plugin_env E E' c : same_class E E' (cs_pairs c) -> subs_share E' -> plugin_step (E, c) (E', c).

(** The invariant: capture is on at the wire ports of pairs (no aggregate, no
    sub-interface) when its flag is set, host-xc at the taps of pairs that are no
    sub-interfaces when its flag is, the aggregate redirect at the taps of aggregates'
    pairs, the glean redirect on the drop arcs when its flag is set. *)
Definition wired (E : vnet_env) (c : ctl_state) : Prop :=
  let on := vnet_feature_is_enabled (cs_fs c) in
  NoDup (lip_phy_sw_if_index <$> cs_pairs c) /\
  NoDup (lip_host_sw_if_index <$> cs_pairs c) /\
  (forall sw, on (capture_key sw) = true <->
     capture_enabled (cs_sem c) = true /\ sonic_ext_sw_is_sub E sw = false /\
     sonic_ext_phy_is_aggregate E sw = false /\
     exists lip, lip ∈ cs_pairs c /\ lip_phy_sw_if_index lip = sw) /\
  (forall sw, on (host_xc_key sw) = true <->
     host_xc_enabled (cs_sem c) = true /\ sonic_ext_sw_is_sub E sw = false /\
     exists lip, lip ∈ cs_pairs c /\ lip_host_sw_if_index lip = sw) /\
  (forall sw, on (aggr_key sw) = true <->
     exists lip, lip ∈ cs_pairs c /\ lip_host_sw_if_index lip = sw /\
       sonic_ext_phy_is_aggregate E (lip_phy_sw_if_index lip) = true) /\
  on glean4_key = glean_redirect_enabled (cs_sem c) /\
  on glean6_key = glean_redirect_enabled (cs_sem c).

(** The three once-enabled flags are all set. *)
Definition enabled_all (sem : sonic_ext_main_t) : Prop :=
  capture_enabled sem = true /\ host_xc_enabled sem = true /\ glean_redirect_enabled sem = true.

End Ctl.

(** ** ip2me: API and CLI *)

Section Ip2meCtl.
(** [vnet_l2_feature_enable_disable] is VPP's counterpart of
    [vnet_feature_enable_disable] for the L2 arcs, with the same contract. *)
Context `{Vlib} `{L2 : VnetFeature}.

Definition sonic_ext_ip2me_enable_disable (fs : fstate) (sw_if_index : Z) (enable : bool)
    : fstate :=
  let fs := fst (vnet_feature_enable_disable fs (ip2me4_key sw_if_index) enable) in
  fst (vnet_feature_enable_disable fs (ip2me6_key sw_if_index) enable).

(** The result is the feature state and the [retval] of the reply;
    [invalid_sw_if_index] is [VNET_API_ERROR_INVALID_SW_IF_INDEX]. *)
Definition vl_api_sonic_ext_ip2me_enable_disable_t_handler (invalid_sw_if_index : Z)
    (E : vnet_env) (fs : fstate) (mp_sw_if_index : Z) (mp_enable : bool) : fstate * Z :=
  let sw_if_index := net_to_host host 4 mp_sw_if_index in
  match vnet_get_sw_interface_or_null E sw_if_index with
  | None => (fs, invalid_sw_if_index)
  | Some _ => (sonic_ext_ip2me_enable_disable fs sw_if_index mp_enable, 0)
  end.

(** What [unformat] finds next on a command line: [on] or [enable], [off] or
    [disable], an interface name, or none of them. *)
Inductive cli_word := CliOn | CliOff | CliInterface (sw_if_index : Z) | CliUnknown.

Inductive cli_error := CliUnknownInput | CliNoInterface | CliNoState.

(** The word loop: the interface (all ones until one is given), [enable] and
    [got_enable]. *)
Fixpoint ip2me_command_loop (words : list cli_word) (sw_if_index : Z) (enable got_enable : bool)
    : cli_error + (Z * bool * bool) :=
  match words with
  | [] => inr (sw_if_index, enable, got_enable)
  | CliInterface sw :: words => ip2me_command_loop words sw enable got_enable
  | CliOn :: words => ip2me_command_loop words sw_if_index true true
  | CliOff :: words => ip2me_command_loop words sw_if_index false true
  | CliUnknown :: _ => inl CliUnknownInput
  end.

(** [None] is a command with no argument line. *)
Definition sonic_ext_ip2me_command_fn (fs : fstate) (line : option (list cli_word))
    : fstate * option cli_error :=
  match line with
  | None => (fs, None)
  | Some words =>
      match ip2me_command_loop words U32_MAX true false with
      | inl e => (fs, Some e)
      | inr (sw_if_index, enable, got_enable) =>
          if sw_if_index =? U32_MAX then (fs, Some CliNoInterface)
          else if negb got_enable then (fs, Some CliNoState)
          else (sonic_ext_ip2me_enable_disable fs sw_if_index enable, None)
      end
  end.

End Ip2meCtl.

(** ** The two switch commands *)

Section SwitchCli.
Context `{VnetFeature}.
Variables (E : vnet_env) (pairs : list lcp_itf_pair_t).

(** Each word is executed as it is read; an interface name is unknown input. *)
Fixpoint switch_command_loop (set : sonic_ext_main_t -> fstate -> bool -> sonic_ext_main_t * fstate)
    (words : list cli_word) (sem : sonic_ext_main_t) (fs : fstate)
    : sonic_ext_main_t * fstate * option cli_error :=
  match words with
  | [] => (sem, fs, None)
  | CliOn :: words => let '(sem, fs) := set sem fs true in switch_command_loop set words sem fs
  | CliOff :: words => let '(sem, fs) := set sem fs false in switch_command_loop set words sem fs
  | CliInterface _ :: _ | CliUnknown :: _ => (sem, fs, Some CliUnknownInput)
  end.

Definition switch_command (set : sonic_ext_main_t -> fstate -> bool -> sonic_ext_main_t * fstate)
    (line : option (list cli_word)) (sem : sonic_ext_main_t) (fs : fstate)
    : sonic_ext_main_t * fstate * option cli_error :=
  match line with
  | None => (sem, fs, None)
  | Some words => switch_command_loop set words sem fs
  end.

Definition sonic_ext_punt_via_member_command_fn (line : option (list cli_word)) sem fs :=
  switch_command (sonic_ext_set_punt_via_member E pairs) line sem fs.
Definition sonic_ext_host_xc_command_fn (line : option (list cli_word)) sem fs :=
  switch_command (sonic_ext_set_host_xc E pairs) line sem fs.

End SwitchCli.

(** ** Examples *)

(** Features share a configuration exactly where sonic_ext.c says: device-input
    on the sub-interface 3, whose parent is port 1. *)
Definition feature_example : VnetFeature :=
  feature_ref (fun _ _ => false)
    (fun arc sw => bool_decide (arc = "device-input"%string) && (sw =? 3)) (fun _ => 1).

(** ** Lemmas *)

Section CtlFacts.
Context `{VnetFeature}.
Variable E : vnet_env.

(** Every call succeeds (the plugin never looks at the result), and only a
    sub-interface's device-input configuration is another interface's too. *)
Hypothesis calls_ok : forall fs k en, snd (vnet_feature_enable_disable fs k en) = 0.
Hypothesis own_config : forall arc sw, shared_config arc sw = true ->
  arc = "device-input"%string /\ sonic_ext_sw_is_sub E sw = true.

Abbreviation on := vnet_feature_is_enabled.

Lemma toggle_on fs k en k' :
  shared_config (fst (fst k)) (snd k) = false ->
  on (fst (vnet_feature_enable_disable fs k en)) k' = if decide (k' = k) then en else on fs k'.
Proof.
  intros Hs. pose proof (calls_ok fs k en) as Hrv.
  destruct (vnet_feature_enable_disable fs k en) as [fs' rv] eqn:Hc. cbn in *. subst rv.
  case_decide as Hk; [subst; by eapply feature_ok|by eapply feature_frame].
Qed.

Lemma own_other arc sw : arc <> "device-input"%string -> shared_config arc sw = false.
Proof.
  intros Hne. destruct (shared_config arc sw) eqn:Hs; [|done].
  by destruct (own_config arc sw Hs).
Qed.

Lemma own_not_sub arc sw : sonic_ext_sw_is_sub E sw = false -> shared_config arc sw = false.
Proof.
  intros Hne. destruct (shared_config arc sw) eqn:Hs; [|done].
  destruct (own_config arc sw Hs). congruence.
Qed.

Lemma capture_on fs s en k :
  on (sonic_ext_capture_enable_disable E fs s en) k =
  if decide (k = capture_key s /\ sonic_ext_sw_is_sub E s = false) then en else on fs k.
Proof.
  unfold sonic_ext_capture_enable_disable. destruct (sonic_ext_sw_is_sub E s) eqn:Hs.
  - by rewrite decide_False by (by intros [_ ?]).
  - rewrite toggle_on by (by apply own_not_sub). repeat case_decide; naive_solver.
Qed.

Lemma host_xc_on fs s en k :
  on (sonic_ext_host_xc_enable_disable E fs s en) k =
  if decide (k = host_xc_key s /\ sonic_ext_sw_is_sub E s = false) then en else on fs k.
Proof.
  unfold sonic_ext_host_xc_enable_disable. destruct (sonic_ext_sw_is_sub E s) eqn:Hs.
  - by rewrite decide_False by (by intros [_ ?]).
  - rewrite toggle_on by (by apply own_not_sub). repeat case_decide; naive_solver.
Qed.

Lemma aggr_on fs s en k :
  on (sonic_ext_aggr_tap_redirect_enable_disable fs s en) k =
  if decide (k = aggr_key s) then en else on fs k.
Proof. apply toggle_on. by apply own_other. Qed.

Lemma glean_on fs en k :
  on (sonic_ext_glean_redirect_enable_disable fs en) k =
  if decide (k = glean4_key \/ k = glean6_key) then en else on fs k.
Proof.
  unfold sonic_ext_glean_redirect_enable_disable.
  rewrite !toggle_on by (by apply own_other). repeat case_decide; naive_solver.
Qed.

(** *** Walks *)

Lemma walk_capture_on pairs fs sw :
  on (lcp_itf_pair_walk (sonic_ext_capture_walk_enable_cb E) pairs fs) (capture_key sw) = true <->
  on fs (capture_key sw) = true \/
  (sonic_ext_sw_is_sub E sw = false /\ sonic_ext_phy_is_aggregate E sw = false /\
   exists lip, lip ∈ pairs /\ lip_phy_sw_if_index lip = sw).
Proof.
  unfold lcp_itf_pair_walk. revert fs; induction pairs as [|lip pairs IH]; intros fs; cbn [fold_left].
  { split; [by left|]. intros [?|(_ & _ & ? & Hin & _)]; [done|]. by apply not_elem_of_nil in Hin. }
  rewrite IH. clear IH. cbn [sonic_ext_capture_walk_enable_cb]. setoid_rewrite elem_of_cons.
  destruct (sonic_ext_phy_is_aggregate E (lip_phy_sw_if_index lip)) eqn:Ha; cbn [negb].
  - naive_solver congruence.
  - rewrite capture_on. case_decide as Hk; [|naive_solver].
    destruct Hk as [[= ->] Hs]. naive_solver.
Qed.

Lemma walk_capture_other pairs fs k :
  (forall sw, k <> capture_key sw) ->
  on (lcp_itf_pair_walk (sonic_ext_capture_walk_enable_cb E) pairs fs) k = on fs k.
Proof.
  intros Hk. unfold lcp_itf_pair_walk.
  revert fs; induction pairs as [|lip pairs IH]; intros fs; cbn [fold_left]; [done|].
  rewrite IH. cbn. destruct (negb _); [|done]. rewrite capture_on, decide_False; [done|].
  intros [Heq _]. by apply (Hk _ Heq).
Qed.

Lemma walk_host_xc_on pairs fs sw :
  on (lcp_itf_pair_walk (sonic_ext_host_xc_walk_enable_cb E) pairs fs) (host_xc_key sw) = true <->
  on fs (host_xc_key sw) = true \/
  (sonic_ext_sw_is_sub E sw = false /\
   exists lip, lip ∈ pairs /\ lip_host_sw_if_index lip = sw).
Proof.
  unfold lcp_itf_pair_walk. revert fs; induction pairs as [|lip pairs IH]; intros fs; cbn [fold_left].
  { split; [by left|]. intros [?|(_ & ? & Hin & _)]; [done|]. by apply not_elem_of_nil in Hin. }
  rewrite IH. clear IH. cbn [sonic_ext_host_xc_walk_enable_cb]. setoid_rewrite elem_of_cons.
  rewrite host_xc_on. case_decide as Hk; [|naive_solver].
  destruct Hk as [[= ->] Hs]. naive_solver.
Qed.

Lemma walk_host_xc_other pairs fs k :
  (forall sw, k <> host_xc_key sw) ->
  on (lcp_itf_pair_walk (sonic_ext_host_xc_walk_enable_cb E) pairs fs) k = on fs k.
Proof.
  intros Hk. unfold lcp_itf_pair_walk.
  revert fs; induction pairs as [|lip pairs IH]; intros fs; cbn [fold_left]; [done|].
  rewrite IH. cbn. rewrite host_xc_on, decide_False; [done|].
  intros [Heq _]. by apply (Hk _ Heq).
Qed.

(** *** Pair callbacks *)

Lemma pair_cb_capture sem fs lip en sw :
  on (lcp_pair_cb E sem fs lip en) (capture_key sw) =
  if decide (sw = lip_phy_sw_if_index lip /\ capture_enabled sem = true /\
    sonic_ext_phy_is_aggregate E sw = false /\ sonic_ext_sw_is_sub E sw = false)
  then en else on fs (capture_key sw).
Proof.
  unfold lcp_pair_cb. destruct (sonic_ext_phy_is_aggregate E (lip_phy_sw_if_index lip)) eqn:Ha;
    rewrite ?aggr_on, ?(decide_False (P := capture_key sw = aggr_key _)) by done;
    (destruct (host_xc_enabled sem); [rewrite host_xc_on, decide_False by (by intros [? _])|]);
    destruct (capture_enabled sem); cbn [andb negb]; rewrite ?capture_on;
    repeat case_decide; naive_solver congruence.
Qed.

Lemma pair_cb_host_xc sem fs lip en sw :
  on (lcp_pair_cb E sem fs lip en) (host_xc_key sw) =
  if decide (sw = lip_host_sw_if_index lip /\ host_xc_enabled sem = true /\
    sonic_ext_sw_is_sub E sw = false)
  then en else on fs (host_xc_key sw).
Proof.
  unfold lcp_pair_cb. destruct (sonic_ext_phy_is_aggregate E (lip_phy_sw_if_index lip)) eqn:Ha;
    rewrite ?aggr_on, ?(decide_False (P := host_xc_key sw = aggr_key _)) by done;
    (destruct (host_xc_enabled sem); [rewrite host_xc_on|]);
    destruct (capture_enabled sem); cbn [andb negb]; rewrite ?capture_on;
    repeat case_decide; naive_solver congruence.
Qed.

Lemma pair_cb_aggr sem fs lip en sw :
  on (lcp_pair_cb E sem fs lip en) (aggr_key sw) =
  if decide (sw = lip_host_sw_if_index lip /\
    sonic_ext_phy_is_aggregate E (lip_phy_sw_if_index lip) = true)
  then en else on fs (aggr_key sw).
Proof.
  unfold lcp_pair_cb. destruct (sonic_ext_phy_is_aggregate E (lip_phy_sw_if_index lip)) eqn:Ha;
    rewrite ?aggr_on; (destruct (host_xc_enabled sem); [rewrite host_xc_on|]);
    destruct (capture_enabled sem); cbn [andb negb]; rewrite ?capture_on;
    repeat case_decide; naive_solver congruence.
Qed.

Lemma pair_cb_glean sem fs lip en k :
  k = glean4_key \/ k = glean6_key -> on (lcp_pair_cb E sem fs lip en) k = on fs k.
Proof.
  intros Hk. unfold lcp_pair_cb.
  destruct (sonic_ext_phy_is_aggregate E (lip_phy_sw_if_index lip)),
    (host_xc_enabled sem), (capture_enabled sem); cbn [andb negb];
    rewrite ?aggr_on, ?host_xc_on, ?capture_on; destruct Hk as [->| ->];
    repeat case_decide; naive_solver.
Qed.

(** *** Preservation *)

Lemma wired_add sem fs pairs lip :
  lip_phy_sw_if_index lip ∉ lip_phy_sw_if_index <$> pairs ->
  lip_host_sw_if_index lip ∉ lip_host_sw_if_index <$> pairs ->
  wired E (mkCtl sem fs pairs) ->
  wired E (mkCtl sem (sonic_ext_lcp_pair_add_cb E sem fs (Some lip)) (lip :: pairs)).
Proof.
  intros Hp Hh (Hnp & Hnh & Hc & Hx & Ha & Hg4 & Hg6). cbn in *. unfold wired. cbn.
  split_and!; [by apply NoDup_cons..| | | | |].
  - intros sw. rewrite pair_cb_capture. setoid_rewrite elem_of_cons.
    specialize (Hc sw). case_decide as Hd; [naive_solver|rewrite Hc].
    split; [intros (? & ? & ? & l & ? & ?); eauto 10|].
    intros (? & ? & ? & l & [->|?] & <-); [by destruct Hd|eauto 10].
  - intros sw. rewrite pair_cb_host_xc. setoid_rewrite elem_of_cons.
    specialize (Hx sw). case_decide as Hd; [naive_solver|rewrite Hx]. naive_solver.
  - intros sw. rewrite pair_cb_aggr. setoid_rewrite elem_of_cons.
    specialize (Ha sw). case_decide as Hd; [naive_solver|rewrite Ha]. naive_solver.
  - rewrite pair_cb_glean; auto.
  - rewrite pair_cb_glean; auto.
Qed.

Lemma elem_of_middle {A} (x y : A) l1 l2 : x ∈ l1 ++ y :: l2 <-> x = y \/ x ∈ l1 ++ l2.
Proof. rewrite !elem_of_app, elem_of_cons. tauto. Qed.

(** A pair that is taken out shares its field with no pair that stays. *)
Lemma middle_fresh {A B} (f : A -> B) l1 x l2 :
  NoDup (f <$> l1 ++ x :: l2) -> NoDup (f <$> l1 ++ l2) /\ forall y, y ∈ l1 ++ l2 -> f y <> f x.
Proof.
  rewrite !fmap_app, fmap_cons. intros Hnd.
  assert (Hp : (f <$> l1) ++ f x :: (f <$> l2) ≡ₚ f x :: (f <$> l1) ++ (f <$> l2))
    by (symmetry; apply Permutation_middle).
  rewrite Hp in Hnd. apply NoDup_cons in Hnd as [Hx Hnd]. split; [done|].
  intros y Hy Heq. apply Hx. rewrite <- Heq, <- fmap_app. by apply list_elem_of_fmap_2.
Qed.

Lemma wired_del sem fs pairs1 lip pairs2 :
  wired E (mkCtl sem fs (pairs1 ++ lip :: pairs2)) ->
  wired E (mkCtl sem (sonic_ext_lcp_pair_del_cb E sem fs (Some lip)) (pairs1 ++ pairs2)).
Proof.
  intros (Hnp & Hnh & Hc & Hx & Ha & Hg4 & Hg6). cbn in *. unfold wired. cbn.
  destruct (middle_fresh _ _ _ _ Hnp) as [Hnp' Hfp]. destruct (middle_fresh _ _ _ _ Hnh) as [Hnh' Hfh].
  split_and!; [done|done| | | | |].
  - intros sw. rewrite pair_cb_capture. specialize (Hc sw). setoid_rewrite elem_of_middle in Hc.
    case_decide as Hd; [naive_solver|rewrite Hc].
    split; [|intros (? & ? & ? & l & ? & ?); eauto 10].
    intros (? & ? & ? & l & [->|?] & <-); [by destruct Hd|eauto 10].
  - intros sw. rewrite pair_cb_host_xc. specialize (Hx sw). setoid_rewrite elem_of_middle in Hx.
    case_decide as Hd; [naive_solver|rewrite Hx]. naive_solver.
  - intros sw. rewrite pair_cb_aggr. specialize (Ha sw). setoid_rewrite elem_of_middle in Ha.
    case_decide as Hd; [naive_solver|rewrite Ha]. naive_solver.
  - rewrite pair_cb_glean; auto.
  - rewrite pair_cb_glean; auto.
Qed.

(** [wired] looks at three fields of the global state. *)
Lemma wired_sem sem sem' fs pairs :
  capture_enabled sem' = capture_enabled sem -> host_xc_enabled sem' = host_xc_enabled sem ->
  glean_redirect_enabled sem' = glean_redirect_enabled sem ->
  wired E (mkCtl sem fs pairs) -> wired E (mkCtl sem' fs pairs).
Proof. unfold wired. cbn. by intros -> -> ->. Qed.

Lemma wired_capture_walk sem sem' fs pairs :
  capture_enabled sem = false -> capture_enabled sem' = true ->
  host_xc_enabled sem' = host_xc_enabled sem ->
  glean_redirect_enabled sem' = glean_redirect_enabled sem ->
  wired E (mkCtl sem fs pairs) ->
  wired E (mkCtl sem'
    (lcp_itf_pair_walk (sonic_ext_capture_walk_enable_cb E) pairs fs) pairs).
Proof.
  unfold wired. cbn. intros Hf -> -> -> (Hnp & Hnh & Hc & Hx & Ha & Hg4 & Hg6). split_and!; try done.
  - intros sw. rewrite walk_capture_on, Hc, Hf. intuition discriminate.
  - intros sw. by rewrite walk_capture_other.
  - intros sw. by rewrite walk_capture_other.
  - by rewrite walk_capture_other.
  - by rewrite walk_capture_other.
Qed.

Lemma wired_host_xc_walk sem sem' fs pairs :
  host_xc_enabled sem = false -> host_xc_enabled sem' = true ->
  capture_enabled sem' = capture_enabled sem ->
  glean_redirect_enabled sem' = glean_redirect_enabled sem ->
  wired E (mkCtl sem fs pairs) ->
  wired E (mkCtl sem'
    (lcp_itf_pair_walk (sonic_ext_host_xc_walk_enable_cb E) pairs fs) pairs).
Proof.
  unfold wired. cbn. intros Hf -> -> -> (Hnp & Hnh & Hc & Hx & Ha & Hg4 & Hg6). split_and!; try done.
  - intros sw. by rewrite walk_host_xc_other.
  - intros sw. rewrite walk_host_xc_on, Hx, Hf. intuition discriminate.
  - intros sw. by rewrite walk_host_xc_other.
  - by rewrite walk_host_xc_other.
  - by rewrite walk_host_xc_other.
Qed.

Lemma wired_glean sem sem' fs pairs :
  glean_redirect_enabled sem' = true ->
  capture_enabled sem' = capture_enabled sem -> host_xc_enabled sem' = host_xc_enabled sem ->
  wired E (mkCtl sem fs pairs) ->
  wired E (mkCtl sem' (sonic_ext_glean_redirect_enable_disable fs true) pairs).
Proof.
  unfold wired. cbn. intros -> -> -> (Hnp & Hnh & Hc & Hx & Ha & Hg4 & Hg6).
  split_and!; try done; try (intros sw; by rewrite glean_on, decide_False by (by intros [?|?]));
    rewrite glean_on, decide_True; auto.
Qed.

(** What the two switches leave of the flags. *)
Lemma punt_via_member_flags pairs sem fs en :
  let sem' := fst (sonic_ext_set_punt_via_member E pairs sem fs en) in
  punt_via_member sem' = en /\ host_xc sem' = host_xc sem /\
  host_xc_enabled sem' = host_xc_enabled sem /\
  capture_enabled sem' = capture_enabled sem || en /\
  glean_redirect_enabled sem' = glean_redirect_enabled sem || en.
Proof.
  unfold sonic_ext_set_punt_via_member. cbn.
  destruct en, (capture_enabled sem) eqn:Hc, (glean_redirect_enabled sem) eqn:Hg; cbn;
    rewrite ?Hc, ?Hg; done.
Qed.

Lemma host_xc_flags pairs sem fs en :
  let sem' := fst (sonic_ext_set_host_xc E pairs sem fs en) in
  host_xc sem' = en /\ punt_via_member sem' = punt_via_member sem /\
  capture_enabled sem' = capture_enabled sem /\
  glean_redirect_enabled sem' = glean_redirect_enabled sem /\
  host_xc_enabled sem' = host_xc_enabled sem || en.
Proof.
  unfold sonic_ext_set_host_xc. cbn. destruct en, (host_xc_enabled sem) eqn:Hc; cbn;
    rewrite ?Hc; done.
Qed.

Lemma wired_punt_via_member sem fs pairs en sem' fs' :
  sonic_ext_set_punt_via_member E pairs sem fs en = (sem', fs') ->
  wired E (mkCtl sem fs pairs) -> wired E (mkCtl sem' fs' pairs).
Proof.
  intros Hcall Hw. unfold sonic_ext_set_punt_via_member in Hcall. cbn in Hcall.
  destruct en; cbn in Hcall; [|simplify_eq; by eapply wired_sem].
  destruct (capture_enabled sem) eqn:Hc; cbn in Hcall;
    destruct (glean_redirect_enabled sem) eqn:Hg; cbn in Hcall; simplify_eq.
  - by eapply wired_sem; [..|exact Hw].
  - by eapply wired_glean; [..|exact Hw].
  - by eapply wired_capture_walk; [..|exact Hw].
  - eapply (wired_glean (set_switches true (host_xc sem) true (host_xc_enabled sem) false sem));
      [done..|]. by eapply wired_capture_walk; [..|exact Hw].
Qed.

Lemma wired_host_xc sem fs pairs en sem' fs' :
  sonic_ext_set_host_xc E pairs sem fs en = (sem', fs') ->
  wired E (mkCtl sem fs pairs) -> wired E (mkCtl sem' fs' pairs).
Proof.
  intros Hcall Hw. unfold sonic_ext_set_host_xc in Hcall. cbn in Hcall.
  destruct en; cbn in Hcall; [|simplify_eq; by eapply wired_sem].
  destruct (host_xc_enabled sem) eqn:Hc; cbn in Hcall; simplify_eq.
  - by eapply wired_sem; [..|exact Hw].
  - by eapply wired_host_xc_walk; [..|exact Hw].
Qed.

Lemma wired_step c c' : wired E c -> ctl_step E c c' -> wired E c'.
Proof.
  intros Hw Hs. destruct Hs as [sem fs pairs en sem' fs' Hcall|sem fs pairs en sem' fs' Hcall| |].
  - by eapply wired_punt_via_member.
  - by eapply wired_host_xc.
  - by apply wired_add.
  - by apply wired_del.
Qed.

(** Everything that is enabled once and for all is. *)
Lemma enabled_all_step c c' :
  ctl_step E c c' -> enabled_all (cs_sem c) -> enabled_all (cs_sem c').
Proof.
  intros Hs (Hc & Hx & Hg).
  destruct Hs as [sem fs pairs en sem' fs' Hcall|sem fs pairs en sem' fs' Hcall| |]; try done.
  - pose proof (punt_via_member_flags pairs sem fs en) as Hf. rewrite Hcall in Hf. cbn in *.
    destruct Hf as (_ & _ & Hx' & Hc' & Hg'). unfold enabled_all. by rewrite Hc', Hx', Hg', Hc, Hx, Hg.
  - pose proof (host_xc_flags pairs sem fs en) as Hf. rewrite Hcall in Hf. cbn in *.
    destruct Hf as (_ & _ & Hc' & Hg' & Hx'). unfold enabled_all. by rewrite Hc', Hx', Hg', Hc, Hx, Hg.
Qed.

Lemma wired_fresh sem fs :
  (forall k, on fs k = false) -> glean_redirect_enabled sem = false -> wired E (mkCtl sem fs []).
Proof using Type.
  clear calls_ok own_config.
  intros Hoff Hg. unfold wired. cbn. setoid_rewrite Hoff. rewrite Hg.
  setoid_rewrite elem_of_nil. split_and!; [constructor|constructor|naive_solver..].
Qed.

Lemma init_wired sem0 fs sem' fs' :
  (forall k, on fs k = false) -> sonic_ext_init E [] sem0 fs = (sem', fs') ->
  wired E (mkCtl sem' fs' []) /\ enabled_all sem'.
Proof.
  intros Hoff Hi. unfold sonic_ext_init in Hi.
  pose proof (punt_via_member_flags [] zero_sem fs true) as Hf1.
  destruct (sonic_ext_set_punt_via_member E [] zero_sem fs true) as [sem1 fs1] eqn:H1.
  pose proof (host_xc_flags [] sem1 fs1 true) as Hf2. rewrite Hi in Hf2. cbn in Hf1, Hf2.
  destruct Hf1 as (_ & _ & _ & Hc1 & Hg1). destruct Hf2 as (_ & _ & Hc2 & Hg2 & Hx2).
  rewrite orb_true_r in Hx2. split; [|unfold enabled_all; by rewrite Hc2, Hg2].
  eapply wired_host_xc; [done|]. eapply wired_punt_via_member; [done|]. by apply wired_fresh.
Qed.

Lemma reach_wired c c' :
  wired E c /\ enabled_all (cs_sem c) -> rtc (ctl_step E) c c' ->
  wired E c' /\ enabled_all (cs_sem c').
Proof.
  intros Hi Hr. induction Hr as [|c1 c2 c3 Hs _ IH]; [done|]. apply IH. destruct Hi as [Hw He].
  split; [by eapply wired_step|by eapply enabled_all_step].
Qed.

(** An event is a step or is refused. *)
Lemma remove_pair_split lip pairs : lip ∈ pairs ->
  exists pairs1 pairs2, pairs = pairs1 ++ lip :: pairs2 /\ remove_pair lip pairs = pairs1 ++ pairs2.
Proof using Type.
  clear calls_ok own_config.
  induction pairs as [|l pairs IH]; intros Hin; [by apply not_elem_of_nil in Hin|]. cbn.
  case_decide as Hl; [subst; by exists [], pairs|]. apply elem_of_cons in Hin as [->|Hin]; [done|].
  destruct (IH Hin) as (p1 & p2 & -> & ->). by exists (l :: p1), p2.
Qed.

Lemma exec_step c e : ctl_exec E c e = c \/ ctl_step E c (ctl_exec E c e).
Proof using Type.
  clear calls_ok own_config.
  destruct c as [sem fs pairs], e as [en|en|lip|lip]; cbn [ctl_exec].
  - right. destruct (sonic_ext_set_punt_via_member _ _ _ _ _) eqn:Hs. by eapply step_punt_via_member.
  - right. destruct (sonic_ext_set_host_xc _ _ _ _ _) eqn:Hs. by eapply step_host_xc.
  - unfold pair_taken. case_bool_decide as Ht; [by left|right]. apply step_pair_add; tauto.
  - case_decide as Hin; [right|by left]. destruct (remove_pair_split lip pairs Hin) as (p1 & p2 & -> & ->).
    apply step_pair_del.
Qed.

(** A flag is set when its switch was turned on. *)
Lemma exec_flags c e :
  let sem' := cs_sem (ctl_exec E c e) in
  (capture_enabled sem' = true <-> capture_enabled (cs_sem c) = true \/ e = Ev_punt_via_member true) /\
  (glean_redirect_enabled sem' = true <->
     glean_redirect_enabled (cs_sem c) = true \/ e = Ev_punt_via_member true) /\
  (host_xc_enabled sem' = true <-> host_xc_enabled (cs_sem c) = true \/ e = Ev_host_xc true).
Proof using Type.
  clear calls_ok own_config.
  destruct c as [sem fs pairs], e as [en|en|lip|lip]; cbn [ctl_exec cs_sem].
  - pose proof (punt_via_member_flags pairs sem fs en) as Hf. cbv zeta in Hf.
    destruct (sonic_ext_set_punt_via_member _ _ _ _ _) as [sem' fs']. cbn in *.
    destruct Hf as (_ & _ & -> & -> & ->). rewrite !orb_true_iff. naive_solver.
  - pose proof (host_xc_flags pairs sem fs en) as Hf. cbv zeta in Hf.
    destruct (sonic_ext_set_host_xc _ _ _ _ _) as [sem' fs']. cbn in *.
    destruct Hf as (_ & _ & -> & -> & ->). rewrite !orb_true_iff. naive_solver.
  - destruct (pair_taken pairs lip); naive_solver.
  - case_decide; naive_solver.
Qed.

Lemma run_flags es c :
  let sem' := cs_sem (fold_left (ctl_exec E) es c) in
  (capture_enabled sem' = true <-> capture_enabled (cs_sem c) = true \/ Ev_punt_via_member true ∈ es) /\
  (glean_redirect_enabled sem' = true <->
     glean_redirect_enabled (cs_sem c) = true \/ Ev_punt_via_member true ∈ es) /\
  (host_xc_enabled sem' = true <-> host_xc_enabled (cs_sem c) = true \/ Ev_host_xc true ∈ es).
Proof using Type.
  clear calls_ok own_config. cbv zeta.
  revert c; induction es as [|e es IH]; intros c; cbn [fold_left].
  { rewrite !elem_of_nil. tauto. }
  destruct (IH (ctl_exec E c e)) as (-> & -> & ->). destruct (exec_flags c e) as (-> & -> & ->).
  rewrite !elem_of_cons. naive_solver.
Qed.

Lemma run_wired es c : wired E c -> wired E (fold_left (ctl_exec E) es c).
Proof.
  revert c; induction es as [|e es IH]; intros c Hw; [done|]. cbn. apply IH.
  destruct (exec_step c e) as [->|Hs]; [done|by eapply wired_step].
Qed.

(** The invariant only depends on the interfaces that have a pair. *)
Lemma wired_env E' c : same_class E E' (cs_pairs c) -> wired E c -> wired E' c.
Proof using Type.
  clear calls_ok own_config.
  intros Hsame (Hnp & Hnh & Hc & Hx & Ha & Hg4 & Hg6). split_and!; [done|done| | | |done|done].
  - intros sw. rewrite Hc. split; intros (H1 & H2 & H3 & lip & Hin & <-);
      destruct (Hsame lip Hin) as (E1 & E2 & _); (split_and!; [done|congruence|congruence|by exists lip]).
  - intros sw. rewrite Hx. split; intros (H1 & H2 & lip & Hin & <-);
      destruct (Hsame lip Hin) as (_ & _ & E3); (split_and!; [done|congruence|by exists lip]).
  - intros sw. rewrite Ha. split; intros (lip & Hin & <- & H3);
      destruct (Hsame lip Hin) as (E1 & _); exists lip; (split_and!; [done|done|congruence]).
Qed.

(** Keys a pair callback does not name are left alone. *)
Lemma pair_cb_other sem fs lip en k :
  k <> capture_key (lip_phy_sw_if_index lip) -> k <> host_xc_key (lip_host_sw_if_index lip) ->
  k <> aggr_key (lip_host_sw_if_index lip) -> on (lcp_pair_cb E sem fs lip en) k = on fs k.
Proof.
  intros Hk1 Hk2 Hk3. unfold lcp_pair_cb.
  destruct (sonic_ext_phy_is_aggregate E (lip_phy_sw_if_index lip)),
    (host_xc_enabled sem), (capture_enabled sem); cbn [andb negb];
    rewrite ?aggr_on, ?host_xc_on, ?capture_on; rewrite ?decide_False by (by intros [? _] || done);
    done.
Qed.

End CtlFacts.

(** The invariant along a history in which the interfaces change. *)
Lemma plugin_wired `{VnetFeature} E c E' c' :
  (forall fs k en, snd (vnet_feature_enable_disable fs k en) = 0) ->
  rtc plugin_step (E, c) (E', c') -> subs_share E -> wired E c /\ enabled_all (cs_sem c) ->
  wired E' c' /\ enabled_all (cs_sem c').
Proof.
  intros Hcalls Hr. remember (E, c) as x eqn:Hx. remember (E', c') as y eqn:Hy.
  revert E c Hx Hy. induction Hr as [x|x y z Hs _ IH]; intros E c Hx Hy Hsub [Hw He].
  { rewrite Hx in Hy. by injection Hy as <- <-. }
  destruct Hs as [E1 c1 c2 Hs|E1 E2 c1 Hsame Hsub2]; injection Hx as -> ->.
  - apply (IH E c2 eq_refl Hy Hsub).
    split; [by apply (wired_step E Hcalls Hsub c c2)|by apply (enabled_all_step E c c2)].
  - apply (IH E2 c eq_refl Hy Hsub2). split; [by apply (wired_env E)|done].
Qed.

Lemma ip2me_command_loop_spec words sw0 en0 got0 :
  match ip2me_command_loop words sw0 en0 got0 with
  | inl e => e = CliUnknownInput /\ CliUnknown ∈ words
  | inr (sw, en, got) =>
      CliUnknown ∉ words /\ (sw = sw0 \/ CliInterface sw ∈ words) /\
      ((if en then CliOn else CliOff) ∈ words \/ got = got0 /\ en = en0)
  end.
Proof.
  revert sw0 en0 got0; induction words as [|w words IH]; intros sw0 en0 got0; cbn.
  { split_and!; [apply not_elem_of_nil|by left|by right]. }
  destruct w as [| |sw|]; [specialize (IH sw0 true true)|specialize (IH sw0 false true)|
    specialize (IH sw en0 got0)|by split; [|apply elem_of_cons; left]];
    destruct (ip2me_command_loop _ _ _ _) as [e|[[sw' en'] got']];
    setoid_rewrite not_elem_of_cons || idtac; rewrite ?elem_of_cons; naive_solver.
Qed.

(** ** Theorems *)

Section Theorems.
Context `{VnetFeature}.
Variable E : vnet_env.
Hypothesis calls_ok : forall fs k en, snd (vnet_feature_enable_disable fs k en) = 0.
Hypothesis own_config : forall arc sw, shared_config arc sw = true ->
  arc = "device-input"%string /\ sonic_ext_sw_is_sub E sw = true.

(** C15.  The switches and the features.  Start from the memory the plugin is loaded
    with (flags zero, no pair, no feature on) and let the switches be flipped and pairs
    be created and deleted in any order [es], over fixed interfaces, only
    sub-interfaces sharing a configuration, and with feature calls that succeed.  Then capture is on exactly at the wire ports of pairs (neither
    aggregate nor sub-interface) if punt-via-member was turned on at some time in [es],
    and nowhere if it never was; host-xc exactly at the non-sub-interface taps of pairs
    if host-xc was ever turned on; the glean redirect on both drop arcs exactly if
    punt-via-member was ever turned on; and the aggregate redirect exactly at the taps
    of aggregates' pairs, whatever the switches.  Turning a switch off takes no feature
    off. *)
Theorem sonic_ext_features_wired fs es :
  (forall k, vnet_feature_is_enabled fs k = false) ->
  let c := fold_left (ctl_exec E) es (mkCtl zero_sem fs []) in
  let on := vnet_feature_is_enabled (cs_fs c) in
  (forall sw, on (capture_key sw) = true <->
     Ev_punt_via_member true ∈ es /\ sonic_ext_sw_is_sub E sw = false /\
     sonic_ext_phy_is_aggregate E sw = false /\
     exists lip, lip ∈ cs_pairs c /\ lip_phy_sw_if_index lip = sw) /\
  (forall sw, on (host_xc_key sw) = true <->
     Ev_host_xc true ∈ es /\ sonic_ext_sw_is_sub E sw = false /\
     exists lip, lip ∈ cs_pairs c /\ lip_host_sw_if_index lip = sw) /\
  (forall sw, on (aggr_key sw) = true <->
     exists lip, lip ∈ cs_pairs c /\ lip_host_sw_if_index lip = sw /\
       sonic_ext_phy_is_aggregate E (lip_phy_sw_if_index lip) = true) /\
  (on glean4_key = true <-> Ev_punt_via_member true ∈ es) /\
  (on glean6_key = true <-> Ev_punt_via_member true ∈ es).
Proof using calls_ok own_config.
  intros Hoff. cbv zeta.
  assert (Hw : wired E (mkCtl zero_sem fs [])) by (by apply wired_fresh).
  apply (run_wired E calls_ok own_config es) in Hw.
  pose proof (run_flags E es (mkCtl zero_sem fs [])) as (Fc & Fg & Fx). cbn in Fc, Fg, Fx.
  destruct Hw as (_ & _ & Hc & Hx & Ha & Hg4 & Hg6). split_and!; [..|exact Ha| |].
  - intros sw. rewrite Hc, Fc. intuition discriminate.
  - intros sw. rewrite Hx, Fx. intuition discriminate.
  - rewrite Hg4, Fg. intuition discriminate.
  - rewrite Hg6, Fg. intuition discriminate.
Qed.

End Theorems.

(** C10.  The deployed configuration.  After [sonic_ext_init] (which runs before any
    pair exists), let switches be flipped, pairs be created and deleted and interfaces
    come, go and change in any order, as long as every feature call succeeds, only
    sub-interfaces share a configuration, and an interface keeps its class (aggregate,
    sub-interface) while it has a pair.  Then, with
    the interfaces as they are at the end and also with both switches turned off, a port
    has capture on exactly when it is the non-aggregate, non-sub-interface port of a
    pair, a tap has host-xc on exactly when it is the non-sub-interface tap of a pair
    and the aggregate redirect exactly when it is the tap of an aggregate's pair, and
    the glean redirect is on on both drop arcs. *)
Theorem sonic_ext_deployed `{VnetFeature} E0 sem0 fs E c
    (calls_ok : forall fs k en, snd (vnet_feature_enable_disable fs k en) = 0) :
  subs_share E0 -> (forall k, vnet_feature_is_enabled fs k = false) ->
  (let '(sem, fs) := sonic_ext_init E0 [] sem0 fs in rtc plugin_step (E0, mkCtl sem fs []) (E, c)) ->
  let on := vnet_feature_is_enabled (cs_fs c) in
  (forall sw, on (capture_key sw) = true <->
     sonic_ext_sw_is_sub E sw = false /\ sonic_ext_phy_is_aggregate E sw = false /\
     exists lip, lip ∈ cs_pairs c /\ lip_phy_sw_if_index lip = sw) /\
  (forall sw, on (host_xc_key sw) = true <->
     sonic_ext_sw_is_sub E sw = false /\
     exists lip, lip ∈ cs_pairs c /\ lip_host_sw_if_index lip = sw) /\
  (forall sw, on (aggr_key sw) = true <->
     exists lip, lip ∈ cs_pairs c /\ lip_host_sw_if_index lip = sw /\
       sonic_ext_phy_is_aggregate E (lip_phy_sw_if_index lip) = true) /\
  on glean4_key = true /\ on glean6_key = true.
Proof.
  intros Hsub Hoff Hr. cbv zeta.
  destruct (sonic_ext_init E0 [] sem0 fs) as [sem2 fs2] eqn:Hi.
  destruct (plugin_wired E0 _ E c calls_ok Hr Hsub (init_wired E0 calls_ok Hsub sem0 fs sem2 fs2 Hoff Hi))
    as [(_ & _ & Hc & Hx & Ha & Hg4 & Hg6) (He1 & He2 & He3)].
  rewrite Hg4, Hg6, He3. split_and!; try done.
  - intros sw. rewrite Hc, He1. intuition.
  - intros sw. rewrite Hx, He2. intuition.
Qed.

Section Roundtrip.
Context `{VnetFeature}.
Variable E : vnet_env.
Hypothesis calls_ok : forall fs k en, snd (vnet_feature_enable_disable fs k en) = 0.
Hypothesis own_config : forall arc sw, shared_config arc sw = true ->
  arc = "device-input"%string /\ sonic_ext_sw_is_sub E sw = true.

(** C16.  Creating and deleting a pair leaves no trace: in a state with the features
    where they belong ([wired]) and with feature calls that succeed, the
    add callback followed by the delete callback of a fresh pair puts every
    feature of every interface back as it was.  In particular a sub-port that
    comes and goes does not take host-xc or capture off its parent, although its
    device-input configuration is the parent's. *)
Theorem lcp_pair_add_del_roundtrip sem fs pairs lip k :
  wired E (mkCtl sem fs pairs) ->
  lip_phy_sw_if_index lip ∉ lip_phy_sw_if_index <$> pairs ->
  lip_host_sw_if_index lip ∉ lip_host_sw_if_index <$> pairs ->
  let fs1 := sonic_ext_lcp_pair_add_cb E sem fs (Some lip) in
  vnet_feature_is_enabled (sonic_ext_lcp_pair_del_cb E sem fs1 (Some lip)) k =
  vnet_feature_is_enabled fs k.
Proof using calls_ok own_config.
  intros (_ & _ & Hc & Hx & Ha & _) Hp Hh. cbn in *.
  assert (Hfp : ~ exists l, l ∈ pairs /\ lip_phy_sw_if_index l = lip_phy_sw_if_index lip)
    by (intros (l & Hl & Heq); apply Hp; rewrite <- Heq; by apply list_elem_of_fmap_2).
  assert (Hfh : ~ exists l, l ∈ pairs /\ lip_host_sw_if_index l = lip_host_sw_if_index lip)
    by (intros (l & Hl & Heq); apply Hh; rewrite <- Heq; by apply list_elem_of_fmap_2).
  destruct (decide (k = capture_key (lip_phy_sw_if_index lip))) as [->|].
  { rewrite !pair_cb_capture by done. case_decide; [|done]. symmetry.
    apply not_true_iff_false. rewrite Hc. tauto. }
  destruct (decide (k = host_xc_key (lip_host_sw_if_index lip))) as [->|].
  { rewrite !pair_cb_host_xc by done. case_decide; [|done]. symmetry.
    apply not_true_iff_false. rewrite Hx. tauto. }
  destruct (decide (k = aggr_key (lip_host_sw_if_index lip))) as [->|].
  { rewrite !pair_cb_aggr by done. case_decide; [|done]. symmetry.
    apply not_true_iff_false. rewrite Ha. intros (l & Hl & Heq & _). eauto. }
  by rewrite !pair_cb_other.
Qed.

End Roundtrip.

(** C39.  The delete callback asks again what the port is.  When a port turned into
    an aggregate (or ceased to be one) while its pair existed, the callback does not
    undo what the add callback did: capture stays on at a port that no longer has a
    pair, or the aggregate redirect at a tap that no longer has one. *)
Theorem lcp_pair_reclassified `{VnetFeature} E E' sem fs lip
    (calls_ok : forall fs k en, snd (vnet_feature_enable_disable fs k en) = 0)
    (own : forall X arc sw, X = E \/ X = E' -> shared_config arc sw = true ->
       arc = "device-input"%string /\ sonic_ext_sw_is_sub X sw = true) :
  let phy := lip_phy_sw_if_index lip in
  let fs1 := sonic_ext_lcp_pair_add_cb E sem fs (Some lip) in
  let fs2 := sonic_ext_lcp_pair_del_cb E' sem fs1 (Some lip) in
  (sonic_ext_phy_is_aggregate E phy = false -> sonic_ext_phy_is_aggregate E' phy = true ->
     capture_enabled sem = true -> sonic_ext_sw_is_sub E phy = false ->
     vnet_feature_is_enabled fs2 (capture_key phy) = true) /\
  (sonic_ext_phy_is_aggregate E phy = true -> sonic_ext_phy_is_aggregate E' phy = false ->
     vnet_feature_is_enabled fs2 (aggr_key (lip_host_sw_if_index lip)) = true).
Proof.
  cbv zeta. cbn [sonic_ext_lcp_pair_add_cb sonic_ext_lcp_pair_del_cb].
  pose proof (fun a s => own E a s (or_introl eq_refl)) as HE.
  pose proof (fun a s => own E' a s (or_intror eq_refl)) as HE'. split.
  - intros Ha Ha' Hc Hs. rewrite (pair_cb_capture E'), decide_False by (done || naive_solver congruence).
    by rewrite (pair_cb_capture E), decide_True.
  - intros Ha Ha'. rewrite (pair_cb_aggr E'), decide_False by (done || naive_solver congruence).
    by rewrite (pair_cb_aggr E), decide_True.
Qed.

Section Ip2meTheorems.
Context `{Vlib} `{L2 : VnetFeature}.

(** C38.  The ip2me API call: an interface index (received in network order) that
    does not exist is refused with the error code and nothing changes; otherwise
    the reply is 0 and, when the feature calls succeed, both address families' features
    of that interface, and nothing else, are in the requested state. *)
Theorem ip2me_handler invalid E fs mp_sw en
    (calls_ok : forall fs k en, snd (vnet_feature_enable_disable fs k en) = 0)
    (own : forall sw, shared_config "l2-input-ip4"%string sw = false /\
       shared_config "l2-input-ip6"%string sw = false) :
  let sw := net_to_host host 4 mp_sw in
  let '(fs', rv) := vl_api_sonic_ext_ip2me_enable_disable_t_handler invalid E fs mp_sw en in
  match vnet_get_sw_interface_or_null E sw with
  | None => fs' = fs /\ rv = invalid
  | Some _ => rv = 0 /\ forall k, vnet_feature_is_enabled fs' k =
      if decide (k = ip2me4_key sw \/ k = ip2me6_key sw) then en else vnet_feature_is_enabled fs k
  end.
Proof.
  cbv zeta. unfold vl_api_sonic_ext_ip2me_enable_disable_t_handler.
  set (sw := net_to_host host 4 mp_sw).
  destruct (vnet_get_sw_interface_or_null E sw); [|done]. split; [done|]. intros k.
  unfold sonic_ext_ip2me_enable_disable. destruct (own sw) as [H4 H6].
  rewrite !toggle_on by done. repeat case_decide; naive_solver.
Qed.

(** The ip2me command acts on exactly the well-formed lines: it toggles the
    features when every word is known and both an interface and a state were
    given (the last ones given count), reports no error then, and changes nothing
    otherwise. *)
Theorem ip2me_command_acts fs words :
  let '(fs', err) := sonic_ext_ip2me_command_fn fs (Some words) in
  match err with
  | Some CliUnknownInput => fs' = fs /\ CliUnknown ∈ words
  | Some _ => fs' = fs /\ CliUnknown ∉ words
  | None => CliUnknown ∉ words /\ exists (sw : Z) (en : bool), sw <> U32_MAX /\
      (CliInterface sw ∈ words) /\ ((if en then CliOn else CliOff) ∈ words) /\
      fs' = sonic_ext_ip2me_enable_disable fs sw en
  end.
Proof.
  unfold sonic_ext_ip2me_command_fn.
  pose proof (ip2me_command_loop_spec words U32_MAX true false) as Hl.
  destruct (ip2me_command_loop _ _ _ _) as [e|[[sw en] got]]; [destruct Hl as [-> Hl]; done|].
  destruct Hl as (Hu & Hsw & Hgot). destruct (Z.eqb_spec sw U32_MAX) as [->|Hne]; [done|].
  destruct got; cbn; [|done]. split; [done|]. exists sw, en. split_and!; try done.
  - by destruct Hsw.
  - by destruct Hgot as [?|[? _]].
Qed.

End Ip2meTheorems.

(** C36.  The two init functions of the plugin do not commute: when
    [sonic_ext_init] runs after [sonic_ext_api_init] its memset wipes the message
    id base the API setup stored, so replies are numbered from 0; in the other
    order the base survives. *)
Theorem sonic_ext_init_order `{VnetFeature} (E : vnet_env) (pairs : list lcp_itf_pair_t)
    (sem : sonic_ext_main_t) (fs : fstate) (base : Z) :
  msg_id_base (fst (sonic_ext_init E pairs (sonic_ext_api_init base sem) fs)) = 0 /\
  msg_id_base (sonic_ext_api_init base (fst (sonic_ext_init E pairs sem fs))) = u16 base.
Proof.
  split; [|done]. unfold sonic_ext_init, sonic_ext_set_punt_via_member, sonic_ext_set_host_xc.
  done.
Qed.

(** ** Witnesses *)

Lemma feature_example_ok : forall (fs : @fstate feature_example) k en,
  snd (@vnet_feature_enable_disable feature_example fs k en) = 0.
Proof. intros fs k en. cbn. unfold feature_ref_call. destruct en; [done|]. by split_if. Qed.

Lemma feature_example_own : forall arc sw, @shared_config feature_example arc sw = true ->
  arc = "device-input"%string /\ sonic_ext_sw_is_sub env_example sw = true.
Proof.
  intros arc sw Hs. cbn in Hs. apply andb_true_iff in Hs as [Ha Hs].
  apply bool_decide_eq_true in Ha. apply Z.eqb_eq in Hs. by subst.
Qed.

Lemma feature_example_off k : @vnet_feature_is_enabled feature_example (∅ : gset fkey) k = false.
Proof. apply bool_decide_eq_false. set_solver. Qed.

(** Ports 1 (tap 11) and the BVI 5 (tap 15) get their pairs before punt-via-member is
    turned on, and off again. *)
Lemma sonic_ext_features_wired_witness :
  let c := fold_left (@ctl_exec feature_example env_example)
    [Ev_pair_add (mkLip 1 11); Ev_pair_add (mkLip 5 15); Ev_punt_via_member true; Ev_punt_via_member false]
    (@mkCtl feature_example zero_sem (∅ : gset fkey) []) in
  let on := @vnet_feature_is_enabled feature_example (cs_fs c) in
  on (capture_key 1) = true /\ on (capture_key 5) <> true /\ on (aggr_key 15) = true /\
  on (host_xc_key 11) <> true.
Proof.
  destruct (@sonic_ext_features_wired feature_example env_example feature_example_ok
    feature_example_own (∅ : gset fkey)
    [Ev_pair_add (mkLip 1 11); Ev_pair_add (mkLip 5 15); Ev_punt_via_member true; Ev_punt_via_member false]
    feature_example_off) as (Hc & Hx & Ha & _).
  assert (Hp : cs_pairs (fold_left (@ctl_exec feature_example env_example)
    [Ev_pair_add (mkLip 1 11); Ev_pair_add (mkLip 5 15); Ev_punt_via_member true; Ev_punt_via_member false]
    (@mkCtl feature_example zero_sem (∅ : gset fkey) [])) = [mkLip 5 15; mkLip 1 11])
    by (vm_compute; reflexivity).
  rewrite Hp in Hc, Hx, Ha. cbv zeta. rewrite Hc, Hc, Ha, Hx. split_and!.
  - rewrite !elem_of_cons. tauto.
  - vm_compute. reflexivity.
  - vm_compute. reflexivity.
  - exists (mkLip 1 11). split; [by_compute|reflexivity].
  - intros (_ & _ & [=] & _).
  - exists (mkLip 5 15). split_and!; [by_compute|reflexivity|vm_compute; reflexivity].
  - clear. intros [Hin _]. repeat (apply elem_of_cons in Hin as [[=]|Hin]). by apply not_elem_of_nil in Hin.
Defined.

(** Port 2 of [env_example] has become a BVI. *)
Definition env_port2_bvi : vnet_env := {|
  vnet_get_sw_interface_or_null := vnet_get_sw_interface_or_null env_example;
  sup_hw_dev_class_name := sup_hw_dev_class_name env_example;
  l2_configs_len := 64;
  l2_input_is_bvi := fun i => bool_decide (i ∈ [2; 5]);
  lcp_itf_pair_find_by_phy := lcp_itf_pair_find_by_phy env_example;
  lcp_itf_pair_find_by_host := lcp_itf_pair_find_by_host env_example;
  lcp_itf_pair_get := lcp_itf_pair_get env_example
|}.

(** After initialisation, the pair of port 1 gets capture and host-xc; then port 2
    becomes a BVI and gets a pair. *)
Lemma sonic_ext_deployed_witness :
  let '(sem, fs) := @sonic_ext_init feature_example env_example [] zero_sem (∅ : gset fkey) in
  let fs1 := @sonic_ext_lcp_pair_add_cb feature_example env_example sem fs (Some (mkLip 1 11)) in
  let fs2 := @sonic_ext_lcp_pair_add_cb feature_example env_port2_bvi sem fs1 (Some (mkLip 2 12)) in
  let on := @vnet_feature_is_enabled feature_example fs2 in
  on (capture_key 1) = true /\ on (capture_key 2) <> true /\ on (aggr_key 12) = true.
Proof.
  pose proof (@sonic_ext_deployed feature_example env_example zero_sem (∅ : gset fkey) env_port2_bvi) as Hw.
  destruct (@sonic_ext_init feature_example env_example [] zero_sem (∅ : gset fkey)) as [sem fs].
  set (fs1 := @sonic_ext_lcp_pair_add_cb feature_example env_example sem fs (Some (mkLip 1 11))).
  set (fs2 := @sonic_ext_lcp_pair_add_cb feature_example env_port2_bvi sem fs1 (Some (mkLip 2 12))).
  destruct (Hw (@mkCtl feature_example sem fs2 [mkLip 2 12; mkLip 1 11])) as (Hc & _ & Ha & _).
  - exact feature_example_ok.
  - exact feature_example_own.
  - exact feature_example_off.
  - eapply rtc_l; [apply plugin_ctl, step_pair_add with (lip := mkLip 1 11); apply not_elem_of_nil|].
    eapply rtc_l; [apply (plugin_env env_example env_port2_bvi)|].
    + intros lip Hlip. apply list_elem_of_singleton in Hlip as ->. split_and!; vm_compute; reflexivity.
    + exact feature_example_own.
    + eapply rtc_l; [apply plugin_ctl, step_pair_add with (lip := mkLip 2 12); by_compute|apply rtc_refl].
  - cbn [cs_fs cs_pairs] in Hc, Ha. cbv zeta. fold fs1. fold fs2. rewrite Hc, Hc, Ha. split_and!.
    + vm_compute. reflexivity.
    + vm_compute. reflexivity.
    + exists (mkLip 1 11). split; [by_compute|reflexivity].
    + intros (_ & [=] & _).
    + exists (mkLip 2 12). split_and!; [by_compute|reflexivity|vm_compute; reflexivity].
Defined.

(** The history sonic_ext.c tells of: a pair for the sub-interface 3 is created
    and deleted while port 1's tap has host-xc. *)
Lemma lcp_pair_add_del_roundtrip_witness :
  let sem := set_switches true true true true true zero_sem in
  let F := feature_example in
  let fs0 := @sonic_ext_glean_redirect_enable_disable F (∅ : gset fkey) true in
  let fs := @sonic_ext_lcp_pair_add_cb F env_example sem fs0 (Some (mkLip 1 11)) in
  let fs1 := @sonic_ext_lcp_pair_add_cb F env_example sem fs (Some (mkLip 3 13)) in
  @vnet_feature_is_enabled F (@sonic_ext_lcp_pair_del_cb F env_example sem fs1
    (Some (mkLip 3 13))) (capture_key 1) = true.
Proof.
  cbv zeta.
  rewrite (@lcp_pair_add_del_roundtrip feature_example env_example feature_example_ok
    feature_example_own _ _ [mkLip 1 11]); [vm_compute; reflexivity| |by_compute|by_compute].
  apply (@wired_add feature_example env_example feature_example_ok feature_example_own);
    [by_compute|by_compute|].
  eapply (@wired_glean feature_example env_example feature_example_ok feature_example_own
    (set_switches true true true true false zero_sem)); [reflexivity..|].
  apply (@wired_fresh feature_example env_example); [exact feature_example_off|reflexivity].
Defined.

(** Port 1 becomes the BVI of a bridge while its pair exists. *)
Definition env_rebridged : vnet_env :=
  env_ref [(1, (mkSwif VNET_SW_INTERFACE_TYPE_OTHER 1, "dpdk"%string))] [1] [mkLip 1 11].

Lemma lcp_pair_reclassified_witness :
  let sem := set_switches true true true true true zero_sem in
  let fs1 := @sonic_ext_lcp_pair_add_cb feature_ref_total env_example sem (∅ : gset fkey) (Some (mkLip 1 11)) in
  @vnet_feature_is_enabled feature_ref_total
    (@sonic_ext_lcp_pair_del_cb feature_ref_total env_rebridged sem fs1 (Some (mkLip 1 11))) (capture_key 1) = true.
Proof.
  cbv zeta.
  destruct (@lcp_pair_reclassified feature_ref_total env_example env_rebridged
    (set_switches true true true true true zero_sem) (∅ : gset fkey) (mkLip 1 11)) as [Hw _].
  - by intros fs k [|].
  - done.
  - apply Hw; vm_compute; reflexivity.
Defined.

Lemma ip2me_handler_witness :
  let '(fs', rv) := @vl_api_sonic_ext_ip2me_enable_disable_t_handler vlib_ref feature_ref_total
    (-2) env_example (∅ : gset fkey) 0x01000000 true in
  rv = 0 /\ @vnet_feature_is_enabled feature_ref_total fs' (ip2me6_key 1) = true.
Proof.
  pose proof (@ip2me_handler vlib_ref feature_ref_total (-2) env_example (∅ : gset fkey)
    0x01000000 true) as Hw.
  cbv zeta in Hw. assert (Hsw : @net_to_host (@host vlib_ref) 4 0x01000000 = 1)
    by (vm_compute; reflexivity).
  rewrite Hsw in Hw.
  destruct (vl_api_sonic_ext_ip2me_enable_disable_t_handler _ _ _ _ _) as [fs' rv].
  destruct Hw as [Hrv Hk]; [intros fs k [|]; reflexivity|split; reflexivity|].
  split; [exact Hrv|]. rewrite Hk. vm_compute. reflexivity.
Defined.
