(* ===== verification/SonicPath.v ===== *)
(** * The punt path of sonic_ext as a system

    One packet on its way through the nodes of the plugin and through VPP, while the
    control plane goes on working.  VPP runs the plugin's nodes where their features
    are on: capture and host-xc (in this order, see [NodeGraph]) on the device-input arc
    of the interface a packet comes in on, the aggregate redirect on the
    interface-output arc of the one it leaves on, the glean redirect on the drop arcs,
    the trap fixup and ip2me nodes inside the graph.  What VPP's own nodes do in between
    is a relation of which only sonic_ext.h's points 1 and 4 are assumed: a packet, or
    a copy of it, keeps the plugin's metadata.  The totals the nodes count are left
    out: no node and no callback reads them. *)

From S2P Require Import Prelude Vlib Feature SonicExt SonicCapture SonicAggr SonicGlean SonicNodes SonicCtl.
Import HostXc L2TrapFixup Ip2me.

(** ** The machine *)

(** The environment when linux-cp has the pairs [pairs]. *)
Definition with_pairs (E : vnet_env) (pairs : list lcp_itf_pair_t) : vnet_env :=
  mkEnv (vnet_get_sw_interface_or_null E) (sup_hw_dev_class_name E) (l2_configs_len E) (l2_input_is_bvi E)
    (fun i => pair_index (fun l => lip_phy_sw_if_index l =? i) pairs)
    (fun i => pair_index (fun l => lip_host_sw_if_index l =? i) pairs)
    (fun i => if i <? 0 then None else pairs !! Z.to_nat i).

(** Where a packet is: about to run the device-input arc, with VPP's nodes, about to run
    the interface-output arc of its TX interface or a drop arc, sent, dropped. *)
Inductive place :=
  | Device_input | In_graph | Interface_output | Ip_drop (is_ip6 : bool) | Tx | Dropped.

Section Path.
Context `{Vlib} `{Throttle} `{VnetFeature}.

(** A packet, with a log of the taps it was redirected to and the state of the control
    plane at that moment. *)
Record packet := mkPacket {
  p_place : place;
  p_buf : vlib_buffer_t;
  p_log : list (Z * ctl_state)
}.

Variable E : vnet_env.
(** What VPP's nodes may do to a buffer. *)
Variable vpp : vlib_buffer_t -> vlib_buffer_t -> Prop.

Definition env_of (c : ctl_state) : vnet_env := with_pairs E (cs_pairs c).
Definition is_on (c : ctl_state) (k : fkey) : bool := vnet_feature_is_enabled (cs_fs c) k.

Definition device_input (c : ctl_state) (b : vlib_buffer_t) : place * vlib_buffer_t :=
  let rx := sw_if_index_rx b in
  let b := if is_on c (capture_key rx) then o_buf (sonic_ext_capture_one b) else b in
  if is_on c (host_xc_key rx) then
    let o := sonic_ext_host_xc_one (cs_sem c) (env_of c) b in
    (if decide (o_err o = SONIC_EXT_HOST_XC_ERROR_DIRECT) then Interface_output else In_graph, o_buf o)
  else (In_graph, b).

Definition interface_output (c : ctl_state) (p : packet) : packet :=
  let b := p_buf p in
  if is_on c (aggr_key (sw_if_index_tx b)) then
    let o := sonic_ext_aggr_tap_redirect_one (cs_sem c) (env_of c) b in
    if decide (o_err o = SONIC_EXT_AGGR_TAP_REDIRECT_ERROR_REDIRECTED)
    then mkPacket Interface_output (o_buf o) (p_log p ++ [(sw_if_index_tx (o_buf o), c)])
    else mkPacket Tx (o_buf o) (p_log p)
  else mkPacket Tx b (p_log p).

(** With the adjacencies and node registry [G] and the time [now] of the moment. *)
Definition ip_drop (G : glean_env) (src_nodes : list Z) (thread now : Z) (c : ctl_state) (ts : tstate)
    (is_ip6 : bool) (p : packet) : tstate * packet :=
  if is_on c (if is_ip6 then glean6_key else glean4_key) then
    let '(ts, seed) := throttle_seed ts thread now in
    let '(ts, o) := sonic_ext_glean_redirect_one (cs_sem c) (env_of c) G src_nodes thread seed ts (p_buf p) in
    if decide (o_err o = SONIC_EXT_GLEAN_REDIRECT_ERROR_REDIRECTED)
    then (ts, mkPacket Interface_output (o_buf o) (p_log p ++ [(sw_if_index_tx (o_buf o), c)]))
    else (ts, mkPacket Dropped (o_buf o) (p_log p))
  else (ts, mkPacket Dropped (p_buf p) (p_log p)).

Inductive path_step : ctl_state * tstate * packet -> ctl_state * tstate * packet -> Prop :=
  | path_ctl c c' ts p :
      ctl_step E c c' -> path_step (c, ts, p) (c', ts, p)
  | path_input c ts b pl b' log :
      device_input c b = (pl, b') ->
      path_step (c, ts, mkPacket Device_input b log) (c, ts, mkPacket pl b' log)
  | path_vpp c ts b b' pl log :
      vpp b b' -> pl <> Device_input -> pl <> Tx ->
      path_step (c, ts, mkPacket In_graph b log) (c, ts, mkPacket pl b' log)
  | path_trap_fixup errors c ts b log :
      let o := sonic_ext_l2_trap_fixup_one errors (env_of c) b in
      path_step (c, ts, mkPacket In_graph b log)
        (c, ts, mkPacket (if o_next o =? SONIC_EXT_L2_TRAP_FIXUP_NEXT_DROP then Dropped else In_graph)
                  (o_buf o) log)
  | path_ip2me I is_ip6 c ts b log :
      path_step (c, ts, mkPacket In_graph b log)
        (c, ts, mkPacket In_graph (o_buf (sonic_ext_ip2me_one I is_ip6 b)) log)
  | path_output c ts b log :
      path_step (c, ts, mkPacket Interface_output b log)
        (c, ts, interface_output c (mkPacket Interface_output b log))
  | path_drop G src_nodes thread now is_ip6 c ts b log ts' p' :
      ip_drop G src_nodes thread now c ts is_ip6 (mkPacket (Ip_drop is_ip6) b log) = (ts', p') ->
      path_step (c, ts, mkPacket (Ip_drop is_ip6) b log) (c, ts', p').

(** ** The invariant *)

(** [b0] came in, in the control state [c0].  A packet that was not redirected yet
    carries no cookie, or the one of its ingress interface; one that was redirected
    carries none, is on its way out on the ingress tap of that moment, and was
    redirected once. *)
Definition path_inv (c0 : ctl_state) (b0 : vlib_buffer_t) (x : ctl_state * tstate * packet) : Prop :=
  let '(c, _, p) := x in
  rtc (ctl_step E) c0 c /\
  (p_place p = Device_input -> p_buf p = b0 /\ p_log p = []) /\
  match p_log p with
  | [] => p_place p <> Device_input -> has_cookie (p_buf p) = true ->
      orig_rx_sw_if_index (seb (p_buf p)) = sw_if_index_rx b0
  | [(t, c')] =>
      has_cookie (p_buf p) = false /\ (p_place p = Interface_output \/ p_place p = Tx) /\
      sw_if_index_tx (p_buf p) = t /\ rtc (ctl_step E) c0 c' /\ punt_via_member (cs_sem c') = true /\
      ingress_tap (env_of c') (sw_if_index_rx b0) = Some t
  | _ => False
  end.

End Path.

(** ** Lemmas *)

Lemma with_pairs_lcp_ok E pairs : lcp_ok (with_pairs E pairs).
Proof.
  split; intros i Hi; destruct (pair_index_get _ _ Hi) as (lip & Hlip & Hp);
    exists lip; (split; [exact Hlip|by apply Z.eqb_eq]).
Qed.

Section Facts.
Context `{Vlib} `{Throttle}.

(** *** The nodes, as far as the metadata goes *)

Lemma host_xc_seb sem E b : seb (o_buf (sonic_ext_host_xc_one sem E b)) = seb b.
Proof.
  unfold sonic_ext_host_xc_one. destruct (feature_next_same b) as (_ & _ & Hs & _).
  destruct (vnet_feature_next b) as [n b']. by repeat split_if.
Qed.

Lemma trap_fixup_seb errors E b : seb (o_buf (sonic_ext_l2_trap_fixup_one errors E b)) = seb b.
Proof. unfold sonic_ext_l2_trap_fixup_one. by split_if. Qed.

Lemma ip2me_seb I is_ip6 b : seb (o_buf (sonic_ext_ip2me_one I is_ip6 b)) = seb b.
Proof.
  unfold sonic_ext_ip2me_one. destruct (feature_next_same b) as (_ & _ & Hs & _).
  destruct (vnet_feature_next b) as [n b']. by repeat split_if.
Qed.

(** A redirect takes a packet with a cookie, to the ingress tap of that cookie, and
    consumes it; without a redirect the TX interface stays and so does a cookie, if
    there is one after the node. *)
Definition redirect_effect (pvm : bool) (E : vnet_env) (b b' : vlib_buffer_t) (redirected : Prop)
    `{Decision redirected} : Prop :=
  if decide redirected then
    has_cookie b = true /\ pvm = true /\ has_cookie b' = false /\
    ingress_tap E (orig_rx_sw_if_index (seb b)) = Some (sw_if_index_tx b')
  else sw_if_index_tx b' = sw_if_index_tx b /\ (has_cookie b' = true -> seb b' = seb b).

Lemma no_magic b : magic (seb b) = 0 -> has_cookie b = false.
Proof. unfold has_cookie. by intros ->. Qed.

Lemma aggr_effect sem E b :
  lcp_ok E -> let o := sonic_ext_aggr_tap_redirect_one sem E b in
  redirect_effect (punt_via_member sem) E b (o_buf o)
    (o_err o = SONIC_EXT_AGGR_TAP_REDIRECT_ERROR_REDIRECTED).
Proof.
  intros HE. cbv zeta. unfold redirect_effect, sonic_ext_aggr_tap_redirect_one.
  destruct (feature_next_same b) as (_ & _ & Hs & _ & Htx & _).
  destruct (vnet_feature_next b) as [n b1]. cbn [snd] in Hs, Htx.
  assert (Hck : has_cookie b1 = has_cookie b) by (unfold has_cookie; by rewrite Hs).
  rewrite <- Hck, <- Hs, <- Htx.
  destruct (punt_via_member sem), (has_cookie b1) eqn:Hc; cbn [negb o_err o_buf]; [|by rewrite decide_False..].
  pose proof (redirect_done_iff E b1 (orig_rx_sw_if_index (seb b1)) (sw_if_index_tx b1) HE) as Hd.
  cbv zeta in Hd. destruct (rr_done _); cbn [negb o_err o_buf].
  - rewrite decide_True by done. destruct Hd as (t & Ht & _ & _ & -> & Hm). by rewrite no_magic.
  - rewrite decide_False by done. destruct Hd as [-> _]. done.
Qed.

Lemma glean_effect sem E G src thread seed ts b :
  lcp_ok E -> let o := snd (sonic_ext_glean_redirect_one sem E G src thread seed ts b) in
  redirect_effect (punt_via_member sem) E b (o_buf o) (o_err o = SONIC_EXT_GLEAN_REDIRECT_ERROR_REDIRECTED).
Proof.
  intros HE. cbv zeta. unfold redirect_effect, sonic_ext_glean_redirect_one.
  destruct (feature_next_same b) as (_ & _ & Hs & _ & Htx & _).
  destruct (vnet_feature_next b) as [n b1]. cbn [snd] in Hs, Htx.
  assert (Hck : has_cookie b1 = has_cookie b) by (unfold has_cookie; by rewrite Hs).
  rewrite <- Hck, <- Hs, <- Htx.
  destruct (punt_via_member sem), (sonic_ext_glean_from_nbr_node G src b1),
    (sonic_ext_glean_should_redirect G E (adj_index_tx b)), (has_cookie b1) eqn:Hc;
    cbn [negb snd o_err o_buf]; [|by rewrite decide_False..].
  destruct (throttle_check _ _ _ _) as [ts' [|]]; cbn [snd o_err o_buf]; [by rewrite decide_False|].
  pose proof (redirect_done_iff E b1 (orig_rx_sw_if_index (seb b1)) U32_MAX HE) as Hd.
  cbv zeta in Hd. destruct (rr_done _); cbn [negb snd o_err o_buf].
  - rewrite decide_True by done. destruct Hd as (t & Ht & _ & _ & -> & Hm). by rewrite no_magic.
  - rewrite decide_False by done. destruct Hd as [-> _]. done.
Qed.

End Facts.

Section Invariant.
Context `{Vlib} `{Throttle} `{VnetFeature}.
Variable E : vnet_env.
Variable vpp : vlib_buffer_t -> vlib_buffer_t -> Prop.
Hypothesis vpp_keeps : forall b b', vpp b b' -> seb b' = seb b.

Lemma device_input_cookie c b :
  has_cookie b = false ->
  let '(pl, b') := device_input E c b in
  pl <> Device_input /\ (has_cookie b' = true -> orig_rx_sw_if_index (seb b') = sw_if_index_rx b).
Proof.
  intros Hn. unfold device_input.
  set (b1 := if is_on c (capture_key (sw_if_index_rx b)) then _ else _).
  assert (H1' : has_cookie b1 = true -> orig_rx_sw_if_index (seb b1) = sw_if_index_rx b).
  { unfold b1. destruct (is_on _ _); [by rewrite capture_seb|]. by rewrite Hn. }
  destruct (is_on c (host_xc_key (sw_if_index_rx b))); [|by split]. split; [by case_decide|].
  unfold has_cookie in *. by rewrite host_xc_seb.
Qed.

(** A node that may redirect keeps the invariant, whether it does or not. *)
Lemma redirect_inv c0 b0 c ts ts' pl b b' log P `{Decision P} :
  path_inv E c0 b0 (c, ts, mkPacket pl b log) -> pl <> Device_input ->
  redirect_effect (punt_via_member (cs_sem c)) (env_of E c) b b' P ->
  (P -> path_inv E c0 b0 (c, ts', mkPacket Interface_output b' (log ++ [(sw_if_index_tx b', c)]))) /\
  (~ P -> forall pl', pl' <> Device_input -> pl' = Tx \/ (pl <> Interface_output /\ pl <> Tx) ->
   path_inv E c0 b0 (c, ts', mkPacket pl' b' log)).
Proof.
  intros (Hr & _ & Hlog) Hpl Heff. unfold redirect_effect in Heff. cbn [p_place p_buf p_log] in Hlog.
  split; intros HP; [rewrite decide_True in Heff by done|rewrite decide_False in Heff by done].
  - destruct Heff as (Hc & Hpvm & Hc' & Ht). destruct log as [|[t c'] [|? ?]]; [|destruct Hlog; congruence|done].
    specialize (Hlog Hpl Hc). rewrite Hlog in Ht. split; [done|]. cbn. split; [done|]. by split_and!; auto.
  - intros pl' Hpl' Hout. destruct Heff as [Htx Hseb]. split; [done|]. cbn. split; [done|].
    destruct log as [|[t c'] [|? ?]]; [|destruct Hlog as (Hc & Hp & Hlog)|done].
    + intros _ Hc'. pose proof (Hseb Hc') as Hs. rewrite Hs. apply Hlog; [done|].
      unfold has_cookie in *. by rewrite <- Hs.
    + rewrite Htx. refine (conj _ (conj _ Hlog)).
      * destruct (has_cookie b') eqn:Hc'; [|done]. pose proof (Hseb eq_refl) as Hs.
        unfold has_cookie in *. rewrite Hs in Hc'. congruence.
      * destruct Hout as [->|[? ?]]; [by right|tauto].
Qed.

(** A step inside the graph keeps it as long as the metadata is kept. *)
Lemma graph_inv c0 b0 c ts ts' b b' pl log :
  path_inv E c0 b0 (c, ts, mkPacket In_graph b log) -> seb b' = seb b -> pl <> Device_input ->
  path_inv E c0 b0 (c, ts', mkPacket pl b' log).
Proof.
  intros (Hr & _ & Hlog) Hs Hpl. split; [done|]. cbn in *. split; [done|].
  destruct log as [|[t c'] [|? ?]]; [|destruct Hlog as (_ & [?|?] & _); done|done].
  intros _ Hc. rewrite Hs. apply Hlog; [done|]. unfold has_cookie in *. by rewrite <- Hs.
Qed.

Lemma path_inv_step c0 b0 x y :
  has_cookie b0 = false -> path_inv E c0 b0 x -> path_step E vpp x y -> path_inv E c0 b0 y.
Proof.
  intros Hfresh Hinv Hs. destruct Hs as [c c' ts p Hc|c ts b pl b' log Hd|c ts b b' pl log Hv Hp1 Hp2|
    errors c ts b log o|I is_ip6 c ts b log|c ts b log|G src thread now is_ip6 c ts b log ts' p' Hd].
  - destruct Hinv as (Hr & Hin & Hlog). split; [by eapply rtc_r|]. exact (conj Hin Hlog).
  - destruct Hinv as (Hr & Hin & _). destruct (Hin eq_refl) as [Hb Hl]. cbn in Hb, Hl. subst b log.
    pose proof (device_input_cookie c b0 Hfresh) as Hck. rewrite Hd in Hck. destruct Hck as [Hpl Hck].
    split; [done|]. cbn. split; [done|]. intros _. exact Hck.
  - eapply graph_inv; [done|by apply vpp_keeps|done].
  - eapply graph_inv; [done|apply trap_fixup_seb|by split_if].
  - eapply graph_inv; [done|apply ip2me_seb|done].
  - assert (Hne : Interface_output <> Device_input) by done. unfold interface_output. cbn [p_buf p_log].
    destruct (redirect_inv c0 b0 c ts ts Interface_output b _ log _ Hinv Hne
      (aggr_effect (cs_sem c) (env_of E c) b (with_pairs_lcp_ok _ _))) as [Hy Hn].
    destruct (is_on _ _).
    + case_decide; [by apply Hy|]. apply Hn; [done..|by left].
    + destruct Hinv as (Hr & _ & Hlog). split; [done|]. cbn in *. split; [done|].
      destruct log as [|[t c'] [|? ?]]; [by intros _; apply Hlog|naive_solver|done].
  - assert (Hne : Ip_drop is_ip6 <> Device_input) by done.
    unfold ip_drop in Hd. cbn [p_buf p_log] in Hd. destruct (is_on _ _).
    + destruct (throttle_seed ts thread now) as [ts1 seed].
      destruct (redirect_inv c0 b0 c ts ts' (Ip_drop is_ip6) b _ log _ Hinv Hne
        (glean_effect (cs_sem c) (env_of E c) G src thread seed ts1 b (with_pairs_lcp_ok _ _))) as [Hy Hn].
      destruct (sonic_ext_glean_redirect_one _ _ _ _ _ _ _ _) as [ts2 o]. cbn [snd] in Hy, Hn.
      case_decide; injection Hd as <- <-; [by apply Hy|]. apply Hn; [done..|by right].
    + injection Hd as <- <-. destruct Hinv as (Hr & _ & Hlog). split; [done|]. cbn in *. split; [done|].
      destruct log as [|[t c'] [|? ?]]; [by intros _; apply Hlog|by destruct Hlog as (_ & [?|?] & _)|done].
Qed.

Lemma path_inv_run c0 b0 x y :
  has_cookie b0 = false -> path_inv E c0 b0 x -> rtc (path_step E vpp) x y -> path_inv E c0 b0 y.
Proof. intros Hf Hx Hr. induction Hr as [|x y z Hs _ IH]; [done|]. apply IH. by eapply path_inv_step. Qed.

End Invariant.

(** The ingress tap is that of a pair that exists. *)
Lemma ingress_tap_lip E pairs sw t :
  ingress_tap (with_pairs E pairs) sw = Some t ->
  exists lip, lip ∈ pairs /\ parent_port E sw = Some (lip_phy_sw_if_index lip) /\ lip_host_sw_if_index lip = t.
Proof.
  intros Ht. destruct (ingress_tap_pair _ _ _ (with_pairs_lcp_ok E pairs) Ht) as (phy & lip & Hp & _ & Hg & <- & <-).
  exists lip. split; [|done]. cbn in Hg. destruct (_ <? 0); [done|]. by eapply list_elem_of_lookup_2.
Qed.

(** ** From the wire to the tap *)

(** An Ethernet frame at the current position, with one VLAN tag or none. *)
Record wire_frame (b : vlib_buffer_t) (macs tag rest : list Z) : Prop := {
  wf_ok : buffer_ok b;
  wf_macs : length macs = 12%nat;
  wf_tag : tag = [] \/ vlan_tag_bytes tag;
  wf_rest : (2 <= length rest)%nat;
  wf_etype : is_vlan_etype (be_decode (take 2 rest)) = false;
  wf_frame : frame_at_cur b (12 + (length tag + length rest)) = macs ++ tag ++ rest
}.

(** The frame without its tag, at the L2 header a bridge recorded: with room in front. *)
Record popped_frame (b : vlib_buffer_t) (macs rest : list Z) : Prop := {
  pf_ok : buffer_ok b;
  pf_l2 : 4 <= l2_hdr_offset b < 2 ^ 15;
  pf_cur : is_i16 (current_data b);
  pf_frame : frame_at_l2 b (12 + length rest) = macs ++ rest
}.

(** Port [P] of the wire and its tap [t]. *)
Record member_port `{VnetFeature} (E : vnet_env) (c : ctl_state) (P t : Z) : Prop := {
  mp_pair : mkLip P t ∈ cs_pairs c;
  mp_swi : exists swi, vnet_get_sw_interface_or_null E P = Some swi /\ is_sub swi = false;
  mp_member : sonic_ext_phy_is_aggregate E P = false;
  mp_no_tap : P ∉ lip_host_sw_if_index <$> cs_pairs c;
  mp_few : Z.of_nat (length (cs_pairs c)) < INDEX_INVALID
}.

Section Delivery.
Context `{Vlib} `{VnetFeature}.

(** The redirect of a popped frame rebuilds the wire frame, tagged or not. *)
Lemma wire_frame_restored E b0 b excluded tap macs tag rest :
  lcp_ok E -> wire_frame b0 macs tag rest -> popped_frame b macs rest ->
  seb b = seb (o_buf (sonic_ext_capture_one b0)) ->
  ingress_tap E (sw_if_index_rx b0) = Some tap -> tap <> excluded ->
  let r := sonic_ext_redirect_to_ingress_tap E b (orig_rx_sw_if_index (seb b)) excluded in
  rr_done r = true /\ sw_if_index_tx (rr_buf r) = tap /\
  frame_at_cur (rr_buf r) (12 + (length tag + length rest)) = macs ++ tag ++ rest.
Proof.
  intros HE [Hok Hm [->|Htag] Hr He Hf] [Hok' Hl Hc Hf'] Hs Ht Hne; cbv zeta.
  - assert (Hl' : is_i16 (l2_hdr_offset b)) by zsolve.
    assert (Htag : orig_vlan_tag (seb b) = 0).
    { rewrite Hs, capture_seb, cur_etype_be by done. cbn [orig_vlan_tag].
      unfold cur_bytes. unfold frame_at_cur, cur_bytes in Hf. rewrite Z.add_0_r in Hf.
      by rewrite (frame_etype _ _ _ _ _ Hm Hr eq_refl Hf), He. }
    destruct (redirect_done E b (sw_if_index_rx b0) excluded tap HE Ht Hne) as [Hd Ht'].
    rewrite Hs, capture_seb. cbn [orig_rx_sw_if_index].
    pose proof (redirect_buf E b (sw_if_index_rx b0) excluded Hd) as Hbuf. cbv zeta in *.
    rewrite rewind_push_cases, bool_decide_eq_false_2 in Hbuf by (done || (intros [? _]; done)).
    split; [done|]. rewrite Hbuf. split; [exact Ht'|].
    pose proof (rewind_frame b 0 (12 + length rest) Hl' Hc) as Hrf. rewrite Z.add_0_r in Hrf.
    unfold frame_at_cur. cbn. rewrite <- Hf'. exact Hrf.
  - assert (Htl : length tag = 4%nat) by apply Htag. rewrite Htl in Hf |- *.
    destruct (redirect_restores_wire_frame E b0 b excluded tap macs tag rest) as (? & ? & _ & ? & _); done.
Qed.

(** The pair of a port and of a tap, among pairs that name each once. *)
Lemma pair_index_found (f : lcp_itf_pair_t -> Z) pairs lip :
  NoDup (f <$> pairs) -> lip ∈ pairs -> Z.of_nat (length pairs) < INDEX_INVALID ->
  let i := pair_index (fun l => f l =? f lip) pairs in
  i <> INDEX_INVALID /\ (i <? 0) = false /\ pairs !! Z.to_nat i = Some lip.
Proof.
  intros Hnd Hin Hlen. cbv zeta. unfold pair_index.
  destruct (list_find _ pairs) as [[i l]|] eqn:Hf.
  - apply list_find_Some in Hf as (Hi & Hl & _). apply Z.eqb_eq in Hl.
    apply list_elem_of_lookup_1 in Hin as [j Hj]. apply lookup_lt_Some in Hi as Hlt.
    assert (i = j) as ->.
    { eapply (NoDup_lookup _ i j (f lip) Hnd); rewrite list_lookup_fmap; [by rewrite Hi; cbn; rewrite Hl|by rewrite Hj]. }
    rewrite Nat2Z.id. split; [lia|]. split; [apply Z.ltb_ge; lia|done].
  - apply list_find_None in Hf. rewrite Forall_forall in Hf. destruct (Hf lip Hin). by rewrite Z.eqb_refl.
Qed.

Lemma member_ingress_tap E c P t :
  wired E c -> member_port E c P t -> ingress_tap (env_of E c) P = Some t.
Proof.
  intros (Hnd & _) [Hp (swi & Hswi & Hsub) _ _ Hfew]. unfold ingress_tap, env_of. cbn. rewrite Hswi. cbn. rewrite Hsub.
  destruct (pair_index_found lip_phy_sw_if_index _ _ Hnd Hp Hfew) as (Hi & Hi0 & Hg). cbn in Hi, Hi0, Hg.
  rewrite (proj2 (Z.eqb_neq _ _) Hi), Hi0. by rewrite Hg.
Qed.

(** The aggregate redirect is not on at the tap of a member port, nor at the port. *)
Lemma member_no_aggr E c P t :
  wired E c -> member_port E c P t -> is_on c (aggr_key t) = false /\ is_on c (aggr_key P) = false.
Proof.
  intros (_ & Hnd & _ & _ & Ha & _) [Hp _ Hm Hno _]. unfold is_on. split.
  - destruct (vnet_feature_is_enabled _ _) eqn:Hon; [|done]. apply Ha in Hon as (lip & Hin & Hh & Hagg).
    assert (lip = mkLip P t) as ->; [|cbn in Hagg; congruence].
    apply list_elem_of_lookup_1 in Hin as [i Hi]. apply list_elem_of_lookup_1 in Hp as [j Hj].
    assert (i = j) as ->; [|congruence].
    eapply (NoDup_lookup _ i j t Hnd); rewrite list_lookup_fmap; [by rewrite Hi; cbn; rewrite Hh|by rewrite Hj].
  - destruct (vnet_feature_is_enabled _ _) eqn:Hon; [|done]. apply Ha in Hon as (lip & Hin & Hh & _).
    destruct Hno. rewrite <- Hh. by apply list_elem_of_fmap_2.
Qed.

Lemma member_input E c P t b :
  wired E c -> capture_enabled (cs_sem c) = true -> member_port E c P t -> sw_if_index_rx b = P ->
  device_input E c b = (In_graph, o_buf (sonic_ext_capture_one b)).
Proof.
  intros (_ & _ & Hc & Hx & _) Hen [Hp (swi & Hswi & Hsub) Hm Hno _] <-. unfold device_input, is_on.
  rewrite (proj2 (Hc _)).
  - destruct (vnet_feature_is_enabled _ (host_xc_key _)) eqn:Hon; [|done].
    apply Hx in Hon as (_ & _ & lip & Hin & Hh). destruct Hno. rewrite <- Hh. by apply list_elem_of_fmap_2.
  - split_and!; try done; [unfold sonic_ext_sw_is_sub; by rewrite Hswi|]. by exists (mkLip (sw_if_index_rx b) t).
Qed.

(** The first pass through interface-output, on the tap of an aggregate. *)
Lemma aggregate_output E c b0 b P t A ta macs tag rest log :
  wired E c -> member_port E c P t -> punt_via_member (cs_sem c) = true ->
  mkLip A ta ∈ cs_pairs c -> sonic_ext_phy_is_aggregate E A = true ->
  sw_if_index_rx b0 = P -> wire_frame b0 macs tag rest -> popped_frame b macs rest ->
  seb b = seb (o_buf (sonic_ext_capture_one b0)) -> sw_if_index_tx b = ta ->
  exists b', interface_output E c (mkPacket Interface_output b log) =
      mkPacket Interface_output b' (log ++ [(t, c)]) /\
    sw_if_index_tx b' = t /\ frame_at_cur b' (12 + (length tag + length rest)) = macs ++ tag ++ rest.
Proof.
  intros Hw Hmp Hpvm Ha Hagg Hrx Hwf Hpf Hs Htx.
  assert (Hon : is_on c (aggr_key ta) = true)
    by (destruct Hw as (_ & _ & _ & _ & Hon & _); apply Hon; by exists (mkLip A ta)).
  assert (Hne : t <> ta) by (intros ->; destruct (member_no_aggr E c P ta Hw Hmp); congruence).
  pose proof (member_ingress_tap E c P t Hw Hmp) as Ht. rewrite <- Hrx in Ht.
  unfold interface_output. cbn [p_buf p_log]. rewrite Htx, Hon.
  unfold sonic_ext_aggr_tap_redirect_one. rewrite Hpvm.
  destruct (feature_next_same b) as (Hd & Hcd & Hsb & Hl2 & _).
  destruct (vnet_feature_next b) as [n b1]. cbn [snd] in *. cbn [negb].
  assert (Hpf1 : popped_frame b1 macs rest)
    by (destruct Hpf as [? ? ? ?]; split; unfold buffer_ok, frame_at_l2 in *; by rewrite ?Hd, ?Hl2, ?Hcd).
  assert (Hck : has_cookie b1 = true) by (unfold has_cookie; by rewrite Hsb, Hs, capture_seb).
  rewrite Hck, Htx. cbn [negb].
  assert (Hs1 : seb b1 = seb (o_buf (sonic_ext_capture_one b0))) by congruence.
  destruct (wire_frame_restored (env_of E c) b0 b1 ta t macs tag rest (with_pairs_lcp_ok _ _) Hwf Hpf1 Hs1 Ht Hne)
    as (Hdone & Htx' & Hfr). rewrite Hdone. cbn [negb o_err o_buf].
  rewrite decide_True by done. eexists. by rewrite Htx'.
Qed.

(** Linux's frame on the tap of a member port. *)
Lemma reply_output E c P t b log :
  wired E c -> host_xc_enabled (cs_sem c) = true -> host_xc (cs_sem c) = true ->
  member_port E c P t -> sonic_ext_sw_is_sub E t = false -> sw_if_index_rx b = t ->
  exists b', device_input E c b = (Interface_output, b') /\ sw_if_index_tx b' = P /\
    data b' = data b /\ current_data b' = current_data b /\ current_length b' = current_length b /\
    interface_output E c (mkPacket Interface_output b' log) = mkPacket Tx b' log.
Proof.
  intros Hw Hen Hxc Hmp Hsub <-. destruct (member_no_aggr E c P _ Hw Hmp) as [_ HP].
  destruct Hw as (_ & Hnd & _ & Hx & _). pose proof Hmp as [Hp _ _ _ Hfew].
  unfold device_input. set (b1 := if is_on c (capture_key _) then _ else _).
  assert (Hb1 : data b1 = data b /\ current_data b1 = current_data b /\ current_length b1 = current_length b /\
    sw_if_index_rx b1 = sw_if_index_rx b).
  { unfold b1. destruct (is_on c (capture_key (sw_if_index_rx b))); [|by split_and!]. unfold sonic_ext_capture_one, vnet_feature_next.
    destruct (vnet_feature_next_at _ _). by split_and!. }
  destruct Hb1 as (Hd & Hc & Hl & Hrx).
  assert (Hon : is_on c (host_xc_key (sw_if_index_rx b)) = true)
    by (apply Hx; split_and!; [done|done|by exists (mkLip P (sw_if_index_rx b))]).
  rewrite Hon. unfold sonic_ext_host_xc_one. rewrite Hxc, Hrx. cbn [negb].
  destruct (pair_index_found lip_host_sw_if_index _ _ Hnd Hp Hfew) as (Hi & Hi0 & Hg). cbn in Hi, Hi0, Hg.
  unfold env_of. cbn. rewrite (proj2 (Z.eqb_neq _ _) Hi), Hi0, Hg. cbn.
  eexists. split; [reflexivity|]. cbn. split_and!; try done.
  unfold interface_output. cbn. by rewrite HP.
Qed.

End Delivery.

(** ** Theorems *)

Section Theorems.
Context `{Vlib} `{Throttle} `{VnetFeature}.
Variable E : vnet_env.
Variable vpp : vlib_buffer_t -> vlib_buffer_t -> Prop.

(** C6.  A packet is redirected at most once, and only to the tap of the port it came
    in on.  Take any packet that comes in without a stale cookie, anything VPP's nodes
    do that keeps the metadata, any copies, any number of passes through the
    interface-output and drop arcs, with switches flipped and pairs created and deleted
    in between: it is redirected once or not at all; a redirect happens with
    punt-via-member on, to the tap of a pair that exists at that moment, of the port
    (or of the parent of the sub-interface) the packet came in on; from then on the
    packet has no cookie and leaves on that tap.  So its rounds through interface-output
    end, and a packet never reaches the tap of another port by way of the plugin. *)
Theorem punt_redirected_once c0 ts0 b0 c ts p
    (vpp_keeps : forall b b', vpp b b' -> seb b' = seb b) :
  has_cookie b0 = false ->
  rtc (path_step E vpp) (c0, ts0, mkPacket Device_input b0 []) (c, ts, p) ->
  (length (p_log p) <= 1)%nat /\
  (forall t c', (t, c') ∈ p_log p ->
     rtc (ctl_step E) c0 c' /\ punt_via_member (cs_sem c') = true /\
     (exists lip, lip ∈ cs_pairs c' /\ parent_port E (sw_if_index_rx b0) = Some (lip_phy_sw_if_index lip) /\
        lip_host_sw_if_index lip = t) /\
     has_cookie (p_buf p) = false /\ sw_if_index_tx (p_buf p) = t /\
     (p_place p = Interface_output \/ p_place p = Tx)) /\
  (p_place p <> Device_input -> has_cookie (p_buf p) = true ->
     p_log p = [] /\ orig_rx_sw_if_index (seb (p_buf p)) = sw_if_index_rx b0).
Proof.
  intros Hf Hr. assert (H0' : path_inv E c0 b0 (c0, ts0, mkPacket Device_input b0 []))
    by (split; [apply rtc_refl|]; cbn; naive_solver).
  pose proof (path_inv_run E vpp vpp_keeps c0 b0 _ _ Hf H0' Hr) as Hinv.
  destruct Hinv as (_ & _ & Hlog). destruct (p_log p) as [|[t c'] [|? ?]]; [| |done].
  - split; [cbn; lia|]. split; [by intros t c' ?%not_elem_of_nil|]. auto.
  - destruct Hlog as (Hc & Hpl & Htx & Hr' & Hpvm & Ht). split; [cbn; lia|]. split.
    + intros t1 c1 [= -> ->]%list_elem_of_singleton. split_and!; try done. by apply ingress_tap_lip.
    + by rewrite Hc.
Qed.

Hypothesis calls_ok : forall fs k en, snd (vnet_feature_enable_disable fs k en) = 0.
Hypothesis own_config : forall arc sw, shared_config arc sw = true ->
  arc = "device-input"%string /\ sonic_ext_sw_is_sub E sw = true.

(** C2.  Punt via the member port, and back.  In the deployed configuration, through
    any history of switches and pairs over fixed interfaces with feature calls that
    succeed, both switches on at the time, a frame that comes in on a member port [P] with
    the tap [t] and that a bridge or a bond punts to the tap of its aggregate, its VLAN
    tag (at most one) popped and with room for it in front of the frame, is not sent there: the
    first pass through interface-output rebuilds the frame as it was on the wire, tag
    included, and moves it to [t], and the second one sends it, so Linux sees the wire
    frame on the right port.  And the frame Linux sends on [t] leaves on [P] unchanged,
    without a visit to the bridge. *)
Theorem punt_and_reply sem0 fs0 c1 c2 P t A ta b0 b macs tag rest :
  (forall k, vnet_feature_is_enabled fs0 k = false) ->
  (let '(sem, fs) := sonic_ext_init E [] sem0 fs0 in rtc (ctl_step E) (mkCtl sem fs []) c1) ->
  rtc (ctl_step E) c1 c2 ->
  member_port E c1 P t -> member_port E c2 P t -> sonic_ext_sw_is_sub E t = false ->
  mkLip A ta ∈ cs_pairs c2 -> sonic_ext_phy_is_aggregate E A = true ->
  punt_via_member (cs_sem c2) = true -> host_xc (cs_sem c2) = true ->
  sw_if_index_rx b0 = P -> wire_frame b0 macs tag rest ->
  seb b = seb (snd (device_input E c1 b0)) -> popped_frame b macs rest -> sw_if_index_tx b = ta ->
  fst (device_input E c1 b0) = In_graph /\
  (exists b', interface_output E c2 (interface_output E c2 (mkPacket Interface_output b [])) =
       mkPacket Tx b' [(t, c2)] /\ sw_if_index_tx b' = t /\
     frame_at_cur b' (12 + (length tag + length rest)) = macs ++ tag ++ rest) /\
  (forall r, sw_if_index_rx r = t ->
     exists r', device_input E c2 r = (Interface_output, r') /\ sw_if_index_tx r' = P /\
       data r' = data r /\ current_data r' = current_data r /\ current_length r' = current_length r /\
       interface_output E c2 (mkPacket Interface_output r' []) = mkPacket Tx r' []).
Proof using calls_ok own_config.
  intros Hoff Hinit H12 Hm1 Hm2 Hsub Ha Hagg Hpvm Hxc Hrx Hwf Hs Hpf Htx.
  assert (Hw1 : wired E c1 /\ enabled_all (cs_sem c1)).
  { destruct (sonic_ext_init E [] sem0 fs0) as [sem2 fs2] eqn:Hi.
    eapply (reach_wired E calls_ok own_config (mkCtl sem2 fs2 [])); [|done]. by eapply init_wired. }
  destruct (reach_wired E calls_ok own_config c1 c2 Hw1 H12) as [Hw2 (_ & Hx2 & _)].
  destruct Hw1 as [Hw1 (Hc1 & _)]. rewrite (member_input E c1 P t b0 Hw1 Hc1 Hm1 Hrx) in Hs |- *.
  cbn [fst snd] in Hs |- *. split; [done|]. split.
  - destruct (aggregate_output E c2 b0 b P t A ta macs tag rest [] Hw2 Hm2 Hpvm Ha Hagg Hrx Hwf Hpf Hs Htx)
      as (b' & -> & Htx' & Hfr). exists b'. split; [|done].
    unfold interface_output. cbn [p_buf p_log]. rewrite Htx'.
    by destruct (member_no_aggr E c2 P t Hw2 Hm2) as [-> _].
  - intros r Hr. by apply (reply_output E c2 P t).
Qed.

End Theorems.

(** ** Witnesses *)

(** The deployed plugin with the pairs of port 1 (tap 11) and of the BVI 5 (tap 15). *)
Definition ex_init : sonic_ext_main_t * @fstate feature_example :=
  @sonic_ext_init feature_example env_example [] zero_sem (∅ : gset fkey).

Definition ex_ctl : @ctl_state feature_example :=
  let '(sem, fs) := ex_init in
  mkCtl sem (@sonic_ext_lcp_pair_add_cb feature_example env_example sem
    (@sonic_ext_lcp_pair_add_cb feature_example env_example sem fs (Some (mkLip 1 11))) (Some (mkLip 5 15)))
    [mkLip 5 15; mkLip 1 11].

Lemma ex_ctl_reach :
  let '(sem, fs) := ex_init in rtc (@ctl_step feature_example env_example) (mkCtl sem fs []) ex_ctl.
Proof.
  unfold ex_ctl. destruct ex_init as [sem fs].
  eapply rtc_l; [apply step_pair_add with (lip := mkLip 1 11); apply not_elem_of_nil|].
  eapply rtc_l; [apply step_pair_add with (lip := mkLip 5 15); by_compute|]. apply rtc_refl.
Qed.

Lemma ex_member : @member_port feature_example env_example ex_ctl 1 11.
Proof.
  split; [by_compute|by exists (mkSwif VNET_SW_INTERFACE_TYPE_OTHER 1)|by_compute..].
Qed.

Definition ex_ts : @tstate throttle_ref := (∅ : gset (Z * Z)).

(** A tagged frame of port 1, and the same with the tag popped, punted to the BVI's tap. *)
Definition ex_in : vlib_buffer_t := ex_wire (ex_macs ++ ex_tag ++ ex_rest).
Definition ex_out : vlib_buffer_t :=
  set_tx 15 (ex_popped (ex_macs ++ ex_tag ++ ex_rest) (ex_macs ++ ex_rest)).

Lemma path_output_at `{Vlib} `{Throttle} `{VnetFeature} E vpp c ts p :
  p_place p = Interface_output -> path_step E vpp (c, ts, p) (c, ts, interface_output E c p).
Proof. destruct p as [pl b log]. cbn. intros ->. apply path_output. Qed.

Lemma ex_out_seb :
  seb ex_out = seb (snd (@device_input vlib_ref feature_example env_example ex_ctl ex_in)).
Proof. vm_compute. reflexivity. Qed.

Lemma ex_in_frame : wire_frame ex_in ex_macs ex_tag ex_rest.
Proof.
  split; [apply ex_buffer_ok; by_compute|done|right; by_compute|cbn; lia|by_compute|by_compute].
Qed.

Lemma ex_out_frame : popped_frame ex_out ex_macs ex_rest.
Proof. split; [apply ex_buffer_ok; by_compute|by_compute..]. Qed.

(** The frame on its way: captured, punted to tap 15, redirected, sent on tap 11. *)
Lemma punt_redirected_once_witness :
  let vpp := fun b b' => seb b' = seb b in
  let out := @interface_output vlib_ref feature_example env_example ex_ctl in
  let p := out (out (mkPacket Interface_output ex_out [])) in
  rtc (@path_step vlib_ref throttle_ref feature_example env_example vpp)
    (ex_ctl, ex_ts, mkPacket Device_input ex_in []) (ex_ctl, ex_ts, p) /\
  p_place p = Tx /\ sw_if_index_tx (p_buf p) = 11 /\ (length (p_log p) <= 1)%nat.
Proof.
  cbv zeta. set (vpp := fun b b' => seb b' = seb b).
  set (p1 := @interface_output vlib_ref feature_example env_example ex_ctl (mkPacket Interface_output ex_out [])).
  assert (Hp1 : p_place p1 = Interface_output) by (vm_compute; reflexivity).
  assert (Hrun : rtc (@path_step vlib_ref throttle_ref feature_example env_example vpp)
    (ex_ctl, ex_ts, mkPacket Device_input ex_in [])
    (ex_ctl, ex_ts, @interface_output vlib_ref feature_example env_example ex_ctl p1)).
  { eapply rtc_l; [apply path_input; apply surjective_pairing|].
    assert (Hin : fst (@device_input vlib_ref feature_example env_example ex_ctl ex_in) = In_graph)
      by (vm_compute; reflexivity). rewrite Hin.
    eapply rtc_l; [apply (path_vpp _ _ _ _ _ ex_out Interface_output); [exact ex_out_seb|done|done]|].
    eapply rtc_l; [by apply path_output_at|]. eapply rtc_l; [by apply path_output_at|]. apply rtc_refl. }
  split; [exact Hrun|].
  destruct (@punt_redirected_once vlib_ref throttle_ref feature_example env_example vpp ex_ctl
    ex_ts ex_in _ _ _ (fun _ _ Hs => Hs) eq_refl Hrun) as (Hlen & _).
  split; [vm_compute; reflexivity|]. split; [vm_compute; reflexivity|exact Hlen].
Defined.

Lemma punt_and_reply_witness :
  exists b', @interface_output vlib_ref feature_example env_example ex_ctl
      (@interface_output vlib_ref feature_example env_example ex_ctl (mkPacket Interface_output ex_out [])) =
    mkPacket Tx b' [(11, ex_ctl)] /\ sw_if_index_tx b' = 11 /\
    frame_at_cur b' 20 = ex_macs ++ ex_tag ++ ex_rest.
Proof.
  destruct (@punt_and_reply vlib_ref feature_example env_example feature_example_ok feature_example_own
    zero_sem (∅ : gset fkey) ex_ctl ex_ctl 1 11 5 15 ex_in ex_out ex_macs ex_tag ex_rest
    feature_example_off ex_ctl_reach (rtc_refl _ _) ex_member ex_member) as (_ & Hw & _);
    [by_compute|by_compute|by_compute|vm_compute; reflexivity|vm_compute; reflexivity|by_compute|exact ex_in_frame|
     exact ex_out_seb|exact ex_out_frame|by_compute|exact Hw].
Defined.
