(* ===== verification/SonicCli.v ===== *)
(** * The console of sonic_ext (sonic_ext/cli.c)

    The four commands of the plugin as they are registered, and sessions of them: any
    sequence of command lines moves the plugin as a sequence of its control-plane steps
    ([ctl_step]), and leaves the two switches where the last words put them. *)

From stdpp Require Import relations.
From S2P Require Import Prelude Vlib Feature SonicExt SonicCtl SonicTotals.

(** ** Commands *)

Section Console.
Context `{Vlib} `{L2 : VnetFeature} `{FT : VnetFeature}.
Variable E : vnet_env.

(** The control plane and the features of the L2 arcs. *)
Record console := mkConsole {
  cn_ctl : @ctl_state FT;
  cn_l2 : @fstate L2
}.

(** What a command does: the state after it, the error and the lines printed. *)
Abbreviation command_fn := (option (list cli_word) -> console -> console * option cli_error * list string).

Record vlib_cli_command_t := mkCommand {
  path : string;
  short_help : string;
  function : command_fn
}.

(** A command that works on the switches. *)
Definition switch_fn
    (fn : list lcp_itf_pair_t -> option (list cli_word) -> sonic_ext_main_t -> @fstate FT ->
      sonic_ext_main_t * @fstate FT * option cli_error) : command_fn := fun line c =>
  let '(mkConsole (mkCtl sem fs pairs) l2) := c in
  let '(sem, fs, err) := fn pairs line sem fs in
  (mkConsole (mkCtl sem fs pairs) l2, err, []).

Definition sonic_ext_punt_via_member_command : vlib_cli_command_t :=
  mkCommand "sonic-ext punt-via-member" "sonic-ext punt-via-member [on|enable|off|disable]"
    (switch_fn (sonic_ext_punt_via_member_command_fn E)).

Definition sonic_ext_host_xc_command : vlib_cli_command_t :=
  mkCommand "sonic-ext host-xc" "sonic-ext host-xc [on|enable|off|disable]"
    (switch_fn (sonic_ext_host_xc_command_fn E)).

Definition sonic_ext_ip2me_command : vlib_cli_command_t :=
  mkCommand "sonic-ext ip2me" "sonic-ext ip2me <interface> <on|enable|off|disable>"
    (fun line c => let '(l2, err) := sonic_ext_ip2me_command_fn (cn_l2 c) line in
       (mkConsole (cn_ctl c) l2, err, [])).

Definition show_sonic_ext_command : vlib_cli_command_t :=
  mkCommand "show sonic-ext" "show sonic-ext"
    (fun _ c => (c, None, show_sonic_ext_command_fn (cs_sem (cn_ctl c)))).

Definition commands : list vlib_cli_command_t :=
  [sonic_ext_punt_via_member_command; sonic_ext_host_xc_command; sonic_ext_ip2me_command;
   show_sonic_ext_command].

(** ** Sessions *)

(** A line: the path of a command and its arguments.  VPP runs the command with the
    path; a line for others leaves the plugin alone. *)
Abbreviation cli_line := (string * option (list cli_word))%type.

Definition cli_exec (c : console) (l : cli_line) : console * option cli_error * list string :=
  match List.find (fun cmd => bool_decide (path cmd = fst l)) commands with
  | Some cmd => function cmd (snd l) c
  | None => (c, None, [])
  end.

(** The state, and per line the error and the output. *)
Fixpoint cli_session (c : console) (ls : list cli_line) : console * list (option cli_error * list string) :=
  match ls with
  | [] => (c, [])
  | l :: ls =>
      let '(c, err, out) := cli_exec c l in
      let '(c, log) := cli_session c ls in
      (c, (err, out) :: log)
  end.

(** ** Specification *)

(** Where the words of a line leave a switch: they act one by one up to the first that
    is not a switch word. *)
Fixpoint last_switch (words : list cli_word) (v : bool) : bool :=
  match words with
  | CliOn :: words => last_switch words true
  | CliOff :: words => last_switch words false
  | _ => v
  end.

Fixpoint switch_error (words : list cli_word) : option cli_error :=
  match words with
  | [] => None
  | CliOn :: words | CliOff :: words => switch_error words
  | _ => Some CliUnknownInput
  end.

Definition is_switch_path (p : string) : bool :=
  bool_decide (p = "sonic-ext punt-via-member"%string) || bool_decide (p = "sonic-ext host-xc"%string).

(** The two switches, punt-via-member and host-xc, after a line. *)
Definition spec_line (v : bool * bool) (l : cli_line) : bool * bool :=
  match l with
  | (p, Some words) =>
      if decide (p = "sonic-ext punt-via-member"%string) then (last_switch words (fst v), snd v)
      else if decide (p = "sonic-ext host-xc"%string) then (fst v, last_switch words (snd v))
      else v
  | (_, None) => v
  end.

Definition switches (c : console) : bool * bool :=
  (punt_via_member (cs_sem (cn_ctl c)), host_xc (cs_sem (cn_ctl c))).

(** ** Lemmas *)

(** A switch command whose setting is a control-plane step that moves its own switch. *)
Lemma switch_loop set (get keep : sonic_ext_main_t -> bool) pairs words sem fs :
  (forall sem fs en, let '(sem', fs') := set sem fs en in
     ctl_step E (mkCtl sem fs pairs) (mkCtl sem' fs' pairs) /\ get sem' = en /\ keep sem' = keep sem) ->
  let '(sem', fs', err) := switch_command_loop set words sem fs in
  rtc (ctl_step E) (mkCtl sem fs pairs) (mkCtl sem' fs' pairs) /\
  get sem' = last_switch words (get sem) /\ keep sem' = keep sem /\ err = switch_error words.
Proof.
  intros Hset. revert sem fs; induction words as [|w words IH]; intros sem fs; [done|].
  assert (Hgo : forall en, let '(sem1, fs1) := set sem fs en in
    let '(sem', fs', err) := switch_command_loop set words sem1 fs1 in
    rtc (ctl_step E) (mkCtl sem fs pairs) (mkCtl sem' fs' pairs) /\
    get sem' = last_switch words en /\ keep sem' = keep sem /\ err = switch_error words).
  { intros en. specialize (Hset sem fs en). destruct (set sem fs en) as [sem1 fs1].
    destruct Hset as (Hstep & Hg & Hk). specialize (IH sem1 fs1).
    destruct (switch_command_loop set words sem1 fs1) as [[sem' fs'] err].
    destruct IH as (Hr & Hg' & Hk' & He). rewrite Hg in Hg'. rewrite Hk in Hk'.
    split_and!; try done. by eapply rtc_l. }
  destruct w; cbn [switch_command_loop last_switch switch_error]; try done.
  - specialize (Hgo true). by destruct (set sem fs true).
  - specialize (Hgo false). by destruct (set sem fs false).
Qed.

Lemma punt_step pairs sem fs en :
  let '(sem', fs') := sonic_ext_set_punt_via_member E pairs sem fs en in
  ctl_step E (mkCtl sem fs pairs) (mkCtl sem' fs' pairs) /\
  punt_via_member sem' = en /\ host_xc sem' = host_xc sem.
Proof.
  pose proof (punt_via_member_flags E pairs sem fs en) as (Hp & Hx & _).
  destruct (sonic_ext_set_punt_via_member E pairs sem fs en) as [sem' fs'] eqn:Hs.
  split_and!; [by eapply step_punt_via_member|done|done].
Qed.

Lemma host_xc_step pairs sem fs en :
  let '(sem', fs') := sonic_ext_set_host_xc E pairs sem fs en in
  ctl_step E (mkCtl sem fs pairs) (mkCtl sem' fs' pairs) /\
  host_xc sem' = en /\ punt_via_member sem' = punt_via_member sem.
Proof.
  pose proof (host_xc_flags E pairs sem fs en) as (Hx & Hp & _).
  destruct (sonic_ext_set_host_xc E pairs sem fs en) as [sem' fs'] eqn:Hs.
  split_and!; [by eapply step_host_xc|done|done].
Qed.

(** One line. *)
Lemma exec_refines c l :
  let '(c', err, out) := cli_exec c l in
  rtc (ctl_step E) (cn_ctl c) (cn_ctl c') /\ switches c' = spec_line (switches c) l /\
  (is_switch_path (fst l) = true -> err = from_option switch_error None (snd l)).
Proof.
  destruct c as [[sem fs pairs] l2], l as [p line]. unfold cli_exec, commands. cbn [List.find path fst snd].
  unfold is_switch_path, spec_line, switches.
  destruct (decide (p = "sonic-ext punt-via-member"%string)) as [->|H1].
  { rewrite bool_decide_eq_true_2 by done. cbn [function sonic_ext_punt_via_member_command switch_fn].
    destruct line as [words|]; [|done].
    unfold sonic_ext_punt_via_member_command_fn, switch_command.
    pose proof (switch_loop _ punt_via_member host_xc pairs words sem fs (punt_step pairs)) as Hl.
    destruct (switch_command_loop _ words sem fs) as [[sem' fs'] err]. cbn.
    destruct Hl as (Hr & Hg & Hk & ->). by rewrite <- Hg, <- Hk. }
  rewrite bool_decide_eq_false_2 by (cbn; congruence).
  destruct (decide (p = "sonic-ext host-xc"%string)) as [->|H2].
  { rewrite bool_decide_eq_true_2 by done. cbn [function sonic_ext_host_xc_command switch_fn].
    destruct line as [words|]; [|done]. unfold sonic_ext_host_xc_command_fn, switch_command.
    pose proof (switch_loop _ host_xc punt_via_member pairs words sem fs (host_xc_step pairs)) as Hl.
    destruct (switch_command_loop _ words sem fs) as [[sem' fs'] err]. cbn.
    destruct Hl as (Hr & Hg & Hk & ->). by rewrite <- Hg, <- Hk. }
  rewrite bool_decide_eq_false_2 by (cbn; congruence).
  rewrite (bool_decide_eq_false_2 _ H1), (bool_decide_eq_false_2 _ H2). cbn [orb].
  destruct (bool_decide _); [cbn; destruct (sonic_ext_ip2me_command_fn l2 line); by destruct line|].
  destruct (bool_decide _); by destruct line.
Qed.

(** ** Properties *)

(** C17.  The console.  Any session of command lines, sensible or not, moves the plugin
    by a sequence of its control-plane steps (so that everything that is proved of those
    holds of the console too) and ends with the two switches where the words of its
    lines put them, one after the other, up to the first bad word of a line; a line for
    a switch reports an error exactly for a bad word, and what it did before that word
    stays done; and [show sonic-ext] then prints the two switches and changes nothing. *)
Theorem cli_session_refines c ls :
  let '(c', log) := cli_session c ls in
  let v := fold_left spec_line ls (switches c) in
  rtc (ctl_step E) (cn_ctl c) (cn_ctl c') /\ switches c' = v /\
  Forall2 (fun l r => is_switch_path (fst l) = true -> fst r = from_option switch_error None (snd l)) ls log /\
  exists out, cli_exec c' ("show sonic-ext"%string, None) = (c', None, out) /\
    out !! 1%nat = Some ("  punt-via-member : " +:+ on_off (fst v))%string /\
    out !! 2%nat = Some ("  host-xc         : " +:+ on_off (snd v))%string.
Proof.
  revert c; induction ls as [|l ls IH]; intros c; cbn [cli_session fold_left].
  { cbv zeta. split_and!; [done|done|done|]. by eexists. }
  pose proof (exec_refines c l) as He. destruct (cli_exec c l) as [[c1 err] out].
  destruct He as (Hr1 & Hs1 & He). specialize (IH c1). rewrite <- Hs1.
  destruct (cli_session c1 ls) as [c' log]. destruct IH as (Hr & Hs & Hlog & Hshow).
  split_and!; [by etrans|done|by constructor|done].
Qed.

End Console.
