(* ===== verification/TuntermRedirect.v ===== *)
(** * Redirect sessions of the tunterm_acl plugin (tunterm_acl_redirect.c)

    A redirect is a pool entry that ties a classifier session (a table and a
    16-byte match) to a FIB path list.  The plugin keeps three structures in
    step: its pool, a hash from match and table index to pool index, and VPP's
    classifier; and it registers each entry as a child of its path list.

    [redirect_wf] is the invariant of the plugin's own structures, [in_step] says
    that the classifier has exactly the sessions of the pool.  VPP's classifier
    and FIB are interfaces ([Classify], [Fib]) with their documented behaviour. *)

From stdpp Require Import sorting.
From S2P Require Import Prelude Vlib.

(** ** VPP's classifier *)

(** A session as the plugin programs it: hit-next index and metadata. *)
Abbreviation session_t := (Z * Z)%type.

(** The classifier is observed through the sessions of its tables and the masks
    of the tables that exist.  A session is found by the bytes a table's one
    vector covers, the first 16 of the match. *)
Class Classify := {
  cstate : Type;
  classify_session : cstate -> Z -> list Z -> option session_t;
  classify_table : cstate -> Z -> option (list Z);
  (** add-table with a mask; the result is the code and the new index *)
  vnet_classify_add_table : cstate -> list Z -> cstate * Z * Z;
  vnet_classify_add_session : cstate -> Z -> list Z -> session_t -> cstate * Z;
  vnet_classify_del_session : cstate -> Z -> list Z -> cstate * Z;
  vnet_classify_delete_table_index : cstate -> Z -> cstate;

  add_table_ok : forall cs mask cs' t, vnet_classify_add_table cs mask = (cs', 0, t) ->
    classify_table cs t = None /\ is_u32 t /\ t <> U32_MAX /\ classify_table cs' t = Some mask /\
    (forall m, classify_session cs' t m = None) /\
    forall t', t' <> t -> classify_table cs' t' = classify_table cs t' /\
      forall m, classify_session cs' t' m = classify_session cs t' m;
  add_table_err : forall cs mask cs' rv t, vnet_classify_add_table cs mask = (cs', rv, t) ->
    rv <> 0 -> forall t', classify_table cs' t' = classify_table cs t' /\
      forall m, classify_session cs' t' m = classify_session cs t' m;
  add_session_ok : forall cs t m s cs', vnet_classify_add_session cs t m s = (cs', 0) ->
    classify_session cs' t (take 16 m) = Some s;
  add_session_err : forall cs t m s cs' rv, vnet_classify_add_session cs t m s = (cs', rv) ->
    rv <> 0 -> classify_session cs' t (take 16 m) = classify_session cs t (take 16 m);
  add_session_frame : forall cs t m s cs' rv, vnet_classify_add_session cs t m s = (cs', rv) ->
    (forall t', classify_table cs' t' = classify_table cs t') /\
    forall t' m', (t', m') <> (t, take 16 m) ->
      classify_session cs' t' m' = classify_session cs t' m';
  (** a deletion succeeds exactly on a session that exists *)
  del_session_rv : forall cs t m cs' rv, vnet_classify_del_session cs t m = (cs', rv) ->
    rv = 0 <-> classify_session cs t (take 16 m) <> None;
  del_session_gone : forall cs t m cs' rv, vnet_classify_del_session cs t m = (cs', rv) ->
    classify_session cs' t (take 16 m) = None;
  del_session_frame : forall cs t m cs' rv, vnet_classify_del_session cs t m = (cs', rv) ->
    (forall t', classify_table cs' t' = classify_table cs t') /\
    forall t' m', (t', m') <> (t, take 16 m) ->
      classify_session cs' t' m' = classify_session cs t' m';
  delete_table_gone : forall cs t, classify_table (vnet_classify_delete_table_index cs t) t = None /\
    forall m, classify_session (vnet_classify_delete_table_index cs t) t m = None;
  delete_table_frame : forall cs t t', t' <> t ->
    classify_table (vnet_classify_delete_table_index cs t) t' = classify_table cs t' /\
    forall m, classify_session (vnet_classify_delete_table_index cs t) t' m =
      classify_session cs t' m
}.

(** ** VPP's FIB and pools *)

Inductive dpo_proto_t := DPO_PROTO_IP4 | DPO_PROTO_IP6 | DPO_PROTO_OTHER.

Inductive fib_forward_chain_type_t :=
  | FIB_FORW_CHAIN_TYPE_UNICAST_IP4 | FIB_FORW_CHAIN_TYPE_UNICAST_IP6
  | FIB_FORW_CHAIN_TYPE_OTHER.

#[export] Instance chain_type_eq_dec : EqDecision fib_forward_chain_type_t.
Proof. solve_decision. Defined.

(** How the FIB forwards at one moment: it changes as routes do. *)
Record fib_env := mkFibEnv {
  fib_path_list_is_popular : Z -> bool;
  fib_path_list_contribute_forwarding : Z -> fib_forward_chain_type_t -> bool -> Z;
  (** the stacked DPO's next node and index *)
  dpo_stack_from_node : Z -> Z -> session_t
}.

Class Fib := {
  fib_route_path_t : Type;
  fib_forw_chain_type_from_dpo_proto : dpo_proto_t -> fib_forward_chain_type_t;
  chain_ip4 : fib_forw_chain_type_from_dpo_proto DPO_PROTO_IP4 = FIB_FORW_CHAIN_TYPE_UNICAST_IP4;
  chain_ip6 : fib_forw_chain_type_from_dpo_proto DPO_PROTO_IP6 = FIB_FORW_CHAIN_TYPE_UNICAST_IP6;
  fib_path_list_create : list fib_route_path_t -> Z;
  (** the sibling index of a new child, given the children there are *)
  fib_path_list_child_add : gset (Z * Z) -> Z -> Z;
  child_add_fresh : forall ch pl, (pl, fib_path_list_child_add ch pl) ∉ ch;
  (** the index of the node tunterm-acl *)
  tunterm_acl_node_index : Z;
  (** [pool_get]: the index of a free element *)
  pool_get : gset Z -> Z;
  pool_get_fresh : forall used, pool_get used ∉ used
}.

(** ** Data *)

Record tunterm_acl_redirect_t := mkIpr {
  match_and_table_index : list Z;
  dpo : session_t;
  pl : Z;
  sibling : Z;
  parent_node_index : Z;
  opaque_index : Z;
  table_index : Z;
  payload_type : fib_forward_chain_type_t;
  is_ip6 : bool
}.

Definition null_ipr : tunterm_acl_redirect_t :=
  mkIpr [] (0, 0) 0 0 0 0 0 FIB_FORW_CHAIN_TYPE_OTHER false.

Section Redirect.
Context `{Vlib} `{Classify} `{Fib}.

(** [tunterm_acl_redirect_main_t], with VPP's classifier and the children
    registered with path lists. *)
Record rstate := mkRstate {
  pool : gmap Z tunterm_acl_redirect_t;
  session_by_match_and_table_index : gmap (list Z) Z;
  classify_main : cstate;
  children : gset (Z * Z)
}.

Definition set_pool (p : gmap Z tunterm_acl_redirect_t) (st : rstate) : rstate :=
  mkRstate p (session_by_match_and_table_index st) (classify_main st) (children st).
Definition set_classify (cs : cstate) (st : rstate) : rstate :=
  mkRstate (pool st) (session_by_match_and_table_index st) cs (children st).

(** [pool_elt_at_index] *)
Definition elt (st : rstate) (i : Z) : tunterm_acl_redirect_t := default null_ipr (pool st !! i).

Variable VNET_API_ERROR_INVALID_ADDRESS_FAMILY : Z.
Variable VNET_API_ERROR_NO_SUCH_ENTRY : Z.

(** ** Operations *)

Definition stacked_dpo (F : fib_env) (ipr : tunterm_acl_redirect_t) : session_t :=
  dpo_stack_from_node F (parent_node_index ipr)
    (fib_path_list_contribute_forwarding F (pl ipr) (payload_type ipr)
       (negb (fib_path_list_is_popular F (pl ipr)))).

(** What a new entry with these paths forwards to. *)
Definition path_dpo (F : fib_env) (ptype : fib_forward_chain_type_t)
    (rpaths : list fib_route_path_t) : session_t :=
  let new_pl := fib_path_list_create rpaths in
  dpo_stack_from_node F tunterm_acl_node_index
    (fib_path_list_contribute_forwarding F new_pl ptype (negb (fib_path_list_is_popular F new_pl))).

(** On the entry at pool index [i]. *)
Definition tunterm_acl_redirect_stack (F : fib_env) (st : rstate) (i : Z) : rstate * Z :=
  let ipr := elt st i in
  let d := stacked_dpo F ipr in
  let ipr := mkIpr (match_and_table_index ipr) d (pl ipr) (sibling ipr) (parent_node_index ipr)
    (opaque_index ipr) (table_index ipr) (payload_type ipr) (is_ip6 ipr) in
  let st := set_pool (<[i := ipr]> (pool st)) st in
  let '(cs, rv) := vnet_classify_add_session (classify_main st) (table_index ipr)
    (match_and_table_index ipr) (dpo ipr) in
  (set_classify cs st, rv).

(** [vec_add] of the four bytes of the table index *)
Definition match_key (m : list Z) (t : Z) : list Z := m ++ store host 4 t.

(** The pool index of the entry, when there is one. *)
Definition tunterm_acl_redirect_find (st : rstate) (t : Z) (m : list Z) : option Z :=
  session_by_match_and_table_index st !! match_key m t.

(** The entry to fill in: the one of the key, detached from its path list, or a
    new one (whose other fields are set right after).  The old DPO, reset here, is
    not read again before [tunterm_acl_redirect_stack] replaces it. *)
Definition redirect_locate (st : rstate) (t : Z) (m : list Z) : rstate * Z :=
  match tunterm_acl_redirect_find st t m with
  | Some i =>
      (mkRstate (pool st) (session_by_match_and_table_index st) (classify_main st)
         (children st ∖ {[(pl (elt st i), sibling (elt st i))]}), i)
  | None =>
      let i := pool_get (dom (pool st)) in
      (mkRstate
         (<[i := mkIpr (match_key m t) (0, 0) 0 0 0 0 t FIB_FORW_CHAIN_TYPE_OTHER false]> (pool st))
         (<[match_key m t := i]> (session_by_match_and_table_index st))
         (classify_main st) (children st), i)
  end.

(** The assignments to the located entry. *)
Definition redirect_fill (st : rstate) (i opaque : Z) (ptype : fib_forward_chain_type_t)
    (rpaths : list fib_route_path_t) : rstate :=
  let ipr := elt st i in
  let new_pl := fib_path_list_create rpaths in
  let new_sibling := fib_path_list_child_add (children st) new_pl in
  mkRstate
    (<[i := mkIpr (match_and_table_index ipr) (dpo ipr) new_pl new_sibling
         tunterm_acl_node_index opaque (table_index ipr) ptype
         (bool_decide (ptype = FIB_FORW_CHAIN_TYPE_UNICAST_IP6))]> (pool st))
    (session_by_match_and_table_index st) (classify_main st)
    ({[(new_pl, new_sibling)]} ∪ children st).

Definition tunterm_acl_redirect_add (F : fib_env) (st : rstate) (t opaque : Z)
    (proto : dpo_proto_t) (m : list Z) (rpaths : list fib_route_path_t) : rstate * Z :=
  let ptype := fib_forw_chain_type_from_dpo_proto proto in
  match ptype with
  | FIB_FORW_CHAIN_TYPE_OTHER => (st, VNET_API_ERROR_INVALID_ADDRESS_FAMILY)
  | FIB_FORW_CHAIN_TYPE_UNICAST_IP4 | FIB_FORW_CHAIN_TYPE_UNICAST_IP6 =>
      let '(st, i) := redirect_locate st t m in
      tunterm_acl_redirect_stack F (redirect_fill st i opaque ptype rpaths) i
  end.

Definition tunterm_acl_redirect_del_ipr (st : rstate) (i : Z) : rstate * Z :=
  let ipr := elt st i in
  let '(cs, rv) := vnet_classify_del_session (classify_main st) (table_index ipr)
    (match_and_table_index ipr) in
  if c_true rv then (set_classify cs st, rv)
  else
    (mkRstate (delete i (pool st))
       (delete (match_and_table_index ipr) (session_by_match_and_table_index st)) cs
       (children st ∖ {[(pl ipr, sibling ipr)]}), 0).

Definition tunterm_acl_redirect_del (st : rstate) (t : Z) (m : list Z) : rstate * Z :=
  match tunterm_acl_redirect_find st t m with
  | None => (st, VNET_API_ERROR_NO_SUCH_ENTRY)
  | Some i => tunterm_acl_redirect_del_ipr st i
  end.

(** [pool_foreach] visits the elements in index order. *)
Definition pool_indices (p : gmap Z tunterm_acl_redirect_t) : list Z :=
  merge_sort Z.le (elements (dom p)).

Fixpoint clear_loop (st : rstate) (to_be_deleted : list Z) : rstate * Z :=
  match to_be_deleted with
  | [] => (st, 0)
  | i :: rest =>
      let '(st, rv) := tunterm_acl_redirect_del_ipr st i in
      if c_true rv then (st, rv) else clear_loop st rest
  end.

Definition tunterm_acl_redirect_clear (st : rstate) (t : Z) : rstate * Z :=
  clear_loop st (filter (fun i => table_index (elt st i) = t) (pool_indices (pool st))).

(** A FIB back walk reached the entry. *)
Definition tunterm_acl_redirect_back_walk_notify (F : fib_env) (st : rstate) (i : Z) : rstate :=
  fst (tunterm_acl_redirect_stack F st i).

(** A new hash; the pool is empty until the first entry. *)
Definition tunterm_acl_redirect_init (st : rstate) : rstate :=
  mkRstate (pool st) ∅ (classify_main st) (children st).

(** ** Invariants *)

Definition child_of (ipr : tunterm_acl_redirect_t) : Z * Z := (pl ipr, sibling ipr).

(** The hash and the pool describe the same entries, keyed by match and table
    index, and the path lists' children are exactly the entries'. *)
Definition redirect_wf (st : rstate) : Prop :=
  (forall k i, session_by_match_and_table_index st !! k = Some i <->
     exists ipr, pool st !! i = Some ipr /\ match_and_table_index ipr = k) /\
  (forall i ipr, pool st !! i = Some ipr ->
     is_u32 (table_index ipr) /\
     exists m, length m = 16%nat /\ match_and_table_index ipr = match_key m (table_index ipr)) /\
  (forall i j ipr jpr, pool st !! i = Some ipr -> pool st !! j = Some jpr ->
     child_of ipr = child_of jpr -> i = j) /\
  (forall c, c ∈ children st <-> exists i ipr, pool st !! i = Some ipr /\ child_of ipr = c).

(** What an entry forwards to, and what it has to forward to for a list of paths. *)
Definition ipr_view (ipr : tunterm_acl_redirect_t) : Z * Z * fib_forward_chain_type_t * session_t :=
  (pl ipr, parent_node_index ipr, payload_type ipr, dpo ipr).
Definition path_view (F : fib_env) (ptype : fib_forward_chain_type_t)
    (rpaths : list fib_route_path_t) : Z * Z * fib_forward_chain_type_t * session_t :=
  (fib_path_list_create rpaths, tunterm_acl_node_index, ptype, path_dpo F ptype rpaths).

(** The entry for a table and a match. *)
Definition entry (st : rstate) (t : Z) (m : list Z) : option tunterm_acl_redirect_t :=
  tunterm_acl_redirect_find st t m ≫= fun i => pool st !! i.

(** In the tables [own] the classifier has exactly the entries' sessions. *)
Definition in_step (own : gset Z) (st : rstate) : Prop :=
  (forall t, t ∈ own -> is_u32 t) /\
  forall t m, t ∈ own -> length m = 16%nat ->
    classify_session (classify_main st) t m = dpo <$> entry st t m.

(** The index and the remaining children when the entry of a key is inserted or
    replaced. *)
Definition upsert_slot (st : rstate) (m : list Z) (t i : Z) (ch : gset (Z * Z)) : Prop :=
  match tunterm_acl_redirect_find st t m with
  | Some j => i = j /\ ch = children st ∖ {[child_of (elt st i)]}
  | None => pool st !! i = None /\ ch = children st
  end.

End Redirect.

(** ** Reference implementations *)

Section ClassifyRef.
(** The sessions the classifier has no memory for. *)
Variable refuse : Z -> list Z -> bool.

Record cref := mkCref {
  cr_tables : gmap Z (list Z);
  cr_sessions : gmap (Z * list Z) session_t
}.

Definition cref_session (cs : cref) (t : Z) (m : list Z) : option session_t :=
  cr_sessions cs !! (t, m).

Definition cref_drop (t : Z) (s : gmap (Z * list Z) session_t) : gmap (Z * list Z) session_t :=
  filter (fun p : (Z * list Z) * session_t => fst (fst p) <> t) s.

Definition cref_add_table (cs : cref) (mask : list Z) : cref * Z * Z :=
  let t := Z.of_nat (size (cr_tables cs)) in
  if decide (cr_tables cs !! t = None /\ t < 1000)
  then (mkCref (<[t := mask]> (cr_tables cs)) (cref_drop t (cr_sessions cs)), 0, t)
  else (cs, -1, t).

Definition cref_add_session (cs : cref) (t : Z) (m : list Z) (s : session_t) : cref * Z :=
  if decide (is_Some (cr_tables cs !! t) /\ refuse t (take 16 m) = false)
  then (mkCref (cr_tables cs) (<[(t, take 16 m) := s]> (cr_sessions cs)), 0)
  else (cs, -1).

Definition cref_del_session (cs : cref) (t : Z) (m : list Z) : cref * Z :=
  match cr_sessions cs !! (t, take 16 m) with
  | Some _ => (mkCref (cr_tables cs) (delete (t, take 16 m) (cr_sessions cs)), 0)
  | None => (cs, -1)
  end.

Definition cref_delete_table (cs : cref) (t : Z) : cref :=
  mkCref (delete t (cr_tables cs)) (cref_drop t (cr_sessions cs)).

Lemma cref_drop_lookup t s t' m :
  cref_drop t s !! (t', m) = if decide (t' = t) then None else s !! (t', m).
Proof.
  unfold cref_drop. rewrite map_lookup_filter.
  destruct (s !! (t', m)) eqn:Hs; cbn; [|by case_decide].
  case_decide as Ht; [by rewrite option_guard_False by (by intros ?)|].
  by rewrite option_guard_True.
Qed.

#[refine] Definition classify_ref : Classify := {|
  cstate := cref;
  classify_session := cref_session;
  classify_table := fun cs t => cr_tables cs !! t;
  vnet_classify_add_table := cref_add_table;
  vnet_classify_add_session := cref_add_session;
  vnet_classify_del_session := cref_del_session;
  vnet_classify_delete_table_index := cref_delete_table
|}.
Proof.
  - intros cs mask cs' t. unfold cref_add_table, cref_session. case_decide as Hd; [|done].
    intros [= <- <-]. destruct Hd as [Hn Ht]. cbn. rewrite lookup_insert_eq.
    split_and!; try done; try (unfold U32_MAX; widths; lia).
    + intros m. by rewrite cref_drop_lookup, decide_True.
    + intros t' Hne. rewrite lookup_insert_ne by done. split; [done|]. intros m.
      by rewrite cref_drop_lookup, decide_False.
  - intros cs mask cs' rv t. unfold cref_add_table. case_decide; intros [= <- <- <-]; done.
  - intros cs t m s cs'. unfold cref_add_session, cref_session. case_decide; [|done].
    intros [= <-]. apply lookup_insert_eq.
  - intros cs t m s cs' rv. unfold cref_add_session. case_decide; by intros [= <- <-].
  - intros cs t m s cs' rv. unfold cref_add_session, cref_session.
    case_decide; intros [= <- <-]; [|done]. split; [done|]. intros t' m' Hne. cbn.
    by rewrite lookup_insert_ne by congruence.
  - intros cs t m cs' rv. unfold cref_del_session, cref_session.
    destruct (cr_sessions cs !! _); intros [= <- <-]; done.
  - intros cs t m cs' rv. unfold cref_del_session, cref_session.
    destruct (cr_sessions cs !! _) eqn:Hs; intros [= <- <-]; cbn; [apply lookup_delete_eq|done].
  - intros cs t m cs' rv. unfold cref_del_session, cref_session.
    destruct (cr_sessions cs !! _) eqn:Hs; intros [= <- <-]; cbn; [|done].
    split; [done|]. intros t' m' Hne. by rewrite lookup_delete_ne by congruence.
  - intros cs t. unfold cref_session. cbn. rewrite lookup_delete_eq. split; [done|]. intros m.
    by rewrite cref_drop_lookup, decide_True.
  - intros cs t t' Hne. unfold cref_session. cbn. rewrite lookup_delete_ne by done. split; [done|].
    intros m. by rewrite cref_drop_lookup, decide_False.
Defined.

End ClassifyRef.

(** Path lists are named by their first path, children are numbered by how many
    there are, pools hand out the next free number. *)
Definition next_free (used : gset Z) : Z := 1 + foldr Z.max 0 (elements used).

Lemma next_free_fresh used : next_free used ∉ used.
Proof.
  intros Hin. apply elem_of_elements in Hin.
  assert (Hle : forall l x, x ∈ l -> x <= foldr Z.max 0 l).
  { induction l as [|y l IH]; intros x Hx; [by apply not_elem_of_nil in Hx|].
    apply elem_of_cons in Hx as [->|Hx]; cbn; [lia|]. specialize (IH x Hx). lia. }
  apply Hle in Hin. unfold next_free in Hin. lia.
Qed.

Definition fib_ref : Fib := {|
  fib_route_path_t := Z;
  fib_forw_chain_type_from_dpo_proto := fun p =>
    match p with
    | DPO_PROTO_IP4 => FIB_FORW_CHAIN_TYPE_UNICAST_IP4
    | DPO_PROTO_IP6 => FIB_FORW_CHAIN_TYPE_UNICAST_IP6
    | DPO_PROTO_OTHER => FIB_FORW_CHAIN_TYPE_OTHER
    end;
  chain_ip4 := eq_refl;
  chain_ip6 := eq_refl;
  fib_path_list_create := fun ps => default 0 (head ps);
  fib_path_list_child_add := fun ch _ => next_free (set_map snd ch);
  child_add_fresh := fun ch pl Hin =>
    next_free_fresh (set_map snd ch) (elem_of_map_2 snd ch (pl, _) Hin);
  tunterm_acl_node_index := 90;
  pool_get := next_free;
  pool_get_fresh := next_free_fresh
|}.

(** The path list's number is the DPO index; the next node is 7. *)
Definition fib_env_example : fib_env := mkFibEnv (fun _ => false) (fun pl _ _ => pl) (fun _ d => (7, d)).

(** Table 0 exists and is the plugin's; there is no redirect yet. *)
Definition cref0 : cref := mkCref {[0 := replicate 16 255]} ∅.
Definition rstate0 (refuse : Z -> list Z -> bool) : @rstate (classify_ref refuse) :=
  @mkRstate (classify_ref refuse) ∅ ∅ cref0 ∅.
Definition ex_match : list Z := [10; 0; 0; 1] ++ replicate 12 0.

Abbreviation accept := (fun (_ : Z) (_ : list Z) => false).
Abbreviation deny := (fun (_ : Z) (_ : list Z) => true).

Definition ex_added : @rstate (classify_ref accept) :=
  fst (@tunterm_acl_redirect_add vlib_ref (classify_ref accept) fib_ref (-9) fib_env_example
    (rstate0 accept) 0 0 DPO_PROTO_IP4 ex_match [55]).

(** ** Lemmas *)

Section Facts.
Context `{Vlib} `{Classify} `{Fib}.
Implicit Types (st : rstate) (own : gset Z).

Lemma store_inj e v1 v2 : is_u32 v1 -> is_u32 v2 -> store e 4 v1 = store e 4 v2 -> v1 = v2.
Proof.
  intros H1' H2' Heq.
  assert (Hle : le_encode 4 v1 = le_encode 4 v2)
    by (unfold store in Heq; destruct e; [done|by apply (inj reverse) in Heq]).
  rewrite <- (le_decode_encode 4 v1), <- (le_decode_encode 4 v2) by (cbn; widths; lia).
  by rewrite Hle.
Qed.

Lemma match_key_inj m1 t1 m2 t2 :
  length m1 = 16%nat -> length m2 = 16%nat -> is_u32 t1 -> is_u32 t2 ->
  match_key m1 t1 = match_key m2 t2 -> m1 = m2 /\ t1 = t2.
Proof.
  unfold match_key. intros Hm1 Hm2 Ht1 Ht2 Heq. apply app_inj_1 in Heq as [-> Hs]; [|congruence].
  split; [done|]. by eapply store_inj.
Qed.

Lemma take_match_key m t : length m = 16%nat -> take 16 (match_key m t) = m.
Proof. intros Hm. unfold match_key. rewrite take_app_le, take_ge by lia. done. Qed.

Lemma proto_chain proto :
  proto <> DPO_PROTO_OTHER -> fib_forw_chain_type_from_dpo_proto proto <> FIB_FORW_CHAIN_TYPE_OTHER.
Proof. by destruct proto; rewrite ?chain_ip4, ?chain_ip6. Qed.

Lemma elt_lookup st i ipr : pool st !! i = Some ipr -> elt st i = ipr.
Proof. unfold elt. by intros ->. Qed.

(** An entry found is the pool's, with its key and its table. *)
Lemma find_entry st t m i :
  redirect_wf st -> length m = 16%nat -> is_u32 t -> tunterm_acl_redirect_find st t m = Some i ->
  exists ipr, pool st !! i = Some ipr /\ match_and_table_index ipr = match_key m t /\
    table_index ipr = t.
Proof.
  intros (Hh & Hk & _) Hm Ht Hf. apply Hh in Hf as (ipr & Hi & Hkey). exists ipr.
  destruct (Hk i ipr Hi) as (Htu & m' & Hm' & Hkey'). split_and!; [done|done|].
  rewrite Hkey in Hkey'. by apply match_key_inj in Hkey' as [_ ->].
Qed.

(** The pool entry at [i], seen through the hash. *)
Lemma entry_of_pool st i ipr :
  redirect_wf st -> pool st !! i = Some ipr ->
  exists m, length m = 16%nat /\ match_and_table_index ipr = match_key m (table_index ipr) /\
    is_u32 (table_index ipr) /\ tunterm_acl_redirect_find st (table_index ipr) m = Some i /\
    entry st (table_index ipr) m = Some ipr.
Proof.
  intros (Hh & Hk & _) Hi. destruct (Hk i ipr Hi) as (Htu & m & Hm & Hkey). exists m.
  assert (Hf : tunterm_acl_redirect_find st (table_index ipr) m = Some i)
    by (apply Hh; by exists ipr).
  split_and!; try done. unfold entry. rewrite Hf. exact Hi.
Qed.

Lemma entry_iff st t m ipr :
  redirect_wf st ->
  entry st t m = Some ipr <->
  exists i, pool st !! i = Some ipr /\ match_and_table_index ipr = match_key m t.
Proof.
  intros (Hh & _). unfold entry, tunterm_acl_redirect_find. split.
  - intros (i & Hf & Hi)%bind_Some. exists i. split; [done|].
    apply Hh in Hf as (ipr' & Hi' & Hk). congruence.
  - intros (i & Hi & Hk). apply bind_Some. exists i. split; [|done]. apply Hh. eauto.
Qed.

(** Without redirects the structures are consistent. *)
Lemma empty_wf cs : redirect_wf (mkRstate ∅ ∅ cs ∅).
Proof.
  split_and!; cbn.
  - intros k i. rewrite lookup_empty. split; [done|]. by intros (ipr & ?%lookup_empty_Some & _).
  - by intros i ipr ?%lookup_empty_Some.
  - by intros i j ipr jpr ?%lookup_empty_Some.
  - intros c. split; [set_solver|]. by intros (i & ipr & ?%lookup_empty_Some & _).
Qed.

(** *** Deleting *)

Lemma delete_wf st i ipr cs :
  redirect_wf st -> pool st !! i = Some ipr ->
  redirect_wf (mkRstate (delete i (pool st))
    (delete (match_and_table_index ipr) (session_by_match_and_table_index st)) cs
    (children st ∖ {[child_of ipr]})).
Proof.
  intros (Hh & Hk & Hinj & Hch) Hi. split_and!; cbn.
  - intros k j. split.
    + intros [Hne Hj]%lookup_delete_Some. apply Hh in Hj as (jpr & Hj & Hkey).
      exists jpr. split; [|done]. apply lookup_delete_Some. split; [congruence|done].
    + intros (jpr & [Hne Hj]%lookup_delete_Some & Hkey). apply lookup_delete_Some. split.
      * intros Heq. apply Hne.
        assert (Hki : session_by_match_and_table_index st !! k = Some i)
          by (apply Hh; exists ipr; by rewrite Heq).
        assert (Hkj : session_by_match_and_table_index st !! k = Some j) by (apply Hh; eauto).
        congruence.
      * apply Hh. eauto.
  - intros j jpr [_ Hj]%lookup_delete_Some. eauto.
  - intros j k jpr kpr [_ Hj]%lookup_delete_Some [_ Hk']%lookup_delete_Some. eauto.
  - intros c. rewrite elem_of_difference, elem_of_singleton, Hch. split.
    + intros [(j & jpr & Hj & <-) Hne]. exists j, jpr. split; [|done].
      apply lookup_delete_Some. split; [congruence|done].
    + intros (j & jpr & [Hne Hj]%lookup_delete_Some & <-). split; [eauto|].
      intros Heq. apply Hne. by eapply Hinj.
Qed.

(** An entry whose session the classifier has is deleted, and with it exactly its
    session. *)
Lemma del_ipr_ok own st i ipr :
  redirect_wf st -> in_step own st -> pool st !! i = Some ipr -> table_index ipr ∈ own ->
  let '(st', rv) := tunterm_acl_redirect_del_ipr st i in
  rv = 0 /\ redirect_wf st' /\ in_step own st' /\ pool st' = delete i (pool st) /\
  (forall t m, t <> table_index ipr -> classify_session (classify_main st') t m =
     classify_session (classify_main st) t m) /\
  (forall t, classify_table (classify_main st') t = classify_table (classify_main st) t).
Proof.
  intros Hwf [Hou Hin] Hi Hown. destruct (entry_of_pool st i ipr Hwf Hi) as (m & Hm & Hkey & Hu & Hf & He).
  unfold tunterm_acl_redirect_del_ipr. rewrite (elt_lookup _ _ _ Hi).
  destruct (vnet_classify_del_session _ _ _) as [cs rv] eqn:Hdel.
  pose proof (del_session_rv _ _ _ _ _ Hdel) as Hrv.
  pose proof (del_session_gone _ _ _ _ _ Hdel) as Hgone.
  destruct (del_session_frame _ _ _ _ _ Hdel) as [Hft Hfs].
  rewrite Hkey, (take_match_key _ _ Hm) in Hrv, Hgone, Hfs.
  rewrite (Hin _ m Hown Hm), He in Hrv.
  assert (rv = 0) as -> by (by apply Hrv). cbn [c_true Z.eqb negb].
  split_and!; [done|by apply delete_wf| |done| |done].
  - split; [done|]. intros t' m' Ht' Hm'. unfold entry, tunterm_acl_redirect_find. cbn.
    destruct (decide ((t', m') = (table_index ipr, m))) as [[= -> ->]|Hne].
    + by rewrite Hgone, Hkey, lookup_delete_eq.
    + rewrite Hfs, (Hin t' m') by done. f_equal. rewrite Hkey.
      unfold entry, tunterm_acl_redirect_find in *.
      assert (Hk : match_key m (table_index ipr) <> match_key m' t')
        by (intros Hk; apply match_key_inj in Hk as [Hm1 Ht1]; auto; apply Hne; by rewrite Hm1, Ht1).
      rewrite lookup_delete_ne by done.
      destruct (session_by_match_and_table_index st !! match_key m' t') as [j|] eqn:Hj; [|done].
      cbn. rewrite lookup_delete_ne; [done|]. intros ->.
      destruct Hwf as (Hh & _). apply Hh in Hj as (jpr & Hj & Hkj). congruence.
  - intros t m' Hne. apply Hfs. congruence.
Qed.

(** *** Clearing a table *)

Lemma elem_of_pool_indices p i : i ∈ pool_indices p <-> is_Some (p !! i).
Proof.
  unfold pool_indices. rewrite merge_sort_Permutation, elem_of_elements, elem_of_dom. done.
Qed.

Lemma NoDup_pool_indices p : NoDup (pool_indices p).
Proof. unfold pool_indices. rewrite merge_sort_Permutation. apply NoDup_elements. Qed.

Lemma clear_loop_ok own t l st :
  redirect_wf st -> in_step own st -> t ∈ own -> NoDup l ->
  (forall i, i ∈ l -> exists ipr, pool st !! i = Some ipr /\ table_index ipr = t) ->
  let '(st', rv) := clear_loop st l in
  rv = 0 /\ redirect_wf st' /\ in_step own st' /\
  (forall i, pool st' !! i = if decide (i ∈ l) then None else pool st !! i) /\
  (forall t' m, t' <> t -> classify_session (classify_main st') t' m =
     classify_session (classify_main st) t' m) /\
  (forall t', classify_table (classify_main st') t' = classify_table (classify_main st) t').
Proof.
  revert st; induction l as [|i l IH]; intros st Hwf Hin Hown Hnd Hl; cbn [clear_loop].
  { by split_and!. }
  apply NoDup_cons in Hnd as [Hi Hnd].
  destruct (Hl i) as (ipr & Hipr & Ht); [apply elem_of_cons; by left|]. subst t.
  pose proof (del_ipr_ok own st i ipr Hwf Hin Hipr Hown) as Hd.
  destruct (tunterm_acl_redirect_del_ipr st i) as [st1 rv1].
  destruct Hd as (-> & Hwf1 & Hin1 & Hp1 & Hs1 & Ht1). cbn [c_true Z.eqb negb].
  specialize (IH st1 Hwf1 Hin1 Hown Hnd).
  destruct (clear_loop st1 l) as [st' rv]. destruct IH as (-> & Hwf' & Hin' & Hp' & Hs' & Ht').
  { intros j Hj. rewrite Hp1, lookup_delete_ne by (intros ->; done). apply Hl, elem_of_cons. by right. }
  split_and!; try done.
  - intros j. rewrite Hp', Hp1. destruct (decide (j ∈ l)) as [Hj|Hj].
    + by rewrite decide_True by (apply elem_of_cons; by right).
    + destruct (decide (j = i)) as [->|Hne].
      * by rewrite lookup_delete_eq, decide_True by (apply elem_of_cons; by left).
      * rewrite lookup_delete_ne, decide_False; [done| |done]. by intros [?|?]%elem_of_cons.
  - intros t' m Hne. by rewrite Hs', Hs1.
  - intros t'. by rewrite Ht', Ht1.
Qed.

Lemma clear_ok own st t :
  redirect_wf st -> in_step own st -> t ∈ own ->
  let '(st', rv) := tunterm_acl_redirect_clear st t in
  rv = 0 /\ redirect_wf st' /\ in_step own st' /\
  (forall i, pool st' !! i = if decide (table_index (elt st i) = t) then None else pool st !! i) /\
  (forall t' m, t' <> t -> classify_session (classify_main st') t' m =
     classify_session (classify_main st) t' m) /\
  (forall t', classify_table (classify_main st') t' = classify_table (classify_main st) t').
Proof.
  intros Hwf Hin Hown. unfold tunterm_acl_redirect_clear.
  pose proof (clear_loop_ok own t (filter (fun i => table_index (elt st i) = t)
    (pool_indices (pool st))) st Hwf Hin Hown) as Hc.
  destruct (clear_loop _ _) as [st' rv]. destruct Hc as (-> & Hwf' & Hin' & Hp & Hs & Ht).
  - apply NoDup_filter, NoDup_pool_indices.
  - intros i [Hti [ipr Hi]%elem_of_pool_indices]%list_elem_of_filter. exists ipr.
    by rewrite (elt_lookup _ _ _ Hi) in Hti.
  - split_and!; try done. intros i. rewrite Hp.
    destruct (decide (table_index (elt st i) = t)) as [Hti|Hti].
    + destruct (pool st !! i) as [ipr|] eqn:Hi; [|by destruct (decide _)].
      rewrite decide_True; [done|]. apply list_elem_of_filter. split; [done|].
      apply elem_of_pool_indices. eauto.
    + rewrite decide_False; [done|]. by intros [? _]%list_elem_of_filter.
Qed.

(** A cleared table has no session left. *)
Lemma clear_empty own st t m :
  redirect_wf st -> in_step own st -> t ∈ own -> length m = 16%nat ->
  let st' := fst (tunterm_acl_redirect_clear st t) in
  entry st' t m = None /\ classify_session (classify_main st') t m = None.
Proof.
  intros Hwf Hin Hown Hm. pose proof (clear_ok own st t Hwf Hin Hown) as Hc.
  destruct (tunterm_acl_redirect_clear st t) as [st' rv].
  destruct Hc as (_ & Hwf' & [Hu Hin'] & Hp & _). cbn.
  assert (He : entry st' t m = None); [|by rewrite Hin', He].
  unfold entry. destruct (tunterm_acl_redirect_find st' t m) as [i|] eqn:Hf; [|done].
  apply find_entry in Hf as (ipr & Hi & _ & Ht); auto. rewrite Hp in Hi.
  case_decide as Hd; [done|]. rewrite (elt_lookup _ _ _ Hi) in Hd. done.
Qed.

(** The entries of the other tables stay. *)
Lemma clear_entry own st t t' m :
  redirect_wf st -> in_step own st -> t ∈ own -> t' <> t -> is_u32 t' -> length m = 16%nat ->
  entry (fst (tunterm_acl_redirect_clear st t)) t' m = entry st t' m.
Proof.
  intros Hwf Hin Hown Hne Hu Hm. pose proof (clear_ok own st t Hwf Hin Hown) as Hc.
  destruct (tunterm_acl_redirect_clear st t) as [st' rv]. destruct Hc as (_ & Hwf' & _ & Hp & _).
  cbn [fst]. apply option_eq. intros ipr. rewrite !entry_iff by done.
  split; intros (i & Hi & Hk); exists i; (split; [|done]).
  - rewrite Hp in Hi. by destruct (decide _).
  - rewrite Hp, (elt_lookup _ _ _ Hi). destruct (decide (table_index ipr = t)) as [Ht|]; [|done].
    destruct (entry_of_pool st i ipr Hwf Hi) as (m' & Hm' & Hk' & Hu' & _).
    rewrite Hk in Hk'. apply match_key_inj in Hk' as [_ Ht']; try done. congruence.
Qed.

(** *** Adding *)

(** The other entries have other keys and keep their children; the children that
    remain are theirs. *)
Lemma upsert_other st m t i ch j jpr :
  redirect_wf st -> length m = 16%nat -> is_u32 t -> upsert_slot st m t i ch ->
  j <> i -> pool st !! j = Some jpr ->
  match_and_table_index jpr <> match_key m t /\ child_of jpr ∈ ch.
Proof.
  intros Hwf Hm Ht Hslot Hne Hj. pose proof Hwf as (Hh & Hk & Hinj & Hch). unfold upsert_slot in Hslot.
  assert (Hfj : match_and_table_index jpr = match_key m t ->
    tunterm_acl_redirect_find st t m = Some j) by (intros Hkj; apply Hh; eauto).
  destruct (tunterm_acl_redirect_find st t m) as [i'|] eqn:Hf.
  - destruct Hslot as [<- ->]. destruct (find_entry st t m i) as (old & Hi & Hko & _); try done.
    split; [intros Hkj; specialize (Hfj Hkj); congruence|].
    rewrite (elt_lookup _ _ _ Hi), elem_of_difference, elem_of_singleton. split.
    + apply Hch. eauto.
    + intros Heq. apply Hne. by eapply Hinj.
  - destruct Hslot as [Hnone ->]. split; [|apply Hch; eauto]. intros Hkj.
    specialize (Hfj Hkj). congruence.
Qed.

Lemma upsert_children st m t i ch c :
  redirect_wf st -> upsert_slot st m t i ch -> c ∈ ch ->
  exists j jpr, j <> i /\ pool st !! j = Some jpr /\ child_of jpr = c.
Proof.
  intros (_ & _ & _ & Hch) Hslot Hc. unfold upsert_slot in Hslot.
  destruct (tunterm_acl_redirect_find st t m) as [i'|]; destruct Hslot as [Hi ->].
  - apply elem_of_difference in Hc as [Hc Hne]. apply Hch in Hc as (j & jpr & Hj & <-).
    exists j, jpr. split_and!; try done. intros ->. rewrite (elt_lookup _ _ _ Hj) in Hne. set_solver.
  - apply Hch in Hc as (j & jpr & Hj & <-). exists j, jpr. split_and!; try done. congruence.
Qed.

Lemma upsert_wf st m t i ipr ch cs :
  redirect_wf st -> length m = 16%nat -> is_u32 t ->
  match_and_table_index ipr = match_key m t -> table_index ipr = t -> child_of ipr ∉ ch ->
  upsert_slot st m t i ch ->
  redirect_wf (mkRstate (<[i := ipr]> (pool st))
    (<[match_key m t := i]> (session_by_match_and_table_index st)) cs ({[child_of ipr]} ∪ ch)).
Proof.
  intros Hwf Hm Ht Hkey Htab Hfresh Hslot. pose proof Hwf as (Hh & Hk & Hinj & Hch).
  pose proof (fun j jpr => upsert_other st m t i ch j jpr Hwf Hm Ht Hslot) as Hother.
  split_and!; cbn.
  - intros k j. destruct (decide (k = match_key m t)) as [->|Hne].
    + rewrite lookup_insert_eq. split.
      * intros [= <-]. exists ipr. by rewrite lookup_insert_eq.
      * intros (jpr & Hj & Hkj). destruct (decide (j = i)) as [->|Hji]; [done|].
        rewrite lookup_insert_ne in Hj by done. by destruct (Hother j jpr Hji Hj).
    + rewrite lookup_insert_ne, Hh by done. split; intros (jpr & Hj & Hkj); exists jpr.
      * destruct (decide (j = i)) as [->|Hji]; [|by rewrite lookup_insert_ne].
        exfalso. unfold upsert_slot in Hslot.
        destruct (tunterm_acl_redirect_find st t m) as [i'|] eqn:Hf; destruct Hslot as [Hi _];
          [subst i'|congruence].
        destruct (find_entry st t m i) as (old & Hold & Hko & _); try done. congruence.
      * destruct (decide (j = i)) as [->|Hji].
        -- rewrite lookup_insert_eq in Hj. congruence.
        -- by rewrite lookup_insert_ne in Hj.
  - intros j jpr [[<- <-]|[Hne Hj]]%lookup_insert_Some; [|eauto]. subst t. eauto.
  - intros j k jpr kpr [[<- <-]|[Hnj Hj]]%lookup_insert_Some [[<- <-]|[Hnk Hk']]%lookup_insert_Some Heq.
    + done.
    + exfalso. apply Hfresh. rewrite Heq. by eapply Hother.
    + exfalso. apply Hfresh. rewrite <- Heq. by eapply Hother.
    + by eapply Hinj.
  - intros c. rewrite elem_of_union, elem_of_singleton. split.
    + intros [->|Hc]; [exists i, ipr; by rewrite lookup_insert_eq|].
      destruct (upsert_children st m t i ch c Hwf Hslot Hc) as (j & jpr & Hne & Hj & <-). exists j, jpr.
      by rewrite lookup_insert_ne.
    + intros (j & jpr & [[<- <-]|[Hne Hj]]%lookup_insert_Some & <-); [by left|right].
      by eapply Hother.
Qed.

(** The entries after an upsert. *)
Lemma upsert_entry st m t i ipr cs ch :
  redirect_wf st -> length m = 16%nat -> is_u32 t ->
  tunterm_acl_redirect_find st t m = Some i \/ pool st !! i = None ->
  let st' := mkRstate (<[i := ipr]> (pool st))
    (<[match_key m t := i]> (session_by_match_and_table_index st)) cs ch in
  entry st' t m = Some ipr /\
  forall t' m', length m' = 16%nat -> is_u32 t' -> (t', m') <> (t, m) ->
    entry st' t' m' = entry st t' m'.
Proof.
  intros Hwf Hm Ht Hcase. cbv zeta. unfold entry, tunterm_acl_redirect_find. cbn. split.
  - rewrite lookup_insert_eq. cbn. by rewrite lookup_insert_eq.
  - intros t' m' Hm' Ht' Hne.
    assert (Hk : match_key m t <> match_key m' t')
      by (intros Hk; apply match_key_inj in Hk as [Hm1 Ht1]; auto; apply Hne; by rewrite Hm1, Ht1).
    rewrite lookup_insert_ne by done.
    destruct (session_by_match_and_table_index st !! match_key m' t') as [j|] eqn:Hj; [|done].
    cbn. rewrite lookup_insert_ne; [done|]. intros <-. destruct Hwf as (Hh & _).
    pose proof Hj as Hj'. apply Hh in Hj' as (jpr & Hj' & Hkj).
    destruct Hcase as [Hf|Hnone]; [|congruence]. apply Hh in Hf as (ipr' & Hf & Hkf). congruence.
Qed.

(** What locating leaves: the key's entry in the pool and in the hash. *)
Lemma locate_shape st t m :
  redirect_wf st -> length m = 16%nat -> is_u32 t ->
  let '(st1, i) := redirect_locate st t m in
  exists old, pool st1 = <[i := old]> (pool st) /\ elt st1 i = old /\
    session_by_match_and_table_index st1 =
      <[match_key m t := i]> (session_by_match_and_table_index st) /\
    classify_main st1 = classify_main st /\
    match_and_table_index old = match_key m t /\ table_index old = t /\
    upsert_slot st m t i (children st1).
Proof.
  intros Hwf Hm Ht. unfold redirect_locate, upsert_slot.
  destruct (tunterm_acl_redirect_find st t m) as [j|] eqn:Hf.
  - destruct (find_entry st t m j Hwf Hm Ht Hf) as (old & Hj & Hko & Hto). exists old. cbn.
    rewrite !insert_id by done. split_and!; try done. by apply elt_lookup.
  - eexists. split_and!; try done; cbn.
    + apply elt_lookup. cbn. apply lookup_insert_eq.
    + apply not_elem_of_dom, pool_get_fresh.
Qed.

(** The whole of [tunterm_acl_redirect_add] as an upsert and one classifier call. *)
Lemma add_shape inval F st t opaque proto m rpaths :
  redirect_wf st -> length m = 16%nat -> is_u32 t ->
  fib_forw_chain_type_from_dpo_proto proto <> FIB_FORW_CHAIN_TYPE_OTHER ->
  let d := path_dpo F (fib_forw_chain_type_from_dpo_proto proto) rpaths in
  let '(cs, rv) := vnet_classify_add_session (classify_main st) t (match_key m t) d in
  exists i ipr ch,
    tunterm_acl_redirect_add inval F st t opaque proto m rpaths =
      (mkRstate (<[i := ipr]> (pool st))
         (<[match_key m t := i]> (session_by_match_and_table_index st)) cs ({[child_of ipr]} ∪ ch), rv) /\
    match_and_table_index ipr = match_key m t /\ table_index ipr = t /\
    ipr_view ipr = path_view F (fib_forw_chain_type_from_dpo_proto proto) rpaths /\
    child_of ipr ∉ ch /\
    upsert_slot st m t i ch.
Proof.
  intros Hwf Hm Ht Hp. cbv zeta. pose proof (locate_shape st t m Hwf Hm Ht) as Hl.
  destruct (redirect_locate st t m) as [st1 i] eqn:Hloc.
  destruct Hl as (old & Hpool & Helt & Hhash & Hcs & Hko & Hto & Hcase).
  assert (Hadd : tunterm_acl_redirect_add inval F st t opaque proto m rpaths =
    tunterm_acl_redirect_stack F (redirect_fill st1 i opaque
      (fib_forw_chain_type_from_dpo_proto proto) rpaths) i).
  { unfold tunterm_acl_redirect_add. rewrite Hloc. by destruct (fib_forw_chain_type_from_dpo_proto _). }
  rewrite Hadd. unfold tunterm_acl_redirect_stack.
  erewrite (elt_lookup (redirect_fill _ _ _ _ _) i) by (cbn; apply lookup_insert_eq). cbn.
  rewrite Helt, Hko, Hto, Hcs.
  fold (path_dpo F (fib_forw_chain_type_from_dpo_proto proto) rpaths).
  destruct (vnet_classify_add_session _ _ _ _) as [cs rv]. unfold set_classify. cbn.
  rewrite Hhash, Hpool, !insert_insert_eq.
  set (ptype := fib_forw_chain_type_from_dpo_proto proto) in *.
  exists i, (mkIpr (match_key m t) (path_dpo F ptype rpaths) (fib_path_list_create rpaths)
    (fib_path_list_child_add (children st1) (fib_path_list_create rpaths)) tunterm_acl_node_index
    opaque t ptype (bool_decide (ptype = FIB_FORW_CHAIN_TYPE_UNICAST_IP6))), (children st1).
  split; [reflexivity|]. split_and!; try done.
  apply child_add_fresh.
Qed.

Lemma view_dpo F ptype rpaths (o : option tunterm_acl_redirect_t) :
  ipr_view <$> o = Some (path_view F ptype rpaths) -> dpo <$> o = Some (path_dpo F ptype rpaths).
Proof. destruct o; [|done]. cbn. intros [= _ _ _ ->]. done. Qed.

(** What an add does, on success and on failure of the classifier. *)
Lemma add_spec inval F st t opaque proto m rpaths :
  redirect_wf st -> length m = 16%nat -> is_u32 t ->
  fib_forw_chain_type_from_dpo_proto proto <> FIB_FORW_CHAIN_TYPE_OTHER ->
  let d := path_dpo F (fib_forw_chain_type_from_dpo_proto proto) rpaths in
  let '(st', rv) := tunterm_acl_redirect_add inval F st t opaque proto m rpaths in
  redirect_wf st' /\
  (ipr_view <$> entry st' t m =
     Some (path_view F (fib_forw_chain_type_from_dpo_proto proto) rpaths)) /\
  (forall t' m', length m' = 16%nat -> is_u32 t' -> (t', m') <> (t, m) ->
     entry st' t' m' = entry st t' m') /\
  classify_session (classify_main st') t m =
    (if decide (rv = 0) then Some d else classify_session (classify_main st) t m) /\
  (forall t' m', (t', m') <> (t, m) -> classify_session (classify_main st') t' m' =
     classify_session (classify_main st) t' m') /\
  (forall t', classify_table (classify_main st') t' = classify_table (classify_main st) t').
Proof.
  intros Hwf Hm Ht Hp. cbv zeta.
  pose proof (add_shape inval F st t opaque proto m rpaths Hwf Hm Ht Hp) as Hs. cbv zeta in Hs.
  set (d := path_dpo _ _ _) in *.
  destruct (vnet_classify_add_session _ _ _ _) as [cs rv] eqn:Hc.
  destruct Hs as (i & ipr & ch & -> & Hko & Hto & Hdpo & Hfr & Hcase).
  destruct (upsert_entry st m t i ipr cs ({[child_of ipr]} ∪ ch) Hwf Hm Ht) as [He Ho].
  { unfold upsert_slot in Hcase. destruct (tunterm_acl_redirect_find st t m); [left; by destruct Hcase as [-> _]|by right; apply Hcase]. }
  destruct (add_session_frame _ _ _ _ _ _ Hc) as [Hft Hfs]. rewrite take_match_key in Hfs by done.
  split_and!; try done.
  - by apply upsert_wf.
  - rewrite He. cbn. by rewrite Hdpo.
  - cbn. case_decide as Hrv; [subst rv; apply add_session_ok in Hc|apply add_session_err in Hc; [|done]];
      by rewrite take_match_key in Hc.
Qed.

Lemma add_in_step inval own F st t opaque proto m rpaths st' :
  redirect_wf st -> in_step own st -> length m = 16%nat -> t ∈ own ->
  fib_forw_chain_type_from_dpo_proto proto <> FIB_FORW_CHAIN_TYPE_OTHER ->
  tunterm_acl_redirect_add inval F st t opaque proto m rpaths = (st', 0) -> in_step own st'.
Proof.
  intros Hwf [Hu Hin] Hm Hown Hp Hadd.
  pose proof (add_spec inval F st t opaque proto m rpaths Hwf Hm (Hu t Hown) Hp) as Hs.
  cbv zeta in Hs. rewrite Hadd in Hs. destruct Hs as (_ & He & Ho & Hs & Hso & _).
  split; [done|]. intros t' m' Ht' Hm'.
  destruct (decide ((t', m') = (t, m))) as [[= -> ->]|Hne]; [by rewrite Hs, (view_dpo _ _ _ _ He)|].
  rewrite Hso, Ho, (Hin t' m') by auto. done.
Qed.

(** *** Restacking *)

Definition restack (F : fib_env) (ipr : tunterm_acl_redirect_t) : tunterm_acl_redirect_t :=
  mkIpr (match_and_table_index ipr) (stacked_dpo F ipr) (pl ipr) (sibling ipr)
    (parent_node_index ipr) (opaque_index ipr) (table_index ipr) (payload_type ipr) (is_ip6 ipr).

(** An entry with a new forwarding, whatever the classifier is: the structures stay
    consistent and only this entry changes. *)
Lemma restack_wf F st i ipr m cs :
  redirect_wf st -> pool st !! i = Some ipr -> length m = 16%nat ->
  match_and_table_index ipr = match_key m (table_index ipr) ->
  let st' := mkRstate (<[i := restack F ipr]> (pool st)) (session_by_match_and_table_index st) cs (children st) in
  redirect_wf st' /\ entry st' (table_index ipr) m = Some (restack F ipr) /\
  forall t' m', length m' = 16%nat -> is_u32 t' -> (t', m') <> (table_index ipr, m) ->
    entry st' t' m' = entry st t' m'.
Proof.
  intros Hwf Hi Hm Hk. cbv zeta. pose proof Hwf as (Hh & Hks & _ & Hchs).
  destruct (Hks i ipr Hi) as [Hu _].
  assert (Hf : tunterm_acl_redirect_find st (table_index ipr) m = Some i) by (apply Hh; eauto).
  assert (Hhash : session_by_match_and_table_index st =
    <[match_key m (table_index ipr) := i]> (session_by_match_and_table_index st))
    by (symmetry; by apply insert_id).
  assert (Hch : children st = {[child_of (restack F ipr)]} ∪ (children st ∖ {[child_of ipr]})).
  { apply set_eq. intros c. rewrite elem_of_union, elem_of_difference, !elem_of_singleton.
    change (child_of (restack F ipr)) with (child_of ipr).
    destruct (decide (c = child_of ipr)) as [->|]; [|tauto].
    split; [by left|]. intros _. apply Hchs. eauto. }
  destruct (upsert_entry st m (table_index ipr) i (restack F ipr) cs (children st) Hwf Hm Hu (or_introl Hf))
    as [He' Ho]. rewrite <- Hhash in He', Ho. split; [|done].
  rewrite Hhash, Hch. apply upsert_wf; try done; [set_solver|].
  unfold upsert_slot. rewrite Hf. by rewrite (elt_lookup _ _ _ Hi).
Qed.

(** A back walk of an entry, when the classifier takes the session: the entry and
    its session have the new forwarding, nothing else changes. *)
Lemma back_walk_ok own F st i ipr :
  redirect_wf st -> in_step own st -> pool st !! i = Some ipr -> table_index ipr ∈ own ->
  snd (tunterm_acl_redirect_stack F st i) = 0 ->
  let st' := tunterm_acl_redirect_back_walk_notify F st i in
  redirect_wf st' /\ in_step own st' /\ pool st' = <[i := restack F ipr]> (pool st) /\
  (forall t, classify_table (classify_main st') t = classify_table (classify_main st) t).
Proof.
  intros Hwf [Hou Hin] Hi Hown. destruct (entry_of_pool st i ipr Hwf Hi) as (m & Hm & Hk & Hu & _).
  unfold tunterm_acl_redirect_back_walk_notify, tunterm_acl_redirect_stack.
  rewrite (elt_lookup _ _ _ Hi). cbn. destruct (vnet_classify_add_session _ _ _ _) as [cs rv] eqn:Hc.
  cbn. intros ->. unfold set_classify, set_pool. cbn. fold (restack F ipr).
  pose proof (add_session_ok _ _ _ _ _ Hc) as Hs.
  destruct (add_session_frame _ _ _ _ _ _ Hc) as [Hft Hfs]. rewrite Hk, take_match_key in Hs, Hfs by done.
  destruct (restack_wf F st i ipr m cs Hwf Hi Hm Hk) as (Hwf' & He' & Ho).
  split_and!; [done|split; [done|]|done|done].
  intros t' m' Ht' Hm'. destruct (decide ((t', m') = (table_index ipr, m))) as [[= -> ->]|Hne].
  - cbn. by rewrite Hs, He'.
  - cbn. by rewrite Hfs, Ho, Hin by auto.
Qed.

(** *** An entry without its session *)

(** Two entries have different table and match. *)
Lemma entries_differ st i j ipr jpr :
  redirect_wf st -> pool st !! i = Some ipr -> pool st !! j = Some jpr -> i <> j ->
  (table_index ipr, take 16 (match_and_table_index ipr)) <>
  (table_index jpr, take 16 (match_and_table_index jpr)).
Proof.
  intros Hwf Hi Hj Hne Heq.
  destruct (entry_of_pool st i ipr Hwf Hi) as (m & Hm & Hk & _ & Hf & _).
  destruct (entry_of_pool st j jpr Hwf Hj) as (m' & Hm' & Hk' & _ & Hf' & _).
  rewrite Hk, Hk', !take_match_key in Heq by done. injection Heq as Ht Hmm.
  rewrite Ht, Hmm in Hf. congruence.
Qed.

Lemma clear_loop_stuck l st i ipr :
  redirect_wf st -> pool st !! i = Some ipr -> i ∈ l -> NoDup l ->
  (forall j, j ∈ l -> is_Some (pool st !! j)) ->
  classify_session (classify_main st) (table_index ipr) (take 16 (match_and_table_index ipr)) = None ->
  let '(st', rv) := clear_loop st l in
  rv <> 0 /\ redirect_wf st' /\ pool st' !! i = Some ipr /\
  classify_session (classify_main st') (table_index ipr) (take 16 (match_and_table_index ipr)) = None.
Proof.
  revert st; induction l as [|j l IH]; intros st Hwf Hi Hin Hnd Hl Hnone;
    [by apply not_elem_of_nil in Hin|].
  apply NoDup_cons in Hnd as [Hj Hnd]. cbn [clear_loop].
  destruct (Hl j) as [jpr Hjpr]; [apply elem_of_cons; by left|].
  unfold tunterm_acl_redirect_del_ipr. rewrite (elt_lookup _ _ _ Hjpr).
  destruct (vnet_classify_del_session _ _ _) as [cs rv] eqn:Hdel.
  pose proof (del_session_rv _ _ _ _ _ Hdel) as Hrv.
  destruct (del_session_frame _ _ _ _ _ Hdel) as [_ Hfs].
  destruct (c_true rv) eqn:Hc.
  { rewrite Hc. split_and!; [by apply c_true_iff|exact Hwf|done|]. cbn. destruct (decide (i = j)) as [->|Hne].
    - simplify_eq. by eapply del_session_gone.
    - rewrite Hfs; [done|]. by eapply entries_differ. }
  assert (rv = 0) as -> by (unfold c_true in Hc; by destruct (Z.eqb_spec rv 0)).
  cbn [c_true Z.eqb negb]. destruct (decide (i = j)) as [->|Hne].
  { simplify_eq. by destruct (proj1 Hrv eq_refl). }
  apply IH; cbn.
  - by apply delete_wf.
  - by rewrite lookup_delete_ne by done.
  - by apply elem_of_cons in Hin as [?|?].
  - done.
  - intros k Hk. rewrite lookup_delete_ne by (intros ->; done). apply Hl, elem_of_cons. by right.
  - rewrite Hfs; [done|]. by eapply entries_differ.
Qed.

(** An entry without a session: clearing its table fails and leaves it like that. *)
Definition stuck (st : rstate) (t : Z) (m : list Z) : Prop :=
  redirect_wf st /\ is_Some (entry st t m) /\ classify_session (classify_main st) t m = None.

Lemma clear_stuck st t m :
  is_u32 t -> length m = 16%nat -> stuck st t m ->
  snd (tunterm_acl_redirect_clear st t) <> 0 /\ stuck (fst (tunterm_acl_redirect_clear st t)) t m.
Proof.
  intros Ht Hm (Hwf & [ipr He] & Hnone). unfold entry in He.
  destruct (tunterm_acl_redirect_find st t m) as [i|] eqn:Hf; [|done].
  destruct (find_entry st t m i Hwf Hm Ht Hf) as (ipr' & Hi & Hko & Hto).
  pose proof (clear_loop_stuck (filter (fun i => table_index (elt st i) = t) (pool_indices (pool st))) st i ipr' Hwf Hi)
    as Hs. fold (tunterm_acl_redirect_clear st t) in Hs.
  destruct (tunterm_acl_redirect_clear st t) as [st' rv]. rewrite Hko, Hto, take_match_key in Hs by done.
  destruct Hs as (Hrv & Hwf' & Hi' & Hnone').
  - apply list_elem_of_filter. rewrite (elt_lookup _ _ _ Hi). split; [done|]. apply elem_of_pool_indices. eauto.
  - apply NoDup_filter, NoDup_pool_indices.
  - intros j [_ Hj]%list_elem_of_filter. by apply elem_of_pool_indices.
  - done.
  - cbn. refine (conj Hrv (conj Hwf' (conj _ Hnone'))). unfold entry.
    assert (Hf' : tunterm_acl_redirect_find st' t m = Some i)
      by (unfold tunterm_acl_redirect_find in *; apply (proj1 Hwf'); by exists ipr').
    rewrite Hf'. cbn. rewrite Hi'. eauto.
Qed.

Lemma clear_stuck_iter n st t m :
  is_u32 t -> length m = 16%nat -> stuck st t m ->
  stuck (Nat.iter n (fun st => fst (tunterm_acl_redirect_clear st t)) st) t m.
Proof. intros Ht Hm Hs. induction n as [|n IH]; [done|]. cbn. by apply clear_stuck. Qed.

End Facts.

(** ** Theorems *)

Section Theorems.
Context `{Vlib} `{Classify} `{Fib}.

(** Adding a redirect, when it returns 0: the classifier session of the table
    and match forwards to the DPO of the given paths, every other session of
    every table is as before, and the pool, the hash, the path lists' children
    and the classifier remain in step; whether the entry was new or replaced. *)
Theorem redirect_add_programs inval own F st t opaque proto m rpaths st'
    (Hwf : redirect_wf st) (Hin : in_step own st) (Hown : t ∈ own) (Hm : length m = 16%nat)
    (Hproto : proto <> DPO_PROTO_OTHER)
    (Hadd : tunterm_acl_redirect_add inval F st t opaque proto m rpaths = (st', 0)) :
  redirect_wf st' /\ in_step own st' /\
  classify_session (classify_main st') t m =
    Some (path_dpo F (fib_forw_chain_type_from_dpo_proto proto) rpaths) /\
  forall t' m', (t', m') <> (t, m) ->
    classify_session (classify_main st') t' m' = classify_session (classify_main st) t' m'.
Proof.
  pose proof (proto_chain proto Hproto) as Hp.
  pose proof (add_spec inval F st t opaque proto m rpaths Hwf Hm (proj1 Hin t Hown) Hp) as Hs.
  cbv zeta in Hs. rewrite Hadd in Hs. destruct Hs as (Hwf' & _ & _ & Hs & Ho & _).
  split; [done|]. split; [|by rewrite Hs].
  exact (add_in_step inval own F st t opaque proto m rpaths st' Hwf Hin Hm Hown Hp Hadd).
Qed.

(** C32.  Adding a new redirect, when it returns 0, and deleting it leaves no trace: the
    delete returns 0 and the pool, the hash, the registered path-list children and every
    classifier session are exactly what they were before the add. *)
Theorem redirect_add_del_roundtrip inval nosuch F st t opaque proto m rpaths st1
    (Hwf : redirect_wf st) (Ht : is_u32 t) (Hm : length m = 16%nat)
    (Hproto : proto <> DPO_PROTO_OTHER)
    (Hnew : tunterm_acl_redirect_find st t m = None)
    (Hnosess : classify_session (classify_main st) t m = None)
    (Hadd : tunterm_acl_redirect_add inval F st t opaque proto m rpaths = (st1, 0)) :
  let '(st2, rv) := tunterm_acl_redirect_del nosuch st1 t m in
  rv = 0 /\ pool st2 = pool st /\
  session_by_match_and_table_index st2 = session_by_match_and_table_index st /\
  children st2 = children st /\
  forall t' m', classify_session (classify_main st2) t' m' = classify_session (classify_main st) t' m'.
Proof.
  pose proof (proto_chain proto Hproto) as Hp.
  pose proof (add_shape inval F st t opaque proto m rpaths Hwf Hm Ht Hp) as Hs. cbv zeta in Hs.
  destruct (vnet_classify_add_session _ _ _ _) as [cs rv1] eqn:Hc.
  destruct Hs as (i & ipr & ch & Heq & Hko & Hto & Hdpo & Hfr & Hslot).
  unfold upsert_slot in Hslot. rewrite Hnew in Hslot. destruct Hslot as [Hi ->].
  rewrite Heq in Hadd. injection Hadd as <- ->.
  destruct (add_session_frame _ _ _ _ _ _ Hc) as [_ Hfs]. rewrite take_match_key in Hfs by done.
  apply add_session_ok in Hc. rewrite take_match_key in Hc by done.
  unfold tunterm_acl_redirect_del, tunterm_acl_redirect_find. cbn. rewrite lookup_insert_eq.
  unfold tunterm_acl_redirect_del_ipr. erewrite elt_lookup by (cbn; apply lookup_insert_eq). cbn.
  rewrite Hto, Hko. destruct (vnet_classify_del_session _ _ _) as [cs2 rv2] eqn:Hdel.
  pose proof (del_session_rv _ _ _ _ _ Hdel) as Hrv.
  pose proof (del_session_gone _ _ _ _ _ Hdel) as Hgone.
  destruct (del_session_frame _ _ _ _ _ Hdel) as [_ Hfs2].
  rewrite take_match_key in Hrv, Hgone, Hfs2 by done. rewrite Hc in Hrv.
  assert (rv2 = 0) as -> by (by apply Hrv). cbn. fold (child_of ipr). split_and!; try done.
  - by apply delete_insert_id.
  - by apply delete_insert_id.
  - set_solver.
  - intros t' m'. destruct (decide ((t', m') = (t, m))) as [[= -> ->]|Hne]; [congruence|].
    by rewrite Hfs2, Hfs.
Qed.

(** Clearing a table always succeeds on consistent structures, removes every
    session of that table and deregisters its entries from their path lists, and
    touches no other table. *)
Theorem redirect_clear_table own st t
    (Hwf : redirect_wf st) (Hin : in_step own st) (Hown : t ∈ own) :
  let '(st', rv) := tunterm_acl_redirect_clear st t in
  rv = 0 /\ redirect_wf st' /\ in_step own st' /\
  (forall m, length m = 16%nat -> classify_session (classify_main st') t m = None) /\
  (forall i ipr, pool st' !! i = Some ipr <-> pool st !! i = Some ipr /\ table_index ipr <> t) /\
  (forall t' m, t' <> t ->
     classify_session (classify_main st') t' m = classify_session (classify_main st) t' m).
Proof.
  pose proof (clear_ok own st t Hwf Hin Hown) as Hc.
  pose proof (fun m => clear_empty own st t m Hwf Hin Hown) as He.
  destruct (tunterm_acl_redirect_clear st t) as [st' rv].
  destruct Hc as (-> & Hwf' & Hin' & Hp & Hs & _).
  refine (conj eq_refl (conj Hwf' (conj Hin' (conj _ (conj _ Hs))))).
  - intros m Hm. by destruct (He m Hm).
  - intros i ipr. rewrite Hp. case_decide as Hd; split.
    + done.
    + intros [Hi Hne]. by rewrite (elt_lookup _ _ _ Hi) in Hd.
    + intros Hi. by rewrite (elt_lookup _ _ _ Hi) in Hd.
    + by intros [? _].
Qed.

(** C33.  A failed add is not undone: when the classifier refuses the session of a
    new redirect, the pool entry stays without a session, and clearing the table fails
    and leaves the entry as it is, however often it is tried from there (until the
    session is added after all). *)
Theorem redirect_add_failure_sticks inval F st t opaque proto m rpaths st' rv
    (Hwf : redirect_wf st) (Ht : is_u32 t) (Hm : length m = 16%nat)
    (Hproto : proto <> DPO_PROTO_OTHER)
    (Hnosess : classify_session (classify_main st) t m = None)
    (Hadd : tunterm_acl_redirect_add inval F st t opaque proto m rpaths = (st', rv))
    (Hfail : rv <> 0) :
  forall n, let stn := Nat.iter n (fun st => fst (tunterm_acl_redirect_clear st t)) st' in
    is_Some (entry stn t m) /\ classify_session (classify_main stn) t m = None /\
    snd (tunterm_acl_redirect_clear stn t) <> 0.
Proof.
  assert (Hst : stuck st' t m).
  { pose proof (add_spec inval F st t opaque proto m rpaths Hwf Hm Ht (proto_chain proto Hproto)) as Hs.
    cbv zeta in Hs. rewrite Hadd in Hs. destruct Hs as (Hwf' & He & _ & Hs & _).
    rewrite decide_False, Hnosess in Hs by done. apply fmap_Some in He as (ipr & He & _).
    refine (conj Hwf' (conj _ Hs)). by exists ipr. }
  intros n. cbv zeta. pose proof (clear_stuck_iter n st' t m Ht Hm Hst) as Hn.
  destruct (clear_stuck _ t m Ht Hm Hn) as [Hrv _]. destruct Hn as (_ & He & Hnone). done.
Qed.

End Theorems.

(** ** Witnesses *)

Lemma pair_eta {A B} (p : A * B) (b : B) : snd p = b -> p = (fst p, b).
Proof. destruct p. cbn. by intros ->. Qed.

Lemma rstate0_wf refuse : @redirect_wf vlib_ref (classify_ref refuse) (rstate0 refuse).
Proof. apply empty_wf. Qed.

Lemma rstate0_in_step refuse : @in_step vlib_ref (classify_ref refuse) {[0]} (rstate0 refuse).
Proof.
  split; [intros t ->%elem_of_singleton; by_compute|]. intros t m _ _. cbn. unfold cref_session. cbn.
  by rewrite lookup_empty.
Qed.

Lemma redirect_add_programs_witness :
  @classify_session (classify_ref accept) (classify_main ex_added) 0 ex_match = Some (7, 55).
Proof.
  destruct (@redirect_add_programs vlib_ref (classify_ref accept) fib_ref (-9) {[0]} fib_env_example
    (rstate0 accept) 0 0 DPO_PROTO_IP4 ex_match [55] ex_added) as (_ & _ & Hs & _);
    [apply rstate0_wf|apply rstate0_in_step|by_compute|reflexivity|discriminate|
     apply pair_eta; vm_compute; reflexivity|].
  exact Hs.
Defined.

Lemma redirect_add_del_roundtrip_witness :
  children (fst (@tunterm_acl_redirect_del vlib_ref (classify_ref accept) (-3) ex_added 0 ex_match))
    = ∅.
Proof.
  pose proof (@redirect_add_del_roundtrip vlib_ref (classify_ref accept) fib_ref (-9) (-3)
    fib_env_example (rstate0 accept) 0 0 DPO_PROTO_IP4 ex_match [55] ex_added) as Hw.
  destruct (tunterm_acl_redirect_del _ _ _ _) as [st2 rv].
  destruct Hw as (_ & _ & _ & Hc & _);
    [apply rstate0_wf|by_compute|reflexivity|discriminate|reflexivity|reflexivity|
     apply pair_eta; vm_compute; reflexivity|exact Hc].
Defined.

Lemma redirect_clear_table_witness :
  snd (@tunterm_acl_redirect_clear (classify_ref accept) ex_added 0) = 0.
Proof.
  pose proof (@redirect_clear_table vlib_ref (classify_ref accept) {[0]} ex_added 0) as Hw.
  destruct (@tunterm_acl_redirect_clear _ ex_added 0) as [st' rv].
  destruct Hw as [Hrv _]; [| |by_compute|exact Hrv].
  - pose proof (@add_spec vlib_ref (classify_ref accept) fib_ref (-9) fib_env_example
      (rstate0 accept) 0 0 DPO_PROTO_IP4 ex_match [55] (rstate0_wf _) eq_refl) as Ha.
    apply Ha; [by_compute|discriminate].
  - eapply (@add_in_step vlib_ref (classify_ref accept) fib_ref (-9) {[0]} fib_env_example
      (rstate0 accept) 0 0 DPO_PROTO_IP4 ex_match [55]);
      [apply rstate0_wf|apply rstate0_in_step|reflexivity|by_compute|discriminate|].
    apply pair_eta. vm_compute. reflexivity.
Defined.

Lemma redirect_add_failure_sticks_witness :
  let st' := fst (@tunterm_acl_redirect_add vlib_ref (classify_ref deny) fib_ref (-9)
    fib_env_example (rstate0 deny) 0 0 DPO_PROTO_IP4 ex_match [55]) in
  let st1 := fst (@tunterm_acl_redirect_clear (classify_ref deny) st' 0) in
  snd (@tunterm_acl_redirect_clear (classify_ref deny) st1 0) <> 0.
Proof.
  cbv zeta.
  destruct (@redirect_add_failure_sticks vlib_ref (classify_ref deny) fib_ref (-9)
    fib_env_example (rstate0 deny) 0 0 DPO_PROTO_IP4 ex_match [55]
    (fst (@tunterm_acl_redirect_add vlib_ref (classify_ref deny) fib_ref (-9)
      fib_env_example (rstate0 deny) 0 0 DPO_PROTO_IP4 ex_match [55])) (-1)) with (n := 1%nat) as (_ & _ & Hw);
    [apply rstate0_wf|by_compute|reflexivity|discriminate|reflexivity|
     apply pair_eta; vm_compute; reflexivity|discriminate|exact Hw].
Defined.
