(* ===== verification/TuntermApi.v ===== *)
(** * API handlers of the tunterm_acl plugin (tunterm_acl_api.c)

    Creating and replacing the rules of a tunnel-termination ACL (one classifier
    table per ACL), deleting an ACL, attaching it to an interface.  Accesses to a
    C vector beyond its length are undefined in the source: they make a handler
    of the model return [None]. *)

From stdpp Require Import sorting.
From S2P Require Import Prelude Vlib Feature TuntermRedirect.

(** ** C vectors *)

(** [vec_validate_init_empty (v, i, x)] *)
Definition vec_validate_init_empty {A} (v : list A) (i : Z) (x : A) : list A :=
  v ++ replicate (Z.to_nat (i + 1) - length v) x.

Definition vec_get {A} (v : list A) (i : Z) : option A :=
  if i <? 0 then None else v !! Z.to_nat i.

Definition vec_set {A} (v : list A) (i : Z) (x : A) : option (list A) :=
  match vec_get v i with
  | Some _ => Some (<[Z.to_nat i := x]> v)
  | None => None
  end.

(** ** Data *)

(** The decoders of VPP's API types: a path (with an error code) and an address
    (as IPv4 and as IPv6 bytes). *)
Class FibApi `{Fib} := {
  vl_api_fib_path_t : Type;
  vl_api_address_un : Type;
  fib_api_path_decode : vl_api_fib_path_t -> Z * fib_route_path_t;
  ip_address_decode : vl_api_address_un -> list Z * list Z;
  ip_address_decode_ip4 : forall a, length (fst (ip_address_decode a)) = 4%nat;
  ip_address_decode_ip6 : forall a, length (snd (ip_address_decode a)) = 16%nat
}.

Record vl_api_tunterm_acl_rule_t `{FibApi} := mkRule {
  r_path : vl_api_fib_path_t;
  r_dst_af : Z;
  r_dst : vl_api_address_un
}.

Record tunterm_acl_main_t := mkTam {
  classify_table_index_by_sw_if_index_v4 : list Z;
  classify_table_index_by_sw_if_index_v6 : list Z;
  classify_table_index_is_v6 : list bool
}.

Definition CLASSIFY_TABLE_VECTOR_SIZE : nat := 16.

(** The codes the handlers reply with. *)
Record tunterm_codes := mkCodes {
  INVALID_VALUE : Z;
  INVALID_VALUE_2 : Z;
  INVALID_VALUE_3 : Z;
  RSRC_IN_USE : Z;
  INVALID_SW_IF_INDEX : Z;
  INVALID_ADDRESS_FAMILY : Z
}.

Definition bypass_key (sw : Z) : fkey := ("ip4-unicast", "tunterm-ip4-vxlan-bypass", sw)%string.

Section Api.
Context `{Vlib} `{Classify} `{FibApi} `{VnetFeature}.
Variable codes : tunterm_codes.

Record tstate := mkTstate {
  ts_main : tunterm_acl_main_t;
  ts_redirect : rstate;
  ts_features : fstate
}.

Definition set_redirect (st : rstate) (ts : tstate) : tstate :=
  mkTstate (ts_main ts) st (ts_features ts).

(** ** Table and sessions *)

Definition bytes_matched (is_ipv6 : bool) : nat := if is_ipv6 then 16 else 4.

(** The mask of a new table: the inner destination address. *)
Definition table_mask (is_ipv6 : bool) : list Z :=
  replicate (bytes_matched is_ipv6) 0xff ++
  replicate (CLASSIFY_TABLE_VECTOR_SIZE - bytes_matched is_ipv6) 0.

(** The match of a rule: its destination, padded with zeros. *)
Definition rule_match (is_ipv6 : bool) (r : vl_api_tunterm_acl_rule_t) : list Z :=
  let '(ip4, ip6) := ip_address_decode (r_dst r) in
  take (bytes_matched is_ipv6) (if is_ipv6 then ip6 else ip4) ++
  replicate (CLASSIFY_TABLE_VECTOR_SIZE - bytes_matched is_ipv6) 0.

Definition rule_proto (is_ipv6 : bool) : dpo_proto_t :=
  if is_ipv6 then DPO_PROTO_IP6 else DPO_PROTO_IP4.

Definition bool_u8 (b : bool) : Z := if b then 1 else 0.

(** The loop over the rules (one path per rule). *)
Fixpoint add_rules (F : fib_env) (is_ipv6 : bool) (t : Z) (rules : list vl_api_tunterm_acl_rule_t)
    (st : rstate) : rstate * Z :=
  match rules with
  | [] => (st, 0)
  | r :: rules =>
      let '(rv, path) := fib_api_path_decode (r_path r) in
      if c_true rv then (st, rv)
      else if negb (bool_u8 is_ipv6 =? r_dst_af r) then (st, INVALID_VALUE_3 codes)
      else
        let '(st, rv) := tunterm_acl_redirect_add (INVALID_ADDRESS_FAMILY codes) F st t 0
          (rule_proto is_ipv6) (rule_match is_ipv6 r) [path] in
        if c_true rv then (st, rv) else add_rules F is_ipv6 t rules st
  end.

(** Create the table when the index is all ones. *)
Definition ensure_table (is_ipv6 : bool) (tam : tunterm_acl_main_t) (st : rstate) (index : Z)
    : option (tunterm_acl_main_t * rstate * Z * Z) :=
  if index =? U32_MAX then
    let '(cs, rv, t) := vnet_classify_add_table (classify_main st) (table_mask is_ipv6) in
    let st := set_classify cs st in
    if negb (rv =? 0) then Some (tam, st, rv, index)
    else
      let v := vec_validate_init_empty (classify_table_index_is_v6 tam) t false in
      v ← vec_set v t is_ipv6;
      Some (mkTam (classify_table_index_by_sw_if_index_v4 tam)
              (classify_table_index_by_sw_if_index_v6 tam) v, st, 0, t)
  else Some (tam, st, 0, index).

(** The result: the state, the return value and the ACL index; [rules] are the
    rules of the message, of which the first [count] are read. *)
Definition update_classify_table_and_sessions (F : fib_env) (is_ipv6 : bool) (count : nat)
    (rules : list vl_api_tunterm_acl_rule_t) (tunterm_acl_index : Z) (ts : tstate)
    : option (tstate * Z * Z) :=
  '(tam, st, rv, index) ← ensure_table is_ipv6 (ts_main ts) (ts_redirect ts) tunterm_acl_index;
  let ts := mkTstate tam st (ts_features ts) in
  if negb (rv =? 0) then Some (ts, rv, index)
  else
    af_ok ← (if (0 <? count)%nat then
               is_v6 ← vec_get (classify_table_index_is_v6 tam) index;
               Some (bool_decide (is_v6 = is_ipv6))
             else Some true);
    if negb af_ok then Some (ts, INVALID_VALUE_2 codes, index)
    else
      let '(st, rv) := tunterm_acl_redirect_clear st index in
      if negb (rv =? 0) then Some (set_redirect st ts, rv, index)
      else
        guard (count <= length rules)%nat;;
        let '(st, rv) := add_rules F is_ipv6 index (take count rules) st in
        Some (set_redirect st ts, rv, index).

(** ** Handlers *)

Variable sizeof_mp : Z.
Variable sizeof_rule : Z.

Definition verify_message_len (supplied_len expected_len : Z) : bool :=
  negb (supplied_len <? expected_len).

(** A message: its length, [is_ipv6], the index and count in network order, and
    the rules it carries.  The reply is the code and the index in network order. *)
Definition vl_api_tunterm_acl_add_replace_t_handler (F : fib_env) (supplied_len : Z)
    (mp_is_ipv6 : bool) (mp_index mp_count : Z) (mp_r : list vl_api_tunterm_acl_rule_t)
    (ts : tstate) : option (tstate * Z * Z) :=
  let tunterm_acl_index := net_to_host host 4 mp_index in
  let acl_count := net_to_host host 4 mp_count in
  let expected_len := u64 (sizeof_mp + u64 (acl_count * sizeof_rule)) in
  if verify_message_len supplied_len expected_len then
    '(ts, rv, index) ← update_classify_table_and_sessions F mp_is_ipv6 (Z.to_nat acl_count) mp_r
       tunterm_acl_index ts;
    Some (ts, rv, net_to_host host 4 index)
  else Some (ts, INVALID_VALUE codes, net_to_host host 4 tunterm_acl_index).

Definition vl_api_tunterm_acl_del_t_handler (mp_index : Z) (ts : tstate) : option (tstate * Z) :=
  let tunterm_acl_index := net_to_host host 4 mp_index in
  let tam := ts_main ts in
  if tunterm_acl_index =? U32_MAX then Some (ts, INVALID_VALUE codes)
  else if existsb (fun t => t =? tunterm_acl_index) (classify_table_index_by_sw_if_index_v4 tam)
  then Some (ts, RSRC_IN_USE codes)
  else if existsb (fun t => t =? tunterm_acl_index) (classify_table_index_by_sw_if_index_v6 tam)
  then Some (ts, RSRC_IN_USE codes)
  else
    let '(st, rv) := tunterm_acl_redirect_clear (ts_redirect ts) tunterm_acl_index in
    if negb (rv =? 0) then Some (set_redirect st ts, rv)
    else
      let st := set_classify
        (vnet_classify_delete_table_index (classify_main st) tunterm_acl_index) st in
      v ← vec_set (classify_table_index_is_v6 tam) tunterm_acl_index false;
      Some (mkTstate (mkTam (classify_table_index_by_sw_if_index_v4 tam)
                        (classify_table_index_by_sw_if_index_v6 tam) v) st (ts_features ts), rv).

(** [sw_interfaces]: the interface exists. *)
Definition vl_api_tunterm_acl_interface_add_del_t_handler (sw_interfaces : Z -> bool)
    (mp_is_add : bool) (mp_sw_if_index mp_index : Z) (ts : tstate) : option (tstate * Z) :=
  let sw_if_index := net_to_host host 4 mp_sw_if_index in
  let tunterm_acl_index := net_to_host host 4 mp_index in
  let tam := ts_main ts in
  if tunterm_acl_index =? U32_MAX then Some (ts, INVALID_VALUE codes)
  else if negb (sw_interfaces sw_if_index) then Some (ts, INVALID_SW_IF_INDEX codes)
  else
    let v6 := vec_validate_init_empty (classify_table_index_by_sw_if_index_v6 tam)
      sw_if_index U32_MAX in
    let v4 := vec_validate_init_empty (classify_table_index_by_sw_if_index_v4 tam)
      sw_if_index U32_MAX in
    let is_v6 := classify_table_index_is_v6 tam in
    match vec_get is_v6 tunterm_acl_index with
    | None => None
    | Some is_ipv6 =>
    if mp_is_add then
      v4 ← (if is_ipv6 then Some v4 else vec_set v4 sw_if_index tunterm_acl_index);
      v6 ← (if is_ipv6 then vec_set v6 sw_if_index tunterm_acl_index else Some v6);
      let '(fs, rv) :=
        if negb (vnet_feature_is_enabled (ts_features ts) (bypass_key sw_if_index))
        then vnet_feature_enable_disable (ts_features ts) (bypass_key sw_if_index) true
        else (ts_features ts, 0) in
      Some (mkTstate (mkTam v4 v6 is_v6) (ts_redirect ts) fs, rv)
    else
      index_v4 ← vec_get v4 sw_if_index;
      index_v6 ← vec_get v6 sw_if_index;
      if negb (tunterm_acl_index =? index_v4) && negb (tunterm_acl_index =? index_v6)
      then Some (mkTstate (mkTam v4 v6 is_v6) (ts_redirect ts) (ts_features ts),
                 INVALID_VALUE_2 codes)
      else
        let '(fs, rv) :=
          if (index_v4 =? U32_MAX) || (index_v6 =? U32_MAX)
          then vnet_feature_enable_disable (ts_features ts) (bypass_key sw_if_index) false
          else (ts_features ts, 0) in
        if negb (rv =? 0)
        then Some (mkTstate (mkTam v4 v6 is_v6) (ts_redirect ts) fs, rv)
        else
          v4 ← (if is_ipv6 then Some v4 else vec_set v4 sw_if_index U32_MAX);
          v6 ← (if is_ipv6 then vec_set v6 sw_if_index U32_MAX else Some v6);
          Some (mkTstate (mkTam v4 v6 is_v6) (ts_redirect ts) fs, 0)
    end.

(** The message id base and the pointer to VPP's interfaces are not part of the
    state. *)
Definition tunterm_acl_init (ts : tstate) : tstate :=
  set_redirect (tunterm_acl_redirect_init (ts_redirect ts)) ts.

(** ** Specification *)

(** What a list of rules programs: for each destination the forwarding of the
    last rule with it. *)
Definition rule_session (F : fib_env) (is_ipv6 : bool) (r : vl_api_tunterm_acl_rule_t) : session_t :=
  path_dpo F (fib_forw_chain_type_from_dpo_proto (rule_proto is_ipv6))
    [snd (fib_api_path_decode (r_path r))].

Definition rules_sessions (F : fib_env) (is_ipv6 : bool) (rules : list vl_api_tunterm_acl_rule_t)
    : gmap (list Z) session_t :=
  fold_left (fun acc r => <[rule_match is_ipv6 r := rule_session F is_ipv6 r]> acc) rules ∅.

(** The ACL attached to an interface, per address family. *)
Definition attached (v : list Z) (sw : Z) : option Z :=
  t ← vec_get v sw; if t =? U32_MAX then None else Some t.

(** The attachment vector of an address family. *)
Definition slot (is_ipv6 : bool) (tam : tunterm_acl_main_t) : list Z :=
  if is_ipv6 then classify_table_index_by_sw_if_index_v6 tam
  else classify_table_index_by_sw_if_index_v4 tam.

Definition with_slots (v4 v6 : list Z) (ts : tstate) (fs : fstate) : tstate :=
  mkTstate (mkTam v4 v6 (classify_table_index_is_v6 (ts_main ts))) (ts_redirect ts) fs.

(** [own] are the ACLs that exist: they have a table of their address family, an
    attachment names an existing ACL of the right family, the bypass feature is on
    exactly at interfaces with an ACL, and both vectors reach to every interface
    with the feature (the nodes index them without a check). *)
Definition attach_ok (own : gset Z) (ts : tstate) : Prop :=
  let tam := ts_main ts in
  (forall t, t ∈ own -> t <> U32_MAX /\ exists af,
     vec_get (classify_table_index_is_v6 tam) t = Some af /\
     classify_table (classify_main (ts_redirect ts)) t = Some (table_mask af)) /\
  (forall sw t, attached (classify_table_index_by_sw_if_index_v4 tam) sw = Some t ->
     t ∈ own /\ vec_get (classify_table_index_is_v6 tam) t = Some false) /\
  (forall sw t, attached (classify_table_index_by_sw_if_index_v6 tam) sw = Some t ->
     t ∈ own /\ vec_get (classify_table_index_is_v6 tam) t = Some true) /\
  (forall sw, vnet_feature_is_enabled (ts_features ts) (bypass_key sw) = true <->
     is_Some (attached (classify_table_index_by_sw_if_index_v4 tam) sw) \/
     is_Some (attached (classify_table_index_by_sw_if_index_v6 tam) sw)) /\
  (forall af sw, vnet_feature_is_enabled (ts_features ts) (bypass_key sw) = true ->
     is_Some (vec_get (slot af tam) sw)).

(** Redirects belong to ACLs that exist. *)
Definition entries_owned (own : gset Z) (st : rstate) : Prop :=
  forall i ipr, pool st !! i = Some ipr -> table_index ipr ∈ own.

Definition tunterm_inv (own : gset Z) (ts : tstate) : Prop :=
  redirect_wf (ts_redirect ts) /\ in_step own (ts_redirect ts) /\
  entries_owned own (ts_redirect ts) /\ attach_ok own ts.

Definition codes_ok : Prop :=
  INVALID_VALUE codes <> 0 /\ INVALID_VALUE_2 codes <> 0 /\ INVALID_VALUE_3 codes <> 0 /\
  RSRC_IN_USE codes <> 0 /\ INVALID_SW_IF_INDEX codes <> 0.

End Api.

(** ** Example configuration *)

Definition fib_api_ref : @FibApi fib_ref := {|
  vl_api_fib_path_t := Z;
  vl_api_address_un := Z;
  fib_api_path_decode := fun p : Z => (if p <? 0 then -1 else 0, p : @fib_route_path_t fib_ref);
  ip_address_decode := fun a => ([10; 0; 0; a], replicate 15 0 ++ [a]);
  ip_address_decode_ip4 := fun _ => eq_refl;
  ip_address_decode_ip6 := fun _ => eq_refl
|}.

Definition codes_example : tunterm_codes := mkCodes (-1) (-2) (-3) (-4) (-5) (-6).

Abbreviation CR := (classify_ref accept).
Abbreviation FA := fib_api_ref.
Abbreviation FR := feature_ref_total.

(** No ACL yet. *)
Definition ts_empty : @tstate CR FR :=
  tunterm_acl_init
    (@mkTstate CR FR (mkTam [] [] []) (@mkRstate CR ∅ ∅ (mkCref ∅ ∅) ∅) (∅ : gset fkey)).

(** Two rules for 10.0.0.1 and one for 10.0.0.2. *)
Definition ex_rules : list (@vl_api_tunterm_acl_rule_t fib_ref FA) :=
  [@mkRule fib_ref FA 50 0 1; @mkRule fib_ref FA 51 0 1; @mkRule fib_ref FA 52 0 2].

Definition ex_update : option (@tstate CR FR * Z * Z) :=
  @update_classify_table_and_sessions vlib_ref CR fib_ref FA FR codes_example fib_env_example false 3
    ex_rules U32_MAX ts_empty.

(** The configuration with that ACL, number 0, attached nowhere. *)
Definition ts_example : @tstate CR FR :=
  match ex_update with Some (ts, _, _) => ts | None => ts_empty end.

(** ** Lemmas *)

(** *** Vectors *)

Lemma vec_get_insert {A} (v : list A) i j x y :
  vec_get v i = Some y ->
  vec_get (<[Z.to_nat i := x]> v) j = if decide (i = j) then Some x else vec_get v j.
Proof.
  unfold vec_get. destruct (Z.ltb_spec i 0) as [|Hi]; [done|]. intros Hv.
  destruct (Z.ltb_spec j 0) as [|Hj]; [by rewrite decide_False by lia|].
  rewrite list_lookup_insert. apply lookup_lt_Some in Hv.
  destruct (decide (i = j)) as [->|Hne]; [by rewrite decide_True|].
  rewrite decide_False; [done|]. intros [? _]. apply Hne. lia.
Qed.

Lemma vec_set_Some {A} (v : list A) i x y :
  vec_get v i = Some y -> vec_set v i x = Some (<[Z.to_nat i := x]> v).
Proof. unfold vec_set. by intros ->. Qed.

Lemma vec_validate_get {A} (v : list A) (i j : Z) x :
  0 <= i ->
  vec_get (vec_validate_init_empty v i x) j =
  match vec_get v j with
  | Some y => Some y
  | None => if decide (0 <= j <= i) then Some x else None
  end.
Proof.
  intros Hi. unfold vec_get, vec_validate_init_empty.
  destruct (Z.ltb_spec j 0) as [|Hj]; [by rewrite decide_False by lia|].
  destruct (v !! Z.to_nat j) as [y|] eqn:Hv; [by apply lookup_app_l_Some|].
  apply lookup_ge_None in Hv. rewrite lookup_app_r by done.
  case_decide.
  - apply lookup_replicate_2. lia.
  - apply lookup_replicate_None. lia.
Qed.

(** Growing a vector to index [i] and writing there keeps the other entries. *)
Lemma vec_grow_set {A} (v : list A) i x y :
  0 <= i ->
  vec_set (vec_validate_init_empty v i x) i y = Some (<[Z.to_nat i := y]> (vec_validate_init_empty v i x)) /\
  vec_get (<[Z.to_nat i := y]> (vec_validate_init_empty v i x)) i = Some y /\
  forall j z, j <> i -> vec_get v j = Some z ->
    vec_get (<[Z.to_nat i := y]> (vec_validate_init_empty v i x)) j = Some z.
Proof.
  intros Hi. assert (Hg : exists z, vec_get (vec_validate_init_empty v i x) i = Some z).
  { rewrite vec_validate_get by done. destruct (vec_get v i); [eauto|]. rewrite decide_True by lia. eauto. }
  destruct Hg as [z Hg]. split; [by eapply vec_set_Some|]. split.
  - by rewrite (vec_get_insert _ _ _ _ _ Hg), decide_True.
  - intros j w Hne Hj. rewrite (vec_get_insert _ _ _ _ _ Hg), decide_False by done.
    by rewrite vec_validate_get, Hj by done.
Qed.

(** Growing an attachment vector attaches nothing. *)
Lemma attached_validate v i sw :
  0 <= i -> attached (vec_validate_init_empty v i U32_MAX) sw = attached v sw.
Proof.
  intros Hi. unfold attached. rewrite vec_validate_get by done.
  destruct (vec_get v sw); [done|]. by case_decide.
Qed.

Lemma attached_insert v i t sw y :
  vec_get v i = Some y ->
  attached (<[Z.to_nat i := t]> v) sw =
  if decide (i = sw) then (if t =? U32_MAX then None else Some t) else attached v sw.
Proof. intros Hv. unfold attached. rewrite (vec_get_insert _ _ _ _ _ Hv). by case_decide. Qed.

(** An index [existsb] does not find is attached nowhere. *)
Lemma not_attached v t sw :
  existsb (fun x => x =? t) v = false -> attached v sw <> Some t.
Proof.
  intros Hex Ha. unfold attached in Ha. destruct (vec_get v sw) as [x|] eqn:Hx; [|done]. cbn in Ha.
  destruct (x =? U32_MAX); [done|]. simplify_eq. apply not_true_iff_false in Hex. apply Hex.
  apply existsb_exists. exists t. split; [|apply Z.eqb_refl].
  unfold vec_get in Hx. destruct (sw <? 0); [done|].
  apply list_elem_of_In, list_elem_of_lookup. eauto.
Qed.

Section Facts.
Context `{Vlib} `{Classify} `{FibApi} `{VnetFeature}.
Variable codes : tunterm_codes.

Lemma rule_match_length is_ipv6 r : length (rule_match is_ipv6 r) = 16%nat.
Proof.
  unfold rule_match. pose proof (ip_address_decode_ip4 (r_dst r)) as H4.
  pose proof (ip_address_decode_ip6 (r_dst r)) as H6. destruct (ip_address_decode _) as [a4 a6].
  cbn in H4, H6. rewrite length_app, length_take, length_replicate.
  destruct is_ipv6; [by rewrite H6|by rewrite H4].
Qed.

Lemma rule_proto_ok is_ipv6 : rule_proto is_ipv6 <> DPO_PROTO_OTHER.
Proof. by destruct is_ipv6. Qed.

(** An add keeps the redirects within the ACLs that exist. *)
Lemma add_owned own inval F st t opaque proto m rpaths :
  redirect_wf st -> is_u32 t -> entries_owned own st -> length m = 16%nat -> t ∈ own ->
  proto <> DPO_PROTO_OTHER ->
  entries_owned own (fst (tunterm_acl_redirect_add inval F st t opaque proto m rpaths)).
Proof.
  intros Hwf Hu Hown Hm Ht Hp.
  pose proof (add_spec inval F st t opaque proto m rpaths Hwf Hm Hu (proto_chain _ Hp)) as Hs.
  cbv zeta in Hs. destruct (tunterm_acl_redirect_add _ _ _ _ _ _ _ _) as [st' rv].
  destruct Hs as (Hwf' & _ & Ho & _). cbn. intros i ipr Hi.
  destruct (entry_of_pool st' i ipr Hwf' Hi) as (m' & Hm' & _ & Hu' & _ & He).
  destruct (decide ((table_index ipr, m') = (t, m))) as [[= -> ->]|Hne]; [done|].
  rewrite Ho in He by done. unfold entry in He.
  destruct (tunterm_acl_redirect_find st (table_index ipr) m') as [j|]; [|done].
  by eapply Hown.
Qed.

Lemma add_rules_ok (own : gset Z) (F : fib_env) (is_ipv6 : bool) (t : Z)
    (rules : list vl_api_tunterm_acl_rule_t) (st : rstate) (acc : gmap (list Z) session_t) :
  redirect_wf st -> in_step own st -> entries_owned own st -> t ∈ own ->
  INVALID_VALUE_3 codes <> 0 ->
  (forall m, length m = 16%nat -> classify_session (classify_main st) t m = acc !! m) ->
  let '(st', rv) := add_rules codes F is_ipv6 t rules st in
  (forall t' m, t' <> t -> classify_session (classify_main st') t' m =
     classify_session (classify_main st) t' m) /\
  (forall t', classify_table (classify_main st') t' = classify_table (classify_main st) t') /\
  (rv = 0 -> redirect_wf st' /\ in_step own st' /\ entries_owned own st' /\
     forall m, length m = 16%nat -> classify_session (classify_main st') t m =
       fold_left (fun acc r => <[rule_match is_ipv6 r := rule_session F is_ipv6 r]> acc) rules acc !! m).
Proof.
  revert st acc; induction rules as [|r rules IH]; intros st acc Hwf Hin Hown Ht Hc3 Hacc; cbn [add_rules].
  { by split_and!. }
  destruct (fib_api_path_decode (r_path r)) as [rv path] eqn:Hpath.
  destruct (c_true rv) eqn:Hrv; [split_and!; try done; intros ->; done|].
  destruct (negb _); [by split_and!|].
  pose proof (rule_match_length is_ipv6 r) as Hm. pose proof (rule_proto_ok is_ipv6) as Hp.
  pose proof (add_spec (INVALID_ADDRESS_FAMILY codes) F st t 0 (rule_proto is_ipv6)
    (rule_match is_ipv6 r) [path] Hwf Hm (proj1 Hin t Ht) (proto_chain _ Hp)) as Hs.
  pose proof (add_owned own (INVALID_ADDRESS_FAMILY codes) F st t 0 _ _ [path] Hwf (proj1 Hin t Ht) Hown Hm Ht Hp) as Ho.
  pose proof (add_in_step (INVALID_ADDRESS_FAMILY codes) own F st t 0 (rule_proto is_ipv6)
    (rule_match is_ipv6 r) [path]) as Hst.
  cbv zeta in Hs. destruct (tunterm_acl_redirect_add _ _ _ _ _ _ _ _) as [st1 rv1].
  destruct Hs as (Hwf1 & _ & _ & Hs1 & Hs2 & Ht1). cbn in Ho.
  destruct (c_true rv1) eqn:Hrv1.
  { split_and!; [|done|intros ->; done]. intros t' m Hne. apply Hs2. congruence. }
  assert (rv1 = 0) as -> by (unfold c_true in Hrv1; by destruct (Z.eqb_spec rv1 0)).
  specialize (Hst st1 Hwf Hin Hm Ht (proto_chain _ Hp) eq_refl).
  specialize (IH st1 (<[rule_match is_ipv6 r := rule_session F is_ipv6 r]> acc) Hwf1 Hst Ho Ht Hc3).
  destruct (add_rules codes F is_ipv6 t rules st1) as [st' rv']. destruct IH as (IH1 & IH2 & IH3).
  { intros m Hm'. rewrite lookup_insert.
    destruct (decide (rule_match is_ipv6 r = m)) as [<-|Hne].
    - rewrite Hs1. unfold rule_session. by rewrite Hpath.
    - rewrite Hs2 by congruence. auto. }
  split_and!; [|intros t'; by rewrite IH2|done].
  intros t' m Hne. rewrite IH1, Hs2 by congruence. done.
Qed.

(** A new table is outside the ACLs there are, and with it the invariant holds for
    one ACL more. *)
Lemma new_table_inv own ts is_ipv6 cs t :
  tunterm_inv own ts ->
  vnet_classify_add_table (classify_main (ts_redirect ts)) (table_mask is_ipv6) = (cs, 0, t) ->
  let v := <[Z.to_nat t := is_ipv6]>
    (vec_validate_init_empty (classify_table_index_is_v6 (ts_main ts)) t false) in
  t ∉ own /\ 0 <= t /\
  tunterm_inv ({[t]} ∪ own)
    (mkTstate (mkTam (classify_table_index_by_sw_if_index_v4 (ts_main ts))
       (classify_table_index_by_sw_if_index_v6 (ts_main ts)) v)
       (set_classify cs (ts_redirect ts)) (ts_features ts)).
Proof.
  intros (Hwf & [Hu Hin] & Hown & Ha1 & Ha2 & Ha3 & Ha4) Hadd. cbv zeta.
  apply add_table_ok in Hadd as (Hnone & Htu & Htn & Hmask & Hsess & Hother).
  assert (Hfresh : t ∉ own)
    by (intros Ht; destruct (Ha1 t Ht) as (_ & af & _ & Hc); congruence).
  assert (Ht0 : 0 <= t) by (widths; lia).
  destruct (vec_grow_set (classify_table_index_is_v6 (ts_main ts)) t false is_ipv6 Ht0) as (_ & Hget & Hold).
  refine (conj Hfresh (conj Ht0 (conj Hwf (conj (conj _ _) (conj _ (conj _ (conj _ (conj _ Ha4)))))))); cbn.
  - intros t' [->%elem_of_singleton|Ht']%elem_of_union; auto.
  - intros t' m [->%elem_of_singleton|Ht']%elem_of_union Hm.
    + rewrite Hsess. change (None = dpo <$> entry (ts_redirect ts) t m). unfold entry.
      destruct (tunterm_acl_redirect_find (ts_redirect ts) t m) as [i|] eqn:Hf; [|done].
      destruct (find_entry _ _ _ _ Hwf Hm Htu Hf) as (ipr & Hi & _ & Hti).
      apply Hown in Hi. congruence.
    + destruct (Hother t') as [_ Hs]; [congruence|]. by rewrite Hs, Hin.
  - intros i ipr Hi. apply elem_of_union. right. by eapply Hown.
  - intros t' [->%elem_of_singleton|Ht']%elem_of_union.
    + split; [done|]. by exists is_ipv6.
    + destruct (Ha1 t' Ht') as (Hn & af & Haf & Hc). split; [done|]. exists af.
      destruct (Hother t') as [Ht'' _]; [congruence|]. rewrite Ht''. split; [|done].
      apply Hold; [congruence|done].
  - intros sw t' Hat. destruct (Ha2 sw t' Hat) as [Ht' Haf]. split; [set_solver|].
    apply Hold; [congruence|done].
  - intros sw t' Hat. destruct (Ha3 sw t' Hat) as [Ht' Haf]. split; [set_solver|].
    apply Hold; [congruence|done].
Qed.

Lemma ensure_table_ok own ts is_ipv6 index :
  tunterm_inv own ts -> index = U32_MAX \/ index ∈ own ->
  exists tam st rv t,
    ensure_table is_ipv6 (ts_main ts) (ts_redirect ts) index = Some (tam, st, rv, t) /\
    (forall t' m, t' <> t -> classify_session (classify_main st) t' m =
       classify_session (classify_main (ts_redirect ts)) t' m) /\
    (forall af, slot af tam = slot af (ts_main ts)) /\
    (rv = 0 -> (index ∈ own -> t = index) /\ (index ∉ own -> t ∉ own) /\
       tunterm_inv ({[t]} ∪ own) (mkTstate tam st (ts_features ts))).
Proof.
  intros Hinv Hidx. unfold ensure_table. destruct (Z.eqb_spec index U32_MAX) as [->|Hne].
  - destruct (vnet_classify_add_table _ _) as [[cs rv] t] eqn:Hadd.
    destruct (Z.eqb_spec rv 0) as [->|Hrv]; cbn [negb].
    + destruct (new_table_inv own ts is_ipv6 cs t Hinv Hadd) as (Hfresh & Ht0 & Hinv').
      destruct (vec_grow_set (classify_table_index_is_v6 (ts_main ts)) t false is_ipv6 Ht0) as (-> & _). cbn.
      eexists _, _, _, _. split; [reflexivity|].
      apply add_table_ok in Hadd as (_ & _ & _ & _ & _ & Hother).
      split; [|split; [by intros [|]|intros _; split_and!; try done]].
      * intros t' m Hn. cbn. by destruct (Hother t' Hn) as [_ ->].
      * intros Hm. destruct Hinv as (_ & _ & _ & Ha1 & _). by destruct (Ha1 _ Hm).
    + eexists _, _, _, _. split; [reflexivity|]. split; [|done]. intros t' m _. cbn.
      by destruct (add_table_err _ _ _ _ _ Hadd Hrv t') as [_ ->].
  - destruct Hidx as [?|Hidx]; [done|]. eexists _, _, _, _. split; [reflexivity|]. split; [done|].
    split; [done|]. intros _. replace ({[index]} ∪ own) with own by set_solver. by destruct ts.
Qed.

(** The attachments do not look at the redirects. *)
Lemma attach_ok_redirect own ts st :
  (forall t, classify_table (classify_main st) t = classify_table (classify_main (ts_redirect ts)) t) ->
  attach_ok own ts -> attach_ok own (set_redirect st ts).
Proof.
  intros Ht (Ha1 & Ha). split; [|exact Ha]. intros t Hin. cbn. rewrite Ht. by apply Ha1.
Qed.

Lemma clear_owned own st t :
  redirect_wf st -> in_step own st -> entries_owned own st -> t ∈ own ->
  entries_owned own (fst (tunterm_acl_redirect_clear st t)).
Proof.
  intros Hwf Hin Hown Ht. pose proof (clear_ok own st t Hwf Hin Ht) as Hc.
  destruct (tunterm_acl_redirect_clear st t) as [st' rv]. destruct Hc as (_ & _ & _ & Hp & _).
  cbn. intros i ipr Hi. rewrite Hp in Hi. case_decide; [done|]. by eapply Hown.
Qed.

Lemma update_ok own ts F is_ipv6 count rules index :
  codes_ok codes -> tunterm_inv own ts -> index = U32_MAX \/ index ∈ own ->
  (count <= length rules)%nat ->
  exists ts' rv t,
    update_classify_table_and_sessions codes F is_ipv6 count rules index ts = Some (ts', rv, t) /\
    (forall t' m, t' <> t -> classify_session (classify_main (ts_redirect ts')) t' m =
       classify_session (classify_main (ts_redirect ts)) t' m) /\
    (forall af, slot af (ts_main ts') = slot af (ts_main ts)) /\ ts_features ts' = ts_features ts /\
    (rv = 0 -> (index ∈ own -> t = index) /\ (index ∉ own -> t ∉ own) /\
       tunterm_inv ({[t]} ∪ own) ts' /\
       (forall m, length m = 16%nat -> classify_session (classify_main (ts_redirect ts')) t m =
          rules_sessions F is_ipv6 (take count rules) !! m)).
Proof.
  intros (_ & Hc2 & Hc3 & _) Hinv Hidx Hcount. unfold update_classify_table_and_sessions.
  destruct (ensure_table_ok own ts is_ipv6 index Hinv Hidx) as (tam & st & rv & t & -> & Hs & Hsl & Hok).
  cbn [mbind option_bind].
  destruct (Z.eqb_spec rv 0) as [->|Hrv]; cbn [negb]; [|eexists _, _, _; by split_and!].
  destruct (Hok eq_refl) as (Hin1 & Hin2 & Hinv'). clear Hok.
  set (own' := {[t]} ∪ own) in *. assert (Ht : t ∈ own') by set_solver.
  pose proof Hinv' as (Hwf & Hin & Hown & Ha). destruct (proj1 Ha t Ht) as (_ & af & Haf & _).
  cbn [ts_main] in Haf. rewrite Haf. cbn [mbind option_bind].
  assert (Hpre : exists ok, (if (0 <? count)%nat then Some (bool_decide (af = is_ipv6)) else Some true)
    = Some ok) by (destruct (0 <? count)%nat; eauto).
  destruct Hpre as [ok ->]. cbn [mbind option_bind]. destruct ok; cbn [negb]; [|eexists _, _, _; by split_and!].
  pose proof (clear_ok own' st t Hwf Hin Ht) as Hc.
  pose proof (fun m => clear_empty own' st t m Hwf Hin Ht) as He.
  pose proof (clear_owned own' st t Hwf Hin Hown Ht) as Ho1.
  destruct (tunterm_acl_redirect_clear st t) as [st1 rv1].
  destruct Hc as (-> & Hwf1 & Hin1' & _ & Hs1 & Ht1). cbn [negb Z.eqb].
  rewrite option_guard_True by done. cbn in Ho1 |- *.
  pose proof (add_rules_ok own' F is_ipv6 t (take count rules) st1 ∅ Hwf1 Hin1' Ho1 Ht Hc3) as Hr.
  destruct (add_rules _ _ _ _ _ _) as [st2 rv2].
  destruct Hr as (Hs2 & Ht2 & Hr).
  { intros m Hm. rewrite lookup_empty. by destruct (He m Hm). }
  eexists _, _, _. split; [reflexivity|]. cbn. split; [|split; [exact Hsl|split; [done|]]].
  - intros t' m Hne. by rewrite Hs2, Hs1, Hs.
  - intros Hrv. destruct (Hr Hrv) as (Hwf2 & Hin2' & Ho2 & Hsess). split_and!; try done.
    refine (conj Hwf2 (conj Hin2' (conj Ho2 _))).
    apply (attach_ok_redirect own' (mkTstate tam st (ts_features ts))); [|done].
    intros t'. cbn. by rewrite Ht2, Ht1.
Qed.

(** Messages long enough for their count carry that many rules. *)
Lemma message_len_covers sizeof_mp sizeof_rule count (n : nat) supplied :
  0 <= sizeof_mp < 2 ^ 16 -> 0 < sizeof_rule < 2 ^ 16 -> is_u32 count ->
  supplied = sizeof_mp + Z.of_nat n * sizeof_rule ->
  verify_message_len supplied (u64 (sizeof_mp + u64 (count * sizeof_rule))) = true ->
  (Z.to_nat count <= n)%nat.
Proof.
  unfold verify_message_len, is_u32. intros Hmp Hr Hc -> Hv. apply negb_true_iff, Z.ltb_ge in Hv.
  assert (Hlt : 0 <= count * sizeof_rule < 2 ^ 48) by nia.
  unfold u64 in Hv. rewrite (Z.mod_small (count * sizeof_rule)) in Hv by lia.
  rewrite Z.mod_small in Hv by lia. nia.
Qed.

Lemma message_len_accepts sizeof_mp sizeof_rule count (n : nat) supplied :
  0 <= sizeof_mp < 2 ^ 16 -> 0 < sizeof_rule < 2 ^ 16 -> is_u32 count ->
  supplied = sizeof_mp + Z.of_nat n * sizeof_rule -> (Z.to_nat count <= n)%nat ->
  verify_message_len supplied (u64 (sizeof_mp + u64 (count * sizeof_rule))) = true.
Proof.
  unfold verify_message_len, is_u32. intros Hmp Hr Hc -> Hn. apply negb_true_iff, Z.ltb_ge.
  assert (Hlt : 0 <= count * sizeof_rule < 2 ^ 48) by nia.
  unfold u64. rewrite (Z.mod_small (count * sizeof_rule)) by lia. rewrite Z.mod_small by lia. nia.
Qed.

(** *** Attachments *)

Lemma attached_somewhere v t :
  t <> U32_MAX -> existsb (fun x => x =? t) v = true -> exists sw, attached v sw = Some t.
Proof.
  intros Hn Hex. apply existsb_exists in Hex as (x & Hx & ->%Z.eqb_eq).
  apply list_elem_of_In, list_elem_of_lookup in Hx as [j Hj]. exists (Z.of_nat j).
  unfold attached, vec_get. rewrite (proj2 (Z.ltb_ge _ _)), Nat2Z.id, Hj by lia. cbn.
  by rewrite (proj2 (Z.eqb_neq _ _)).
Qed.

(** The invariant for the remaining ACLs once a table's redirects are cleared, it
    is attached nowhere and it is deleted. *)
Lemma del_table_inv own ts t st y :
  tunterm_inv own ts -> redirect_wf st -> in_step own st -> entries_owned own st ->
  (forall i ipr, pool st !! i = Some ipr -> table_index ipr <> t) ->
  (forall t', classify_table (classify_main st) t' =
     classify_table (classify_main (ts_redirect ts)) t') ->
  (forall af sw, attached (slot af (ts_main ts)) sw <> Some t) ->
  vec_get (classify_table_index_is_v6 (ts_main ts)) t = Some y ->
  tunterm_inv (own ∖ {[t]})
    (mkTstate (mkTam (classify_table_index_by_sw_if_index_v4 (ts_main ts))
         (classify_table_index_by_sw_if_index_v6 (ts_main ts))
         (<[Z.to_nat t := false]> (classify_table_index_is_v6 (ts_main ts))))
       (set_classify (vnet_classify_delete_table_index (classify_main st) t) st) (ts_features ts)).
Proof.
  intros (_ & _ & _ & Ha1 & Ha2 & Ha3 & Ha4) Hwf [Hu Hin] Hown Hno Htab Hnat Hy.
  assert (Hkeep : forall t' af, t' <> t ->
    vec_get (classify_table_index_is_v6 (ts_main ts)) t' = Some af ->
    vec_get (<[Z.to_nat t := false]> (classify_table_index_is_v6 (ts_main ts))) t' = Some af)
    by (intros t' af Hne Haf; by rewrite (vec_get_insert _ _ _ _ _ Hy), decide_False).
  refine (conj Hwf (conj (conj _ _) (conj _ (conj _ (conj _ (conj _ Ha4)))))); cbn.
  - intros t' [Ht' _]%elem_of_difference. auto.
  - intros t' m [Ht' Hne]%elem_of_difference Hm. rewrite elem_of_singleton in Hne.
    destruct (delete_table_frame (classify_main st) t t' Hne) as [_ ->]. by apply Hin.
  - intros i ipr Hi. apply elem_of_difference. rewrite elem_of_singleton.
    split; [by eapply Hown|by eapply Hno].
  - intros t' [Ht' Hne]%elem_of_difference. rewrite elem_of_singleton in Hne.
    destruct (Ha1 t' Ht') as (Hn & af & Haf & Hmask). split; [done|]. exists af.
    destruct (delete_table_frame (classify_main st) t t' Hne) as [-> _]. rewrite Htab. auto.
  - intros sw t' Hat. assert (t' <> t) by (intros ->; by apply (Hnat false sw)).
    destruct (Ha2 sw t' Hat). split; [set_solver|auto].
  - intros sw t' Hat. assert (t' <> t) by (intros ->; by apply (Hnat true sw)).
    destruct (Ha3 sw t' Hat). split; [set_solver|auto].
Qed.

(** The invariant after one slot and the feature of that interface changed. *)
Lemma reattach_inv own ts af sw v4 v6 fs x :
  tunterm_inv own ts ->
  (forall (af' : bool) sw', attached (if af' then v6 else v4) sw' =
     if decide (af' = af /\ sw' = sw) then x else attached (slot af' (ts_main ts)) sw') ->
  (forall t, x = Some t ->
     t ∈ own /\ vec_get (classify_table_index_is_v6 (ts_main ts)) t = Some af) ->
  (forall (af' : bool) sw', sw' = sw \/ is_Some (vec_get (slot af' (ts_main ts)) sw') ->
     is_Some (vec_get (if af' then v6 else v4) sw')) ->
  (forall sw', vnet_feature_is_enabled fs (bypass_key sw') =
     if decide (sw' = sw)
     then bool_decide (is_Some x \/ is_Some (attached (slot (negb af) (ts_main ts)) sw))
     else vnet_feature_is_enabled (ts_features ts) (bypass_key sw')) ->
  tunterm_inv own (with_slots v4 v6 ts fs).
Proof.
  intros (Hwf & Hin & Hown & Ha1 & Ha2 & Ha3 & Ha4 & Ha5) Hslots Hx Hcov Hfs.
  pose proof (Hslots false) as H4. pose proof (Hslots true) as H6. cbn in H4, H6.
  refine (conj Hwf (conj Hin (conj Hown (conj Ha1 (conj _ (conj _ (conj _ _))))))); cbn.
  - intros sw' t. rewrite H4. destruct (decide (false = af /\ sw' = sw)) as [[<- _]|]; [apply Hx|apply Ha2].
  - intros sw' t. rewrite H6. destruct (decide (true = af /\ sw' = sw)) as [[<- _]|]; [apply Hx|apply Ha3].
  - intros sw'. rewrite Hfs, H4, H6. clear Hfs H4 H6 Hslots.
    destruct (decide (sw' = sw)) as [->|Hne].
    + rewrite bool_decide_eq_true.
      destruct af; cbn [negb slot]; repeat case_decide; intuition congruence.
    + rewrite !decide_False by (by intros [_ ?]). apply Ha4.
  - intros af' sw' Hon. rewrite Hfs in Hon.
    assert (Hs : is_Some (vec_get (if af' then v6 else v4) sw')); [|by destruct af'].
    apply Hcov. destruct (decide (sw' = sw)) as [->|Hne]; [by left|right; by apply Ha5].
Qed.

Lemma validate_slot v sw :
  0 <= sw -> exists y, vec_get (vec_validate_init_empty v sw U32_MAX) sw = Some y /\
    attached v sw = if y =? U32_MAX then None else Some y.
Proof.
  intros Hsw. rewrite <- (attached_validate v sw sw Hsw). unfold attached.
  rewrite vec_validate_get by done. destruct (vec_get v sw) as [y|]; cbn; [eauto|].
  rewrite decide_True by lia. cbn. eauto.
Qed.

Lemma validate_covers (v : list Z) i sw :
  0 <= i -> sw = i \/ is_Some (vec_get v sw) -> is_Some (vec_get (vec_validate_init_empty v i U32_MAX) sw).
Proof.
  intros Hi Hsw. rewrite vec_validate_get by done. destruct (vec_get v sw) as [y|]; [done|].
  destruct Hsw as [->|[? ?]]; [|done]. by rewrite decide_True by lia.
Qed.

(** Growing both vectors changes nothing else. *)
Lemma grown_inv own ts sw :
  tunterm_inv own ts -> 0 <= sw ->
  tunterm_inv own (with_slots
    (vec_validate_init_empty (classify_table_index_by_sw_if_index_v4 (ts_main ts)) sw U32_MAX)
    (vec_validate_init_empty (classify_table_index_by_sw_if_index_v6 (ts_main ts)) sw U32_MAX)
    ts (ts_features ts)).
Proof.
  intros Hinv Hsw. pose proof Hinv as (_ & _ & _ & _ & Ha2 & _ & Ha4 & _).
  apply (reattach_inv own ts false sw _ _ _ (attached (slot false (ts_main ts)) sw)); [done| |by apply Ha2| |].
  - intros af' sw'. case_decide as Hd; [destruct Hd as [-> ->]|destruct af']; by apply attached_validate.
  - intros [|] sw'; by apply validate_covers.
  - intros sw'. case_decide as Hd; [|done]. subst sw'. symmetry.
    destruct (vnet_feature_is_enabled _ _) eqn:Hon.
    + by apply bool_decide_eq_true, Ha4.
    + apply bool_decide_eq_false. intros Hs. apply Ha4 in Hs. congruence.
Qed.

(** The slots after the handler has grown both vectors and written one entry. *)
Lemma slots_written tam (af : bool) sw x y4 y6 :
  0 <= sw ->
  let v4 := vec_validate_init_empty (classify_table_index_by_sw_if_index_v4 tam) sw U32_MAX in
  let v6 := vec_validate_init_empty (classify_table_index_by_sw_if_index_v6 tam) sw U32_MAX in
  vec_get v4 sw = Some y4 -> vec_get v6 sw = Some y6 ->
  exists w4 w6,
    (if af then Some v4 else vec_set v4 sw x) = Some w4 /\
    (if af then vec_set v6 sw x else Some v6) = Some w6 /\
    (forall (af' : bool) sw', attached (if af' then w6 else w4) sw' =
      if decide (af' = af /\ sw' = sw) then (if x =? U32_MAX then None else Some x)
      else attached (slot af' tam) sw') /\
    (forall (af' : bool) sw', sw' = sw \/ is_Some (vec_get (slot af' tam) sw') ->
       is_Some (vec_get (if af' then w6 else w4) sw')).
Proof.
  intros Hsw. cbv zeta. intros H4 H6.
  destruct af; rewrite ?(vec_set_Some _ _ _ _ H4), ?(vec_set_Some _ _ _ _ H6);
    eexists _, _; (split; [reflexivity|]); (split; [reflexivity|]); (split;
    [intros [|] sw';
     rewrite ?(attached_insert _ _ _ _ _ H4), ?(attached_insert _ _ _ _ _ H6), ?attached_validate by done;
     cbn [slot]; repeat case_decide; naive_solver
    |intros [|] sw' Hsw'; rewrite ?(vec_get_insert _ _ _ _ _ H4), ?(vec_get_insert _ _ _ _ _ H6);
     try (case_decide; [done|]); by apply validate_covers]).
Qed.

(** A call for the feature of one interface, successful or not. *)
Lemma bypass_call fs sw en fs' rv :
  (forall sw, shared_config "ip4-unicast"%string sw = false) ->
  vnet_feature_enable_disable fs (bypass_key sw) en = (fs', rv) ->
  forall sw', vnet_feature_is_enabled fs' (bypass_key sw') =
    if decide (sw' = sw /\ rv = 0) then en else vnet_feature_is_enabled fs (bypass_key sw').
Proof.
  intros Hown Hc sw'. case_decide as Hd; [destruct Hd as [-> ->]; by eapply feature_ok|].
  destruct (decide (sw' = sw)) as [->|Hne].
  - eapply feature_err; [done|tauto].
  - eapply feature_frame; [done|apply Hown|]. by intros [= ->].
Qed.

Lemma bypass_toggle fs sw en :
  (forall fs k en, snd (vnet_feature_enable_disable fs k en) = 0) ->
  (forall sw, shared_config "ip4-unicast"%string sw = false) ->
  exists fs', vnet_feature_enable_disable fs (bypass_key sw) en = (fs', 0) /\
    forall sw', vnet_feature_is_enabled fs' (bypass_key sw') =
      if decide (sw' = sw) then en else vnet_feature_is_enabled fs (bypass_key sw').
Proof.
  intros Hok Hown. pose proof (Hok fs (bypass_key sw) en) as Hrv.
  destruct (vnet_feature_enable_disable fs (bypass_key sw) en) as [fs' rv] eqn:Hc. cbn in Hrv. subst rv.
  exists fs'. split; [done|]. intros sw'. rewrite (bypass_call _ _ _ _ _ Hown Hc).
  by repeat case_decide; naive_solver.
Qed.

(** The handler's test on the raw entries is whether the ACL is in the slot of its
    own family: it cannot be in the other family's. *)
Lemma slot_matches (ts : tstate) t af sw y4 y6 :
  t <> U32_MAX -> (forall af', attached (slot af' (ts_main ts)) sw = Some t -> af' = af) ->
  attached (classify_table_index_by_sw_if_index_v4 (ts_main ts)) sw =
    (if y4 =? U32_MAX then None else Some y4) ->
  attached (classify_table_index_by_sw_if_index_v6 (ts_main ts)) sw =
    (if y6 =? U32_MAX then None else Some y6) ->
  negb (t =? y4) && negb (t =? y6) = false <-> attached (slot af (ts_main ts)) sw = Some t.
Proof.
  intros Hn Haf H4 H6. rewrite andb_false_iff, !negb_false_iff, !Z.eqb_eq. split.
  - intros [<-|<-]; rewrite (proj2 (Z.eqb_neq _ _) Hn) in *.
    + by rewrite <- (Haf false H4).
    + by rewrite <- (Haf true H6).
  - intros Hat. destruct af; cbn in Hat.
    + rewrite H6 in Hat. destruct (y6 =? U32_MAX); [done|]. right. congruence.
    + rewrite H4 in Hat. destruct (y4 =? U32_MAX); [done|]. left. congruence.
Qed.

(** After a detach the feature is on exactly when the other slot is taken. *)
Lemma detach_feature own ts t af sw y4 y6 :
  (forall fs k en, snd (vnet_feature_enable_disable fs k en) = 0) ->
  (forall sw, shared_config "ip4-unicast"%string sw = false) ->
  tunterm_inv own ts -> attached (slot af (ts_main ts)) sw = Some t ->
  attached (classify_table_index_by_sw_if_index_v4 (ts_main ts)) sw =
    (if y4 =? U32_MAX then None else Some y4) ->
  attached (classify_table_index_by_sw_if_index_v6 (ts_main ts)) sw =
    (if y6 =? U32_MAX then None else Some y6) ->
  exists fs, (if (y4 =? U32_MAX) || (y6 =? U32_MAX)
    then vnet_feature_enable_disable (ts_features ts) (bypass_key sw) false
    else (ts_features ts, 0)) = (fs, 0) /\
    forall sw', vnet_feature_is_enabled fs (bypass_key sw') =
      if decide (sw' = sw) then bool_decide (is_Some (attached (slot (negb af) (ts_main ts)) sw))
      else vnet_feature_is_enabled (ts_features ts) (bypass_key sw').
Proof.
  intros Hok Hown (_ & _ & _ & _ & _ & _ & Ha4 & _) Hat H4 H6.
  destruct ((y4 =? U32_MAX) || (y6 =? U32_MAX)) eqn:Hlast.
  - destruct (bypass_toggle (ts_features ts) sw false Hok Hown) as (fs & Hc & Hfs).
    exists fs. split; [done|]. intros sw'. rewrite Hfs. case_decide; [|done]. symmetry.
    apply bool_decide_eq_false. intros [t' Ht'].
    destruct af; cbn in Hat, Ht'; rewrite H4, H6 in *;
      destruct (y4 =? U32_MAX), (y6 =? U32_MAX); done.
  - apply orb_false_iff in Hlast as [Hl4 Hl6]. rewrite Hl4 in H4. rewrite Hl6 in H6.
    exists (ts_features ts). split; [done|]. intros sw'. case_decide as Hd; [|done]. subst sw'.
    assert (is_Some (attached (slot (negb af) (ts_main ts)) sw)) as Hs
      by (destruct af; cbn; [rewrite H4|rewrite H6]; eauto).
    rewrite bool_decide_eq_true_2 by done. apply Ha4. rewrite H4. eauto.
Qed.

End Facts.

(** ** Theorems *)

Section Theorems.
Context `{Vlib} `{Classify} `{FibApi} `{VnetFeature}.
Variable codes : tunterm_codes.
Hypothesis codes_nonzero : codes_ok codes.

(** C12.  Creating or replacing an ACL, in a consistent configuration whose ACLs are
    [own].  A message whose length field is honest, for an existing ACL or all ones, is
    read within its bounds whatever count it claims; and when the reply is 0, the
    sessions of the ACL's table are exactly the rules': each destination forwards
    by the last rule that names it, nothing else of the table's former contents
    is left, a new index gets a table that was nobody's, and the whole
    configuration stays consistent.  Whatever the reply, the sessions of other tables,
    the attachments and the features are untouched. *)
Theorem tunterm_add_replace_programs own ts F sizeof_mp sizeof_rule supplied is_ipv6
    mp_index mp_count mp_r :
  tunterm_inv own ts ->
  0 <= sizeof_mp < 2 ^ 16 -> 0 < sizeof_rule < 2 ^ 16 ->
  supplied = sizeof_mp + Z.of_nat (length mp_r) * sizeof_rule ->
  let index := net_to_host host 4 mp_index in
  let count := net_to_host host 4 mp_count in
  is_u32 count -> index = U32_MAX \/ index ∈ own ->
  exists ts' rv t,
    vl_api_tunterm_acl_add_replace_t_handler codes sizeof_mp sizeof_rule F supplied is_ipv6
      mp_index mp_count mp_r ts = Some (ts', rv, net_to_host host 4 t) /\
    (forall t' m, t' <> t -> classify_session (classify_main (ts_redirect ts')) t' m =
       classify_session (classify_main (ts_redirect ts)) t' m) /\
    (forall af, slot af (ts_main ts') = slot af (ts_main ts)) /\ ts_features ts' = ts_features ts /\
    (rv = 0 ->
       (index ∈ own -> t = index) /\ (index ∉ own -> t ∉ own) /\ tunterm_inv ({[t]} ∪ own) ts' /\
       forall m, length m = 16%nat -> classify_session (classify_main (ts_redirect ts')) t m =
         rules_sessions F is_ipv6 (take (Z.to_nat count) mp_r) !! m).
Proof using codes_nonzero.
  intros Hinv Hmp Hrule Hlen. cbv zeta. intros Hcount Hidx.
  unfold vl_api_tunterm_acl_add_replace_t_handler.
  destruct (verify_message_len _ _) eqn:Hv.
  - assert (Hle : (Z.to_nat (net_to_host host 4 mp_count) <= length mp_r)%nat)
      by (by eapply message_len_covers).
    destruct (update_ok codes own ts F is_ipv6 _ mp_r _ codes_nonzero Hinv Hidx Hle)
      as (ts' & rv & t & Hupd & Hok).
    rewrite Hupd. cbn. eexists _, _, _. split; [reflexivity|]. exact Hok.
  - destruct codes_nonzero as [Hc _]. eexists _, _, _. split; [reflexivity|]. by split_and!.
Qed.

(** Deleting an ACL.  One that is attached to any interface is refused with
    the in-use code and nothing changes; any other is removed completely: its
    sessions and its table are gone, the sessions of other tables are untouched,
    and the configuration of the remaining ACLs stays consistent. *)
Lemma tunterm_del_safe own ts mp_index :
  tunterm_inv own ts ->
  let t := net_to_host host 4 mp_index in
  t ∈ own ->
  exists ts' rv, vl_api_tunterm_acl_del_t_handler codes mp_index ts = Some (ts', rv) /\
    ((exists af sw, attached (slot af (ts_main ts)) sw = Some t) ->
       rv = RSRC_IN_USE codes /\ ts' = ts) /\
    ((forall af sw, attached (slot af (ts_main ts)) sw <> Some t) ->
       rv = 0 /\ tunterm_inv (own ∖ {[t]}) ts' /\
       classify_table (classify_main (ts_redirect ts')) t = None /\
       (forall m, classify_session (classify_main (ts_redirect ts')) t m = None) /\
       (forall t' m, t' <> t -> classify_session (classify_main (ts_redirect ts')) t' m =
         classify_session (classify_main (ts_redirect ts)) t' m) /\
       (forall af, slot af (ts_main ts') = slot af (ts_main ts)) /\
       forall t', t' <> t ->
         vec_get (classify_table_index_is_v6 (ts_main ts')) t' =
           vec_get (classify_table_index_is_v6 (ts_main ts)) t' /\
         forall m, is_u32 t' -> length m = 16%nat ->
           entry (ts_redirect ts') t' m = entry (ts_redirect ts) t' m).
Proof.
  intros Hinv. cbv zeta. set (t := net_to_host host 4 mp_index). intros Ht.
  pose proof Hinv as (Hwf & Hin & Hown & Ha). pose proof Ha as (Ha1 & Ha2 & Ha3 & Ha4).
  destruct (Ha1 t Ht) as (Hn & af & Haf & Htab).
  unfold vl_api_tunterm_acl_del_t_handler. fold t. rewrite (proj2 (Z.eqb_neq _ _) Hn).
  destruct (existsb _ (classify_table_index_by_sw_if_index_v4 _)) eqn:H4.
  { eexists _, _. split; [reflexivity|]. split; [done|]. intros Hno. exfalso.
    destruct (attached_somewhere _ t Hn H4) as [sw Hsw]. by apply (Hno false sw). }
  destruct (existsb _ (classify_table_index_by_sw_if_index_v6 _)) eqn:H6.
  { eexists _, _. split; [reflexivity|]. split; [done|]. intros Hno. exfalso.
    destruct (attached_somewhere _ t Hn H6) as [sw Hsw]. by apply (Hno true sw). }
  pose proof (clear_ok own _ t Hwf Hin Ht) as Hc.
  pose proof (clear_owned own _ t Hwf Hin Hown Ht) as Ho1.
  pose proof (fun t' m => clear_entry own _ t t' m Hwf Hin Ht) as He1.
  destruct (tunterm_acl_redirect_clear _ t) as [st rv]. cbn in Ho1, He1.
  destruct Hc as (-> & Hwf1 & Hin1 & Hp & Hs1 & Ht1). cbn [negb Z.eqb].
  rewrite (vec_set_Some _ _ _ _ Haf). cbn [mbind option_bind].
  eexists _, _. split; [reflexivity|]. split.
  { intros (af' & sw & Hat). exfalso. destruct af'; [by eapply not_attached in H6|].
    by eapply not_attached in H4. }
  intros _. split; [done|].
  destruct (delete_table_gone (classify_main st) t) as [Hg1 Hg2]. cbn.
  split; [|split_and!; try done].
  - apply (del_table_inv own ts t st af); try done.
    + intros i ipr Hi. rewrite Hp in Hi. case_decide as Hd; [done|].
      by rewrite (elt_lookup _ _ _ Hi) in Hd.
    + intros [|] sw; by apply not_attached.
  - intros t' m Hne. destruct (delete_table_frame (classify_main st) t t' Hne) as [_ ->]. by apply Hs1.
  - intros t' Hne. rewrite (vec_get_insert _ _ _ _ _ Haf), decide_False by done. split; [done|].
    intros m Hu Hm. by rewrite <- He1.
Qed.

Hypothesis calls_ok : forall fs k en, snd (vnet_feature_enable_disable fs k en) = 0.
Hypothesis own_config : forall sw, shared_config "ip4-unicast"%string sw = false.

(** Attaching an ACL to an interface answers 0, puts the ACL in the slot of
    its address family of that interface and changes no other slot, and keeps
    the configuration consistent: in particular the bypass feature is on exactly
    at the interfaces with an ACL. *)
Lemma tunterm_attach own ts sw_interfaces mp_sw mp_index :
  tunterm_inv own ts ->
  let sw := net_to_host host 4 mp_sw in
  let t := net_to_host host 4 mp_index in
  sw_interfaces sw = true -> 0 <= sw -> t ∈ own ->
  exists ts' af,
    vl_api_tunterm_acl_interface_add_del_t_handler codes sw_interfaces true mp_sw mp_index ts
      = Some (ts', 0) /\
    vec_get (classify_table_index_is_v6 (ts_main ts)) t = Some af /\ tunterm_inv own ts' /\
    ts_redirect ts' = ts_redirect ts /\
    classify_table_index_is_v6 (ts_main ts') = classify_table_index_is_v6 (ts_main ts) /\
    forall af' sw', attached (slot af' (ts_main ts')) sw' =
      if decide (af' = af /\ sw' = sw) then Some t else attached (slot af' (ts_main ts)) sw'.
Proof using calls_ok own_config.
  intros Hinv. cbv zeta. set (sw := net_to_host host 4 mp_sw).
  set (t := net_to_host host 4 mp_index). intros Hswi Hsw Ht.
  pose proof Hinv as (_ & _ & _ & Ha1 & _ & _ & Ha4). destruct (Ha1 t Ht) as (Hn & af & Haf & _).
  unfold vl_api_tunterm_acl_interface_add_del_t_handler. fold sw t.
  rewrite (proj2 (Z.eqb_neq _ _) Hn), Hswi, Haf. cbn [negb].
  destruct (validate_slot (classify_table_index_by_sw_if_index_v4 (ts_main ts)) sw Hsw) as (y4 & H4 & _).
  destruct (validate_slot (classify_table_index_by_sw_if_index_v6 (ts_main ts)) sw Hsw) as (y6 & H6 & _).
  destruct (slots_written (ts_main ts) af sw t y4 y6 Hsw H4 H6) as (w4 & w6 & -> & -> & Hw & Hcov).
  rewrite (proj2 (Z.eqb_neq _ _) Hn) in Hw. cbn [mbind option_bind].
  assert (Hf : exists fs, (if negb (vnet_feature_is_enabled (ts_features ts) (bypass_key sw))
    then vnet_feature_enable_disable (ts_features ts) (bypass_key sw) true
    else (ts_features ts, 0)) = (fs, 0) /\ forall sw', vnet_feature_is_enabled fs (bypass_key sw') =
      if decide (sw' = sw) then true else vnet_feature_is_enabled (ts_features ts) (bypass_key sw')).
  { destruct (vnet_feature_is_enabled (ts_features ts) (bypass_key sw)) eqn:Hon; cbn [negb].
    - exists (ts_features ts). split; [done|]. intros sw'. by case_decide; subst.
    - by apply bypass_toggle. }
  destruct Hf as (fs & -> & Hfs). eexists _, af. split; [reflexivity|]. split; [done|]. split.
  - apply (reattach_inv own ts af sw w4 w6 fs (Some t)); [done|done| |done|].
    + by intros ? [= <-].
    + intros sw'. rewrite Hfs. case_decide; [|done]. symmetry. apply bool_decide_eq_true. eauto.
  - do 2 (split; [done|]). intros [|] sw'; [apply (Hw true)|apply (Hw false)].
Qed.

(** Detaching an ACL that is attached to the interface answers 0, empties
    exactly that slot and keeps the configuration consistent, so the bypass
    feature goes off exactly when the other family's slot is empty too; detaching
    one that is not attached there is refused and changes no attachment and no
    feature. *)
Lemma tunterm_detach own ts sw_interfaces mp_sw mp_index :
  tunterm_inv own ts ->
  let sw := net_to_host host 4 mp_sw in
  let t := net_to_host host 4 mp_index in
  sw_interfaces sw = true -> 0 <= sw -> t ∈ own ->
  exists ts' rv af,
    vl_api_tunterm_acl_interface_add_del_t_handler codes sw_interfaces false mp_sw mp_index ts
      = Some (ts', rv) /\
    vec_get (classify_table_index_is_v6 (ts_main ts)) t = Some af /\
    tunterm_inv own ts' /\ ts_redirect ts' = ts_redirect ts /\
    classify_table_index_is_v6 (ts_main ts') = classify_table_index_is_v6 (ts_main ts) /\
    if decide (attached (slot af (ts_main ts)) sw = Some t)
    then rv = 0 /\
      forall af' sw', attached (slot af' (ts_main ts')) sw' =
        if decide (af' = af /\ sw' = sw) then None else attached (slot af' (ts_main ts)) sw'
    else rv = INVALID_VALUE_2 codes /\ ts_features ts' = ts_features ts /\
      forall af' sw', attached (slot af' (ts_main ts')) sw' = attached (slot af' (ts_main ts)) sw'.
Proof using calls_ok own_config.
  intros Hinv. cbv zeta. set (sw := net_to_host host 4 mp_sw).
  set (t := net_to_host host 4 mp_index). intros Hswi Hsw Ht.
  pose proof Hinv as (_ & _ & _ & Ha1 & Ha2 & Ha3 & Ha4). destruct (Ha1 t Ht) as (Hn & af & Haf & _).
  unfold vl_api_tunterm_acl_interface_add_del_t_handler. fold sw t.
  rewrite (proj2 (Z.eqb_neq _ _) Hn), Hswi, Haf. cbn [negb].
  destruct (validate_slot (classify_table_index_by_sw_if_index_v4 (ts_main ts)) sw Hsw) as (y4 & H4 & Hy4).
  destruct (validate_slot (classify_table_index_by_sw_if_index_v6 (ts_main ts)) sw Hsw) as (y6 & H6 & Hy6).
  rewrite H4, H6. cbn [mbind option_bind].
  assert (Hfam : forall af', attached (slot af' (ts_main ts)) sw = Some t -> af' = af)
    by (intros [|] Hx; [destruct (Ha3 _ _ Hx)|destruct (Ha2 _ _ Hx)]; congruence).
  pose proof (slot_matches ts t af sw y4 y6 Hn Hfam Hy4 Hy6) as Hmatch.
  destruct (decide (attached (slot af (ts_main ts)) sw = Some t)) as [Hat|Hat].
  - rewrite (proj2 Hmatch Hat).
    assert (Hf : exists fs, (if (y4 =? U32_MAX) || (y6 =? U32_MAX)
      then vnet_feature_enable_disable (ts_features ts) (bypass_key sw) false
      else (ts_features ts, 0)) = (fs, 0) /\ forall sw', vnet_feature_is_enabled fs (bypass_key sw') =
        if decide (sw' = sw) then bool_decide (is_Some (attached (slot (negb af) (ts_main ts)) sw))
        else vnet_feature_is_enabled (ts_features ts) (bypass_key sw')).
    { by apply (detach_feature own ts t af sw y4 y6). }
    destruct Hf as (fs & -> & Hfs). cbn [negb Z.eqb].
    destruct (slots_written (ts_main ts) af sw U32_MAX y4 y6 Hsw H4 H6) as (w4 & w6 & -> & -> & Hw & Hcov).
    cbn [mbind option_bind]. rewrite Z.eqb_refl in Hw.
    eexists _, _, af. split; [reflexivity|]. split; [done|]. split.
    2: { do 2 (split; [done|]). rewrite decide_True by done. split; [done|].
         intros [|] sw'; [apply (Hw true)|apply (Hw false)]. }
    apply (reattach_inv own ts af sw w4 w6 fs None); [done|done|done|done|].
    intros sw'. rewrite Hfs. case_decide; [|done]. apply bool_decide_ext.
    split; [by right|]. by intros [[? ?]|?].
  - destruct (negb (t =? y4) && negb (t =? y6)) eqn:Hno; [|by destruct Hat; apply Hmatch].
    eexists _, _, af. split; [reflexivity|]. split; [done|]. split; [by apply grown_inv|].
    do 2 (split; [done|]). rewrite decide_False by done.
    split_and!; try done. intros [|] sw'; cbn; by apply attached_validate.
Qed.

(** C34.  The ACL index of a message is not range checked: attaching to or detaching
    from an existing interface an index past the end of the per-table vector (which only
    creation grows), or deleting such an index when it is not attached and has no
    redirect that cannot be cleared, reads or writes outside the vector. *)
Theorem tunterm_index_unchecked ts sw_interfaces mp_sw mp_index is_add :
  let t := net_to_host host 4 mp_index in
  t <> U32_MAX -> Z.of_nat (length (classify_table_index_is_v6 (ts_main ts))) <= t ->
  (sw_interfaces (net_to_host host 4 mp_sw) = true ->
   vl_api_tunterm_acl_interface_add_del_t_handler codes sw_interfaces is_add mp_sw mp_index ts = None) /\
  (existsb (fun x => x =? t) (classify_table_index_by_sw_if_index_v4 (ts_main ts)) = false ->
   existsb (fun x => x =? t) (classify_table_index_by_sw_if_index_v6 (ts_main ts)) = false ->
   snd (tunterm_acl_redirect_clear (ts_redirect ts) t) = 0 ->
   vl_api_tunterm_acl_del_t_handler codes mp_index ts = None).
Proof.
  cbv zeta. set (t := net_to_host host 4 mp_index). intros Hn Hlen.
  assert (Hout : vec_get (classify_table_index_is_v6 (ts_main ts)) t = None).
  { unfold vec_get. destruct (t <? 0); [done|]. apply lookup_ge_None. lia. }
  split.
  - intros Hswi. unfold vl_api_tunterm_acl_interface_add_del_t_handler. fold t.
    by rewrite (proj2 (Z.eqb_neq _ _) Hn), Hswi, Hout.
  - intros H4 H6 Hclear. unfold vl_api_tunterm_acl_del_t_handler. fold t.
    rewrite (proj2 (Z.eqb_neq _ _) Hn), H4, H6.
    destruct (tunterm_acl_redirect_clear _ t) as [st rv]. cbn in Hclear. subst rv.
    cbn [negb Z.eqb]. unfold vec_set. by rewrite Hout.
Qed.

End Theorems.

(** ** Witnesses *)

Lemma ts_empty_inv : @tunterm_inv vlib_ref CR FR ∅ ts_empty.
Proof.
  assert (Hnone : forall v sw, v = [] -> attached v sw = None)
    by (intros v sw ->; unfold attached, vec_get; by destruct (sw <? 0)).
  refine (conj _ (conj (conj _ _) (conj _ (conj _ (conj _ (conj _ (conj _ _))))))); cbn; try set_solver.
  - apply empty_wf.
  - intros i ipr Hi. cbn in Hi. by rewrite lookup_empty in Hi.
  - intros sw t Hat. by rewrite Hnone in Hat.
  - intros sw t Hat. by rewrite Hnone in Hat.
  - intros sw. rewrite !Hnone by done. unfold feature_ref_enabled. rewrite bool_decide_eq_true.
    split; [set_solver|]. by intros [[? ?]|[? ?]].
Qed.

Lemma codes_example_ok : codes_ok codes_example.
Proof. by_compute. Qed.

(** The example ACL is consistent and has the rules' sessions. *)
Lemma ts_example_ok : @tunterm_inv vlib_ref CR FR {[0]} ts_example /\
  forall m, length m = 16%nat -> @classify_session CR (classify_main (ts_redirect ts_example)) 0 m =
    @rules_sessions fib_ref FA fib_env_example false ex_rules !! m.
Proof.
  destruct (@update_ok vlib_ref CR fib_ref FA FR codes_example ∅ ts_empty fib_env_example false 3
    ex_rules U32_MAX codes_example_ok ts_empty_inv (or_introl eq_refl))
    as (ts' & rv & t & Hu & _ & _ & _ & Hok).
  { cbn. lia. }
  assert (Hrv : (rv, t) = (0, 0)).
  { transitivity (match ex_update with Some (_, rv, t) => (rv, t) | None => (1, 1) end);
      [unfold ex_update; by rewrite Hu|vm_compute; reflexivity]. }
  injection Hrv as -> ->. destruct (Hok eq_refl) as (_ & _ & Hinv & Hs).
  replace ({[0]} : gset Z) with ({[0]} ∪ ∅ : gset Z) by set_solver.
  replace ts_example with ts'; [exact (conj Hinv Hs)|]. unfold ts_example, ex_update. by rewrite Hu.
Qed.

Lemma ts_example_inv : @tunterm_inv vlib_ref CR FR {[0]} ts_example.
Proof. apply ts_example_ok. Qed.

Lemma feature_total_ok : forall (fs : @fstate FR) k en,
  snd (@vnet_feature_enable_disable FR fs k en) = 0.
Proof. by intros fs k [|]. Qed.

Lemma tunterm_add_replace_programs_witness :
  exists ts', @vl_api_tunterm_acl_add_replace_t_handler vlib_ref CR fib_ref FA FR codes_example 10 20
    fib_env_example 70 false 0xffffffff 0x03000000 ex_rules ts_empty = Some (ts', 0, 0) /\
    @classify_session CR (classify_main (ts_redirect ts')) 0 ([10; 0; 0; 1] ++ replicate 12 0)
      = Some (7, 51).
Proof.
  destruct (@tunterm_add_replace_programs vlib_ref CR fib_ref FA FR codes_example codes_example_ok
    ∅ ts_empty fib_env_example 10 20 70 false 0xffffffff 0x03000000 ex_rules ts_empty_inv)
    as (ts' & rv & t & Hh & _ & _ & _ & Hok);
    [by_compute|by_compute|reflexivity|by_compute|by left|].
  assert (Hrv : (rv, bswap 4 t) = (0, 0)).
  { transitivity (match @vl_api_tunterm_acl_add_replace_t_handler vlib_ref CR fib_ref FA FR
      codes_example 10 20 fib_env_example 70 false 0xffffffff 0x03000000 ex_rules ts_empty with
      Some (_, rv, t) => (rv, t) | None => (1, 1) end); [by rewrite Hh|vm_compute; reflexivity]. }
  pose proof (f_equal snd Hrv : bswap 4 t = 0) as Ht. pose proof (f_equal fst Hrv : rv = 0) as ->.
  exists ts'. rewrite Hh. change (@net_to_host (@host vlib_ref) 4 t) with (bswap 4 t). rewrite Ht.
  split; [done|].
  destruct (Hok eq_refl) as (_ & _ & [_ [[Hu _] _]] & Hs).
  assert (t = 0) as ->.
  { assert (Hut : is_u32 t) by (apply Hu, elem_of_union; left; by apply elem_of_singleton).
    clear - Ht Hut. apply (store_inj LE); [exact Hut|by_compute|].
    apply (load_inj BE); [apply le_encode_bytes|by_compute|cbn; reflexivity|exact Ht]. }
  rewrite Hs by reflexivity. vm_compute. reflexivity.
Defined.

Lemma tunterm_del_safe_witness :
  exists ts', @vl_api_tunterm_acl_del_t_handler vlib_ref CR FR codes_example 0 ts_example
      = Some (ts', 0) /\
    @classify_table CR (classify_main (ts_redirect ts')) 0 = None.
Proof.
  destruct (@tunterm_del_safe vlib_ref CR FR codes_example {[0]} ts_example 0 ts_example_inv)
    as (ts' & rv & Hh & _ & Hok); [by_compute|].
  destruct Hok as (-> & _ & Htab & _); [|exists ts'; split; [exact Hh|exact Htab]].
  intros af sw. assert (Hs : slot af (ts_main ts_example) = [])
    by (destruct af; vm_compute; reflexivity).
  rewrite Hs. unfold attached, vec_get. by destruct (sw <? 0).
Defined.

Lemma tunterm_attach_witness :
  exists ts', @vl_api_tunterm_acl_interface_add_del_t_handler vlib_ref CR FR codes_example
      (fun _ => true) true 0x05000000 0 ts_example = Some (ts', 0) /\
    attached (slot false (ts_main ts')) 5 = Some 0.
Proof.
  destruct (@tunterm_attach vlib_ref CR FR codes_example feature_total_ok (fun _ => eq_refl) {[0]}
    ts_example (fun _ => true) 0x05000000 0 ts_example_inv eq_refl) as (ts' & af & Hh & Haf & _ & _ & _ & Hs);
    [by_compute|by_compute|].
  exists ts'. split; [exact Hh|]. assert (af = false) as ->.
  { change (@net_to_host (@host vlib_ref) 4 0) with 0 in Haf.
    enough (Some af = Some false) by congruence. rewrite <- Haf. vm_compute. reflexivity. }
  rewrite Hs. vm_compute. reflexivity.
Defined.

(** The ACL is not attached to interface 5, so detaching it there is refused. *)
Lemma tunterm_detach_witness :
  exists ts', @vl_api_tunterm_acl_interface_add_del_t_handler vlib_ref CR FR codes_example
      (fun _ => true) false 0x05000000 0 ts_example = Some (ts', -2).
Proof.
  destruct (@tunterm_detach vlib_ref CR FR codes_example feature_total_ok (fun _ => eq_refl) {[0]}
    ts_example (fun _ => true) 0x05000000 0 ts_example_inv eq_refl) as (ts' & rv & af & Hh & Haf & _ & _ & _ & Hd);
    [by_compute|by_compute|].
  exists ts'. assert (af = false) as ->.
  { change (@net_to_host (@host vlib_ref) 4 0) with 0 in Haf.
    enough (Some af = Some false) by congruence. rewrite <- Haf. vm_compute. reflexivity. }
  rewrite decide_False in Hd by (vm_compute; discriminate). destruct Hd as [-> _]. exact Hh.
Defined.

Lemma tunterm_index_unchecked_witness :
  @vl_api_tunterm_acl_del_t_handler vlib_ref CR FR codes_example 0x07000000 ts_example = None.
Proof.
  destruct (@tunterm_index_unchecked vlib_ref CR FR codes_example ts_example (fun _ => true) 0
    0x07000000 true) as [_ Hw]; [by_compute|by_compute|].
  apply Hw; vm_compute; reflexivity.
Defined.
