(* ===== verification/TuntermNode.v ===== *)
(** * The tunterm-acl node (tunterm_acl_node.c)

    VXLAN packets arrive with the current position at the VXLAN header.  The node
    looks the inner destination address up in the ACL attached to the ingress
    interface for the inner address family; a hit strips the tunnel headers and
    hands the inner packet to the forwarding of the rule, anything else continues
    to vxlan4-input. *)

From S2P Require Import Prelude Vlib Feature TuntermRedirect TuntermApi.

(** ** The classifier's lookup *)

Definition mask_bytes (d mask : list Z) : list Z := zip_with Z.land d mask.

(** [vnet_classify_find_entry]: the entry for 16 packet bytes, with whether its
    action is SET_METADATA.  The lookup compares the bytes under the table's
    mask. *)
Class ClassifyLookup `{Classify} := {
  classify_find : cstate -> Z -> list Z -> option (bool * session_t);
  classify_find_session : forall cs t mask d, classify_table cs t = Some mask ->
    length d = 16%nat -> snd <$> classify_find cs t d = classify_session cs t (mask_bytes d mask)
}.

(** ** The node *)

Definition TUNTERM_ACL_ERROR_REDIRECTED : nat := 0.
Definition TUNTERM_ACL_ERROR_NO_CLASSIFY_TABLE : nat := 1.
Definition TUNTERM_ACL_ERROR_ACTION_NOT_SUPPORTED : nat := 2.
Definition TUNTERM_ACL_ERROR_UNSUPPORTED_ETHERTYPE : nat := 3.
Definition TUNTERM_ACL_ERROR_NO_MATCH : nat := 4.
Definition TUNTERM_ACL_N_ERROR : nat := 5.

Definition TUNTERM_ACL_NEXT_DROP : Z := 0.
Definition TUNTERM_ACL_NEXT_VXLAN4_INPUT : Z := 1.

Definition sizeof_vxlan_header : Z := 8.
Definition sizeof_ethernet_header : Z := 14.
Definition sizeof_ethernet_vlan_header : Z := 4.

Record tunterm_acl_trace_t := mkTaTrace {
  tat_sw_if_index : Z;
  tat_next_index : Z;
  tat_index : Z
}.

Section Node.
Context `{Vlib} `{ClassifyLookup}.
Variable tam : tunterm_acl_main_t.
Variable cs : cstate.
(** [node->n_next_nodes] *)
Variable n_next_nodes : Z.
(** what a read past the end of a vector returns *)
Variable oob : Z.

Definition vec_elt (v : list Z) (i : Z) : Z := default oob (vec_get v i).

(** [(etype[0] << 8) | etype[1]] *)
Definition etype_at (b : vlib_buffer_t) (k : Z) : Z :=
  Z.lor (Z.shiftl (rd (data b) k) 8) (rd (data b) (k + 1)).

(** The offsets of the inner packet: the ethertype, whether there is a VLAN tag,
    and the inner IP header. *)
Definition inner_headers (b : vlib_buffer_t) : Z * bool * Z :=
  let inner_ether_offset := u32 (current_data b + sizeof_vxlan_header) in
  let inner_ip_offset := u32 (inner_ether_offset + sizeof_ethernet_header) in
  let etype := inner_ether_offset + 12 in
  let ethertype := etype_at b etype in
  if ethertype =? 0x8100 then
    (etype_at b (etype + sizeof_ethernet_vlan_header), true,
     u32 (inner_ip_offset + sizeof_ethernet_vlan_header))
  else (ethertype, false, inner_ip_offset).

(** The label [exit]: the trace record. *)
Definition tunterm_exit (b0 : vlib_buffer_t) (next0 : Z) (e : nat) : outcome tunterm_acl_trace_t :=
  mkOutcome b0 next0 e (mkTaTrace (sw_if_index_rx b0) next0 (adj_index_tx b0)).

(** The table lookup and its outcomes. *)
Definition tunterm_lookup (b0 : vlib_buffer_t) (is_inner_vlan_tagged : bool)
    (table_index inner_dip_offset : Z) : outcome tunterm_acl_trace_t :=
  if table_index =? U32_MAX then
    tunterm_exit b0 TUNTERM_ACL_NEXT_VXLAN4_INPUT TUNTERM_ACL_ERROR_NO_CLASSIFY_TABLE
  else
    match classify_find cs table_index (rd_bytes (data b0) inner_dip_offset 16) with
    | Some (true, (next_index, metadata)) =>
        let b0 := vlib_buffer_advance b0 sizeof_vxlan_header in
        let b0 := vlib_buffer_advance b0 sizeof_ethernet_header in
        let b0 := if is_inner_vlan_tagged
          then vlib_buffer_advance b0 sizeof_ethernet_vlan_header else b0 in
        let next0 := if next_index <? n_next_nodes then next_index
          else TUNTERM_ACL_NEXT_VXLAN4_INPUT in
        tunterm_exit (set_adj_tx metadata b0) next0 TUNTERM_ACL_ERROR_REDIRECTED
    | Some (false, _) =>
        tunterm_exit b0 TUNTERM_ACL_NEXT_VXLAN4_INPUT TUNTERM_ACL_ERROR_ACTION_NOT_SUPPORTED
    | None => tunterm_exit b0 TUNTERM_ACL_NEXT_VXLAN4_INPUT TUNTERM_ACL_ERROR_NO_MATCH
    end.

Definition tunterm_acl_one (b0 : vlib_buffer_t) : outcome tunterm_acl_trace_t :=
  let sw_if_index0 := sw_if_index_rx b0 in
  let '(ethertype, is_inner_vlan_tagged, inner_ip_offset) := inner_headers b0 in
  if ethertype =? 0x86DD then
    tunterm_lookup b0 is_inner_vlan_tagged
      (vec_elt (classify_table_index_by_sw_if_index_v6 tam) sw_if_index0)
      (u32 (inner_ip_offset + 40 - 16))
  else if ethertype =? 0x0800 then
    tunterm_lookup b0 is_inner_vlan_tagged
      (vec_elt (classify_table_index_by_sw_if_index_v4 tam) sw_if_index0)
      (u32 (inner_ip_offset + 20 - 4))
  else tunterm_exit b0 TUNTERM_ACL_NEXT_VXLAN4_INPUT TUNTERM_ACL_ERROR_UNSUPPORTED_ETHERTYPE.

(** The five counters, all incremented, also by zero; [counts] are the [pkts_] variables
    in the order of the enum. *)
Definition tunterm_flush (counts : list Z) : list (nat * Z) := imap pair counts.

Definition tunterm_acl_node (node_flags : Z) (st : buffers) (from : list Z)
    : node_result unit tunterm_acl_trace_t :=
  let acc := frame_loop node_flags (stateless tunterm_acl_one)
    (frame_init tt st TUNTERM_ACL_N_ERROR) from in
  mkResult (fa_state acc) (fa_store acc) (zip from (fa_nexts acc)) (tunterm_flush (fa_counts acc))
    (fa_traces acc) (Z.of_nat (length from)).

End Node.

(** ** Specification *)

(** A well-formed inner packet of a VXLAN packet in buffer [b]: the VXLAN header,
    the two MAC addresses, an optional 802.1Q tag, the ethertype, and an IP
    header up to and including the destination address [dip]; [hdr] is the
    length of the part that is stripped. *)
Record inner_packet (b : vlib_buffer_t) (is_ipv6 : bool) (hdr : Z) (dip : list Z) := {
  ip_tag : list Z;
  ip_tag_ok : ip_tag = [] \/ exists t1 t2, ip_tag = [0x81; 0x00; t1; t2];
  ip_hdr : hdr = 8 + 12 + Z.of_nat (length ip_tag) + 2;
  ip_etype : rd_bytes (data b) (current_data b + 20) (length ip_tag + 2) =
    ip_tag ++ (if is_ipv6 then [0x86; 0xDD] else [0x08; 0x00]);
  ip_dip_length : length dip = (if is_ipv6 then 16 else 4)%nat;
  ip_dip : rd_bytes (data b) (current_data b + hdr + (if is_ipv6 then 24 else 16)) (length dip) = dip
}.

(** A destination as the classifier's match. *)
Definition dip_match (dip : list Z) : list Z := dip ++ replicate (16 - length dip) 0.

(** What the rules say about a destination. *)
Definition rules_hit `{FibApi} (F : fib_env) (is_ipv6 : bool)
    (rules : list vl_api_tunterm_acl_rule_t) (dip : list Z) : option session_t :=
  rules_sessions F is_ipv6 rules !! dip_match dip.

(** The outcome for a packet with [hdr] bytes to strip: with no ACL at the interface,
    with an ACL that has no session for its destination, with a session. *)
Definition redirect_outcome {T} (n_next : Z) (b : vlib_buffer_t) (hdr : Z)
    (acl : option (option session_t)) (o : outcome T) : Prop :=
  match acl with
  | None => o_buf o = b /\ o_next o = TUNTERM_ACL_NEXT_VXLAN4_INPUT /\
      o_err o = TUNTERM_ACL_ERROR_NO_CLASSIFY_TABLE
  | Some None => o_buf o = b /\ o_next o = TUNTERM_ACL_NEXT_VXLAN4_INPUT /\
      o_err o = TUNTERM_ACL_ERROR_NO_MATCH
  | Some (Some (next, metadata)) =>
      o_buf o = set_adj_tx metadata
        (set_current (current_data b + hdr) (current_length b - hdr) b) /\
      o_next o = (if next <? n_next then next else TUNTERM_ACL_NEXT_VXLAN4_INPUT) /\
      o_err o = TUNTERM_ACL_ERROR_REDIRECTED
  end.

(** ** Example *)

(** The reference classifier compares under the table's mask; its sessions set
    the metadata. *)
#[refine] Definition lookup_ref (refuse : Z -> list Z -> bool) : @ClassifyLookup (classify_ref refuse) :=
  @Build_ClassifyLookup (classify_ref refuse) (fun cs t d =>
    mask ← cr_tables cs !! t; pair true <$> cref_session cs t (mask_bytes d mask)) _.
Proof.
  intros cs t mask d Ht _. change (cr_tables cs !! t = Some mask) in Ht. rewrite Ht. cbn.
  by destruct (cref_session cs t (mask_bytes d mask)).
Defined.

(** The ACL of the example configuration attached to interface 5. *)
Definition ts_attached : @tstate CR FR :=
  @with_slots CR FR (replicate 5 U32_MAX ++ [0]) (replicate 6 U32_MAX) ts_example
    ({[bypass_key 5]} : gset fkey).

(** A VXLAN packet at offset 50 on interface 5: the VXLAN header, a tagged inner
    frame, and an IPv4 header with destination 10.0.0.1. *)
Definition ex_vxlan : vlib_buffer_t :=
  set_rx 5 (set_current 50 100 (set_data (wr_bytes ∅ 50
    (replicate 20 1 ++ [0x81; 0x00; 0; 100; 0x08; 0x00] ++ replicate 16 2 ++ [10; 0; 0; 1] ++
     replicate 20 3)) null_buffer)).

(** ** Lemmas *)

Section Facts.
Context `{Vlib}.

Lemma etype_at_bytes b k x y : rd_bytes (data b) k 2 = [x; y] -> etype_at b k = Z.lor (Z.shiftl x 8) y.
Proof. unfold etype_at. by intros [= -> ->]. Qed.

(** The headers of a well-formed inner packet. *)
Lemma inner_headers_ok b is_ipv6 hdr dip :
  0 <= current_data b < 2 ^ 15 -> inner_packet b is_ipv6 hdr dip ->
  exists tagged, inner_headers b =
    (if is_ipv6 then 0x86DD else 0x0800, tagged, current_data b + hdr) /\
    hdr = 22 + (if tagged then 4 else 0).
Proof.
  intros Hc [tag Htag Hhdr Het Hlen Hdip]. unfold inner_headers, sizeof_vxlan_header,
    sizeof_ethernet_header, sizeof_ethernet_vlan_header.
  rewrite (u32_id (current_data b + 8)), (u32_id (current_data b + 8 + 14)) by zsolve.
  replace (current_data b + 8 + 12) with (current_data b + 20) by lia.
  destruct Htag as [->|(t1 & t2 & ->)]; cbn [length Nat.add app] in Het, Hhdr.
  - rewrite (etype_at_bytes b _ (if is_ipv6 then 0x86 else 0x08) (if is_ipv6 then 0xDD else 0x00))
      by (rewrite Het; by destruct is_ipv6).
    exists false. destruct is_ipv6; cbn; (split; [f_equal; lia|lia]).
  - change 6%nat with (2 + (2 + 2))%nat in Het. rewrite !rd_bytes_app in Het.
    change (0x81 :: 0x00 :: t1 :: t2 :: (if is_ipv6 then [0x86; 0xDD] else [0x08; 0x00]))
      with ([0x81; 0x00] ++ [t1; t2] ++ (if is_ipv6 then [0x86; 0xDD] else [0x08; 0x00])) in Het.
    apply app_inj_1 in Het as [H1 Het]; [|by rewrite rd_bytes_length].
    apply app_inj_1 in Het as [_ H2]; [|by rewrite rd_bytes_length].
    rewrite (etype_at_bytes b _ _ _ H1). cbn.
    replace (current_data b + 20 + Z.of_nat 2 + Z.of_nat 2) with (current_data b + 20 + 4) in H2 by lia.
    rewrite (etype_at_bytes b (current_data b + 20 + 4) (if is_ipv6 then 0x86 else 0x08)
      (if is_ipv6 then 0xDD else 0x00)) by (rewrite H2; by destruct is_ipv6).
    exists true. rewrite u32_id by zsolve.
    destruct is_ipv6; cbn; (split; [f_equal; lia|lia]).
Qed.

(** Under the mask of its family, 16 packet bytes from the destination address are
    the match of that address. *)
Lemma masked_dip b k (is_ipv6 : bool) dip :
  buffer_ok b -> length dip = (if is_ipv6 then 16 else 4)%nat -> rd_bytes (data b) k (length dip) = dip ->
  mask_bytes (rd_bytes (data b) k 16) (table_mask is_ipv6) = dip ++ replicate (16 - length dip) 0.
Proof.
  intros Hb Hlen Hdip.
  assert (H255 : forall l, bytes_ok l -> zip_with Z.land l (replicate (length l) 0xff) = l).
  { induction 1 as [|x l Hx _ IH]; cbn; [done|]. rewrite IH. f_equal.
    change 255 with (Z.ones 8). rewrite Z.land_ones by lia. apply Z.mod_small. exact Hx. }
  assert (H0 : forall l, zip_with Z.land l (replicate (length l) 0) = replicate (length l) 0).
  { induction l as [|x l IH]; cbn; [done|]. by rewrite Z.land_0_r, IH. }
  assert (Hok : bytes_ok dip) by (rewrite <- Hdip; by apply rd_bytes_ok).
  replace 16%nat with (length dip + (16 - length dip))%nat at 1 by (destruct is_ipv6; lia).
  rewrite rd_bytes_app, Hdip. unfold mask_bytes, table_mask, bytes_matched, CLASSIFY_TABLE_VECTOR_SIZE.
  replace (if is_ipv6 then 16%nat else 4%nat) with (length dip).
  rewrite zip_with_app by (by rewrite length_replicate). rewrite H255 by done. f_equal.
  pose proof (H0 (rd_bytes (data b) (k + Z.of_nat (length dip)) (16 - length dip))) as Hz.
  by rewrite rd_bytes_length in Hz.
Qed.

(** The advances of a redirect, together. *)
Lemma strip_headers b (tagged : bool) hdr :
  0 <= current_data b < 2 ^ 15 - 64 -> is_u16 (current_length b) -> 26 <= current_length b ->
  hdr = 22 + (if tagged then 4 else 0) ->
  (let b0 := vlib_buffer_advance (vlib_buffer_advance b sizeof_vxlan_header) sizeof_ethernet_header in
   if tagged then vlib_buffer_advance b0 sizeof_ethernet_vlan_header else b0) =
  set_current (current_data b + hdr) (current_length b - hdr) b.
Proof.
  intros Hc Hlu Hl ->. cbv zeta. unfold sizeof_vxlan_header, sizeof_ethernet_header,
    sizeof_ethernet_vlan_header. rewrite !vlib_buffer_advance_spec. unfold set_current. cbn.
  rewrite !(i16_id (current_data b + 8)), !(u16_id (current_length b - 8)) by (widths; lia).
  rewrite !(i16_id (current_data b + 8 + 14)), !(u16_id (current_length b - 8 - 14)) by (widths; lia).
  destruct tagged.
  - rewrite i16_id, u16_id by (widths; lia). f_equal; lia.
  - f_equal; lia.
Qed.

Lemma dip_match_length (is_ipv6 : bool) dip :
  length dip = (if is_ipv6 then 16 else 4)%nat -> length (dip_match dip) = 16%nat.
Proof. intros Hd. unfold dip_match. rewrite length_app, length_replicate. destruct is_ipv6; lia. Qed.

(** What happens to a packet is what the session of its destination in the ACL of
    its interface says. *)
Lemma tunterm_one_session `{ClassifyLookup} `{VnetFeature} own ts n_next oob is_ipv6 b hdr dip :
  tunterm_inv own ts -> buffer_ok b ->
  vnet_feature_is_enabled (ts_features ts) (bypass_key (sw_if_index_rx b)) = true ->
  0 <= current_data b < 2 ^ 15 - 64 -> is_u16 (current_length b) -> 26 <= current_length b ->
  inner_packet b is_ipv6 hdr dip ->
  let cs := classify_main (ts_redirect ts) in
  let acl := attached (slot is_ipv6 (ts_main ts)) (sw_if_index_rx b) in
  (forall t d e, acl = Some t -> classify_find cs t d = Some e -> fst e = true) ->
  redirect_outcome n_next b hdr ((fun t => classify_session cs t (dip_match dip)) <$> acl)
    (tunterm_acl_one (ts_main ts) cs n_next oob b).
Proof.
  intros Hinv Hb Hon Hc Hlu Hl Hip. cbv zeta. intros Hact.
  destruct (inner_headers_ok b is_ipv6 hdr dip) as (tagged & Hh & Hhdr); [lia|done|].
  pose proof Hinv as (_ & _ & _ & Ha1 & Ha2 & Ha3 & _ & Ha5).
  destruct (Ha5 is_ipv6 _ Hon) as [raw Hraw].
  assert (Hat : attached (slot is_ipv6 (ts_main ts)) (sw_if_index_rx b) =
    if raw =? U32_MAX then None else Some raw) by (unfold attached; by rewrite Hraw).
  assert (Hone : tunterm_acl_one (ts_main ts) (classify_main (ts_redirect ts)) n_next oob b =
    tunterm_lookup (classify_main (ts_redirect ts)) n_next b tagged raw
      (current_data b + hdr + (if is_ipv6 then 24 else 16))).
  { unfold tunterm_acl_one. rewrite Hh. unfold vec_elt. destruct is_ipv6; cbn -[tunterm_lookup u32] in Hraw |- *;
      rewrite Hraw; cbn -[tunterm_lookup u32]; f_equal; rewrite u32_id by (destruct tagged; zsolve); lia. }
  rewrite Hone, Hat. unfold tunterm_lookup. destruct (Z.eqb_spec raw U32_MAX) as [->|Hne]; [done|].
  assert (Hown : raw ∈ own /\ vec_get (classify_table_index_is_v6 (ts_main ts)) raw = Some is_ipv6)
    by (destruct is_ipv6; [by eapply Ha3|by eapply Ha2]).
  destruct Hown as [Hraw' Haf]. destruct (Ha1 raw Hraw') as (_ & af & Haf' & Hmask).
  assert (af = is_ipv6) as -> by congruence.
  destruct Hip as [tag Htag Hhdr' Het Hdl Hdip].
  pose proof (classify_find_session _ raw _ (rd_bytes (data b)
    (current_data b + hdr + (if is_ipv6 then 24 else 16)) 16) Hmask (rd_bytes_length _ _ _)) as Hf.
  rewrite (masked_dip b _ is_ipv6 dip Hb Hdl Hdip) in Hf. fold (dip_match dip) in Hf.
  cbn [fmap option_fmap option_map]. rewrite <- Hf.
  destruct (classify_find _ raw _) as [[act [next metadata]]|] eqn:Hfind; [|done].
  assert (act = true) as -> by (by apply (Hact raw _ (act, (next, metadata)) Hat Hfind)).
  split; [|done]. cbn. f_equal. by apply strip_headers.
Qed.

(** Only a redirect changes a packet. *)
Lemma tunterm_acl_one_kept `{ClassifyLookup} tam cs n_next oob b :
  o_err (tunterm_acl_one tam cs n_next oob b) <> TUNTERM_ACL_ERROR_REDIRECTED ->
  o_next (tunterm_acl_one tam cs n_next oob b) = TUNTERM_ACL_NEXT_VXLAN4_INPUT /\
  o_buf (tunterm_acl_one tam cs n_next oob b) = b.
Proof.
  unfold tunterm_acl_one, tunterm_lookup. destruct (inner_headers b) as [[et tagged] ip].
  repeat case_match; by cbn.
Qed.

End Facts.

(** ** Theorems *)

Section Theorems.
Context `{Vlib} `{ClassifyLookup} `{FibApi} `{VnetFeature}.

(** End to end: on an interface the feature is on at, in a consistent
    configuration whose ACL for the inner address family was programmed with
    [rules] (and only the plugin writes that table), a VXLAN packet whose inner
    destination one of the rules names is stripped to its inner IP packet and
    handed to the forwarding of the last such rule; one that no rule names, and
    one on an interface with no ACL of that family, continues to vxlan4-input with
    nothing changed. *)
Theorem tunterm_acl_redirects_by_rules own ts n_next oob F is_ipv6 rules b hdr dip :
  tunterm_inv own ts -> buffer_ok b ->
  vnet_feature_is_enabled (ts_features ts) (bypass_key (sw_if_index_rx b)) = true ->
  0 <= current_data b < 2 ^ 15 - 64 -> is_u16 (current_length b) -> 26 <= current_length b ->
  inner_packet b is_ipv6 hdr dip ->
  let cs := classify_main (ts_redirect ts) in
  let acl := attached (slot is_ipv6 (ts_main ts)) (sw_if_index_rx b) in
  (forall t m, acl = Some t -> length m = 16%nat ->
     classify_session cs t m = rules_sessions F is_ipv6 rules !! m) ->
  (forall t d e, acl = Some t -> classify_find cs t d = Some e -> fst e = true) ->
  let o := tunterm_acl_one (ts_main ts) cs n_next oob b in
  redirect_outcome n_next b hdr ((fun _ => rules_hit F is_ipv6 rules dip) <$> acl) o.
Proof.
  intros Hinv Hb Hon Hc Hlu Hl Hip. cbv zeta. intros Hrules Hact.
  pose proof (tunterm_one_session own ts n_next oob is_ipv6 b hdr dip Hinv Hb Hon Hc Hlu Hl Hip Hact) as Ho.
  cbv zeta in Ho. destruct (attached _ _) as [t|]; [|exact Ho]. cbn [fmap option_fmap option_map] in Ho |- *.
  rewrite (Hrules t _ eq_refl) in Ho; [exact Ho|]. apply (dip_match_length is_ipv6). by destruct Hip.
Qed.

(** On a frame of distinct buffers the node hands every packet to one next
    node, and the five counters say for each outcome how many packets had it; a
    packet that is not counted as redirected is handed to vxlan4-input with
    nothing changed in its buffer. *)
Theorem tunterm_acl_node_accounts tam cs n_next oob nf st from
    (Hnd : NoDup from) (Hlen : Z.of_nat (length from) < 2 ^ 32) :
  let one := tunterm_acl_one tam cs n_next oob in
  let r := tunterm_acl_node tam cs n_next oob nf st from in
  nr_enqueued r = (fun bi => (bi, o_next (one (getb st bi)))) <$> from /\
  (forall bi, bi ∈ from -> getb (nr_store r) bi = o_buf (one (getb st bi)) /\
     (o_err (one (getb st bi)) <> TUNTERM_ACL_ERROR_REDIRECTED ->
      o_next (one (getb st bi)) = TUNTERM_ACL_NEXT_VXLAN4_INPUT /\
      getb (nr_store r) bi = getb st bi)) /\
  nr_counters r = (fun e => (e, occurrences e ((fun bi => o_err (one (getb st bi))) <$> from)))
    <$> seq 0 TUNTERM_ACL_N_ERROR /\
  nr_return r = Z.of_nat (length from).
Proof.
  cbv zeta. refine (conj _ (conj _ (conj _ eq_refl))).
  - by apply (stateless_node_enqueued (tunterm_acl_one tam cs n_next oob) nf st TUNTERM_ACL_N_ERROR).
  - intros bi Hbi. cbn. rewrite frame_loop_store by done. cbn. split; [done|].
    by apply tunterm_acl_one_kept.
  - apply list_eq. intros e. cbn [tunterm_acl_node nr_counters]. unfold tunterm_flush.
    rewrite list_lookup_imap, list_lookup_fmap. destruct (decide (e < TUNTERM_ACL_N_ERROR)%nat) as [He|He].
    + rewrite stateless_node_counter, lookup_seq_lt by done. done.
    + rewrite lookup_seq_ge by lia. rewrite lookup_ge_None_2; [done|].
      rewrite frame_loop_counts_length. unfold TUNTERM_ACL_N_ERROR in *. cbn. lia.
Qed.

End Theorems.

(** ** Witnesses *)

Lemma ts_attached_inv : @tunterm_inv vlib_ref CR FR {[0]} ts_attached.
Proof.
  assert (Hslot : forall af, slot af (ts_main ts_example) = [])
    by (intros [|]; vm_compute; reflexivity).
  assert (Hnone : forall sw, attached [] sw = None)
    by (intros sw; unfold attached, vec_get; by destruct (sw <? 0)).
  apply (@reattach_inv vlib_ref CR FR {[0]} ts_example false 5 _ _ _ (Some 0) ts_example_inv).
  - intros af sw. rewrite Hslot, Hnone. unfold attached, vec_get.
    destruct (Z.ltb_spec sw 0); [by destruct af; rewrite decide_False by lia|].
    destruct (decide (sw < 6)) as [Hlt|Hge].
    + assert (sw = 0 \/ sw = 1 \/ sw = 2 \/ sw = 3 \/ sw = 4 \/ sw = 5) as Hsw by lia.
      destruct af; destruct_or! Hsw; subst sw; vm_compute; reflexivity.
    + rewrite decide_False by lia. rewrite lookup_ge_None_2; [done|]. destruct af; cbn; lia.
  - intros t [= <-]. split; [set_solver|]. vm_compute. reflexivity.
  - intros af sw [->|Hs]; [destruct af; vm_compute; eauto|].
    rewrite Hslot in Hs. unfold vec_get in Hs. destruct (sw <? 0); by destruct Hs.
  - intros sw. rewrite Hslot. cbn [vnet_feature_is_enabled FR feature_ref]. unfold feature_ref_enabled.
    destruct (decide (sw = 5)) as [->|Hne]; [by_compute|].
    assert (Hf : ts_features ts_example = (∅ : gset fkey)) by (vm_compute; reflexivity).
    rewrite Hf. clear - Hne. apply bool_decide_ext. rewrite elem_of_singleton. unfold bypass_key.
    split; [congruence|]. by intros ?%elem_of_empty.
Qed.

(** A packet to 10.0.0.1 is stripped of 26 bytes and sent where the second rule says. *)
Lemma tunterm_acl_redirects_by_rules_witness :
  let o := @tunterm_acl_one vlib_ref CR (lookup_ref accept) (ts_main ts_attached)
    (classify_main (ts_redirect ts_attached)) 9 77 ex_vxlan in
  current_data (o_buf o) = 76 /\ adj_index_tx (o_buf o) = 51 /\ o_next o = 7.
Proof.
  assert (Hip : inner_packet ex_vxlan false 26 [10; 0; 0; 1]).
  { refine (Build_inner_packet _ _ _ _ [0x81; 0x00; 0; 100] _ _ _ _ _);
      [right; by exists 0, 100|by_compute..]. }
  assert (Hat : attached (slot false (ts_main ts_attached)) (sw_if_index_rx ex_vxlan) = Some 0)
    by (vm_compute; reflexivity).
  pose proof (@tunterm_acl_redirects_by_rules vlib_ref CR (lookup_ref accept) fib_ref FA FR {[0]}
    ts_attached 9 77 fib_env_example false ex_rules ex_vxlan 26 [10; 0; 0; 1] ts_attached_inv) as Hw.
  cbv zeta in Hw |- *. rewrite Hat in Hw.
  assert (Hhit : @rules_hit fib_ref FA fib_env_example false ex_rules [10; 0; 0; 1] = Some (7, 51))
    by (vm_compute; reflexivity).
  rewrite Hhit in Hw. destruct Hw as (Hb & Hn & _);
    [apply mem_ok_wr; [apply mem_ok_empty|by_compute]|by_compute..|exact Hip| | |].
  - intros t m [= <-] Hm. by apply ts_example_ok.
  - intros t d [act e] [= <-] Hf. apply bind_Some in Hf as (mask & _ & Hf).
    by apply fmap_Some in Hf as (? & _ & [= -> _]).
  - rewrite Hb, Hn. by_compute.
Defined.

Lemma tunterm_acl_node_accounts_witness :
  nr_counters (@tunterm_acl_node vlib_ref CR (lookup_ref accept) (ts_main ts_attached)
    (classify_main (ts_redirect ts_attached)) 9 77 0 {[1 := ex_vxlan; 2 := null_buffer]} [1; 2]) =
  [(0%nat, 1); (1%nat, 0); (2%nat, 0); (3%nat, 1); (4%nat, 0)].
Proof.
  destruct (@tunterm_acl_node_accounts vlib_ref CR (lookup_ref accept) (ts_main ts_attached)
    (classify_main (ts_redirect ts_attached)) 9 77 0 {[1 := ex_vxlan; 2 := null_buffer]} [1; 2])
    as (_ & _ & Hc & _); [by_compute|by_compute|].
  rewrite Hc. vm_compute. reflexivity.
Defined.
