(* ===== verification/TuntermDecap.v ===== *)
(** * The tunterm-ip4-vxlan-bypass node (tunterm_acl_decap.c)

    The feature that finds VXLAN packets for local tunnels on the ip4-unicast arc
    and hands them, positioned at the VXLAN header, to tunterm-acl.  The node has
    a loop for two packets and a loop for one, which alternate as the frame it
    enqueues to has room, and two caches: the last tunnel found and the last local
    tunnel address.  [TuntermDecap] shows that loops and caches are optimisations
    only: the node does to each packet what the cacheless reference
    [bypass_verdict] says.

    VPP's vxlan plugin, VTEP table and checksum routines are the interface
    [Vxlan]. *)

From S2P Require Import Prelude Vlib.

(** ** VPP's vxlan plugin *)

(** [vxlan_decap_info_t]: the interface and a word that is either the next index
    and error or the local address of a multicast tunnel. *)
Record vxlan_decap_info_t := mkDi {
  di_sw_if_index : Z;
  di_word : Z
}.

Record vxlan_tunnel_t := mkTunnel {
  t_src_ip6 : list Z;
  t_sw_if_index : Z;
  t_decap_next_index : Z
}.

Class Vxlan := {
  (** the two hash tables, by key, and the tunnel pool *)
  vxlan4_tunnel_by_key : Z * Z -> option Z;
  vxlan6_tunnel_by_key : Z * Z * Z -> option Z;
  tunnels : Z -> vxlan_tunnel_t;
  (** a hash value as a decap info *)
  di_of_u64 : Z -> vxlan_decap_info_t;
  di_of_ones : di_sw_if_index (di_of_u64 (2 ^ 64 - 1)) = U32_MAX;
  (** the word for a next index and an error *)
  decap_word : Z -> Z -> Z;
  VXLAN_INPUT_NEXT_DROP : Z;
  VXLAN_ERROR_NO_SUCH_TUNNEL : Z;
  VXLAN_ERROR_BAD_FLAGS : Z;
  (** [vlib_buffer_get_ip_fib_index], of the RX and TX interface of a buffer *)
  ip_fib_index : bool -> Z -> Z -> Z;
  (** the checks of a destination against the local VTEPs, with the last hit *)
  vtep4_key_t : Type;
  vtep4_key_init : vtep4_key_t;
  vtep4_check : vtep4_key_t -> Z -> Z -> bool * vtep4_key_t;
  vtep6_key_t : Type;
  vtep6_key_init : vtep6_key_t;
  vtep6_check : vtep6_key_t -> Z -> list Z -> bool * vtep6_key_t;
  (** the VTEP table: fib index and address *)
  local_vtep4 : Z -> Z -> bool;
  (** the last hit is the initial all-ones key or one the table has *)
  vtep4_ok : vtep4_key_t -> Prop;
  vtep4_init_ok : vtep4_ok vtep4_key_init;
  vtep4_check_ok : forall k fib dst, vtep4_ok k -> vtep4_ok (snd (vtep4_check k fib dst));
  vtep4_check_spec : forall k fib dst, vtep4_ok k -> fib <> U32_MAX ->
    fst (vtep4_check k fib dst) = local_vtep4 fib dst;
  VNET_BUFFER_F_L4_CHECKSUM_CORRECT : Z;
  (** the buffer's flags after the checksum was validated *)
  validate_checksum : bool -> vlib_buffer_t -> Z;
  validate_checksum_cursor : forall is_ip4 ci b,
    validate_checksum is_ip4 (set_config_index ci b) = validate_checksum is_ip4 b;
  (** the codes of ip4-input and ip6-input *)
  UDP_CHECKSUM_ERROR : bool -> Z;
  UDP_LENGTH_ERROR : bool -> Z;
  udp_errors_nonzero : forall is_ip4,
    UDP_CHECKSUM_ERROR is_ip4 <> 0 /\ UDP_LENGTH_ERROR is_ip4 <> 0;
  (** [error_node->errors] *)
  error_node_errors : Z -> Z
}.

(** ** Headers *)

Definition VXLAN_FLAGS_I : Z := 0x08.
Definition IP_PROTOCOL_UDP : Z := 17.

Definition IP_VXLAN_BYPASS_NEXT_DROP : Z := 0.
Definition IP_VXLAN_BYPASS_NEXT_VXLAN : Z := 1.
Definition IP_VXLAN_BYPASS_NEXT_TUNTERM : Z := 2.

(** VPP's helpers on IP headers: at an offset of a buffer, or on an address. *)
Class IpHeaders `{Vlib} := {
  ip4_is_fragment : mem -> Z -> bool;
  (** more-fragments flag or fragment offset *)
  ip4_is_fragment_spec : forall d ip, mem_ok d -> ip4_is_fragment d ip =
    c_true (Z.land (be_decode (rd_bytes d (ip + 6) 2)) 0x3fff);
  ip4_next_header : mem -> Z -> Z;
  ip4_next_header_spec : forall d ip, ip4_next_header d ip = ip + Z.land (rd d ip) 0xf * 4;
  ip6_next_header : mem -> Z -> Z;
  ip6_next_header_spec : forall d ip, ip6_next_header d ip = ip + 40;
  (** 224.0.0.0/4 *)
  ip4_address_is_multicast : Z -> bool;
  ip4_address_is_multicast_spec : forall b0 b1 b2 b3, bytes_ok [b0; b1; b2; b3] ->
    ip4_address_is_multicast (load host [b0; b1; b2; b3]) = (224 <=? b0) && (b0 <=? 239);
  ip6_address_is_multicast : list Z -> bool
}.

Section Decap.
Context `{Vlib} `{!IpHeaders} `{Vxlan}.

(** Fields in memory order: [n] bytes at [o]. *)
Definition field (d : mem) (o : Z) (n : nat) : Z := load host (rd_bytes d o n).

(** ** Tunnel lookup *)

Definition decap_not_found : vxlan_decap_info_t :=
  mkDi U32_MAX (decap_word VXLAN_INPUT_NEXT_DROP VXLAN_ERROR_NO_SUCH_TUNNEL).
Definition decap_bad_flags : vxlan_decap_info_t :=
  mkDi U32_MAX (decap_word VXLAN_INPUT_NEXT_DROP VXLAN_ERROR_BAD_FLAGS).

Abbreviation last_tunnel_cache4 := (Z * Z * Z)%type.
Abbreviation last_tunnel_cache6 := (Z * Z * Z * Z)%type.

Definition key_hi (dst src : Z) : Z := Z.lor (u64 (Z.shiftl dst 32)) src.
Definition key_lo (port fib_index vni : Z) : Z :=
  Z.lor (Z.lor (u64 (Z.shiftl port 48)) (u64 (Z.shiftl fib_index 32))) vni.

(** The result: the decap info, the cache and [stats_sw_if_index]. *)
Definition tunterm_acl_vxlan4_find_tunnel (cache : last_tunnel_cache4) (fib_index : Z)
    (d : mem) (ip4_0 vxlan0 stats : Z) : vxlan_decap_info_t * last_tunnel_cache4 * Z :=
  if negb (rd d vxlan0 =? VXLAN_FLAGS_I) then (decap_bad_flags, cache, stats)
  else
    let dst := field d (ip4_0 + 16) 4 in
    let src := field d (ip4_0 + 12) 4 in
    let udp := ip4_next_header d ip4_0 in
    let key0 := key_hi dst src in
    let key1 := key_lo (field d (udp + 2) 2) fib_index (field d (vxlan0 + 4) 4) in
    let '(c0, c1, cv) := cache in
    if (key0 =? c0) && (key1 =? c1) then
      let di := di_of_u64 cv in (di, cache, di_sw_if_index di)
    else match vxlan4_tunnel_by_key (key0, key1) with
    | Some v => let di := di_of_u64 v in (di, (key0, key1, v), di_sw_if_index di)
    | None =>
        if negb (ip4_address_is_multicast dst) then (decap_not_found, cache, stats)
        else match vxlan4_tunnel_by_key (dst, key1) with
        | None => (decap_not_found, cache, stats)
        | Some mv =>
            let mdi := di_of_u64 mv in
            match vxlan4_tunnel_by_key (key_hi (di_word mdi) src, key1) with
            | None => (decap_not_found, cache, stats)
            | Some v => (di_of_u64 v, cache, di_sw_if_index mdi)
            end
        end
    end.

Definition tunterm_acl_vxlan6_find_tunnel (cache : last_tunnel_cache6) (fib_index : Z)
    (d : mem) (ip6_0 vxlan0 stats : Z) : vxlan_decap_info_t * last_tunnel_cache6 * Z :=
  if negb (rd d vxlan0 =? VXLAN_FLAGS_I) then (decap_bad_flags, cache, stats)
  else
    let udp := ip6_next_header d ip6_0 in
    let key2 := key_lo (field d (udp + 2) 2) fib_index (field d (vxlan0 + 4) 4) in
    let key := (field d (ip6_0 + 8) 8, field d (ip6_0 + 16) 8, key2) in
    let found :=
      if decide (key = fst cache) then Some cache
      else match vxlan6_tunnel_by_key key with Some v => Some (key, v) | None => None end in
    match found with
    | None => (decap_not_found, cache, stats)
    | Some cache =>
        let t0 := tunnels (snd cache) in
        let dst := rd_bytes d (ip6_0 + 24) 16 in
        let di := mkDi (t_sw_if_index t0) (decap_word (t_decap_next_index t0) 0) in
        if decide (dst = t_src_ip6 t0) then (di, cache, t_sw_if_index t0)
        else if negb (ip6_address_is_multicast dst) then (decap_not_found, cache, stats)
        else match vxlan6_tunnel_by_key (field d (ip6_0 + 24) 8, field d (ip6_0 + 32) 8, key2) with
        | None => (decap_not_found, cache, stats)
        | Some mv => (di, cache, t_sw_if_index (tunnels mv))
        end
    end.

(** ** One packet *)

(** The locals that survive from packet to packet. *)
Record bypass_caches := mkCaches {
  last_vtep4 : vtep4_key_t;
  last_vtep6 : vtep6_key_t;
  last4 : last_tunnel_cache4;
  last6 : last_tunnel_cache6
}.

Definition U64_MAX : Z := 2 ^ 64 - 1.

(** Initialised for both families here; the code initialises those it uses. *)
Definition caches_init : bypass_caches :=
  mkCaches vtep4_key_init vtep6_key_init (U64_MAX, U64_MAX, U64_MAX)
    (U64_MAX, U64_MAX, U64_MAX, U64_MAX).

Definition bypass_proto (is_ip4 : bool) (d : mem) (ip : Z) : Z :=
  if is_ip4 then (if ip4_is_fragment d ip then 0xfe else rd d (ip + 9)) else rd d (ip + 6).

Definition find_tunnel (is_ip4 : bool) (c : bypass_caches) (fi : Z) (d : mem) (ip vxlan : Z)
    : vxlan_decap_info_t * bypass_caches :=
  if is_ip4 then
    let '(di, c4, _) := tunterm_acl_vxlan4_find_tunnel (last4 c) fi d ip vxlan U32_MAX in
    (di, mkCaches (last_vtep4 c) (last_vtep6 c) c4 (last6 c))
  else
    let '(di, c6, _) := tunterm_acl_vxlan6_find_tunnel (last6 c) fi d ip vxlan U32_MAX in
    (di, mkCaches (last_vtep4 c) (last_vtep6 c) (last4 c) c6).

Definition vtep_check (is_ip4 : bool) (c : bypass_caches) (fi : Z) (d : mem) (ip : Z)
    : bool * bypass_caches :=
  if is_ip4 then
    let '(ok, k) := vtep4_check (last_vtep4 c) fi (field d (ip + 16) 4) in
    (ok, mkCaches k (last_vtep6 c) (last4 c) (last6 c))
  else
    let '(ok, k) := vtep6_check (last_vtep6 c) fi (rd_bytes d (ip + 24) 16) in
    (ok, mkCaches (last_vtep4 c) k (last4 c) (last6 c)).

(** From the protocol test to the label [exit]: [ip] is the offset of the IP
    header, [next0] the next node on the arc. *)
Definition bypass_process (is_ip4 : bool) (c : bypass_caches) (ip proto next0 : Z)
    (b : vlib_buffer_t) : bypass_caches * Z * vlib_buffer_t :=
  if negb (proto =? IP_PROTOCOL_UDP) then (c, next0, b)
  else
    let d := data b in
    let udp := if is_ip4 then ip4_next_header d ip else ip6_next_header d ip in
    let fi := ip_fib_index is_ip4 (sw_if_index_rx b) (sw_if_index_tx b) in
    let '(di, c) := find_tunnel is_ip4 c fi d ip (current_data b + 8 + 20) in
    if di_sw_if_index di =? U32_MAX then (c, next0, b)
    else
      let '(local, c) := vtep_check is_ip4 c fi d ip in
      if negb local then (c, next0, b)
      else
        let good := c_true (Z.land (flags b) VNET_BUFFER_F_L4_CHECKSUM_CORRECT) ||
          (field d (udp + 6) 2 =? 0) in
        let ip_len := net_to_host host 2 (field d (ip + (if is_ip4 then 2 else 4)) 2) in
        let udp_len := net_to_host host 2 (field d (udp + 4) 2) in
        let len_diff := i32 (u32 (ip_len - udp_len)) in
        let '(good, b) :=
          if negb good then
            let fl := validate_checksum is_ip4 b in
            (c_true (Z.land fl VNET_BUFFER_F_L4_CHECKSUM_CORRECT), set_flags fl b)
          else (good, b) in
        let err := if good then 0 else UDP_CHECKSUM_ERROR is_ip4 in
        let err := if 0 <=? len_diff then err else UDP_LENGTH_ERROR is_ip4 in
        let next := if c_true err then IP_VXLAN_BYPASS_NEXT_DROP else IP_VXLAN_BYPASS_NEXT_TUNTERM in
        let b := set_error (if c_true err then error_node_errors err else 0) b in
        (c, next, vlib_buffer_advance b (if is_ip4 then 20 + 8 else 40 + 8)).

(** ** The node *)

Record bypass_acc := mkBacc {
  ba_caches : bypass_caches;
  ba_store : buffers;
  ba_enqueued : list (Z * Z)
}.

(** The single loop's body. *)
Definition bypass_x1 (is_ip4 : bool) (acc : bypass_acc) (bi0 : Z) : bypass_acc :=
  let b0 := getb (ba_store acc) bi0 in
  let ip0 := current_data b0 in
  let '(next0, b0) := vnet_feature_next b0 in
  let '(c, next0, b0) := bypass_process is_ip4 (ba_caches acc) ip0
    (bypass_proto is_ip4 (data b0) ip0) next0 b0 in
  mkBacc c (<[bi0 := b0]> (ba_store acc)) (ba_enqueued acc ++ [(bi0, next0)]).

(** The dual loop's body: both packets are set up ([next0], [next1] from the arc, the
    protocols), then processed in turn, the second with the caches the first left. *)
Definition bypass_x2_packet0 (is_ip4 : bool) (c : bypass_caches) (st : buffers) (bi0 ip0 proto0 next0 : Z)
    : bypass_caches * Z * buffers :=
  let '(c, next0, b0) := bypass_process is_ip4 c ip0 proto0 next0 (getb st bi0) in
  (c, next0, <[bi0 := b0]> st).

Definition bypass_x2_packet1 (is_ip4 : bool) (c : bypass_caches) (st : buffers) (bi1 ip1 proto1 next1 : Z)
    : bypass_caches * Z * buffers :=
  let '(c, next1, b1) := bypass_process is_ip4 c ip1 proto1 next1 (getb st bi1) in
  (c, next1, <[bi1 := b1]> st).

Definition bypass_x2 (is_ip4 : bool) (acc : bypass_acc) (bi0 bi1 : Z) : bypass_acc :=
  let st := ba_store acc in
  let ip0 := current_data (getb st bi0) in
  let ip1 := current_data (getb st bi1) in
  let '(next0, b0) := vnet_feature_next (getb st bi0) in
  let st := <[bi0 := b0]> st in
  let '(next1, b1) := vnet_feature_next (getb st bi1) in
  let st := <[bi1 := b1]> st in
  let proto0 := bypass_proto is_ip4 (data (getb st bi0)) ip0 in
  let proto1 := bypass_proto is_ip4 (data (getb st bi1)) ip1 in
  let '(c, next0, st) := bypass_x2_packet0 is_ip4 (ba_caches acc) st bi0 ip0 proto0 next0 in
  let '(c, next1, st) := bypass_x2_packet1 is_ip4 c st bi1 ip1 proto1 next1 in
  mkBacc c st (ba_enqueued acc ++ [(bi0, next0); (bi1, next1)]).

(** [n_left_to_next] is VPP's: [room_new n] after [vlib_get_next_frame] and
    [room_after n] after an enqueue, when [n] packets are left. *)
Variables room_new room_after : nat -> Z.

Fixpoint bypass_dual_loop (is_ip4 : bool) (from : list Z) (room : Z) (acc : bypass_acc)
    : list Z * Z * bypass_acc :=
  match from with
  | bi0 :: bi1 :: ((_ :: _ :: _) as rest) =>
      if 2 <=? room
      then bypass_dual_loop is_ip4 rest (room_after (length rest)) (bypass_x2 is_ip4 acc bi0 bi1)
      else (from, room, acc)
  | _ => (from, room, acc)
  end.

Fixpoint bypass_single_loop (is_ip4 : bool) (from : list Z) (room : Z) (acc : bypass_acc)
    : list Z * Z * bypass_acc :=
  match from with
  | bi0 :: rest =>
      if 0 <? room
      then bypass_single_loop is_ip4 rest (room_after (length rest)) (bypass_x1 is_ip4 acc bi0)
      else (from, room, acc)
  | [] => (from, room, acc)
  end.

(** The outer loop; [None] when the fuel runs out. *)
Fixpoint bypass_outer_loop (is_ip4 : bool) (fuel : nat) (from : list Z) (acc : bypass_acc)
    : option bypass_acc :=
  match from, fuel with
  | [], _ => Some acc
  | _, O => None
  | _, S fuel =>
      let '(from, room, acc) := bypass_dual_loop is_ip4 from (room_new (length from)) acc in
      let '(from, _, acc) := bypass_single_loop is_ip4 from room acc in
      bypass_outer_loop is_ip4 fuel from acc
  end.

(** The packets traced up front, the final state, and the return value. *)
Definition tunterm_acl_ip_vxlan_bypass_inline (is_ip4 : bool) (node_flags : Z) (st : buffers)
    (from : list Z) : option (list Z * bypass_acc * Z) :=
  acc ← bypass_outer_loop is_ip4 (length from) from (mkBacc caches_init st []);
  Some (if node_traced node_flags then from else [], acc, Z.of_nat (length from)).

Definition tunterm_acl_ip4_vxlan_bypass_node (node_flags : Z) (st : buffers) (from : list Z) :=
  tunterm_acl_ip_vxlan_bypass_inline true node_flags st from.

(** The init function fetches the state of the vxlan plugin: what the node reads of
    it ([Vxlan]) is there only when the symbol was found.  The result is the pointer
    [tunterm_acl_vxlan_main] and the error. *)
Definition tunterm_acl_ip4_vxlan_bypass_init {P : Type}
    (vlib_get_plugin_symbol : string -> string -> option P) : option P * option string :=
  match vlib_get_plugin_symbol "vxlan_plugin.so" "vxlan_main" with
  | None => (None, Some "cannot get vxlan_main symbol")
  | Some m => (Some m, None)
  end%string.

(** ** Specification *)

Inductive verdict := Pass | Tunterm | BadChecksum | BadLength.

(** The tunnel of an IPv4 packet, looked up without the cache. *)
Definition decap_lookup4 (fib_index : Z) (d : mem) (ip : Z) : vxlan_decap_info_t :=
  let dst := field d (ip + 16) 4 in
  let src := field d (ip + 12) 4 in
  let key1 := key_lo (field d (ip4_next_header d ip + 2) 2) fib_index (field d (ip + 32) 4) in
  match vxlan4_tunnel_by_key (key_hi dst src, key1) with
  | Some v => di_of_u64 v
  | None =>
      if ip4_address_is_multicast dst then
        match (mv ← vxlan4_tunnel_by_key (dst, key1);
               vxlan4_tunnel_by_key (key_hi (di_word (di_of_u64 mv)) src, key1)) with
        | Some v => di_of_u64 v
        | None => decap_not_found
        end
      else decap_not_found
  end.

Definition buffer_fib (b : vlib_buffer_t) : Z := ip_fib_index true (sw_if_index_rx b) (sw_if_index_tx b).

(** The UDP header, by the IP header length of the packet. *)
Definition udp_at (b : vlib_buffer_t) : Z := current_data b + Z.land (cur_byte b 0) 0xf * 4.

(** The UDP checksum was verified, is absent, or is right. *)
Definition checksum_ok (b : vlib_buffer_t) : bool :=
  c_true (Z.land (flags b) VNET_BUFFER_F_L4_CHECKSUM_CORRECT) ||
  (be_decode (rd_bytes (data b) (udp_at b + 6) 2) =? 0) ||
  c_true (Z.land (validate_checksum true b) VNET_BUFFER_F_L4_CHECKSUM_CORRECT).

(** An IPv4 packet at the current position: a whole UDP packet that carries the
    VXLAN I flag after 28 bytes, for a tunnel there is, to a local VTEP; of those
    the ones whose UDP length does not exceed the IP length and whose checksum
    holds are for tunterm-acl. *)
Definition bypass_verdict (b : vlib_buffer_t) : verdict :=
  if c_true (Z.land (be_decode (cur_bytes b 6 2)) 0x3fff) then Pass
  else if negb (cur_byte b 9 =? IP_PROTOCOL_UDP) then Pass
  else if negb (cur_byte b 28 =? VXLAN_FLAGS_I) then Pass
  else if di_sw_if_index (decap_lookup4 (buffer_fib b) (data b) (current_data b)) =? U32_MAX
  then Pass
  else if negb (local_vtep4 (buffer_fib b) (field (data b) (current_data b + 16) 4)) then Pass
  else if be_decode (cur_bytes b 2 2) <? be_decode (rd_bytes (data b) (udp_at b + 4) 2) then BadLength
  else if checksum_ok b then Tunterm
  else BadChecksum.

Definition verdict_next (b : vlib_buffer_t) : Z :=
  match bypass_verdict b with
  | Pass => fst (vnet_feature_next b)
  | Tunterm => IP_VXLAN_BYPASS_NEXT_TUNTERM
  | BadChecksum | BadLength => IP_VXLAN_BYPASS_NEXT_DROP
  end.

Definition verdict_error (v : verdict) : Z :=
  match v with
  | Pass | Tunterm => 0
  | BadChecksum => error_node_errors (UDP_CHECKSUM_ERROR true)
  | BadLength => error_node_errors (UDP_LENGTH_ERROR true)
  end.

(** A buffer that is passed on only has its arc cursor moved; otherwise the
    packet now starts 28 bytes later, the error is set, and nothing but the
    flags (by a checksum validation) is touched. *)
Definition verdict_buffer (b b' : vlib_buffer_t) : Prop :=
  let b1 := snd (vnet_feature_next b) in
  match bypass_verdict b with
  | Pass => b' = b1
  | v => exists fl, b' = vlib_buffer_advance (set_error (verdict_error v) (set_flags fl b1)) 28 /\
      (fl = flags b \/ fl = validate_checksum true b)
  end.

(** The caches hold nothing the tables do not say. *)
Definition cache4_ok (cache : last_tunnel_cache4) : Prop :=
  cache = (U64_MAX, U64_MAX, U64_MAX) \/
  let '(k0, k1, v) := cache in vxlan4_tunnel_by_key (k0, k1) = Some v.

Definition caches_ok (c : bypass_caches) : Prop :=
  vtep4_ok (last_vtep4 c) /\
  cache4_ok (last4 c).

End Decap.

(** ** Example *)

#[refine] Definition ip_headers_ref `{Vlib} : IpHeaders := {|
  ip4_is_fragment := fun d ip => c_true (Z.land (be_decode (rd_bytes d (ip + 6) 2)) 0x3fff);
  ip4_is_fragment_spec := fun _ _ _ => eq_refl;
  ip4_next_header := fun d ip => ip + Z.land (rd d ip) 0xf * 4;
  ip4_next_header_spec := fun _ _ => eq_refl;
  ip6_next_header := fun _ ip => ip + 40;
  ip6_next_header_spec := fun _ _ => eq_refl;
  ip4_address_is_multicast := fun a =>
    let b0 := default 0 (head (store host 4 a)) in (224 <=? b0) && (b0 <=? 239);
  ip6_address_is_multicast := fun a => default 0 (head a) =? 0xff
|}.
Proof.
  intros b0 b1 b2 b3 Hok. by rewrite (store_load host [b0; b1; b2; b3] Hok : store host 4 _ = _).
Defined.

(** The tunnel of 10.0.0.1 to 10.0.0.9 with VNI 100 in FIB 3 is interface 77, and
    10.0.0.1 is local; a checksum that has to be validated is wrong. *)
#[refine] Definition vxlan_ref : Vxlan := {|
  vxlan4_tunnel_by_key := fun k =>
    if decide (k = (key_hi (le_decode [10; 0; 0; 1]) (le_decode [10; 0; 0; 9]),
                    key_lo (le_decode [0x12; 0xb5]) 3 (le_decode [0; 0; 100; 0])))
    then Some 77 else None;
  vxlan6_tunnel_by_key := fun _ => None;
  tunnels := fun _ => mkTunnel [] 0 0;
  di_of_u64 := fun v => mkDi (v mod 2 ^ 32) (v / 2 ^ 32);
  decap_word := fun next err => next + 2 ^ 16 * err;
  VXLAN_INPUT_NEXT_DROP := 0;
  VXLAN_ERROR_NO_SUCH_TUNNEL := 1;
  VXLAN_ERROR_BAD_FLAGS := 2;
  ip_fib_index := fun _ _ _ => 3;
  vtep4_key_init := tt;
  vtep4_check := fun k _ dst => (dst =? le_decode [10; 0; 0; 1], k);
  vtep6_key_init := tt;
  vtep6_check := fun k _ _ => (false, k);
  local_vtep4 := fun _ dst => dst =? le_decode [10; 0; 0; 1];
  vtep4_ok := fun _ => True;
  VNET_BUFFER_F_L4_CHECKSUM_CORRECT := 2;
  validate_checksum := fun _ b => Z.lor (flags b) 4;
  UDP_CHECKSUM_ERROR := fun _ => 5;
  UDP_LENGTH_ERROR := fun _ => 6;
  error_node_errors := fun e => 100 + e
|}.
Proof. all: done. Defined.

(** IPv4, UDP to port 4789 with the given checksum, and VXLAN with VNI 100. *)
Definition ex_outer (checksum : list Z) : vlib_buffer_t :=
  set_current 14 100 (set_data (wr_bytes ∅ 14
    ([0x45; 0; 0; 100; 0; 0; 0; 0; 64; 17; 0; 0; 10; 0; 0; 9; 10; 0; 0; 1] ++
     [0x30; 0x39; 0x12; 0xb5; 0; 80] ++ checksum ++ [8; 0; 0; 0; 0; 0; 100; 0])) null_buffer).

(** A good packet, one with a wrong checksum, and one that is not UDP. *)
Definition ex_frame : buffers :=
  {[1 := ex_outer [0; 0]; 2 := ex_outer [1; 2]; 3 := null_buffer]}.

(** ** Lemmas *)

Section Facts.
Context `{Vlib} `{!IpHeaders} `{Vxlan}.

(** *** The loops *)

Lemma process_pair acc is_ip4 bi0 bi1 :
  bi0 <> bi1 -> bypass_x2 is_ip4 acc bi0 bi1 = bypass_x1 is_ip4 (bypass_x1 is_ip4 acc bi0) bi1.
Proof.
  intros Hne. unfold bypass_x2, bypass_x2_packet0, bypass_x2_packet1, bypass_x1.
  destruct (vnet_feature_next (getb (ba_store acc) bi0)) as [n0 b0].
  rewrite getb_insert_ne by done.
  destruct (vnet_feature_next (getb (ba_store acc) bi1)) as [n1 b1] eqn:Hb1.
  rewrite getb_insert_eq, getb_insert_ne, getb_insert_eq by done.
  destruct (bypass_process is_ip4 (ba_caches acc) _ _ n0 b0) as [[c n0'] b0'].
  rewrite getb_insert_ne, getb_insert_eq by done. cbn [ba_store ba_caches ba_enqueued].
  rewrite getb_insert_ne, Hb1 by done.
  destruct (bypass_process is_ip4 c _ _ n1 b1) as [[c' n1'] b1'].
  rewrite <- app_assoc. f_equal.
  by rewrite (insert_insert_ne _ bi0 bi1), !insert_insert_eq by done.
Qed.

Section Loops.
Variables room_new room_after : nat -> Z.
Variable is_ip4 : bool.

(** Each loop consumes a prefix of the frame, packet by packet. *)
Lemma dual_loop_fold from room acc :
  NoDup from -> exists pre from' room',
    bypass_dual_loop room_after is_ip4 from room acc =
      (from', room', fold_left (bypass_x1 is_ip4) pre acc) /\
    from = pre ++ from' /\ (pre = [] -> room' = room).
Proof.
  remember (length from) as n eqn:Hn. revert from room acc Hn.
  induction (lt_wf n) as [n _ IH]. intros from room acc -> Hnd.
  destruct from as [|bi0 [|bi1 [|bi2 [|bi3 rest]]]]; try (by eexists [], _, _).
  cbn [bypass_dual_loop]. destruct (2 <=? room); [|by eexists [], _, _].
  apply NoDup_cons in Hnd as [Hk0 Hnd]. apply NoDup_cons in Hnd as [_ Hnd].
  destruct (IH (length (bi2 :: bi3 :: rest)) ltac:(cbn; lia) (bi2 :: bi3 :: rest)
    (room_after (length (bi2 :: bi3 :: rest))) (bypass_x2 is_ip4 acc bi0 bi1) eq_refl Hnd)
    as (pre & from' & room' & Heq & Hfrom & _).
  exists (bi0 :: bi1 :: pre), from', room'. split_and!; [|cbn; by rewrite Hfrom|done].
  change (bypass_dual_loop room_after is_ip4 (bi2 :: bi3 :: rest)
    (room_after (length (bi2 :: bi3 :: rest))) (bypass_x2 is_ip4 acc bi0 bi1) =
    (from', room', fold_left (bypass_x1 is_ip4) (bi0 :: bi1 :: pre) acc)).
  rewrite Heq. cbn [fold_left]. rewrite process_pair; [done|]. intros ->. set_solver.
Qed.

Lemma single_loop_fold from room acc :
  exists pre from' room',
    bypass_single_loop room_after is_ip4 from room acc =
      (from', room', fold_left (bypass_x1 is_ip4) pre acc) /\
    from = pre ++ from' /\ (0 < room -> from <> [] -> pre <> []).
Proof.
  revert room acc; induction from as [|bi from IH]; intros room acc; [by eexists [], _, _|].
  cbn [bypass_single_loop]. destruct (Z.ltb_spec 0 room); [|by eexists [], _, _; split_and!; [..|lia]].
  destruct (IH (room_after (length from)) (bypass_x1 is_ip4 acc bi)) as (pre & from' & r & -> & -> & _).
  by exists (bi :: pre), from', r.
Qed.

(** What is enqueued, also when a frame names a buffer twice. *)
Lemma x1_enqueued acc bi : exists next,
  ba_enqueued (bypass_x1 is_ip4 acc bi) = ba_enqueued acc ++ [(bi, next)].
Proof.
  unfold bypass_x1. destruct (vnet_feature_next _) as [n b].
  destruct (bypass_process _ _ _ _ _ _) as [[c n'] b']. by exists n'.
Qed.

Lemma x2_enqueued acc bi0 bi1 : exists next0 next1,
  ba_enqueued (bypass_x2 is_ip4 acc bi0 bi1) = ba_enqueued acc ++ [(bi0, next0); (bi1, next1)].
Proof.
  unfold bypass_x2. destruct (vnet_feature_next _) as [n0 b0]. destruct (vnet_feature_next _) as [n1 b1].
  destruct (bypass_x2_packet0 _ _ _ _ _ _ n0) as [[c n0'] st0].
  destruct (bypass_x2_packet1 _ _ _ _ _ _ n1) as [[c' n1'] st1]. by exists n0', n1'.
Qed.

(** [acc'] comes from [acc] by enqueueing the packets [pre], in order. *)
Definition enqueues (pre : list Z) (acc acc' : bypass_acc) : Prop :=
  fst <$> ba_enqueued acc' = (fst <$> ba_enqueued acc) ++ pre.

Lemma enqueues_nil acc : enqueues [] acc acc.
Proof. unfold enqueues. by rewrite app_nil_r. Qed.

Lemma dual_loop_consumes from room acc :
  let '(from', room', acc') := bypass_dual_loop room_after is_ip4 from room acc in
  exists pre, from = pre ++ from' /\ enqueues pre acc acc' /\ (pre = [] -> room' = room).
Proof.
  remember (length from) as n eqn:Hn. revert from room acc Hn.
  induction (lt_wf n) as [n _ IH]. intros from room acc ->.
  assert (Hstop : exists pre, from = pre ++ from /\ enqueues pre acc acc /\ (pre = [] -> room = room))
    by (exists []; auto using enqueues_nil).
  destruct from as [|bi0 [|bi1 [|bi2 [|bi3 rest]]]]; try exact Hstop.
  cbn [bypass_dual_loop]. destruct (2 <=? room); [|exact Hstop].
  specialize (IH (length (bi2 :: bi3 :: rest)) ltac:(cbn; lia) (bi2 :: bi3 :: rest)
    (room_after (length (bi2 :: bi3 :: rest))) (bypass_x2 is_ip4 acc bi0 bi1) eq_refl).
  change (let '(from', room', acc') := bypass_dual_loop room_after is_ip4 (bi2 :: bi3 :: rest)
    (room_after (length (bi2 :: bi3 :: rest))) (bypass_x2 is_ip4 acc bi0 bi1) in
    exists pre, bi0 :: bi1 :: bi2 :: bi3 :: rest = pre ++ from' /\ enqueues pre acc acc' /\
      (pre = [] -> room' = room)).
  destruct (bypass_dual_loop _ _ (bi2 :: _) _ _) as [[from' room'] acc'].
  destruct IH as (pre & Hfrom & Hq & _). exists (bi0 :: bi1 :: pre).
  split; [cbn; by rewrite <- Hfrom|]. split; [|done]. unfold enqueues in *. rewrite Hq.
  destruct (x2_enqueued acc bi0 bi1) as (n0 & n1 & ->). rewrite fmap_app, <- app_assoc. done.
Qed.

Lemma single_loop_consumes from room acc :
  let '(from', _, acc') := bypass_single_loop room_after is_ip4 from room acc in
  exists pre, from = pre ++ from' /\ enqueues pre acc acc' /\ (0 < room -> from <> [] -> pre <> []).
Proof.
  revert room acc; induction from as [|bi from IH]; intros room acc.
  { exists []. refine (conj eq_refl (conj (enqueues_nil acc) _)). by intros _ []. }
  cbn [bypass_single_loop]. destruct (Z.ltb_spec 0 room).
  - specialize (IH (room_after (length from)) (bypass_x1 is_ip4 acc bi)).
    destruct (bypass_single_loop _ _ from _ _) as [[from' r'] acc']. destruct IH as (pre & -> & Hq & _).
    exists (bi :: pre). split; [done|]. split; [|done]. unfold enqueues in *. rewrite Hq.
    destruct (x1_enqueued acc bi) as [n ->]. by rewrite fmap_app, <- app_assoc.
  - exists []. split_and!; [done|apply enqueues_nil|lia].
Qed.

Lemma outer_loop_consumes fuel from acc :
  (forall n, 0 < room_new n) -> (length from <= fuel)%nat ->
  exists acc', bypass_outer_loop room_new room_after is_ip4 fuel from acc = Some acc' /\
    enqueues from acc acc'.
Proof.
  intros Hroom. revert from acc; induction fuel as [|fuel IH]; intros from acc Hf.
  { destruct from; [|cbn in Hf; lia]. exists acc. auto using enqueues_nil. }
  destruct from as [|bi from0].
  { exists acc. auto using enqueues_nil. }
  set (from := bi :: from0) in *.
  change (bypass_outer_loop room_new room_after is_ip4 (S fuel) from acc) with
    (let '(f, room, a) := bypass_dual_loop room_after is_ip4 from (room_new (length from)) acc in
     let '(f, _, a) := bypass_single_loop room_after is_ip4 f room a in
     bypass_outer_loop room_new room_after is_ip4 fuel f a).
  pose proof (dual_loop_consumes from (room_new (length from)) acc) as Hd.
  destruct (bypass_dual_loop _ _ _ _ _) as [[f1 r1] a1]. destruct Hd as (p1 & Hf1 & Hq1 & Hr1).
  pose proof (single_loop_consumes f1 r1 a1) as Hs.
  destruct (bypass_single_loop _ _ _ _ _) as [[f2 r2] a2]. destruct Hs as (p2 & Hf2 & Hq2 & Hp2).
  assert (Hlen : (length f2 < length from)%nat).
  { rewrite Hf1, Hf2, !length_app. destruct p1; [|cbn; lia]. destruct p2; [exfalso|cbn; lia].
    apply Hp2; [rewrite Hr1 by done; apply Hroom|by rewrite app_nil_l in Hf1; rewrite <- Hf1|done]. }
  destruct (IH f2 a2) as (acc' & -> & Hq); [lia|]. exists acc'. split; [done|].
  unfold enqueues in *. rewrite Hq, Hq2, Hq1, Hf1, Hf2. by rewrite !app_assoc.
Qed.

(** Without room in a new frame the packets stay where they are. *)
Lemma no_room_loops from acc :
  bypass_dual_loop room_after is_ip4 from 0 acc = (from, 0, acc) /\
  bypass_single_loop room_after is_ip4 from 0 acc = (from, 0, acc).
Proof. split; [by destruct from as [|? [|? [|? [|? ?]]]]|by destruct from]. Qed.

(** When a new frame always has room, the node treats every packet, in order. *)
Lemma outer_loop_fold fuel from acc :
  (forall n, 0 < room_new n) -> NoDup from -> (length from <= fuel)%nat ->
  bypass_outer_loop room_new room_after is_ip4 fuel from acc =
  Some (fold_left (bypass_x1 is_ip4) from acc).
Proof.
  intros Hroom. revert from acc; induction fuel as [|fuel IH]; intros from acc Hnd Hf.
  { destruct from; [done|cbn in Hf; lia]. }
  destruct from as [|bi from0]; [done|]. set (from := bi :: from0) in *.
  change (bypass_outer_loop room_new room_after is_ip4 (S fuel) from acc) with
    (let '(f, room, a) := bypass_dual_loop room_after is_ip4 from (room_new (length from)) acc in
     let '(f, _, a) := bypass_single_loop room_after is_ip4 f room a in
     bypass_outer_loop room_new room_after is_ip4 fuel f a).
  destruct (dual_loop_fold from (room_new (length from)) acc Hnd) as (p1 & f1 & r1 & -> & Hf1 & Hr1).
  destruct (single_loop_fold f1 r1 (fold_left (bypass_x1 is_ip4) p1 acc)) as (p2 & f2 & r2 & -> & Hf2 & Hp2).
  assert (Hfrom : from = (p1 ++ p2) ++ f2) by (rewrite Hf1, Hf2; apply app_assoc).
  assert (Hlen : (length f2 < length from)%nat).
  { rewrite Hfrom, !length_app. destruct p1; [|cbn; lia]. destruct p2; [exfalso|cbn; lia].
    apply Hp2; [rewrite Hr1 by done; apply Hroom|by rewrite app_nil_l in Hf1; rewrite <- Hf1|done]. }
  rewrite IH; [|by rewrite Hfrom in Hnd; apply NoDup_app in Hnd as (_ & _ & ?)|lia].
  by rewrite Hfrom, !fold_left_app.
Qed.

End Loops.

(** *** The caches *)

Lemma field_u32 d o : mem_ok d -> is_u32 (field d o 4).
Proof.
  intros Hd. pose proof (load_range host (rd_bytes d o 4) (rd_bytes_ok d o 4 Hd)) as Hl. exact Hl.
Qed.

Lemma key_hi_ones dst src : is_u32 dst -> is_u32 src -> key_hi dst src = U64_MAX -> dst = U32_MAX.
Proof.
  unfold key_hi. intros Hd Hs Hk. rewrite u64_id in Hk by (rewrite Z.shiftl_mul_pow2; zsolve).
  assert (Hsh : Z.shiftr (Z.lor (Z.shiftl dst 32) src) 32 = dst).
  { rewrite Z.shiftr_lor, Z.shiftr_shiftl_l, Z.sub_diag, Z.shiftl_0_r by lia.
    rewrite (Z.shiftr_div_pow2 src), (Z.div_small src) by zsolve. apply Z.lor_0_r. }
  rewrite <- Hsh, Hk. reflexivity.
Qed.

Lemma ones_not_multicast d o : mem_ok d -> field d o 4 = U32_MAX ->
  ip4_address_is_multicast (field d o 4) = false.
Proof.
  intros Hd Ho. unfold field in *. pose proof (rd_bytes_ok d o 4 Hd) as Hok.
  assert (Hb : rd_bytes d o 4 = replicate 4 255).
  { apply (load_inj host); [done|by_compute|done|]. rewrite Ho. by destruct host. }
  rewrite Hb. cbn [replicate]. by rewrite ip4_address_is_multicast_spec by by_compute.
Qed.

Hypothesis no_ones_tunnel : vxlan4_tunnel_by_key (U64_MAX, U64_MAX) = None.

(** The lookup with the cache finds what the one without it finds. *)
Lemma find4_cached cache fib d ip stats :
  mem_ok d -> cache4_ok cache -> rd d (ip + 28) = VXLAN_FLAGS_I ->
  let '(di, cache', _) := tunterm_acl_vxlan4_find_tunnel cache fib d ip (ip + 28) stats in
  di_sw_if_index di = di_sw_if_index (decap_lookup4 fib d ip) /\ cache4_ok cache'.
Proof using no_ones_tunnel.
  intros Hd Hc Hfl. unfold tunterm_acl_vxlan4_find_tunnel, decap_lookup4.
  rewrite Hfl, Z.eqb_refl. cbn [negb]. replace (ip + 28 + 4) with (ip + 32) by lia.
  set (dst := field d (ip + 16) 4). set (src := field d (ip + 12) 4).
  set (key1 := key_lo _ _ _). destruct cache as [[c0 c1] cv].
  destruct ((key_hi dst src =? c0) && (key1 =? c1)) eqn:Hhit.
  - apply andb_true_iff in Hhit as [<-%Z.eqb_eq <-%Z.eqb_eq]. split; [|done].
    destruct Hc as [Hc| ->]; [|done]. injection Hc as Hk0 -> ->.
    rewrite Hk0, no_ones_tunnel. unfold dst in Hk0. apply key_hi_ones in Hk0; [|by apply field_u32..].
    unfold dst. rewrite ones_not_multicast by done. apply di_of_ones.
  - destruct (vxlan4_tunnel_by_key (key_hi dst src, key1)) as [v|] eqn:Hv; [by split; [|right]|].
    destruct (ip4_address_is_multicast dst); cbn [negb]; [|done].
    destruct (vxlan4_tunnel_by_key (dst, key1)) as [mv|]; cbn [mbind option_bind]; [|done].
    clear Hv. by destruct (vxlan4_tunnel_by_key (key_hi (di_word _) src, key1)).
Qed.

(** *** One packet *)

Lemma field_net d o n : mem_ok d -> net_to_host host n (field d o n) = be_decode (rd_bytes d o n).
Proof.
  intros Hd. pose proof (net_to_host_load host (rd_bytes d o n) (rd_bytes_ok d o n Hd)) as Hn.
  by rewrite rd_bytes_length in Hn.
Qed.

Lemma field_zero d o n : mem_ok d -> (field d o n =? 0) = (be_decode (rd_bytes d o n) =? 0).
Proof.
  intros Hd. pose proof (rd_bytes_ok d o n Hd) as Hok.
  assert (Hz : forall e, load e (replicate n 0) = 0).
  { intros [|]; cbn; [apply le_decode_zero|]. unfold be_decode. rewrite reverse_replicate.
    apply le_decode_zero. }
  assert (Hiff : forall e, load e (rd_bytes d o n) = 0 <-> rd_bytes d o n = replicate n 0).
  { intros e. split; [|intros ->; apply Hz]. intros Hl. apply (load_inj e); [done| | |].
    - apply Forall_replicate. by_compute.
    - by rewrite rd_bytes_length, length_replicate.
    - by rewrite Hl, Hz. }
  apply eq_true_iff_eq. rewrite !Z.eqb_eq. unfold field. rewrite (Hiff host).
  symmetry. apply (Hiff BE).
Qed.

Lemma len_diff_sign d o1 o2 : mem_ok d ->
  (0 <=? i32 (u32 (be_decode (rd_bytes d o1 2) - be_decode (rd_bytes d o2 2)))) =
  negb (be_decode (rd_bytes d o1 2) <? be_decode (rd_bytes d o2 2)).
Proof.
  intros Hd. pose proof (load_range BE (rd_bytes d o1 2) (rd_bytes_ok d o1 2 Hd)) as R1.
  pose proof (load_range BE (rd_bytes d o2 2) (rd_bytes_ok d o2 2 Hd)) as R2.
  cbn [load] in R1, R2. rewrite rd_bytes_length in R1, R2.
  change (2 ^ (8 * Z.of_nat 2)) with 65536 in R1, R2.
  apply eq_true_iff_eq. rewrite negb_true_iff, Z.leb_le, Z.ltb_ge. unfold i32, u32. zsolve.
Qed.

Lemma caches_ok_init : caches_ok caches_init.
Proof. split; [apply vtep4_init_ok|by left]. Qed.

(** The packet is treated as the reference says, and the caches stay truthful. *)
Lemma bypass_process_ok c b :
  caches_ok c -> buffer_ok b -> buffer_fib b <> U32_MAX ->
  let '(next, b1) := vnet_feature_next b in
  exists c' b', bypass_process true c (current_data b)
      (bypass_proto true (data b1) (current_data b)) next b1 = (c', verdict_next b, b') /\
    caches_ok c' /\ verdict_buffer b b'.
Proof using no_ones_tunnel.
  intros [Hv Hc] Hb Hfib. unfold verdict_buffer, verdict_next, bypass_verdict.
  unfold vnet_feature_next. destruct (vnet_feature_next_at _ _) as [next ci]. cbn [fst snd].
  unfold bypass_process, bypass_proto, cur_byte, cur_bytes, udp_at.
  change (data (set_config_index ci b)) with (data b).
  change (current_data (set_config_index ci b)) with (current_data b).
  change (ip_fib_index true (sw_if_index_rx (set_config_index ci b))
    (sw_if_index_tx (set_config_index ci b))) with (buffer_fib b).
  change (flags (set_config_index ci b)) with (flags b).
  rewrite ip4_is_fragment_spec by done.
  destruct (c_true (Z.land _ 0x3fff)); [by eexists _, _|].
  destruct (rd (data b) (current_data b + 9) =? IP_PROTOCOL_UDP); cbn [negb]; [|by eexists _, _].
  unfold find_tunnel. replace (current_data b + 8 + 20) with (current_data b + 28) by lia.
  destruct (Z.eqb_spec (rd (data b) (current_data b + 28)) VXLAN_FLAGS_I) as [Hfl|Hfl]; cbn [negb].
  2: { unfold tunterm_acl_vxlan4_find_tunnel. rewrite (proj2 (Z.eqb_neq _ _) Hfl). by eexists _, _. }
  pose proof (find4_cached (last4 c) (buffer_fib b) (data b) (current_data b) U32_MAX Hb Hc Hfl) as Hf.
  destruct (tunterm_acl_vxlan4_find_tunnel _ _ _ _ _ _) as [[di c4] ?]. destruct Hf as [<- Hc4].
  destruct (di_sw_if_index di =? U32_MAX); [by eexists _, _|].
  unfold vtep_check. cbn [last_vtep4].
  pose proof (vtep4_check_spec (last_vtep4 c) (buffer_fib b) (field (data b) (current_data b + 16) 4) Hv Hfib)
    as Hloc.
  pose proof (vtep4_check_ok (last_vtep4 c) (buffer_fib b) (field (data b) (current_data b + 16) 4) Hv)
    as Hv'.
  destruct (vtep4_check _ _ _) as [local k]. cbn [fst snd] in Hloc, Hv'. rewrite <- Hloc.
  destruct local; cbn [negb]; [|by eexists _, _].
  rewrite !field_net, field_zero, len_diff_sign, ip4_next_header_spec by done.
  rewrite validate_checksum_cursor. unfold checksum_ok, udp_at, cur_byte. rewrite Z.add_0_r.
  set (udp := current_data b + _). set (short := _ <? _).
  destruct (udp_errors_nonzero true) as [He1%c_true_iff He2%c_true_iff].
  set (good := c_true (Z.land (flags b) _) || _).
  assert (Hc' : forall c6 v6, caches_ok (mkCaches k v6 c4 c6)) by done.
  destruct good; cbn [negb orb].
  - destruct short; cbn [negb]; rewrite ?He2; eexists _, _; (split; [reflexivity|]); (split; [apply Hc'|]);
      exists (flags b); (split; [reflexivity|by left]).
  - destruct (c_true (Z.land (validate_checksum true b) _)), short; cbn [negb]; rewrite ?He1, ?He2;
      eexists _, _; (split; [reflexivity|]); (split; [apply Hc'|]);
      exists (validate_checksum true b); (split; [reflexivity|by right]).
Qed.

(** A frame of distinct packets. *)
Lemma bypass_fold_ok from acc :
  NoDup from -> caches_ok (ba_caches acc) ->
  (forall bi, bi ∈ from -> buffer_ok (getb (ba_store acc) bi) /\
     buffer_fib (getb (ba_store acc) bi) <> U32_MAX) ->
  let acc' := fold_left (bypass_x1 true) from acc in
  ba_enqueued acc' = ba_enqueued acc ++ ((fun bi => (bi, verdict_next (getb (ba_store acc) bi))) <$> from) /\
  forall bi, if decide (bi ∈ from) then verdict_buffer (getb (ba_store acc) bi) (getb (ba_store acc') bi)
    else getb (ba_store acc') bi = getb (ba_store acc) bi.
Proof using no_ones_tunnel.
  revert acc; induction from as [|bi from IH]; intros acc Hnd Hc Hall; cbn [fold_left fmap list_fmap].
  { rewrite app_nil_r. split; [done|]. intros bi. by rewrite decide_False by set_solver. }
  apply NoDup_cons in Hnd as [Hbi Hnd].
  destruct (Hall bi) as [Hb Hfib]; [set_solver|].
  pose proof (bypass_process_ok (ba_caches acc) (getb (ba_store acc) bi) Hc Hb Hfib) as Hp.
  assert (Hx : exists c' b', bypass_x1 true acc bi = mkBacc c' (<[bi := b']> (ba_store acc))
    (ba_enqueued acc ++ [(bi, verdict_next (getb (ba_store acc) bi))]) /\ caches_ok c' /\
    verdict_buffer (getb (ba_store acc) bi) b').
  { unfold bypass_x1. destruct (vnet_feature_next _) as [next b1].
    destruct Hp as (c' & b' & -> & Hc' & Hvb). by exists c', b'. }
  destruct Hx as (c' & b' & Hx & Hc' & Hvb). rewrite Hx.
  assert (Hother : forall bj, bj <> bi -> getb (<[bi := b']> (ba_store acc)) bj = getb (ba_store acc) bj)
    by (intros bj Hne; by apply getb_insert_ne).
  destruct (IH (mkBacc c' (<[bi := b']> (ba_store acc))
    (ba_enqueued acc ++ [(bi, verdict_next (getb (ba_store acc) bi))])) Hnd Hc') as [Hq Hs].
  { intros bj Hbj. cbn [ba_store]. rewrite Hother by (by intros ->). apply Hall. set_solver. }
  cbn [ba_store ba_enqueued] in Hq, Hs. split.
  - rewrite Hq, <- app_assoc. cbn [app]. do 2 f_equal. apply list_fmap_ext_elem. intros bj Hbj.
    by rewrite Hother by (by intros ->).
  - intros bj. specialize (Hs bj). destruct (decide (bj = bi)) as [->|Hne].
    + rewrite decide_True by set_solver. rewrite decide_False, getb_insert_eq in Hs by done. by rewrite Hs.
    + rewrite Hother in Hs by done. destruct (decide (bj ∈ from)).
      * by rewrite decide_True by set_solver.
      * by rewrite decide_False by set_solver.
Qed.

(** Where a packet for tunterm-acl is handed over. *)
Lemma tunterm_handover b b' :
  bypass_verdict b = Tunterm -> verdict_buffer b b' -> is_i16 (current_data b + 28) ->
  current_data b' = current_data b + 28 /\ cur_byte b' 0 = VXLAN_FLAGS_I /\ error b' = 0 /\
  data b' = data b /\ current_length b' = u16 (current_length b - 28) /\
  sw_if_index_rx b' = sw_if_index_rx b /\ adj_index_tx b' = adj_index_tx b.
Proof.
  intros Hv Hb Hi. unfold verdict_buffer in Hb. rewrite Hv in Hb. destruct Hb as (fl & -> & _).
  unfold vnet_feature_next. destruct (vnet_feature_next_at _ _) as [next ci].
  rewrite vlib_buffer_advance_spec. unfold cur_byte. cbn.
  rewrite i16_id by done. split_and!; try done.
  unfold bypass_verdict in Hv. destruct (c_true (Z.land (be_decode _) _)); [done|].
  destruct (negb (cur_byte b 9 =? _)); [done|].
  destruct (Z.eqb_spec (cur_byte b 28) VXLAN_FLAGS_I) as [Hf|]; [|done].
  rewrite Z.add_0_r. exact Hf.
Qed.

(** A frame of distinct packets through the node. *)
Lemma bypass_frame nf st from new after :
  (forall n, 0 < new n) -> NoDup from ->
  (forall bi, bi ∈ from -> buffer_ok (getb st bi) /\ buffer_fib (getb st bi) <> U32_MAX) ->
  exists tr acc,
    tunterm_acl_ip4_vxlan_bypass_node new after nf st from = Some (tr, acc, Z.of_nat (length from)) /\
    ba_enqueued acc = (fun bi => (bi, verdict_next (getb st bi))) <$> from /\
    forall bi, bi ∈ from -> verdict_buffer (getb st bi) (getb (ba_store acc) bi).
Proof.
  intros Hnew Hnd Hall. unfold tunterm_acl_ip4_vxlan_bypass_node, tunterm_acl_ip_vxlan_bypass_inline.
  rewrite outer_loop_fold by done. cbn [mbind option_bind]. eexists _, _. split; [reflexivity|].
  destruct (bypass_fold_ok from (mkBacc caches_init st []) Hnd caches_ok_init Hall)
    as [Hq Hs]. split; [exact Hq|].
  intros bi Hbi. specialize (Hs bi). rewrite decide_True in Hs by done. exact Hs.
Qed.

End Facts.

(** ** Theorems *)

Section Theorems.
Context `{Vlib} `{!IpHeaders} `{Vxlan}.

(** C23.  What the node does to a frame of distinct packets does not depend on
    how the packets fall to its two-packet and its one-packet loop: whatever room
    VPP offers in the frames it enqueues to, the result is the same, and the
    loops terminate. *)
Theorem bypass_schedule_free is_ip4 nf st from new after new' after'
    (Hnew : forall n, 0 < new n) (Hnew' : forall n, 0 < new' n) (Hnd : NoDup from) :
  is_Some (tunterm_acl_ip_vxlan_bypass_inline new after is_ip4 nf st from) /\
  tunterm_acl_ip_vxlan_bypass_inline new after is_ip4 nf st from =
  tunterm_acl_ip_vxlan_bypass_inline new' after' is_ip4 nf st from.
Proof.
  unfold tunterm_acl_ip_vxlan_bypass_inline. rewrite !outer_loop_fold by done. by split; [eexists|].
Qed.

(** C20.  The node's loop terminates: whatever frames VPP hands out, as long as a new
    frame has room for a packet, at most one round of the outer loop per packet
    enqueues every packet of the frame exactly once and in order, also when a frame
    names a buffer twice.  Room in a new frame is needed: were there none, the loop
    would never end. *)
Theorem bypass_terminates is_ip4 nf st from new after :
  (forall n, 0 < new n) ->
  (forall fuel, (length from <= fuel)%nat ->
     is_Some (bypass_outer_loop new after is_ip4 fuel from (mkBacc caches_init st []))) /\
  (exists tr acc, tunterm_acl_ip_vxlan_bypass_inline new after is_ip4 nf st from =
     Some (tr, acc, Z.of_nat (length from)) /\ fst <$> ba_enqueued acc = from) /\
  (from <> [] -> forall fuel acc, bypass_outer_loop (fun _ => 0) after is_ip4 fuel from acc = None).
Proof.
  intros Hnew. split; [|split].
  - intros fuel Hf.
    destruct (outer_loop_consumes new after is_ip4 fuel from (mkBacc caches_init st []) Hnew Hf)
      as (acc' & -> & _). by eexists.
  - destruct (outer_loop_consumes new after is_ip4 (length from) from (mkBacc caches_init st []) Hnew)
      as (acc' & Hrun & Hq); [lia|].
    unfold tunterm_acl_ip_vxlan_bypass_inline. rewrite Hrun. cbn [mbind option_bind].
    eexists _, _. split; [reflexivity|exact Hq].
  - intros Hne fuel. induction fuel as [|fuel IH]; intros acc; [by destruct from|].
    destruct from as [|bi from]; [done|]. cbn [bypass_outer_loop].
    destruct (no_room_loops after is_ip4 (bi :: from) acc) as [-> ->]. apply IH.
Qed.

(** C9.  The node treats every packet of a frame as the cacheless reference says:
    a whole UDP packet with the VXLAN I flag, for a tunnel there is and to a local
    VTEP, goes to tunterm-acl positioned at its VXLAN header when its UDP length
    and checksum hold and to error-drop when not; every other packet stays on the
    arc unchanged.  The two caches and the order of the packets make no
    difference. *)
Theorem bypass_node_refines nf st from new after
    (no_ones_tunnel : vxlan4_tunnel_by_key (U64_MAX, U64_MAX) = None)
    (Hnew : forall n, 0 < new n) (Hnd : NoDup from)
    (Hall : forall bi, bi ∈ from -> buffer_ok (getb st bi) /\ buffer_fib (getb st bi) <> U32_MAX) :
  exists tr acc,
    tunterm_acl_ip4_vxlan_bypass_node new after nf st from = Some (tr, acc, Z.of_nat (length from)) /\
    ba_enqueued acc = (fun bi => (bi, verdict_next (getb st bi))) <$> from /\
    forall bi, bi ∈ from ->
      verdict_buffer (getb st bi) (getb (ba_store acc) bi) /\
      (bypass_verdict (getb st bi) = Tunterm -> is_i16 (current_data (getb st bi) + 28) ->
       let b' := getb (ba_store acc) bi in
       current_data b' = current_data (getb st bi) + 28 /\ cur_byte b' 0 = VXLAN_FLAGS_I /\
       error b' = 0 /\ data b' = data (getb st bi)).
Proof.
  destruct (bypass_frame no_ones_tunnel nf st from new after Hnew Hnd Hall) as (tr & acc & Hrun & Hq & Hs).
  exists tr, acc. split; [done|]. split; [done|]. intros bi Hbi. split; [by apply Hs|].
  intros Hv Hi. destruct (tunterm_handover _ _ Hv (Hs bi Hbi) Hi) as (? & ? & ? & ? & _). done.
Qed.

End Theorems.

(** ** Witnesses *)

(** Whether two packets fit into a frame or one, the first packet goes to
    tunterm-acl, the second to error-drop, the third stays on the arc. *)
Lemma bypass_schedule_free_witness :
  @tunterm_acl_ip_vxlan_bypass_inline vlib_ref ip_headers_ref vxlan_ref (fun _ => 2) (fun _ => 2)
    true 0 ex_frame [1; 2; 3; 4] =
  @tunterm_acl_ip_vxlan_bypass_inline vlib_ref ip_headers_ref vxlan_ref (fun _ => 1) (fun _ => 0)
    true 0 ex_frame [1; 2; 3; 4].
Proof.
  apply (@bypass_schedule_free vlib_ref ip_headers_ref vxlan_ref true 0 ex_frame [1; 2; 3; 4]);
    [intros _; lia|intros _; lia|by_compute].
Defined.

(** A frame that names packet 1 twice. *)
Lemma bypass_terminates_witness :
  exists tr acc,
    @tunterm_acl_ip_vxlan_bypass_inline vlib_ref ip_headers_ref vxlan_ref (fun _ => 1) (fun _ => 2)
      true 0 ex_frame [1; 2; 1; 3; 3] = Some (tr, acc, 5) /\
    fst <$> ba_enqueued acc = [1; 2; 1; 3; 3].
Proof.
  destruct (@bypass_terminates vlib_ref ip_headers_ref vxlan_ref true 0 ex_frame [1; 2; 1; 3; 3]
    (fun _ => 1) (fun _ => 2)) as (_ & Hw & _); [intros _; lia|exact Hw].
Defined.

Lemma bypass_node_refines_witness :
  exists tr acc,
    @tunterm_acl_ip4_vxlan_bypass_node vlib_ref ip_headers_ref vxlan_ref (fun _ => 2) (fun _ => 0)
      0 ex_frame [1; 2; 3] = Some (tr, acc, 3) /\
    ba_enqueued acc = [(1, 2); (2, 0); (3, 10)] /\ current_data (getb (ba_store acc) 1) = 42.
Proof.
  destruct (@bypass_node_refines vlib_ref ip_headers_ref vxlan_ref 0 ex_frame [1; 2; 3] (fun _ => 2)
    (fun _ => 0)) as (tr & acc & Hrun & Hq & Hb).
  - vm_compute. reflexivity.
  - intros _. lia.
  - by_compute.
  - intros bi Hbi. rewrite !elem_of_cons in Hbi.
    destruct Hbi as [->|[->|[->|Hn]]]; [..|by apply elem_of_nil in Hn]; (split; [|by_compute]).
    + change (getb ex_frame 1) with (ex_outer [0; 0]). apply mem_ok_wr; [apply mem_ok_empty|by_compute].
    + change (getb ex_frame 2) with (ex_outer [1; 2]). apply mem_ok_wr; [apply mem_ok_empty|by_compute].
    + change (getb ex_frame 3) with null_buffer. apply mem_ok_empty.
  - exists tr, acc. split; [exact Hrun|]. rewrite Hq. split; [by_compute|].
    destruct (Hb 1) as [_ Hw]; [by_compute|].
    destruct Hw as (-> & _); [vm_compute; reflexivity|by_compute|by_compute].
Defined.
