(* ===== verification/TuntermSystem.v ===== *)
(** * The tunterm_acl plugin as a system

    The handlers of tunterm_acl_api.c, the FIB's back walks into
    tunterm_acl_redirect.c and the data path of tunterm_acl_node.c together,
    against an abstract specification: a configuration is a finite map from ACL
    numbers to an address family and a table of next hops, and a finite map from
    interfaces to ACLs.  [sys_step] is one event in the life of the plugin: an API
    message, or a change of the FIB with the back walks it causes. *)

From stdpp Require Import fin_maps.
From S2P Require Import Prelude Vlib Feature TuntermRedirect TuntermApi TuntermNode.

Section System.
Context `{Vlib} `{ClassifyLookup} `{FibApi} `{VnetFeature}.
Variable codes : tunterm_codes.
Variable sizeof_mp : Z.
Variable sizeof_rule : Z.

(** ** The implementation *)

Inductive event :=
  | Add_replace (supplied_len : Z) (mp_is_ipv6 : bool) (mp_index mp_count : Z)
      (mp_r : list vl_api_tunterm_acl_rule_t)
  | Del (mp_index : Z)
  | Interface_add_del (sw_interfaces : Z -> bool) (mp_is_add : bool) (mp_sw_if_index mp_index : Z)
  (** the FIB forwards as [F] from now on and walks back to the pool entries [walked] *)
  | Fib_change (F : fib_env) (walked : list Z).

(** The reply: the code, and the index of an add-replace. *)
Inductive reply :=
  | R_add_replace (rv index : Z)
  | R_code (rv : Z)
  | R_none.

Record sys := mkSys {
  sy_fib : fib_env;
  sy_ts : tstate
}.

Definition fib_walk (F : fib_env) (walked : list Z) (st : rstate) : rstate :=
  fold_left (tunterm_acl_redirect_back_walk_notify F) walked st.

Definition sys_step (s : sys) (e : event) : option (sys * reply) :=
  let '(mkSys F ts) := s in
  match e with
  | Add_replace len is6 mp_index mp_count mp_r =>
      '(ts, rv, index) ← vl_api_tunterm_acl_add_replace_t_handler codes sizeof_mp sizeof_rule F len
         is6 mp_index mp_count mp_r ts;
      Some (mkSys F ts, R_add_replace rv index)
  | Del mp_index =>
      '(ts, rv) ← vl_api_tunterm_acl_del_t_handler codes mp_index ts;
      Some (mkSys F ts, R_code rv)
  | Interface_add_del ifs is_add mp_sw mp_index =>
      '(ts, rv) ← vl_api_tunterm_acl_interface_add_del_t_handler codes ifs is_add mp_sw mp_index ts;
      Some (mkSys F ts, R_code rv)
  | Fib_change F' walked =>
      Some (mkSys F' (set_redirect (fib_walk F' walked (ts_redirect ts)) ts), R_none)
  end.

(** A history: [None] when a handler accesses a vector out of its bounds. *)
Fixpoint sys_run (s : sys) (es : list event) : option (sys * list reply) :=
  match es with
  | [] => Some (s, [])
  | e :: es =>
      '(s, r) ← sys_step s e;
      '(s, rs) ← sys_run s es;
      Some (s, r :: rs)
  end.

(** ** The specification *)

(** The next hop for each destination of an ACL. *)
Abbreviation acl_rules := (gmap (list Z) fib_route_path_t).

Record config := mkConfig {
  acls : gmap Z (bool * acl_rules);
  attachments : gmap (bool * Z) Z
}.

Definition no_config : config := mkConfig ∅ ∅.

(** The rules are read in order; the first bad one ends the message, the ones before
    it stay. *)
Fixpoint spec_rules (is_ipv6 : bool) (rules : list vl_api_tunterm_acl_rule_t) (M : acl_rules)
    : acl_rules * Z :=
  match rules with
  | [] => (M, 0)
  | r :: rules =>
      let '(rv, path) := fib_api_path_decode (r_path r) in
      if c_true rv then (M, rv)
      else if negb (bool_u8 is_ipv6 =? r_dst_af r) then (M, INVALID_VALUE_3 codes)
      else spec_rules is_ipv6 rules (<[rule_match is_ipv6 r := path]> M)
  end.

Definition set_acl (t : Z) (acl : bool * acl_rules) (A : config) : config :=
  mkConfig (<[t := acl]> (acls A)) (attachments A).

Definition in_use (A : config) (t : Z) : Prop := t ∈ (map_img (attachments A) : gset Z).

#[export] Instance in_use_dec A t : Decision (in_use A t).
Proof. unfold in_use. apply _. Defined.

(** What an event may answer, and the configuration after it; [None] for a reply the
    specification does not allow.  Only a creation has a choice: of an unused number,
    or of an error and the index all ones when there is no table to be had. *)
Definition spec_add_replace (A : config) (is6 : bool) (index : Z) (count : nat)
    (mp_r : list vl_api_tunterm_acl_rule_t) (rv t : Z) : option config :=
  if (length mp_r <? count)%nat then guard (rv = INVALID_VALUE codes /\ t = index);; Some A
  else if index =? U32_MAX then
    if t =? U32_MAX then guard (rv <> 0);; Some A
    else
      let '(M, code) := spec_rules is6 (take count mp_r) ∅ in
      guard (acls A !! t = None /\ rv = code);; Some (set_acl t (is6, M) A)
  else
    '(af, _) ← acls A !! index;
    guard (t = index);;
    if (0 <? count)%nat && negb (eqb af is6) then guard (rv = INVALID_VALUE_2 codes);; Some A
    else
      let '(M, code) := spec_rules is6 (take count mp_r) ∅ in
      guard (rv = code);; Some (set_acl t (af, M) A).

Definition spec_del (A : config) (t rv : Z) : option config :=
  if t =? U32_MAX then guard (rv = INVALID_VALUE codes);; Some A
  else if decide (in_use A t) then guard (rv = RSRC_IN_USE codes);; Some A
  else guard (is_Some (acls A !! t) /\ rv = 0);; Some (mkConfig (delete t (acls A)) (attachments A)).

Definition spec_interface (A : config) (ifs : Z -> bool) (is_add : bool) (sw t rv : Z)
    : option config :=
  if t =? U32_MAX then guard (rv = INVALID_VALUE codes);; Some A
  else if negb (ifs sw) then guard (rv = INVALID_SW_IF_INDEX codes);; Some A
  else
    '(af, _) ← acls A !! t;
    if is_add then guard (rv = 0);; Some (mkConfig (acls A) (<[(af, sw) := t]> (attachments A)))
    else if decide (attachments A !! (af, sw) = Some t)
    then guard (rv = 0);; Some (mkConfig (acls A) (delete (af, sw) (attachments A)))
    else guard (rv = INVALID_VALUE_2 codes);; Some A.

Definition spec_step (A : config) (e : event) (r : reply) : option config :=
  match e, r with
  | Add_replace _ is6 mp_index mp_count mp_r, R_add_replace rv index =>
      spec_add_replace A is6 (net_to_host host 4 mp_index) (Z.to_nat (net_to_host host 4 mp_count))
        mp_r rv (net_to_host host 4 index)
  | Del mp_index, R_code rv => spec_del A (net_to_host host 4 mp_index) rv
  | Interface_add_del ifs is_add mp_sw mp_index, R_code rv =>
      spec_interface A ifs is_add (net_to_host host 4 mp_sw) (net_to_host host 4 mp_index) rv
  | Fib_change _ _, R_none => Some A
  | _, _ => None
  end.

Fixpoint spec_run (A : config) (es : list event) (rs : list reply) : option config :=
  match es, rs with
  | [], [] => Some A
  | e :: es, r :: rs => A ← spec_step A e r; spec_run A es rs
  | _, _ => None
  end.

(** ** How the two are related *)

(** What the pool entry of a rule has to be when the FIB forwards as [F]. *)
Definition rule_view (F : fib_env) (af : bool) (path : fib_route_path_t)
    : Z * Z * fib_forward_chain_type_t * session_t :=
  path_view F (fib_forw_chain_type_from_dpo_proto (rule_proto af)) [path].

Definition acl_entries (F : fib_env) (st : rstate) (t : Z) (af : bool) (M : acl_rules) : Prop :=
  forall m, length m = 16%nat -> ipr_view <$> entry st t m = rule_view F af <$> M !! m.

Definition sys_rel (s : sys) (A : config) : Prop :=
  let '(mkSys F ts) := s in
  tunterm_inv (dom (acls A)) ts /\
  (forall t af M, acls A !! t = Some (af, M) ->
     vec_get (classify_table_index_is_v6 (ts_main ts)) t = Some af /\
     acl_entries F (ts_redirect ts) t af M) /\
  (forall af sw, attached (slot af (ts_main ts)) sw = attachments A !! (af, sw)).

(** What the plugin relies on its clients for: a message that is as long as it says,
    with the index of an ACL or all ones; and a FIB that walks back to every child
    whose forwarding changed, and only to children. *)
Definition event_ok (s : sys) (A : config) (e : event) : Prop :=
  match e with
  | Add_replace len _ mp_index mp_count mp_r =>
      len = sizeof_mp + Z.of_nat (length mp_r) * sizeof_rule /\
      is_u32 (net_to_host host 4 mp_count) /\
      (net_to_host host 4 mp_index = U32_MAX \/ is_Some (acls A !! net_to_host host 4 mp_index))
  | Del mp_index =>
      net_to_host host 4 mp_index = U32_MAX \/ is_Some (acls A !! net_to_host host 4 mp_index)
  | Interface_add_del _ _ mp_sw mp_index =>
      0 <= net_to_host host 4 mp_sw /\
      (net_to_host host 4 mp_index = U32_MAX \/ is_Some (acls A !! net_to_host host 4 mp_index))
  | Fib_change F walked =>
      (forall i, i ∈ walked -> is_Some (pool (ts_redirect (sy_ts s)) !! i)) /\
      (forall i ipr, pool (ts_redirect (sy_ts s)) !! i = Some ipr ->
         stacked_dpo F ipr <> stacked_dpo (sy_fib s) ipr -> i ∈ walked)
  end.

(** Every event of a history is in order when it happens.  Only the clients and the
    FIB are asked for something: after a step the plugin does not survive, or a reply
    the specification does not allow, nothing is. *)
Fixpoint history_ok (s : sys) (A : config) (es : list event) : Prop :=
  match es with
  | [] => True
  | e :: es => event_ok s A e /\
      (forall s' r A', sys_step s e = Some (s', r) -> spec_step A e r = Some A' -> history_ok s' A' es)
  end.

(** The plugin after its init functions; the classifier may have tables of others. *)
Definition sys_init (F : fib_env) (cs : cstate) (fs : fstate) : sys :=
  mkSys F (tunterm_acl_init (mkTstate (mkTam [] [] []) (mkRstate ∅ ∅ cs ∅) fs)).

(** Where the configuration sends a packet to [dip] that came in through interface
    [sw]: [None] without an ACL there, else what the ACL says. *)
Definition config_lookup (A : config) (F : fib_env) (is_ipv6 : bool) (sw : Z) (dip : list Z)
    : option (option session_t) :=
  (fun t => '(_, M) ← acls A !! t; snd ∘ rule_view F is_ipv6 <$> M !! dip_match dip)
    <$> attachments A !! (is_ipv6, sw).

End System.

(** ** Lemmas *)

Section Facts.
Context `{Vlib} `{Classify} `{FibApi} `{VnetFeature}.
Variable codes : tunterm_codes.
Hypothesis accepts : forall cs t m s,
  is_Some (classify_table cs t) -> snd (vnet_classify_add_session cs t m s) = 0.

(** *** Rules *)

(** One rule: with room in the classifier the add succeeds, and the entry of the
    rule's destination forwards to its path. *)
Lemma add_rule_refines own F is_ipv6 t m path st M :
  redirect_wf st -> in_step own st -> entries_owned own st -> t ∈ own -> length m = 16%nat ->
  is_Some (classify_table (classify_main st) t) -> acl_entries F st t is_ipv6 M ->
  exists st', tunterm_acl_redirect_add (INVALID_ADDRESS_FAMILY codes) F st t 0 (rule_proto is_ipv6) m
      [path] = (st', 0) /\
    redirect_wf st' /\ in_step own st' /\ entries_owned own st' /\
    acl_entries F st' t is_ipv6 (<[m := path]> M) /\
    (forall t' m', t' <> t -> is_u32 t' -> length m' = 16%nat -> entry st' t' m' = entry st t' m') /\
    (forall t', classify_table (classify_main st') t' = classify_table (classify_main st) t').
Proof using accepts.
  intros Hwf Hin Hown Ht Hm Htab HM. set (inval := INVALID_ADDRESS_FAMILY codes).
  pose proof (rule_proto_ok is_ipv6) as Hp. pose proof (proj1 Hin t Ht) as Hu.
  pose proof (add_shape inval F st t 0 (rule_proto is_ipv6) m [path] Hwf Hm Hu (proto_chain _ Hp)) as Hsh.
  pose proof (add_spec inval F st t 0 (rule_proto is_ipv6) m [path] Hwf Hm Hu (proto_chain _ Hp)) as Hs.
  pose proof (add_owned own inval F st t 0 _ _ [path] Hwf Hu Hown Hm Ht Hp) as Ho.
  pose proof (accepts (classify_main st) t (match_key m t)
    (path_dpo F (fib_forw_chain_type_from_dpo_proto (rule_proto is_ipv6)) [path]) Htab) as Hrv.
  cbv zeta in Hsh, Hs. destruct (vnet_classify_add_session _ _ _ _) as [cs rv]. cbn in Hrv. subst rv.
  destruct Hsh as (i & ipr & ch & Heq & _). rewrite Heq in *.
  eexists. split; [reflexivity|]. destruct Hs as (Hwf' & He & Heo & _ & _ & Htabs).
  refine (conj Hwf' (conj _ (conj Ho (conj _ (conj _ Htabs))))).
  - by apply (add_in_step inval own F st t 0 (rule_proto is_ipv6) m [path] _ Hwf Hin Hm Ht (proto_chain _ Hp)).
  - intros m' Hm'. rewrite lookup_insert. destruct (decide (m = m')) as [<-|Hne]; [exact He|].
    rewrite Heo by (done || congruence). by apply HM.
  - intros t' m' Hne Hu' Hm'. apply Heo; [done|done|congruence].
Qed.

Lemma add_rules_refines own F is_ipv6 t rules st M :
  redirect_wf st -> in_step own st -> entries_owned own st -> t ∈ own ->
  is_Some (classify_table (classify_main st) t) -> acl_entries F st t is_ipv6 M ->
  let '(st', rv) := add_rules codes F is_ipv6 t rules st in
  let '(M', rv') := spec_rules codes is_ipv6 rules M in
  rv = rv' /\ redirect_wf st' /\ in_step own st' /\ entries_owned own st' /\
  acl_entries F st' t is_ipv6 M' /\
  (forall t' m', t' <> t -> is_u32 t' -> length m' = 16%nat -> entry st' t' m' = entry st t' m') /\
  (forall t', classify_table (classify_main st') t' = classify_table (classify_main st) t').
Proof using accepts.
  revert st M; induction rules as [|r rules IH]; intros st M Hwf Hin Hown Ht Htab HM;
    cbn [add_rules spec_rules]; [by split_and!|].
  destruct (fib_api_path_decode (r_path r)) as [rv path].
  destruct (c_true rv); [by split_and!|]. destruct (negb _); [by split_and!|].
  destruct (add_rule_refines own F is_ipv6 t (rule_match is_ipv6 r) path st M Hwf Hin Hown Ht
    (rule_match_length _ _) Htab HM) as (st1 & -> & Hwf1 & Hin1 & Hown1 & HM1 & He1 & Ht1).
  cbn [c_true Z.eqb negb].
  specialize (IH st1 (<[rule_match is_ipv6 r := path]> M) Hwf1 Hin1 Hown1 Ht).
  rewrite Ht1 in IH. specialize (IH Htab HM1).
  destruct (add_rules codes F is_ipv6 t rules st1) as [st' rv1].
  destruct (spec_rules codes is_ipv6 rules _) as [M' rv1'].
  destruct IH as (-> & Hwf2 & Hin2 & Hown2 & HM2 & He2 & Ht2). split_and!; try done.
  - intros t' m' Hne Hu Hm'. rewrite He2, He1; done.
  - intros t'. by rewrite Ht2, Ht1.
Qed.

(** *** Back walks *)

Lemma fib_walk_ok own F walked st :
  redirect_wf st -> in_step own st -> entries_owned own st ->
  (forall t, t ∈ own -> is_Some (classify_table (classify_main st) t)) ->
  (forall i, i ∈ walked -> is_Some (pool st !! i)) ->
  let st' := fib_walk F walked st in
  redirect_wf st' /\ in_step own st' /\ entries_owned own st' /\
  (forall i, pool st' !! i =
     (fun ipr => if decide (i ∈ walked) then restack F ipr else ipr) <$> pool st !! i) /\
  session_by_match_and_table_index st' = session_by_match_and_table_index st /\
  (forall t, classify_table (classify_main st') t = classify_table (classify_main st) t).
Proof using accepts.
  revert st; induction walked as [|i walked IH]; intros st Hwf Hin Hown Htab Hw; cbv zeta.
  { split_and!; try done. intros i. cbn. by destruct (pool st !! i). }
  destruct (Hw i) as [ipr Hi]; [apply elem_of_cons; by left|].
  pose proof (Hown i ipr Hi) as Ht.
  assert (Hrv : snd (tunterm_acl_redirect_stack F st i) = 0).
  { unfold tunterm_acl_redirect_stack. rewrite (elt_lookup _ _ _ Hi). cbn.
    pose proof (accepts (classify_main st) (table_index ipr) (match_and_table_index ipr)
      (stacked_dpo F ipr) (Htab _ Ht)) as Ha. by destruct (vnet_classify_add_session _ _ _ _). }
  destruct (back_walk_ok own F st i ipr Hwf Hin Hi Ht Hrv) as (Hwf1 & Hin1 & Hp1 & Ht1).
  assert (Hh1 : session_by_match_and_table_index (tunterm_acl_redirect_back_walk_notify F st i) =
    session_by_match_and_table_index st).
  { unfold tunterm_acl_redirect_back_walk_notify, tunterm_acl_redirect_stack.
    by destruct (vnet_classify_add_session _ _ _ _). }
  set (st1 := tunterm_acl_redirect_back_walk_notify F st i) in *.
  destruct (IH st1 Hwf1 Hin1) as (Hwf2 & Hin2 & Hown2 & Hp2 & Hh2 & Ht2).
  - intros j jpr. rewrite Hp1. intros [[<- <-]|[_ Hj]]%lookup_insert_Some; [exact Ht|by eapply Hown].
  - intros t Hto. rewrite Ht1. by apply Htab.
  - intros j Hj. rewrite Hp1. destruct (decide (i = j)) as [<-|Hne]; [by rewrite lookup_insert_eq|].
    rewrite lookup_insert_ne by done. apply Hw, elem_of_cons. by right.
  - refine (conj Hwf2 (conj Hin2 (conj Hown2 (conj _ (conj _ _))))).
    + intros j. change (fib_walk F (i :: walked) st) with (fib_walk F walked st1).
      rewrite Hp2, Hp1. destruct (decide (i = j)) as [<-|Hne].
      * rewrite lookup_insert_eq, Hi. cbn. rewrite (decide_True (P := i ∈ i :: walked)) by (apply elem_of_cons; by left).
        by case_decide.
      * rewrite lookup_insert_ne by done. destruct (pool st !! j) as [jpr|]; [|done]. cbn. f_equal.
        destruct (decide (j ∈ walked)) as [Hj|Hj].
        -- by rewrite decide_True by (apply elem_of_cons; by right).
        -- rewrite decide_False; [done|]. by intros [?|?]%elem_of_cons.
    + by rewrite <- Hh1.
    + intros t. by rewrite <- Ht1.
Qed.

(** After a change of the FIB and its back walks, every rule forwards by the new FIB. *)
Lemma fib_walk_entries F F' (walked : list Z) st st' t af M :
  session_by_match_and_table_index st' = session_by_match_and_table_index st ->
  (forall i, pool st' !! i =
     (fun ipr => if decide (i ∈ walked) then restack F' ipr else ipr) <$> pool st !! i) ->
  (forall i ipr, pool st !! i = Some ipr -> stacked_dpo F' ipr <> stacked_dpo F ipr -> i ∈ walked) ->
  acl_entries F st t af M -> acl_entries F' st' t af M.
Proof.
  intros Hh Hp Hall HM m Hm. specialize (HM m Hm). revert HM.
  unfold entry, tunterm_acl_redirect_find. rewrite Hh.
  destruct (session_by_match_and_table_index st !! match_key m t) as [i|]; cbn; [|by destruct (M !! m)].
  rewrite Hp. destruct (pool st !! i) as [ipr|] eqn:Hi; cbn; [|by destruct (M !! m)].
  destruct (M !! m) as [path|]; [|done]. cbn. intros [= Hpl Hpar Hty Hdpo]. f_equal.
  assert (Hst : forall G, stacked_dpo G ipr = path_dpo G (fib_forw_chain_type_from_dpo_proto (rule_proto af)) [path])
    by (intros G; unfold stacked_dpo, path_dpo; by rewrite Hpl, Hpar, Hty).
  unfold rule_view, path_view. destruct (decide (i ∈ walked)) as [Hw|Hw]; unfold ipr_view; cbn.
  - by rewrite Hpl, Hpar, Hty, Hst.
  - rewrite Hpl, Hpar, Hty, Hdpo. apply (f_equal (pair _)). rewrite <- !Hst.
    destruct (decide (stacked_dpo F' ipr = stacked_dpo F ipr)) as [->|Hne]; [done|].
    destruct Hw. by apply (Hall i ipr).
Qed.

(** *** Programming an ACL *)

(** The relation after the redirects of one ACL were rewritten. *)
Lemma rel_redirect F ts A t af M0 M st :
  sys_rel (mkSys F ts) A -> acls A !! t = Some (af, M0) ->
  let own := dom (acls A) in
  redirect_wf st -> in_step own st -> entries_owned own st -> acl_entries F st t af M ->
  (forall t' m, t' <> t -> is_u32 t' -> length m = 16%nat ->
     entry st t' m = entry (ts_redirect ts) t' m) ->
  (forall t', classify_table (classify_main st) t' =
     classify_table (classify_main (ts_redirect ts)) t') ->
  sys_rel (mkSys F (set_redirect st ts)) (set_acl t (af, M) A).
Proof.
  intros ((_ & _ & _ & Ha) & Hacl & Hat) HA. cbv zeta. intros Hwf Hin Hown HM He Ht.
  assert (Hd : dom (acls (set_acl t (af, M) A)) = dom (acls A)).
  { unfold set_acl. cbn. rewrite dom_insert_L. apply elem_of_dom_2 in HA. set_solver. }
  refine (conj _ (conj _ Hat)).
  - rewrite Hd. refine (conj Hwf (conj Hin (conj Hown _))). by apply attach_ok_redirect.
  - cbn [acls set_acl]. intros t' af' M' [[<- [= <- <-]]|[Hne HA']]%lookup_insert_Some; [by destruct (Hacl t af M0 HA)|].
    destruct (Hacl t' af' M' HA') as [Haf HM']. split; [done|]. intros m Hm. cbn.
    rewrite He; [by apply HM'|done| |done]. apply Hin. by apply elem_of_dom_2 in HA'.
Qed.

(** Clearing the table and adding the rules. *)
Lemma program_refines F ts A t af M0 is6 rules :
  sys_rel (mkSys F ts) A -> acls A !! t = Some (af, M0) -> rules = [] \/ af = is6 ->
  let '(M, code) := spec_rules codes is6 rules ∅ in
  exists st1 st2, tunterm_acl_redirect_clear (ts_redirect ts) t = (st1, 0) /\
    add_rules codes F is6 t rules st1 = (st2, code) /\
    sys_rel (mkSys F (set_redirect st2 ts)) (set_acl t (af, M) A).
Proof using accepts.
  intros Hrel HA Hfam. pose proof Hrel as ((Hwf & Hin & Hown & Ha1 & _) & Hacl & _).
  set (own := dom (acls A)) in *.
  assert (Ht : t ∈ own) by (by apply elem_of_dom_2 in HA).
  pose proof (clear_ok own _ t Hwf Hin Ht) as Hc.
  pose proof (fun m => clear_empty own _ t m Hwf Hin Ht) as He.
  pose proof (fun t' m => clear_entry own _ t t' m Hwf Hin Ht) as Heo.
  pose proof (clear_owned own _ t Hwf Hin Hown Ht) as Ho1.
  destruct (tunterm_acl_redirect_clear _ t) as [st1 rv1]. cbn in He, Heo, Ho1.
  destruct Hc as (-> & Hwf1 & Hin1 & _ & _ & Ht1).
  assert (Htab : is_Some (classify_table (classify_main st1) t)).
  { rewrite Ht1. destruct (Ha1 t Ht) as (_ & ? & _ & ->). eauto. }
  assert (HM1 : forall af, acl_entries F st1 t af ∅).
  { intros af' m Hm. rewrite lookup_empty. by destruct (He m Hm) as [-> _]. }
  pose proof (add_rules_refines own F is6 t rules st1 ∅ Hwf1 Hin1 Ho1 Ht Htab (HM1 is6)) as Hr.
  destruct (add_rules codes F is6 t rules st1) as [st2 rv2] eqn:Hadd.
  destruct (spec_rules codes is6 rules ∅) as [M code] eqn:Hspec.
  destruct Hr as (-> & Hwf2 & Hin2 & Hown2 & HM2 & He2 & Ht2).
  exists st1, st2. split; [done|]. split; [done|].
  apply (rel_redirect F ts A t af M0); try done.
  - destruct Hfam as [->| ->]; [|done]. injection Hspec as <- _. injection Hadd as <- _. apply HM1.
  - intros t' m Hne Hu Hm. by rewrite He2, Heo.
  - intros t'. by rewrite Ht2, Ht1.
Qed.

(** A new table is a new ACL without rules. *)
Lemma create_refines F ts A is6 cs t :
  sys_rel (mkSys F ts) A ->
  vnet_classify_add_table (classify_main (ts_redirect ts)) (table_mask is6) = (cs, 0, t) ->
  let v := vec_validate_init_empty (classify_table_index_is_v6 (ts_main ts)) t false in
  exists w, vec_set v t is6 = Some w /\ acls A !! t = None /\ t <> U32_MAX /\ is_u32 t /\
  vec_get w t = Some is6 /\
  sys_rel (mkSys F (mkTstate (mkTam (classify_table_index_by_sw_if_index_v4 (ts_main ts))
       (classify_table_index_by_sw_if_index_v6 (ts_main ts)) w)
       (set_classify cs (ts_redirect ts)) (ts_features ts))) (set_acl t (is6, ∅) A).
Proof.
  intros (Hinv & Hacl & Hat) Hadd. cbv zeta.
  destruct (new_table_inv _ ts is6 cs t Hinv Hadd) as (Hfresh & Ht0 & Hinv').
  apply add_table_ok in Hadd as (_ & Hu & Hn & _).
  destruct (vec_grow_set (classify_table_index_is_v6 (ts_main ts)) t false is6 Ht0) as (Hset & Hget & Hold).
  eexists. split; [exact Hset|]. split; [by apply not_elem_of_dom|]. split; [done|]. split; [done|].
  split; [done|]. refine (conj _ (conj _ Hat)).
  - unfold set_acl. cbn [acls]. by rewrite dom_insert_L.
  - cbn [acls set_acl]. intros t' af' M' [[<- [= <- <-]]|[Hne HA]]%lookup_insert_Some.
    + split; [done|]. intros m Hm. rewrite lookup_empty.
      change (ipr_view <$> entry (ts_redirect ts) t m = None).
      destruct (entry (ts_redirect ts) t m) as [ipr|] eqn:He; [|done]. exfalso.
      destruct Hinv as (Hwf & _ & Hown & _). unfold entry in He.
      destruct (tunterm_acl_redirect_find (ts_redirect ts) t m) as [i|] eqn:Hf; [|done].
      destruct (find_entry _ _ _ _ Hwf Hm Hu Hf) as (ipr' & Hi & _ & Hti).
      apply Hown in Hi. congruence.
    + destruct (Hacl t' af' M' HA) as [Haf HM]. split; [|done]. by apply Hold.
Qed.

(** *** The events *)

(** A table the classifier did not create changes nothing. *)
Lemma no_table_refines F ts A is6 cs rv t :
  sys_rel (mkSys F ts) A -> rv <> 0 ->
  vnet_classify_add_table (classify_main (ts_redirect ts)) (table_mask is6) = (cs, rv, t) ->
  sys_rel (mkSys F (mkTstate (ts_main ts) (set_classify cs (ts_redirect ts)) (ts_features ts))) A.
Proof.
  intros ((Hwf & [Hu Hin] & Hown & Ha1 & Ha) & Hacl & Hat) Hrv Hadd.
  pose proof (add_table_err _ _ _ _ _ Hadd Hrv) as Herr.
  refine (conj (conj Hwf (conj (conj Hu _) (conj Hown (conj _ Ha)))) (conj Hacl Hat)).
  - intros t' m Ht' Hm. cbn. destruct (Herr t') as [_ ->]. by apply Hin.
  - intros t' Ht'. cbn. destruct (Herr t') as [-> _]. by apply Ha1.
Qed.

Lemma update_refines F ts A is6 count rules index :
  sys_rel (mkSys F ts) A -> index = U32_MAX \/ is_Some (acls A !! index) ->
  (count <= length rules)%nat ->
  exists ts' rv t A',
    update_classify_table_and_sessions codes F is6 count rules index ts = Some (ts', rv, t) /\
    is_u32 t /\ spec_add_replace codes A is6 index count rules rv t = Some A' /\
    sys_rel (mkSys F ts') A'.
Proof using accepts.
  intros Hrel Hidx Hcount. unfold update_classify_table_and_sessions, spec_add_replace, ensure_table.
  rewrite (proj2 (Nat.ltb_ge (length rules) count)) by done.
  destruct (Z.eqb_spec index U32_MAX) as [->|Hne].
  - destruct (vnet_classify_add_table _ _) as [[cs rv] t] eqn:Hadd.
    destruct (Z.eqb_spec rv 0) as [->|Hrv]; cbn [negb].
    + destruct (create_refines F ts A is6 cs t Hrel Hadd) as (w & -> & Hnew & Hn & Hu & Hw & Hrel1).
      pose proof (program_refines F _ _ t is6 ∅ is6 (take count rules) Hrel1) as Hp.
      cbn [mbind option_bind negb Z.eqb classify_table_index_is_v6]. rewrite Hw.
      cbn [mbind option_bind negb]. rewrite bool_decide_eq_true_2 by done.
      destruct (spec_rules codes is6 (take count rules) ∅) as [M code].
      destruct Hp as (st1 & st2 & Hc & Hr & Hrel2); [apply lookup_insert_eq|by right|].
      cbn [ts_redirect] in Hc. replace (if (0 <? count)%nat then Some true else Some true) with (Some true)
        by (by destruct (0 <? count)%nat).
      cbn [mbind option_bind negb]. rewrite Hc. cbn [negb Z.eqb]. rewrite option_guard_True by done.
      cbn [mbind option_bind]. rewrite Hr.
      eexists _, _, _, _. split; [reflexivity|]. split; [done|].
      rewrite (proj2 (Z.eqb_neq _ _) Hn), option_guard_True by done. split; [reflexivity|].
      unfold set_acl in Hrel2 |- *. cbn [acls attachments] in Hrel2. by rewrite insert_insert_eq in Hrel2.
    + eexists _, _, _, A. split; [cbn; by rewrite (proj2 (Z.eqb_neq _ _) Hrv)|].
      split; [by_compute|]. rewrite Z.eqb_refl, option_guard_True by done. split; [reflexivity|].
      by eapply no_table_refines.
  - destruct Hidx as [?|[[af M0] HA]]; [done|]. rewrite HA. cbn [mbind option_bind negb Z.eqb ts_main].
    pose proof Hrel as (Hinv & Hacl & _). destruct (Hacl _ _ _ HA) as [Haf _]. rewrite Haf.
    cbn [mbind option_bind].
    assert (Hu : is_u32 index) by (destruct Hinv as (_ & [Hu _] & _); apply Hu; by apply elem_of_dom_2 in HA).
    replace (if (0 <? count)%nat then Some (bool_decide (af = is6)) else Some true)
      with (Some (negb ((0 <? count)%nat && negb (eqb af is6)))) by (by destruct (0 <? count)%nat, af, is6).
    cbn [mbind option_bind]. rewrite negb_involutive.
    destruct ((0 <? count)%nat && negb (eqb af is6)) eqn:Hfam.
    + eexists _, _, _, A. split; [reflexivity|]. split; [done|]. rewrite !option_guard_True by done.
      split; [reflexivity|]. by destruct ts.
    + pose proof (program_refines F ts A index af M0 is6 (take count rules) Hrel HA) as Hp.
      destruct (spec_rules codes is6 (take count rules) ∅) as [M code].
      destruct Hp as (st1 & st2 & Hc & Hr & Hrel2).
      { destruct count; [by left|right]. apply andb_false_iff in Hfam as [?|Hfam]; [done|].
        by apply negb_false_iff, eqb_prop in Hfam. }
      rewrite Hc. cbn [negb Z.eqb]. rewrite option_guard_True by done. cbn [mbind option_bind]. rewrite Hr.
      eexists _, _, _, _. split; [reflexivity|]. split; [done|]. rewrite !option_guard_True by done.
      split; [reflexivity|]. by destruct ts.
Qed.

Lemma del_refines F ts A mp_index :
  sys_rel (mkSys F ts) A ->
  net_to_host host 4 mp_index = U32_MAX \/ is_Some (acls A !! net_to_host host 4 mp_index) ->
  exists ts' rv A', vl_api_tunterm_acl_del_t_handler codes mp_index ts = Some (ts', rv) /\
    spec_del codes A (net_to_host host 4 mp_index) rv = Some A' /\ sys_rel (mkSys F ts') A'.
Proof.
  intros Hrel Hidx. unfold spec_del. set (t := net_to_host host 4 mp_index) in *.
  destruct (Z.eqb_spec t U32_MAX) as [Heq|Hne].
  { unfold vl_api_tunterm_acl_del_t_handler. fold t. rewrite (proj2 (Z.eqb_eq _ _) Heq).
    eexists _, _, _. split; [reflexivity|]. rewrite option_guard_True by done. by split. }
  destruct Hidx as [?|HA]; [done|]. pose proof Hrel as (Hinv & Hacl & Hat).
  destruct (tunterm_del_safe codes _ ts mp_index Hinv) as (ts' & rv & Hh & Huse & Hdel);
    [by apply elem_of_dom|]. fold t in Huse, Hdel. exists ts', rv.
  destruct (decide (in_use A t)) as [Hu|Hu].
  - apply elem_of_map_img in Hu as [[af sw] Hu]. destruct Huse as [-> ->]; [exists af, sw; by rewrite Hat|].
    eexists. split; [exact Hh|]. rewrite option_guard_True by done. by split.
  - destruct Hdel as (-> & Hinv' & _ & _ & _ & Hslot & Hkeep).
    { intros af sw. rewrite Hat. intros Hs. apply Hu, elem_of_map_img. eauto. }
    eexists. split; [exact Hh|]. rewrite option_guard_True by done. split; [reflexivity|].
    refine (conj _ (conj _ _)).
    + cbn [acls]. by rewrite dom_delete_L.
    + cbn [acls]. intros t' af M [Hn HA']%lookup_delete_Some.
      destruct (Hacl t' af M HA') as [Haf HM]. destruct (Hkeep t') as [Hv He]; [congruence|].
      split; [by rewrite Hv|]. intros m Hm. rewrite He; [by apply HM| |done].
      destruct Hinv as (_ & [Hu32 _] & _). apply Hu32. by apply elem_of_dom_2 in HA'.
    + intros af sw. rewrite Hslot. apply Hat.
Qed.

(** The relation when only attachments changed. *)
Lemma rel_slots F ts ts' A att :
  sys_rel (mkSys F ts) A -> tunterm_inv (dom (acls A)) ts' -> ts_redirect ts' = ts_redirect ts ->
  classify_table_index_is_v6 (ts_main ts') = classify_table_index_is_v6 (ts_main ts) ->
  (forall af sw, attached (slot af (ts_main ts')) sw = att !! (af, sw)) ->
  sys_rel (mkSys F ts') (mkConfig (acls A) att).
Proof.
  intros (_ & Hacl & _) Hinv Hr Hv Hat. refine (conj Hinv (conj _ Hat)). by rewrite Hr, Hv.
Qed.

Lemma interface_refines F ts A ifs is_add mp_sw mp_index :
  (forall fs k en, snd (vnet_feature_enable_disable fs k en) = 0) ->
  (forall sw, shared_config "ip4-unicast"%string sw = false) ->
  sys_rel (mkSys F ts) A -> 0 <= net_to_host host 4 mp_sw ->
  net_to_host host 4 mp_index = U32_MAX \/ is_Some (acls A !! net_to_host host 4 mp_index) ->
  exists ts' rv A',
    vl_api_tunterm_acl_interface_add_del_t_handler codes ifs is_add mp_sw mp_index ts = Some (ts', rv) /\
    spec_interface codes A ifs is_add (net_to_host host 4 mp_sw) (net_to_host host 4 mp_index) rv
      = Some A' /\ sys_rel (mkSys F ts') A'.
Proof.
  intros Hcalls Hcfg Hrel Hsw Hidx. unfold spec_interface.
  destruct (Z.eqb_spec (net_to_host host 4 mp_index) U32_MAX) as [Heq|Hne].
  { unfold vl_api_tunterm_acl_interface_add_del_t_handler. rewrite (proj2 (Z.eqb_eq _ _) Heq).
    eexists _, _, _. split; [reflexivity|]. rewrite option_guard_True by done. by split. }
  destruct (ifs (net_to_host host 4 mp_sw)) eqn:Hif; cbn [negb].
  2: { unfold vl_api_tunterm_acl_interface_add_del_t_handler. rewrite (proj2 (Z.eqb_neq _ _) Hne), Hif.
    eexists _, _, _. split; [reflexivity|]. rewrite option_guard_True by done. by split. }
  destruct Hidx as [?|[[af M] HA]]; [done|]. pose proof Hrel as (Hinv & Hacl & Hat).
  rewrite HA. cbn [mbind option_bind]. destruct (Hacl _ _ _ HA) as [Haf _].
  assert (Hd : net_to_host host 4 mp_index ∈ dom (acls A)) by (by apply elem_of_dom_2 in HA).
  destruct is_add.
  - destruct (tunterm_attach codes Hcalls Hcfg _ ts ifs mp_sw mp_index Hinv Hif Hsw Hd)
      as (ts' & af' & Hh & Haf' & Hinv' & Hr & Hv & Hs).
    assert (af' = af) as -> by congruence. eexists _, _, _. split; [exact Hh|].
    rewrite option_guard_True by done. split; [reflexivity|]. apply (rel_slots F ts); try done.
    intros af2 sw2. rewrite Hs, Hat, lookup_insert. repeat case_decide; naive_solver.
  - destruct (tunterm_detach codes Hcalls Hcfg _ ts ifs mp_sw mp_index Hinv Hif Hsw Hd)
      as (ts' & rv & af' & Hh & Haf' & Hinv' & Hr & Hv & Hs).
    assert (af' = af) as -> by congruence. rewrite Hat in Hs. exists ts', rv.
    destruct (decide (attachments A !! _ = _)); destruct Hs as [-> Hs];
      eexists; (split; [exact Hh|]); rewrite option_guard_True by done; (split; [reflexivity|]).
    + apply (rel_slots F ts); try done.
      intros af2 sw2. rewrite Hs, Hat, lookup_delete. repeat case_decide; naive_solver.
    + destruct A as [a att]. apply (rel_slots F ts ts' (mkConfig a att)); try done.
      intros af2 sw2. destruct Hs as [_ ->]. apply Hat.
Qed.

Lemma fib_change_refines F F' walked ts A :
  sys_rel (mkSys F ts) A -> event_ok 0 0 (mkSys F ts) A (Fib_change F' walked) ->
  sys_rel (mkSys F' (set_redirect (fib_walk F' walked (ts_redirect ts)) ts)) A.
Proof using accepts.
  intros ((Hwf & Hin & Hown & Ha) & Hacl & Hat) [Hpool Hall]. cbn in Hpool, Hall.
  destruct (fib_walk_ok (dom (acls A)) F' walked (ts_redirect ts)) as (Hwf' & Hin' & Hown' & Hp & Hh & Ht);
    try done.
  { intros t Hto. destruct Ha as (Ha1 & _). destruct (Ha1 t Hto) as (_ & ? & _ & ->). eauto. }
  refine (conj _ (conj _ Hat)).
  - refine (conj Hwf' (conj Hin' (conj Hown' _))). by apply attach_ok_redirect.
  - intros t af M HA. destruct (Hacl t af M HA) as [Haf HM]. split; [done|].
    by apply (fib_walk_entries F F' walked (ts_redirect ts)).
Qed.

End Facts.

(** ** Theorems *)

Section Theorems.
Context `{Vlib} `{ClassifyLookup} `{FibApi} `{VnetFeature}.
Variable codes : tunterm_codes.
Variables sizeof_mp sizeof_rule : Z.
Hypothesis sizes : 0 <= sizeof_mp < 2 ^ 16 /\ 0 < sizeof_rule < 2 ^ 16.
(** The classifier has memory for the sessions of its tables. *)
Hypothesis accepts : forall cs t m s,
  is_Some (classify_table cs t) -> snd (vnet_classify_add_session cs t m s) = 0.
Hypothesis calls_ok : forall fs k en, snd (vnet_feature_enable_disable fs k en) = 0.
Hypothesis own_config : forall sw, shared_config "ip4-unicast"%string sw = false.

(** One event: the handlers are defined, answer what the specification allows and
    stay related to its configuration. *)
Lemma step_refines s A e :
  sys_rel s A -> event_ok sizeof_mp sizeof_rule s A e ->
  exists s' r A', sys_step codes sizeof_mp sizeof_rule s e = Some (s', r) /\
    spec_step codes A e r = Some A' /\ sys_rel s' A'.
Proof using sizes accepts calls_ok own_config.
  destruct s as [F ts]. intros Hrel Hok. destruct sizes as [Hmp Hrule].
  destruct e as [len is6 mp_index mp_count mp_r|mp_index|ifs is_add mp_sw mp_index|F' walked]; cbn in Hok |- *.
  - destruct Hok as (Hlen & Hcount & Hidx). unfold vl_api_tunterm_acl_add_replace_t_handler.
    assert (Hinvol : forall v, is_u32 v -> net_to_host host 4 (net_to_host host 4 v) = v)
      by (intros v Hv; by apply net_to_host_invol).
    destruct (verify_message_len _ _) eqn:Hv.
    + pose proof (message_len_covers _ _ _ _ _ Hmp Hrule Hcount Hlen Hv) as Hn.
      destruct (update_refines codes accepts F ts A is6 _ mp_r _ Hrel Hidx Hn)
        as (ts' & rv & t & A' & Hu & Ht & Hspec & Hrel'). rewrite Hu. cbn.
      eexists _, _, A'. split; [reflexivity|]. cbn [spec_step]. by rewrite Hinvol.
    + assert (Hu : is_u32 (net_to_host host 4 mp_index)).
      { destruct Hidx as [->|Hidx]; [by_compute|]. destruct Hrel as ((_ & [Hu _] & _) & _).
        by apply Hu, elem_of_dom. }
      eexists _, _, A. split; [reflexivity|]. cbn [spec_step]. rewrite Hinvol by done. split; [|done].
      unfold spec_add_replace. rewrite (proj2 (Nat.ltb_lt _ _)); [by rewrite option_guard_True|].
      apply Nat.nle_gt. intros Hn.
      by rewrite (message_len_accepts _ _ _ _ _ Hmp Hrule Hcount Hlen Hn) in Hv.
  - destruct (del_refines codes F ts A mp_index Hrel Hok) as (ts' & rv & A' & -> & Hspec & Hrel').
    cbn. by eexists _, _, _.
  - destruct Hok as [Hsw Hidx].
    destruct (interface_refines codes F ts A ifs is_add mp_sw mp_index calls_ok own_config Hrel Hsw Hidx)
      as (ts' & rv & A' & -> & Hspec & Hrel'). cbn. by eexists _, _, _.
  - eexists _, _, A. split; [reflexivity|]. split; [done|]. by apply (fib_change_refines accepts F).
Qed.

Lemma run_refines s A es :
  sys_rel s A -> history_ok codes sizeof_mp sizeof_rule s A es ->
  exists s' rs A', sys_run codes sizeof_mp sizeof_rule s es = Some (s', rs) /\
    spec_run codes A es rs = Some A' /\ sys_rel s' A'.
Proof using sizes accepts calls_ok own_config.
  revert s A; induction es as [|e es IH]; intros s A Hrel Hok; [by eexists _, _, _|].
  destruct Hok as [He Hok]. destruct (step_refines s A e Hrel He) as (s1 & r & A1 & Hs & Ha & Hrel1).
  destruct (IH s1 A1 Hrel1 (Hok s1 r A1 Hs Ha)) as (s' & rs & A' & Hrun & Hspec & Hrel').
  exists s', (r :: rs), A'. cbn. by rewrite Hs, Ha; cbn; rewrite Hrun.
Qed.

Lemma sys_init_rel F cs fs :
  (forall sw, vnet_feature_is_enabled fs (bypass_key sw) = false) -> sys_rel (sys_init F cs fs) no_config.
Proof.
  intros Hoff.
  assert (Hnone : forall sw, attached [] sw = None)
    by (intros sw; unfold attached, vec_get; by destruct (sw <? 0)).
  unfold sys_init, no_config, tunterm_acl_init. cbn. rewrite dom_empty_L.
  refine (conj (conj _ (conj (conj _ _) (conj _ (conj _ (conj _ (conj _ (conj _ _))))))) (conj _ _)); cbn;
    try (intros ? Hx; by apply not_elem_of_empty in Hx).
  - apply empty_wf.
  - intros t m Hx. by apply not_elem_of_empty in Hx.
  - intros i ipr. cbn. by intros ?%lookup_empty_Some.
  - intros sw t. by rewrite Hnone.
  - intros sw t. by rewrite Hnone.
  - intros sw. rewrite Hoff, !Hnone. split; [done|]. by intros [[? ?]|[? ?]].
  - intros af sw. by rewrite Hoff.
  - intros t af M. by rewrite lookup_empty.
  - intros [|] sw; by rewrite Hnone, lookup_empty.
Qed.

(** The relation at the end of a run that is known. *)
Lemma history_rel F cs fs es s rs A :
  (forall sw, vnet_feature_is_enabled fs (bypass_key sw) = false) ->
  history_ok codes sizeof_mp sizeof_rule (sys_init F cs fs) no_config es ->
  sys_run codes sizeof_mp sizeof_rule (sys_init F cs fs) es = Some (s, rs) ->
  spec_run codes no_config es rs = Some A -> sys_rel s A.
Proof using sizes accepts calls_ok own_config.
  intros Hoff Hok Hrun Hspec.
  destruct (run_refines _ _ es (sys_init_rel F cs fs Hoff) Hok) as (s' & rs' & A' & Hrun' & Hspec' & Hrel).
  rewrite Hrun in Hrun'. injection Hrun' as <- <-. rewrite Hspec in Hspec'. by injection Hspec' as <-.
Qed.

(** C3.  The plugin implements its specification.  Assume of the clients only that they
    send honest message lengths and indexes of existing ACLs, and of the FIB that it
    walks back to the children whose forwarding changed; the classifier accepts the
    sessions for its tables, the feature calls succeed, and no interface shares its
    feature configuration.  Then, whatever API messages and FIB changes the plugin sees
    after its init functions (with its bypass off everywhere), no handler accesses a
    vector out of its bounds, every reply is one the specification allows in the
    configuration the earlier replies lead to, and at the end the pool, the hash, the
    classifier sessions, the path-list children, the attachments and the bypass feature
    are exactly those of that configuration under the current FIB. *)
Theorem tunterm_refines F cs fs es :
  (forall sw, vnet_feature_is_enabled fs (bypass_key sw) = false) ->
  history_ok codes sizeof_mp sizeof_rule (sys_init F cs fs) no_config es ->
  exists s rs A, sys_run codes sizeof_mp sizeof_rule (sys_init F cs fs) es = Some (s, rs) /\
    spec_run codes no_config es rs = Some A /\ sys_rel s A.
Proof using sizes accepts calls_ok own_config.
  intros Hoff Hok. apply run_refines; [by apply sys_init_rel|done].
Qed.

(** A packet in a state that implements configuration [A]. *)
Lemma rel_forwards s A n_next oob is_ipv6 b hdr dip :
  sys_rel s A ->
  let ts := sy_ts s in
  let cs' := classify_main (ts_redirect ts) in
  buffer_ok b -> vnet_feature_is_enabled (ts_features ts) (bypass_key (sw_if_index_rx b)) = true ->
  0 <= current_data b < 2 ^ 15 - 64 -> is_u16 (current_length b) -> 26 <= current_length b ->
  inner_packet b is_ipv6 hdr dip ->
  (forall t d e, is_Some (acls A !! t) -> classify_find cs' t d = Some e -> fst e = true) ->
  redirect_outcome n_next b hdr (config_lookup A (sy_fib s) is_ipv6 (sw_if_index_rx b) dip)
    (tunterm_acl_one (ts_main ts) cs' n_next oob b).
Proof.
  destruct s as [F' ts]. cbv zeta. cbn [sy_fib sy_ts]. intros Hrel.
  pose proof Hrel as (Hinv & Hacl & Hat).
  pose proof Hinv as (_ & [_ Hin] & _ & _ & Ha2 & Ha3 & Ha4 & _).
  intros Hb Hon Hc Hlu Hl Hip Hact.
  assert (Hown : forall t, attached (slot is_ipv6 (ts_main ts)) (sw_if_index_rx b) = Some t ->
    exists M, acls A !! t = Some (is_ipv6, M)).
  { intros t Ht. assert (Hd : t ∈ dom (acls A) /\ vec_get (classify_table_index_is_v6 (ts_main ts)) t = Some is_ipv6)
      by (destruct is_ipv6; [by eapply Ha3|by eapply Ha2]).
    destruct Hd as [[[af M] HA]%elem_of_dom Hv]. exists M. destruct (Hacl t af M HA) as [Hv' _]. congruence. }
  assert (Hlook : config_lookup A F' is_ipv6 (sw_if_index_rx b) dip =
    (fun t => classify_session (classify_main (ts_redirect ts)) t (dip_match dip)) <$>
      attached (slot is_ipv6 (ts_main ts)) (sw_if_index_rx b)).
  { unfold config_lookup. rewrite <- Hat. destruct (attached _ _) as [t|]; [|done]. cbn. f_equal.
    destruct (Hown t eq_refl) as [M HA]. rewrite HA. cbn. destruct (Hacl t _ M HA) as [_ HM].
    assert (Hdl : length (dip_match dip) = 16%nat) by (apply (dip_match_length is_ipv6); by destruct Hip).
    rewrite Hin by (done || by eapply elem_of_dom_2). specialize (HM _ Hdl).
    destruct (entry _ _ _) as [ipr|], (M !! _) as [path|]; try done. cbn in HM |- *.
    injection HM as _ _ _ Hdpo. by rewrite Hdpo. }
  rewrite Hlook. apply (tunterm_one_session (dom (acls A)) ts n_next oob is_ipv6 b hdr dip); try done.
  intros t d e Ht. apply Hact. destruct (Hown t Ht) as [M ->]. eauto.
Qed.

(** Where the bypass feature is on. *)
Lemma rel_bypass s A sw :
  sys_rel s A ->
  vnet_feature_is_enabled (ts_features (sy_ts s)) (bypass_key sw) = true <->
  exists af, is_Some (attachments A !! (af, sw)).
Proof.
  destruct s as [F' ts]. intros (Hinv & _ & Hat). cbn [sy_ts].
  pose proof Hinv as (_ & _ & _ & _ & _ & _ & Ha4 & _). rewrite Ha4.
  pose proof (Hat false sw) as H4'. pose proof (Hat true sw) as H6'.
  cbn in H4', H6'. rewrite H4', H6'. clear. split; [intros [?|?]; eauto|]. intros [[|] ?]; auto.
Qed.

(** The data path after any history.  The bypass feature is on exactly at the
    interfaces the configuration has an ACL for, and there a VXLAN packet with an
    inner IP header is handled as the configuration says: with no ACL of its family
    it continues to vxlan4-input, with no rule for its destination too, and else it
    is stripped to the inner packet and handed to the forwarding of the rule's path
    in the FIB as it is now, not as it was when the rule was added. *)
Theorem tunterm_history_forwards F cs fs es s rs A :
  (forall sw, vnet_feature_is_enabled fs (bypass_key sw) = false) ->
  history_ok codes sizeof_mp sizeof_rule (sys_init F cs fs) no_config es ->
  sys_run codes sizeof_mp sizeof_rule (sys_init F cs fs) es = Some (s, rs) ->
  spec_run codes no_config es rs = Some A ->
  let F' := sy_fib s in
  let ts := sy_ts s in
  let cs' := classify_main (ts_redirect ts) in
  (forall sw, vnet_feature_is_enabled (ts_features ts) (bypass_key sw) = true <->
     exists af, is_Some (attachments A !! (af, sw))) /\
  forall n_next oob is_ipv6 b hdr dip,
    buffer_ok b -> vnet_feature_is_enabled (ts_features ts) (bypass_key (sw_if_index_rx b)) = true ->
    0 <= current_data b < 2 ^ 15 - 64 -> is_u16 (current_length b) -> 26 <= current_length b ->
    inner_packet b is_ipv6 hdr dip ->
    (forall t d e, is_Some (acls A !! t) -> classify_find cs' t d = Some e -> fst e = true) ->
    redirect_outcome n_next b hdr (config_lookup A F' is_ipv6 (sw_if_index_rx b) dip)
      (tunterm_acl_one (ts_main ts) cs' n_next oob b).
Proof using sizes accepts calls_ok own_config.
  intros Hoff Hok Hrun Hspec. pose proof (history_rel F cs fs es s rs A Hoff Hok Hrun Hspec) as Hrel.
  cbv zeta. split; [intros sw; by apply rel_bypass|]. intros n_next oob is_ipv6 b hdr dip. by apply rel_forwards.
Qed.

End Theorems.

(** ** Witnesses *)

(** An ACL with the example rules is created and attached to interface 5; then the
    FIB moves every path to node 8; then deleting the ACL is refused. *)
Definition fib_env_moved : fib_env := mkFibEnv (fun _ => false) (fun pl _ _ => pl + 100) (fun _ d => (8, d)).

Definition ex_history : list (@event fib_ref FA) :=
  [Add_replace 70 false 0xffffffff 0x03000000 ex_rules;
   Interface_add_del (fun _ => true) true 0x05000000 0;
   Fib_change fib_env_moved [1; 2];
   Del 0].

Definition ex_sys0 : @sys CR FR := @sys_init CR FR fib_env_example (mkCref ∅ ∅) (∅ : gset fkey).

Definition ex_step (s : @sys CR FR) (e : @event fib_ref FA) : @sys CR FR :=
  match @sys_step vlib_ref CR fib_ref FA FR codes_example 10 20 s e with Some (s, _) => s | None => s end.

Definition ex_spec (A : @config fib_ref) (e : @event fib_ref FA) (r : reply) : @config fib_ref :=
  default A (@spec_step vlib_ref fib_ref FA codes_example A e r).

Definition ex_replies : list reply := [R_add_replace 0 0; R_code 0; R_none; R_code (-4)].

Definition ex_run : option (@sys CR FR * list reply) :=
  @sys_run vlib_ref CR fib_ref FA FR codes_example 10 20 ex_sys0 ex_history.
Definition ex_end : @sys CR FR := from_option fst ex_sys0 ex_run.
Definition ex_config : @config fib_ref :=
  default no_config (@spec_run vlib_ref fib_ref FA codes_example no_config ex_history ex_replies).

Lemma ex_walk_covers (st : @rstate CR) (walked : list Z) :
  bool_decide (map_Forall (fun i _ => i ∈ walked) (pool st)) = true ->
  forall i ipr, pool st !! i = Some ipr -> i ∈ walked.
Proof. intros Hb%bool_decide_eq_true i ipr Hi. exact (Hb i ipr Hi). Qed.

Lemma is_Some_compute {A} (o : option A) : from_option (fun _ => true) false o = true -> is_Some o.
Proof. by destruct o. Qed.

Lemma ex_cons s A e r es :
  @event_ok vlib_ref CR fib_ref FA FR 10 20 s A e ->
  snd <$> @sys_step vlib_ref CR fib_ref FA FR codes_example 10 20 s e = Some r ->
  @history_ok vlib_ref CR fib_ref FA FR codes_example 10 20 (ex_step s e) (ex_spec A e r) es ->
  @history_ok vlib_ref CR fib_ref FA FR codes_example 10 20 s A (e :: es).
Proof.
  unfold ex_step, ex_spec. intros He Hs Hes. split; [done|]. intros s' r' A' Hs' Ha.
  rewrite Hs' in Hs, Hes. injection Hs as <-. rewrite Ha in Hes. exact Hes.
Qed.

Lemma ex_history_ok :
  @history_ok vlib_ref CR fib_ref FA FR codes_example 10 20 ex_sys0 no_config ex_history.
Proof.
  eapply (ex_cons _ _ _ (R_add_replace 0 0)); [|vm_compute; reflexivity|].
  { split; [vm_compute; reflexivity|]. split; [by_compute|]. by left. }
  eapply (ex_cons _ _ _ (R_code 0)); [|vm_compute; reflexivity|].
  { split; [by_compute|]. right. apply is_Some_compute. vm_compute. reflexivity. }
  eapply (ex_cons _ _ _ R_none); [|vm_compute; reflexivity|].
  { split; [|intros i ipr Hi _; revert i ipr Hi; apply ex_walk_covers; vm_compute; reflexivity].
    intros i Hi. repeat (apply elem_of_cons in Hi as [->|Hi]; [apply is_Some_compute; vm_compute; reflexivity|]).
    destruct (not_elem_of_nil i Hi). }
  eapply (ex_cons _ _ _ (R_code (-4))); [|vm_compute; reflexivity|exact I].
  right. apply is_Some_compute. vm_compute. reflexivity.
Qed.

Lemma ref_accepts (cs : @cstate CR) t m s :
  is_Some (@classify_table CR cs t) -> snd (@vnet_classify_add_session CR cs t m s) = 0.
Proof. intros Ht. cbn. unfold cref_add_session. by rewrite decide_True. Qed.

Lemma ex_off : forall sw, @vnet_feature_is_enabled FR (∅ : gset fkey) (bypass_key sw) = false.
Proof. intros sw. apply bool_decide_eq_false. set_solver. Qed.

Lemma ex_run_replies : snd <$> ex_run = Some ex_replies.
Proof. vm_compute. reflexivity. Qed.

Lemma ex_run_end : ex_run = Some (ex_end, ex_replies).
Proof. pose proof ex_run_replies as Hr. unfold ex_end. destruct ex_run as [[s rs]|]; [|done]. by injection Hr as ->. Qed.

Lemma ex_config_end :
  @spec_run vlib_ref fib_ref FA codes_example no_config ex_history ex_replies = Some ex_config.
Proof.
  assert (Hs : from_option (fun _ => true) false
    (@spec_run vlib_ref fib_ref FA codes_example no_config ex_history ex_replies) = true)
    by (vm_compute; reflexivity).
  unfold ex_config. by destruct (spec_run _ _ _ _).
Qed.

(** The replies of the example history. *)
Lemma tunterm_refines_witness :
  exists s, ex_run = Some (s, ex_replies).
Proof.
  destruct (@tunterm_refines vlib_ref CR fib_ref FA FR codes_example 10 20 ltac:(lia)
    ref_accepts feature_total_ok (fun _ => eq_refl) fib_env_example (mkCref ∅ ∅) (∅ : gset fkey) ex_history
    ex_off ex_history_ok) as (s & rs & A & Hrun & _).
  exists s. change (ex_run = Some (s, rs)) in Hrun. replace ex_replies with rs; [exact Hrun|].
  pose proof ex_run_replies as Hr. rewrite Hrun in Hr. cbn in Hr. congruence.
Defined.

(** The packet of the node's example now goes to node 8 with the new DPO. *)
Lemma tunterm_history_forwards_witness :
  let o := @tunterm_acl_one vlib_ref CR (lookup_ref accept) (ts_main (sy_ts ex_end))
    (classify_main (ts_redirect (sy_ts ex_end))) 9 77 ex_vxlan in
  o_next o = 8 /\ adj_index_tx (o_buf o) = 151 /\ current_data (o_buf o) = 76.
Proof.
  assert (Hip : inner_packet ex_vxlan false 26 [10; 0; 0; 1]).
  { refine (Build_inner_packet _ _ _ _ [0x81; 0x00; 0; 100] _ _ _ _ _);
      [right; by exists 0, 100|by_compute..]. }
  assert (Hlook : @config_lookup fib_ref ex_config (sy_fib ex_end) false 5 [10; 0; 0; 1]
    = Some (Some (8, 151))) by (vm_compute; reflexivity).
  pose proof (@tunterm_history_forwards vlib_ref CR (lookup_ref accept) fib_ref FA FR codes_example 10 20 ltac:(lia)
    ref_accepts feature_total_ok (fun _ => eq_refl) fib_env_example (mkCref ∅ ∅) (∅ : gset fkey) ex_history
    ex_end ex_replies ex_config ex_off ex_history_ok ex_run_end ex_config_end) as Hw.
  destruct Hw as [_ Hw].
  cbv zeta in Hw |- *.
  specialize (Hw 9 77 false ex_vxlan 26 [10; 0; 0; 1]).
  change (sw_if_index_rx ex_vxlan) with 5 in Hw. rewrite Hlook in Hw.
  destruct Hw as (Hb & Hn & _);
    [apply mem_ok_wr; [apply mem_ok_empty|by_compute]|vm_compute; reflexivity|by_compute..|exact Hip| |].
  - intros t d [act e] _ Hf. apply bind_Some in Hf as (mask & _ & Hf).
    by apply fmap_Some in Hf as (? & _ & [= -> _]).
  - rewrite Hb, Hn. by_compute.
Defined.
