(* ===== verification/TuntermFib.v ===== *)
(** * The FIB node of a redirect session (tunterm_acl/tunterm_acl_redirect.c)

    A session is a node of the FIB graph: it registers with its path list under its
    pool index, and VPP comes back through the virtual functions of
    [tunterm_acl_redirect_vft], which turn the index into the address of the embedded
    [fib_node_t] and that address back into the session.  The pool is memory here: its
    elements lie [sizeof_ipr] bytes apart from the address [im_pool], which moves when the
    pool grows. *)

From S2P Require Import Prelude Vlib Feature TuntermRedirect TuntermApi TuntermNode TuntermSystem.

Inductive fib_node_back_walk_rc_t := FIB_NODE_BACK_WALK_MERGE | FIB_NODE_BACK_WALK_CONTINUE.

Section FibNode.
Context `{Vlib} `{ClassifyLookup} `{FibApi} `{VnetFeature}.
(** [sizeof (tunterm_acl_redirect_t)] and the offset of its member [node] *)
Variables sizeof_ipr offsetof_node : Z.
Variable CLIB_ASSERT_ENABLE : bool.

(** [pool_elt_at_index (im->pool, i)] and [ipr - im->pool] *)
Definition pool_elt_addr (im_pool i : Z) : Z := im_pool + i * sizeof_ipr.
Definition pool_elt_index (im_pool ipr : Z) : Z := (ipr - im_pool) / sizeof_ipr.

Definition tunterm_acl_redirect_get_node (im_pool index : Z) : Z :=
  pool_elt_addr im_pool index + offsetof_node.

Definition tunterm_acl_redirect_get_from_node (node : Z) : Z := node - offsetof_node.

(** [ASSERT]: aborts ([None]) in images built with assertions, nothing in others. *)
Definition ASSERT (c : bool) : option unit := if CLIB_ASSERT_ENABLE && negb c then None else Some tt.

Definition tunterm_acl_redirect_last_lock_gone (node : Z) (st : rstate) : option rstate :=
  _ ← ASSERT false; Some st.

(** The back walk, given the node's address; without assertions the error of a failed
    restack is only logged. *)
Definition back_walk_at (im_pool : Z) (F : fib_env) (node : Z) (st : rstate)
    : option (rstate * fib_node_back_walk_rc_t) :=
  let ipr := tunterm_acl_redirect_get_from_node node in
  let '(st, rv) := tunterm_acl_redirect_stack F st (pool_elt_index im_pool ipr) in
  _ ← ASSERT (0 =? rv);
  Some (st, FIB_NODE_BACK_WALK_CONTINUE).

Record fib_node_vft_t := mkFibVft {
  fnv_get : Z -> Z;
  fnv_last_lock : Z -> rstate -> option rstate;
  fnv_back_walk : fib_env -> Z -> rstate -> option (rstate * fib_node_back_walk_rc_t)
}.

Definition tunterm_acl_redirect_vft (im_pool : Z) : fib_node_vft_t :=
  mkFibVft (tunterm_acl_redirect_get_node im_pool) tunterm_acl_redirect_last_lock_gone
    (back_walk_at im_pool).

(** ** Specification *)

(** A walk over children, each given by the index it registered under: the node is
    fetched and told, until one does not ask to go on. *)
Fixpoint vft_walk (v : fib_node_vft_t) (F : fib_env) (children : list Z) (st : rstate) : option rstate :=
  match children with
  | [] => Some st
  | i :: rest =>
      '(st, rc) ← fnv_back_walk v F (fnv_get v i) st;
      match rc with
      | FIB_NODE_BACK_WALK_CONTINUE => vft_walk v F rest st
      | FIB_NODE_BACK_WALK_MERGE => Some st
      end
  end.

(** Every restack of the walk succeeds. *)
Fixpoint walk_clean (F : fib_env) (walked : list Z) (st : rstate) : bool :=
  match walked with
  | [] => true
  | i :: rest =>
      let '(st, rv) := tunterm_acl_redirect_stack F st i in (0 =? rv) && walk_clean F rest st
  end.

(** ** Lemmas *)

Hypothesis ipr_size : 0 < sizeof_ipr.

Lemma pool_elt_index_addr im_pool i : pool_elt_index im_pool (pool_elt_addr im_pool i) = i.
Proof using ipr_size.
  unfold pool_elt_index, pool_elt_addr. replace (im_pool + i * sizeof_ipr - im_pool) with (i * sizeof_ipr) by lia.
  apply Z.div_mul. lia.
Qed.

Lemma get_from_get_node im_pool i :
  tunterm_acl_redirect_get_from_node (tunterm_acl_redirect_get_node im_pool i) = pool_elt_addr im_pool i.
Proof. unfold tunterm_acl_redirect_get_from_node, tunterm_acl_redirect_get_node. lia. Qed.

(** Sessions that registered when the pool lay at [im_pool0] are all reached, in the
    order of the walk, when it lies at [im_pool]; an image with assertions aborts
    exactly when a restack of the walk fails. *)
Lemma vft_walk_fib_walk im_pool0 im_pool F walked st :
  vft_walk (tunterm_acl_redirect_vft im_pool) F
    ((fun i => pool_elt_index im_pool0 (pool_elt_addr im_pool0 i)) <$> walked) st =
  if CLIB_ASSERT_ENABLE && negb (walk_clean F walked st) then None else Some (fib_walk F walked st).
Proof using ipr_size.
  revert st; induction walked as [|i walked IH]; intros st; [cbn; by rewrite andb_false_r|].
  change (fib_walk F (i :: walked) st) with (fib_walk F walked (fst (tunterm_acl_redirect_stack F st i))).
  cbn -[fib_walk Z.eqb]. unfold back_walk_at. rewrite pool_elt_index_addr, get_from_get_node, pool_elt_index_addr.
  destruct (tunterm_acl_redirect_stack F st i) as [st1 rv]. unfold ASSERT. cbn [fst].
  destruct (0 =? rv); cbn [negb andb]; [rewrite andb_false_r; exact (IH st1)|].
  destruct CLIB_ASSERT_ENABLE; [done|exact (IH st1)].
Qed.

End FibNode.
