(* ===== verification/TuntermRobust.v ===== *)
(** * The tunterm_acl plugin when VPP says no

    [TuntermSystem] shows that the plugin implements its configuration when the
    classifier has room for every session and every feature call succeeds.  Here both
    may fail at any moment: what is left of the invariants then ([plugin_safe]), over
    any history of messages and back walks of the same system; and what happens when a
    client names an ACL that it has deleted. *)

From S2P Require Import Prelude Vlib Feature TuntermRedirect TuntermApi TuntermNode TuntermSystem.

(** ** Invariants *)

Section Safe.
Context `{Vlib} `{Classify} `{FibApi} `{VnetFeature}.

(** The plugin's structures are consistent, redirects belong to ACLs that exist, and
    every session of an ACL's table has its redirect, so that a clear finds it. *)
Record redirect_safe (own : gset Z) (st : rstate) : Prop := {
  rs_wf : redirect_wf st;
  rs_owned : entries_owned own st;
  rs_u32 : forall t, t ∈ own -> is_u32 t;
  rs_covered : forall t m, t ∈ own -> length m = 16%nat ->
    is_Some (classify_session (classify_main st) t m) -> is_Some (entry st t m)
}.

(** The ACLs have tables of their family, an attachment names an ACL that exists, of
    the right family, and the bypass feature is on only at interfaces with an
    attachment, for which both vectors are long enough. *)
Record plugin_safe (own : gset Z) (ts : tstate) : Prop := {
  ps_redirect : redirect_safe own (ts_redirect ts);
  ps_tables : forall t, t ∈ own -> t <> U32_MAX /\ exists af,
    vec_get (classify_table_index_is_v6 (ts_main ts)) t = Some af /\
    classify_table (classify_main (ts_redirect ts)) t = Some (table_mask af);
  ps_attached : forall af sw t, attached (slot af (ts_main ts)) sw = Some t ->
    t ∈ own /\ vec_get (classify_table_index_is_v6 (ts_main ts)) t = Some af;
  ps_bypass : forall sw, vnet_feature_is_enabled (ts_features ts) (bypass_key sw) = true ->
    exists af, is_Some (attached (slot af (ts_main ts)) sw);
  ps_reach : forall sw, vnet_feature_is_enabled (ts_features ts) (bypass_key sw) = true ->
    forall af, is_Some (vec_get (slot af (ts_main ts)) sw)
}.

(** The classifier's tables are the same before and after. *)
Definition same_tables (st st' : rstate) : Prop :=
  forall t, classify_table (classify_main st') t = classify_table (classify_main st) t.

(** What holds without refusals ([tunterm_inv]) is more. *)
Lemma inv_safe own ts : tunterm_inv own ts -> plugin_safe own ts.
Proof.
  intros (Hwf & [Hu Hin] & Hown & Ha1 & Ha2 & Ha3 & Ha4 & Ha5). split; [split| | | |]; try done.
  - intros t m Ht Hm Hs. rewrite Hin in Hs by done. by apply fmap_is_Some in Hs.
  - intros [|] sw t; [apply Ha3|apply Ha2].
  - intros sw [Hs|Hs]%Ha4; [by exists false|by exists true].
  - intros sw Hon af. by apply Ha5.
Qed.

End Safe.

(** ** Redirects *)

Section Redirects.
Context `{Vlib} `{Classify} `{FibApi} `{VnetFeature}.
Variable codes : tunterm_codes.

(** Deleting an entry: it goes, or it was without a session and all stays. *)
Lemma del_ipr_safe own st i ipr :
  redirect_safe own st -> pool st !! i = Some ipr ->
  let '(st', rv) := tunterm_acl_redirect_del_ipr st i in
  redirect_safe own st' /\ same_tables st st' /\
  pool st' = if decide (rv = 0) then delete i (pool st) else pool st.
Proof.
  intros [Hwf Hown Hu Hcov] Hi. destruct (entry_of_pool st i ipr Hwf Hi) as (m & Hm & Hkey & Htu & Hf & He).
  unfold tunterm_acl_redirect_del_ipr. rewrite (elt_lookup _ _ _ Hi).
  destruct (vnet_classify_del_session _ _ _) as [cs rv] eqn:Hdel.
  pose proof (del_session_gone _ _ _ _ _ Hdel) as Hgone.
  destruct (del_session_frame _ _ _ _ _ Hdel) as [Hft Hfs].
  rewrite Hkey, (take_match_key _ _ Hm) in Hgone, Hfs.
  assert (Hless : forall t' m', is_Some (classify_session cs t' m') ->
    (t', m') <> (table_index ipr, m) /\ is_Some (classify_session (classify_main st) t' m')).
  { intros t' m' [x Hx]. assert (Hne : (t', m') <> (table_index ipr, m)) by congruence.
    split; [done|]. rewrite <- (Hfs _ _ Hne). eauto. }
  destruct (c_true rv) eqn:Hrv.
  - assert (rv <> 0) by (by apply c_true_iff). rewrite decide_False by done.
    split_and!; [|done|done]. split; [done|done|done|].
    intros t' m' Ht' Hm' [_ Hs]%Hless. exact (Hcov t' m' Ht' Hm' Hs).
  - rewrite decide_True by done. pose proof (delete_wf st i ipr cs Hwf Hi) as Hwf'.
    rewrite Hkey in *. split_and!; [|done|done]. split; [done| |done|].
    + intros j jpr Hj. cbn in Hj. apply lookup_delete_Some in Hj as [_ Hj]. by eapply Hown.
    + intros t' m' Ht' Hm' [Hne Hs]%Hless. destruct (Hcov t' m' Ht' Hm' Hs) as [jpr Hj].
      exists jpr. apply entry_iff; [done|]. apply entry_iff in Hj as (j & Hj & Hk); [|done].
      exists j. split; [|done]. cbn. apply lookup_delete_Some. split; [|done]. intros <-.
      apply Hne. assert (ipr = jpr) as -> by congruence. rewrite Hkey in Hk.
      by apply match_key_inj in Hk as [-> ->]; auto.
Qed.

Lemma clear_loop_safe own l st :
  redirect_safe own st -> NoDup l -> (forall i, i ∈ l -> is_Some (pool st !! i)) ->
  let '(st', rv) := clear_loop st l in
  redirect_safe own st' /\ same_tables st st' /\ pool st' ⊆ pool st /\
  (rv = 0 -> forall i, i ∈ l -> pool st' !! i = None).
Proof.
  revert st; induction l as [|i l IH]; intros st Hs Hnd Hl; cbn [clear_loop].
  { split_and!; try done. by intros _ i ?%elem_of_nil. }
  apply NoDup_cons in Hnd as [Hi Hnd]. destruct (Hl i) as [ipr Hipr]; [by left|].
  pose proof (del_ipr_safe own st i ipr Hs Hipr) as Hd.
  destruct (tunterm_acl_redirect_del_ipr st i) as [st1 rv1]. destruct Hd as (Hs1 & Ht1 & Hp1).
  destruct (c_true rv1) eqn:Hrv1.
  { apply c_true_iff in Hrv1. rewrite decide_False in Hp1 by done. rewrite Hp1. by split_and!. }
  assert (rv1 = 0) as -> by (unfold c_true in Hrv1; by destruct (Z.eqb_spec rv1 0)).
  rewrite decide_True in Hp1 by done. specialize (IH st1 Hs1 Hnd).
  destruct (clear_loop st1 l) as [st' rv]. destruct IH as (Hs' & Ht' & Hp' & Hgone).
  { intros j Hj. rewrite Hp1, lookup_delete_ne by congruence. apply Hl. by right. }
  split_and!; [done|intros t; by rewrite Ht', Ht1| |].
  - etrans; [done|]. rewrite Hp1. apply delete_subseteq.
  - intros Hrv j [->|Hj]%elem_of_cons; [|by apply Hgone].
    destruct (pool st' !! i) eqn:Hx; [|done]. apply (lookup_weaken _ (pool st1)) in Hx; [|done].
    by rewrite Hp1, lookup_delete_eq in Hx.
Qed.

Lemma clear_safe own st t :
  redirect_safe own st ->
  let '(st', rv) := tunterm_acl_redirect_clear st t in
  redirect_safe own st' /\ same_tables st st' /\
  (rv = 0 -> forall i ipr, pool st' !! i = Some ipr -> table_index ipr <> t).
Proof.
  intros Hs. unfold tunterm_acl_redirect_clear.
  pose proof (clear_loop_safe own (filter (fun i => table_index (elt st i) = t)
    (pool_indices (pool st))) st Hs) as Hc.
  destruct (clear_loop _ _) as [st' rv]. destruct Hc as (Hs' & Ht & Hp & Hgone).
  - apply NoDup_filter, NoDup_pool_indices.
  - by intros i [_ Hi%elem_of_pool_indices]%list_elem_of_filter.
  - split_and!; [done|done|]. intros Hrv i ipr Hi Hti.
    pose proof (lookup_weaken _ _ _ _ Hi Hp) as Hi0. rewrite Hgone in Hi; [done|done|].
    apply list_elem_of_filter. rewrite (elt_lookup _ _ _ Hi0). split; [done|].
    apply elem_of_pool_indices. eauto.
Qed.

Lemma add_safe own inval F st t opaque proto m rpaths :
  redirect_safe own st -> t ∈ own -> length m = 16%nat -> proto <> DPO_PROTO_OTHER ->
  let '(st', _) := tunterm_acl_redirect_add inval F st t opaque proto m rpaths in
  redirect_safe own st' /\ same_tables st st'.
Proof.
  intros [Hwf Hown Hu Hcov] Ht Hm Hp.
  pose proof (add_spec inval F st t opaque proto m rpaths Hwf Hm (Hu t Ht) (proto_chain _ Hp)) as Hs.
  pose proof (add_owned own inval F st t opaque proto m rpaths Hwf (Hu t Ht) Hown Hm Ht Hp) as Ho.
  cbv zeta in Hs. destruct (tunterm_acl_redirect_add _ _ _ _ _ _ _ _) as [st' rv].
  destruct Hs as (Hwf' & He & Heo & _ & Hso & Htab). split; [|done]. split; [done|done|done|].
  intros t' m' Ht' Hm' Hs. destruct (decide ((t', m') = (t, m))) as [[= -> ->]|Hne].
  - by destruct (entry st' t m).
  - rewrite Heo by auto. rewrite Hso in Hs by done. by apply Hcov.
Qed.

Lemma add_rules_safe own F is_ipv6 t rules st :
  redirect_safe own st -> t ∈ own ->
  let '(st', _) := add_rules codes F is_ipv6 t rules st in
  redirect_safe own st' /\ same_tables st st'.
Proof.
  intros Hs Ht. revert st Hs; induction rules as [|r rules IH]; intros st Hs; cbn [add_rules]; [done|].
  destruct (fib_api_path_decode (r_path r)) as [rv path]. destruct (c_true rv); [done|].
  destruct (negb _); [done|].
  pose proof (add_safe own (INVALID_ADDRESS_FAMILY codes) F st t 0 (rule_proto is_ipv6)
    (rule_match is_ipv6 r) [path] Hs Ht (rule_match_length _ _) (rule_proto_ok _)) as Ha.
  destruct (tunterm_acl_redirect_add _ _ _ _ _ _ _ _) as [st1 rv1]. destruct Ha as [Hs1 Ht1].
  destruct (c_true rv1); [done|]. specialize (IH st1 Hs1).
  destruct (add_rules codes F is_ipv6 t rules st1) as [st' rv']. destruct IH as [Hs' Ht'].
  split; [done|]. intros t'. by rewrite Ht', Ht1.
Qed.

(** A back walk the classifier may refuse: the entry changes, its session or not. *)
Lemma back_walk_safe own F st i :
  redirect_safe own st -> is_Some (pool st !! i) ->
  let st' := tunterm_acl_redirect_back_walk_notify F st i in
  redirect_safe own st' /\ same_tables st st' /\ dom (pool st') = dom (pool st).
Proof.
  intros [Hwf Hown Hu Hcov] [ipr Hi]. destruct (entry_of_pool st i ipr Hwf Hi) as (m & Hm & Hk & Htu & _ & He).
  cbv zeta. unfold tunterm_acl_redirect_back_walk_notify, tunterm_acl_redirect_stack.
  rewrite (elt_lookup _ _ _ Hi). cbn. destruct (vnet_classify_add_session _ _ _ _) as [cs rv] eqn:Hc.
  unfold set_classify, set_pool. cbn. fold (restack F ipr).
  destruct (add_session_frame _ _ _ _ _ _ Hc) as [Hft Hfs]. rewrite Hk, take_match_key in Hfs by done.
  destruct (restack_wf F st i ipr m cs Hwf Hi Hm Hk) as (Hwf' & He' & Ho).
  split_and!; [split; [done| |done|]|done|by apply dom_insert_lookup_L].
  - intros j jpr. cbn. intros [[<- <-]|[_ Hj]]%lookup_insert_Some; [exact (Hown i ipr Hi)|by eapply Hown].
  - intros t' m' Ht' Hm' Hs. cbn in Hs.
    destruct (decide ((t', m') = (table_index ipr, m))) as [[= -> ->]|Hne]; [eauto|].
    rewrite Ho by auto. rewrite Hfs in Hs by done. by apply Hcov.
Qed.

Lemma fib_walk_safe own F walked st :
  redirect_safe own st -> (forall i, i ∈ walked -> is_Some (pool st !! i)) ->
  redirect_safe own (fib_walk F walked st) /\ same_tables st (fib_walk F walked st).
Proof.
  revert st; induction walked as [|i walked IH]; intros st Hs Hw; [done|].
  destruct (back_walk_safe own F st i Hs) as (Hs1 & Ht1 & Hd1); [apply Hw; by left|].
  change (fib_walk F (i :: walked) st) with (fib_walk F walked (tunterm_acl_redirect_back_walk_notify F st i)).
  destruct (IH _ Hs1) as [Hs' Ht'].
  - intros j Hj. apply elem_of_dom. rewrite Hd1. apply elem_of_dom, Hw. by right.
  - split; [done|]. intros t. by rewrite Ht', Ht1.
Qed.

End Redirects.

(** ** Handlers *)

Section Handlers.
Context `{Vlib} `{Classify} `{FibApi} `{VnetFeature}.
Variable codes : tunterm_codes.

(** The attachments do not look at the redirects. *)
Lemma plugin_safe_redirect own ts st :
  plugin_safe own ts -> redirect_safe own st -> same_tables (ts_redirect ts) st ->
  plugin_safe own (set_redirect st ts).
Proof.
  intros [_ Ht Ha Hb Hr] Hs Hst. split; [done| |done|done|done].
  intros t Hin. cbn. rewrite Hst. by apply Ht.
Qed.

(** One table more. *)
Lemma new_table_safe own ts is_ipv6 cs t :
  plugin_safe own ts ->
  vnet_classify_add_table (classify_main (ts_redirect ts)) (table_mask is_ipv6) = (cs, 0, t) ->
  t ∉ own /\ t <> U32_MAX /\ 0 <= t /\
  plugin_safe ({[t]} ∪ own)
    (mkTstate (mkTam (classify_table_index_by_sw_if_index_v4 (ts_main ts))
       (classify_table_index_by_sw_if_index_v6 (ts_main ts))
       (<[Z.to_nat t := is_ipv6]>
         (vec_validate_init_empty (classify_table_index_is_v6 (ts_main ts)) t false)))
       (set_classify cs (ts_redirect ts)) (ts_features ts)).
Proof.
  intros [[Hwf Hown Hu Hcov] Ht Ha Hb Hr] Hadd.
  apply add_table_ok in Hadd as (Hnone & Htu & Htn & Hmask & Hsess & Hother).
  assert (Hfresh : t ∉ own) by (intros Hx; destruct (Ht t Hx) as (_ & af & _ & Hc); congruence).
  assert (Ht0 : 0 <= t) by (widths; lia).
  destruct (vec_grow_set (classify_table_index_is_v6 (ts_main ts)) t false is_ipv6 Ht0) as (_ & Hget & Hold).
  split_and!; [done|done|done|]. split; [split| | | |]; cbn.
  - done.
  - intros i ipr Hi. apply elem_of_union. right. by eapply Hown.
  - intros t' [->%elem_of_singleton|Ht']%elem_of_union; auto.
  - intros t' m [->%elem_of_singleton|Ht']%elem_of_union Hm Hs; [rewrite Hsess in Hs; by destruct Hs|].
    destruct (Hother t') as [_ Hs']; [congruence|]. rewrite Hs' in Hs. by apply (Hcov t' m).
  - intros t' [->%elem_of_singleton|Ht']%elem_of_union; [split; [done|]; by exists is_ipv6|].
    destruct (Ht t' Ht') as (Hn & af & Haf & Hc). split; [done|]. exists af.
    destruct (Hother t') as [Ht'' _]; [congruence|]. rewrite Ht''. split; [|done].
    apply Hold; [congruence|done].
  - intros af sw t' Hat. destruct (Ha af sw t' Hat) as [Ht' Haf]. split; [set_solver|].
    apply Hold; [congruence|done].
  - exact Hb.
  - exact Hr.
Qed.

(** The ACLs after a create or replace that was answered with the index [t]. *)
Definition own_add (own : gset Z) (index t : Z) : gset Z :=
  if index =? U32_MAX then (if t =? U32_MAX then own else {[t]} ∪ own) else own.

Lemma ensure_table_safe own ts is_ipv6 index :
  plugin_safe own ts -> index = U32_MAX \/ index ∈ own ->
  exists tam st rv t,
    ensure_table is_ipv6 (ts_main ts) (ts_redirect ts) index = Some (tam, st, rv, t) /\
    plugin_safe (own_add own index t) (mkTstate tam st (ts_features ts)) /\
    (rv = 0 -> t ∈ own_add own index t).
Proof.
  intros Hs Hidx. unfold ensure_table, own_add. destruct (Z.eqb_spec index U32_MAX) as [->|Hne].
  - destruct (vnet_classify_add_table _ _) as [[cs rv] t] eqn:Hadd.
    destruct (Z.eqb_spec rv 0) as [->|Hrv]; cbn [negb].
    + destruct (new_table_safe own ts is_ipv6 cs t Hs Hadd) as (_ & Hn & Ht0 & Hs').
      destruct (vec_grow_set (classify_table_index_is_v6 (ts_main ts)) t false is_ipv6 Ht0) as (-> & _). cbn.
      eexists _, _, _, _. split; [reflexivity|]. rewrite (proj2 (Z.eqb_neq _ _) Hn).
      split; [exact Hs'|set_solver].
    + eexists _, _, _, _. split; [reflexivity|]. split; [|done].
      pose proof (add_table_err _ _ _ _ _ Hadd Hrv) as Herr.
      pose proof Hs as [[Hwf Hown Hu Hcov] _ _ _ _]. apply (plugin_safe_redirect own ts).
      * done.
      * split; [done|done|done|]. intros t' m Ht' Hm Hx. cbn in Hx.
        destruct (Herr t') as [_ Hse]. rewrite Hse in Hx. by apply (Hcov t' m).
      * intros t'. cbn. by destruct (Herr t').
  - destruct Hidx as [?|Hidx]; [done|]. eexists _, _, _, _. split; [reflexivity|]. by destruct ts.
Qed.

Lemma update_safe own ts F is_ipv6 count rules index :
  plugin_safe own ts -> index = U32_MAX \/ index ∈ own -> (count <= length rules)%nat ->
  exists ts' rv t,
    update_classify_table_and_sessions codes F is_ipv6 count rules index ts = Some (ts', rv, t) /\
    plugin_safe (own_add own index t) ts'.
Proof.
  intros Hs Hidx Hcount. unfold update_classify_table_and_sessions.
  destruct (ensure_table_safe own ts is_ipv6 index Hs Hidx) as (tam & st & rv & t & -> & Hs1 & Hin).
  cbn [mbind option_bind]. set (own1 := own_add own index t) in *.
  destruct (Z.eqb_spec rv 0) as [->|_]; cbn [negb]; [specialize (Hin eq_refl)|by eexists _, _, _].
  assert (Hafs : exists ok, (if (0 <? count)%nat then
      is_v6 ← vec_get (classify_table_index_is_v6 tam) t; Some (bool_decide (is_v6 = is_ipv6))
    else Some true) = Some ok).
  { destruct (0 <? count)%nat; [|eauto]. destruct (ps_tables _ _ Hs1 t Hin) as (_ & af & Haf & _).
    cbn in Haf. rewrite Haf. cbn. eauto. }
  destruct Hafs as [ok ->]. cbn [mbind option_bind]. destruct ok; cbn [negb]; [|by eexists _, _, _].
  pose proof (clear_safe own1 st t (ps_redirect _ _ Hs1)) as Hc.
  destruct (tunterm_acl_redirect_clear st t) as [st1 rv1]. destruct Hc as (Hs2 & Ht2 & _).
  destruct (negb (rv1 =? 0)).
  { eexists _, _, _. split; [reflexivity|]. by apply (plugin_safe_redirect own1 (mkTstate tam st _)). }
  rewrite option_guard_True by done.
  pose proof (add_rules_safe codes own1 F is_ipv6 t (take count rules) st1 Hs2 Hin) as Ha.
  destruct (add_rules codes F is_ipv6 t (take count rules) st1) as [st2 rv2]. destruct Ha as [Hs3 Ht3].
  eexists _, _, _. split; [reflexivity|]. apply (plugin_safe_redirect own1 (mkTstate tam st _)); [done|done|].
  intros t'. by rewrite Ht3, Ht2.
Qed.

(** One table less, cleared and attached nowhere. *)
Lemma del_table_safe own ts t st y :
  plugin_safe own ts -> redirect_safe own st -> same_tables (ts_redirect ts) st ->
  (forall i ipr, pool st !! i = Some ipr -> table_index ipr <> t) ->
  (forall af sw, attached (slot af (ts_main ts)) sw <> Some t) ->
  vec_get (classify_table_index_is_v6 (ts_main ts)) t = Some y ->
  plugin_safe (own ∖ {[t]})
    (mkTstate (mkTam (classify_table_index_by_sw_if_index_v4 (ts_main ts))
         (classify_table_index_by_sw_if_index_v6 (ts_main ts))
         (<[Z.to_nat t := false]> (classify_table_index_is_v6 (ts_main ts))))
       (set_classify (vnet_classify_delete_table_index (classify_main st) t) st) (ts_features ts)).
Proof.
  intros [_ Ht Ha Hb Hr] [Hwf Hown Hu Hcov] Hst Hno Hnat Hy.
  assert (Hkeep : forall t' af, t' <> t ->
    vec_get (classify_table_index_is_v6 (ts_main ts)) t' = Some af ->
    vec_get (<[Z.to_nat t := false]> (classify_table_index_is_v6 (ts_main ts))) t' = Some af)
    by (intros t' af Hne Haf; by rewrite (vec_get_insert _ _ _ _ _ Hy), decide_False by congruence).
  split; [split| | | |]; cbn.
  - exact Hwf.
  - intros i ipr Hi. apply elem_of_difference. split; [by eapply Hown|].
    rewrite elem_of_singleton. by eapply Hno.
  - intros t' [Ht' _]%elem_of_difference. by apply Hu.
  - intros t' m [Ht' Hne%not_elem_of_singleton]%elem_of_difference Hm.
    destruct (delete_table_frame (classify_main st) t t' Hne) as [_ ->]. by apply (Hcov t' m).
  - intros t' [Ht' Hne%not_elem_of_singleton]%elem_of_difference.
    destruct (Ht t' Ht') as (Hn & af & Haf & Hc). split; [done|]. exists af. split; [by apply Hkeep|].
    destruct (delete_table_frame (classify_main st) t t' Hne) as [-> _]. by rewrite Hst.
  - intros af sw t' Hat. destruct (Ha af sw t' Hat) as [Ht' Haf].
    assert (t' <> t) by (intros ->; by apply (Hnat af sw)). split; [set_solver|by apply Hkeep].
  - exact Hb.
  - exact Hr.
Qed.

Lemma del_handler_safe own ts mp_index :
  codes_ok codes -> plugin_safe own ts ->
  net_to_host host 4 mp_index = U32_MAX \/ net_to_host host 4 mp_index ∈ own ->
  exists ts' rv, vl_api_tunterm_acl_del_t_handler codes mp_index ts = Some (ts', rv) /\
    plugin_safe (if rv =? 0 then own ∖ {[net_to_host host 4 mp_index]} else own) ts'.
Proof.
  intros (Hc1 & _ & _ & Hc4 & _) Hs. unfold vl_api_tunterm_acl_del_t_handler.
  set (t := net_to_host host 4 mp_index). intros Hidx.
  apply Z.eqb_neq in Hc1, Hc4.
  destruct (Z.eqb_spec t U32_MAX) as [Ht|Hn]; [eexists _, _; split; [reflexivity|]; by rewrite Hc1|].
  destruct Hidx as [?|Hidx]; [done|].
  destruct (existsb _ (classify_table_index_by_sw_if_index_v4 _)) eqn:H4;
    [eexists _, _; split; [reflexivity|]; by rewrite Hc4|].
  destruct (existsb _ (classify_table_index_by_sw_if_index_v6 _)) eqn:H6;
    [eexists _, _; split; [reflexivity|]; by rewrite Hc4|].
  pose proof (clear_safe own (ts_redirect ts) t (ps_redirect _ _ Hs)) as Hc.
  destruct (tunterm_acl_redirect_clear _ t) as [st rv]. destruct Hc as (Hs1 & Ht1 & Hno).
  destruct (Z.eqb_spec rv 0) as [->|Hrv]; cbn [negb].
  - destruct (ps_tables _ _ Hs t Hidx) as (_ & y & Hy & _). rewrite (vec_set_Some _ _ _ _ Hy). cbn.
    eexists _, _. split; [reflexivity|]. apply (del_table_safe own ts t st y); [done..|by apply Hno| |done].
    intros [|] sw; by apply not_attached.
  - eexists _, _. split; [reflexivity|]. rewrite (proj2 (Z.eqb_neq _ _) Hrv).
    by apply plugin_safe_redirect.
Qed.

(** Vectors and features written for one interface. *)
Lemma reattach_safe own ts af sw v4 v6 fs x :
  plugin_safe own ts ->
  (forall (af' : bool) sw', attached (if af' then v6 else v4) sw' =
     if decide (af' = af /\ sw' = sw) then x else attached (slot af' (ts_main ts)) sw') ->
  (forall t, x = Some t ->
     t ∈ own /\ vec_get (classify_table_index_is_v6 (ts_main ts)) t = Some af) ->
  (forall (af' : bool) sw', sw' = sw \/ is_Some (vec_get (slot af' (ts_main ts)) sw') ->
     is_Some (vec_get (if af' then v6 else v4) sw')) ->
  (forall sw', vnet_feature_is_enabled fs (bypass_key sw') = true ->
     if decide (sw' = sw) then is_Some x \/ is_Some (attached (slot (negb af) (ts_main ts)) sw)
     else vnet_feature_is_enabled (ts_features ts) (bypass_key sw') = true) ->
  plugin_safe own (with_slots v4 v6 ts fs).
Proof.
  intros [Hr Ht Ha Hb Hv] Hslots Hx Hcov Hfs.
  assert (Hsl : forall af', slot af' (mkTam v4 v6 (classify_table_index_is_v6 (ts_main ts))) =
    if af' then v6 else v4) by (by intros [|]).
  split; [exact Hr|exact Ht| | |]; cbn [ts_main with_slots ts_features].
  - intros af' sw' t. rewrite Hsl, Hslots. case_decide as Hd; [|by apply Ha].
    destruct Hd as [-> ->]. by intros ?%Hx.
  - intros sw' Hon. specialize (Hfs sw' Hon). destruct (decide (sw' = sw)) as [->|Hne].
    + destruct Hfs as [Hs|Hs]; [exists af|exists (negb af)]; rewrite Hsl, Hslots.
      * by rewrite decide_True.
      * rewrite decide_False; [done|]. intros [Hd _]. by destruct af.
    + destruct (Hb sw' Hfs) as [af' Hs]. exists af'. rewrite Hsl, Hslots, decide_False; [done|tauto].
  - intros sw' Hon af'. rewrite Hsl. apply Hcov. specialize (Hfs sw' Hon).
    destruct (decide (sw' = sw)); [by left|right; by apply Hv].
Qed.

(** Growing both vectors. *)
Lemma grown_safe own ts sw :
  plugin_safe own ts -> 0 <= sw ->
  plugin_safe own (with_slots
    (vec_validate_init_empty (classify_table_index_by_sw_if_index_v4 (ts_main ts)) sw U32_MAX)
    (vec_validate_init_empty (classify_table_index_by_sw_if_index_v6 (ts_main ts)) sw U32_MAX)
    ts (ts_features ts)).
Proof.
  intros Hs Hsw.
  apply (reattach_safe own ts false sw _ _ _ (attached (slot false (ts_main ts)) sw)); [done| | | |].
  - intros af' sw'. case_decide as Hd; [destruct Hd as [-> ->]|destruct af']; by apply attached_validate.
  - apply (ps_attached _ _ Hs false sw).
  - intros [|] sw'; by apply validate_covers.
  - intros sw' Hon. case_decide as Hd; [|done]. subst sw'.
    destruct (ps_bypass _ _ Hs sw Hon) as [[|] Hx]; [by right|by left].
Qed.

(** Fewer features. *)
Lemma features_safe own ts fs :
  plugin_safe own ts ->
  (forall sw, vnet_feature_is_enabled fs (bypass_key sw) = true ->
     vnet_feature_is_enabled (ts_features ts) (bypass_key sw) = true) ->
  plugin_safe own (mkTstate (ts_main ts) (ts_redirect ts) fs).
Proof. intros [Hr Ht Ha Hb Hv] Hfs. split; cbn; auto. Qed.

(** The bypass goes off with the last attachment of an interface. *)
Lemma detach_bypass ts t af sw y4 y6 fs sw' :
  (forall sw, shared_config "ip4-unicast"%string sw = false) ->
  attached (slot af (ts_main ts)) sw = Some t ->
  attached (classify_table_index_by_sw_if_index_v4 (ts_main ts)) sw =
    (if y4 =? U32_MAX then None else Some y4) ->
  attached (classify_table_index_by_sw_if_index_v6 (ts_main ts)) sw =
    (if y6 =? U32_MAX then None else Some y6) ->
  (if (y4 =? U32_MAX) || (y6 =? U32_MAX)
   then vnet_feature_enable_disable (ts_features ts) (bypass_key sw) false
   else (ts_features ts, 0)) = (fs, 0) ->
  vnet_feature_is_enabled fs (bypass_key sw') = true ->
  if decide (sw' = sw) then @is_Some Z None \/ is_Some (attached (slot (negb af) (ts_main ts)) sw)
  else vnet_feature_is_enabled (ts_features ts) (bypass_key sw') = true.
Proof.
  intros Hcfg Hat H4 H6 Hf Hon. destruct ((y4 =? U32_MAX) || (y6 =? U32_MAX)) eqn:Hlast.
  - rewrite (bypass_call _ _ _ _ _ Hcfg Hf) in Hon. repeat case_decide; tauto || done.
  - apply orb_false_iff in Hlast as [Hl4 Hl6]. rewrite Hl4 in H4. rewrite Hl6 in H6.
    simplify_eq. case_decide; [|done]. right. destruct af; cbn; [rewrite H4|rewrite H6]; eauto.
Qed.

(** Attach and detach, with feature calls that may fail. *)
Lemma interface_safe own ts ifs is_add mp_sw mp_index :
  (forall sw, shared_config "ip4-unicast"%string sw = false) ->
  plugin_safe own ts -> 0 <= net_to_host host 4 mp_sw ->
  net_to_host host 4 mp_index = U32_MAX \/ net_to_host host 4 mp_index ∈ own ->
  exists ts' rv,
    vl_api_tunterm_acl_interface_add_del_t_handler codes ifs is_add mp_sw mp_index ts = Some (ts', rv) /\
    plugin_safe own ts'.
Proof.
  intros Hcfg Hs. unfold vl_api_tunterm_acl_interface_add_del_t_handler.
  set (sw := net_to_host host 4 mp_sw). set (t := net_to_host host 4 mp_index). intros Hsw Hidx.
  destruct (Z.eqb_spec t U32_MAX) as [Ht|Hn]; [by eexists _, _|].
  destruct Hidx as [?|Hidx]; [done|]. destruct (negb (ifs sw)); [by eexists _, _|].
  destruct (ps_tables _ _ Hs t Hidx) as (_ & af & Haf & _). rewrite Haf.
  destruct (validate_slot (classify_table_index_by_sw_if_index_v4 (ts_main ts)) sw Hsw) as (y4 & H4 & Hy4).
  destruct (validate_slot (classify_table_index_by_sw_if_index_v6 (ts_main ts)) sw Hsw) as (y6 & H6 & Hy6).
  destruct is_add.
  - destruct (slots_written (ts_main ts) af sw t y4 y6 Hsw H4 H6) as (w4 & w6 & -> & -> & Hw & Hcov).
    rewrite (proj2 (Z.eqb_neq _ _) Hn) in Hw. cbn [mbind option_bind].
    destruct (if negb _ then _ else _) as [fs rv] eqn:Hf. eexists _, _. split; [reflexivity|].
    apply (reattach_safe own ts af sw w4 w6 fs (Some t)); [done|done| |done|]; [by intros ? [= <-]|].
    intros sw' Hon. case_decide as Hd; [by left|].
    destruct (vnet_feature_is_enabled (ts_features ts) (bypass_key sw)); cbn in Hf; [by simplify_eq|].
    rewrite (bypass_call _ _ _ _ _ Hcfg Hf), decide_False in Hon by tauto. done.
  - rewrite H4, H6. cbn [mbind option_bind].
    assert (Hfam : forall af', attached (slot af' (ts_main ts)) sw = Some t -> af' = af)
      by (intros af' Hx; destruct (ps_attached _ _ Hs _ _ _ Hx); congruence).
    pose proof (slot_matches ts t af sw y4 y6 Hn Hfam Hy4 Hy6) as Hmatch.
    assert (Hgrown : plugin_safe own (with_slots
      (vec_validate_init_empty (classify_table_index_by_sw_if_index_v4 (ts_main ts)) sw U32_MAX)
      (vec_validate_init_empty (classify_table_index_by_sw_if_index_v6 (ts_main ts)) sw U32_MAX)
      ts (ts_features ts))) by (by apply grown_safe).
    destruct (negb (t =? y4) && negb (t =? y6)); [by eexists _, _|].
    pose proof (proj1 Hmatch eq_refl) as Hat.
    destruct (if _ || _ then _ else _) as [fs rv] eqn:Hf.
    destruct (Z.eqb_spec rv 0) as [->|Hrv]; cbn [negb].
    + destruct (slots_written (ts_main ts) af sw U32_MAX y4 y6 Hsw H4 H6) as (w4 & w6 & -> & -> & Hw & Hcov).
      cbn [mbind option_bind]. rewrite Z.eqb_refl in Hw. eexists _, _. split; [reflexivity|].
      apply (reattach_safe own ts af sw w4 w6 fs None); [done|done|done|done|]. intros sw' Hon.
      by apply (detach_bypass ts t af sw y4 y6 fs).
    + eexists _, _. split; [reflexivity|]. destruct (_ || _); [|by simplify_eq].
      apply (features_safe own _ fs Hgrown). intros sw' Hon.
      rewrite (bypass_call _ _ _ _ _ Hcfg Hf), decide_False in Hon by tauto. done.
Qed.

End Handlers.

(** ** The system *)

Section System.
Context `{Vlib} `{ClassifyLookup} `{FibApi} `{VnetFeature}.
Variable codes : tunterm_codes.
Variables sizeof_mp sizeof_rule : Z.

(** The ACLs there are after an event, as a client learns it from the reply: a creation
    that was answered with an index made a table, also when a rule of it failed. *)
Definition own_step (own : gset Z) (e : event) (r : reply) : gset Z :=
  match e, r with
  | Add_replace _ _ mp_index _ _, R_add_replace _ index =>
      own_add own (net_to_host host 4 mp_index) (net_to_host host 4 index)
  | Del mp_index, R_code rv => if rv =? 0 then own ∖ {[net_to_host host 4 mp_index]} else own
  | _, _ => own
  end.

Fixpoint own_run (own : gset Z) (es : list event) (rs : list reply) : gset Z :=
  match es, rs with
  | e :: es, r :: rs => own_run (own_step own e r) es rs
  | _, _ => own
  end.

(** The clients send honest lengths and name ACLs that exist, and the FIB walks back
    to its children only; nothing is asked of the classifier or the features. *)
Definition client_ok (own : gset Z) (s : sys) (e : event) : Prop :=
  match e with
  | Add_replace len _ mp_index mp_count mp_r =>
      len = sizeof_mp + Z.of_nat (length mp_r) * sizeof_rule /\ is_u32 (net_to_host host 4 mp_count) /\
      (net_to_host host 4 mp_index = U32_MAX \/ net_to_host host 4 mp_index ∈ own)
  | Del mp_index => net_to_host host 4 mp_index = U32_MAX \/ net_to_host host 4 mp_index ∈ own
  | Interface_add_del _ _ mp_sw mp_index =>
      0 <= net_to_host host 4 mp_sw /\
      (net_to_host host 4 mp_index = U32_MAX \/ net_to_host host 4 mp_index ∈ own)
  | Fib_change _ walked => forall i, i ∈ walked -> is_Some (pool (ts_redirect (sy_ts s)) !! i)
  end.

(** Every event is in order when it happens; after a step the plugin does not survive
    nothing is asked. *)
Fixpoint clients_ok (own : gset Z) (s : sys) (es : list event) : Prop :=
  match es with
  | [] => True
  | e :: es => client_ok own s e /\
      (forall s' r, sys_step codes sizeof_mp sizeof_rule s e = Some (s', r) ->
         clients_ok (own_step own e r) s' es)
  end.

Hypothesis codes_nonzero : codes_ok codes.
Hypothesis sizes : 0 <= sizeof_mp < 2 ^ 16 /\ 0 < sizeof_rule < 2 ^ 16.
Hypothesis own_config : forall sw, shared_config "ip4-unicast"%string sw = false.

Lemma step_safe own s e :
  plugin_safe own (sy_ts s) -> client_ok own s e ->
  exists s' r, sys_step codes sizeof_mp sizeof_rule s e = Some (s', r) /\
    plugin_safe (own_step own e r) (sy_ts s').
Proof using codes_nonzero sizes own_config.
  destruct s as [F ts]. cbn [sy_ts]. intros Hs Hok. destruct sizes as [Hmp Hrule].
  destruct e as [len is6 mp_index mp_count mp_r|mp_index|ifs is_add mp_sw mp_index|F' walked]; cbn in Hok |- *.
  - destruct Hok as (Hlen & Hcount & Hidx). unfold vl_api_tunterm_acl_add_replace_t_handler.
    assert (Hinvol : forall v, is_u32 v -> net_to_host host 4 (net_to_host host 4 v) = v)
      by (intros v Hv; by apply net_to_host_invol).
    destruct (verify_message_len _ _) eqn:Hv.
    + pose proof (message_len_covers _ _ _ _ _ Hmp Hrule Hcount Hlen Hv) as Hn.
      destruct (update_safe codes own ts F is6 _ mp_r _ Hs Hidx Hn) as (ts' & rv & t & Hu & Hs').
      rewrite Hu. cbn. eexists _, _. split; [reflexivity|]. cbn.
      unfold own_add in *. destruct (_ =? U32_MAX) eqn:Hi; [|done].
      destruct (Z.eqb_spec t U32_MAX) as [->|Hne]; [by rewrite Hinvol by by_compute|].
      assert (Ht : is_u32 t) by (apply (rs_u32 _ _ (ps_redirect _ _ Hs')); set_solver).
      rewrite Hinvol, (proj2 (Z.eqb_neq _ _) Hne) by done. exact Hs'.
    + eexists _, _. split; [reflexivity|]. cbn. unfold own_add.
      destruct (Z.eqb_spec (net_to_host host 4 mp_index) U32_MAX) as [->|_]; [|done].
      by rewrite Hinvol by by_compute.
  - destruct (del_handler_safe codes own ts mp_index codes_nonzero Hs Hok) as (ts' & rv & -> & Hs').
    cbn. by eexists _, _.
  - destruct Hok as [Hsw Hidx].
    destruct (interface_safe codes own ts ifs is_add mp_sw mp_index own_config Hs Hsw Hidx)
      as (ts' & rv & -> & Hs'). cbn. by eexists _, _.
  - eexists _, _. split; [reflexivity|]. cbn.
    destruct (fib_walk_safe own F' walked (ts_redirect ts) (ps_redirect _ _ Hs) Hok).
    by apply plugin_safe_redirect.
Qed.

Lemma run_safe own s es :
  plugin_safe own (sy_ts s) -> clients_ok own s es ->
  exists s' rs, sys_run codes sizeof_mp sizeof_rule s es = Some (s', rs) /\
    plugin_safe (own_run own es rs) (sy_ts s').
Proof using codes_nonzero sizes own_config.
  revert own s; induction es as [|e es IH]; intros own s Hs Hok; [by eexists _, _|].
  destruct Hok as [He Hok]. destruct (step_safe own s e Hs He) as (s1 & r & Hstep & Hs1).
  destruct (IH _ s1 Hs1 (Hok s1 r Hstep)) as (s' & rs & Hrun & Hs').
  exists s', (r :: rs). cbn. by rewrite Hstep; cbn; rewrite Hrun.
Qed.

Lemma init_safe F cs fs :
  (forall sw, vnet_feature_is_enabled fs (bypass_key sw) = false) ->
  plugin_safe ∅ (sy_ts (sys_init F cs fs)).
Proof.
  intros Hoff.
  assert (Hnone : forall af sw, attached (slot af (mkTam [] [] [])) sw = None)
    by (intros [|] sw; cbn; unfold attached, vec_get; by destruct (sw <? 0)).
  split; [split| | | |]; cbn; try (by intros t ?%not_elem_of_empty).
  - apply empty_wf.
  - intros i ipr Hi. cbn in Hi. by apply lookup_empty_Some in Hi.
  - by intros t m ?%not_elem_of_empty.
  - intros af sw t. by rewrite Hnone.
  - intros sw. by rewrite Hoff.
  - intros sw. by rewrite Hoff.
Qed.

(** Both vectors are read in bounds for a packet that comes through the bypass, and
    what is read names no table, or one that exists and is of the packet's family. *)
Lemma safe_table own ts af sw oob :
  plugin_safe own ts -> vnet_feature_is_enabled (ts_features ts) (bypass_key sw) = true ->
  exists t, vec_get (slot af (ts_main ts)) sw = Some t /\ vec_elt oob (slot af (ts_main ts)) sw = t /\
    (t <> U32_MAX -> t ∈ own /\
       classify_table (classify_main (ts_redirect ts)) t = Some (table_mask af)).
Proof.
  intros Hs Hon. destruct (ps_reach _ _ Hs sw Hon af) as [t Ht]. exists t. unfold vec_elt. rewrite Ht.
  split_and!; [done|done|]. intros Hne.
  destruct (ps_attached _ _ Hs af sw t) as [Hown Haf].
  { unfold attached. rewrite Ht. cbn. by rewrite (proj2 (Z.eqb_neq _ _) Hne). }
  split; [done|]. destruct (ps_tables _ _ Hs t Hown) as (_ & af' & Haf' & Hc). congruence.
Qed.

(** ** Theorems *)

(** C4.  The plugin survives refusals.  Let the classifier refuse tables and sessions
    and VPP refuse feature calls whenever they like, in any history of API messages of
    honest length that name existing ACLs, and of back walks to existing entries; no
    interface shares its feature configuration.  Still no handler leaves the bounds of a
    vector; the pool, the hash and the children of the path lists stay consistent, and
    every session in the table of an ACL has its redirect; every attachment names an
    ACL that exists and is of its family; and wherever the bypass hands packets over,
    tunterm-acl reads both vectors in bounds and looks up no table but those of
    existing ACLs. *)
Theorem tunterm_survives F cs fs es :
  (forall sw, vnet_feature_is_enabled fs (bypass_key sw) = false) ->
  clients_ok ∅ (sys_init F cs fs) es ->
  exists s rs, sys_run codes sizeof_mp sizeof_rule (sys_init F cs fs) es = Some (s, rs) /\
    let own := own_run ∅ es rs in
    plugin_safe own (sy_ts s) /\
    forall b, vnet_feature_is_enabled (ts_features (sy_ts s)) (bypass_key (sw_if_index_rx b)) = true ->
      (forall n_next oob oob', let cs := classify_main (ts_redirect (sy_ts s)) in
         tunterm_acl_one (ts_main (sy_ts s)) cs n_next oob b =
         tunterm_acl_one (ts_main (sy_ts s)) cs n_next oob' b) /\
      forall af t, vec_get (slot af (ts_main (sy_ts s))) (sw_if_index_rx b) = Some t -> t <> U32_MAX ->
        t ∈ own /\ classify_table (classify_main (ts_redirect (sy_ts s))) t = Some (table_mask af).
Proof using codes_nonzero sizes own_config.
  intros Hoff Hok. destruct (run_safe ∅ _ es (init_safe F cs fs Hoff) Hok) as (s & rs & Hrun & Hs).
  exists s, rs. split; [done|]. cbv zeta. split; [done|]. intros b Hon. split.
  - intros n_next oob oob'. unfold tunterm_acl_one.
    destruct (safe_table _ _ false _ oob Hs Hon) as (t4 & Hv4 & _).
    destruct (safe_table _ _ true _ oob Hs Hon) as (t6 & Hv6 & _).
    cbn [slot] in *. unfold vec_elt. by rewrite Hv4, Hv6.
  - intros af t Ht Hne. destruct (safe_table _ _ af _ 0 Hs Hon) as (t' & Ht' & _ & Hin).
    assert (t' = t) as -> by congruence. by apply Hin.
Qed.

(** What a deletion that was answered 0 leaves of the number [t]: no table, and an
    entry in the family vector that says IPv4. *)
Lemma del_leaves ts ts1 mp_index :
  let t := net_to_host host 4 mp_index in
  vl_api_tunterm_acl_del_t_handler codes mp_index ts = Some (ts1, 0) ->
  t <> U32_MAX /\ vec_get (classify_table_index_is_v6 (ts_main ts1)) t = Some false /\
  classify_table (classify_main (ts_redirect ts1)) t = None.
Proof using codes_nonzero.
  cbv zeta. destruct codes_nonzero as (Hc1 & _ & _ & Hc4 & _).
  unfold vl_api_tunterm_acl_del_t_handler. set (t := net_to_host host 4 mp_index).
  destruct (Z.eqb_spec t U32_MAX) as [|Hn]; [congruence|]. destruct (existsb _ _); [congruence|].
  destruct (existsb _ _); [congruence|].
  destruct (tunterm_acl_redirect_clear _ t) as [st rv]. destruct (Z.eqb_spec rv 0); cbn [negb]; [|congruence].
  unfold vec_set. destruct (vec_get _ t) as [y|] eqn:Hy; cbn; [|done]. intros [= <-]. cbn.
  rewrite (vec_get_insert _ _ _ _ _ Hy), decide_True by done.
  split_and!; [done|done|]. apply delete_table_gone.
Qed.

(** C35.  A deleted ACL can be attached.  The interface message is checked against the
    length of a vector, not against the ACLs there are: after a successful deletion of
    ACL [t], attaching [t] to any interface is accepted as an IPv4 attachment and, when
    the feature call succeeds, answered with 0, and tunterm-acl will look up a table
    that does not exist.  And should VPP give the number to a new IPv6 ACL, that one
    cannot be cleaned up: detaching it from the interface leaves the IPv4 attachment as
    it is, whatever is answered, and its deletion is refused as in use. *)
Theorem deleted_acl_accepted ts ts1 ifs mp_index mp_sw :
  let t := net_to_host host 4 mp_index in
  let sw := net_to_host host 4 mp_sw in
  vl_api_tunterm_acl_del_t_handler codes mp_index ts = Some (ts1, 0) ->
  0 <= sw -> ifs sw = true ->
  (exists ts2 rv,
     vl_api_tunterm_acl_interface_add_del_t_handler codes ifs true mp_sw mp_index ts1 = Some (ts2, rv) /\
     attached (slot false (ts_main ts2)) sw = Some t /\
     classify_table (classify_main (ts_redirect ts2)) t = None /\
     (snd (vnet_feature_enable_disable (ts_features ts1) (bypass_key sw) true) = 0 ->
      rv = 0 /\ vnet_feature_is_enabled (ts_features ts2) (bypass_key sw) = true)) /\
  (forall ts3, attached (slot false (ts_main ts3)) sw = Some t ->
     vec_get (classify_table_index_is_v6 (ts_main ts3)) t = Some true ->
     (exists ts4 rv,
        vl_api_tunterm_acl_interface_add_del_t_handler codes ifs false mp_sw mp_index ts3 = Some (ts4, rv) /\
        attached (slot false (ts_main ts4)) sw = Some t) /\
     vl_api_tunterm_acl_del_t_handler codes mp_index ts3 = Some (ts3, RSRC_IN_USE codes)).
Proof using codes_nonzero.
  cbv zeta. intros Hdel Hsw Hif. destruct (del_leaves ts ts1 mp_index Hdel) as (Hn & Hv & Htab).
  set (t := net_to_host host 4 mp_index) in *. set (sw := net_to_host host 4 mp_sw) in *.
  pose proof (proj2 (Z.eqb_neq _ _) Hn) as Hn'. split.
  - unfold vl_api_tunterm_acl_interface_add_del_t_handler. fold t sw. rewrite Hn', Hif, Hv. cbn [negb].
    destruct (validate_slot (classify_table_index_by_sw_if_index_v4 (ts_main ts1)) sw Hsw) as (y4 & Hy4 & _).
    destruct (validate_slot (classify_table_index_by_sw_if_index_v6 (ts_main ts1)) sw Hsw) as (y6 & Hy6 & _).
    destruct (slots_written (ts_main ts1) false sw t y4 y6 Hsw Hy4 Hy6) as (w4 & w6 & E4 & E6 & Hw & _).
    rewrite E4. injection E6 as <-. cbn [mbind option_bind].
    destruct (if negb _ then _ else _) as [fs rv] eqn:Hf. eexists _, _. split; [reflexivity|].
    split_and!; [|done|].
    + change (attached w4 sw = Some t). rewrite (Hw false sw), decide_True, Hn' by done. done.
    + intros Hrv. destruct (vnet_feature_is_enabled (ts_features ts1) (bypass_key sw)) eqn:Hon;
        cbn in Hf; [by simplify_eq|]. rewrite Hf in Hrv. cbn in Hrv. subst rv.
      split; [done|]. by eapply feature_ok.
  - intros ts3 Hat Hv3. split.
    + unfold vl_api_tunterm_acl_interface_add_del_t_handler. fold t sw. rewrite Hn', Hif, Hv3. cbn [negb].
      destruct (validate_slot (classify_table_index_by_sw_if_index_v4 (ts_main ts3)) sw Hsw) as (y4 & Hy4 & E4).
      destruct (validate_slot (classify_table_index_by_sw_if_index_v6 (ts_main ts3)) sw Hsw) as (y6 & Hy6 & _).
      rewrite Hy4, Hy6. cbn [mbind option_bind].
      assert (y4 = t) as -> by (cbn [slot] in Hat; rewrite E4 in Hat; destruct (y4 =? U32_MAX); congruence).
      rewrite Z.eqb_refl. cbn [negb andb]. destruct (if _ || _ then _ else _) as [fs rv].
      rewrite (vec_set_Some _ _ _ _ Hy6).
      destruct (negb (rv =? 0)); eexists _, _; (split; [reflexivity|]); cbn; by rewrite attached_validate.
    + unfold vl_api_tunterm_acl_del_t_handler. fold t. rewrite Hn'.
      destruct (existsb _ (classify_table_index_by_sw_if_index_v4 _)) eqn:Hex; [done|].
      by destruct (not_attached _ _ _ Hex Hat).
Qed.

End System.

(** ** Witnesses *)

(** A classifier that refuses the session for 10.0.0.2 and features that refuse every
    call for interface 5. *)
Abbreviation CX := (classify_ref (fun _ m => bool_decide (m = [10; 0; 0; 2] ++ replicate 12 0))).
Abbreviation FX := (feature_ref (fun k _ => snd k =? 5) (fun _ _ => false) id).

(** The third rule of the ACL fails, attaching it to interface 5 too, and as the
    attachment is there all the same, its deletion is refused. *)
Definition rob_history : list (@event fib_ref FA) :=
  [Add_replace 70 false 0xffffffff 0x03000000 ex_rules;
   Interface_add_del (fun _ => true) true 0x05000000 0;
   Del 0].

Definition rob_replies : list reply := [R_add_replace (-1) 0; R_code (-1); R_code (-4)].

Definition rob_sys0 : @sys CX FX := @sys_init CX FX fib_env_example (mkCref ∅ ∅) (∅ : gset fkey).

Definition rob_step (s : @sys CX FX) (e : @event fib_ref FA) : @sys CX FX :=
  match @sys_step vlib_ref CX fib_ref FA FX codes_example 10 20 s e with Some (s, _) => s | None => s end.

Lemma rob_cons own s e r es :
  @client_ok vlib_ref CX fib_ref FA FX 10 20 own s e ->
  snd <$> @sys_step vlib_ref CX fib_ref FA FX codes_example 10 20 s e = Some r ->
  @clients_ok vlib_ref CX fib_ref FA FX codes_example 10 20 (@own_step vlib_ref fib_ref FA own e r) (rob_step s e) es ->
  @clients_ok vlib_ref CX fib_ref FA FX codes_example 10 20 own s (e :: es).
Proof.
  unfold rob_step. intros He Hs Hes. split; [done|]. intros s' r' Hs'.
  rewrite Hs' in Hs, Hes. injection Hs as <-. exact Hes.
Qed.

Lemma rob_clients_ok : @clients_ok vlib_ref CX fib_ref FA FX codes_example 10 20 ∅ rob_sys0 rob_history.
Proof.
  eapply (rob_cons _ _ _ (R_add_replace (-1) 0)); [|vm_compute; reflexivity|].
  { split; [vm_compute; reflexivity|]. split; [by_compute|]. by left. }
  eapply (rob_cons _ _ _ (R_code (-1))); [|vm_compute; reflexivity|].
  { split; [by_compute|]. right. eapply bool_decide_eq_true. vm_compute. reflexivity. }
  eapply (rob_cons _ _ _ (R_code (-4))); [|vm_compute; reflexivity|exact I].
  right. eapply bool_decide_eq_true. vm_compute. reflexivity.
Qed.

Lemma tunterm_survives_witness :
  exists s, @sys_run vlib_ref CX fib_ref FA FX codes_example 10 20 rob_sys0 rob_history = Some (s, rob_replies) /\
    @plugin_safe vlib_ref CX FX {[0]} (sy_ts s).
Proof.
  assert (Hoff : forall sw, @vnet_feature_is_enabled FX (∅ : gset fkey) (bypass_key sw) = false)
    by (intros sw; apply bool_decide_eq_false; set_solver).
  destruct (@tunterm_survives vlib_ref CX (lookup_ref _) fib_ref FA FX codes_example 10 20 codes_example_ok
    ltac:(lia) (fun _ => eq_refl) fib_env_example (mkCref ∅ ∅) (∅ : gset fkey) rob_history Hoff rob_clients_ok)
    as (s & rs & Hrun & Hs & _).
  assert (Hr : snd <$> @sys_run vlib_ref CX fib_ref FA FX codes_example 10 20 rob_sys0 rob_history
    = Some rob_replies) by (vm_compute; reflexivity).
  change (@sys_run vlib_ref CX fib_ref FA FX codes_example 10 20 rob_sys0 rob_history = Some (s, rs)) in Hrun.
  rewrite Hrun in Hr. cbn in Hr. injection Hr as ->. exists s. split; [exact Hrun|].
  replace ({[0]} : gset Z) with (@own_run vlib_ref fib_ref FA ∅ rob_history rob_replies); [exact Hs|].
  vm_compute. reflexivity.
Defined.

(** The example ACL 0 is deleted, attached to interface 5, and its number given to an
    IPv6 ACL, which then cannot be detached. *)
Definition stale_del := @vl_api_tunterm_acl_del_t_handler vlib_ref CR FR codes_example 0.
Definition stale_interface := @vl_api_tunterm_acl_interface_add_del_t_handler vlib_ref CR FR
  codes_example (fun _ => true).
Definition stale_ts1 : @tstate CR FR := from_option fst ts_empty (stale_del ts_example).
Definition stale_ts2 : @tstate CR FR := from_option fst ts_empty (stale_interface true 0x05000000 0 stale_ts1).
Definition stale_ts3 : @tstate CR FR :=
  match @update_classify_table_and_sessions vlib_ref CR fib_ref FA FR codes_example fib_env_example true 0 []
    U32_MAX stale_ts2 with Some (ts, _, _) => ts | None => ts_empty end.

Lemma deleted_acl_accepted_witness :
  (exists ts2, stale_interface true 0x05000000 0 stale_ts1 = Some (ts2, 0) /\
     attached (slot false (ts_main ts2)) 5 = Some 0 /\
     @classify_table CR (classify_main (ts_redirect ts2)) 0 = None) /\
  exists ts4 rv, stale_interface false 0x05000000 0 stale_ts3 = Some (ts4, rv) /\
    attached (slot false (ts_main ts4)) 5 = Some 0 /\ stale_del stale_ts3 = Some (stale_ts3, -4).
Proof.
  assert (Hrv : snd <$> stale_del ts_example = Some 0) by (vm_compute; reflexivity).
  assert (Hdel : stale_del ts_example = Some (stale_ts1, 0)).
  { unfold stale_ts1. destruct (stale_del ts_example) as [[ts rv]|]; [|done]. by injection Hrv as ->. }
  assert (E0 : net_to_host (@host vlib_ref) 4 0 = 0) by (vm_compute; reflexivity).
  assert (E5 : net_to_host (@host vlib_ref) 4 0x05000000 = 5) by (vm_compute; reflexivity).
  pose proof (@deleted_acl_accepted vlib_ref CR FR codes_example codes_example_ok ts_example stale_ts1
    (fun _ => true) 0 0x05000000 Hdel) as Hw. cbv zeta in Hw. rewrite E0, E5 in Hw.
  destruct Hw as [(ts2 & rv & Hi & Ha & Ht & Hok) H2]; [lia|done|].
  destruct Hok as [-> _]; [vm_compute; reflexivity|]. split; [exact (ex_intro _ ts2 (conj Hi (conj Ha Ht)))|].
  destruct (H2 stale_ts3) as [(ts4 & rv & Hd & Ha4) Hdel3];
    [vm_compute; reflexivity|vm_compute; reflexivity|].
  exact (ex_intro _ ts4 (ex_intro _ rv (conj Hd (conj Ha4 Hdel3)))).
Defined.
