(* ===== verification/TuntermCli.v ===== *)
(** * The show command of tunterm_acl (tunterm_acl/tunterm_acl_cli.c)

    [show tunterm interfaces] prints a table of the interfaces with the bypass
    feature and the ACLs attached to them.  Against the specification of the plugin
    the table is the attachment map of the configuration. *)

From stdpp Require Import strings pretty.
From S2P Require Import Prelude Vlib Feature TuntermRedirect TuntermApi TuntermNode TuntermSystem.

Local Open Scope string_scope.

Definition tab : string := String (Ascii.ascii_of_nat 9) "".

Section Show.
Context `{Vlib} `{Classify} `{FibApi} `{VnetFeature}.

(** VPP's name of an interface, [format_vnet_sw_if_index_name]. *)
Variable sw_if_index_name : Z -> string.

(** An attachment vector at an interface, all ones beyond its end. *)
Definition show_tunterm_index (v : list Z) (sw_if_index : Z) : Z :=
  if (sw_if_index <? Z.of_nat (length v))%Z then default 0 (vec_get v sw_if_index) else U32_MAX.

(** One output line; [%u] of [u32] values. *)
Definition show_tunterm_row (sw_if_index index_v4 index_v6 : Z) : string :=
  sw_if_index_name sw_if_index +:+ tab +:+ pretty sw_if_index +:+ tab +:+ pretty index_v4
  +:+ tab +:+ pretty index_v6.

Definition show_tunterm_header : string :=
  "Interface" +:+ tab +:+ "Index" +:+ tab +:+ "IPv4 Tunterm Index" +:+ tab +:+ "IPv6 Tunterm Index".

(** The lines of [vlib_cli_output]; [sw_interfaces] are the interfaces of the pool in
    the order [pool_foreach] visits them. *)
Fixpoint show_tunterm_rows (ts : tstate) (sw_interfaces : list Z) : list string :=
  match sw_interfaces with
  | [] => []
  | sw_if_index :: sw_interfaces =>
      let rows := show_tunterm_rows ts sw_interfaces in
      if vnet_feature_is_enabled (ts_features ts) (bypass_key sw_if_index) then
        show_tunterm_row sw_if_index
          (show_tunterm_index (classify_table_index_by_sw_if_index_v4 (ts_main ts)) sw_if_index)
          (show_tunterm_index (classify_table_index_by_sw_if_index_v6 (ts_main ts)) sw_if_index)
        :: rows
      else rows
  end.

Definition show_tunterm_acl_interfaces_command_fn (ts : tstate) (sw_interfaces : list Z) : list string :=
  show_tunterm_header :: show_tunterm_rows ts sw_interfaces.

End Show.

Local Close Scope string_scope.

(** ** Lemmas *)

Lemma show_index_attached v sw : 0 <= sw -> show_tunterm_index v sw = default U32_MAX (attached v sw).
Proof.
  intros Hsw. unfold show_tunterm_index, attached, vec_get. rewrite (proj2 (Z.ltb_ge sw 0)) by done.
  destruct (v !! Z.to_nat sw) as [t|] eqn:Ht; cbn.
  - apply lookup_lt_Some in Ht as Hl. rewrite (proj2 (Z.ltb_lt _ _)) by lia.
    by destruct (Z.eqb_spec t U32_MAX).
  - apply lookup_ge_None in Ht. by rewrite (proj2 (Z.ltb_ge _ _)) by lia.
Qed.

Section Theorems.
Context `{Vlib} `{ClassifyLookup} `{FibApi} `{VnetFeature}.
Variable codes : tunterm_codes.
Variables sizeof_mp sizeof_rule : Z.
Hypothesis sizes : 0 <= sizeof_mp < 2 ^ 16 /\ 0 < sizeof_rule < 2 ^ 16.
Hypothesis accepts : forall cs t m s,
  is_Some (classify_table cs t) -> snd (vnet_classify_add_session cs t m s) = 0.
Hypothesis calls_ok : forall fs k en, snd (vnet_feature_enable_disable fs k en) = 0.
Hypothesis own_config : forall sw, shared_config "ip4-unicast"%string sw = false.

(** An interface with an ACL in the configuration, and its row. *)
Definition has_acl (A : config) (sw : Z) : Prop :=
  is_Some (attachments A !! (false, sw)) \/ is_Some (attachments A !! (true, sw)).

#[export] Instance has_acl_dec A sw : Decision (has_acl A sw).
Proof. unfold has_acl. apply _. Defined.

Definition config_row (name : Z -> string) (A : config) (sw : Z) : string :=
  show_tunterm_row name sw (default U32_MAX (attachments A !! (false, sw)))
    (default U32_MAX (attachments A !! (true, sw))).

Lemma rows_config name s A ifs :
  sys_rel s A -> Forall (Z.le 0) ifs ->
  show_tunterm_rows name (sy_ts s) ifs = config_row name A <$> filter (has_acl A) ifs.
Proof.
  destruct s as [F ts]. intros (Hinv & _ & Hat) Hifs.
  pose proof Hinv as (_ & _ & _ & _ & _ & _ & Hon & _). cbn [sy_ts].
  pose proof (Hat false) as H4'. pose proof (Hat true) as H6'. cbn [slot] in H4', H6'.
  induction Hifs as [|sw ifs Hsw _ IH]; [done|]. cbn [show_tunterm_rows]. rewrite filter_cons, IH.
  specialize (Hon sw). rewrite H4', H6' in Hon. unfold has_acl at 2.
  destruct (vnet_feature_is_enabled _ _).
  - rewrite decide_True by (by apply Hon). rewrite fmap_cons. f_equal. unfold config_row.
    by rewrite !show_index_attached, H4', H6'.
  - rewrite decide_False; [done|]. intros Hc. by apply Hon in Hc.
Qed.

(** C40.  What [show tunterm interfaces] prints.  After a history of FIB changes and of
    API messages of honest length that name existing ACLs, with a classifier that
    accepts, feature calls that succeed and no shared feature configuration, it prints
    the attachment map of the configuration the replies lead to: one row for each
    interface of the pool ([ifs]) with an ACL, in pool order, with the index of its IPv4
    and of its IPv6 ACL (4294967295 for none), no row for an interface without one, and
    every ACL shown is one of the configuration and of its column's family. *)
Theorem show_tunterm_interfaces name F cs fs es s rs A ifs :
  (forall sw, vnet_feature_is_enabled fs (bypass_key sw) = false) ->
  history_ok codes sizeof_mp sizeof_rule (sys_init F cs fs) no_config es ->
  sys_run codes sizeof_mp sizeof_rule (sys_init F cs fs) es = Some (s, rs) ->
  spec_run codes no_config es rs = Some A -> Forall (Z.le 0) ifs ->
  show_tunterm_acl_interfaces_command_fn name (sy_ts s) ifs =
    show_tunterm_header :: (config_row name A <$> filter (has_acl A) ifs) /\
  (forall sw af t, attachments A !! (af, sw) = Some t -> exists M, acls A !! t = Some (af, M)).
Proof using sizes accepts calls_ok own_config.
  intros Hoff Hok Hrun Hspec Hifs.
  assert (Hrel : sys_rel s A) by (eapply history_rel; eassumption). split.
  - unfold show_tunterm_acl_interfaces_command_fn. f_equal. by apply rows_config.
  - destruct s as [F' ts]. destruct Hrel as ((_ & _ & _ & _ & H4' & H6' & _) & Hacl & Hat).
    intros sw af t. rewrite <- Hat. intros Ht.
    assert (Hd : t ∈ dom (acls A) /\ vec_get (classify_table_index_is_v6 (ts_main ts)) t = Some af)
      by (destruct af; [by eapply H6'|by eapply H4']).
    destruct Hd as [[[af' M] HA]%elem_of_dom Hv]. exists M. destruct (Hacl t af' M HA) as [Hv' _]. congruence.
Qed.

End Theorems.

(** The example history attached ACL 0 to interface 5. *)
Lemma show_tunterm_interfaces_witness :
  @show_tunterm_acl_interfaces_command_fn CR FR (fun sw => "if" +:+ pretty sw)%string (sy_ts ex_end) [1; 5; 7] =
  [show_tunterm_header; "if5" +:+ tab +:+ "5" +:+ tab +:+ "0" +:+ tab +:+ "4294967295"]%string.
Proof.
  destruct (@show_tunterm_interfaces vlib_ref CR fib_ref FA FR codes_example 10 20 ltac:(lia)
    ref_accepts feature_total_ok (fun _ => eq_refl) (fun sw => "if" +:+ pretty sw)%string fib_env_example
    (mkCref ∅ ∅) (∅ : gset fkey) ex_history ex_end ex_replies ex_config [1; 5; 7] ex_off ex_history_ok
    ex_run_end ex_config_end ltac:(repeat constructor; lia)) as [Hw _].
  rewrite Hw. vm_compute. reflexivity.
Defined.
