(* ===== verification/TuntermPath.v ===== *)
(** * The path of a VXLAN packet through tunterm_acl

    The two nodes of the plugin one after the other: tunterm-ip4-vxlan-bypass
    (tunterm_acl_decap.c) on the ip4-unicast arc, and tunterm-acl
    (tunterm_acl_node.c) for the packets the first hands over ([.next_nodes] of its
    registration), in a state the control plane has built.  And what IP options do
    to it: the bypass node looks for the VXLAN header at a fixed distance. *)

From S2P Require Import Prelude Vlib Feature TuntermRedirect TuntermApi TuntermNode TuntermDecap TuntermSystem.

Section Path.
Context `{Vlib} `{ClassifyLookup} `{FibApi} `{VnetFeature} `{!IpHeaders} `{Vxlan}.

(** The packets of the frame the bypass node enqueued to tunterm-acl, in order. *)
Definition to_tunterm_acl (acc : bypass_acc) : list Z :=
  (filter (fun e => snd e = IP_VXLAN_BYPASS_NEXT_TUNTERM) (ba_enqueued acc)).*1.

(** A frame through both nodes: what each of them enqueued, and the buffers. *)
Definition tunterm_path (new after : nat -> Z) (tam : tunterm_acl_main_t) (cs : cstate)
    (n_next oob node_flags : Z) (st : buffers) (from : list Z)
    : option (list (Z * Z) * list (Z * Z) * buffers) :=
  '(_, acc, _) ← tunterm_acl_ip4_vxlan_bypass_node new after node_flags st from;
  let r := tunterm_acl_node tam cs n_next oob node_flags (ba_store acc) (to_tunterm_acl acc) in
  Some (ba_enqueued acc, nr_enqueued r, nr_store r).

(** ** Specification *)

(** A VXLAN packet at the current position, 28 bytes before its VXLAN header, with an
    inner IP packet. *)
Definition vxlan_packet (b : vlib_buffer_t) (is_ipv6 : bool) (hdr : Z) (dip : list Z) : Set :=
  inner_packet (set_current (current_data b + 28) (current_length b - 28) b) is_ipv6 hdr dip.

(** The room the two nodes need in the buffer. *)
Definition vxlan_room (b : vlib_buffer_t) : Prop :=
  0 <= current_data b < 2 ^ 15 - 96 /\ is_u16 (current_length b) /\ 54 <= current_length b.

(** What becomes of a packet: where the two nodes enqueued it ([enq1], [enq2]), and its
    buffer at the end.  A redirect to a next node the node does not have yet
    ([next >= n_next]) goes to vxlan4-input, stripped as it is. *)
Definition vxlan_fate (A : config) (F : fib_env) (n_next bi : Z) (b b' : vlib_buffer_t)
    (enq1 enq2 : list (Z * Z)) : Prop :=
  data b' = data b /\
  match bypass_verdict b with
  | Pass => (bi, fst (vnet_feature_next b)) ∈ enq1 /\ bi ∉ enq2.*1 /\ b' = snd (vnet_feature_next b)
  | BadChecksum => (bi, IP_VXLAN_BYPASS_NEXT_DROP) ∈ enq1 /\ bi ∉ enq2.*1 /\
      error b' = error_node_errors (UDP_CHECKSUM_ERROR true)
  | BadLength => (bi, IP_VXLAN_BYPASS_NEXT_DROP) ∈ enq1 /\ bi ∉ enq2.*1 /\
      error b' = error_node_errors (UDP_LENGTH_ERROR true)
  | Tunterm => (bi, IP_VXLAN_BYPASS_NEXT_TUNTERM) ∈ enq1 /\
      forall is_ipv6 hdr dip, vxlan_packet b is_ipv6 hdr dip ->
        match config_lookup A F is_ipv6 (sw_if_index_rx b) dip with
        | Some (Some (next, dpo)) =>
            (bi, if next <? n_next then next else TUNTERM_ACL_NEXT_VXLAN4_INPUT) ∈ enq2 /\
            current_data b' = current_data b + 28 + hdr /\
            current_length b' = current_length b - 28 - hdr /\ adj_index_tx b' = dpo
        | _ => (bi, TUNTERM_ACL_NEXT_VXLAN4_INPUT) ∈ enq2 /\ current_data b' = current_data b + 28 /\
            current_length b' = current_length b - 28 /\ adj_index_tx b' = adj_index_tx b
        end
  end.

End Path.

#[export] Instance verdict_eq_dec : EqDecision verdict.
Proof. solve_decision. Defined.

(** ** Lemmas *)

Section Facts.
Context `{Vlib} `{!IpHeaders} `{Vxlan}.

(** A packet is handed to tunterm-acl exactly for the verdict [Tunterm]. *)
Lemma verdict_next_tunterm b :
  (bypass_verdict b = Pass -> fst (vnet_feature_next b) <> IP_VXLAN_BYPASS_NEXT_TUNTERM) ->
  verdict_next b = IP_VXLAN_BYPASS_NEXT_TUNTERM <-> bypass_verdict b = Tunterm.
Proof.
  intros Hpass. unfold verdict_next. destruct (bypass_verdict b); try done.
  split; [|done]. intros Hn. by destruct (Hpass eq_refl Hn).
Qed.

(** The packets handed over are those with the verdict [Tunterm], in order. *)
Lemma handed_over acc st from :
  ba_enqueued acc = (fun bi => (bi, verdict_next (getb st bi))) <$> from ->
  (forall bi, bi ∈ from -> fst (vnet_feature_next (getb st bi)) <> IP_VXLAN_BYPASS_NEXT_TUNTERM) ->
  to_tunterm_acl acc = filter (fun bi => bypass_verdict (getb st bi) = Tunterm) from.
Proof.
  intros Hq Hnext. unfold to_tunterm_acl. rewrite Hq. clear Hq. induction from as [|bi from IH]; [done|].
  rewrite fmap_cons, !filter_cons. cbn [snd].
  pose proof (verdict_next_tunterm (getb st bi) (fun _ => Hnext bi (list_elem_of_here _ _))) as Hiff.
  specialize (IH (fun bj Hbj => Hnext bj (list_elem_of_further _ _ _ Hbj))).
  do 2 case_decide; [by rewrite fmap_cons, IH|tauto..|done].
Qed.

(** Neither node writes into a packet. *)
Lemma verdict_buffer_data b b' : verdict_buffer b b' -> data b' = data b.
Proof.
  unfold verdict_buffer, vnet_feature_next. destruct (vnet_feature_next_at _ _) as [next ci].
  destruct (bypass_verdict b); [by intros ->|..]; intros (fl & -> & _); by rewrite vlib_buffer_advance_spec.
Qed.

Lemma tunterm_acl_one_data `{ClassifyLookup} tam cs n_next oob b :
  data (o_buf (tunterm_acl_one tam cs n_next oob b)) = data b.
Proof.
  unfold tunterm_acl_one, tunterm_lookup. destruct (inner_headers b) as [[et tagged] ip].
  repeat case_match; cbn; rewrite ?vlib_buffer_advance_spec; done.
Qed.

(** A dropped packet carries the error of its verdict. *)
Lemma verdict_buffer_error b b' :
  bypass_verdict b <> Pass -> verdict_buffer b b' -> error b' = verdict_error (bypass_verdict b).
Proof.
  intros Hp. unfold verdict_buffer. destruct (bypass_verdict b); [done|..];
    intros (fl & -> & _); by rewrite vlib_buffer_advance_spec.
Qed.

(** The header length of an IPv4 packet, in words. *)
Definition ihl (b : vlib_buffer_t) : Z := Z.land (cur_byte b 0) 0xf.

Lemma be_decode2 x y : be_decode [x; y] = x * 2 ^ 8 + y.
Proof. change (y + 2 ^ 8 * (x + 2 ^ 8 * 0) = x * 2 ^ 8 + y). lia. Qed.

Lemma options_pass b :
  buffer_ok b -> ihl b = 6 -> be_decode (rd_bytes (data b) (udp_at b + 4) 2) < 2048 ->
  bypass_verdict b = Pass.
Proof.
  intros Hok Hi Hlen. unfold udp_at in Hlen. unfold ihl in Hi. rewrite Hi in Hlen.
  assert (H28 : cur_byte b 28 <> VXLAN_FLAGS_I).
  { intros H8. replace (current_data b + 6 * 4 + 4) with (current_data b + 28) in Hlen by lia.
    cbn [rd_bytes] in Hlen. unfold cur_byte in H8. rewrite H8, be_decode2 in Hlen. pose proof (Hok (current_data b + 28 + 1)) as Hb.
    unfold is_u8, VXLAN_FLAGS_I in *. lia. }
  unfold bypass_verdict. split_if; [done|]. split_if; [done|].
  by rewrite (proj2 (Z.eqb_neq _ _) H28).
Qed.

End Facts.

Section Theorems.
Context `{Vlib} `{ClassifyLookup} `{FibApi} `{VnetFeature} `{!IpHeaders} `{Vxlan}.

(** The second node on a packet the first handed over. *)
Lemma handed_fate s A n_next oob b b1 is_ipv6 hdr dip :
  sys_rel s A -> bypass_verdict b = Tunterm -> verdict_buffer b b1 -> buffer_ok b -> vxlan_room b ->
  vnet_feature_is_enabled (ts_features (sy_ts s)) (bypass_key (sw_if_index_rx b)) = true ->
  (forall t d e, is_Some (acls A !! t) ->
     classify_find (classify_main (ts_redirect (sy_ts s))) t d = Some e -> fst e = true) ->
  vxlan_packet b is_ipv6 hdr dip ->
  let o := tunterm_acl_one (ts_main (sy_ts s)) (classify_main (ts_redirect (sy_ts s))) n_next oob b1 in
  match config_lookup A (sy_fib s) is_ipv6 (sw_if_index_rx b) dip with
  | Some (Some (next, dpo)) =>
      o_next o = (if next <? n_next then next else TUNTERM_ACL_NEXT_VXLAN4_INPUT) /\
      current_data (o_buf o) = current_data b + 28 + hdr /\
      current_length (o_buf o) = current_length b - 28 - hdr /\ adj_index_tx (o_buf o) = dpo
  | _ => o_next o = TUNTERM_ACL_NEXT_VXLAN4_INPUT /\ current_data (o_buf o) = current_data b + 28 /\
      current_length (o_buf o) = current_length b - 28 /\ adj_index_tx (o_buf o) = adj_index_tx b
  end.
Proof.
  intros Hrel Hv Hb Hok Hroom Hon Hact Hip. cbv zeta. pose proof Hroom as (Hc & Hu & Hl).
  destruct (tunterm_handover b b1 Hv Hb) as (Hc1 & _ & _ & Hd1 & Hl1 & Hrx & Hadj); [zsolve|].
  rewrite u16_id in Hl1 by zsolve.
  assert (Hip1 : inner_packet b1 is_ipv6 hdr dip).
  { destruct Hip as [tag Htag Hhdr Het Hlen Hdip]. cbn [data current_data set_current] in Het, Hdip.
    refine (Build_inner_packet _ _ _ _ tag Htag Hhdr _ Hlen _); by rewrite Hd1, Hc1. }
  pose proof (rel_forwards s A n_next oob is_ipv6 b1 hdr dip Hrel) as Hf. cbv zeta in Hf.
  unfold buffer_ok in Hf. rewrite Hd1, Hrx, Hc1, Hl1 in Hf.
  specialize (Hf Hok Hon ltac:(lia) ltac:(zsolve) ltac:(lia) Hip1 Hact). unfold redirect_outcome in Hf.
  destruct (config_lookup _ _ _ _ _) as [[[next dpo]|]|]; destruct Hf as (-> & -> & _); cbn;
    rewrite ?Hc1, ?Hl1; done.
Qed.

(** Both nodes over a frame, in a state that implements configuration [A]. *)
Lemma path_fates s A n_next oob nf st from new after :
  sys_rel s A -> vxlan4_tunnel_by_key (U64_MAX, U64_MAX) = None -> (forall n, 0 < new n) -> NoDup from ->
  (forall bi, bi ∈ from -> let b := getb st bi in
     buffer_ok b /\ buffer_fib b <> U32_MAX /\ vxlan_room b /\
     vnet_feature_is_enabled (ts_features (sy_ts s)) (bypass_key (sw_if_index_rx b)) = true /\
     fst (vnet_feature_next b) <> IP_VXLAN_BYPASS_NEXT_TUNTERM) ->
  (forall t d e, is_Some (acls A !! t) ->
     classify_find (classify_main (ts_redirect (sy_ts s))) t d = Some e -> fst e = true) ->
  exists enq1 enq2 st',
    tunterm_path new after (ts_main (sy_ts s)) (classify_main (ts_redirect (sy_ts s))) n_next oob nf st from
      = Some (enq1, enq2, st') /\
    enq1.*1 = from /\
    enq2.*1 = filter (fun bi => bypass_verdict (getb st bi) = Tunterm) from /\
    forall bi, bi ∈ from -> vxlan_fate A (sy_fib s) n_next bi (getb st bi) (getb st' bi) enq1 enq2.
Proof.
  intros Hrel Hones Hnew Hnd Hall Hact. unfold tunterm_path.
  destruct (bypass_frame Hones nf st from new after Hnew Hnd) as (tr & acc & -> & Hq & Hs);
    [intros bi Hbi; by destruct (Hall bi Hbi) as (? & ? & _)|].
  cbn [mbind option_bind]. eexists _, _, _. split; [reflexivity|].
  rewrite (handed_over acc st from Hq), Hq by (intros bi Hbi; by destruct (Hall bi Hbi) as (_ & _ & _ & _ & ?)).
  set (sub := filter _ from). assert (Hsub : NoDup sub) by (by apply NoDup_filter).
  set (one := tunterm_acl_one (ts_main (sy_ts s)) (classify_main (ts_redirect (sy_ts s))) n_next oob).
  set (r := tunterm_acl_node _ _ _ _ _ _ _).
  assert (Henq : nr_enqueued r = (fun bi => (bi, o_next (one (getb (ba_store acc) bi)))) <$> sub)
    by (by apply (stateless_node_enqueued one nf (ba_store acc) TUNTERM_ACL_N_ERROR)).
  assert (Hst : forall bi, bi ∈ sub -> getb (nr_store r) bi = o_buf (one (getb (ba_store acc) bi)))
    by (intros bi Hbi; cbn; by rewrite frame_loop_store).
  assert (Hout : forall bi, bi ∉ sub -> getb (nr_store r) bi = getb (ba_store acc) bi)
    by (intros bi Hbi; cbn; by rewrite frame_loop_store_other).
  assert (Hq2 : (nr_enqueued r).*1 = sub)
    by (rewrite Henq, <- list_fmap_compose; apply list_fmap_id).
  refine (conj _ (conj Hq2 _)); [rewrite <- list_fmap_compose; apply list_fmap_id|].
  intros bi Hbi. specialize (Hs bi Hbi). destruct (Hall bi Hbi) as (Hok & _ & Hroom & Hon & _).
  set (b := getb st bi) in *.
  assert (Hin : bi ∈ sub <-> bypass_verdict b = Tunterm)
    by (unfold sub; rewrite list_elem_of_filter; tauto).
  assert (Hq1 : (bi, verdict_next b) ∈ ((fun bi => (bi, verdict_next (getb st bi))) <$> from : list (Z * Z)))
    by (apply list_elem_of_fmap; by exists bi).
  unfold vxlan_fate. rewrite Hq2. unfold verdict_next in Hq1. split.
  { rewrite <- (verdict_buffer_data _ _ Hs). destruct (decide (bi ∈ sub)) as [Hn|Hn];
      [rewrite Hst by done; apply tunterm_acl_one_data|by rewrite Hout]. }
  destruct (bypass_verdict b) eqn:Hv.
  - rewrite Hout by (rewrite Hin; done). rewrite Hin. unfold verdict_buffer in Hs. by rewrite Hv in Hs.
  - split; [done|]. intros is_ipv6 hdr dip Hip. assert (Hn : bi ∈ sub) by (by apply Hin).
    pose proof (handed_fate s A n_next oob b _ is_ipv6 hdr dip Hrel Hv Hs Hok Hroom Hon Hact Hip) as Ho.
    rewrite Hst, Henq by done.
    destruct (config_lookup _ _ _ _ _) as [[[next dpo]|]|]; destruct Ho as (Ho & Ho');
      (split; [|exact Ho']); apply list_elem_of_fmap; exists bi; (split; [by rewrite <- Ho|done]).
  - assert (Hne : bypass_verdict b <> Pass) by congruence.
    rewrite Hout by (rewrite Hin; done). rewrite Hin, (verdict_buffer_error b _ Hne Hs), Hv. done.
  - assert (Hne : bypass_verdict b <> Pass) by congruence.
    rewrite Hout by (rewrite Hin; done). rewrite Hin, (verdict_buffer_error b _ Hne Hs), Hv. done.
Qed.

(** C29.  IP options lead past the ACL.  The node finds the UDP header by the header
    length but the VXLAN header always 28 bytes after the IP header.  Whatever the
    tunnels, a packet with four bytes of options and a UDP length below 2048, also one
    for a configured tunnel, stays on the arc and is not shown to tunterm-acl; and a
    packet with options that is handed over (because a byte at that place happens to be
    8) is handed over four bytes per option word before its VXLAN header. *)
Theorem ip_options_evade nf st from new after
    (no_ones_tunnel : vxlan4_tunnel_by_key (U64_MAX, U64_MAX) = None)
    (Hnew : forall n, 0 < new n) (Hnd : NoDup from)
    (Hall : forall bi, bi ∈ from -> buffer_ok (getb st bi) /\ buffer_fib (getb st bi) <> U32_MAX) :
  exists tr acc,
    tunterm_acl_ip4_vxlan_bypass_node new after nf st from = Some (tr, acc, Z.of_nat (length from)) /\
    forall bi, bi ∈ from ->
      let b := getb st bi in
      let b' := getb (ba_store acc) bi in
      (ihl b = 6 -> be_decode (rd_bytes (data b) (udp_at b + 4) 2) < 2048 ->
       (bi, fst (vnet_feature_next b)) ∈ ba_enqueued acc /\ b' = snd (vnet_feature_next b)) /\
      (bypass_verdict b = Tunterm -> is_i16 (current_data b + 28) ->
       current_data b' = udp_at b + 8 - 4 * (ihl b - 5)).
Proof.
  destruct (bypass_frame no_ones_tunnel nf st from new after Hnew Hnd Hall) as (tr & acc & Hrun & Hq & Hs).
  exists tr, acc. split; [done|]. intros bi Hbi. cbv zeta. specialize (Hs bi Hbi).
  destruct (Hall bi Hbi) as [Hok _]. split.
  - intros Hi Hlen. pose proof (options_pass _ Hok Hi Hlen) as Hp.
    unfold verdict_buffer in Hs. rewrite Hp in Hs. split; [|done].
    rewrite Hq. apply list_elem_of_fmap. exists bi. unfold verdict_next. by rewrite Hp.
  - intros Hv Hi. destruct (tunterm_handover _ _ Hv Hs Hi) as (-> & _). unfold udp_at, ihl. lia.
Qed.

Variable codes : tunterm_codes.
Variables sizeof_mp sizeof_rule : Z.
Hypothesis sizes : 0 <= sizeof_mp < 2 ^ 16 /\ 0 < sizeof_rule < 2 ^ 16.
Hypothesis accepts : forall cs t m s,
  is_Some (classify_table cs t) -> snd (vnet_classify_add_session cs t m s) = 0.
Hypothesis calls_ok : forall fs k en, snd (vnet_feature_enable_disable fs k en) = 0.
Hypothesis own_config : forall sw, shared_config "ip4-unicast"%string sw = false.

(** C1.  The plugin end to end.  Let the clients be honest and name existing ACLs
    ([history_ok]), the classifier accept and have SET_METADATA actions only, the feature
    calls succeed and no interface share its configuration.  After such a history of API
    messages and FIB changes, a frame of distinct packets, long enough and on interfaces
    with the bypass on, goes through both nodes as the configuration says: one not for a
    local tunnel stays on the arc, only its cursor moved; one with a bad UDP length or
    checksum is dropped with its error; a good VXLAN packet with an inner IP packet is
    looked up by inner destination in the ACL its interface has for that family: with a
    rule, all before the inner IP header is stripped and it goes, with the path's DPO of
    the current FIB, to the path's node (to vxlan4-input when there is no such next);
    without, vxlan4-input gets it 28 bytes on.  The first node enqueues every packet
    once, the second exactly those handed over, once and in order; no byte changes. *)
Theorem tunterm_end_to_end F cs fs es s rs A n_next oob nf st from new after :
  (forall sw, vnet_feature_is_enabled fs (bypass_key sw) = false) ->
  history_ok codes sizeof_mp sizeof_rule (sys_init F cs fs) no_config es ->
  sys_run codes sizeof_mp sizeof_rule (sys_init F cs fs) es = Some (s, rs) ->
  spec_run codes no_config es rs = Some A ->
  vxlan4_tunnel_by_key (U64_MAX, U64_MAX) = None -> (forall n, 0 < new n) -> NoDup from ->
  (forall bi, bi ∈ from -> let b := getb st bi in
     buffer_ok b /\ buffer_fib b <> U32_MAX /\ vxlan_room b /\
     vnet_feature_is_enabled (ts_features (sy_ts s)) (bypass_key (sw_if_index_rx b)) = true /\
     fst (vnet_feature_next b) <> IP_VXLAN_BYPASS_NEXT_TUNTERM) ->
  (forall t d e, is_Some (acls A !! t) ->
     classify_find (classify_main (ts_redirect (sy_ts s))) t d = Some e -> fst e = true) ->
  exists enq1 enq2 st',
    tunterm_path new after (ts_main (sy_ts s)) (classify_main (ts_redirect (sy_ts s))) n_next oob nf st from
      = Some (enq1, enq2, st') /\
    enq1.*1 = from /\
    enq2.*1 = filter (fun bi => bypass_verdict (getb st bi) = Tunterm) from /\
    forall bi, bi ∈ from -> vxlan_fate A (sy_fib s) n_next bi (getb st bi) (getb st' bi) enq1 enq2.
Proof using sizes accepts calls_ok own_config.
  intros Hoff Hok Hrun Hspec. apply path_fates. by eapply history_rel.
Qed.

End Theorems.

(** ** Witnesses *)

(** The tunnel's packet on interface 5 with the inner destination 10.0.0.1: the outer
    headers of [ex_outer] with a checksum of zero and the inner frame, without a tag. *)
Definition ex_inner_frame : list Z :=
  replicate 12 2 ++ [0x08; 0x00] ++ replicate 16 2 ++ [10; 0; 0; 1] ++ replicate 20 3.

Definition ex_tunnel_packet (ip_options : list Z) : vlib_buffer_t :=
  set_rx 5 (set_current 14 120 (set_data (wr_bytes ∅ 14
    ([0x45 + Z.of_nat (length ip_options) / 4; 0; 0; 120; 0; 0; 0; 0; 64; 17; 0; 0; 10; 0; 0; 9; 10; 0; 0; 1] ++
     ip_options ++ [0x30; 0x39; 0x12; 0xb5; 0; 90; 0; 0] ++ [8; 0; 0; 0; 0; 0; 100; 0] ++ ex_inner_frame))
    null_buffer)).

Definition ex_tunnel_frame : buffers :=
  {[1 := ex_tunnel_packet []; 2 := ex_tunnel_packet [1; 1; 1; 1]]}.

Lemma ex_tunnel_ok opts : bytes_ok opts -> (length opts < 8)%nat -> buffer_ok (ex_tunnel_packet opts).
Proof.
  intros Hok Hlen. apply mem_ok_wr; [apply mem_ok_empty|]. unfold bytes_ok.
  rewrite !Forall_app. split; [|split; [done|split; by_compute]].
  destruct opts as [|? [|? [|? [|? [|? [|? [|? [|? ?]]]]]]]]; cbn in Hlen; try lia; by_compute.
Qed.

(** The first packet is redirected to node 8 with the DPO of the moved path, 50 bytes
    into the packet; the second, the same with four bytes of options, stays on the arc. *)
Lemma tunterm_end_to_end_witness :
  let ts := sy_ts ex_end in
  exists enq1 enq2 st',
    @tunterm_path vlib_ref CR (lookup_ref accept) ip_headers_ref vxlan_ref (fun _ => 2) (fun _ => 0)
      (ts_main ts) (classify_main (ts_redirect ts)) 9 77 0 ex_tunnel_frame [1; 2] = Some (enq1, enq2, st') /\
    (1, 8) ∈ enq2 /\ adj_index_tx (getb st' 1) = 151 /\ current_data (getb st' 1) = 64 /\
    (2, 10) ∈ enq1 /\ 2 ∉ enq2.*1.
Proof.
  cbv zeta.
  destruct (@tunterm_end_to_end vlib_ref CR (lookup_ref accept) fib_ref FA FR ip_headers_ref vxlan_ref
    codes_example 10 20 ltac:(lia) ref_accepts feature_total_ok (fun _ => eq_refl) fib_env_example
    (mkCref ∅ ∅) (∅ : gset fkey) ex_history ex_end ex_replies ex_config 9 77 0 ex_tunnel_frame [1; 2]
    (fun _ => 2) (fun _ => 0) ex_off ex_history_ok ex_run_end ex_config_end) as (enq1 & enq2 & st' & Hrun & _ & _ & Hf).
  - vm_compute. reflexivity.
  - intros _. lia.
  - by_compute.
  - intros bi Hbi. rewrite !elem_of_cons in Hbi.
    destruct Hbi as [->|[->|Hn]]; [..|by apply elem_of_nil in Hn]; cbv zeta.
    + change (getb ex_tunnel_frame 1) with (ex_tunnel_packet []).
      refine (conj (ex_tunnel_ok [] _ _) (conj _ (conj _ (conj _ _)))); [by_compute..|vm_compute; reflexivity|by_compute].
    + change (getb ex_tunnel_frame 2) with (ex_tunnel_packet [1; 1; 1; 1]).
      refine (conj (ex_tunnel_ok [1; 1; 1; 1] _ _) (conj _ (conj _ (conj _ _))));
        [by_compute..|vm_compute; reflexivity|by_compute].
  - intros t d [act e] _ Hf. apply bind_Some in Hf as (mask & _ & Hf).
    by apply fmap_Some in Hf as (? & _ & [= -> _]).
  - exists enq1, enq2, st'. split; [exact Hrun|].
    pose proof (Hf 1 ltac:(by_compute)) as H1. pose proof (Hf 2 ltac:(by_compute)) as H2.
    change (getb ex_tunnel_frame 1) with (ex_tunnel_packet []) in H1.
    change (getb ex_tunnel_frame 2) with (ex_tunnel_packet [1; 1; 1; 1]) in H2.
    assert (Hv1 : @bypass_verdict vlib_ref ip_headers_ref vxlan_ref (ex_tunnel_packet []) = Tunterm)
      by (vm_compute; reflexivity).
    assert (Hv2 : @bypass_verdict vlib_ref ip_headers_ref vxlan_ref (ex_tunnel_packet [1; 1; 1; 1]) = Pass)
      by (vm_compute; reflexivity).
    unfold vxlan_fate in H1, H2. rewrite Hv1 in H1. rewrite Hv2 in H2. clear Hv1 Hv2.
    assert (Hip : vxlan_packet (ex_tunnel_packet []) false 22 [10; 0; 0; 1])
      by (refine (Build_inner_packet _ _ _ _ [] (or_introl eq_refl) _ _ _ _); by_compute).
    destruct H1 as (_ & _ & H1). pose proof (H1 _ _ _ Hip) as H1'.
    assert (Hlook : @config_lookup fib_ref ex_config (sy_fib ex_end) false
      (sw_if_index_rx (ex_tunnel_packet [])) [10; 0; 0; 1] = Some (Some (8, 151))) by (vm_compute; reflexivity).
    rewrite Hlook in H1'. destruct H1' as (Hq & Hc & _ & Ha). destruct H2 as (_ & Hq1 & Hn & _).
    split_and!; [exact Hq|exact Ha|rewrite Hc; by_compute|exact Hq1|exact Hn].
Defined.

(** The packet with options is for the configured tunnel. *)
Lemma ip_options_evade_witness :
  exists tr acc,
    @tunterm_acl_ip4_vxlan_bypass_node vlib_ref ip_headers_ref vxlan_ref (fun _ => 2) (fun _ => 0) 0
      ex_tunnel_frame [2] = Some (tr, acc, 1) /\ (2, 10) ∈ ba_enqueued acc.
Proof.
  destruct (@ip_options_evade vlib_ref ip_headers_ref vxlan_ref 0 ex_tunnel_frame [2] (fun _ => 2) (fun _ => 0))
    as (tr & acc & Hrun & Hw).
  - vm_compute. reflexivity.
  - intros _. lia.
  - by_compute.
  - intros bi Hbi. apply list_elem_of_singleton in Hbi as ->. split; [|by_compute].
    change (getb ex_tunnel_frame 2) with (ex_tunnel_packet [1; 1; 1; 1]). apply ex_tunnel_ok; by_compute.
  - exists tr, acc. split; [exact Hrun|]. destruct (Hw 2 ltac:(by_compute)) as [Hw' _].
    destruct Hw' as [Hq _]; [by_compute|by_compute|exact Hq].
Defined.
