(* ===== verification/NodeGraph.v ===== *)
(** * The node graph

    How the plugins' nodes are registered with VPP (the [VLIB_REGISTER_NODE] and
    [VNET_FEATURE_INIT] declarations and the error tables of the node files), and
    what holds of every node alike: the next indexes and counters it uses are
    registered ones.  Also the orders of features on an arc that the registrations
    allow. *)

From S2P Require Import Prelude Vlib ValidateLoop Ip4Validate Ip6Validate SonicExt SonicCapture.
From S2P Require Import SonicAggr SonicGlean SonicNodes TuntermRedirect TuntermApi TuntermNode TuntermDecap.
Import HostXc L2TrapFixup Ip2me.

(** ** Registrations *)

Record vlib_node_registration_t := mkNode {
  n_name : string;
  error_strings : list string;
  next_nodes : list string;
  sibling_of : option string
}.

(** [.n_errors = ARRAY_LEN (error_strings)], [.n_next_nodes] *)
Definition n_errors (r : vlib_node_registration_t) : nat := length (error_strings r).
Definition n_next_nodes (r : vlib_node_registration_t) : Z := Z.of_nat (length (next_nodes r)).

Record vnet_feature_registration_t := mkFeature {
  arc_name : string;
  f_node_name : string;
  runs_before : list string;
  runs_after : list string
}.

Local Open Scope string_scope.

(** *** ip_validate *)

Definition ip4_validate_error_strings : list string :=
  ["valid packets"; "source address is loopback"; "source address is multicast";
   "source address is class E"; "source address is unspecified"; "source address is link-local";
   "destination address is loopback"; "destination address is link-local";
   "unicast IP with multicast~broadcast L2 destination"].

Definition ip4_validate_reg : vlib_node_registration_t :=
  mkNode "ip4-validate" ip4_validate_error_strings ["error-drop"; "ip4-lookup"] None.

Definition ip4_validate_feat : vnet_feature_registration_t :=
  mkFeature "ip4-unicast" "ip4-validate" ["ip4-lookup"] [].

Definition ip6_validate_error_strings : list string :=
  ["valid packets"; "source address is multicast"; "source address is unspecified";
   "source address is loopback"; "destination address is unspecified";
   "destination address is loopback"; "unicast IP with multicast~broadcast L2 destination"].

Definition ip6_validate_reg : vlib_node_registration_t :=
  mkNode "ip6-validate" ip6_validate_error_strings ["error-drop"; "ip6-lookup"] None.

Definition ip6_validate_feat : vnet_feature_registration_t :=
  mkFeature "ip6-unicast" "ip6-validate" ["ip6-lookup"] [].

(** *** sonic_ext *)

Definition sonic_ext_capture_error_strings : list string := ["rx captured"].

(** No next nodes of its own: it shares those of the arc's start node. *)
Definition sonic_ext_capture_reg : vlib_node_registration_t :=
  mkNode "sonic-ext-capture" sonic_ext_capture_error_strings [] (Some "device-input").

Definition sonic_ext_capture_feat : vnet_feature_registration_t :=
  mkFeature "device-input" "sonic-ext-capture" ["ethernet-input"] [].

Definition sonic_ext_aggr_tap_redirect_error_strings : list string :=
  ["aggregate tap punt redirected to member tap"; "no capture cookie -- left on aggregate tap";
   "no LCP pair for original phy -- left on aggregate tap";
   "punt-via-member disabled -- left on aggregate tap"].

Definition sonic_ext_aggr_tap_redirect_reg : vlib_node_registration_t :=
  mkNode "sonic-ext-aggr-tap-redirect" sonic_ext_aggr_tap_redirect_error_strings
    ["interface-output"] None.

Definition sonic_ext_aggr_tap_redirect_feat : vnet_feature_registration_t :=
  mkFeature "interface-output" "sonic-ext-aggr-tap-redirect" [] [].

Definition sonic_ext_glean_redirect_error_strings : list string :=
  ["unresolved-nexthop punt redirected to ingress host tap";
   "not dropped by a neighbour-resolution node -- passed through";
   "not a glean/arp-incomplete drop -- passed through"; "no capture cookie -- passed through";
   "no LCP pair for ingress phy -- passed through"; "throttled -- passed through to drop";
   "punt-via-member disabled -- passed through"].

Definition sonic_ext_glean_redirect_reg : vlib_node_registration_t :=
  mkNode "sonic-ext-glean-redirect" sonic_ext_glean_redirect_error_strings
    ["interface-output"] None.

Definition sonic_ext_glean_redirect_feats : list vnet_feature_registration_t :=
  [mkFeature "ip4-drop" "sonic-ext-glean-redirect" [] [];
   mkFeature "ip6-drop" "sonic-ext-glean-redirect" [] []].

Definition sonic_ext_host_xc_error_strings : list string :=
  ["host tap steered directly to phy interface-output"; "not an LCP host tap, passthru"].

Definition sonic_ext_host_xc_reg : vlib_node_registration_t :=
  mkNode "sonic-ext-host-xc" sonic_ext_host_xc_error_strings ["error-drop"; "interface-output"] None.

Definition sonic_ext_host_xc_feat : vnet_feature_registration_t :=
  mkFeature "device-input" "sonic-ext-host-xc" ["ethernet-input"] ["sonic-ext-capture"].

Definition sonic_ext_l2_trap_fixup_error_strings : list string :=
  ["L2 trapped packet VLIB_RX retargeted to parent phys"; "rx sw_if_index invalid, packet dropped"].

Definition sonic_ext_l2_trap_fixup_reg : vlib_node_registration_t :=
  mkNode "sonic-ext-l2-trap-fixup" sonic_ext_l2_trap_fixup_error_strings
    ["linux-cp-punt"; "error-drop"] None.

Definition sonic_ext_ip2me_error_strings : list string :=
  ["ip2me frames bypassed the ACL"; "frames passed through to the ACL"].

Definition sonic_ext_ip2me_reg (is_ip6 : bool) : vlib_node_registration_t :=
  mkNode (if is_ip6 then "sonic-ext-ip2me-ip6" else "sonic-ext-ip2me-ip4")
    sonic_ext_ip2me_error_strings ["l2-input-feat-arc-end"] None.

Definition sonic_ext_ip2me_feats : list vnet_feature_registration_t :=
  [mkFeature "l2-input-ip4" "sonic-ext-ip2me-ip4" ["acl-plugin-in-ip4-l2"] [];
   mkFeature "l2-input-ip6" "sonic-ext-ip2me-ip6" ["acl-plugin-in-ip6-l2"] []].

(** *** tunterm_acl *)

Definition tunterm_acl_error_strings : list string :=
  ["Packets successfully redirected"; "No classify table found";
   "Match found, but action not supported"; "Unsupported ethertype";
   "No match found in classify table"].

Definition tunterm_acl_reg : vlib_node_registration_t :=
  mkNode "tunterm-acl" tunterm_acl_error_strings ["error-drop"; "vxlan4-input"] None.

Definition tunterm_acl_ip4_vxlan_bypass_reg : vlib_node_registration_t :=
  mkNode "tunterm-ip4-vxlan-bypass" [] ["error-drop"; "vxlan4-input"; "tunterm-acl"] None.

Definition tunterm_acl_ip4_vxlan_bypass_feat : vnet_feature_registration_t :=
  mkFeature "ip4-unicast" "tunterm-ip4-vxlan-bypass" ["ip4-lookup"] [].

Definition features : list vnet_feature_registration_t :=
  [ip4_validate_feat; ip6_validate_feat; sonic_ext_capture_feat; sonic_ext_aggr_tap_redirect_feat;
   sonic_ext_host_xc_feat; tunterm_acl_ip4_vxlan_bypass_feat] ++
  sonic_ext_glean_redirect_feats ++ sonic_ext_ip2me_feats.

Local Close Scope string_scope.

(** ** Orders of an arc *)

(** [a] is not behind [b] when both are on the arc. *)
Definition ahead (l : list string) (a b : string) : bool :=
  match list_find (eq a) l, list_find (eq b) l with
  | Some (i, _), Some (j, _) => (i <? j)%nat
  | _, _ => true
  end.

(** VPP puts the features of an arc in some order that meets what their
    registrations ask for. *)
Definition feature_placed (l : list string) (f : vnet_feature_registration_t) : bool :=
  forallb (ahead l (f_node_name f)) (runs_before f) &&
  forallb (fun a => ahead l a (f_node_name f)) (runs_after f).

Definition arc_order (arc : string) (l : list string) : bool :=
  forallb (fun f => negb (bool_decide (arc_name f = arc)) || feature_placed l f) features.

(** ** Bounds *)

(** The next index is the arc's or one the node registered, and the counter is one
    the node registered. *)
Definition registered {T} (r : vlib_node_registration_t) (feature_next : Z) (o : outcome T) : Prop :=
  (o_next o = u16 feature_next \/ 0 <= o_next o < n_next_nodes r) /\ (o_err o < n_errors r)%nat.

(** ** Lemmas *)

Section Facts.
Context `{Vlib}.

(** *** Bounds *)

Lemma validate_registered {T} (x1 : vlib_buffer_t -> nat * Z * vlib_buffer_t)
    (record : vlib_buffer_t -> Z -> T) r b :
  let '(e, next, _) := x1 b in
  (next = u16 (fst (vnet_feature_next b)) \/ next = 0) -> (e < n_errors r)%nat -> 0 < n_next_nodes r ->
  registered r (fst (vnet_feature_next b)) (validate_one x1 record b).
Proof.
  destruct (x1 b) as [[e next] b'] eqn:Hx. intros Hn He Hr. unfold validate_one. rewrite Hx.
  split; [|exact He]. cbn. destruct Hn as [->| ->]; [by left|right; lia].
Qed.

Lemma ip4_registered b :
  registered ip4_validate_reg (fst (vnet_feature_next b)) (validate_one ip4_x1_index ip4_trace_record b).
Proof.
  pose proof (validate_registered ip4_x1_index ip4_trace_record ip4_validate_reg b) as Hv.
  destruct (ip4_x1_index b) as [[e n] b'] eqn:Hx. apply Hv; [..|by_compute].
  - revert Hx. unfold ip4_x1_index, ip4_validate_x1. destruct (vnet_feature_next b) as [next b1].
    repeat split_if; intros [= <- <- <-]; auto.
  - revert Hx. unfold ip4_x1_index. destruct (ip4_validate_x1 b) as [[e' ?] ?].
    intros [= <- _ _]. destruct e'; by_compute.
Qed.

Lemma ip6_registered b :
  registered ip6_validate_reg (fst (vnet_feature_next b)) (validate_one ip6_x1_index ip6_trace_record b).
Proof.
  pose proof (validate_registered ip6_x1_index ip6_trace_record ip6_validate_reg b) as Hv.
  destruct (ip6_x1_index b) as [[e n] b'] eqn:Hx. apply Hv; [..|by_compute].
  - revert Hx. unfold ip6_x1_index, ip6_validate_x1. destruct (vnet_feature_next b) as [next b1].
    repeat split_if; intros [= <- <- <-]; auto.
  - revert Hx. unfold ip6_x1_index. destruct (ip6_validate_x1 b) as [[e' ?] ?].
    intros [= <- _ _]. destruct e'; by_compute.
Qed.

(** Close a goal about the outcome of a branch. *)
Local Ltac branch := split; [first [by left|right; by_compute]|by_compute].

Lemma capture_registered b :
  registered sonic_ext_capture_reg (fst (vnet_feature_next b)) (sonic_ext_capture_one b).
Proof. unfold sonic_ext_capture_one. destruct (vnet_feature_next b) as [next b']. branch. Qed.

Lemma aggr_registered sem E b :
  registered sonic_ext_aggr_tap_redirect_reg (fst (vnet_feature_next b))
    (sonic_ext_aggr_tap_redirect_one sem E b).
Proof.
  unfold sonic_ext_aggr_tap_redirect_one. destruct (vnet_feature_next b) as [next b'].
  do 3 (split_if; [branch|]). branch.
Qed.

Lemma glean_registered `{Throttle} sem E G src_nodes thread seed ts b :
  registered sonic_ext_glean_redirect_reg (fst (vnet_feature_next b))
    (snd (sonic_ext_glean_redirect_one sem E G src_nodes thread seed ts b)).
Proof.
  unfold sonic_ext_glean_redirect_one. destruct (vnet_feature_next b) as [next b'].
  do 4 (split_if; [branch|]). destruct (throttle_check _ _ _ _) as [ts' throttled].
  do 2 (split_if; [branch|]). branch.
Qed.

Lemma host_xc_registered sem E b :
  registered sonic_ext_host_xc_reg (fst (vnet_feature_next b)) (sonic_ext_host_xc_one sem E b).
Proof.
  unfold sonic_ext_host_xc_one. destruct (vnet_feature_next b) as [next b'].
  do 2 (split_if; [branch|]). branch.
Qed.

Lemma fixup_registered errors E b feature_next :
  registered sonic_ext_l2_trap_fixup_reg feature_next (sonic_ext_l2_trap_fixup_one errors E b).
Proof.
  unfold sonic_ext_l2_trap_fixup_one. split_if; (split; [right; by_compute|by_compute]).
Qed.

Lemma ip2me_registered I is_ip6 b :
  registered (sonic_ext_ip2me_reg is_ip6) (fst (vnet_feature_next b)) (sonic_ext_ip2me_one I is_ip6 b).
Proof.
  unfold sonic_ext_ip2me_one. split_if; [split; [right; by_compute|by_compute]|].
  destruct (vnet_feature_next b) as [next b']. split; [by left|by_compute].
Qed.

(** A redirect may use a next node VPP added to the node since. *)
Lemma tunterm_registered `{ClassifyLookup} tam cs n_next oob b :
  n_next_nodes tunterm_acl_reg <= n_next ->
  let o := tunterm_acl_one tam cs n_next oob b in
  o_next o < n_next /\ (o_err o < n_errors tunterm_acl_reg)%nat /\
  (o_err o <> TUNTERM_ACL_ERROR_REDIRECTED -> o_next o = TUNTERM_ACL_NEXT_VXLAN4_INPUT).
Proof.
  change (n_next_nodes tunterm_acl_reg) with 2. intros Hn. cbv zeta.
  unfold tunterm_acl_one, tunterm_lookup, TUNTERM_ACL_NEXT_VXLAN4_INPUT.
  destruct (inner_headers b) as [[et tagged] ip].
  assert (Hmin : forall k, (if k <? n_next then k else 1) < n_next)
    by (intros k; destruct (Z.ltb_spec k n_next); lia).
  repeat case_match; cbn; (split; [first [apply Hmin|lia]|]); (split; [by_compute|done]).
Qed.

Lemma bypass_registered `{!IpHeaders} `{Vxlan} is_ip4 c ip proto next b :
  let '(_, n, _) := bypass_process is_ip4 c ip proto next b in
  n = next \/ 0 <= n < n_next_nodes tunterm_acl_ip4_vxlan_bypass_reg.
Proof.
  unfold bypass_process. split_if; [by left|].
  destruct (find_tunnel _ _ _ _ _ _) as [di c1]. split_if; [by left|].
  destruct (vtep_check _ _ _ _ _) as [local c2]. split_if; [by left|].
  destruct (if negb _ then _ else _) as [good b1]. right. split_if; by_compute.
Qed.

End Facts.

(** ** Theorems *)

Section Theorems.
Context `{Vlib} `{ClassifyLookup} `{Throttle} `{!IpHeaders} `{Vxlan}.

(** C14.  Every next index and every counter is registered.  Whatever the packet and
    whatever VPP answers, each of the nodes hands a packet to the next node of its
    feature arc or to a next node of its own registration, and increments a counter
    its error table has: no enqueue and no counter increment is out of bounds.
    tunterm-acl also uses the next nodes VPP has added to it, and no others. *)
Theorem nodes_in_bounds b sem E G src_nodes thread seed ts errors I is_ip6 tam cs n_next oob
    is_ip4 c ip proto :
  let feature := fst (vnet_feature_next b) in
  registered ip4_validate_reg feature (validate_one ip4_x1_index ip4_trace_record b) /\
  registered ip6_validate_reg feature (validate_one ip6_x1_index ip6_trace_record b) /\
  registered sonic_ext_capture_reg feature (sonic_ext_capture_one b) /\
  registered sonic_ext_aggr_tap_redirect_reg feature (sonic_ext_aggr_tap_redirect_one sem E b) /\
  registered sonic_ext_glean_redirect_reg feature
    (snd (sonic_ext_glean_redirect_one sem E G src_nodes thread seed ts b)) /\
  registered sonic_ext_host_xc_reg feature (sonic_ext_host_xc_one sem E b) /\
  registered sonic_ext_l2_trap_fixup_reg feature (sonic_ext_l2_trap_fixup_one errors E b) /\
  registered (sonic_ext_ip2me_reg is_ip6) feature (sonic_ext_ip2me_one I is_ip6 b) /\
  (n_next_nodes tunterm_acl_reg <= n_next ->
     let o := tunterm_acl_one tam cs n_next oob b in
     o_next o < n_next /\ (o_err o < n_errors tunterm_acl_reg)%nat /\
     (o_err o <> TUNTERM_ACL_ERROR_REDIRECTED -> o_next o = TUNTERM_ACL_NEXT_VXLAN4_INPUT)) /\
  let '(_, next, _) := bypass_process is_ip4 c ip proto feature b in
  next = feature \/ 0 <= next < n_next_nodes tunterm_acl_ip4_vxlan_bypass_reg.
Proof.
  cbv zeta. refine (conj (ip4_registered b) (conj (ip6_registered b) (conj (capture_registered b)
    (conj (aggr_registered sem E b) (conj (glean_registered sem E G src_nodes thread seed ts b)
    (conj (host_xc_registered sem E b) (conj (fixup_registered errors E b _)
    (conj (ip2me_registered I is_ip6 b) (conj (tunterm_registered tam cs n_next oob b) _))))))))).
  apply bypass_registered.
Qed.

End Theorems.

(** What a feature on the arc asks for holds. *)
Lemma arc_placed l f :
  In f features -> arc_order (arc_name f) l = true ->
  (forall x, In x (runs_before f) -> ahead l (f_node_name f) x = true) /\
  (forall x, In x (runs_after f) -> ahead l x (f_node_name f) = true).
Proof.
  intros Hf Ho. unfold arc_order in Ho. rewrite forallb_forall in Ho. specialize (Ho f Hf).
  rewrite bool_decide_eq_true_2 in Ho by done. cbn [negb orb] in Ho. unfold feature_placed in Ho.
  apply andb_true_iff in Ho as [Hb Ha]. rewrite forallb_forall in Hb, Ha. done.
Qed.

(** ** Example *)

(** An arc whose cursor stays a [u32]. *)
Definition vlib_typed : Vlib := {|
  host := LE;
  VLIB_BUFFER_IS_TRACED := 1;
  VLIB_NODE_FLAG_TRACE := 4;
  vnet_feature_next_at := fun _ ci => (10, u32 (ci + 1));
  vlib_buffer_advance := fun b l =>
    set_current (i16 (current_data b + l)) (u16 (current_length b - l)) b;
  vlib_buffer_advance_spec := fun _ _ => eq_refl;
  ethernet_buffer_get_header := l2_hdr_offset;
  ethernet_buffer_get_header_spec := fun _ => eq_refl
|}.
