(* ===== verification/Traces.v ===== *)
(** * What the nodes write into packet traces

    The trace formatters of the node files ([format_..._trace]), on the records the
    nodes leave: an operator reads a packet's fate from these texts.  VPP's own
    address formatters are parameters.  [%d] of a [u32] prints it as a signed
    integer, [%04x] of a [u16] its four hexadecimal digits. *)

From stdpp Require Import strings pretty.
From Stdlib Require Import Ascii.
From S2P Require Import Prelude Vlib ValidateLoop Ip4Validate Ip6Validate SonicExt SonicCapture.
From S2P Require Import SonicAggr SonicGlean SonicNodes TuntermRedirect TuntermApi TuntermNode.
Import HostXc L2TrapFixup Ip2me.

Local Open Scope string_scope.

(** ** Conversions *)

Definition fmt_u (x : Z) : string := pretty x.
Definition fmt_d (x : Z) : string := pretty (i32 x).

Definition hex_digit (d : Z) : ascii :=
  default "0"%char (String.get (Z.to_nat d) "0123456789abcdef").

Definition fmt_04x (x : Z) : string :=
  String (hex_digit (x / 4096 mod 16)) (String (hex_digit (x / 256 mod 16))
    (String (hex_digit (x / 16 mod 16)) (String (hex_digit (x mod 16)) ""))).

(** ** The formatters *)

Section Formatters.
Variable format_ip4_address : Z -> string.
Variable format_ip6_address : list Z -> string.

Definition format_ip4_validate_trace (t : ip4_validate_trace_t) : string :=
  "IP4-VALIDATE: sw_if_index " +:+ fmt_d (t4_sw_if_index t) +:+ " next " +:+ fmt_d (t4_next_index t)
  +:+ " src " +:+ format_ip4_address (t4_src_addr t) +:+ " dst " +:+ format_ip4_address (t4_dst_addr t).

Definition format_ip6_validate_trace (t : ip6_validate_trace_t) : string :=
  "IP6-VALIDATE: sw_if_index " +:+ fmt_d (t6_sw_if_index t) +:+ " next " +:+ fmt_d (t6_next_index t)
  +:+ " src " +:+ format_ip6_address (t6_src_addr t) +:+ " dst " +:+ format_ip6_address (t6_dst_addr t).

End Formatters.

(** The record of the capture node is its one field. *)
Definition format_sonic_ext_capture_trace (sw_if_index : Z) : string :=
  "SONIC-EXT-CAPTURE: sw_if_index " +:+ fmt_d sw_if_index.

Definition format_sonic_ext_aggr_tap_redirect_trace (t : sonic_ext_aggr_tap_redirect_trace_t) : string :=
  "SONIC-EXT-AGGR-TAP-REDIRECT: aggr-tap " +:+ fmt_u (att_aggr_tap_sw_if_index t)
  +:+ " orig-rx " +:+ fmt_u (att_orig_rx_sw_if_index t)
  +:+ " member-tap " +:+ fmt_u (att_member_tap_sw_if_index t)
  +:+ (if c_true (att_pushed_tpid t)
       then " vlan-pushed vid " +:+ fmt_u (att_pushed_vlan_id t) +:+ " tpid 0x" +:+ fmt_04x (att_pushed_tpid t)
       else "")
  +:+ " " +:+ (if att_redirected t then "REDIRECTED" else "passthru").

Definition format_sonic_ext_glean_redirect_trace (t : sonic_ext_glean_redirect_trace_t) : string :=
  "SONIC-EXT-GLEAN-REDIRECT: orig-rx " +:+ fmt_u (gtt_orig_rx_sw_if_index t)
  +:+ " host-tap " +:+ fmt_u (gtt_host_tap_sw_if_index t) +:+ " vlan " +:+ fmt_u (gtt_pushed_vlan_id t)
  +:+ " " +:+ (if gtt_redirected t then "REDIRECTED" else "passthru").

Definition format_sonic_ext_host_xc_trace (t : sonic_ext_host_xc_trace_t) : string :=
  let mode := match xct_mode t with
    | SONIC_EXT_HOST_XC_MODE_DIRECT => "DIRECT->interface-output"
    | SONIC_EXT_HOST_XC_MODE_PASSTHRU => "passthru"
    end in
  "SONIC-EXT-HOST-XC: rx " +:+ fmt_u (xct_rx_sw_if_index t) +:+ " phy " +:+ fmt_u (xct_phy_sw_if_index t)
  +:+ " " +:+ mode.

Definition format_sonic_ext_l2_trap_fixup_trace (t : sonic_ext_l2_trap_fixup_trace_t) : string :=
  "SONIC-EXT-L2-TRAP-FIXUP: rx " +:+ fmt_u (fxt_rx_sw_if_index t)
  +:+ " -> punt_rx " +:+ fmt_u (fxt_punt_rx_sw_if_index t)
  +:+ " " +:+ (if fxt_dropped t then "DROPPED" else "PUNTED").

Definition format_sonic_ext_ip2me_trace (t : sonic_ext_ip2me_trace_t) : string :=
  "SONIC-EXT-IP2ME: " +:+ (if ipt_is_ip6 t then "ip6" else "ip4")
  +:+ " sw_if_index " +:+ fmt_u (ipt_sw_if_index t) +:+ " fib " +:+ fmt_u (ipt_fib_index t)
  +:+ " -> " +:+ (if ipt_is_ip2me t then "IP2ME (bypass ACL)" else "passthru (to ACL)").

Definition format_tunterm_acl_trace (t : tunterm_acl_trace_t) : string :=
  "TUNTERM: sw_if_index " +:+ fmt_d (tat_sw_if_index t) +:+ " next " +:+ fmt_d (tat_next_index t)
  +:+ " index " +:+ fmt_d (tat_index t).

(** ** Reading a text from its end *)

Fixpoint starts_with (w s : list ascii) : bool :=
  match w, s with
  | [], _ => true
  | c :: w, d :: s => bool_decide (c = d) && starts_with w s
  | _ :: _, [] => false
  end.

Definition ends_with (w s : string) : bool :=
  starts_with (reverse (String.list_ascii_of_string w)) (reverse (String.list_ascii_of_string s)).

Local Close Scope string_scope.

Lemma starts_with_app w l k : (length w <= length l)%nat -> starts_with w (l ++ k) = starts_with w l.
Proof.
  revert l; induction w as [|c w IH]; intros [|d l] Hlen; cbn in *; try done; try lia.
  by rewrite IH by lia.
Qed.

Lemma ascii_app s s' :
  String.list_ascii_of_string (s +:+ s') = String.list_ascii_of_string s ++ String.list_ascii_of_string s'.
Proof. induction s as [|c s IH]; [done|]. exact (f_equal (cons c) IH). Qed.

Lemma ascii_length s : length (String.list_ascii_of_string s) = String.length s.
Proof. induction s as [|c s IH]; [done|]. exact (f_equal S IH). Qed.

Lemma string_length_app s s' : String.length (s +:+ s') = (String.length s + String.length s')%nat.
Proof. by rewrite <- !ascii_length, ascii_app, length_app. Qed.

(** The end of a text is that of its last part, if the part is long enough. *)
Lemma ends_with_app w s s' :
  (String.length w <= String.length s')%nat -> ends_with w (s +:+ s') = ends_with w s'.
Proof.
  intros Hlen. unfold ends_with. rewrite ascii_app, reverse_app. apply starts_with_app.
  by rewrite !length_reverse, !ascii_length.
Qed.

(** Drops all but the last part of a text. *)
Ltac last_part := rewrite !ends_with_app by (rewrite ?string_length_app; cbn; lia).

(** The verdict at the end of a text, for a concrete error. *)
Ltac verdict := split; [case_decide as Hverdict; [try done|try done]; by last_part|try done].

(** ** The claims of a trace *)

Section Theorems.
Context `{Vlib} `{ClassifyLookup} `{Throttle}.

Lemma tunterm_lookup_trace cs n_next b tagged t off :
  let o := tunterm_lookup cs n_next b tagged t off in
  format_tunterm_acl_trace (o_trace o) =
    ("TUNTERM: sw_if_index " +:+ fmt_d (sw_if_index_rx b) +:+ " next " +:+ fmt_d (o_next o)
     +:+ " index " +:+ fmt_d (adj_index_tx (o_buf o)))%string.
Proof.
  cbv zeta. unfold tunterm_lookup. split_if; [done|].
  destruct (classify_find _ _ _) as [[[|] [nx md]]|]; [|done..]. destruct tagged; by rewrite !vlib_buffer_advance_spec.
Qed.

(** A trace does not lie.  Whatever the packet and the state, the text of its
    trace ends in the verdict that was counted: REDIRECTED or passthru for the two
    redirect nodes, DIRECT->interface-output or passthru for host-xc, PUNTED or
    DROPPED for the trap fixup, IP2ME or passthru for ip2me; the tap or port shown
    with REDIRECTED or DIRECT is the TX interface the packet leaves with, the
    parent shown by the fixup is its new RX interface, and tunterm-acl shows the
    next index and the DPO the packet is handed over with. *)
Theorem traces_truthful sem E :
  (forall b, let o := sonic_ext_aggr_tap_redirect_one sem E b in
     let redirected := decide (o_err o = SONIC_EXT_AGGR_TAP_REDIRECT_ERROR_REDIRECTED) in
     ends_with (if redirected then "REDIRECTED" else "passthru")
       (format_sonic_ext_aggr_tap_redirect_trace (o_trace o)) = true /\
     (o_err o = SONIC_EXT_AGGR_TAP_REDIRECT_ERROR_REDIRECTED ->
      exists vlan, format_sonic_ext_aggr_tap_redirect_trace (o_trace o) =
        ("SONIC-EXT-AGGR-TAP-REDIRECT: aggr-tap " +:+ fmt_u (sw_if_index_tx b)
         +:+ " orig-rx " +:+ fmt_u (orig_rx_sw_if_index (seb b))
         +:+ " member-tap " +:+ fmt_u (sw_if_index_tx (o_buf o)) +:+ vlan +:+ " REDIRECTED")%string)) /\
  (forall G src_nodes thread seed ts b,
     let o := snd (sonic_ext_glean_redirect_one sem E G src_nodes thread seed ts b) in
     let redirected := decide (o_err o = SONIC_EXT_GLEAN_REDIRECT_ERROR_REDIRECTED) in
     ends_with (if redirected then "REDIRECTED" else "passthru")
       (format_sonic_ext_glean_redirect_trace (o_trace o)) = true /\
     (o_err o = SONIC_EXT_GLEAN_REDIRECT_ERROR_REDIRECTED ->
      exists vid, format_sonic_ext_glean_redirect_trace (o_trace o) =
        ("SONIC-EXT-GLEAN-REDIRECT: orig-rx " +:+ fmt_u (orig_rx_sw_if_index (seb b))
         +:+ " host-tap " +:+ fmt_u (sw_if_index_tx (o_buf o)) +:+ " vlan " +:+ fmt_u vid
         +:+ " REDIRECTED")%string)) /\
  (forall b, let o := sonic_ext_host_xc_one sem E b in
     format_sonic_ext_host_xc_trace (o_trace o) =
       ("SONIC-EXT-HOST-XC: rx " +:+ fmt_u (sw_if_index_rx b) +:+ " phy " +:+
        if decide (o_err o = SONIC_EXT_HOST_XC_ERROR_DIRECT)
        then fmt_u (sw_if_index_tx (o_buf o)) +:+ " DIRECT->interface-output"
        else "4294967295 passthru")%string) /\
  (forall errors b, let o := sonic_ext_l2_trap_fixup_one errors E b in
     format_sonic_ext_l2_trap_fixup_trace (o_trace o) =
       ("SONIC-EXT-L2-TRAP-FIXUP: rx " +:+ fmt_u (sw_if_index_rx b) +:+ " -> punt_rx " +:+
        if decide (o_next o = SONIC_EXT_L2_TRAP_FIXUP_NEXT_PUNT)
        then fmt_u (sw_if_index_rx (o_buf o)) +:+ " PUNTED"
        else "4294967295 DROPPED")%string) /\
  (forall I is_ip6 b, let o := sonic_ext_ip2me_one I is_ip6 b in
     ends_with (if decide (o_err o = SONIC_EXT_IP2ME_ERROR_HIT) then "IP2ME (bypass ACL)"
                else "passthru (to ACL)") (format_sonic_ext_ip2me_trace (o_trace o)) = true) /\
  (forall tam cs n_next oob b, let o := tunterm_acl_one tam cs n_next oob b in
     format_tunterm_acl_trace (o_trace o) =
       ("TUNTERM: sw_if_index " +:+ fmt_d (sw_if_index_rx b) +:+ " next " +:+ fmt_d (o_next o)
        +:+ " index " +:+ fmt_d (adj_index_tx (o_buf o)))%string).
Proof.
  split_and!.
  - intros b. cbv zeta. unfold sonic_ext_aggr_tap_redirect_one.
    destruct (feature_next_same b) as (_ & _ & Hs & _). destruct (vnet_feature_next b) as [n b'].
    cbn [snd] in Hs. rewrite <- Hs. unfold format_sonic_ext_aggr_tap_redirect_trace.
    destruct (punt_via_member sem), (has_cookie b'); cbn [negb o_err o_trace]; [|verdict..].
    pose proof (redirect_buf E b' (orig_rx_sw_if_index (seb b')) (sw_if_index_tx b)) as Hr.
    cbv zeta in Hr. destruct (rr_done _); cbn [negb snd o_err o_trace o_buf]; [|verdict].
    verdict. rewrite Hr by done. intros _. eexists. reflexivity.
  - intros G src_nodes thread seed ts b. cbv zeta. unfold sonic_ext_glean_redirect_one.
    destruct (feature_next_same b) as (_ & _ & Hs & _). destruct (vnet_feature_next b) as [n b'].
    cbn [snd] in Hs. rewrite <- Hs. unfold format_sonic_ext_glean_redirect_trace.
    destruct (punt_via_member sem), (sonic_ext_glean_from_nbr_node G src_nodes b'),
      (sonic_ext_glean_should_redirect G E (adj_index_tx b)), (has_cookie b');
      cbn [negb snd o_err o_trace]; [|verdict..].
    destruct (throttle_check _ _ _ _) as [ts' [|]]; cbn [snd o_err o_trace]; [verdict|].
    pose proof (redirect_buf E b' (orig_rx_sw_if_index (seb b')) U32_MAX) as Hr.
    cbv zeta in Hr. destruct (rr_done _); cbn [negb snd o_err o_trace o_buf]; [|verdict].
    verdict. rewrite Hr by done. intros _. eexists. reflexivity.
  - intros b. cbv zeta. unfold sonic_ext_host_xc_one. destruct (vnet_feature_next b) as [n b'].
    do 2 (split_if; [reflexivity|]). reflexivity.
  - intros errors b. cbv zeta. unfold sonic_ext_l2_trap_fixup_one.
    destruct (Z.eqb_spec (sonic_ext_l2_trap_fixup_lookup_parent E (sw_if_index_rx b)) U32_MAX) as [Hp|];
      [|reflexivity]. cbn. unfold format_sonic_ext_l2_trap_fixup_trace. cbn. by rewrite Hp.
  - intros I is_ip6 b. cbv zeta. unfold sonic_ext_ip2me_one. destruct (vnet_feature_next b) as [n b'].
    unfold format_sonic_ext_ip2me_trace.
    destruct (if is_ip6 then _ else _); cbn [o_err o_trace ipt_is_ip2me];
      case_decide as Hverdict; (done || by last_part).
  - intros tam cs n_next oob b. cbv zeta. unfold tunterm_acl_one.
    destruct (inner_headers b) as [[ethertype tagged] off].
    repeat split_if; try done; apply tunterm_lookup_trace.
Qed.

End Theorems.
