(* ===== verification/ValidatePath.v ===== *)
(** * What reaches the lookup

    ip_validate end to end: the interface callback of ip_validate.c turns the two
    validations on, VPP puts them on the unicast arcs in some order that meets the
    registrations ([NodeGraph]), and an arc hands a packet from feature to feature until
    one takes it off the arc or the lookup node is reached.  Features of others are a
    parameter.  And what happens with the VXLAN bypass of tunterm_acl on the same arc. *)

From S2P Require Import Prelude Vlib Feature ValidateLoop Ip4Validate Ip6Validate IpValidateCtl NodeGraph.
From S2P Require Import TuntermDecap TuntermPath.

(** ** Arcs *)

Section Arc.

(** A feature passes the packet on, or takes it off the arc ([None]). *)
Variable run : string -> vlib_buffer_t -> option vlib_buffer_t.
Variable enabled : string -> bool.
Variable lookup_node : string.

(** The features of an arc in their order; the arc ends with the lookup node. *)
Fixpoint arc_run (l : list string) (b : vlib_buffer_t) : option vlib_buffer_t :=
  match l with
  | [] => None
  | f :: l =>
      if decide (f = lookup_node) then Some b
      else if enabled f then b ← run f b; arc_run l b
      else arc_run l b
  end.

End Arc.

Section Validation.
Context `{Vlib} `{VnetFeature}.
(** The features of VPP and of other plugins. *)
Variable other : string -> vlib_buffer_t -> option vlib_buffer_t.

Definition ip4_unicast_run (f : string) (b : vlib_buffer_t) : option vlib_buffer_t :=
  if decide (f = "ip4-validate"%string) then
    let '(_, next, b') := ip4_validate_x1 b in
    if next =? IP4_VALIDATE_NEXT_DROP then None else Some b'
  else other f b.

Definition ip6_unicast_run (f : string) (b : vlib_buffer_t) : option vlib_buffer_t :=
  if decide (f = "ip6-validate"%string) then
    let '(_, next, b') := ip6_validate_x1 b in
    if next =? IP6_VALIDATE_NEXT_DROP then None else Some b'
  else other f b.

(** A packet of interface [sw] on the two arcs. *)
Definition ip4_unicast (fs : fstate) (sw : Z) (l : list string) (b : vlib_buffer_t) : option vlib_buffer_t :=
  arc_run ip4_unicast_run (fun f => vnet_feature_is_enabled fs ("ip4-unicast", f, sw)%string) "ip4-lookup" l b.
Definition ip6_unicast (fs : fstate) (sw : Z) (l : list string) (b : vlib_buffer_t) : option vlib_buffer_t :=
  arc_run ip6_unicast_run (fun f => vnet_feature_is_enabled fs ("ip6-unicast", f, sw)%string) "ip6-lookup" l b.

End Validation.

(** *** The two plugins' features on ip4-unicast *)

Inductive ip4_exit := To_ip4_lookup | To_tunterm_acl | Dropped.

(** A packet through ip4-validate and the VXLAN bypass, both enabled, in the order [l]. *)
Fixpoint ip4_plugins `{Vlib} `{!IpHeaders} `{Vxlan} (l : list string) (b : vlib_buffer_t) : ip4_exit :=
  match l with
  | [] => Dropped
  | f :: l =>
      if decide (f = "ip4-lookup"%string) then To_ip4_lookup
      else if decide (f = "ip4-validate"%string) then
        let '(_, next, b') := ip4_validate_x1 b in
        if next =? IP4_VALIDATE_NEXT_DROP then Dropped else ip4_plugins l b'
      else if decide (f = "tunterm-ip4-vxlan-bypass"%string) then
        let '(next, b1) := vnet_feature_next b in
        let '(_, next0, b') := bypass_process true caches_init (current_data b)
          (bypass_proto true (data b1) (current_data b)) next b1 in
        if next0 =? IP_VXLAN_BYPASS_NEXT_TUNTERM then To_tunterm_acl
        else if next0 =? IP_VXLAN_BYPASS_NEXT_DROP then Dropped else ip4_plugins l b'
      else ip4_plugins l b
  end.

(** The same packet, as far as the validations look. *)
Definition same_packet (b b' : vlib_buffer_t) : Prop :=
  data b' = data b /\ current_data b' = current_data b /\ l2_hdr_offset b' = l2_hdr_offset b.

#[export] Instance same_packet_equivalence : Equivalence same_packet.
Proof.
  split; unfold same_packet; [done|intros ?? (?&?&?)|intros ??? (?&?&?) (?&?&?)]; split_and!; congruence.
Qed.

(** What FEATURE.yaml lets through, IPv4 and IPv6. *)
Definition ip4_permitted (b : vlib_buffer_t) : Prop :=
  Exists (in_block (wire_dst b)) ip4_dst_not_unicast \/
  (Z.odd (l2_dst_octet b) = false /\
   Forall (fun blk => ~ in_block (wire_src b) blk) ip4_src_blocked /\
   Forall (fun blk => ~ in_block (wire_dst b) blk) ip4_dst_blocked).

Definition ip6_permitted (b : vlib_buffer_t) : Prop :=
  ip6_multicast (ip6_dst_address b) \/
  (Z.odd (l2_dst_octet b) = false /\ ~ ip6_multicast (ip6_src_address b) /\
   Forall (fun a => ip6_src_address b <> a /\ ip6_dst_address b <> a) [ip6_unspecified; ip6_loopback]).

(** ** Lemmas *)

Lemma ahead_cons f l a b : f <> a -> f <> b -> ahead (f :: l) a b = ahead l a b.
Proof.
  intros Ha Hb. unfold ahead. cbn. rewrite !decide_False by congruence.
  by destruct (list_find (eq a) l) as [[i ?]|], (list_find (eq b) l) as [[j ?]|].
Qed.

Lemma ahead_head l a b : a <> b -> a ∈ l -> ahead (b :: l) a b = false.
Proof.
  intros Hne Ha. unfold ahead. cbn. rewrite decide_False, decide_True by done.
  destruct (list_find_elem_of (eq a) l a Ha eq_refl) as [[i x] ->]. done.
Qed.

Section ArcFacts.
Variable run : string -> vlib_buffer_t -> option vlib_buffer_t.
Variable enabled : string -> bool.
Variables (v lk : string) (ok : vlib_buffer_t -> Prop).
Hypothesis run_same : forall f b b', run f b = Some b' -> same_packet b b'.
Hypothesis run_ok : forall b b', buffer_ok b -> run v b = Some b' -> ok b.
Hypothesis ok_same : forall b b', same_packet b b' -> ok b' <-> ok b.
Hypothesis v_on : enabled v = true.
Hypothesis v_ne : v <> lk.

Lemma same_packet_ok b b' : same_packet b b' -> buffer_ok b -> buffer_ok b'.
Proof. intros (Hd & _) Hb. unfold buffer_ok in *. by rewrite Hd. Qed.

Lemma arc_run_same l b b' : arc_run run enabled lk l b = Some b' -> same_packet b b'.
Proof using run_same.
  revert b; induction l as [|f l IH]; intros b Hrun; [done|]. cbn in Hrun.
  case_decide; [by simplify_eq|]. destruct (enabled f); [|by apply IH].
  apply bind_Some in Hrun as (b1 & H1 & Hrun). etrans; [by eapply run_same|by apply IH].
Qed.

(** A packet every enabled feature passes on reaches the lookup. *)
Lemma arc_run_reaches l b :
  lk ∈ l -> buffer_ok b -> ok b ->
  (forall f b, f <> v -> is_Some (run f b)) -> (forall b, buffer_ok b -> ok b -> is_Some (run v b)) ->
  is_Some (arc_run run enabled lk l b).
Proof using run_same ok_same.
  intros Hlk Hb Hok Hpass Hpassv. revert b Hb Hok; induction l as [|f l IH]; intros b Hb Hok.
  - by apply elem_of_nil in Hlk.
  - cbn. case_decide as Hf; [by eexists|]. assert (Hl : lk ∈ l) by (apply elem_of_cons in Hlk; clear -Hlk Hf; naive_solver).
    destruct (enabled f); [|by apply IH].
    assert (is_Some (run f b)) as [b1 H1] by (destruct (decide (f = v)) as [->|]; auto).
    rewrite H1. cbn. pose proof (run_same _ _ _ H1) as Hs.
    apply IH; [done|by eapply same_packet_ok|by eapply ok_same].
Qed.

(** With the validation ahead of the lookup, what reaches the lookup is valid. *)
Lemma arc_run_ok l b b' :
  v ∈ l -> ahead l v lk = true -> buffer_ok b -> arc_run run enabled lk l b = Some b' -> ok b.
Proof using run_same run_ok ok_same v_on v_ne.
  revert b; induction l as [|f l IH]; intros b Hv Hah Hb Hrun; [done|]. cbn in Hrun.
  apply elem_of_cons in Hv as Hv'.
  destruct (decide (f = lk)) as [->|Hf].
  - destruct Hv' as [?|Hv']; [done|]. rewrite ahead_head in Hah; done.
  - destruct (decide (f = v)) as [->|Hfv].
    + rewrite v_on in Hrun. apply bind_Some in Hrun as (b1 & H1 & _). by eapply run_ok.
    + assert (Hvl : v ∈ l) by (by destruct Hv'). rewrite ahead_cons in Hah by done.
      destruct (enabled f); [|by apply IH]. apply bind_Some in Hrun as (b1 & H1 & Hrun).
      pose proof (run_same _ _ _ H1) as Hs. eapply ok_same; [done|].
      by apply IH; [..|eapply same_packet_ok|].
Qed.

End ArcFacts.

Section Permitted.
Context `{Vlib}.

Lemma ip4_permitted_same b b' : same_packet b b' -> ip4_permitted b' <-> ip4_permitted b.
Proof.
  intros (Hd & Hc & Hl). unfold ip4_permitted, l2_dst_octet, wire_dst, wire_src, cur_byte.
  by rewrite Hd, Hc, Hl.
Qed.

Lemma ip6_permitted_same b b' : same_packet b b' -> ip6_permitted b' <-> ip6_permitted b.
Proof.
  intros (Hd & Hc & Hl).
  unfold ip6_permitted, l2_dst_octet, ip6_dst_address, ip6_src_address, cur_bytes.
  by rewrite Hd, Hc, Hl.
Qed.

Lemma ip6_verdict_permitted b :
  ip6_wire_verdict b = IP6_VALIDATE_ERROR_VALID <-> ip6_permitted b.
Proof.
  unfold ip6_permitted, ip6_wire_verdict, ip6_verdict, l2_dst_octet.
  rewrite !Forall_cons, Forall_nil. repeat case_decide; destruct (Z.odd _); intuition congruence.
Qed.

Lemma feature_next_packet b : same_packet b (snd (vnet_feature_next b)).
Proof. unfold vnet_feature_next. by destruct (vnet_feature_next_at _ _). Qed.

Variable other : string -> vlib_buffer_t -> option vlib_buffer_t.
Hypothesis other_same : forall f b b', other f b = Some b' -> same_packet b b'.

Lemma ip4_run_same f b b' : ip4_unicast_run other f b = Some b' -> same_packet b b'.
Proof using other_same.
  unfold ip4_unicast_run. case_decide; [|apply other_same].
  pose proof (ip4_x1_buffer b) as Hb. destruct (ip4_validate_x1 b) as [[e n] b1]. cbn in Hb.
  case_match; intros; simplify_eq. apply feature_next_packet.
Qed.

Lemma ip6_run_same f b b' : ip6_unicast_run other f b = Some b' -> same_packet b b'.
Proof using other_same.
  unfold ip6_unicast_run. case_decide; [|apply other_same].
  pose proof (ip6_x1_buffer b) as Hb. destruct (ip6_validate_x1 b) as [[e n] b1]. cbn in Hb.
  case_match; intros; simplify_eq. apply feature_next_packet.
Qed.

Lemma ip4_run_ok b b' :
  buffer_ok b -> ip4_unicast_run other "ip4-validate" b = Some b' -> ip4_permitted b.
Proof.
  intros Hb Hr. apply verdict_valid_blocks; [done|]. unfold ip4_unicast_run in Hr.
  rewrite decide_True, ip4_x1_verdict in Hr by done. by destruct (wire_verdict b).
Qed.

Lemma ip6_run_ok b b' :
  buffer_ok b -> ip6_unicast_run other "ip6-validate" b = Some b' -> ip6_permitted b.
Proof.
  intros Hb Hr. apply ip6_verdict_permitted. unfold ip6_unicast_run in Hr.
  rewrite decide_True, ip6_x1_verdict in Hr by done. by destruct (ip6_wire_verdict b).
Qed.

Lemma ip4_run_passes b :
  u16 (fst (vnet_feature_next b)) <> IP4_VALIDATE_NEXT_DROP ->
  buffer_ok b -> ip4_permitted b -> is_Some (ip4_unicast_run other "ip4-validate" b).
Proof.
  intros Hn Hb Hp%verdict_valid_blocks; [|done]. unfold ip4_unicast_run.
  rewrite decide_True, ip4_x1_verdict, Hp by done. cbn [ip4_next].
  apply Z.eqb_neq in Hn. rewrite Hn. by eexists.
Qed.

Lemma ip6_run_passes b :
  u16 (fst (vnet_feature_next b)) <> IP6_VALIDATE_NEXT_DROP ->
  buffer_ok b -> ip6_permitted b -> is_Some (ip6_unicast_run other "ip6-validate" b).
Proof.
  intros Hn Hb Hp%ip6_verdict_permitted. unfold ip6_unicast_run.
  rewrite decide_True, ip6_x1_verdict, Hp by done. cbn [ip6_next].
  apply Z.eqb_neq in Hn. rewrite Hn. by eexists.
Qed.

End Permitted.

Section Bypass.
Context `{Vlib} `{!IpHeaders} `{Vxlan}.
Hypothesis no_ones_tunnel : vxlan4_tunnel_by_key (U64_MAX, U64_MAX) = None.

(** The verdict of the bypass does not depend on the arc cursor. *)
Lemma verdict_cursor b : bypass_verdict (snd (vnet_feature_next b)) = bypass_verdict b.
Proof using Type.
  clear no_ones_tunnel. unfold vnet_feature_next. destruct (vnet_feature_next_at _ _) as [n ci]. cbn [snd].
  unfold bypass_verdict, checksum_ok. by rewrite validate_checksum_cursor.
Qed.

(** A packet for a local tunnel leaves the arc at the bypass, whatever follows there. *)
Lemma bypass_takes l b :
  buffer_ok b -> buffer_fib b <> U32_MAX -> bypass_verdict b = Tunterm ->
  ip4_plugins ("tunterm-ip4-vxlan-bypass"%string :: l) b = To_tunterm_acl.
Proof using no_ones_tunnel.
  intros Hb Hfib Hv. cbn [ip4_plugins]. rewrite !decide_False, decide_True by done.
  pose proof (bypass_process_ok no_ones_tunnel caches_init b caches_ok_init Hb Hfib) as Hp.
  destruct (vnet_feature_next b) as [next b1]. destruct Hp as (c' & b' & -> & _).
  unfold verdict_next. by rewrite Hv.
Qed.

End Bypass.

(** ** Properties *)

(** C5.  Only validated packets reach the route lookup.  Interfaces come and go, the
    callback of ip_validate.c turns the validations on and off with them, VPP orders
    the features of the two unicast arcs in any way their registrations allow, and the
    other features of the arcs do what they like but leave the packet alone.  Then on
    every interface that exists, every packet that reaches ip4-lookup or ip6-lookup is
    one FEATURE.yaml permits and is unchanged; and when the other features pass it on,
    every permitted packet does get there. *)
Theorem lookup_only_validated `{Vlib} `{VnetFeature}
    (other : string -> vlib_buffer_t -> option vlib_buffer_t)
    (Hother : forall f b b', other f b = Some b' -> same_packet b b')
    (Hown : forall sw, shared_config "ip4-unicast"%string sw = false /\
                       shared_config "ip6-unicast"%string sw = false)
    (Hok : forall st k en, snd (vnet_feature_enable_disable st k en) = 0)
    (Hnext : forall b, u16 (fst (vnet_feature_next b)) <> IP4_VALIDATE_NEXT_DROP)
    (st : fstate) (live : gset Z) (evs : list if_event) (sw : Z)
    (Hv : validates st live) (Hsw : sw ∈ live_after live evs) (b : vlib_buffer_t) (Hb : buffer_ok b) :
  let fs := ip_validate_events st evs in
  (forall l, arc_order "ip4-unicast" l = true -> "ip4-validate"%string ∈ l ->
     (forall b', ip4_unicast other fs sw l b = Some b' -> ip4_permitted b /\ same_packet b b') /\
     ("ip4-lookup"%string ∈ l -> (forall f b, is_Some (other f b)) ->
      ip4_permitted b -> is_Some (ip4_unicast other fs sw l b))) /\
  (forall l, arc_order "ip6-unicast" l = true -> "ip6-validate"%string ∈ l ->
     (forall b', ip6_unicast other fs sw l b = Some b' -> ip6_permitted b /\ same_packet b b') /\
     ("ip6-lookup"%string ∈ l -> (forall f b, is_Some (other f b)) ->
      ip6_permitted b -> is_Some (ip6_unicast other fs sw l b))).
Proof.
  cbv zeta. destruct (validates_events Hown st live evs Hok Hv sw) as [H4 H6].
  rewrite bool_decide_eq_true_2 in H4, H6 by done. unfold ip4_unicast, ip6_unicast.
  split; intros l Ho Hin.
  - assert (Hah : ahead l "ip4-validate" "ip4-lookup" = true)
      by (apply (arc_placed l ip4_validate_feat); [cbn; tauto|done|by left]).
    split; [intros b' Hr; split|intros Hlk Hpass Hp].
    + eapply (arc_run_ok (ip4_unicast_run other)) with (v := "ip4-validate"%string) (lk := "ip4-lookup"%string);
        eauto using ip4_permitted_same; [by apply ip4_run_same|apply ip4_run_ok|done].
    + eapply arc_run_same; [|done]. by apply ip4_run_same.
    + eapply arc_run_reaches with (v := "ip4-validate"%string) (ok := ip4_permitted);
        eauto using ip4_run_passes, ip4_permitted_same; [by apply ip4_run_same|].
      intros f b0 Hf. unfold ip4_unicast_run. by rewrite decide_False.
  - assert (Hah : ahead l "ip6-validate" "ip6-lookup" = true)
      by (apply (arc_placed l ip6_validate_feat); [cbn; tauto|done|by left]).
    split; [intros b' Hr; split|intros Hlk Hpass Hp].
    + eapply (arc_run_ok (ip6_unicast_run other)) with (v := "ip6-validate"%string) (lk := "ip6-lookup"%string);
        eauto using ip6_permitted_same; [by apply ip6_run_same|apply ip6_run_ok|done].
    + eapply arc_run_same; [|done]. by apply ip6_run_same.
    + eapply arc_run_reaches with (v := "ip6-validate"%string) (ok := ip6_permitted);
        eauto using ip6_run_passes, ip6_permitted_same; [by apply ip6_run_same|].
      intros f b0 Hf. unfold ip6_unicast_run. by rewrite decide_False.
Qed.

(** C30.  Nothing orders ip4-validate and the VXLAN bypass, and it matters.  The
    registrations allow both orders on ip4-unicast.  With the bypass first, a VXLAN
    packet for a local tunnel is handed to tunterm-acl whatever its outer addresses,
    also when FEATURE.yaml says to drop it; with the validation first it is handed over
    exactly when its outer header is one FEATURE.yaml permits.  (The arc's next node
    must not be the index 0, and no tunnel has the all-ones key.) *)
Theorem bypass_precedes_validation `{Vlib} `{!IpHeaders} `{Vxlan} b
    (no_ones_tunnel : vxlan4_tunnel_by_key (U64_MAX, U64_MAX) = None)
    (Hnext : u16 (fst (vnet_feature_next b)) <> IP4_VALIDATE_NEXT_DROP)
    (Hb : buffer_ok b) (Hfib : buffer_fib b <> U32_MAX) (Hv : bypass_verdict b = Tunterm) :
  let bypass_first := ["tunterm-ip4-vxlan-bypass"; "ip4-validate"; "ip4-lookup"]%string in
  let validate_first := ["ip4-validate"; "tunterm-ip4-vxlan-bypass"; "ip4-lookup"]%string in
  arc_order "ip4-unicast" bypass_first = true /\ arc_order "ip4-unicast" validate_first = true /\
  ip4_plugins bypass_first b = To_tunterm_acl /\
  (ip4_plugins validate_first b = To_tunterm_acl <-> ip4_permitted b).
Proof.
  cbv zeta. split_and!; [vm_compute; reflexivity|vm_compute; reflexivity|by apply bypass_takes|].
  unfold ip4_permitted. rewrite <- verdict_valid_blocks by done.
  cbn [ip4_plugins]. rewrite decide_False, decide_True, ip4_x1_verdict by done.
  set (b1 := snd (vnet_feature_next b)).
  assert (Hgo : ip4_plugins ["tunterm-ip4-vxlan-bypass"; "ip4-lookup"]%string b1 = To_tunterm_acl).
  { destruct (feature_next_packet b) as (Hd & _). apply bypass_takes; [done|..].
    - unfold buffer_ok, b1. by rewrite Hd.
    - unfold b1, vnet_feature_next. by destruct (vnet_feature_next_at _ _).
    - unfold b1. by rewrite verdict_cursor. }
  destruct (wire_verdict b); try (split; [|done]; intros Hx; exfalso; revert Hx; vm_compute; done).
  cbn [ip4_next]. rewrite (proj2 (Z.eqb_neq _ _) Hnext). split; [done|]. intros _. exact Hgo.
Qed.

(** ** Witnesses *)

(** The tunnel's packet in a frame to a multicast MAC address: dropped or terminated,
    by the order. *)
Definition ex_l2_multicast_packet : vlib_buffer_t :=
  set_data (wr_bytes (data (ex_tunnel_packet [])) 0 [1]) (ex_tunnel_packet []).

Lemma bypass_precedes_validation_witness :
  @ip4_plugins vlib_ref ip_headers_ref vxlan_ref
    ["tunterm-ip4-vxlan-bypass"; "ip4-validate"; "ip4-lookup"]%string ex_l2_multicast_packet = To_tunterm_acl /\
  @ip4_plugins vlib_ref ip_headers_ref vxlan_ref
    ["ip4-validate"; "tunterm-ip4-vxlan-bypass"; "ip4-lookup"]%string ex_l2_multicast_packet <> To_tunterm_acl.
Proof.
  assert (Hok : buffer_ok ex_l2_multicast_packet)
    by (apply mem_ok_wr; [apply (ex_tunnel_ok []); by_compute|by_compute]).
  destruct (@bypass_precedes_validation vlib_ref ip_headers_ref vxlan_ref ex_l2_multicast_packet) as (_ & _ & Hf & Hs).
  - vm_compute. reflexivity.
  - vm_compute. discriminate.
  - exact Hok.
  - vm_compute. discriminate.
  - vm_compute. reflexivity.
  - split; [exact Hf|]. rewrite Hs. intros Hp. apply verdict_valid_blocks in Hp; [|exact Hok].
    vm_compute in Hp. discriminate.
Defined.

(** Interface 1 is created; a frame from 10.0.0.1 to 127.0.0.1 does not reach the
    lookup, behind another feature and the validation. *)
Lemma lookup_only_validated_witness :
  @ip4_unicast vlib_typed feature_ref_total (fun _ b => Some b)
    (@ip_validate_events feature_ref_total ∅ [IfAdd 1]) 1
    ["acl-plugin-in-ip4-fa"; "ip4-validate"; "ip4-lookup"]%string ip4_loopback_dst_frame = None.
Proof.
  assert (Hown : forall sw, @shared_config feature_ref_total "ip4-unicast"%string sw = false /\
                            @shared_config feature_ref_total "ip6-unicast"%string sw = false) by done.
  assert (Hok : forall st k en, snd (@vnet_feature_enable_disable feature_ref_total st k en) = 0)
    by (by intros ?? []).
  assert (Hnext : forall b, u16 (fst (@vnet_feature_next vlib_typed b)) <> IP4_VALIDATE_NEXT_DROP)
    by (intros b; vm_compute; discriminate).
  assert (Hv : @validates feature_ref_total ∅ ∅) by (intros sw; split; vm_compute; reflexivity).
  assert (Hsw : 1 ∈ live_after ∅ [IfAdd 1]) by (cbn; set_solver).
  destruct (@lookup_only_validated vlib_typed feature_ref_total (fun _ b => Some b)
    ltac:(intros f b b1 [= <-]; done) Hown Hok Hnext ∅ ∅ [IfAdd 1] 1 Hv Hsw
    ip4_loopback_dst_frame ip4_loopback_dst_frame_ok) as [H4 _].
  destruct (H4 ["acl-plugin-in-ip4-fa"; "ip4-validate"; "ip4-lookup"]%string) as [Hval _];
    [vm_compute; reflexivity|by right; left|].
  apply eq_None_not_Some. intros [b' Hr].
  destruct (Hval _ Hr) as [Hp _]. apply (@verdict_valid_blocks) in Hp; [|apply ip4_loopback_dst_frame_ok].
  vm_compute in Hp. discriminate.
Defined.
